(* ===== verification/_CoqProject ===== *)
-Q . S2P
Prelude.v
Errors.v
Monad.v
Version.v
Paths.v
Log.v
Config.v
Server.v
EotsConfig.v
Types.v
Kvdb.v
SampleEnv.v
FpStore.v
PubRandStore.v
Metrics.v
EotsManager.v
EotsRpc.v
Eotsd.v
ClientController.v
Babylon.v
BabylonStaking.v
Poller.v
FpState.v
FpStateLock.v
Returns.v
Voting.v
FastSync.v
FpInstance.v
FpManager.v
FpThreads.v
FpRemoval.v
FpSequential.v
FpSchedule.v
ChainKeyring.v
App.v
AppLoops.v
AppTickers.v
FpdRpc.v
AppStart.v
FpdCmd.v
FpdStart.v
FpdTx.v
SampleChain.v
SampleDaemon.v
Examples.v
DaemonExamples.v
ThreadExamples.v
