(* ===== verification/Prelude.v ===== *)
(** * Verification of the finality provider

    The program is a pair of daemons of the Babylon network. The finality
    provider daemon [fpd] polls a consumer chain, votes for its blocks with
    extractable one-time signatures (EOTS), and commits in advance the public
    randomness that each vote uses; signing two different messages for one
    height reveals the signing key. The EOTS daemon [eotsd] holds the keys. An
    operator drives both from their command lines.

    ** The parts and the files that model them

    Shared:
    - [Prelude] (this file): bytes, machine integers, maps and lists.
    - [Errors]: error values, wrapping, [errors.Is], expected and
      unrecoverable errors (src/clientcontroller/retry_utils.go and the error
      files).
    - [Monad]: the state and error monad [M S A] of the model, [defer],
      attempts, retries, frame reasoning and its automation. An outcome is
      [Ok], [Err], [Fatal] (a panic or a fatal log entry, which end the
      process) or [OutOfFuel].
    - [Types]: the structs the components exchange; the classes [Crypto] and
      [Codec] with their laws.
    - [Version], [Paths], [Log]: src/version/version.go, src/util/path.go with
      the parts of filepath and os it uses, src/log/log.go.

    Storage:
    - [Kvdb]: the key-value database (lnd kvdb over bbolt) as an interface with
      laws for a disk that may fail, stronger laws for one that does not, and
      an instance.
    - [FpStore]: src/finality-provider/store/fpstore.go, storedfp.go and the
      helpers of src/finality-provider/proto/finality_providers.go.
    - [PubRandStore]: src/finality-provider/store/pub_rand.go.
    - [Metrics]: src/metrics/fp_collectors.go and eots_collectors.go.

    The EOTS daemon:
    - [EotsManager]: src/eotsmanager (eotsmanager.go, localmanager.go,
      randgenerator, store): the interface as a class with its laws, and the
      local manager that satisfies them.
    - [EotsRpc]: src/eotsmanager/service/rpcserver.go and client/rpcclient.go.
    - [EotsConfig], [Eotsd]: src/eotsmanager/config and
      src/eotsmanager/cmd/eotsd: settings and commands.

    The chain:
    - [ClientController]: src/clientcontroller/interface.go as a class with
      laws; [Babylon]: src/clientcontroller/babylon.go, which implements it;
      [BabylonStaking]: the rest of that file (delegations, headers, covenants,
      paged queries).

    The services of fpd (src/finality-provider/service):
    - [Poller]: chain_poller.go, a step relation of the poller's goroutine and
      its consumer.
    - [FpState]: the state of an instance, fp_store_adapter.go,
      eots_manager_adapter.go and the queries of fp_instance.go.
    - [FpStateLock]: the setters of fp_store_adapter.go side by side, each a
      critical section under the mutex and a transaction of the store.
    - [Returns]: which operations always return.
    - [Voting], [FastSync], [FpInstance]: fp_instance.go and fastsync.go.
    - [FpManager]: fp_manager.go, with the runs of the daemon as event lists.
    - [FpThreads]: the goroutines of fp_manager.go and of its instances as a
      step relation over shared memory: the two monitors, the loops and the
      poller of every instance, calls of StartFinalityProvider and Stop.
    - [FpRemoval]: removing an instance while its goroutines run.
    - [FpSequential]: the whole turns of [FpManager] as schedules of those
      goroutines.
    - [FpSchedule]: the same steps as an executable scheduler.
    - [ChainKeyring]: src/keyring.
    - [App], [AppStart], [AppLoops], [AppTickers]: app.go; operations,
      construction and start, the channels between callers, loops and
      shutdown, and the loops that tick.

    The daemon and its commands:
    - [Config]: src/finality-provider/config and src/metrics/config.go.
    - [Server]: service/server.go (src/eotsmanager/service/server.go has the
      same body) and src/metrics/server.go.
    - [FpdRpc]: service/rpcserver.go and service/client/rpcclient.go.
    - [FpdCmd], [FpdStart], [FpdTx]: src/finality-provider/cmd.

    Concrete environments and runs: [SampleEnv] (toy cryptography and codecs),
    [SampleChain] (a chain, a keyring, a connection), [SampleDaemon] (files,
    command lines, transactions), [Examples], [DaemonExamples] and
    [ThreadExamples] (runs of the model in them, and each property applied to
    such a run).

    ** How the code is translated

    A method is a function in [M S A] on the state it reaches: a store works on
    the database, an instance on [St] (its fields, the chain, the EOTS manager,
    the database, the metrics and a log of what was signed), the manager on
    [MSt], the application on [FinalityProviderApp], a command on its
    connection, files and output. Components meet at classes: [Kvdb],
    [EOTSManager], [ClientController], [Keyring], [Grpc]; the theorems of a
    client are proved from the laws of the class and the implementations
    discharge the laws ([local_eots_manager], [grpc_eots_manager],
    [babylon_controller], [mem_kvdb]).

    A goroutine's loop is the function of one turn; turns run as a whole, and
    their order is a list of events or a step relation. Where the code blocks
    on a channel inside a turn, which the poller, the application's loops and
    the loops and monitors of an instance do, the file has a step relation with
    a program counter per party ([Poller.step], [AppLoops.lp_step],
    [FpThreads.step]). In [FpThreads] an instance is an object on a heap and
    [fpm.fpIns] a pointer to it; a turn of a loop, [Start] and the queries of
    the status monitor are one step each, and the goroutines interleave at
    every select, at the send of a critical error, between the queries and the
    write of the status monitor, and at every action and wait of a removal.

    Integers are [Z]; operations that can wrap around write the wrap-around.

    ** What the theorems show

    - Safety of voting: two messages signed for one height are equal over any
      run of the manager, with restarts ([manager_never_equivocates]), and in
      every interleaving of its goroutines ([threads_never_equivocate]);
      heights in the store never decrease ([manager_history_is_safe],
      [threads_history_is_safe]); a submitted vote verifies under the committed
      randomness ([submitted_vote_is_valid],
      [commitment_covers_range], [signature_matches_committed_randomness],
      [contiguous_batch_is_valid]); fast sync votes above what was processed.
      Where the code does not do what it means to, the theorem says so:
      [batch_with_gap_mismatches], [failed_start_blocks_manager],
      [failed_start_ends_sync], [skip_deadlocks_on_full_buffer],
      [shutdown_hangs_on_registration], [export_never_succeeds], and the theorems on concurrency below.
    - Concurrency: the runs of the sequential manager are schedules of its
      goroutines ([turns_are_schedules]); without status updates an instance
      is dropped only when its loops have returned ([loops_belong_to_the_instance]); a removal during
      which nothing is reported can complete ([removal_completes]), one that
      waits for a loop at the send of an error never does
      ([report_blocks_removal]); the two monitors can race on a removal
      ([monitors_race_on_removal]). Setters of the status and of the heights
      linearize ([setters_linearize]), two setters of the status do not
      ([status_setters_can_disagree]), and a status decided before a slashing
      can overwrite it ([stale_status_overwrites_slashed]). The examples reach
      these configurations by runs of the scheduler from the configuration
      before the first start.
    - Refinement and equivalence: the provider store refines a finite map, the
      poller a cursor over the heights, the Babylon controller the interface
      of the services; the clients over gRPC of both daemons carry out the
      operations behind their servers.
    - The application: registration, creation, start and queries on every
      branch; in every interleaving with the loops and a shutdown a caller gets
      the answer to its own request ([answers_are_own]); the loop of the
      metrics exports the stored statuses and changes nothing else
      ([metrics_loop_observes]).
    - The commands and files: creating a provider end to end from the command
      line to the record; keys that eotsd added are there for the daemon; what
      sign-schnorr prints is verified; configuration files are read back as
      they were written; a started daemon has a valid configuration; servers
      close what they open; commands read only flags they declare.
    - Termination: the retry loops end within the configured retries, fast
      sync within a turn per height, the paged query within a turn per page.

    ** Fuel

    [fuel] bounds a loop that the code bounds by its data or not at all. The
    retry loops and fast sync have theorems that give enough fuel
    ([retry_loops_terminate], [fast_sync_terminates]); the paged query needs
    one turn per started page ([all_providers_are_listed]); expanding a path
    consumes a character per turn. Loops that the code does not bound (the
    poller's wait for its start height) keep [OutOfFuel] as an outcome, and
    theorems on their results hold for every fuel.

    ** Parameters and their laws

    Code outside of the repository is a class: secp256k1, Schnorr and EOTS
    signatures, hashing and merkle proofs ([Crypto], [CryptoLaws]), protobuf
    and decimal codecs ([Codec], [CodecLaws]), the database, the Cosmos keyring
    ([Keyring], [KeyringLaws]), bip39, avast retry-go ([RetryGo]), gRPC
    ([Grpc], [GrpcDelivers]), the Babylon client ([BbnClient],
    [BbnClientLaws], [StakingClient], [PagedProviders]), go-flags ([IniFile],
    [IniFileLaws]), cobra and the Cosmos client ([Cobra], [SdkClient],
    [SdkTx]), the operating system ([FileSystem], [Process], [Disk], [Net],
    [Network]). The sample environments satisfy all of these laws.

    ** Not modelled

    Generated protobuf code (its messages are records, its codecs have
    round-trip laws); logging but for the construction of the logger; the HTTP
    handler of the metrics and the registration of the collectors; the
    interleaving of goroutines inside a turn of an instance, inside [Start] and
    inside the queries of a monitor, which touch shared state only through the
    chain, the store's transactions and the setters, whose interleavings are in
    [FpStateLock]; the commands keys and tx of the Cosmos libraries but for the
    hook on keys add and the validation of a signed registration; src/codec
    (one library call); the tests.

    What could follow: [FpThreads] with the actions of the setters as its
    steps, and the mutexes of the poller. *)

From stdpp Require Import base gmap sets list strings pretty.
From Stdlib Require Import ZArith Lia Strings.Byte.

#[global] Set Default Goal Selector "!".

(** ** Bytes

    Go's [[]byte] is a list of bytes; the instances let bytes be the keys of
    a [gmap]. *)

Abbreviation bytes := (list Byte.byte).

#[global] Instance byte_eq_dec : EqDecision Byte.byte := Byte.byte_eq_dec.

#[global] Instance byte_countable : Countable Byte.byte.
Proof.
  refine (inj_countable Byte.to_N Byte.of_N _). intros x. apply Byte.of_to_N.
Defined.

(** [[]byte(s)] and [string(b)]: the conversions keep the bytes. *)
Definition bytes_of_string (s : string) : bytes := String.list_byte_of_string s.
Definition string_of_bytes (b : bytes) : string := String.string_of_list_byte b.

Lemma string_of_bytes_of_string s : string_of_bytes (bytes_of_string s) = s.
Proof. apply String.string_of_list_byte_of_string. Qed.

Lemma bytes_of_string_of_bytes b : bytes_of_string (string_of_bytes b) = b.
Proof. apply String.list_byte_of_string_of_list_byte. Qed.

(** [hex.EncodeToString] *)
Definition hex_digit (n : N) : Ascii.ascii :=
  Ascii.ascii_of_N (if (n <? 10)%N then n + 48 else n + 87)%N.

Fixpoint hex_EncodeToString (b : bytes) : string :=
  match b with
  | [] => ""
  | x :: b => String (hex_digit (Byte.to_N x / 16)) (String (hex_digit (Byte.to_N x mod 16))
                (hex_EncodeToString b))
  end.

Example hex_EncodeToString_0aff : hex_EncodeToString [Byte.x0a; Byte.xff] = "0aff".
Proof. reflexivity. Qed.

(** ** Machine integers

    A [uint64] (or [uint32]) value is a [Z] in range; Go's arithmetic on it
    wraps around, which the operations write out. *)

Declare Scope go_scope.
Delimit Scope go_scope with go.

Definition MaxUint64 : Z := 2 ^ 64 - 1.
Definition MaxUint32 : Z := 2 ^ 32 - 1.
Definition MaxInt64 : Z := 2 ^ 63 - 1.

Definition is_u64 (z : Z) : Prop := (0 <= z <= MaxUint64)%Z.
Definition is_u32 (z : Z) : Prop := (0 <= z <= MaxUint32)%Z.

#[global] Instance is_u64_dec z : Decision (is_u64 z).
Proof. unfold is_u64. apply _. Defined.
#[global] Instance is_u32_dec z : Decision (is_u32 z).
Proof. unfold is_u32. apply _. Defined.

Definition u64 (z : Z) : Z := (z mod 2 ^ 64)%Z.
Definition u32 (z : Z) : Z := (z mod 2 ^ 32)%Z.

Notation "a +u b" := (u64 (a + b)%Z) (at level 50, left associativity) : go_scope.
Notation "a -u b" := (u64 (a - b)%Z) (at level 50, left associativity) : go_scope.
Notation "a +w b" := (u32 (a + b)%Z) (at level 50, left associativity) : go_scope.

Lemma u64_small z : is_u64 z → u64 z = z.
Proof. unfold is_u64, u64, MaxUint64. intros. apply Z.mod_small. lia. Qed.

Lemma u32_small z : is_u32 z → u32 z = z.
Proof. unfold is_u32, u32, MaxUint32. intros. apply Z.mod_small. lia. Qed.

Lemma u64_range z : is_u64 (u64 z).
Proof.
  unfold is_u64, u64, MaxUint64.
  pose proof (Z.mod_pos_bound z (2 ^ 64) ltac:(lia)). lia.
Qed.

Lemma u32_range z : is_u32 (u32 z).
Proof.
  unfold is_u32, u32, MaxUint32.
  pose proof (Z.mod_pos_bound z (2 ^ 32) ltac:(lia)). lia.
Qed.

Lemma u64_wrap : u64 (MaxUint64 + 1) = 0%Z.
Proof. reflexivity. Qed.

Create HintDb go.
#[export] Hint Resolve u64_range u32_range : go.

(** [u64_lia] removes wrap-arounds whose argument is in range. *)
Ltac u64_unfold := unfold is_u64, is_u32, MaxUint64, MaxUint32, MaxInt64 in *.
Ltac u64_lia :=
  repeat match goal with
  | H : context [u64 ?z] |- _ => rewrite (u64_small z) in H by (u64_unfold; lia)
  | |- context [u64 ?z] => rewrite (u64_small z) by (u64_unfold; lia)
  | H : context [u32 ?z] |- _ => rewrite (u32_small z) in H by (u64_unfold; lia)
  | |- context [u32 ?z] => rewrite (u32_small z) by (u64_unfold; lia)
  end; u64_unfold; lia.

(** ** Lists *)

Lemma Forall2_elem_r {A B} (P : A → B → Prop) l k y :
  Forall2 P l k → y ∈ k → ∃ x, x ∈ l ∧ P x y.
Proof.
  induction 1 as [|x z l k HP _ IH]; intros Hy; [by apply elem_of_nil in Hy|].
  apply elem_of_cons in Hy as [->|Hy].
  - exists x. split; [left|done].
  - destruct (IH Hy) as (x' & ? & ?). exists x'. split; [by right|done].
Qed.

Lemma Forall2_elem_l {A B} (P : A → B → Prop) l k x :
  Forall2 P l k → x ∈ l → ∃ y, y ∈ k ∧ P x y.
Proof. intros HF%Forall2_flip Hx. by destruct (Forall2_elem_r _ _ _ _ HF Hx) as (y & ? & ?); exists y. Qed.

Lemma Forall_sublist {A} (P : A → Prop) l k : l `sublist_of` k → Forall P k → Forall P l.
Proof.
  induction 1 as [|x l k _ IH|x l k _ IH]; [done|..]; rewrite ?Forall_cons; [intros [? ?]; auto|].
  intros [_ ?]. auto.
Qed.
