(* ===== verification/Errors.v ===== *)
(** * Errors: Go error values and the error classification of the client controller

    Models the errors the program builds ([errors.New], [fmt.Errorf] with
    and without [%w]), [errors.Is] on them, and
    [src/clientcontroller/retry_utils.go], which decides from the text and the
    chain of an error whether a submission is retried. *)

From stdpp Require Import base list strings pretty.
From Stdlib Require Import ZArith Lia.
From S2P Require Import Prelude.

(** ** strings.Contains *)

Fixpoint Contains (s substr : string) : bool :=
  String.prefix substr s ||
  match s with
  | EmptyString => false
  | String _ s' => Contains s' substr
  end.

Lemma prefix_app_l p s : String.prefix p (p +:+ s) = true.
Proof.
  induction p as [|a p IH]; simpl; [by destruct s|].
  destruct (Ascii.ascii_dec a a); [done|congruence].
Qed.

Lemma prefix_split p s : String.prefix p s = true → ∃ t, s = p +:+ t.
Proof.
  revert s. induction p as [|a p IH]; intros s; [by exists s|].
  destruct s as [|b s]; simpl; [intros; discriminate|].
  destruct (Ascii.ascii_dec a b) as [->|]; [|intros; discriminate].
  intros [t ->]%IH. by exists t.
Qed.

Lemma Contains_spec s sub :
  Contains s sub = true ↔ ∃ a b, s = a +:+ sub +:+ b.
Proof.
  split.
  - induction s as [|c s IH]; cbn [Contains]; rewrite orb_true_iff; intros [H|H].
    + apply prefix_split in H as [t ->]. by exists "", t.
    + done.
    + apply prefix_split in H as [t Ht]. exists "", t. by rewrite Ht.
    + destruct (IH H) as (a & b & ->). by exists (String c a), b.
  - intros (a & b & ->). induction a as [|c a IH].
    + change ("" +:+ sub +:+ b) with (sub +:+ b).
      pose proof (prefix_app_l sub b) as Hp.
      destruct (sub +:+ b); cbn [Contains]; by rewrite Hp.
    + change (String c a +:+ sub +:+ b) with (String c (a +:+ sub +:+ b)).
      cbn [Contains]. rewrite IH. apply orb_true_r.
Qed.

Lemma string_app_assoc (a b c : string) : a +:+ (b +:+ c) = (a +:+ b) +:+ c.
Proof. induction a as [|x a IH]; [done|]. change (String x (a +:+ (b +:+ c)) = String x ((a +:+ b) +:+ c)). by rewrite IH. Qed.

Lemma Contains_app_mono p s q sub :
  Contains s sub = true → Contains (p +:+ s +:+ q) sub = true.
Proof.
  rewrite !Contains_spec. intros (a & b & ->).
  exists (p +:+ a), (b +:+ q). by rewrite <-!string_app_assoc.
Qed.

(** ** The package-level error variables *)

Inductive sentinel :=
  | ErrFinalityProviderShutDown
  | ErrFinalityProviderJailed
  | ErrFinalityProviderSlashed
  | ErrCorruptedFinalityProviderDb
  | ErrFinalityProviderNotFound
  | ErrDuplicateFinalityProvider
  | ErrCorruptedPubRandProofDb
  | ErrPubRandProofNotFound
  | ErrCorruptedEOTSDb
  | ErrDuplicateEOTSKeyName
  | ErrEOTSKeyNameNotFound
  | ErrFinalityProviderAlreadyExisted.

#[global] Instance sentinel_eq_dec : EqDecision sentinel.
Proof. solve_decision. Defined.

Definition sentinel_text (s : sentinel) : string :=
  match s with
  | ErrFinalityProviderShutDown => "the finality provider instance is shutting down"
  | ErrFinalityProviderJailed => "the finality provider instance is jailed"
  | ErrFinalityProviderSlashed => "the finality provider instance is slashed"
  | ErrCorruptedFinalityProviderDb => "finality provider db is corrupted"
  | ErrFinalityProviderNotFound => "finality provider not found"
  | ErrDuplicateFinalityProvider => "finality provider already exists"
  | ErrCorruptedPubRandProofDb => "public randomness proof db is corrupted"
  | ErrPubRandProofNotFound => "public randomness proof not found"
  | ErrCorruptedEOTSDb => "EOTS manager db is corrupted"
  | ErrDuplicateEOTSKeyName => "EOTS key name already exists"
  | ErrEOTSKeyNameNotFound => "EOTS key name not found"
  | ErrFinalityProviderAlreadyExisted => "the finality provider has already existed"
  end.

(** ** Error values

    [ErrorString] is [errors.New] or [fmt.Errorf] without [%w] (so also the
    errors of a remote service), [Wrap] is [fmt.Errorf] with one [%w] between
    a prefix and a suffix, [ExpectedError] is the struct of retry_utils.go,
    with a nil embedded error in [ExpectedNil]. *)
Inductive error :=
  | ErrorString (s : string)
  | Sentinel (s : sentinel)
  | Wrap (pre : string) (e : error) (post : string)
  | ExpectedError (e : error)
  | ExpectedNil.

(** [e.Error()] *)
Fixpoint Error (e : error) : string :=
  match e with
  | ErrorString s => s
  | Sentinel s => sentinel_text s
  | Wrap pre e post => pre +:+ Error e +:+ post
  | ExpectedError e => Error e
  | ExpectedNil => "expected error"
  end.

(** [errors.Is(e, target)] for a package-level [target]: some error of the
    chain of [e] is [target]. *)
Fixpoint errors_Is (e : error) (target : sentinel) : bool :=
  match e with
  | ErrorString _ => false
  | Sentinel s => bool_decide (s = target)
  | Wrap _ e _ => errors_Is e target
  | ExpectedError e => errors_Is e target
  | ExpectedNil => false
  end.

(** [errors.Is(err, ExpectedError{})]: the [Is] method of [ExpectedError]
    answers true for any [ExpectedError] of the chain. *)
Fixpoint IsExpected (e : error) : bool :=
  match e with
  | ErrorString _ | Sentinel _ => false
  | Wrap _ e _ => IsExpected e
  | ExpectedError _ | ExpectedNil => true
  end.

(** [Expected(err)] *)
Definition Expected (e : error) : error := ExpectedError e.

(** ** The errors of the Babylon modules the program names

    Their texts are not under src/. *)
Inductive bbn_error :=
  | ErrBlockNotFound | ErrInvalidFinalitySig | ErrNoPubRandYet
  | ErrPubRandNotFound | ErrTooFewPubRand | ErrInvalidPubRand
  | ErrFpNotFound | ErrFpAlreadySlashed | ErrFpAlreadyJailed | ErrFpNotJailed.

#[global] Instance bbn_error_eq_dec : EqDecision bbn_error.
Proof. solve_decision. Defined.

Class BbnErrors := {
  bbn_error_text : bbn_error → string;
}.

Section retry_utils.
Context `{BbnErrors}.

Definition unrecoverableErrors : list bbn_error :=
  [ErrBlockNotFound; ErrInvalidFinalitySig; ErrNoPubRandYet; ErrPubRandNotFound;
   ErrTooFewPubRand; ErrFpAlreadySlashed; ErrFpAlreadyJailed].

Definition IsUnrecoverable (e : error) : bool :=
  existsb (fun u => Contains (Error e) (bbn_error_text u)) unrecoverableErrors.

Lemma IsUnrecoverable_Wrap pre e post :
  IsUnrecoverable e = true → IsUnrecoverable (Wrap pre e post) = true.
Proof.
  unfold IsUnrecoverable. rewrite !existsb_exists.
  intros (u & Hin & Hc). exists u. split; [done|]. by apply Contains_app_mono.
Qed.

Lemma IsUnrecoverable_ErrorString pre e post :
  IsUnrecoverable e = true → IsUnrecoverable (ErrorString (pre +:+ Error e +:+ post)) = true.
Proof. apply (IsUnrecoverable_Wrap pre e post). Qed.
End retry_utils.

Lemma errors_Is_Wrap pre e post t : errors_Is (Wrap pre e post) t = errors_Is e t.
Proof. done. Qed.

Lemma IsExpected_Expected e : IsExpected (Expected e) = true.
Proof. done. Qed.

#[export] Hint Resolve IsUnrecoverable_Wrap IsUnrecoverable_ErrorString : go.
