(* ===== verification/Monad.v ===== *)
(** * Monad: outcomes and the state monad of the model

    A Go function that may fail and that mutates state becomes a function
    from the state to an outcome and the new state. The state is kept when
    the function returns an error, as in Go. [Fatal] is the end of the
    process: [logger.Fatal], [panic], a nil dereference or an index out of
    range. [OutOfFuel] is the outcome of a loop cut by its fuel. *)

From stdpp Require Import base list strings.
From Stdlib Require Import ZArith Lia.
From S2P Require Import Prelude Errors.

Inductive outcome (A : Type) :=
  | Ok (a : A)
  | Err (e : error)
  | Fatal (msg : string)
  | OutOfFuel.
Arguments Ok {A} a.
Arguments Err {A} e.
Arguments Fatal {A} msg.
Arguments OutOfFuel {A}.

#[global] Instance outcome_ret : MRet outcome := @Ok.
#[global] Instance outcome_bind : MBind outcome := λ A B f o,
  match o with
  | Ok a => f a
  | Err e => Err e
  | Fatal m => Fatal m
  | OutOfFuel => OutOfFuel
  end.

Definition M (S A : Type) : Type := S → outcome A * S.

#[global] Instance M_ret {S} : MRet (M S) := λ A a s, (Ok a, s).
#[global] Instance M_bind {S} : MBind (M S) := λ A B f m s,
  match m s with
  | (Ok a, s') => f a s'
  | (Err e, s') => (Err e, s')
  | (Fatal msg, s') => (Fatal msg, s')
  | (OutOfFuel, s') => (OutOfFuel, s')
  end.

Definition throw {S A} (e : error) : M S A := λ s, (Err e, s).
Definition fatal {S A} (msg : string) : M S A := λ s, (Fatal msg, s).
Definition outOfFuel {S A} : M S A := λ s, (OutOfFuel, s).
Definition get {S} : M S S := λ s, (Ok s, s).
Definition gets {S A} (f : S → A) : M S A := λ s, (Ok (f s), s).
Definition modify {S} (f : S → S) : M S unit := λ s, (Ok tt, f s).
Definition lift {S A} (o : outcome A) : M S A := λ s, (o, s).

(** A state change that always returns *)
Definition effect {S A} (f : S → A * S) : M S A := λ s, (Ok (f s).1, (f s).2).

(** [res, err := m()]: the error becomes a value; the end of the process
    does not. *)
Definition attempt {S A} (m : M S A) : M S (error + A) := λ s,
  match m s with
  | (Ok a, s') => (Ok (inr a), s')
  | (Err e, s') => (Ok (inl e), s')
  | (Fatal msg, s') => (Fatal msg, s')
  | (OutOfFuel, s') => (OutOfFuel, s')
  end.

(** [if err != nil { return fmt.Errorf("pre: %w", err) }] *)
Definition wrapping {S A} (pre : string) (m : M S A) : M S A := λ s,
  match m s with
  | (Err e, s') => (Err (Wrap pre e ""), s')
  | r => r
  end.

(** [if err != nil { return fmt.Errorf("pre: %v", err) }]: only the text of
    the error is kept. *)
Definition formatting {S A} (pre : string) (m : M S A) : M S A := λ s,
  match m s with
  | (Err e, s') => (Err (ErrorString (pre +:+ Error e)), s')
  | r => r
  end.

(** [defer f()] after the body [m], for a body that returns. *)
Definition deferring {S A} (f : S → S) (m : M S A) : M S A := λ s,
  match m s with
  | (Ok a, s') => (Ok a, f s')
  | (Err e, s') => (Err e, f s')
  | r => r
  end.

(** Runs an operation on a part of the state. *)
Definition zoom {S T A} (get : T → S) (set : S → T → T) (m : M S A) : M T A := λ t,
  let r := m (get t) in (r.1, set r.2 t).

Fixpoint mapM_ {S A} (f : A → M S unit) (l : list A) : M S unit :=
  match l with
  | [] => mret tt
  | a :: l => f a ;; mapM_ f l
  end.

Fixpoint mapMM {S A B} (f : A → M S B) (l : list A) : M S (list B) :=
  match l with
  | [] => mret []
  | a :: l => b ← f a; bs ← mapMM f l; mret (b :: bs)
  end.

(** ** Equations of bind *)

Section equations.
Context {S A B : Type}.
Implicit Types (m : M S A) (k : A → M S B) (s : S).

Lemma bind_Ok m k s a s' : m s = (Ok a, s') → (m ≫= k) s = k a s'.
Proof. intros H. unfold mbind, M_bind. by rewrite H. Qed.

Lemma bind_Err m k s e s' : m s = (Err e, s') → (m ≫= k) s = (Err e, s').
Proof. intros H. unfold mbind, M_bind. by rewrite H. Qed.

Lemma bind_Fatal m k s e s' : m s = (Fatal e, s') → (m ≫= k) s = (Fatal e, s').
Proof. intros H. unfold mbind, M_bind. by rewrite H. Qed.

Lemma bind_OutOfFuel m k s s' : m s = (OutOfFuel, s') → (m ≫= k) s = (OutOfFuel, s').
Proof. intros H. unfold mbind, M_bind. by rewrite H. Qed.

Lemma bind_fuel_inv m k s :
  ((m ≫= k) s).1 = OutOfFuel →
  (m s).1 = OutOfFuel ∨ ∃ a s1, m s = (Ok a, s1) ∧ (k a s1).1 = OutOfFuel.
Proof. unfold mbind, M_bind. destruct (m s) as [[a|e|msg|] s1]; [|done..|by left]. intros Hk. right. eauto. Qed.

Lemma bind_Ok_inv m k s b s' :
  (m ≫= k) s = (Ok b, s') → ∃ a s1, m s = (Ok a, s1) ∧ k a s1 = (Ok b, s').
Proof.
  unfold mbind, M_bind. destruct (m s) as [[a|e|msg|] s1]; intros; simplify_eq.
  by exists a, s1.
Qed.
End equations.

Lemma attempt_inv {S A} (m : M S A) s r s' :
  attempt m s = (Ok r, s') →
  match r with inr a => m s = (Ok a, s') | inl e => m s = (Err e, s') end.
Proof. unfold attempt. destruct (m s) as [[] ?]; intros; by simplify_eq. Qed.

Lemma attempt_not_Err {S A} (m : M S A) s e s' : attempt m s ≠ (Err e, s').
Proof. unfold attempt. by destruct (m s) as [[] ?]. Qed.

Lemma zoom_inv {S T A} (g : T → S) st (m : M S A) t o t' :
  zoom g st m t = (o, t') → ∃ s', m (g t) = (o, s') ∧ t' = st s' t.
Proof. unfold zoom. intros Hr. injection Hr as <- <-. exists (m (g t)).2. by destruct (m (g t)). Qed.

Lemma wrapping_inv {S A} pre (m : M S A) st a st' :
  wrapping pre m st = (Ok a, st') → m st = (Ok a, st').
Proof. unfold wrapping. destruct (m st) as [[] ?]; intros; by simplify_eq. Qed.

Lemma formatting_inv {S A} pre (m : M S A) st a st' :
  formatting pre m st = (Ok a, st') → m st = (Ok a, st').
Proof. unfold formatting. destruct (m st) as [[] ?]; intros; by simplify_eq. Qed.

Lemma formatting_Ok {S A} pre (m : M S A) s a s' : m s = (Ok a, s') → formatting pre m s = (Ok a, s').
Proof. intros Hm. unfold formatting. by rewrite Hm. Qed.

(** [invM H] splits a hypothesis [H] that a composed computation succeeded
    into the successes of its parts. *)
Ltac invM_step H :=
  first
    [ lazymatch type of H with
      | mret _ _ = _ => unfold mret, M_ret in H; simplify_eq
      | get _ = _ => unfold get in H; simplify_eq
      | gets _ _ = _ => unfold gets in H; simplify_eq
      | modify _ _ = _ => unfold modify in H; simplify_eq
      | lift _ _ = _ => unfold lift in H; simplify_eq
      | throw _ _ = _ => unfold throw in H; simplify_eq
      | fatal _ _ = _ => unfold fatal in H; simplify_eq
      | outOfFuel _ = _ => unfold outOfFuel in H; simplify_eq
      end ].

Ltac invM H :=
  lazymatch type of H with
  | mbind _ _ _ = (Ok _, _) =>
      let a := fresh "a" in let s := fresh "s" in let H1 := fresh "H" in
      apply bind_Ok_inv in H as (a & s & H1 & H); invM H1; invM H
  | _ => try (progress invM_step H)
  end.

(** ** Frames

    [frame R m]: every run of [m] relates its initial and its final state by
    the preorder [R], whatever the outcome. Used with relations such as "the
    stored heights do not decrease" or "the log is extended". *)

Definition frame {S A} (R : S → S → Prop) (m : M S A) : Prop := ∀ s, R s (m s).2.

Section frame.
Context {S : Type} (R : S → S → Prop) `{!PreOrder R}.

Lemma frame_pure {A} (f : S → outcome A) : frame R (λ s, (f s, s)).
Proof. intros s. simpl. reflexivity. Qed.

Lemma frame_ret {A} (a : A) : frame R (mret a).
Proof. intros s. simpl. reflexivity. Qed.

Lemma frame_throw {A} e : frame R (throw e : M S A).
Proof. intros s. simpl. reflexivity. Qed.

Lemma frame_fatal {A} e : frame R (fatal e : M S A).
Proof. intros s. simpl. reflexivity. Qed.

Lemma frame_outOfFuel {A} : frame R (outOfFuel : M S A).
Proof. intros s. simpl. reflexivity. Qed.

Lemma frame_get : frame R get.
Proof. intros s. simpl. reflexivity. Qed.

Lemma frame_gets {A} (f : S → A) : frame R (gets f).
Proof. intros s. simpl. reflexivity. Qed.

Lemma frame_lift {A} (o : outcome A) : frame R (lift o).
Proof. intros s. simpl. reflexivity. Qed.

Lemma frame_modify f : (∀ s, R s (f s)) → frame R (modify f).
Proof. intros H s. apply H. Qed.

Lemma frame_bind {A B} (m : M S A) (k : A → M S B) :
  frame R m → (∀ a, frame R (k a)) → frame R (m ≫= k).
Proof.
  intros Hm Hk s. unfold mbind, M_bind. specialize (Hm s).
  destruct (m s) as [[a|e|msg|] s']; simpl in *; [|done..].
  transitivity s'; [done|]. apply Hk.
Qed.

(** The continuation may use that its argument is a result of [m]. *)
Lemma frame_bind_res {A B} (m : M S A) (k : A → M S B) :
  frame R m → (∀ s a s', m s = (Ok a, s') → frame R (k a)) → frame R (m ≫= k).
Proof.
  intros Hm Hk s. unfold mbind, M_bind. specialize (Hm s).
  destruct (m s) as [[a|e|msg|] s'] eqn:E; simpl in *; [|done..].
  transitivity s'; [done|]. by eapply Hk.
Qed.

Lemma frame_attempt {A} (m : M S A) : frame R m → frame R (attempt m).
Proof. intros Hm s. unfold attempt. specialize (Hm s). by destruct (m s) as [[] ?]. Qed.

Lemma frame_wrapping {A} pre (m : M S A) : frame R m → frame R (wrapping pre m).
Proof. intros Hm s. unfold wrapping. specialize (Hm s). by destruct (m s) as [[] ?]. Qed.

Lemma frame_formatting {A} pre (m : M S A) : frame R m → frame R (formatting pre m).
Proof. intros Hm s. unfold formatting. specialize (Hm s). by destruct (m s) as [[] ?]. Qed.

Lemma frame_deferring {A} f (m : M S A) :
  (∀ s, R s (f s)) → frame R m → frame R (deferring f m).
Proof.
  intros Hf Hm s. unfold deferring. specialize (Hm s).
  destruct (m s) as [[] s']; simpl in *; [transitivity s'; auto..|done|done].
Qed.

Lemma frame_mapM_ {A} (f : A → M S unit) l : (∀ a, frame R (f a)) → frame R (mapM_ f l).
Proof.
  intros Hf. induction l as [|a l IH]; simpl; [apply frame_ret|].
  apply frame_bind; auto.
Qed.

Lemma frame_mapMM {A B} (f : A → M S B) l : (∀ a, frame R (f a)) → frame R (mapMM f l).
Proof.
  intros Hf. induction l as [|a l IH]; simpl; [apply frame_ret|].
  apply frame_bind; [auto|]. intros b. apply frame_bind; [auto|]. intros bs. apply frame_ret.
Qed.
End frame.

Lemma frame_zoom {S T A} (RS : S → S → Prop) (RT : T → T → Prop) g st (m : M S A) :
  (∀ t s, RS (g t) s → RT t (st s t)) → frame RS m → frame RT (zoom g st m).
Proof. intros Hl Hm t. unfold zoom. simpl. apply Hl, Hm. Qed.

Create HintDb frame.

(** Proves a frame by following the structure of the computation; the
    leaves come from the hint database [frame]. *)
Ltac frame_step :=
  match goal with
  | |- frame _ _ => assumption
  | |- frame _ (mbind _ _) => apply frame_bind; [apply _| |intros]
  | |- frame _ (mret _) => apply frame_ret; apply _
  | |- frame _ (throw _) => apply frame_throw; apply _
  | |- frame _ (fatal _) => apply frame_fatal; apply _
  | |- frame _ outOfFuel => apply frame_outOfFuel; apply _
  | |- frame _ get => apply frame_get; apply _
  | |- frame _ (gets _) => apply frame_gets; apply _
  | |- frame _ (lift _) => apply frame_lift; apply _
  | |- frame _ (attempt _) => apply frame_attempt
  | |- frame _ (wrapping _ _) => apply frame_wrapping
  | |- frame _ (formatting _ _) => apply frame_formatting
  | |- frame _ (mapM_ _ _) => apply frame_mapM_; [apply _|intros]
  | |- frame _ (mapMM _ _) => apply frame_mapMM; [apply _|intros]
  | |- frame _ (match ?x with _ => _ end) => destruct x
  | |- frame _ _ => solve [eauto 3 with frame]
  end.
Ltac frame_auto := repeat frame_step.

(** ** retry-go

    [retry.Do(f, retry.Attempts(n), retry.LastErrorOnly(true))] of
    github.com/avast/retry-go is a parameter; the laws are its documented
    behaviour: [f] runs until it succeeds, [n] times at most, and the last
    error is returned. *)
Class RetryGo := {
  retry_Do : ∀ {S A : Type}, Z → M S A → M S A;
}.

Class RetryGoLaws `{RetryGo} : Prop := {
  retry_Do_Ok S A n (f : M S A) s a s' :
    (1 <= n)%Z → f s = (Ok a, s') → retry_Do n f s = (Ok a, s');
  retry_Do_Fatal S A n (f : M S A) s msg s' :
    (1 <= n)%Z → f s = (Fatal msg, s') → retry_Do n f s = (Fatal msg, s');
  retry_Do_OutOfFuel S A n (f : M S A) s s' :
    (1 <= n)%Z → f s = (OutOfFuel, s') → retry_Do n f s = (OutOfFuel, s');
  retry_Do_last S A (f : M S A) s e s' :
    f s = (Err e, s') → retry_Do 1 f s = (Err e, s');
  retry_Do_again S A n (f : M S A) s e s' :
    (1 < n)%Z → f s = (Err e, s') → retry_Do n f s = retry_Do (n - 1) f s';
}.

Section retry.
Context `{RetryGoLaws}.

(** The induction principle of [retry.Do]: [n] attempts at most. *)
Lemma retry_Do_ind {S A} (f : M S A) (P : S → outcome A * S → Prop) n s :
  (1 <= n)%Z →
  (∀ s r, f s = r → match r.1 with Err _ => True | _ => P s r end) →
  (∀ s e s', f s = (Err e, s') → P s (Err e, s')) →
  (∀ s e s' r, f s = (Err e, s') → P s' r → P s r) →
  P s (retry_Do n f s).
Proof.
  intros Hn Hdone Hlast Hagain.
  revert s. replace n with (Z.of_nat (Nat.pred (Z.to_nat n)) + 1)%Z by lia.
  generalize (Nat.pred (Z.to_nat n)) as k. induction k as [|k IH]; intros s;
    destruct (f s) as [[a|e|msg|] s'] eqn:E;
    pose proof (Hdone s _ E) as Hd; simpl in Hd.
  - erewrite retry_Do_Ok; [done|lia|exact E].
  - replace (Z.of_nat 0 + 1)%Z with 1%Z by lia. rewrite (retry_Do_last _ _ _ _ _ _ E). eauto.
  - erewrite retry_Do_Fatal; [done|lia|exact E].
  - erewrite retry_Do_OutOfFuel; [done|lia|exact E].
  - erewrite retry_Do_Ok; [done|lia|exact E].
  - erewrite retry_Do_again; [|lia|exact E].
    replace (Z.of_nat (Datatypes.S k) + 1 - 1)%Z with (Z.of_nat k + 1)%Z by lia. eauto.
  - erewrite retry_Do_Fatal; [done|lia|exact E].
  - erewrite retry_Do_OutOfFuel; [done|lia|exact E].
Qed.

Lemma frame_retry {S A} (R : S → S → Prop) `{!PreOrder R} n (f : M S A) :
  (1 <= n)%Z → frame R f → frame R (retry_Do n f).
Proof.
  intros Hn Hf s. apply (retry_Do_ind f (λ s r, R s r.2)); [done| | |].
  - intros s0 r <-. specialize (Hf s0). by destruct (f s0) as [[] ?].
  - intros s0 e s' E. specialize (Hf s0). by rewrite E in Hf.
  - intros s0 e s' r E Hr. specialize (Hf s0). rewrite E in Hf. simpl in *. by transitivity s'.
Qed.

(** A success of [retry.Do] is a success of some attempt. *)
Lemma retry_Do_Ok_inv {S A} n (f : M S A) s a s' :
  (1 <= n)%Z → retry_Do n f s = (Ok a, s') → ∃ s0, f s0 = (Ok a, s').
Proof.
  intros Hn.
  apply (retry_Do_ind f (λ s r, r = (Ok a, s') → ∃ s0, f s0 = (Ok a, s'))); [done| | |].
  - intros s0 r <-. destruct (f s0) as [[] ?] eqn:E; simpl; naive_solver.
  - naive_solver.
  - naive_solver.
Qed.

(** Retrying an operation on a part of the state is retrying it on that
    part. *)
Lemma retry_zoom {S T A} (g : T → S) (st : S → T → T) n (f : M S A) t :
  (1 <= n)%Z → (∀ s t, g (st s t) = s) → (∀ s s' t, st s (st s' t) = st s t) →
  retry_Do n (zoom g st f) t = zoom g st (retry_Do n f) t.
Proof.
  intros Hn Hgs Hss.
  revert t. replace n with (Z.of_nat (Nat.pred (Z.to_nat n)) + 1)%Z by lia.
  generalize (Nat.pred (Z.to_nat n)) as k. induction k as [|k IH]; intros t;
    destruct (f (g t)) as [[a|e|msg|] s'] eqn:E;
    (assert (zoom g st f t = ((f (g t)).1, st (f (g t)).2 t)) as Hz by done; rewrite E in Hz; simpl in Hz).
  all: try (erewrite retry_Do_Ok; [|lia|exact Hz]; unfold zoom; erewrite retry_Do_Ok; [done|lia|exact E]).
  all: try (erewrite retry_Do_Fatal; [|lia|exact Hz]; unfold zoom; erewrite retry_Do_Fatal; [done|lia|exact E]).
  all: try (erewrite retry_Do_OutOfFuel; [|lia|exact Hz]; unfold zoom;
            erewrite retry_Do_OutOfFuel; [done|lia|exact E]).
  - replace (Z.of_nat 0 + 1)%Z with 1%Z by lia.
    rewrite (retry_Do_last _ _ _ _ _ _ Hz). unfold zoom. by rewrite (retry_Do_last _ _ _ _ _ _ E).
  - erewrite retry_Do_again; [|lia|exact Hz].
    replace (Z.of_nat (Datatypes.S k) + 1 - 1)%Z with (Z.of_nat k + 1)%Z by lia. rewrite IH.
    unfold zoom. rewrite Hgs. rewrite (retry_Do_again _ _ (Z.of_nat (Datatypes.S k) + 1) f _ _ _ ltac:(lia) E).
    replace (Z.of_nat (Datatypes.S k) + 1 - 1)%Z with (Z.of_nat k + 1)%Z by lia. by rewrite Hss.
Qed.
End retry.

(** A concrete [retry.Do] that satisfies the laws. *)
Fixpoint retry_loop {S A} (n : nat) (f : M S A) : M S A := λ s,
  match f s with
  | (Err e, s') => match n with O => (Err e, s') | Datatypes.S n => retry_loop n f s' end
  | r => r
  end.

Definition simple_retry : RetryGo := {|
  retry_Do S A n f := retry_loop (Nat.pred (Z.to_nat n)) f
|}.

Lemma simple_retry_laws : @RetryGoLaws simple_retry.
Proof.
  split; simpl; intros *.
  - intros _ E. destruct (Nat.pred _); simpl; by rewrite E.
  - intros _ E. destruct (Nat.pred _); simpl; by rewrite E.
  - intros _ E. destruct (Nat.pred _); simpl; by rewrite E.
  - intros E. by rewrite E.
  - intros Hn E.
    replace (Nat.pred (Z.to_nat n)) with (Datatypes.S (Nat.pred (Z.to_nat (n - 1)))) by lia.
    simpl. by rewrite E.
Qed.

(** Composition of a total specification with a frame. *)
Lemma bind_spec {S A B} (R : S → S → Prop) (m : M S A) (k : A → M S B) s a r :
  frame R m → (m s).1 = Ok a → (∀ s', R s s' → (k a s').1 = r) → ((m ≫= k) s).1 = r.
Proof.
  intros Hf Hm Hk. specialize (Hf s). unfold mbind, M_bind.
  destruct (m s) as [o s'] eqn:E; simpl in *. subst o. by apply Hk.
Qed.

Lemma wrapping_Ok {S A} pre (m : M S A) s a : (m s).1 = Ok a → (wrapping pre m s).1 = Ok a.
Proof. unfold wrapping. destruct (m s) as [[] ?]; simpl; naive_solver. Qed.

(** ** What holds when an operation returns an error *)

Definition on_err {S A} (R : S → S → Prop) (m : M S A) : Prop :=
  ∀ s e s', m s = (Err e, s') → R s s'.

Section on_err.
Context {S : Type} (R : S → S → Prop) `{!PreOrder R}.

Lemma on_err_frame {A} (m : M S A) : frame R m → on_err R m.
Proof. intros Hm s e s' E. specialize (Hm s). by rewrite E in Hm. Qed.

Lemma on_err_bind {A B} (m : M S A) (k : A → M S B) :
  frame R m → (∀ a, on_err R (k a)) → on_err R (m ≫= k).
Proof.
  intros Hm Hk s e s'. unfold mbind, M_bind. specialize (Hm s).
  destruct (m s) as [[a|e'|msg|] s1]; simpl in *; intros E; simplify_eq; [|done].
  transitivity s1; [done|]. by eapply Hk.
Qed.

Lemma on_err_never {A} (m : M S A) : (∀ s e s', m s ≠ (Err e, s')) → on_err R m.
Proof. intros Hm s e s' E. by destruct (Hm s e s'). Qed.
End on_err.

(** Operations that never return an error (they return a value or end the
    process) *)
Definition no_err {S A} (m : M S A) : Prop := ∀ s e s', m s ≠ (Err e, s').

Lemma no_err_bind {S A B} (m : M S A) (k : A → M S B) :
  no_err m → (∀ a, no_err (k a)) → no_err (m ≫= k).
Proof.
  intros Hm Hk s e s'. unfold mbind, M_bind. specialize (Hm s).
  destruct (m s) as [[a|e'|msg|] s1] eqn:E; [apply Hk|by destruct (Hm e' s1)|done|done].
Qed.

Lemma no_err_attempt {S A} (m : M S A) : no_err (attempt m).
Proof. intros s e s'. apply attempt_not_Err. Qed.
