(* ===== verification/Version.v ===== *)
(** * Version: the version strings of the daemon

    Models [src/version/version.go]. A Go string is its bytes, so the source's
    iterations over runes are filters of bytes: the alphabets are ASCII, and a
    byte of a longer encoding is in neither of them. [Commit] and [RawTags]
    are set when the program is built; [agentName] is the one variable the
    package writes. *)

From stdpp Require Import base list strings pretty.
From Stdlib Require Import ZArith Lia.
From S2P Require Import Prelude Errors Monad.

Definition semanticAlphabet : string :=
  "0123456789ABCDEFGHIJKLMNOPQRSTUVWXYZabcdefghijklmnopqrstuvwxyz-.".

Definition AppMajor : Z := 0.
Definition AppMinor : Z := 2.
Definition AppPatch : Z := 2.
Definition AppPreRelease : string := "alpha".
Definition defaultAgentName : string := "fpd".

(** [strings.ContainsRune(alphabet, r)] for an ASCII alphabet *)
Fixpoint ContainsRune (alphabet : string) (r : Ascii.ascii) : bool :=
  match alphabet with
  | EmptyString => false
  | String a rest => bool_decide (a = r) || ContainsRune rest r
  end.

Fixpoint normalizeVerString (str alphabet : string) : string :=
  match str with
  | EmptyString => ""
  | String r rest =>
      if ContainsRune alphabet r then String r (normalizeVerString rest alphabet)
      else normalizeVerString rest alphabet
  end.

(** Every rune of the string is in the alphabet. *)
Fixpoint all_in (alphabet str : string) : bool :=
  match str with
  | EmptyString => true
  | String r rest => ContainsRune alphabet r && all_in alphabet rest
  end.

Definition semanticVersion : string :=
  let version := pretty AppMajor +:+ "." +:+ pretty AppMinor +:+ "." +:+ pretty AppPatch in
  let preRelease := normalizeVerString AppPreRelease semanticAlphabet in
  if bool_decide (preRelease ≠ "") then version +:+ "-" +:+ preRelease else version.

Definition Version (Commit : string) : string := semanticVersion +:+ " commit=" +:+ Commit.

(** [strings.Split(s, sep)] for a separator of one byte *)
Fixpoint Split1 (s : string) (sep : Ascii.ascii) : list string :=
  match s with
  | EmptyString => [""]
  | String c rest =>
      if bool_decide (c = sep) then "" :: Split1 rest sep
      else match Split1 rest sep with
           | w :: ws => String c w :: ws
           | [] => [String c ""]
           end
  end.

Definition comma : Ascii.ascii := Ascii.ascii_of_nat 44.

Definition Tags (RawTags : string) : option (list string) :=
  if bool_decide (String.length RawTags = 0) then None else Some (Split1 RawTags comma).

(** [SetAgentName] writes the variable [agentName]. *)
Definition SetAgentName (newAgentName : string) : M string unit :=
  if all_in semanticAlphabet newAgentName then modify (λ _, newAgentName)
  else fatal "rune is not in the semantic alphabet".

(** [strings.TrimSpace]: the encodings of the runes of [unicode.IsSpace] *)
Definition of_codes (l : list nat) : string :=
  foldr (λ n s, String (Ascii.ascii_of_nat n) s) "" l.

Definition space_runes : list string :=
  of_codes <$> [[9]; [10]; [11]; [12]; [13]; [32]; [194; 133]; [194; 160]; [225; 154; 128];
    [226; 128; 128]; [226; 128; 129]; [226; 128; 130]; [226; 128; 131]; [226; 128; 132]; [226; 128; 133];
    [226; 128; 134]; [226; 128; 135]; [226; 128; 136]; [226; 128; 137]; [226; 128; 138];
    [226; 128; 168]; [226; 128; 169]; [226; 128; 175]; [226; 129; 159]; [227; 128; 128]].

Fixpoint strip_prefix (p s : string) : option string :=
  match p, s with
  | EmptyString, _ => Some s
  | String a p, String b s => if bool_decide (a = b) then strip_prefix p s else None
  | _, _ => None
  end.

Fixpoint strip_first (ps : list string) (s : string) : option string :=
  match ps with
  | [] => None
  | p :: ps => match strip_prefix p s with Some s' => Some s' | None => strip_first ps s end
  end.

Fixpoint trim_left (ps : list string) (fuel : nat) (s : string) : string :=
  match fuel with
  | O => s
  | S fuel => match strip_first ps s with Some s' => trim_left ps fuel s' | None => s end
  end.

Definition rev_string (s : string) : string := String.rev s.

Definition TrimSpace (s : string) : string :=
  let left := trim_left space_runes (String.length s) s in
  rev_string (trim_left (rev_string <$> space_runes) (String.length left) (rev_string left)).

(** [s[:n]] for [n <= len(s)] *)
Definition prefix_n (n : nat) (s : string) : string := String.substring 0 n s.

Definition maxInitiator : nat := 150.

(** [math.Min(float64(strLen), 150)] is exact: both are below 2^53. *)
Definition UserAgent (agentName Commit initiator : string) : string :=
  let initiatorAlphabet := semanticAlphabet +:+ ". " in
  let cleanInitiator := normalizeVerString (TrimSpace initiator) initiatorAlphabet in
  let cleanInitiator :=
    if (0 <? String.length cleanInitiator)%nat then ",initiator=" +:+ cleanInitiator else cleanInitiator in
  let strLen := String.length cleanInitiator in
  let cleanInitiator := prefix_n (Nat.min strLen maxInitiator) cleanInitiator in
  agentName +:+ "/v" +:+ semanticVersion +:+ "/commit=" +:+ Commit +:+ cleanInitiator.

(** The check of [init] on the pre-release string *)
Definition version_init : M unit unit :=
  if all_in semanticAlphabet AppPreRelease then mret tt
  else fatal "rune is not in the semantic alphabet".

(** ** Theorems *)

Example semanticVersion_is : semanticVersion = "0.2.2-alpha".
Proof. reflexivity. Qed.

Example UserAgent_is : UserAgent "fpd" "v1" "  my app!  " = "fpd/v0.2.2-alpha/commit=v1,initiator=my app".
Proof. vm_compute. reflexivity. Qed.

Lemma length_string_app (s t : string) : String.length (s +:+ t) = String.length s + String.length t.
Proof. induction s as [|c s IH]; [done|]. simpl. by rewrite IH. Qed.

Lemma length_prefix_n n s : n <= String.length s → String.length (prefix_n n s) = n.
Proof.
  unfold prefix_n. revert n. induction s as [|c s IH]; intros [|n] Hn; simpl in *; try done; [lia|].
  f_equal. apply IH. lia.
Qed.

(** The fuel of [trim_left] is enough: nothing is left to strip. *)
Lemma strip_prefix_length p s s' :
  strip_prefix p s = Some s' → String.length s = String.length p + String.length s'.
Proof.
  revert s. induction p as [|a p IH]; intros [|b s]; cbn [strip_prefix]; intros Hs; simplify_eq; [done..|].
  case_bool_decide; [|done]. simpl. f_equal. by apply IH.
Qed.

Lemma strip_first_length ps s s' :
  Forall (λ p, p ≠ "") ps → strip_first ps s = Some s' → String.length s' < String.length s.
Proof.
  intros Hps. induction Hps as [|p ps Hp _ IH]; cbn [strip_first]; [done|].
  destruct (strip_prefix p s) as [t|] eqn:E; [|done]. intros Ht. injection Ht as <-.
  apply strip_prefix_length in E. destruct p; [done|]. simpl in E. lia.
Qed.

Lemma trim_left_enough ps fuel s :
  Forall (λ p, p ≠ "") ps → String.length s <= fuel → strip_first ps (trim_left ps fuel s) = None.
Proof.
  intros Hps. revert s. induction fuel as [|fuel IH]; intros s Hf; cbn [trim_left].
  - destruct (strip_first ps s) eqn:E; [|done]. apply strip_first_length in E; [lia|done].
  - destruct (strip_first ps s) as [s'|] eqn:E; [|done]. apply IH. apply strip_first_length in E; [lia|done].
Qed.

Lemma normalize_all_in str alphabet : all_in alphabet (normalizeVerString str alphabet) = true.
Proof. induction str as [|r str IH]; simpl; [done|]. destruct (ContainsRune alphabet r) eqn:E; simpl; by rewrite ?E. Qed.

Lemma normalize_id str alphabet : all_in alphabet str = true → normalizeVerString str alphabet = str.
Proof.
  induction str as [|r str IH]; simpl; [done|]. intros [Hr Hs]%andb_true_iff. by rewrite Hr, IH.
Qed.

Lemma normalize_idempotent str alphabet :
  normalizeVerString (normalizeVerString str alphabet) alphabet = normalizeVerString str alphabet.
Proof. apply normalize_id, normalize_all_in. Qed.

Lemma Split1_nonempty s sep : Split1 s sep ≠ [].
Proof. destruct s; simpl; [done|]. case_bool_decide; [done|]. by destruct (Split1 s sep). Qed.

(** The tags joined with commas are the raw string again. *)
Fixpoint Join1 (ws : list string) (sep : Ascii.ascii) : string :=
  match ws with
  | [] => ""
  | [w] => w
  | w :: ws => w +:+ String sep (Join1 ws sep)
  end.

Lemma Join_Split s sep : Join1 (Split1 s sep) sep = s.
Proof.
  induction s as [|c s IH]; [done|]. cbn [Split1]. pose proof (Split1_nonempty s sep) as Hne.
  case_bool_decide as Hc.
  - destruct (Split1 s sep) as [|w ws]; [done|]. cbn [Join1] in *. rewrite IH. by subst.
  - destruct (Split1 s sep) as [|w ws]; [done|]. rewrite <-IH. by destruct ws.
Qed.

(** The version strings are well formed: the version is the constant
    [0.2.2-alpha], which the checks of the package accept; a user agent
    starts with the agent's name and this version, and of the initiator it
    keeps at most 150 bytes, whatever the initiator is. *)
Theorem user_agent_bounded agent commit initiator :
  ∃ tail, UserAgent agent commit initiator =
            agent +:+ "/v0.2.2-alpha/commit=" +:+ commit +:+ tail ∧
    String.length tail <= 150.
Proof.
  unfold UserAgent. eexists. split.
  - rewrite semanticVersion_is. reflexivity.
  - rewrite length_prefix_n by lia. unfold maxInitiator. lia.
Qed.
