(* ===== verification/Paths.v ===== *)
(** * Paths: file paths and directories

    Models [src/util/path.go] and what it uses of [path/filepath] and [os] on
    Unix: the lexical [filepath.Clean] and [Join], [os.ExpandEnv], and, over
    a file system [F] that is a parameter, [os.Stat], [os.MkdirAll] and
    [os.Readlink]. *)

From stdpp Require Import base list strings.
From Stdlib Require Import ZArith Lia.
From S2P Require Import Prelude Errors Monad Version.

(** ** path/filepath *)

Definition Separator : Ascii.ascii := Ascii.ascii_of_nat 47.
Definition slash : string := String Separator "".

Definition IsAbs (path : string) : bool :=
  match path with String c _ => bool_decide (c = Separator) | EmptyString => false end.

(** The elements of a path, with those kept so far in reverse order *)
Fixpoint clean_elems (rooted : bool) (kept elems : list string) : list string :=
  match elems with
  | [] => reverse kept
  | e :: elems =>
      if bool_decide (e = "") || bool_decide (e = ".") then clean_elems rooted kept elems
      else if bool_decide (e = "..")
      then match kept with
           | [] => if rooted then clean_elems rooted [] elems else clean_elems rooted [".."] elems
           | top :: rest =>
               if bool_decide (top = "..") then clean_elems rooted (".." :: kept) elems
               else clean_elems rooted rest elems
           end
      else clean_elems rooted (e :: kept) elems
  end.

(** [filepath.Clean] *)
Definition Clean (path : string) : string :=
  let rooted := IsAbs path in
  let body := Join1 (clean_elems rooted [] (Split1 path Separator)) Separator in
  if rooted then String Separator body else if bool_decide (body = "") then "." else body.

(** [filepath.Join(a, b)] *)
Definition Join (a b : string) : string :=
  if bool_decide (a = "") then (if bool_decide (b = "") then "" else Clean b)
  else Clean (a +:+ slash +:+ b).

(** ** os.ExpandEnv *)

Definition code (c : Ascii.ascii) : N := Ascii.N_of_ascii c.
Definition is_digit (c : Ascii.ascii) : bool := ((48 <=? code c) && (code c <=? 57))%N.

Definition isShellSpecialVar (c : Ascii.ascii) : bool :=
  is_digit c || bool_decide (code c ∈ [42; 35; 36; 64; 33; 63; 45]%N).

Definition isAlphaNum (c : Ascii.ascii) : bool :=
  is_digit c || ((65 <=? code c) && (code c <=? 90))%N || ((97 <=? code c) && (code c <=? 122))%N
  || (code c =? 95)%N.

Definition dollar : Ascii.ascii := Ascii.ascii_of_nat 36.
Definition lbrace : Ascii.ascii := Ascii.ascii_of_nat 123.
Definition rbrace : Ascii.ascii := Ascii.ascii_of_nat 125.

(** The characters up to the closing brace, and what follows it *)
Fixpoint to_rbrace (s : string) : option (string * string) :=
  match s with
  | EmptyString => None
  | String c s =>
      if bool_decide (c = rbrace) then Some ("", s)
      else match to_rbrace s with Some (name, rest) => Some (String c name, rest) | None => None end
  end.

Fixpoint alnums (s : string) : string * string :=
  match s with
  | EmptyString => ("", "")
  | String c s' => if isAlphaNum c then let '(name, rest) := alnums s' in (String c name, rest) else ("", s)
  end.

(** [getShellName] on the text after a dollar: the name, whether characters
    were consumed, and the text after them *)
Definition getShellName (s : string) : string * bool * string :=
  match s with
  | EmptyString => ("", false, "")
  | String c s' =>
      if bool_decide (c = lbrace)
      then
        match s' with
        | String v (String b rest) =>
            if isShellSpecialVar v && bool_decide (b = rbrace) then (String v "", true, rest)
            else match to_rbrace s' with Some (name, rest) => (name, true, rest) | None => ("", true, s') end
        | _ => match to_rbrace s' with Some (name, rest) => (name, true, rest) | None => ("", true, s') end
        end
      else if isShellSpecialVar c then (String c "", true, s')
      else let '(name, rest) := alnums s in (name, bool_decide (name ≠ ""), rest)
  end.

(** [os.Expand(s, mapping)]; [fuel] bounds the characters left *)
Fixpoint Expand (fuel : nat) (mapping : string → string) (s : string) : string :=
  match fuel with
  | O => s
  | S fuel =>
      match s with
      | EmptyString => ""
      | String c rest =>
          if bool_decide (c = dollar) && negb (bool_decide (rest = ""))
          then
            match getShellName rest with
            | (name, consumed, rest') =>
                if bool_decide (name = "")
                then if (consumed : bool) then Expand fuel mapping rest'
                     else String c (Expand fuel mapping rest')
                else mapping name +:+ Expand fuel mapping rest'
            end
          else String c (Expand fuel mapping rest)
      end
  end.

Definition ExpandEnv (env : string → string) (s : string) : string := Expand (String.length s) env s.

(** [CleanAndExpandPath]: [user] is the home directory of [user.Current()],
    if it succeeds, and [env] is [os.Getenv]. *)
Definition CleanAndExpandPath (user : option string) (env : string → string) (path : string) : string :=
  match path with
  | EmptyString => ""
  | String c rest =>
      let path :=
        if bool_decide (c = Ascii.ascii_of_nat 126)
        then default (env "HOME") user +:+ rest
        else path in
      Clean (ExpandEnv env path)
  end.

(** ** The file system *)

Inductive stat_result := StatOk | StatNotExist | StatError.

(** An error of [os.MkdirAll]: its text, and for an [os.PathError] its path;
    [os.IsExist] of it *)
Record mkdir_error := mkMkdirError {
  me_err : error;
  me_PathError : option string;
  me_IsExist : bool;
}.

Class FileSystem (F : Type) := {
  os_Stat : string → F → stat_result;
  os_MkdirAll : string → F → option mkdir_error * F;
  os_Readlink : string → F → option string;
}.

Section util.
Context {F : Type} `{!FileSystem F}.

Definition FileExists (name : string) (f : F) : bool :=
  match os_Stat name f with StatNotExist => false | _ => true end.

Definition MakeDirectory (dir : string) : M F unit := λ f,
  let '(err, f') := os_MkdirAll dir f in
  match err with
  | None => (Ok tt, f')
  | Some e =>
      let err :=
        match me_PathError e with
        | Some path =>
            if me_IsExist e
            then match os_Readlink path f' with
                 | Some link => ErrorString ("is symlink " +:+ path +:+ " -> " +:+ link +:+ " mounted?")
                 | None => me_err e
                 end
            else me_err e
        | None => me_err e
        end in
      (Err (Wrap ("failed to create dir " +:+ dir +:+ ": ") err ""), f')
  end.
End util.

(** ** Theorems *)

Example Clean_ex : Clean "/home//user/./x/../.fpd/" = "/home/user/.fpd".
Proof. reflexivity. Qed.
Example Clean_ex_up : Clean "../a/../../b" = "../../b".
Proof. reflexivity. Qed.
Example Join_ex : Join "/home/user/.fpd" "fpd.conf" = "/home/user/.fpd/fpd.conf".
Proof. reflexivity. Qed.
Example ExpandEnv_ex :
  ExpandEnv (λ n, if bool_decide (n = "A") then "x" else "") "p$A/${A}q$$-$" = "px/xq-$".
Proof. reflexivity. Qed.

(** The fuel of [ExpandEnv] is enough: more changes nothing. *)
Lemma to_rbrace_length s name rest :
  to_rbrace s = Some (name, rest) → String.length rest < String.length s.
Proof.
  revert name rest. induction s as [|c s IH]; intros name rest; cbn [to_rbrace]; [done|].
  case_bool_decide; [intros; simplify_eq; simpl; lia|].
  destruct (to_rbrace s) as [[n r]|] eqn:E; [|done]. intros Hr. injection Hr as <- <-.
  specialize (IH _ _ eq_refl). simpl. lia.
Qed.

Lemma alnums_length s : String.length (alnums s).2 <= String.length s.
Proof.
  induction s as [|c s IH]; cbn [alnums]; [done|]. destruct (isAlphaNum c); [|done].
  destruct (alnums s) as [n r]. simpl in *. lia.
Qed.

Lemma getShellName_length s : String.length (getShellName s).2 <= String.length s.
Proof.
  assert (∀ s' : string, String.length
      (match to_rbrace s' with Some (n, r) => (n, true, r) | None => ("", true, s') end).2
        <= String.length s') as Hb.
  { intros s'. destruct (to_rbrace s') as [[n r]|] eqn:E; simpl; [|done].
    apply to_rbrace_length in E. lia. }
  destruct s as [|c s]; unfold getShellName; [done|]. case_bool_decide.
  - specialize (Hb s). destruct s as [|v [|b rest]]; [simpl in *; lia..|].
    destruct (_ && _); [simpl; lia|]. cbn [String.length] in *. lia.
  - destruct (isShellSpecialVar c); [simpl; lia|]. pose proof (alnums_length (String c s)) as Ha.
    by destruct (alnums (String c s)).
Qed.

Lemma Expand_enough f g mapping s :
  String.length s <= f → String.length s <= g → Expand f mapping s = Expand g mapping s.
Proof.
  revert g s. induction f as [|f IH]; intros [|g] [|c s] Hf Hg; simpl in Hf, Hg; try done; try lia.
  cbn [Expand]. destruct (_ && _).
  - pose proof (getShellName_length s) as Hl. destruct (getShellName s) as [[name b] rest]. simpl in Hl.
    rewrite (IH g rest) by lia. done.
  - rewrite (IH g s) by lia. done.
Qed.

(** The elements of a clean path: no empty one and no dot; going up only at
    the start of a relative path *)
Definition proper (e : string) : Prop := e ≠ "" ∧ e ≠ "." ∧ e ≠ "..".

Definition normal (rooted : bool) (l : list string) : Prop :=
  ∃ n rest, l = replicate n ".." ++ rest ∧ Forall proper rest ∧ (rooted = true → n = 0).

(** The kept elements in reverse order *)
Definition normal_rev (rooted : bool) (kept : list string) : Prop :=
  ∃ n rest, kept = rest ++ replicate n ".." ∧ Forall proper rest ∧ (rooted = true → n = 0).

Lemma normal_rev_reverse rooted kept : normal_rev rooted kept → normal rooted (reverse kept).
Proof.
  intros (n & rest & -> & Hr & Hn). exists n, (reverse rest).
  split_and!; [by rewrite reverse_app, reverse_replicate|by apply Forall_reverse|done].
Qed.

Lemma normal_rev_pop rooted top kept :
  normal_rev rooted (top :: kept) → top ≠ ".." → normal_rev rooted kept ∧ proper top.
Proof.
  intros (n & [|e rest] & Heq & Hr & Hn) Ht; simpl in Heq.
  - destruct n; simpl in Heq; simplify_eq.
  - simplify_eq. apply Forall_cons in Hr as [? ?]. split; [by exists n, rest|done].
Qed.

Lemma normal_rev_up rooted kept :
  normal_rev rooted (".." :: kept) → rooted = false ∧ normal_rev rooted (".." :: ".." :: kept).
Proof.
  intros (n & [|e rest] & Heq & Hr & Hn); simpl in Heq.
  - destruct n as [|n]; simpl in Heq; [done|]. injection Heq as ->.
    destruct rooted; [by specialize (Hn eq_refl)|]. split; [done|]. by exists (S (S n)), [].
  - apply Forall_cons in Hr as [(_ & _ & He) _]. congruence.
Qed.

Lemma clean_elems_normal rooted kept elems :
  normal_rev rooted kept → normal rooted (clean_elems rooted kept elems).
Proof.
  revert kept. induction elems as [|e elems IH]; intros kept Hk; cbn [clean_elems];
    [by apply normal_rev_reverse|].
  case_bool_decide as He1; [by apply IH|]. case_bool_decide as He2; [by apply IH|]. cbn [orb].
  case_bool_decide as He3.
  - destruct kept as [|top kept].
    + destruct rooted; apply IH; [by exists 0, []|by exists 1, []].
    + case_bool_decide as Ht; [subst top|]; apply IH; [by apply normal_rev_up|].
      destruct (normal_rev_pop _ _ _ Hk Ht) as [? _]; done.
  - apply IH. destruct Hk as (n & rest & -> & Hr & Hn). exists n, (e :: rest).
    split_and!; [done| |done]. by constructor.
Qed.

(** Elements that are clean stay as they are. *)
Lemma clean_elems_proper rooted kept rest :
  Forall proper rest → clean_elems rooted kept rest = reverse kept ++ rest.
Proof.
  revert kept. induction rest as [|e rest IH]; intros kept; cbn [clean_elems]; [by rewrite app_nil_r|].
  intros [(? & ? & ?) Hr]%Forall_cons. rewrite !bool_decide_false by done. cbn [orb].
  rewrite IH by done. by rewrite reverse_cons, <-(assoc_L (++)).
Qed.

Lemma clean_elems_ups n m rest :
  Forall proper rest →
  clean_elems false (replicate m "..") (replicate n ".." ++ rest) = replicate (n + m) ".." ++ rest.
Proof.
  intros Hr. revert m. induction n as [|n IH]; intros m.
  - simpl. by rewrite clean_elems_proper, reverse_replicate.
  - replace (replicate (S n) ".." ++ rest) with (".." :: (replicate n ".." ++ rest)) by done.
    cbn [clean_elems]. rewrite !bool_decide_false by done. rewrite bool_decide_true by done. cbn [orb].
    replace (S n + m) with (n + S m) by lia. rewrite <-IH. by destruct m.
Qed.

Lemma clean_elems_id rooted l : normal rooted l → clean_elems rooted [] l = l.
Proof.
  intros (n & rest & -> & Hr & Hn). destruct rooted.
  - rewrite Hn by done. by apply clean_elems_proper.
  - rewrite (clean_elems_ups n 0) by done. by rewrite Nat.add_0_r.
Qed.

(** A string without the separator *)
Fixpoint no_sep (s : string) : bool :=
  match s with EmptyString => true | String c s => negb (bool_decide (c = Separator)) && no_sep s end.

Lemma Split1_no_sep s : Forall (λ e, no_sep e = true) (Split1 s Separator).
Proof.
  induction s as [|c s IH]; cbn [Split1]; [by repeat constructor|].
  case_bool_decide as Hc; [by constructor|].
  destruct (Split1 s Separator) as [|w ws]; [|apply Forall_cons in IH as [Hw Hws]]; constructor; try done;
    cbn [no_sep]; by rewrite bool_decide_false.
Qed.

Lemma Split1_single e : no_sep e = true → Split1 e Separator = [e].
Proof.
  induction e as [|c e IH]; cbn [no_sep Split1]; [done|]. case_bool_decide; [done|]. cbn [negb andb].
  intros He. by rewrite (IH He).
Qed.

Lemma Split1_app e s : no_sep e = true →
  Split1 (e +:+ String Separator s) Separator = e :: Split1 s Separator.
Proof.
  induction e as [|c e IH]; cbn [no_sep].
  - intros _. change ("" +:+ String Separator s) with (String Separator s). cbn [Split1].
    by rewrite bool_decide_true.
  - case_bool_decide as Hc; [done|]. cbn [negb andb]. intros He.
    change (String c e +:+ ?t) with (String c (e +:+ t)). cbn [Split1].
    rewrite bool_decide_false by done. by rewrite IH.
Qed.

Lemma Split_Join l :
  l ≠ [] → Forall (λ e, no_sep e = true) l → Split1 (Join1 l Separator) Separator = l.
Proof.
  induction l as [|e l IH]; [done|]. intros _ [He Hl]%Forall_cons. destruct l as [|e' l].
  - by apply Split1_single.
  - change (Join1 (e :: e' :: l) Separator) with (e +:+ String Separator (Join1 (e' :: l) Separator)).
    rewrite Split1_app by done. by rewrite IH.
Qed.

Lemma clean_elems_no_sep rooted kept elems :
  Forall (λ e, no_sep e = true) kept → Forall (λ e, no_sep e = true) elems →
  Forall (λ e, no_sep e = true) (clean_elems rooted kept elems).
Proof.
  revert kept. induction elems as [|e elems IH]; intros kept Hk; cbn [clean_elems];
    [intros _; by apply Forall_reverse|].
  intros [He Hes]%Forall_cons. destruct (_ || _); [by apply IH|].
  case_bool_decide.
  - destruct kept as [|top kept]; [destruct rooted; apply IH; by repeat constructor|].
    case_bool_decide; apply IH; try done; [by constructor|by apply Forall_cons in Hk as [_ ?]].
  - apply IH; [by constructor|done].
Qed.

(** An element of a clean path is not empty. *)
Lemma normal_nonempty rooted l : normal rooted l → Forall (λ e, e ≠ "") l.
Proof.
  intros (n & rest & -> & Hr & _). apply Forall_app. split.
  - by apply Forall_replicate.
  - eapply Forall_impl; [exact Hr|]. by intros e [? _].
Qed.

Lemma Join1_empty l : Forall (λ e, e ≠ "") l → Join1 l Separator = "" → l = [].
Proof. intros Hl. destruct l as [|e [|e' l]]; [done|..]; apply Forall_cons in Hl as [He _]; simpl; [done|]. by destruct e. Qed.

Lemma IsAbs_Join1 l :
  Forall (λ e, e ≠ "") l → Forall (λ e, no_sep e = true) l → IsAbs (Join1 l Separator) = false.
Proof.
  intros Hl Hn. destruct l as [|e l]; [done|].
  apply Forall_cons in Hl as [He _]. apply Forall_cons in Hn as [Hn _].
  destruct e as [|c e]; [done|]. cbn [no_sep] in Hn. 
  assert (∃ t, Join1 (String c e :: l) Separator = String c t) as [t ->] by (destruct l; by eexists).
  simpl. by destruct (bool_decide (c = Separator)).
Qed.

(** [filepath.Clean] gives a normal form: cleaning a clean path changes
    nothing, and the result is never empty. *)
Theorem clean_idempotent p : Clean (Clean p) = Clean p ∧ Clean p ≠ "".
Proof.
  unfold Clean. destruct (IsAbs p) eqn:Ep; set (l := clean_elems _ [] (Split1 p Separator)).
  all: assert (normal (IsAbs p) l) as Hl
         by (subst l; rewrite Ep; apply clean_elems_normal; by exists 0, []); rewrite Ep in Hl.
  all: assert (Forall (λ e, no_sep e = true) l) as Hs
         by (subst l; apply clean_elems_no_sep; [done|apply Split1_no_sep]).
  all: pose proof (normal_nonempty _ _ Hl) as Hne.
  - split; [|done]. cbn [IsAbs]. rewrite bool_decide_true by done. f_equal.
    cbn [Split1]. rewrite bool_decide_true by done. cbn [clean_elems]. rewrite bool_decide_true by done.
    cbn [orb]. destruct (decide (l = [])) as [Hnil|Hnil]; [by rewrite Hnil|].
    rewrite Split_Join by done. by rewrite clean_elems_id.
  - case_bool_decide as Hb; [done|]. split; [|done].
    rewrite IsAbs_Join1 by done. destruct (decide (l = [])) as [Hnil|Hnil]; [by rewrite Hnil in Hb|].
    rewrite Split_Join by done. rewrite clean_elems_id by done. by rewrite bool_decide_false.
Qed.
