(* ===== verification/Log.v ===== *)
(** * Log: hexadecimal text, the logger and the process around the daemons

    Models [src/log/log.go], the part of [encoding/hex] and of [strconv] the
    commands use, and names what a command sees of its process: the working
    directory, the environment and the files. A log line is not part of the
    model; whether the logger can be made is. *)

From stdpp Require Import base list strings pretty.
From Stdlib Require Import ZArith Lia Strings.Byte.
From S2P Require Import Prelude Errors Monad Version Paths.

(** ** encoding/hex

    The texts of the library's errors are given without their quotation. *)

(** The value of a hexadecimal digit, in either case *)
Definition from_hex_char (c : Ascii.ascii) : option N :=
  let n := Ascii.N_of_ascii c in
  if (48 <=? n)%N && (n <=? 57)%N then Some (n - 48)%N
  else if (97 <=? n)%N && (n <=? 102)%N then Some (n - 87)%N
  else if (65 <=? n)%N && (n <=? 70)%N then Some (n - 55)%N
  else None.

Definition InvalidByteError (c : Ascii.ascii) : error :=
  ErrorString ("encoding/hex: invalid byte: " +:+ String c "").
Definition ErrLength : error := ErrorString "encoding/hex: odd length hex string".

(** [hex.DecodeString]: a lone last digit is an error about the length, an
    invalid one about the byte. *)
Fixpoint hex_DecodeString (s : string) : outcome bytes :=
  match s with
  | EmptyString => Ok []
  | String a EmptyString =>
      match from_hex_char a with None => Err (InvalidByteError a) | Some _ => Err ErrLength end
  | String a (String b rest) =>
      match from_hex_char a, from_hex_char b with
      | None, _ => Err (InvalidByteError a)
      | _, None => Err (InvalidByteError b)
      | Some x, Some y =>
          l ← hex_DecodeString rest;
          Ok (default Byte.x00 (Byte.of_N (16 * x + y)) :: l)
      end
  end.

Lemma hex_digits_roundtrip x :
  from_hex_char (hex_digit (Byte.to_N x / 16)) = Some (Byte.to_N x / 16)%N ∧
  from_hex_char (hex_digit (Byte.to_N x mod 16)) = Some (Byte.to_N x mod 16)%N.
Proof. by destruct x. Qed.

(** Decoding an encoded text gives the bytes back. *)
Lemma hex_Decode_Encode b : hex_DecodeString (hex_EncodeToString b) = Ok b.
Proof.
  induction b as [|x b IH]; [done|]. cbn [hex_EncodeToString hex_DecodeString].
  destruct (hex_digits_roundtrip x) as [-> ->]. rewrite IH. cbn [mbind outcome_bind].
  rewrite <-N.div_mod' , Byte.of_to_N. done.
Qed.

(** ** strconv.ParseUint(s, 10, 64) *)

Definition ErrSyntax (s : string) : error := ErrorString ("strconv.ParseUint: parsing " +:+ s +:+ ": invalid syntax").
Definition ErrRange (s : string) : error := ErrorString ("strconv.ParseUint: parsing " +:+ s +:+ ": value out of range").

(** The loop over the digits, with the value so far *)
Fixpoint parseDigits (s0 s : string) (n : Z) : outcome Z :=
  match s with
  | EmptyString => Ok n
  | String c rest =>
      if negb (is_digit c) then Err (ErrSyntax s0)
      else
        let n' := (n * 10 + (Z.of_N (code c) - 48))%Z in
        if (MaxUint64 <? n')%Z then Err (ErrRange s0) else parseDigits s0 rest n'
  end.

Definition ParseUint (s : string) : outcome Z :=
  match s with EmptyString => Err (ErrSyntax s) | _ => parseDigits s s 0 end.

(** What it returns is a [uint64]. *)
Lemma ParseUint_range s n : ParseUint s = Ok n → is_u64 n.
Proof.
  assert (∀ s0 s n, is_u64 n → ∀ m, parseDigits s0 s n = Ok m → is_u64 m) as Hloop.
  { intros s0 s1. induction s1 as [|c s1 IH]; intros k Hk m; cbn [parseDigits]; [by intros [= <-]|].
    destruct (is_digit c) eqn:Hd; cbn [negb]; [|done].
    destruct (Z.ltb_spec MaxUint64 (k * 10 + (Z.of_N (code c) - 48))); [done|]. apply IH.
    unfold is_digit in Hd. apply andb_true_iff in Hd as [H1 H2]. apply N.leb_le in H1, H2.
    unfold is_u64 in *. lia. }
  unfold ParseUint. destruct s as [|c s]; [done|]. apply Hloop. u64_unfold. lia.
Qed.

(** ** log.go *)

Inductive Level := PanicLevel | FatalLevel | ErrorLevel | WarnLevel | InfoLevel | DebugLevel.
Inductive Encoder := JSONEncoder | ConsoleEncoder | LogfmtEncoder.
Record Logger := mkLogger { log_enc : Encoder; log_level : Level; }.

(** [strings.ToLower] on ASCII text *)
Definition lower_ascii (c : Ascii.ascii) : Ascii.ascii :=
  let n := Ascii.N_of_ascii c in
  if (65 <=? n)%N && (n <=? 90)%N then Ascii.ascii_of_N (n + 32) else c.
Fixpoint ToLower (s : string) : string :=
  match s with EmptyString => "" | String c rest => String (lower_ascii c) (ToLower rest) end.

Definition parseFormat (format : string) : outcome Encoder :=
  if bool_decide (format = "json") then Ok JSONEncoder
  else if bool_decide (format = "auto") || bool_decide (format = "console") then Ok ConsoleEncoder
  else if bool_decide (format = "logfmt") then Ok LogfmtEncoder
  else Err (ErrorString ("unrecognized log format " +:+ format)).

Definition parseLevel (level : string) : outcome Level :=
  let l := ToLower level in
  if bool_decide (l = "panic") then Ok PanicLevel
  else if bool_decide (l = "fatal") then Ok FatalLevel
  else if bool_decide (l = "error") then Ok ErrorLevel
  else if bool_decide (l = "warn") || bool_decide (l = "warning") then Ok WarnLevel
  else if bool_decide (l = "info") then Ok InfoLevel
  else if bool_decide (l = "debug") then Ok DebugLevel
  else Err (ErrorString ("unsupported log level: " +:+ level)).

Definition NewRootLogger (format level : string) : outcome Logger :=
  enc ← parseFormat format;
  lvl ← parseLevel level;
  Ok (mkLogger enc lvl).

(** ** The process *)

(** What the process of a command can ask its operating system, besides the
    file system of [Paths]: [filepath.Abs], the home directory of the user,
    the environment, [os.OpenFile] of the log, and reading a file, where
    opening and copying can fail. *)
Class Process (H : Type) := {
  os_Abs : string → H → outcome string;
  os_UserHome : H → option string;
  os_Getenv : H → string → string;
  os_OpenLog : string → M H unit;
  os_Open : string → H → outcome (outcome bytes);
}.

(** [filepath.Dir]: the path up to its last separator, cleaned *)
Definition drop_last (l : list string) : list string := reverse (tail (reverse l)).
Definition Dir (path : string) : string :=
  let d := Join1 (drop_last (Split1 path Separator)) Separator in
  if IsAbs path then Clean (d +:+ slash) else Clean d.

Example Dir_ex : Dir "/home/u/.fpd/logs/fpd.log" = "/home/u/.fpd/logs".
Proof. reflexivity. Qed.
Example Dir_root : Dir "/fpd.log" = "/" ∧ Dir "fpd.log" = ".".
Proof. by split. Qed.

Section process.
Context {H : Type} `{!FileSystem H} `{!Process H}.

Definition NewRootLoggerWithFile (logFile level : string) : M H Logger :=
  MakeDirectory (Dir logFile) ;;
  os_OpenLog logFile ;;
  lift (NewRootLogger "console" level).

(** [util.CleanAndExpandPath(filepath.Abs(home))] *)
Definition absHome (home : string) : M H string := λ h,
  match os_Abs home h with
  | Ok homePath => (Ok (CleanAndExpandPath (os_UserHome h) (os_Getenv h) homePath), h)
  | Err e => (Err e, h)
  | Fatal m => (Fatal m, h)
  | OutOfFuel => (OutOfFuel, h)
  end.
End process.

(** ** Theorems *)

(** The logger of the daemons is made exactly for the six levels of zap it
    names, in any case; in particular not for the level trace. *)
Lemma trace_is_refused : NewRootLogger "console" "trace" = Err (ErrorString "unsupported log level: trace").
Proof. reflexivity. Qed.
