(* ===== verification/Config.v ===== *)
(** * Config: the settings of the finality provider daemon

    Models [src/finality-provider/config/] (config.go, poller.go, db.go,
    babylon.go) and [src/metrics/config.go]: the settings, their defaults,
    their validation and the loading of the configuration file. Durations are
    in nanoseconds. The resolution of addresses and the ini parser with its
    file system are parameters. *)

From stdpp Require Import base list sets strings pretty.
From Stdlib Require Import ZArith QArith Lia.
From S2P Require Import Prelude Errors Monad Version Paths.

Local Open Scope Z_scope.

Definition second : Z := 1000000000.
Definition millisecond : Z := 1000000.
Definition minute : Z := 60 * second.

(** [net.ResolveTCPAddr("tcp", _)] and whether [net.ParseIP] is not nil *)
Class Net := {
  ResolveTCPAddr : string → outcome unit;
  ParseIP : string → bool;
}.

(** ** metrics/config.go *)

Record MetricsConfig := mkMetricsConfig {
  mc_Host : string;
  mc_Port : Z;
  mc_UpdateInterval : Z;
}.

Definition MetricsConfig_Validate `{Net} (cfg : MetricsConfig) : outcome unit :=
  if (mc_Port cfg <? 0) || (65535 <? mc_Port cfg)
  then Err (ErrorString ("invalid port: " +:+ pretty (mc_Port cfg)))
  else if negb (ParseIP (mc_Host cfg))
  then Err (ErrorString ("invalid host: " +:+ mc_Host cfg))
  else Ok tt.

Definition MetricsConfig_Address `{Net} (cfg : MetricsConfig) : outcome string :=
  MetricsConfig_Validate cfg ≫= λ _, Ok (mc_Host cfg +:+ ":" +:+ pretty (mc_Port cfg)).

Definition DefaultFpMetricsConfig : MetricsConfig := mkMetricsConfig "127.0.0.1" 2112 (100 * millisecond).
Definition DefaultEotsMetricsConfig : MetricsConfig := mkMetricsConfig "127.0.0.1" 2113 (100 * millisecond).

(** ** config/poller.go *)

Record ChainPollerConfig := mkChainPollerConfig {
  BufferSize : Z;
  PollInterval : Z;
  StaticChainScanningStartHeight : Z;
  AutoChainScanningMode : bool;
}.

Definition DefaultChainPollerConfig : ChainPollerConfig :=
  mkChainPollerConfig 1000 (20 * second) 1 true.

(** ** config/db.go *)

(** The constants [kvdb.DefaultBoltAutoCompactMinAge] and
    [kvdb.DefaultDBTimeout] of the library *)
Class KvdbDefaults := {
  DefaultBoltAutoCompactMinAge : Z;
  DefaultDBTimeout : Z;
}.

Record DBConfig := mkDBConfig {
  DBPath : string;
  DBFileName : string;
  NoFreelistSync : bool;
  AutoCompact : bool;
  AutoCompactMinAge : Z;
  DBTimeout : Z;
}.

(** [kvdb.BoltBackendConfig] *)
Record BoltBackendConfig := mkBoltBackendConfig {
  bo_DBPath : string;
  bo_DBFileName : string;
  bo_NoFreelistSync : bool;
  bo_AutoCompact : bool;
  bo_AutoCompactMinAge : Z;
  bo_DBTimeout : Z;
}.

Definition DBConfigToBoltBackendConfig (db : DBConfig) : BoltBackendConfig :=
  mkBoltBackendConfig (DBPath db) (DBFileName db) (NoFreelistSync db) (AutoCompact db)
    (AutoCompactMinAge db) (DBTimeout db).

Definition GetDbBackend {B} (GetBoltBackend : BoltBackendConfig → outcome B) (db : DBConfig) : outcome B :=
  GetBoltBackend (DBConfigToBoltBackendConfig db).

(** ** The files of a keyring and of a database

    [keyring.New] (with the name of the service, the backend and the
    directory) and [kvdb.GetBoltBackend] over the files [F], and the files
    after the process has used them *)
Class Disk (F KR Db : Type) := {
  keyring_New : string → string → string → F → outcome KR;
  keyring_sync : string → string → string → KR → F → F;
  GetBoltBackend : BoltBackendConfig → F → outcome Db;
  bolt_sync : BoltBackendConfig → Db → F → F;
}.

(** ** config/babylon.go *)

(** [bbncfg.BabylonConfig] of the Babylon client *)
Record BabylonConfig := mkBabylonConfig {
  bc_Key : string;
  bc_ChainID : string;
  bc_RPCAddr : string;
  bc_GRPCAddr : string;
  bc_AccountPrefix : string;
  bc_KeyringBackend : string;
  bc_GasAdjustment : Q;
  bc_GasPrices : string;
  bc_KeyDirectory : string;
  bc_Debug : bool;
  bc_Timeout : Z;
  bc_BlockTimeout : Z;
  bc_OutputFormat : string;
  bc_SignModeStr : string;
  bc_SubmitterAddress : string;
}.

Record BBNConfig := mkBBNConfig {
  bbn_Key : string;
  bbn_ChainID : string;
  bbn_RPCAddr : string;
  bbn_GRPCAddr : string;
  bbn_AccountPrefix : string;
  bbn_KeyringBackend : string;
  bbn_GasAdjustment : Q;
  bbn_GasPrices : string;
  bbn_KeyDirectory : string;
  bbn_Debug : bool;
  bbn_Timeout : Z;
  bbn_BlockTimeout : Z;
  bbn_OutputFormat : string;
  bbn_SignModeStr : string;
}.

(** [DefaultBBNConfig]; [dc] is [bbncfg.DefaultBabylonConfig()] *)
Definition DefaultBBNConfig (dc : BabylonConfig) : BBNConfig := {|
  bbn_Key := bc_Key dc;
  bbn_ChainID := bc_ChainID dc;
  bbn_RPCAddr := bc_RPCAddr dc;
  bbn_GRPCAddr := bc_GRPCAddr dc;
  bbn_AccountPrefix := bc_AccountPrefix dc;
  bbn_KeyringBackend := bc_KeyringBackend dc;
  bbn_GasAdjustment := 3 # 2;
  bbn_GasPrices := "0.002ubbn";
  bbn_KeyDirectory := "";
  bbn_Debug := bc_Debug dc;
  bbn_Timeout := bc_Timeout dc;
  bbn_BlockTimeout := 1 * minute;
  bbn_OutputFormat := bc_OutputFormat dc;
  bbn_SignModeStr := bc_SignModeStr dc;
|}.

(** The fields the conversion does not name keep their zero value. *)
Definition BBNConfigToBabylonConfig (bc : BBNConfig) : BabylonConfig := {|
  bc_Key := bbn_Key bc;
  bc_ChainID := bbn_ChainID bc;
  bc_RPCAddr := bbn_RPCAddr bc;
  bc_GRPCAddr := "";
  bc_AccountPrefix := bbn_AccountPrefix bc;
  bc_KeyringBackend := bbn_KeyringBackend bc;
  bc_GasAdjustment := bbn_GasAdjustment bc;
  bc_GasPrices := bbn_GasPrices bc;
  bc_KeyDirectory := bbn_KeyDirectory bc;
  bc_Debug := bbn_Debug bc;
  bc_Timeout := bbn_Timeout bc;
  bc_BlockTimeout := bbn_BlockTimeout bc;
  bc_OutputFormat := bbn_OutputFormat bc;
  bc_SignModeStr := bbn_SignModeStr bc;
  bc_SubmitterAddress := "";
|}.

Definition with_key_and_dir (key dir : string) (c : BBNConfig) : BBNConfig := {|
  bbn_Key := key;
  bbn_ChainID := bbn_ChainID c;
  bbn_RPCAddr := bbn_RPCAddr c;
  bbn_GRPCAddr := bbn_GRPCAddr c;
  bbn_AccountPrefix := bbn_AccountPrefix c;
  bbn_KeyringBackend := bbn_KeyringBackend c;
  bbn_GasAdjustment := bbn_GasAdjustment c;
  bbn_GasPrices := bbn_GasPrices c;
  bbn_KeyDirectory := dir;
  bbn_Debug := bbn_Debug c;
  bbn_Timeout := bbn_Timeout c;
  bbn_BlockTimeout := bbn_BlockTimeout c;
  bbn_OutputFormat := bbn_OutputFormat c;
  bbn_SignModeStr := bbn_SignModeStr c;
|}.

(** ** config/config.go *)

(** The parameter sets of [chaincfg]; [NoParams] is the zero value. *)
Inductive BTCParams :=
  | NoParams | MainNetParams | TestNet3Params | RegressionNetParams | SimNetParams | SigNetParams.

Record Config := mkConfig {
  LogLevel : string;
  ChainName : string;
  NumPubRand : Z;
  NumPubRandMax : Z;
  MinRandHeightGap : Z;
  StatusUpdateInterval : Z;
  RandomnessCommitInterval : Z;
  SubmissionRetryInterval : Z;
  MaxSubmissionRetries : Z;
  FastSyncInterval : Z;
  FastSyncLimit : Z;
  FastSyncGap : Z;
  EOTSManagerAddress : string;
  SyncFpStatusInterval : Z;
  BitcoinNetwork : string;
  BTCNetParams : BTCParams;
  PollerConfig : ChainPollerConfig;
  DatabaseConfig : DBConfig;
  BabylonConfig_ : BBNConfig;
  RpcListener : string;
  Metrics : option MetricsConfig;          (* a pointer *)
}.

Definition set_BTCNetParams (p : BTCParams) (c : Config) : Config := {|
  LogLevel := LogLevel c;
  ChainName := ChainName c;
  NumPubRand := NumPubRand c;
  NumPubRandMax := NumPubRandMax c;
  MinRandHeightGap := MinRandHeightGap c;
  StatusUpdateInterval := StatusUpdateInterval c;
  RandomnessCommitInterval := RandomnessCommitInterval c;
  SubmissionRetryInterval := SubmissionRetryInterval c;
  MaxSubmissionRetries := MaxSubmissionRetries c;
  FastSyncInterval := FastSyncInterval c;
  FastSyncLimit := FastSyncLimit c;
  FastSyncGap := FastSyncGap c;
  EOTSManagerAddress := EOTSManagerAddress c;
  SyncFpStatusInterval := SyncFpStatusInterval c;
  BitcoinNetwork := BitcoinNetwork c;
  BTCNetParams := p;
  PollerConfig := PollerConfig c;
  DatabaseConfig := DatabaseConfig c;
  BabylonConfig_ := BabylonConfig_ c;
  RpcListener := RpcListener c;
  Metrics := Metrics c;
|}.

Definition set_BabylonConfig (b : BBNConfig) (c : Config) : Config := {|
  LogLevel := LogLevel c;
  ChainName := ChainName c;
  NumPubRand := NumPubRand c;
  NumPubRandMax := NumPubRandMax c;
  MinRandHeightGap := MinRandHeightGap c;
  StatusUpdateInterval := StatusUpdateInterval c;
  RandomnessCommitInterval := RandomnessCommitInterval c;
  SubmissionRetryInterval := SubmissionRetryInterval c;
  MaxSubmissionRetries := MaxSubmissionRetries c;
  FastSyncInterval := FastSyncInterval c;
  FastSyncLimit := FastSyncLimit c;
  FastSyncGap := FastSyncGap c;
  EOTSManagerAddress := EOTSManagerAddress c;
  SyncFpStatusInterval := SyncFpStatusInterval c;
  BitcoinNetwork := BitcoinNetwork c;
  BTCNetParams := BTCNetParams c;
  PollerConfig := PollerConfig c;
  DatabaseConfig := DatabaseConfig c;
  BabylonConfig_ := b;
  RpcListener := RpcListener c;
  Metrics := Metrics c;
|}.

Definition NetParamsBTC (btcNet : string) : outcome BTCParams :=
  if bool_decide (btcNet = "mainnet") then Ok MainNetParams
  else if bool_decide (btcNet = "testnet") then Ok TestNet3Params
  else if bool_decide (btcNet = "regtest") then Ok RegressionNetParams
  else if bool_decide (btcNet = "simnet") then Ok SimNetParams
  else if bool_decide (btcNet = "signet") then Ok SigNetParams
  else Err (ErrorString ("invalid network: " +:+ btcNet)).

(** [Validate] writes the network parameters into the configuration. *)
Definition Validate `{Net} : M Config unit :=
  cfg ← get;
  if bool_decide (EOTSManagerAddress cfg = "")
  then throw (ErrorString "EOTS manager address not specified")
  else
    btcNetConfig ← lift (NetParamsBTC (BitcoinNetwork cfg));
    modify (set_BTCNetParams btcNetConfig) ;;
    wrapping ("invalid RPC listener address " +:+ RpcListener cfg +:+ ", ")
      (lift (ResolveTCPAddr (RpcListener cfg))) ;;
    match Metrics cfg with
    | None => throw (ErrorString "empty metrics config")
    | Some m =>
        r ← attempt (lift (MetricsConfig_Validate m));
        match r with
        | inl _ => throw (ErrorString "invalid metrics config")
        | inr _ => mret tt
        end
    end.

Definition defaultConfigFileName : string := "fpd.conf".
Definition ConfigFile (homePath : string) : string := Join homePath defaultConfigFileName.
Definition LogDir (homePath : string) : string := Join homePath "logs".
Definition LogFile (homePath : string) : string := Join (LogDir homePath) "fpd.log".
Definition DataDir (homePath : string) : string := Join homePath "data".

Definition DefaultRPCPort : Z := 12581.
Definition DefaultRpcListener : string := "127.0.0.1:" +:+ pretty DefaultRPCPort.
Definition eots_DefaultRPCPort : Z := 12582.
Definition defaultEOTSManagerAddress : string := "127.0.0.1:" +:+ pretty eots_DefaultRPCPort.

Definition DefaultDBConfigWithHomePath `{KvdbDefaults} (homePath : string) : DBConfig :=
  mkDBConfig (DataDir homePath) "finality-provider.db" true false DefaultBoltAutoCompactMinAge
    DefaultDBTimeout.

(** The literal of [DefaultConfigWithHome] *)
Definition defaultSettings `{KvdbDefaults} (dc : BabylonConfig) (homePath : string) : Config := {|
  LogLevel := "info";
  ChainName := "babylon";
  NumPubRand := 70000;
  NumPubRandMax := 100000;
  MinRandHeightGap := 35000;
  StatusUpdateInterval := 20 * second;
  RandomnessCommitInterval := 30 * second;
  SubmissionRetryInterval := 1 * second;
  MaxSubmissionRetries := 20;
  FastSyncInterval := 10 * second;
  FastSyncLimit := 10;
  FastSyncGap := 3;
  EOTSManagerAddress := defaultEOTSManagerAddress;
  SyncFpStatusInterval := 30 * second;
  BitcoinNetwork := "signet";
  BTCNetParams := SigNetParams;
  PollerConfig := DefaultChainPollerConfig;
  DatabaseConfig := DefaultDBConfigWithHomePath homePath;
  BabylonConfig_ := with_key_and_dir "finality-provider" homePath (DefaultBBNConfig dc);
  RpcListener := DefaultRpcListener;
  Metrics := Some DefaultFpMetricsConfig;
|}.

(** [DefaultConfigWithHome], which panics when its settings are not valid *)
Definition DefaultConfigWithHome `{Net} `{KvdbDefaults} (dc : BabylonConfig) (homePath : string)
    : outcome Config :=
  match Validate (defaultSettings dc homePath) with
  | (Ok _, cfg) => Ok cfg
  | (Err e, _) => Fatal (Error e)
  | (Fatal m, _) => Fatal m
  | (OutOfFuel, _) => OutOfFuel
  end.

(** *** The configuration file *)

(** The ini parser of go-flags for a type of settings [C], over a file
    system [F] *)
Class IniFile (F C : Type) := {
  ini_ParseFile : string → F → outcome C;
  ini_WriteFile : string → C → M F unit;
}.

Definition LoadConfig `{Net} {F} `{!FileSystem F} `{!IniFile F Config} (homePath : string) (f : F)
    : outcome Config :=
  let cfgFile := ConfigFile homePath in
  if negb (FileExists cfgFile f)
  then Err (ErrorString ("specified config file does not exist in " +:+ cfgFile))
  else
    cfg ← ini_ParseFile cfgFile f;
    match Validate cfg with
    | (Ok _, cfg) => Ok cfg
    | (Err e, _) => Err e
    | (Fatal m, _) => Fatal m
    | (OutOfFuel, _) => OutOfFuel
    end.

(** The [choice] tags of the struct; the tag of mainnet is misspelled
    ([choise]), so it is not a choice. *)
Definition LogLevel_choices : list string := ["trace"; "debug"; "info"; "warn"; "error"; "fatal"].
Definition ChainName_choices : list string := ["babylon"].
Definition BitcoinNetwork_choices : list string := ["regtest"; "testnet"; "simnet"; "signet"].

(** A value that was read from a file is one of the choices; an option the
    file does not set keeps its zero value. *)
Definition chosen (choices : list string) (v : string) : Prop := v = "" ∨ v ∈ choices.

Definition choices_ok (c : Config) : Prop :=
  chosen LogLevel_choices (LogLevel c) ∧ chosen ChainName_choices (ChainName c) ∧
  chosen BitcoinNetwork_choices (BitcoinNetwork c).

(** What go-flags promises: a parsed value is one of the choices; a file it
    wrote with the defaults exists and is parsed to the same options. The
    network parameters are not an option and keep their zero value. *)
Class IniFileLaws (F : Type) `{!FileSystem F} `{!IniFile F Config} : Prop := {
  ini_choices p f c : ini_ParseFile p f = Ok c → choices_ok c;
  ini_written p c f f' :
    choices_ok c → ini_WriteFile p c f = (Ok tt, f') →
    os_Stat p f' = StatOk ∧ ini_ParseFile p f' = Ok (set_BTCNetParams NoParams c);
}.

(** ** Theorems *)

(** The values the fields of the Go structs can have *)
Record config_wf (cfg : Config) : Prop := {
  wf_NumPubRand : is_u32 (NumPubRand cfg);
  wf_MinRandHeightGap : is_u32 (MinRandHeightGap cfg);
  wf_MaxSubmissionRetries : is_u32 (MaxSubmissionRetries cfg);
  wf_FastSyncLimit : is_u32 (FastSyncLimit cfg);
  wf_FastSyncGap : is_u64 (FastSyncGap cfg);
  wf_BufferSize : is_u32 (BufferSize (PollerConfig cfg));
  wf_StartHeight : is_u64 (StaticChainScanningStartHeight (PollerConfig cfg));
}.

Section theorems.
Context `{Net} `{KvdbDefaults} {F : Type} `{!FileSystem F} `{!IniFile F Config} `{!IniFileLaws F}.
Implicit Types (c : Config) (f : F).

(** What validation establishes *)
Definition valid_config c : Prop :=
  EOTSManagerAddress c ≠ "" ∧ NetParamsBTC (BitcoinNetwork c) = Ok (BTCNetParams c) ∧
  ResolveTCPAddr (RpcListener c) = Ok tt ∧
  ∃ m, Metrics c = Some m ∧ 0 <= mc_Port m <= 65535 ∧ ParseIP (mc_Host m) = true.

Lemma MetricsConfig_valid m :
  MetricsConfig_Validate m = Ok tt ↔ 0 <= mc_Port m <= 65535 ∧ ParseIP (mc_Host m) = true.
Proof.
  unfold MetricsConfig_Validate.
  destruct (Z.ltb_spec (mc_Port m) 0), (Z.ltb_spec 65535 (mc_Port m)); simpl; try (split; [done|lia]).
  destruct (ParseIP (mc_Host m)); simpl; [split; [done|done]|split; [done|by intros [_ ?]]].
Qed.

(** Validation succeeds exactly on these settings, up to the network
    parameters, which it computes. *)
Lemma Validate_spec c c' :
  Validate c = (Ok tt, c') ↔
  ∃ p, NetParamsBTC (BitcoinNetwork c) = Ok p ∧ c' = set_BTCNetParams p c ∧ valid_config c'.
Proof.
  split.
  - unfold Validate. intros Hv. apply bind_Ok_inv in Hv as (c0 & s0 & Hget & Hv). injection Hget as <- <-.
    case_bool_decide as He; [done|].
    apply bind_Ok_inv in Hv as (p & s1 & Hp & Hv). injection Hp as Hp <-.
    apply bind_Ok_inv in Hv as ([] & s2 & Hm & Hv). injection Hm as <-.
    apply bind_Ok_inv in Hv as ([] & s3 & Hr%wrapping_inv & Hv). injection Hr as Hr <-.
    destruct (Metrics c) as [m|] eqn:Em; [|done].
    apply bind_Ok_inv in Hv as (r & s4 & Ha%attempt_inv & Hv). destruct r as [e|[]]; [done|].
    injection Ha as Ha <-. injection Hv as <-. exists p. split; [done|]. split; [done|].
    split_and!; [done|done|done|]. exists m. split; [done|]. by apply MetricsConfig_valid.
  - intros (p & Hp & -> & He & _ & Hr & m & Hm & Hmv). simpl in *.
    apply MetricsConfig_valid in Hmv. unfold Validate, mbind, M_bind, get, lift, modify, wrapping, attempt. simpl.
    rewrite bool_decide_false by done. rewrite Hp. simpl. rewrite Hr. simpl. rewrite Hm, Hmv. done.
Qed.

Lemma valid_validates c : valid_config c → Validate c = (Ok tt, c).
Proof.
  intros Hv. apply Validate_spec. exists (BTCNetParams c). destruct Hv as (? & Hp & ?).
  assert (set_BTCNetParams (BTCNetParams c) c = c) as Hc by by destruct c.
  split; [done|]. split; [done|]. done.
Qed.

(** A valid configuration that was written is loaded back. *)
Lemma written_loads home c f f' :
  valid_config c → choices_ok c → ini_WriteFile (ConfigFile home) c f = (Ok tt, f') → LoadConfig home f' = Ok c.
Proof.
  intros Hv Hch Hw. destruct (ini_written _ _ _ _ Hch Hw) as [Hs Hp].
  unfold LoadConfig, FileExists. rewrite Hs, Hp. simpl.
  assert (Validate (set_BTCNetParams NoParams c) = (Ok tt, c)) as ->; [|done].
  apply Validate_spec. exists (BTCNetParams c). destruct Hv as (? & Hn & ?).
  split; [done|]. split; [by destruct c|done].
Qed.

(** A loaded configuration is valid and its values are choices. *)
Lemma loaded_ok home f c : LoadConfig home f = Ok c → valid_config c ∧ choices_ok c.
Proof.
  unfold LoadConfig. destruct (FileExists _ f); simpl; [|done].
  destruct (ini_ParseFile _ f) as [c0| | |] eqn:Ep; simpl; try done.
  apply ini_choices in Ep. destruct (Validate c0) as [[[]| | |] c1] eqn:Ev; try done.
  intros Hc. injection Hc as <-. apply Validate_spec in Ev as (p & Hp & -> & Hv). by split.
Qed.

(** Mainnet is not one of the choices. *)
Lemma valid_not_mainnet c : valid_config c → choices_ok c → BTCNetParams c ≠ MainNetParams.
Proof.
  intros (_ & Hp & _) (_ & _ & Hnet) Hm. rewrite Hm in Hp. destruct Hnet as [Hn|Hn]; [by rewrite Hn in Hp|].
  unfold BitcoinNetwork_choices in Hn. rewrite !elem_of_cons, elem_of_nil in Hn.
  destruct Hn as [Hn|[Hn|[Hn|[Hn|[]]]]]; by rewrite Hn in Hp.
Qed.

(** What a loaded configuration is: the daemon starts only with an address
    of an EOTS manager, a listener address that resolves, a metrics host and
    a port in range, and the network parameters of its network, which is one
    of regtest, testnet, simnet and signet: mainnet cannot be configured. *)
Theorem loaded_config_is_valid home f c :
  LoadConfig home f = Ok c →
  valid_config c ∧ chosen LogLevel_choices (LogLevel c) ∧
  BitcoinNetwork c ∈ BitcoinNetwork_choices ∧ BTCNetParams c ≠ MainNetParams.
Proof.
  intros [Hv Hch]%loaded_ok. pose proof Hch as (Hlog & _ & Hnet). pose proof Hv as (_ & Hp & _).
  split_and!; [done|done| |by apply valid_not_mainnet].
  destruct Hnet as [Hn|Hn]; [by rewrite Hn in Hp|done].
Qed.

(** The defaults are sane: when the default addresses are accepted, the
    default configuration does not panic, and the file that is written with
    it is loaded as the same configuration. *)
Theorem default_config_roundtrip dc home f f' :
  ResolveTCPAddr DefaultRpcListener = Ok tt → ParseIP "127.0.0.1" = true →
  ∃ c, DefaultConfigWithHome dc home = Ok c ∧ valid_config c ∧ config_wf c ∧
    (ini_WriteFile (ConfigFile home) c f = (Ok tt, f') → LoadConfig home f' = Ok c).
Proof.
  intros Hr Hip. set (c := defaultSettings dc home).
  assert (valid_config c) as Hv.
  { split_and!; [done|done|done|]. exists DefaultFpMetricsConfig. split_and!; simpl; (done || lia). }
  assert (choices_ok c) as Hch.
  { split_and!; right; unfold LogLevel_choices, ChainName_choices, BitcoinNetwork_choices; set_solver. }
  exists c. split_and!.
  - unfold DefaultConfigWithHome. fold c. by rewrite (valid_validates c Hv).
  - done.
  - split; unfold is_u32, is_u64, MaxUint32, MaxUint64; simpl; lia.
  - by apply written_loads.
Qed.

(** The connection settings of the Babylon client are those of the
    configuration, but for the gRPC address, which is dropped. *)
Lemma babylon_config_drops_grpc bc : bc_GRPCAddr (BBNConfigToBabylonConfig bc) = "".
Proof. done. Qed.
End theorems.
