(* ===== verification/Server.v ===== *)
(** * Server: the life of a daemon's server

    Models [RunUntilShutdown] of [src/finality-provider/service/server.go] and
    of [src/eotsmanager/service/server.go], which have the same body, and the
    start and stop of [src/metrics/server.go]. The state is the counter
    [started] and the sequence of what was opened and closed. [net.Listen] is
    a parameter. *)

From stdpp Require Import base list strings.
From Stdlib Require Import ZArith Lia.
From S2P Require Import Prelude Errors Monad Version Paths Log Config.

(** What the server does to the resources of the process *)
Inductive resource := MetricsServer | Listener | GrpcServer | Database.
Inductive srv_event :=
  | Opened (r : resource) (addr : string)
  | Closed (r : resource).

(** [net.Listen]. The errors of [db.Close] and of [http.Server.Shutdown] are
    only logged. *)
Class Network := {
  net_Listen : string → outcome unit;
}.

Record Server := mkServer {
  sv_started : Z;                 (* an int32 *)
  sv_events : list srv_event;         (* the latest first *)
}.

Definition emit (e : srv_event) : M Server unit :=
  modify (λ s, mkServer (sv_started s) (e :: sv_events s)).
Definition emitted (e : srv_event) (s : Server) : Server := mkServer (sv_started s) (e :: sv_events s).

(** A new server of either daemon *)
Definition NewServer : Server := mkServer 0 [].

(** [atomic.AddInt32] *)
Definition i32 (z : Z) : Z := ((z + 2 ^ 31) mod 2 ^ 32 - 2 ^ 31)%Z.

Section server.
Context `{Net} `{Network}.

(** metrics/server.go: [Start] makes the server and serves in a goroutine;
    [Stop] logs a failure. *)
Definition metrics_Start (addr : string) : M Server unit := emit (Opened MetricsServer addr).
Definition metrics_Stop (s : Server) : Server := emitted (Closed MetricsServer) s.

(** The deferred functions *)
Definition closeDatabase (s : Server) : Server := metrics_Stop (emitted (Closed Database) s).
Definition closeListener (s : Server) : Server := emitted (Closed Listener) s.
Definition stopGrpc (s : Server) : Server := emitted (Closed GrpcServer) s.

(** [startGrpcListen] with one listener: it returns when the goroutine runs. *)
Definition startGrpcListen (addr : string) : M Server unit := emit (Opened GrpcServer addr).

(** [RunUntilShutdown]: [metrics] is the pointer [cfg.Metrics], [listenAddr]
    is [cfg.RpcListener]. The last step waits for the shutdown signal. *)
Definition RunUntilShutdown (metrics : option MetricsConfig) (listenAddr : string) : M Server unit :=
  modify (λ s, mkServer (i32 (sv_started s + 1)) (sv_events s)) ;;
  started ← gets sv_started;
  if negb (started =? 1)%Z then mret tt
  else
    match metrics with
    | None => fatal "nil pointer dereference"
    | Some m =>
        promAddr ← wrapping "failed to get prometheus address: " (lift (MetricsConfig_Address m));
        metrics_Start promAddr ;;
        deferring closeDatabase
          (wrapping ("failed to listen on " +:+ listenAddr +:+ ": ") (lift (net_Listen listenAddr)) ;;
           emit (Opened Listener listenAddr) ;;
           deferring closeListener
             (deferring stopGrpc
                (startGrpcListen listenAddr ;;
                 mret tt)))
    end.
End server.

(** ** Theorems *)

Section theorems.
Context `{Net} `{Network}.

(** The events of a run that serves until the shutdown signal, in order *)
Definition served (promAddr listenAddr : string) : list srv_event :=
  [Opened MetricsServer promAddr; Opened Listener listenAddr; Opened GrpcServer listenAddr;
   Closed GrpcServer; Closed Listener; Closed Database; Closed MetricsServer].

(** Every resource that was opened was closed afterwards. *)
Definition all_closed (es : list srv_event) : Prop :=
  ∀ r a pre post, es = pre ++ Opened r a :: post → Closed r ∈ post.

Lemma all_closed_cons e es : all_closed es → (∀ r a, e = Opened r a → Closed r ∈ es) → all_closed (e :: es).
Proof. intros Hes He r a [|x pre] post [= -> ->]; [by eapply He|by eapply Hes]. Qed.

Lemma all_closed_nil : all_closed [].
Proof. by intros r a [|] post. Qed.

(** Proves [all_closed] of a concrete sequence. *)
Ltac closes :=
  repeat (apply all_closed_cons; [|by (intros r a Hr; try discriminate Hr; injection Hr as -> ->;
    rewrite ?elem_of_cons; naive_solver)]); apply all_closed_nil.

(** The life of a server with a metrics configuration that is valid: a
    run that can listen serves and then closes in the reverse order, one that
    cannot listen closes the database and the metrics server, and both close
    everything they opened, with the database last but for the metrics. A
    second run does nothing. A configuration that is not valid returns before
    the database is closed. *)
Theorem server_closes_what_it_opened m listenAddr o s :
  RunUntilShutdown (Some m) listenAddr NewServer = (o, s) →
  let es := reverse (sv_events s) in
  ((o = Ok tt ∨ ∃ e, o = Err e) → all_closed es) ∧
  (∀ prom, MetricsConfig_Address m = Ok prom → net_Listen listenAddr = Ok tt →
     o = Ok tt ∧ es = served prom listenAddr ∧
     RunUntilShutdown (Some m) listenAddr s = (Ok tt, mkServer 2 (sv_events s))) ∧
  (∀ prom e, MetricsConfig_Address m = Ok prom → net_Listen listenAddr = Err e →
     o = Err (Wrap ("failed to listen on " +:+ listenAddr +:+ ": ") e "") ∧
     es = [Opened MetricsServer prom; Closed Database; Closed MetricsServer]) ∧
  (∀ e, MetricsConfig_Address m = Err e → o = Err (Wrap "failed to get prometheus address: " e "") ∧ es = []).
Proof.
  unfold RunUntilShutdown, mbind, M_bind, modify, gets, wrapping, lift, deferring, emit. simpl.
  destruct (MetricsConfig_Address m) as [prom|e|msg|] eqn:Ea; simpl.
  - destruct (net_Listen listenAddr) as [[]|e|msg|]; simpl; intros Hr; injection Hr as <- <-; simpl;
      (split_and!; [|naive_solver..]); (intros _; closes) || (by intros [|[]]).
  - intros Hr. injection Hr as <- <-. split_and!; [intros _; closes|naive_solver..].
  - intros Hr. injection Hr as <- <-. split_and!; [by intros [|[]]|naive_solver..].
  - intros Hr. injection Hr as <- <-. split_and!; [by intros [|[]]|naive_solver..].
Qed.
End theorems.
