(* ===== verification/EotsConfig.v ===== *)
(** * EotsConfig: the settings of the EOTS daemon

    Models [src/eotsmanager/config/] (config.go, db.go): the settings of
    eotsd, their defaults, validation and loading. *)

From stdpp Require Import base list sets strings pretty.
From Stdlib Require Import ZArith Lia.
From S2P Require Import Prelude Errors Monad Version Paths Log Config.

Local Open Scope Z_scope.

Record ec_DBConfig := mkEcDBConfig {
  ec_DBPath : string;
  ec_DBFileName : string;
  ec_NoFreelistSync : bool;
  ec_AutoCompact : bool;
  ec_AutoCompactMinAge : Z;                (* a time.Duration *)
  ec_DBTimeout : Z;
}.

Definition ec_DBConfigToBoltBackendConfig (db : ec_DBConfig) : BoltBackendConfig :=
  mkBoltBackendConfig (ec_DBPath db) (ec_DBFileName db) (ec_NoFreelistSync db) (ec_AutoCompact db)
    (ec_AutoCompactMinAge db) (ec_DBTimeout db).

Definition ec_GetDbBackend {B} (GetBoltBackend : BoltBackendConfig → outcome B) (db : ec_DBConfig) : outcome B :=
  GetBoltBackend (ec_DBConfigToBoltBackendConfig db).

Record EotsConfig := mkEotsConfig {
  ec_LogLevel : string;
  ec_KeyringBackend : string;
  ec_RpcListener : string;
  ec_Metrics : option MetricsConfig;       (* a pointer *)
  ec_DatabaseConfig : ec_DBConfig;
}.

Definition ec_Validate `{Net} (cfg : EotsConfig) : outcome unit :=
  match ResolveTCPAddr (ec_RpcListener cfg) with
  | Ok _ =>
      if bool_decide (ec_KeyringBackend cfg = "")
      then Err (ErrorString "the keyring backend should not be empty")
      else match ec_Metrics cfg with
           | None => Err (ErrorString "empty metrics config")
           | Some m =>
               match MetricsConfig_Validate m with
               | Err _ => Err (ErrorString "invalid metrics config")
               | r => r
               end
           end
  | Err e => Err (Wrap ("invalid RPC listener address " +:+ ec_RpcListener cfg +:+ ", ") e "")
  | r => r
  end.

Definition ec_ConfigFile (homePath : string) : string := Join homePath "eotsd.conf".
Definition ec_LogDir (homePath : string) : string := Join homePath "logs".
Definition ec_LogFile (homePath : string) : string := Join (ec_LogDir homePath) "eotsd.log".
Definition ec_DataDir (homePath : string) : string := Join homePath "data".
Definition ec_defaultRpcListener : string := "127.0.0.1:" +:+ pretty eots_DefaultRPCPort.

Definition ec_DefaultDBConfigWithHomePath `{KvdbDefaults} (homePath : string) : ec_DBConfig :=
  mkEcDBConfig (ec_DataDir homePath) "eots.db" true false DefaultBoltAutoCompactMinAge DefaultDBTimeout.

(** [DefaultEOTSDir] is computed by [btcutil.AppDataDir]. *)
Definition ec_DefaultDBConfig `{KvdbDefaults} (DefaultEOTSDir : string) : ec_DBConfig :=
  ec_DefaultDBConfigWithHomePath DefaultEOTSDir.

(** The literal of [DefaultConfigWithHomePath]; [keyring.BackendTest] is
    "test". *)
Definition ec_defaultSettings `{KvdbDefaults} (homePath : string) : EotsConfig := {|
  ec_LogLevel := "debug";
  ec_KeyringBackend := "test";
  ec_RpcListener := ec_defaultRpcListener;
  ec_Metrics := Some DefaultEotsMetricsConfig;
  ec_DatabaseConfig := ec_DefaultDBConfigWithHomePath homePath;
|}.

Definition ec_DefaultConfigWithHomePath `{Net} `{KvdbDefaults} (homePath : string) : outcome EotsConfig :=
  match ec_Validate (ec_defaultSettings homePath) with
  | Ok _ => Ok (ec_defaultSettings homePath)
  | Err e => Fatal (Error e)
  | Fatal m => Fatal m
  | OutOfFuel => OutOfFuel
  end.

Definition ec_DefaultConfig `{Net} `{KvdbDefaults} (DefaultEOTSDir : string) : outcome EotsConfig :=
  ec_DefaultConfigWithHomePath DefaultEOTSDir.

Definition ec_LoadConfig `{Net} {F} `{!FileSystem F} `{!IniFile F EotsConfig} (homePath : string) (f : F)
    : outcome EotsConfig :=
  let cfgFile := ec_ConfigFile homePath in
  if negb (FileExists cfgFile f)
  then Err (ErrorString ("specified config file does not exist in " +:+ cfgFile))
  else
    cfg ← ini_ParseFile cfgFile f;
    ec_Validate cfg ≫= λ _, Ok cfg.

(** What go-flags promises for these settings, as in [Config] *)
Class EotsIniLaws (F : Type) `{!FileSystem F} `{!IniFile F EotsConfig} : Prop := {
  eots_ini_choices p (f : F) c : ini_ParseFile p f = Ok c → chosen LogLevel_choices (ec_LogLevel c);
  eots_ini_written p c (f f' : F) :
    chosen LogLevel_choices (ec_LogLevel c) → ini_WriteFile p c f = (Ok tt, f') →
    os_Stat p f' = StatOk ∧ ini_ParseFile p f' = Ok c;
}.

(** ** Theorems *)

Section theorems.
Context `{Net} `{KvdbDefaults} {F : Type} `{!FileSystem F} `{!IniFile F EotsConfig} `{!EotsIniLaws F}.
Implicit Types (c : EotsConfig) (f : F).

Definition ec_valid c : Prop :=
  ResolveTCPAddr (ec_RpcListener c) = Ok tt ∧ ec_KeyringBackend c ≠ "" ∧
  ∃ m, ec_Metrics c = Some m ∧ 0 <= mc_Port m <= 65535 ∧ ParseIP (mc_Host m) = true.

Lemma ec_Validate_spec c : ec_Validate c = Ok tt ↔ ec_valid c.
Proof.
  unfold ec_Validate, ec_valid. destruct (ResolveTCPAddr _) as [[]| | |]; [|naive_solver..].
  case_bool_decide; [naive_solver|]. destruct (ec_Metrics c) as [m|]; [|naive_solver].
  pose proof (MetricsConfig_valid m) as Hm. destruct (MetricsConfig_Validate m) as [[]| | |]; naive_solver.
Qed.

Lemma ec_loaded home f c :
  ec_LoadConfig home f = Ok c → ec_valid c ∧ chosen LogLevel_choices (ec_LogLevel c).
Proof.
  unfold ec_LoadConfig. destruct (FileExists _ f); simpl; [|done].
  destruct (ini_ParseFile _ f) as [c0| | |] eqn:Ep; simpl; try done.
  destruct (ec_Validate c0) as [[]| | |] eqn:Ev; simpl; try done. intros Hc. injection Hc as <-.
  split; [by apply ec_Validate_spec|by eapply eots_ini_choices].
Qed.

(** A valid configuration that was written is loaded back. *)
Lemma ec_written_loads home c f f' :
  ec_valid c → chosen LogLevel_choices (ec_LogLevel c) →
  ini_WriteFile (ec_ConfigFile home) c f = (Ok tt, f') → ec_LoadConfig home f' = Ok c.
Proof.
  intros Hv Hch Hw. destruct (eots_ini_written _ _ _ _ Hch Hw) as [Hs Hp].
  apply ec_Validate_spec in Hv. unfold ec_LoadConfig, FileExists. rewrite Hs, Hp. simpl. by rewrite Hv.
Qed.
End theorems.
