(* ===== verification/Types.v ===== *)
(** * Types: the data the components exchange, and the libraries they call

    The structs of [src/types/] and of the generated protobuf package that
    the program stores and sends, the finality provider status, and, as
    type classes, the functions of the libraries that are not under src/
    (btcec, the EOTS and BIP-340 packages of Babylon, the Cosmos SDK, the
    protobuf codecs). What the program relies on is stated as laws. *)

From stdpp Require Import base gmap list strings.
From Stdlib Require Import ZArith Lia.
From S2P Require Import Prelude Errors Monad.

(** ** The structs of src/types and of the protobuf package *)

(** [types.BlockInfo] *)
Record BlockInfo := mkBlockInfo {
  Height : Z;
  Hash : bytes;
  Finalized : bool;
}.

(** [provider.RelayerEvent] and [types.TxResponse] *)
Record RelayerEvent := mkRelayerEvent {
  EventType : string;
  Attributes : list (string * string);
}.

Record TxResponse := mkTxResponse {
  TxHash : string;
  Events : list RelayerEvent;
}.

(** [proto.FinalityProviderStatus] with the numbers of the protobuf enum *)
Inductive FinalityProviderStatus :=
  | CREATED | REGISTERED | ACTIVE | INACTIVE | SLASHED | JAILED.

#[global] Instance status_eq_dec : EqDecision FinalityProviderStatus.
Proof. solve_decision. Defined.

Definition status_number (s : FinalityProviderStatus) : Z :=
  match s with
  | CREATED => 0 | REGISTERED => 1 | ACTIVE => 2
  | INACTIVE => 3 | SLASHED => 4 | JAILED => 5
  end%Z.

(** [status.String()] *)
Definition status_String (s : FinalityProviderStatus) : string :=
  match s with
  | CREATED => "CREATED" | REGISTERED => "REGISTERED" | ACTIVE => "ACTIVE"
  | INACTIVE => "INACTIVE" | SLASHED => "SLASHED" | JAILED => "JAILED"
  end.

(** [stakingtypes.Description], and [proto.Description] with the same fields *)
Record Description := mkDescription {
  Moniker : string;
  Identity : string;
  Website : string;
  SecurityContact : string;
  Details : string;
}.

(** [proto.ProofOfPossession] *)
Record ProofOfPossession := mkPoP { BtcSig : bytes }.

(** [proto.FinalityProvider]; [Pop] is a pointer. *)
Record FinalityProvider := mkFinalityProvider {
  FpAddr : string;
  BtcPk : bytes;
  Desc : bytes;
  Commission : string;
  Pop : option ProofOfPossession;
  KeyName : string;
  ChainId : string;
  LastVotedHeight : Z;
  LastProcessedHeight : Z;
  Status : FinalityProviderStatus;
}.

(** [proto.FinalityProviderInfo] *)
Record FinalityProviderInfo := mkFinalityProviderInfo {
  info_FpAddr : string;
  info_BtcPkHex : string;
  info_Description : Description;
  info_Commission : string;
  info_LastVotedHeight : Z;
  info_Status : string;
  info_IsRunning : bool;
}.

Definition fp_with_status (st : FinalityProviderStatus) (fp : FinalityProvider) :=
  mkFinalityProvider (FpAddr fp) (BtcPk fp) (Desc fp) (Commission fp) (Pop fp) (KeyName fp)
    (ChainId fp) (LastVotedHeight fp) (LastProcessedHeight fp) st.
Definition fp_with_voted (h : Z) (fp : FinalityProvider) :=
  mkFinalityProvider (FpAddr fp) (BtcPk fp) (Desc fp) (Commission fp) (Pop fp) (KeyName fp)
    (ChainId fp) h (LastProcessedHeight fp) (Status fp).
Definition fp_with_processed (h : Z) (fp : FinalityProvider) :=
  mkFinalityProvider (FpAddr fp) (BtcPk fp) (Desc fp) (Commission fp) (Pop fp) (KeyName fp)
    (ChainId fp) (LastVotedHeight fp) h (Status fp).
Definition fp_with_description (d : bytes) (c : string) (fp : FinalityProvider) :=
  mkFinalityProvider (FpAddr fp) (BtcPk fp) d c (Pop fp) (KeyName fp)
    (ChainId fp) (LastVotedHeight fp) (LastProcessedHeight fp) (Status fp).

(** ** Libraries: keys and signatures *)

Class Crypto := {
  PublicKey : Type;
  PrivateKey : Type;
  FieldVal : Type;       (* public randomness *)
  ModNScalar : Type;     (* private randomness, EOTS signatures *)
  SchnorrSig : Type;
  MerkleProof : Type;

  (* btcec/schnorr *)
  SerializePubKey : PublicKey → bytes;
  ParsePubKey : bytes → outcome PublicKey;
  btcec_ParsePubKey : bytes → outcome PublicKey;  (* the compressed encoding *)
  PrivKey_Serialize : PrivateKey → bytes;
  PrivKeyFromBytes : bytes → PrivateKey;
  schnorr_Sign : PrivateKey → bytes → outcome SchnorrSig;
  SchnorrSig_Serialize : SchnorrSig → bytes;
  ParseSignature : bytes → outcome SchnorrSig;
  FieldVal_Bytes : FieldVal → bytes;
  FieldVal_SetByteSlice : bytes → FieldVal;
  ModNScalar_Bytes : ModNScalar → bytes;
  ModNScalar_SetByteSlice : bytes → ModNScalar;
  scalar_PubKey_X : ModNScalar → FieldVal;  (* X coordinate of the scalar's public key *)

  (* babylon/types: BIP340PubKey is a []byte *)
  NewBIP340PubKeyFromBTCPK : PublicKey → bytes;
  NewBIP340PubKeyFromHex : string → outcome bytes;
  NewBIP340PubKey : bytes → outcome bytes;
  MarshalHex : bytes → string;
  MustToBTCPK : bytes → outcome PublicKey;
  MustMarshal : bytes → outcome bytes;
  NewSchnorrEOTSSigFromModNScalar : ModNScalar → bytes;
  ToModNScalar : bytes → ModNScalar;
  SchnorrPubRand_MustMarshal : FieldVal → outcome bytes; (* NewSchnorrPubRandFromFieldVal(_).MustMarshal() *)

  (* babylon/crypto/eots *)
  eots_Sign : PrivateKey → ModNScalar → bytes → outcome ModNScalar;
  eots_Verify : PublicKey → FieldVal → bytes → ModNScalar → bool;
  PubKey : PrivateKey → PublicKey;

  (* hashes and Merkle trees *)
  hmac_sha256 : bytes → bytes → bytes;
  tmhash_Sum : bytes → bytes;
  merkle_ProofsFromByteSlices : list bytes → bytes * list MerkleProof;
  proof_Marshal : MerkleProof → outcome bytes;

  (* cosmos-sdk/types *)
  Uint64ToBigEndian : Z → bytes;
}.

Class CryptoLaws `{Crypto} : Prop := {
  (** BIP-340 keys keep the X coordinate only: parsing a serialized key gives
      a key with the same serialization, not always the same key. *)
  parse_serialize pk :
    ∃ pk', ParsePubKey (SerializePubKey pk) = Ok pk' ∧ SerializePubKey pk' = SerializePubKey pk;
  bip340_of_pk pk : NewBIP340PubKeyFromBTCPK pk = SerializePubKey pk;
  must_to_btc_pk pk :
    ∃ pk', MustToBTCPK (SerializePubKey pk) = Ok pk' ∧ SerializePubKey pk' = SerializePubKey pk;
  must_marshal pk : MustMarshal (SerializePubKey pk) = Ok (SerializePubKey pk);
  marshal_hex_inj a b : MarshalHex a = MarshalHex b → a = b;
  hex_roundtrip pk : NewBIP340PubKeyFromHex (MarshalHex (SerializePubKey pk)) = Ok (SerializePubKey pk);
  pubkey_length pk : length (SerializePubKey pk) = 32;
  (** Fixed-length encodings and their inverses. *)
  field_bytes_roundtrip v : FieldVal_SetByteSlice (FieldVal_Bytes v) = v;
  scalar_bytes_roundtrip v : ModNScalar_SetByteSlice (ModNScalar_Bytes v) = v;
  eots_sig_roundtrip v : ToModNScalar (NewSchnorrEOTSSigFromModNScalar v) = v;
  schnorr_sig_roundtrip v : ParseSignature (SchnorrSig_Serialize v) = Ok v;
  privkey_roundtrip k : PrivKeyFromBytes (PrivKey_Serialize k) = k;
  pubrand_marshal v : ∃ b, SchnorrPubRand_MustMarshal v = Ok b;
  (** An EOTS signature made with a private randomness verifies under the
      public randomness derived from it. *)
  eots_sign_verify sk r msg s :
    eots_Sign sk r msg = Ok s → eots_Verify (PubKey sk) (scalar_PubKey_X r) msg s = true;
  (** One proof per leaf. *)
  merkle_proofs_length ls : length (merkle_ProofsFromByteSlices ls).2 = length ls;
  (** Eight bytes, big endian: injective on [uint64]. *)
  be_length z : length (Uint64ToBigEndian z) = 8;
  be_inj a b : is_u64 a → is_u64 b → Uint64ToBigEndian a = Uint64ToBigEndian b → a = b;
}.

(** ** Libraries: codecs of the Cosmos SDK and of the protobuf package *)

Class Codec := {
  LegacyDec : Type;
  LegacyDec_String : LegacyDec → string;
  LegacyNewDecFromStr : string → outcome LegacyDec;
  Description_Marshal : Description → outcome bytes;
  Description_Unmarshal : bytes → outcome Description;
  AccAddress_String : bytes → string;
  AccAddressFromBech32 : string → outcome bytes;
  pm_Marshal : FinalityProvider → outcome bytes;
  pm_Unmarshal : bytes → outcome FinalityProvider;
}.

(** The protobuf message of a finality provider holds [uint64] heights. *)
Definition fp_in_range (fp : FinalityProvider) : Prop :=
  is_u64 (LastVotedHeight fp) ∧ is_u64 (LastProcessedHeight fp).

Class CodecLaws `{Codec} : Prop := {
  legacy_dec_roundtrip d : LegacyNewDecFromStr (LegacyDec_String d) = Ok d;
  legacy_dec_empty : ∃ e, LegacyNewDecFromStr "" = Err e;
  description_roundtrip d b : Description_Marshal d = Ok b → Description_Unmarshal b = Ok d;
  acc_address_roundtrip a : AccAddressFromBech32 (AccAddress_String a) = Ok a;
  pm_roundtrip fp b : fp_in_range fp → pm_Marshal fp = Ok b → pm_Unmarshal b = Ok fp;
  pm_range b fp : pm_Unmarshal b = Ok fp → fp_in_range fp;
  (** Encoders and decoders return a value or an error. *)
  pm_Marshal_returns fp : (∃ b, pm_Marshal fp = Ok b) ∨ (∃ e, pm_Marshal fp = Err e);
  pm_Unmarshal_returns b : (∃ fp, pm_Unmarshal b = Ok fp) ∨ (∃ e, pm_Unmarshal b = Err e);
}.
