(* ===== verification/Kvdb.v ===== *)
(** * Kvdb: the key-value database behind the stores

    The stores use [kvdb] of lnd over bbolt: buckets of byte strings inside
    transactions. The database is a parameter; the laws state what its
    documentation promises. A read-write transaction ([kvdb.Batch]) commits
    when its function returns nil and is rolled back when it returns an
    error; a read transaction ([View]) changes nothing. *)

From stdpp Require Import base gmap list strings.
From Stdlib Require Import ZArith Lia.
From S2P Require Import Prelude Errors Monad.

Class Kvdb (Db : Type) := {
  (** [tx.ReadBucket(name)] and [tx.ReadWriteBucket(name)] are not nil *)
  bucket_exists : Db → bytes → bool;
  CreateTopLevelBucket : bytes → Db → outcome Db;
  bucket_Get : Db → bytes → bytes → option bytes;
  bucket_Put : bytes → bytes → bytes → Db → outcome Db;
  (** the pairs [bucket.ForEach] visits, in its order *)
  bucket_pairs : Db → bytes → list (bytes * bytes);
  (** [kvdb.Batch(db, f)] *)
  Batch : (Db → outcome Db) → M Db unit;
  (** [db.View(f)] *)
  View : ∀ {A}, (Db → outcome A) → Db → outcome A;
}.

(** Safety: holds for a backend whose disk may fail. *)
Class KvdbLaws (Db : Type) `{Kvdb Db} : Prop := {
  batch_Ok f db db' : Batch f db = (Ok tt, db') → f db = Ok db';
  batch_not_Ok f db o db' : Batch f db = (o, db') → o ≠ Ok tt → db' = db;
  batch_Err f db e : f db = Err e → Batch f db = (Err e, db);
  batch_Fatal f db msg : f db = Fatal msg → Batch f db = (Fatal msg, db);
  batch_OutOfFuel f db : f db = OutOfFuel → Batch f db = (OutOfFuel, db);
  view_Ok A (f : Db → outcome A) db a : View f db = Ok a → f db = Ok a;
  create_Ok n db db' : CreateTopLevelBucket n db = Ok db' → bucket_exists db' n = true;
  create_exists n n' db db' :
    CreateTopLevelBucket n db = Ok db' → bucket_exists db n' = true → bucket_exists db' n' = true;
  create_Get n db db' n' k :
    CreateTopLevelBucket n db = Ok db' → bucket_Get db' n' k = bucket_Get db n' k;
  put_exists n k v db db' n' :
    bucket_Put n k v db = Ok db' → bucket_exists db' n' = bucket_exists db n';
  put_Get_eq n k v db db' : bucket_Put n k v db = Ok db' → bucket_Get db' n k = Some v;
  put_Get_ne n k v db db' n' k' :
    bucket_Put n k v db = Ok db' → (n', k') ≠ (n, k) → bucket_Get db' n' k' = bucket_Get db n' k';
  pairs_Get db n k v : (k, v) ∈ bucket_pairs db n ↔ bucket_Get db n k = Some v;
  pairs_NoDup db n : NoDup (bucket_pairs db n).*1;
}.

(** Liveness: a healthy backend does what it is asked to do. *)
Class KvdbReliable (Db : Type) `{Kvdb Db} : Prop := {
  batch_commit f db db' : f db = Ok db' → Batch f db = (Ok tt, db');
  view_reads A (f : Db → outcome A) db : View f db = f db;
  put_succeeds n k v db :
    bucket_exists db n = true → k ≠ [] → ∃ db', bucket_Put n k v db = Ok db';
}.

(** ** A model of the database

    A finite map from bucket names to finite maps, in memory. It shows that
    the laws can hold together and is the database of the examples. *)

Abbreviation mem_db := (gmap bytes (gmap bytes bytes)).

Definition mem_bucket (db : mem_db) (n : bytes) : gmap bytes bytes := default ∅ (db !! n).

Definition mem_Put (n k v : bytes) (db : mem_db) : outcome mem_db :=
  match db !! n with
  | None => Err (ErrorString "bucket not found")
  | Some b => if decide (k = []) then Err (ErrorString "key required")
              else Ok (<[n := <[k := v]> b]> db)
  end.

#[global] Instance mem_kvdb : Kvdb mem_db := {
  bucket_exists db n := bool_decide (is_Some (db !! n));
  CreateTopLevelBucket n db := Ok (match db !! n with Some _ => db | None => <[n := ∅]> db end);
  bucket_Get db n k := mem_bucket db n !! k;
  bucket_Put := mem_Put;
  bucket_pairs db n := map_to_list (mem_bucket db n);
  Batch f db := match f db with
                | Ok db' => (Ok tt, db')
                | Err e => (Err e, db)
                | Fatal msg => (Fatal msg, db)
                | OutOfFuel => (OutOfFuel, db)
                end;
  View A f db := f db;
}.

Lemma mem_Put_inv n k v db db' :
  mem_Put n k v db = Ok db' → ∃ b, db !! n = Some b ∧ k ≠ [] ∧ db' = <[n := <[k := v]> b]> db.
Proof. unfold mem_Put. intros. repeat case_match; simplify_eq; eauto. Qed.

#[global] Instance mem_kvdb_laws : KvdbLaws mem_db.
Proof.
  split; simpl.
  - intros f db db'. destruct (f db); naive_solver.
  - intros f db o db'. destruct (f db); naive_solver.
  - by intros f db e ->.
  - by intros f db e ->.
  - by intros f db ->.
  - done.
  - intros n db db'. case_match eqn:E; intros; simplify_eq;
      rewrite bool_decide_eq_true; [by rewrite E|by rewrite lookup_insert_eq].
  - intros n n' db db'. rewrite !bool_decide_eq_true. case_match; intros; simplify_eq; [done|].
    rewrite lookup_insert. by case_decide.
  - intros n db db' n' k. unfold mem_bucket. case_match eqn:E; intros; simplify_eq; [done|].
    rewrite lookup_insert. case_decide; [subst; by rewrite E|done].
  - intros n k v db db' n' (b & Hb & _ & ->)%mem_Put_inv. apply bool_decide_ext.
    rewrite lookup_insert. case_decide; [subst; by rewrite Hb|done].
  - intros n k v db db' (b & Hb & _ & ->)%mem_Put_inv. unfold mem_bucket.
    by rewrite lookup_insert_eq; simpl; rewrite lookup_insert_eq.
  - intros n k v db db' n' k' (b & Hb & _ & ->)%mem_Put_inv Hne. unfold mem_bucket.
    rewrite lookup_insert. case_decide; [subst; simpl|done].
    rewrite Hb. simpl. rewrite lookup_insert_ne; [done|congruence].
  - intros db n k v. apply elem_of_map_to_list.
  - intros db n. apply NoDup_fst_map_to_list.
Qed.

#[global] Instance mem_kvdb_reliable : KvdbReliable mem_db.
Proof.
  split; simpl.
  - by intros f db db' ->.
  - done.
  - intros n k v db. rewrite bool_decide_eq_true. intros [b Hb] Hk. unfold mem_Put.
    rewrite Hb. case_decide; [done|eauto].
Qed.

(** ** Lemmas shared by the stores *)

Section batch.
Context {Db : Type} `{KvdbLaws Db}.

(** A transaction either commits what its function computed or leaves the
    database as it was. *)
Lemma batch_cases f db o db' :
  Batch f db = (o, db') → (o = Ok tt ∧ f db = Ok db') ∨ (o ≠ Ok tt ∧ db' = db).
Proof.
  intros E. destruct o as [[]| | |]; [left; eauto using batch_Ok|right; split; [done|]..];
    by eapply batch_not_Ok.
Qed.

Lemma batch_frame (R : Db → Db → Prop) `{!Reflexive R} f :
  (∀ db db', f db = Ok db' → R db db') → frame R (Batch f).
Proof.
  intros Hf db. destruct (Batch f db) as [o db'] eqn:E.
  apply batch_cases in E as [[_ E]|[_ ->]]; simpl; [by apply Hf|done].
Qed.
End batch.
