(* ===== verification/SampleEnv.v ===== *)
(** * SampleEnv: a concrete instance of the libraries

    Toy keys, signatures and codecs that satisfy the laws of [Types]. They
    show that the laws can hold together, and they make the model run on
    concrete inputs. *)

From stdpp Require Import base gmap list strings.
From Stdlib Require Import ZArith Lia Strings.Byte.
From S2P Require Import Prelude Errors Monad Types.

(** ** Big-endian integers *)

Definition byte_of_Z (z : Z) : Byte.byte := default Byte.x00 (Byte.of_N (Z.to_N (z mod 256))).
Definition Z_of_byte (b : Byte.byte) : Z := Z.of_N (Byte.to_N b).

Lemma Z_of_byte_of_Z z : Z_of_byte (byte_of_Z z) = (z mod 256)%Z.
Proof.
  unfold Z_of_byte, byte_of_Z. pose proof (Z.mod_pos_bound z 256 ltac:(lia)) as Hb.
  destruct (Byte.of_N (Z.to_N (z mod 256))) as [b|] eqn:E; simpl.
  - apply Byte.to_of_N in E. lia.
  - apply Byte.of_N_None_iff in E. lia.
Qed.

Lemma Z_of_byte_range b : (0 <= Z_of_byte b < 256)%Z.
Proof. unfold Z_of_byte. pose proof (Byte.to_N_bounded b). lia. Qed.

Fixpoint be_enc (n : nat) (z : Z) : bytes :=
  match n with
  | O => []
  | S n => be_enc n (z / 256) ++ [byte_of_Z z]
  end.

Fixpoint be_dec_rev (l : bytes) : Z :=
  match l with
  | [] => 0
  | b :: l => Z_of_byte b + 256 * be_dec_rev l
  end.

Definition be_dec (l : bytes) : Z := be_dec_rev (rev l).

Lemma be_enc_length n z : length (be_enc n z) = n.
Proof. revert z. induction n as [|n IH]; intros z; simpl; [done|]. rewrite length_app, IH. simpl. lia. Qed.

Lemma be_dec_enc n z : be_dec (be_enc n z) = (z mod 256 ^ Z.of_nat n)%Z.
Proof.
  unfold be_dec. revert z. induction n as [|n IH]; intros z; [by rewrite Z.mod_1_r|].
  cbn [be_enc]. rewrite rev_app_distr. cbn [rev app be_dec_rev].
  rewrite IH, Z_of_byte_of_Z, Nat2Z.inj_succ, Z.pow_succ_r by lia.
  rewrite Z.rem_mul_r by lia. lia.
Qed.

Lemma be_dec_rev_range l : (0 <= be_dec_rev l < 256 ^ Z.of_nat (length l))%Z.
Proof.
  induction l as [|b l IH]; [simpl; lia|]. cbn [be_dec_rev length].
  rewrite Nat2Z.inj_succ, Z.pow_succ_r by lia. pose proof (Z_of_byte_range b). lia.
Qed.

Lemma be_dec_u64 l : length l = 8 → is_u64 (be_dec l).
Proof.
  intros Hl. pose proof (be_dec_rev_range (rev l)) as Hr. rewrite length_rev, Hl in Hr.
  unfold be_dec. u64_unfold. change (256 ^ Z.of_nat 8)%Z with (2 ^ 64)%Z in Hr. lia.
Qed.

Lemma be_dec_enc_u64 z : is_u64 z → be_dec (be_enc 8 z) = z.
Proof.
  intros Hz. rewrite be_dec_enc. change (256 ^ Z.of_nat 8)%Z with (2 ^ 64)%Z.
  by apply u64_small.
Qed.

#[global] Arguments be_enc : simpl never.
#[global] Arguments be_dec : simpl never.

(** ** Toy cryptography *)

Definition toy_error : error := ErrorString "malformed".

#[global] Instance sample_crypto : Crypto := {|
  PublicKey := Byte.byte;
  PrivateKey := Byte.byte;
  FieldVal := bytes;
  ModNScalar := bytes;
  SchnorrSig := bytes;
  MerkleProof := bytes;
  SerializePubKey pk := replicate 32 pk;
  ParsePubKey b := match b with pk :: _ => Ok pk | [] => Err toy_error end;
  btcec_ParsePubKey b := match b with pk :: _ => Ok pk | [] => Err toy_error end;
  PrivKey_Serialize k := [k];
  PrivKeyFromBytes b := match b with k :: _ => k | [] => Byte.x00 end;
  schnorr_Sign k msg := Ok (k :: msg);
  SchnorrSig_Serialize s := s;
  ParseSignature b := Ok b;
  FieldVal_Bytes v := v;
  FieldVal_SetByteSlice b := b;
  ModNScalar_Bytes v := v;
  ModNScalar_SetByteSlice b := b;
  scalar_PubKey_X v := v;
  NewBIP340PubKeyFromBTCPK pk := replicate 32 pk;
  NewBIP340PubKeyFromHex s :=
    if bool_decide (String.length s = 32) then Ok (bytes_of_string s) else Err toy_error;
  NewBIP340PubKey b := Ok b;
  MarshalHex := string_of_bytes;
  MustToBTCPK b := match b with pk :: _ => Ok pk | [] => Fatal "invalid public key" end;
  MustMarshal b := Ok b;
  NewSchnorrEOTSSigFromModNScalar v := v;
  ToModNScalar b := b;
  SchnorrPubRand_MustMarshal v := Ok v;
  eots_Sign sk r msg := Ok (sk :: r ++ msg);
  eots_Verify pk R msg s := bool_decide (s = pk :: R ++ msg);
  PubKey sk := sk;
  hmac_sha256 key msg := key ++ msg;
  tmhash_Sum b := b;
  merkle_ProofsFromByteSlices ls := (concat ls, ls);
  proof_Marshal p := Ok p;
  Uint64ToBigEndian z := be_enc 8 z;
|}.

Lemma string_of_bytes_inj a b : string_of_bytes a = string_of_bytes b → a = b.
Proof.
  intros E%(f_equal bytes_of_string). by rewrite !bytes_of_string_of_bytes in E.
Qed.

#[global] Instance sample_crypto_laws : CryptoLaws.
Proof.
  split; simpl; intros.
  - eauto.
  - done.
  - eauto.
  - done.
  - by apply string_of_bytes_inj.
  - match goal with pk : Byte.byte |- _ => by destruct pk end.
  - done.
  - done.
  - done.
  - done.
  - done.
  - done.
  - eauto.
  - simplify_eq. by apply bool_decide_eq_true.
  - done.
  - done.
  - match goal with E : _ = _ |- _ => apply (f_equal be_dec) in E; by rewrite !be_dec_enc_u64 in E end.
Qed.

(** ** Toy codecs: fields with a length prefix in unary *)

Definition enc_bytes (b : bytes) : bytes := replicate (length b) Byte.x01 ++ [Byte.x00] ++ b.

Fixpoint dec_len (b : bytes) : nat * bytes :=
  match b with
  | x :: b' => if bool_decide (x = Byte.x01) then let '(n, r) := dec_len b' in (S n, r) else (0, b')
  | [] => (0, [])
  end.

Definition dec_bytes (b : bytes) : bytes * bytes :=
  let '(n, r) := dec_len b in (take n r, drop n r).

Lemma dec_len_enc n (r : bytes) : dec_len (replicate n Byte.x01 ++ Byte.x00 :: r) = (n, r).
Proof. induction n as [|n IH]; simpl; [done|]. by rewrite IH. Qed.

Lemma dec_enc_bytes b r : dec_bytes (enc_bytes b ++ r) = (b, r).
Proof.
  unfold dec_bytes, enc_bytes. rewrite <-!(assoc_L (++)). cbn [app].
  rewrite dec_len_enc. by rewrite take_app_length, drop_app_length.
Qed.

Definition enc_string (s : string) : bytes := enc_bytes (bytes_of_string s).
Definition dec_string (b : bytes) : string * bytes :=
  let '(x, r) := dec_bytes b in (string_of_bytes x, r).

Lemma dec_enc_string s r : dec_string (enc_string s ++ r) = (s, r).
Proof. unfold dec_string, enc_string. by rewrite dec_enc_bytes, string_of_bytes_of_string. Qed.

Definition enc_u64 (z : Z) : bytes := be_enc 8 z.
Definition dec_u64 (b : bytes) : Z * bytes := (be_dec (take 8 (b ++ replicate 8 Byte.x00)), drop 8 b).

Lemma dec_enc_u64 z r : is_u64 z → dec_u64 (enc_u64 z ++ r) = (z, r).
Proof.
  intros Hz. unfold dec_u64, enc_u64. pose proof (be_enc_length 8 z) as Hl.
  rewrite <-(assoc_L (++)). rewrite (take_app_length' _ _ 8) by done.
  rewrite (drop_app_length' _ _ 8) by done. by rewrite be_dec_enc_u64.
Qed.

Lemma dec_u64_range b : is_u64 (dec_u64 b).1.
Proof. apply be_dec_u64. rewrite length_take, length_app, length_replicate. lia. Qed.

Definition enc_status (s : FinalityProviderStatus) : bytes := [byte_of_Z (status_number s)].
Definition dec_status (b : bytes) : FinalityProviderStatus :=
  match b with
  | Byte.x01 :: _ => REGISTERED | Byte.x02 :: _ => ACTIVE | Byte.x03 :: _ => INACTIVE
  | Byte.x04 :: _ => SLASHED | Byte.x05 :: _ => JAILED | _ => CREATED
  end.

Definition enc_pop (p : option ProofOfPossession) : bytes :=
  enc_bytes (match p with None => [] | Some p => Byte.x01 :: BtcSig p end).
Definition dec_pop (b : bytes) : option ProofOfPossession * bytes :=
  let '(x, r) := dec_bytes b in
  (match x with [] => None | _ :: s => Some (mkPoP s) end, r).

Lemma dec_enc_pop p r : dec_pop (enc_pop p ++ r) = (p, r).
Proof. unfold dec_pop, enc_pop. rewrite dec_enc_bytes. by destruct p as [[]|]. Qed.

Definition enc_fp (fp : FinalityProvider) : bytes :=
  enc_string (FpAddr fp) ++ enc_bytes (BtcPk fp) ++ enc_bytes (Desc fp) ++
  enc_string (Commission fp) ++ enc_pop (Pop fp) ++ enc_string (KeyName fp) ++
  enc_string (ChainId fp) ++ enc_u64 (LastVotedHeight fp) ++
  enc_u64 (LastProcessedHeight fp) ++ enc_status (Status fp).

Definition dec_fp (b : bytes) : FinalityProvider :=
  let '(addr, b) := dec_string b in
  let '(pk, b) := dec_bytes b in
  let '(d, b) := dec_bytes b in
  let '(c, b) := dec_string b in
  let '(pop, b) := dec_pop b in
  let '(kn, b) := dec_string b in
  let '(ci, b) := dec_string b in
  let lv := dec_u64 b in
  let lp := dec_u64 lv.2 in
  mkFinalityProvider addr pk d c pop kn ci lv.1 lp.1 (dec_status lp.2).

Lemma dec_enc_fp fp : fp_in_range fp → dec_fp (enc_fp fp) = fp.
Proof.
  intros [Hv Hp]. unfold dec_fp, enc_fp.
  rewrite dec_enc_string, !dec_enc_bytes, dec_enc_string, dec_enc_pop, !dec_enc_string.
  rewrite (dec_enc_u64 _ _ Hv). cbn [fst snd]. rewrite (dec_enc_u64 _ _ Hp). cbn [fst snd].
  destruct fp as [? ? ? ? ? ? ? ? ? []]; done.
Qed.

Lemma dec_fp_range b : fp_in_range (dec_fp b).
Proof.
  unfold dec_fp. repeat (match goal with |- context [let '(_, _) := ?x in _] => destruct x end).
  split; apply dec_u64_range.
Qed.

Definition enc_description (d : Description) : bytes :=
  enc_string (Moniker d) ++ enc_string (Identity d) ++ enc_string (Website d) ++
  enc_string (SecurityContact d) ++ enc_string (Details d).

Definition dec_description (b : bytes) : Description :=
  let '(m, b) := dec_string b in
  let '(i, b) := dec_string b in
  let '(w, b) := dec_string b in
  let '(sc, b) := dec_string b in
  let '(dt, _) := dec_string b in
  mkDescription m i w sc dt.

Lemma dec_enc_description d : dec_description (enc_description d) = d.
Proof.
  unfold dec_description, enc_description. rewrite !dec_enc_string.
  rewrite <-(app_nil_r (enc_string (Details d))), dec_enc_string. by destruct d.
Qed.

#[global] Instance sample_codec : Codec := {|
  LegacyDec := Ascii.ascii;
  LegacyDec_String c := String c "";
  LegacyNewDecFromStr s := match s with String c "" => Ok c | _ => Err toy_error end;
  Description_Marshal d := Ok (enc_description d);
  Description_Unmarshal b := Ok (dec_description b);
  AccAddress_String := string_of_bytes;
  AccAddressFromBech32 s := Ok (bytes_of_string s);
  pm_Marshal fp := Ok (enc_fp fp);
  pm_Unmarshal b := Ok (dec_fp b);
|}.

#[global] Instance sample_codec_laws : CodecLaws.
Proof.
  split; simpl; intros; simplify_eq; eauto.
  - by rewrite dec_enc_description.
  - by rewrite bytes_of_string_of_bytes.
  - by rewrite dec_enc_fp.
  - apply dec_fp_range.
Qed.

(** Texts of the Babylon errors for the examples *)
#[global] Instance sample_bbn_errors : BbnErrors := {|
  bbn_error_text e :=
    match e with
    | ErrBlockNotFound => "block is not found"
    | ErrInvalidFinalitySig => "finality signature is not valid"
    | ErrNoPubRandYet => "the finality provider has not committed public randomness yet"
    | ErrPubRandNotFound => "public randomness is not found"
    | ErrTooFewPubRand => "the request contains too few public randomness"
    | ErrInvalidPubRand => "the public randomness list is invalid"
    | ErrFpNotFound => "the finality provider is not found"
    | ErrFpAlreadySlashed => "the finality provider has already been slashed"
    | ErrFpAlreadyJailed => "the finality provider has already been jailed"
    | ErrFpNotJailed => "the finality provider is not jailed"
    end
|}.

#[global] Instance sample_retry : RetryGo := simple_retry.
#[global] Instance sample_retry_laws : RetryGoLaws := simple_retry_laws.
