(* ===== verification/FpStore.v ===== *)
(** * FpStore: the database of finality providers

    Models [src/finality-provider/store/fpstore.go] and [storedfp.go]: the
    records of the finality providers the daemon manages, keyed by their
    BIP-340 public key, and the operations the instance, the manager and the
    RPC server apply to them. *)

From stdpp Require Import base gmap list strings.
From Stdlib Require Import ZArith Lia.
From S2P Require Import Prelude Errors Monad Types Kvdb.

(** [if err != nil { return fmt.Errorf("pre: %w", err) }] on a pure call *)
Definition wrap_err {A} (pre : string) (o : outcome A) : outcome A :=
  match o with Err e => Err (Wrap pre e "") | _ => o end.

(** [if err != nil { return e }] on a pure call *)
Definition replace_err {A} (e : error) (o : outcome A) : outcome A :=
  match o with Err _ => Err e | _ => o end.

Section StoredFinalityProvider.
Context `{Crypto} `{Codec}.

(** [store.StoredFinalityProvider] *)
Record StoredFinalityProvider := mkStored {
  s_FPAddr : string;
  s_BtcPk : PublicKey;
  s_Description : Description;
  s_Commission : LegacyDec;
  s_Pop : ProofOfPossession;
  s_KeyName : string;
  s_ChainID : string;
  s_LastVotedHeight : Z;
  s_LastProcessedHeight : Z;
  s_Status : FinalityProviderStatus;
}.

Definition protoFpToStoredFinalityProvider (fp : FinalityProvider)
    : outcome StoredFinalityProvider :=
  btcPk ← wrap_err "invalid BTC public key: " (ParsePubKey (BtcPk fp));
  des ← wrap_err "invalid description: " (Description_Unmarshal (Desc fp));
  commission ← wrap_err "invalid commission: " (LegacyNewDecFromStr (Commission fp));
  match Pop fp with
  | None => Fatal "nil pointer dereference: fp.Pop.BtcSig"
  | Some pop =>
      Ok (mkStored (FpAddr fp) btcPk des commission (mkPoP (BtcSig pop)) (KeyName fp)
            (ChainId fp) (LastVotedHeight fp) (LastProcessedHeight fp) (Status fp))
  end.

Definition GetBIP340BTCPK (sfp : StoredFinalityProvider) : bytes :=
  NewBIP340PubKeyFromBTCPK (s_BtcPk sfp).

Definition ToFinalityProviderInfo (sfp : StoredFinalityProvider) : FinalityProviderInfo :=
  mkFinalityProviderInfo (s_FPAddr sfp) (MarshalHex (GetBIP340BTCPK sfp))
    (mkDescription (Moniker (s_Description sfp)) (Identity (s_Description sfp))
       (Website (s_Description sfp)) (SecurityContact (s_Description sfp))
       (Details (s_Description sfp)))
    (LegacyDec_String (s_Commission sfp)) (s_LastVotedHeight sfp)
    (status_String (s_Status sfp)) false.

(** proto/finality_providers.go *)
Definition MustGetBTCPK (sfp : FinalityProvider) : outcome PublicKey :=
  match ParsePubKey (BtcPk sfp) with
  | Err e => Fatal ("failed to parse BTC PK: " +:+ Error e)
  | o => o
  end.
Definition MustGetBIP340BTCPK (sfp : FinalityProvider) : outcome bytes :=
  btcPK ← MustGetBTCPK sfp; Ok (NewBIP340PubKeyFromBTCPK btcPK).

(** The fields that are not named keep their zero value. *)
Definition NewFinalityProviderInfo (sfp : FinalityProvider) : outcome FinalityProviderInfo :=
  des ← Description_Unmarshal (Desc sfp);
  pk ← MustGetBIP340BTCPK sfp;
  Ok (mkFinalityProviderInfo (FpAddr sfp) (MarshalHex pk)
        (mkDescription (Moniker des) (Identity des) (Website des) (SecurityContact des) (Details des))
        "" (LastVotedHeight sfp) (status_String (Status sfp)) false).

Definition ShouldStart (sfp : StoredFinalityProvider) : bool :=
  if bool_decide (s_Status sfp = CREATED) || bool_decide (s_Status sfp = SLASHED)
     || bool_decide (s_Status sfp = JAILED)
  then false else true.

(** Assignments to the fields of the struct behind [*StoredFinalityProvider] *)
Definition stored_with_status (st : FinalityProviderStatus) (sfp : StoredFinalityProvider) :=
  mkStored (s_FPAddr sfp) (s_BtcPk sfp) (s_Description sfp) (s_Commission sfp) (s_Pop sfp)
    (s_KeyName sfp) (s_ChainID sfp) (s_LastVotedHeight sfp) (s_LastProcessedHeight sfp) st.
Definition stored_with_processed (h : Z) (sfp : StoredFinalityProvider) :=
  mkStored (s_FPAddr sfp) (s_BtcPk sfp) (s_Description sfp) (s_Commission sfp) (s_Pop sfp)
    (s_KeyName sfp) (s_ChainID sfp) (s_LastVotedHeight sfp) h (s_Status sfp).
Definition stored_with_voted (h : Z) (sfp : StoredFinalityProvider) :=
  mkStored (s_FPAddr sfp) (s_BtcPk sfp) (s_Description sfp) (s_Commission sfp) (s_Pop sfp)
    (s_KeyName sfp) (s_ChainID sfp) h (s_LastProcessedHeight sfp) (s_Status sfp).
End StoredFinalityProvider.

Section FinalityProviderStore.
Context `{Crypto} `{Codec} {Db : Type} `{Kvdb Db}.

Definition finalityProviderBucketName : bytes := bytes_of_string "finalityProviders".

Definition fp_initBuckets : M Db unit :=
  Batch (CreateTopLevelBucket finalityProviderBucketName).

Definition NewFinalityProviderStore : M Db unit := fp_initBuckets.

Definition saveFinalityProvider (fp : option FinalityProvider) (tx : Db) : outcome Db :=
  match fp with
  | None => Err (ErrorString "cannot save nil finality provider")
  | Some fp =>
      marshalled ← pm_Marshal fp;
      bucket_Put finalityProviderBucketName (BtcPk fp) marshalled tx
  end.

Definition createFinalityProviderInternal (fp : FinalityProvider) : M Db unit :=
  Batch (λ tx,
    if negb (bucket_exists tx finalityProviderBucketName)
    then Err (Sentinel ErrCorruptedFinalityProviderDb)
    else match bucket_Get tx finalityProviderBucketName (BtcPk fp) with
         | Some _ => Err (Sentinel ErrDuplicateFinalityProvider)
         | None => saveFinalityProvider (Some fp) tx
         end).

Definition CreateFinalityProvider (fpAddr : bytes) (btcPk : PublicKey)
    (description : Description) (commission : LegacyDec) (keyName chainId : string)
    (btcSig : bytes) : M Db unit :=
  desBytes ← lift (wrap_err "invalid description: " (Description_Marshal description));
  createFinalityProviderInternal
    (mkFinalityProvider (AccAddress_String fpAddr) (SerializePubKey btcPk) desBytes
       (LegacyDec_String commission) (Some (mkPoP btcSig)) keyName chainId 0 0 CREATED).

Definition setFinalityProviderState (btcPk : PublicKey)
    (stateTransitionFn : FinalityProvider → outcome FinalityProvider) : M Db unit :=
  let pkBytes := SerializePubKey btcPk in
  Batch (λ tx,
    if negb (bucket_exists tx finalityProviderBucketName)
    then Err (Sentinel ErrCorruptedFinalityProviderDb)
    else match bucket_Get tx finalityProviderBucketName pkBytes with
         | None => Err (Sentinel ErrFinalityProviderNotFound)
         | Some fpFromDb =>
             storedFp ← replace_err (Sentinel ErrCorruptedFinalityProviderDb)
                          (pm_Unmarshal fpFromDb);
             storedFp' ← stateTransitionFn storedFp;
             saveFinalityProvider (Some storedFp') tx
         end).

Definition SetFpStatus (btcPk : PublicKey) (status : FinalityProviderStatus) : M Db unit :=
  setFinalityProviderState btcPk (λ fp, Ok (fp_with_status status fp)).

Definition UpdateFpStatusFromVotingPower (vp : Z) (fp : StoredFinalityProvider)
    : M Db FinalityProviderStatus :=
  if bool_decide (s_Status fp = SLASHED) then mret SLASHED
  else if (0 <? vp)%Z then SetFpStatus (s_BtcPk fp) ACTIVE ;; mret ACTIVE
  else match s_Status fp with
       | CREATED => SetFpStatus (s_BtcPk fp) REGISTERED ;; mret REGISTERED
       | ACTIVE => SetFpStatus (s_BtcPk fp) INACTIVE ;; mret INACTIVE
       | st => mret st
       end.

Definition setFpLastVotedHeight (lastVotedHeight : Z) (fp : FinalityProvider)
    : FinalityProvider :=
  let fp := if (LastVotedHeight fp <? lastVotedHeight)%Z
            then fp_with_voted lastVotedHeight fp else fp in
  if (LastProcessedHeight fp <? lastVotedHeight)%Z
  then fp_with_processed lastVotedHeight fp else fp.

Definition SetFpLastVotedHeight (btcPk : PublicKey) (lastVotedHeight : Z) : M Db unit :=
  setFinalityProviderState btcPk (λ fp, Ok (setFpLastVotedHeight lastVotedHeight fp)).

Definition setFpLastProcessedHeight (lastProcessedHeight : Z) (fp : FinalityProvider)
    : FinalityProvider :=
  if (LastProcessedHeight fp <? lastProcessedHeight)%Z
  then fp_with_processed lastProcessedHeight fp else fp.

Definition SetFpLastProcessedHeight (btcPk : PublicKey) (lastProcessedHeight : Z)
    : M Db unit :=
  setFinalityProviderState btcPk (λ fp, Ok (setFpLastProcessedHeight lastProcessedHeight fp)).

Definition SetFpDescription (btcPk : PublicKey) (desc : Description) (rate : LegacyDec)
    : M Db unit :=
  setFinalityProviderState btcPk (λ fp,
    descBytes ← Description_Marshal desc;
    Ok (fp_with_description descBytes (LegacyDec_String rate) fp)).

Definition GetFinalityProvider (btcPk : PublicKey) : M Db StoredFinalityProvider := λ db,
  let pkBytes := SerializePubKey btcPk in
  (View (λ tx,
     if negb (bucket_exists tx finalityProviderBucketName)
     then Err (Sentinel ErrCorruptedFinalityProviderDb)
     else match bucket_Get tx finalityProviderBucketName pkBytes with
          | None => Err (Sentinel ErrFinalityProviderNotFound)
          | Some fpBytes =>
              fpProto ← replace_err (Sentinel ErrCorruptedFinalityProviderDb)
                          (pm_Unmarshal fpBytes);
              protoFpToStoredFinalityProvider fpProto
          end) db, db).

(** The function [ForEach] applies to each pair, with the accumulated slice *)
Fixpoint collectStored (pairs : list (bytes * bytes)) : outcome (list StoredFinalityProvider) :=
  match pairs with
  | [] => Ok []
  | (_, v) :: pairs =>
      fpProto ← replace_err (Sentinel ErrCorruptedFinalityProviderDb) (pm_Unmarshal v);
      fpFromDb ← protoFpToStoredFinalityProvider fpProto;
      rest ← collectStored pairs;
      Ok (fpFromDb :: rest)
  end.

Definition GetAllStoredFinalityProviders : M Db (list StoredFinalityProvider) := λ db,
  (View (λ tx,
     if negb (bucket_exists tx finalityProviderBucketName)
     then Err (Sentinel ErrCorruptedFinalityProviderDb)
     else collectStored (bucket_pairs tx finalityProviderBucketName)) db, db).
End FinalityProviderStore.

(** ** The abstract store

    What the store promises to its clients: a finite map from serialized
    public keys to records. Each operation is a function on that map. *)

Section spec.
Context `{Crypto} `{Codec}.

Abbreviation fp_map := (gmap bytes FinalityProvider).

Inductive fps_op :=
  | OpCreate (fpAddr : bytes) (btcPk : PublicKey) (d : Description) (c : LegacyDec)
      (keyName chainId : string) (btcSig : bytes)
  | OpSetStatus (btcPk : PublicKey) (st : FinalityProviderStatus)
  | OpSetVoted (btcPk : PublicKey) (h : Z)
  | OpSetProcessed (btcPk : PublicKey) (h : Z)
  | OpSetDescription (btcPk : PublicKey) (d : Description) (rate : LegacyDec).

Definition op_key (op : fps_op) : bytes :=
  match op with
  | OpCreate _ pk _ _ _ _ _ | OpSetStatus pk _ | OpSetVoted pk _
  | OpSetProcessed pk _ | OpSetDescription pk _ _ => SerializePubKey pk
  end.

(** The heights an operation is given are [uint64] values. *)
Definition op_in_range (op : fps_op) : Prop :=
  match op with OpSetVoted _ h | OpSetProcessed _ h => is_u64 h | _ => True end.

Definition spec_create (k : bytes) (o : outcome FinalityProvider) (m : fp_map)
    : outcome unit * fp_map :=
  match o with
  | Ok fp => match m !! k with
             | Some _ => (Err (Sentinel ErrDuplicateFinalityProvider), m)
             | None => (Ok tt, <[k := fp]> m)
             end
  | Err e => (Err e, m)
  | Fatal msg => (Fatal msg, m)
  | OutOfFuel => (OutOfFuel, m)
  end.

Definition spec_update (k : bytes) (f : FinalityProvider → outcome FinalityProvider)
    (m : fp_map) : outcome unit * fp_map :=
  match m !! k with
  | None => (Err (Sentinel ErrFinalityProviderNotFound), m)
  | Some fp => match f fp with
               | Ok fp' => (Ok tt, <[k := fp']> m)
               | Err e => (Err e, m)
               | Fatal msg => (Fatal msg, m)
               | OutOfFuel => (OutOfFuel, m)
               end
  end.

(** Heights only grow, and a vote for a height also processes it. *)
Definition raise_voted (h : Z) (fp : FinalityProvider) : FinalityProvider :=
  fp_with_processed (LastProcessedHeight fp `max` h)
    (fp_with_voted (LastVotedHeight fp `max` h) fp).
Definition raise_processed (h : Z) (fp : FinalityProvider) : FinalityProvider :=
  fp_with_processed (LastProcessedHeight fp `max` h) fp.

Definition fps_spec (op : fps_op) : fp_map → outcome unit * fp_map :=
  match op with
  | OpCreate addr pk d c kn ci sig =>
      spec_create (SerializePubKey pk)
        (db ← wrap_err "invalid description: " (Description_Marshal d);
         Ok (mkFinalityProvider (AccAddress_String addr) (SerializePubKey pk) db
               (LegacyDec_String c) (Some (mkPoP sig)) kn ci 0 0 CREATED))
  | OpSetStatus pk st => spec_update (SerializePubKey pk) (λ fp, Ok (fp_with_status st fp))
  | OpSetVoted pk h => spec_update (SerializePubKey pk) (λ fp, Ok (raise_voted h fp))
  | OpSetProcessed pk h => spec_update (SerializePubKey pk) (λ fp, Ok (raise_processed h fp))
  | OpSetDescription pk d r =>
      spec_update (SerializePubKey pk) (λ fp,
        b ← Description_Marshal d; Ok (fp_with_description b (LegacyDec_String r) fp))
  end.

(** The record the operation writes can be encoded (protobuf refuses
    strings that are not UTF-8). *)
Definition op_encodable (op : fps_op) (m : fp_map) : Prop :=
  ∀ m' fp, fps_spec op m = (Ok tt, m') → m' !! op_key op = Some fp → ∃ b, pm_Marshal fp = Ok b.
End spec.

(** ** The operations implement the abstract store *)

#[local] Arguments saveFinalityProvider : simpl never.

Section theorems.
Context `{CryptoLaws} `{CodecLaws} {Db : Type} `{KvdbLaws Db}.
Implicit Types (db tx : Db) (fp : FinalityProvider) (k v : bytes).

Definition fps_run (op : fps_op) : M Db unit :=
  match op with
  | OpCreate addr pk d c kn ci sig => CreateFinalityProvider addr pk d c kn ci sig
  | OpSetStatus pk st => SetFpStatus pk st
  | OpSetVoted pk h => SetFpLastVotedHeight pk h
  | OpSetProcessed pk h => SetFpLastProcessedHeight pk h
  | OpSetDescription pk d r => SetFpDescription pk d r
  end.

Definition fp_lookup db k : option FinalityProvider :=
  v ← bucket_Get db finalityProviderBucketName k;
  match pm_Unmarshal v with Ok fp => Some fp | _ => None end.

(** A record that can be read back: its fields decode, it is stored with
    its proof of possession, and a processed height is at least the voted
    one. *)
Definition fp_valid fp : Prop :=
  (∃ pk, ParsePubKey (BtcPk fp) = Ok pk ∧ SerializePubKey pk = BtcPk fp) ∧
  (∃ d, Description_Unmarshal (Desc fp) = Ok d) ∧
  (∃ c, LegacyNewDecFromStr (Commission fp) = Ok c) ∧
  is_Some (Pop fp) ∧ fp_in_range fp ∧ (LastVotedHeight fp <= LastProcessedHeight fp)%Z.

Definition store_wf db : Prop :=
  bucket_exists db finalityProviderBucketName = true ∧
  ∀ k v, bucket_Get db finalityProviderBucketName k = Some v →
    ∃ fp, pm_Unmarshal v = Ok fp ∧ BtcPk fp = k ∧ fp_valid fp.

Definition fps_abs db (m : gmap bytes FinalityProvider) : Prop :=
  ∀ k, fp_lookup db k = m !! k.

Lemma store_wf_lookup db k fp :
  store_wf db → fp_lookup db k = Some fp → BtcPk fp = k ∧ fp_valid fp.
Proof.
  intros [_ Hwf]. unfold fp_lookup.
  destruct (bucket_Get _ _ _) as [v|] eqn:E; simpl; [|done].
  destruct (Hwf _ _ E) as (fp' & -> & ? & ?). intros. by simplify_eq.
Qed.

Lemma store_wf_get db k v :
  store_wf db → bucket_Get db finalityProviderBucketName k = Some v →
  ∃ fp, pm_Unmarshal v = Ok fp ∧ fp_lookup db k = Some fp.
Proof.
  intros [_ Hwf] E. destruct (Hwf _ _ E) as (fp & Hu & _ & _).
  exists fp. split; [done|]. unfold fp_lookup. rewrite E. simpl. by rewrite Hu.
Qed.

Lemma get_None_lookup db k :
  store_wf db → (bucket_Get db finalityProviderBucketName k = None ↔ fp_lookup db k = None).
Proof.
  intros Hwf. split.
  - unfold fp_lookup. by intros ->.
  - intros Hl. destruct (bucket_Get _ _ _) as [v|] eqn:E; [|done].
    destruct (store_wf_get _ _ _ Hwf E) as (fp & _ & ?). congruence.
Qed.

Lemma save_lookup fp tx tx' k :
  fp_in_range fp → saveFinalityProvider (Some fp) tx = Ok tx' →
  fp_lookup tx' k = if decide (k = BtcPk fp) then Some fp else fp_lookup tx k.
Proof.
  intros Hr. unfold saveFinalityProvider. intros Hs.
  destruct (pm_Marshal fp) as [b| | |] eqn:Eb; simpl in Hs; try done.
  unfold fp_lookup. case_decide as Hk.
  - subst. erewrite put_Get_eq by done. simpl. by erewrite pm_roundtrip.
  - by erewrite put_Get_ne by (done || congruence).
Qed.

Lemma save_wf fp tx tx' :
  store_wf tx → fp_valid fp → saveFinalityProvider (Some fp) tx = Ok tx' → store_wf tx'.
Proof.
  intros Hwf Hv Hs. pose proof Hv as (_ & _ & _ & _ & Hr & _).
  unfold saveFinalityProvider in Hs.
  destruct (pm_Marshal fp) as [b| | |] eqn:Eb; simpl in Hs; try done.
  destruct Hwf as [Hex Hwf]. split; [by erewrite put_exists by done|].
  intros k v. destruct (decide (k = BtcPk fp)) as [->|Hk].
  - erewrite put_Get_eq by done. intros [= <-]. exists fp. by erewrite pm_roundtrip.
  - erewrite put_Get_ne by (done || congruence). apply Hwf.
Qed.

(** The two transactions of the store, seen on the records *)
Lemma create_internal_inv fp db db' :
  createFinalityProviderInternal fp db = (Ok tt, db') →
  bucket_Get db finalityProviderBucketName (BtcPk fp) = None ∧
  saveFinalityProvider (Some fp) db = Ok db'.
Proof.
  unfold createFinalityProviderInternal. intros Hb%batch_Ok.
  destruct (bucket_exists _ _); simpl in Hb; [|done].
  by destruct (bucket_Get _ _ _).
Qed.

Lemma set_state_inv pk f db db' :
  store_wf db → setFinalityProviderState pk f db = (Ok tt, db') →
  ∃ fp fp', fp_lookup db (SerializePubKey pk) = Some fp ∧ f fp = Ok fp' ∧
    saveFinalityProvider (Some fp') db = Ok db'.
Proof.
  intros Hwf. unfold setFinalityProviderState. intros Hb%batch_Ok.
  destruct (bucket_exists _ _); simpl in Hb; [|done].
  destruct (bucket_Get _ _ _) as [v|] eqn:E; [|done].
  destruct (store_wf_get _ _ _ Hwf E) as (fp & Hu & Hl). rewrite Hu in Hb. simpl in Hb.
  destruct (f fp) as [fp'| | |] eqn:Ef; simpl in Hb; try done. eauto 10.
Qed.

Lemma set_voted_raise h fp : setFpLastVotedHeight h fp = raise_voted h fp.
Proof.
  destruct fp as [? ? ? ? ? ? ? lv lp ?].
  unfold setFpLastVotedHeight, raise_voted, fp_with_processed, fp_with_voted; simpl.
  destruct (Z.ltb_spec lv h); simpl; destruct (Z.ltb_spec lp h); f_equal; lia.
Qed.

Lemma set_processed_raise h fp : setFpLastProcessedHeight h fp = raise_processed h fp.
Proof.
  destruct fp as [? ? ? ? ? ? ? lv lp ?].
  unfold setFpLastProcessedHeight, raise_processed, fp_with_processed; simpl.
  destruct (Z.ltb_spec lp h); f_equal; lia.
Qed.

(** Each update keeps the key and the validity of a record. *)
Definition keeps_valid (f : FinalityProvider → outcome FinalityProvider) : Prop :=
  ∀ fp fp', fp_valid fp → f fp = Ok fp' → fp_valid fp' ∧ BtcPk fp' = BtcPk fp.

Lemma status_keeps_valid st : keeps_valid (λ fp, Ok (fp_with_status st fp)).
Proof. intros fp fp' Hv [= <-]. done. Qed.

(** A stored status is read back, and no other record changes. *)
Lemma SetFpStatus_lookup pk st db db' :
  store_wf db → SetFpStatus pk st db = (Ok tt, db') →
  store_wf db' ∧
  ∃ fp, fp_lookup db (SerializePubKey pk) = Some fp ∧
    ∀ k, fp_lookup db' k =
      if decide (k = SerializePubKey pk) then Some (fp_with_status st fp) else fp_lookup db k.
Proof.
  intros Hwf Hset. destruct (set_state_inv _ _ _ _ Hwf Hset) as (fp & fp' & Hl & Hf & Hsave).
  injection Hf as <-. destruct (store_wf_lookup _ _ _ Hwf Hl) as [Hk Hv].
  destruct (status_keeps_valid st fp _ Hv eq_refl) as [Hv' Hk'].
  split; [by eapply save_wf|]. exists fp. split; [done|]. intros k.
  rewrite (save_lookup _ _ _ k ltac:(by destruct Hv' as (_&_&_&_&?&_)) Hsave). by rewrite Hk', Hk.
Qed.

Lemma raise_voted_keeps_valid h : is_u64 h → keeps_valid (λ fp, Ok (raise_voted h fp)).
Proof.
  intros Hh fp fp' (?&?&?&?&[Hv Hp]&?) [= <-]. split; [|done].
  do 4 (split; [done|]). unfold fp_in_range, is_u64 in *; simpl. lia.
Qed.

Lemma raise_processed_keeps_valid h :
  is_u64 h → keeps_valid (λ fp, Ok (raise_processed h fp)).
Proof.
  intros Hh fp fp' (?&?&?&?&[Hv Hp]&?) [= <-]. split; [|done].
  do 4 (split; [done|]). unfold fp_in_range, is_u64 in *; simpl. lia.
Qed.

Lemma description_keeps_valid d r :
  keeps_valid (λ fp, b ← Description_Marshal d;
                     Ok (fp_with_description b (LegacyDec_String r) fp)).
Proof.
  intros fp fp' (?&?&?&?&?&?) Hf.
  destruct (Description_Marshal d) as [b| | |] eqn:Eb; simpl in Hf; simplify_eq.
  split; [|done]. split; [done|]. split; [|split]; simpl.
  - eauto using description_roundtrip.
  - exists r. apply legacy_dec_roundtrip.
  - done.
Qed.

(** A stored description and commission, and no other record changes. *)
Lemma SetFpDescription_lookup pk desc rate db db' :
  store_wf db → SetFpDescription pk desc rate db = (Ok tt, db') →
  ∃ des, Description_Marshal desc = Ok des ∧
  ∃ fp, fp_lookup db (SerializePubKey pk) = Some fp ∧
    ∀ k, fp_lookup db' k =
      if decide (k = SerializePubKey pk) then Some (fp_with_description des (LegacyDec_String rate) fp)
      else fp_lookup db k.
Proof.
  intros Hwf Hset. destruct (set_state_inv _ _ _ _ Hwf Hset) as (fp & fp' & Hl & Hf & Hsave).
  destruct (store_wf_lookup _ _ _ Hwf Hl) as [Hk Hv].
  destruct (description_keeps_valid desc rate fp _ Hv Hf) as [Hv' Hk'].
  destruct (Description_Marshal desc) as [des| | |]; simpl in Hf; try done. injection Hf as <-.
  exists des. split; [done|]. exists fp. split; [done|]. intros k.
  rewrite (save_lookup _ _ _ k ltac:(by destruct Hv' as (_&_&_&_&?&_)) Hsave). by rewrite Hk', Hk.
Qed.

Lemma created_valid addr pk d c kn ci sig b :
  Description_Marshal d = Ok b →
  fp_valid (mkFinalityProvider (AccAddress_String addr) (SerializePubKey pk) b
    (LegacyDec_String c) (Some (mkPoP sig)) kn ci 0 0 CREATED).
Proof.
  intros Hd. unfold fp_valid; simpl.
  destruct (parse_serialize pk) as (pk' & ? & ?).
  split; [eauto|]. split; [eauto using description_roundtrip|].
  split; [exists c; apply legacy_dec_roundtrip|]. split; [done|].
  unfold fp_in_range, is_u64; simpl. u64_unfold. lia.
Qed.

Definition created addr pk c kn ci sig (desBytes : bytes) : FinalityProvider :=
  mkFinalityProvider (AccAddress_String addr) (SerializePubKey pk) desBytes
    (LegacyDec_String c) (Some (mkPoP sig)) kn ci 0 0 CREATED.

Lemma create_run addr pk d c kn ci sig db :
  CreateFinalityProvider addr pk d c kn ci sig db =
  match Description_Marshal d with
  | Ok b => createFinalityProviderInternal (created addr pk c kn ci sig b) db
  | Err e => (Err (Wrap "invalid description: " e ""), db)
  | Fatal msg => (Fatal msg, db)
  | OutOfFuel => (OutOfFuel, db)
  end.
Proof. unfold CreateFinalityProvider, mbind, M_bind, lift. by destruct (Description_Marshal d). Qed.

(** A transaction that fails leaves the store as it was; one that commits
    keeps it well formed. *)
Lemma set_state_wf pk f g db :
  (∀ fp, f fp = g fp) → keeps_valid g → store_wf db →
  store_wf (setFinalityProviderState pk f db).2.
Proof.
  intros Hfg Hg Hwf. destruct (setFinalityProviderState pk f db) as [o db'] eqn:E. simpl.
  destruct (batch_cases _ _ _ _ E) as [[-> _]|[_ ->]]; [|done].
  destruct (set_state_inv _ _ _ _ Hwf E) as (fp & fp' & Hl & Ef & Hsave).
  destruct (store_wf_lookup _ _ _ Hwf Hl) as [Hk Hv]. rewrite Hfg in Ef.
  destruct (Hg _ _ Hv Ef) as [Hv' Hk']. by eapply save_wf.
Qed.

Lemma create_wf addr pk d c kn ci sig db :
  store_wf db → store_wf (CreateFinalityProvider addr pk d c kn ci sig db).2.
Proof.
  intros Hwf. rewrite create_run.
  destruct (Description_Marshal d) as [b| | |] eqn:Ed; simpl; [|done..].
  destruct (createFinalityProviderInternal _ db) as [o db'] eqn:E. simpl.
  destruct (batch_cases _ _ _ _ E) as [[-> _]|[_ ->]]; [|done].
  apply create_internal_inv in E as [_ Hsave].
  eapply save_wf; [done| |done]. by eapply created_valid.
Qed.

Lemma fps_run_wf op db : op_in_range op → store_wf db → store_wf (fps_run op db).2.
Proof.
  intros Hr Hwf. destruct op as [addr pk d c kn ci sig|pk st|pk h|pk h|pk d r]; simpl in *.
  - by apply create_wf.
  - eapply set_state_wf; eauto using status_keeps_valid.
  - eapply set_state_wf; [|by apply (raise_voted_keeps_valid h)|done].
    intros fp. by rewrite set_voted_raise.
  - eapply set_state_wf; [|by apply (raise_processed_keeps_valid h)|done].
    intros fp. by rewrite set_processed_raise.
  - eapply set_state_wf; eauto using description_keeps_valid.
Qed.

(** *** Refinement, on a healthy database *)

Lemma set_state_refines `{!KvdbReliable Db} pk f g db m :
  (∀ fp, f fp = g fp) → keeps_valid g → store_wf db → fps_abs db m →
  (∀ m' fp, spec_update (SerializePubKey pk) g m = (Ok tt, m') →
     m' !! SerializePubKey pk = Some fp → ∃ b, pm_Marshal fp = Ok b) →
  ∃ m', spec_update (SerializePubKey pk) g m = ((setFinalityProviderState pk f db).1, m') ∧
        fps_abs (setFinalityProviderState pk f db).2 m'.
Proof.
  intros Hfg Hg Hwf Habs Henc. pose proof Hwf as [Hex _].
  unfold setFinalityProviderState. match goal with |- context [Batch ?t] => set (tx := t) end.
  assert (Htx : tx db = match fp_lookup db (SerializePubKey pk) with
                        | None => Err (Sentinel ErrFinalityProviderNotFound)
                        | Some fp => fp' ← f fp; saveFinalityProvider (Some fp') db
                        end).
  { unfold tx. rewrite Hex. simpl. destruct (bucket_Get _ _ _) as [v|] eqn:E.
    - destruct (store_wf_get _ _ _ Hwf E) as (fp & -> & ->). done.
    - apply (get_None_lookup _ _ Hwf) in E. by rewrite E. }
  unfold spec_update in *. rewrite <-(Habs (SerializePubKey pk)) in *.
  destruct (fp_lookup db (SerializePubKey pk)) as [fp|] eqn:El;
    [|rewrite (batch_Err _ _ _ Htx); eauto].
  destruct (store_wf_lookup _ _ _ Hwf El) as [Hk Hv].
  rewrite Hfg in Htx. destruct (g fp) as [fp'|e|msg|] eqn:Eg; simpl in Htx;
    [|rewrite ?(batch_Err _ _ _ Htx), ?(batch_Fatal _ _ _ Htx), ?(batch_OutOfFuel _ _ Htx);
      simpl; eauto..].
  destruct (Hg _ _ Hv Eg) as [Hv' Hk'].
  destruct (Henc _ fp' eq_refl) as [b Hb]; [by rewrite lookup_insert_eq|].
  destruct (put_succeeds finalityProviderBucketName (BtcPk fp') b db Hex) as [db' Hput].
  { rewrite Hk', Hk. intros Hnil. pose proof (pubkey_length pk) as Hlen.
    by rewrite Hnil in Hlen. }
  assert (Hsave : saveFinalityProvider (Some fp') db = Ok db').
  { unfold saveFinalityProvider. by rewrite Hb. }
  rewrite Hsave in Htx. rewrite (batch_commit _ _ _ Htx). simpl.
  eexists; split; [done|]. intros k. rewrite lookup_insert.
  erewrite save_lookup; [|apply Hv'|done]. rewrite Hk', Hk.
  case_decide; case_decide; congruence.
Qed.

Lemma create_refines `{!KvdbReliable Db} addr pk d c kn ci sig db m :
  let op := OpCreate addr pk d c kn ci sig in
  store_wf db → fps_abs db m → op_encodable op m →
  ∃ m', fps_spec op m = ((fps_run op db).1, m') ∧ fps_abs (fps_run op db).2 m'.
Proof.
  intros op Hwf Habs Henc. pose proof Hwf as [Hex _].
  unfold op_encodable, op in *. simpl in *.
  rewrite create_run.
  destruct (Description_Marshal d) as [b|e|msg|] eqn:Ed; simpl in *; [|eauto..].
  assert (Hv : fp_valid (created addr pk c kn ci sig b)) by (by eapply created_valid).
  fold (created addr pk c kn ci sig b) in *. set (fp := created _ _ _ _ _ _ _) in *.
  unfold createFinalityProviderInternal.
  match goal with |- context [Batch ?t] => set (tx := t) end.
  assert (Htx : tx db = match fp_lookup db (SerializePubKey pk) with
                        | Some _ => Err (Sentinel ErrDuplicateFinalityProvider)
                        | None => saveFinalityProvider (Some fp) db
                        end).
  { unfold tx. rewrite Hex. simpl. destruct (bucket_Get _ _ _) as [v|] eqn:E.
    - destruct (store_wf_get _ _ _ Hwf E) as (? & _ & ->). done.
    - apply (get_None_lookup _ _ Hwf) in E. by rewrite E. }
  rewrite <-(Habs (SerializePubKey pk)) in Henc |- *.
  destruct (fp_lookup db (SerializePubKey pk)) as [fp0|] eqn:El;
    [rewrite (batch_Err _ _ _ Htx); simpl; eauto|].
  destruct (Henc _ fp eq_refl) as [bs Hb]; [by rewrite lookup_insert_eq|].
  destruct (put_succeeds finalityProviderBucketName (BtcPk fp) bs db Hex) as [db' Hput].
  { simpl. intros Hnil. pose proof (pubkey_length pk) as Hlen. by rewrite Hnil in Hlen. }
  assert (Hsave : saveFinalityProvider (Some fp) db = Ok db').
  { unfold saveFinalityProvider. by rewrite Hb. }
  rewrite Hsave in Htx. rewrite (batch_commit _ _ _ Htx). simpl.
  eexists; split; [done|]. intros k. rewrite lookup_insert.
  erewrite save_lookup; [|apply Hv|done]. simpl.
  case_decide; case_decide; congruence.
Qed.

Lemma fps_run_refines `{!KvdbReliable Db} op db m :
  op_in_range op → store_wf db → fps_abs db m → op_encodable op m →
  ∃ m', fps_spec op m = ((fps_run op db).1, m') ∧ fps_abs (fps_run op db).2 m'.
Proof.
  intros Hr Hwf Habs Henc.
  destruct op as [addr pk d c kn ci sig|pk st|pk h|pk h|pk d r]; simpl in *.
  - by apply create_refines.
  - eapply set_state_refines; eauto using status_keeps_valid.
  - eapply set_state_refines; eauto using raise_voted_keeps_valid.
    intros fp. by rewrite set_voted_raise.
  - eapply set_state_refines; eauto using raise_processed_keeps_valid.
    intros fp. by rewrite set_processed_raise.
  - eapply set_state_refines; eauto using description_keeps_valid.
Qed.

(** *** Heights *)

Definition heights_le db db' : Prop :=
  ∀ k fp, fp_lookup db k = Some fp → ∃ fp', fp_lookup db' k = Some fp' ∧
    (LastVotedHeight fp <= LastVotedHeight fp')%Z ∧
    (LastProcessedHeight fp <= LastProcessedHeight fp')%Z.

#[export] Instance heights_le_preorder : PreOrder heights_le.
Proof.
  split.
  - intros db k fp Hl. exists fp. split; [done|lia].
  - intros db1 db2 db3 H12 H23 k fp Hl.
    destruct (H12 _ _ Hl) as (fp2 & Hl2 & ? & ?).
    destruct (H23 _ _ Hl2) as (fp3 & Hl3 & ? & ?). exists fp3. split; [done|lia].
Qed.

(** An update that raises the heights of the record it changes. *)
Definition raises (f : FinalityProvider → outcome FinalityProvider) : Prop :=
  ∀ fp fp', f fp = Ok fp' → BtcPk fp' = BtcPk fp ∧ (fp_in_range fp → fp_in_range fp') ∧
    (LastVotedHeight fp <= LastVotedHeight fp')%Z ∧
    (LastProcessedHeight fp <= LastProcessedHeight fp')%Z.

Lemma save_heights_le fp fp' db db' :
  store_wf db → fp_lookup db (BtcPk fp) = Some fp → BtcPk fp' = BtcPk fp → fp_in_range fp' →
  (LastVotedHeight fp <= LastVotedHeight fp')%Z →
  (LastProcessedHeight fp <= LastProcessedHeight fp')%Z →
  saveFinalityProvider (Some fp') db = Ok db' → heights_le db db'.
Proof.
  intros Hwf Hl Hk Hr Hv Hp Hs k fp0 Hl0. erewrite save_lookup by done. rewrite Hk.
  case_decide as Hd; [subst k; simplify_eq; by exists fp'|]. exists fp0. split; [done|lia].
Qed.

Lemma set_state_heights_le pk f db :
  raises f → store_wf db → heights_le db (setFinalityProviderState pk f db).2.
Proof.
  intros Hf Hwf. destruct (setFinalityProviderState pk f db) as [o db'] eqn:E. simpl.
  destruct (batch_cases _ _ _ _ E) as [[-> _]|[_ ->]]; [|reflexivity].
  destruct (set_state_inv _ _ _ _ Hwf E) as (fp & fp' & Hl & Ef & Hsave).
  destruct (store_wf_lookup _ _ _ Hwf Hl) as [Hk (_ & _ & _ & _ & Hr & _)].
  destruct (Hf _ _ Ef) as (Hk' & Hr' & ? & ?). rewrite <-Hk in Hl.
  eapply save_heights_le; eauto.
Qed.

Lemma create_heights_le addr pk d c kn ci sig db :
  store_wf db → heights_le db (CreateFinalityProvider addr pk d c kn ci sig db).2.
Proof.
  intros Hwf. rewrite create_run.
  destruct (Description_Marshal d) as [b| | |] eqn:Ed; simpl; [|reflexivity..].
  destruct (createFinalityProviderInternal _ db) as [o db'] eqn:E. simpl.
  destruct (batch_cases _ _ _ _ E) as [[-> _]|[_ ->]]; [|reflexivity].
  apply create_internal_inv in E as [Hn Hsave].
  apply (get_None_lookup _ _ Hwf) in Hn. intros k fp Hl.
  erewrite save_lookup; [| |done].
  - rewrite decide_False by congruence. exists fp. split; [done|lia].
  - unfold fp_in_range, is_u64; simpl. u64_unfold. lia.
Qed.

Lemma fps_run_heights_le op db :
  op_in_range op → store_wf db → heights_le db (fps_run op db).2.
Proof.
  intros Hr Hwf. destruct op as [addr pk d c kn ci sig|pk st|pk h|pk h|pk d r]; simpl in *.
  - by apply create_heights_le.
  - apply set_state_heights_le; [|done]. intros fp fp' [= <-]. by split_and!.
  - apply set_state_heights_le; [|done]. intros fp fp' [= <-]. rewrite set_voted_raise.
    unfold fp_in_range, is_u64 in *. split_and!; simpl; [done|lia..].
  - apply set_state_heights_le; [|done]. intros fp fp' [= <-]. rewrite set_processed_raise.
    unfold fp_in_range, is_u64 in *. split_and!; simpl; [done|lia..].
  - apply set_state_heights_le; [|done]. intros fp fp' Hf.
    destruct (Description_Marshal d); simpl in Hf; simplify_eq. by split_and!.
Qed.

(** A sequence of operations: each one runs whatever the earlier ones
    returned. *)
Definition fps_run_all (ops : list fps_op) (db : Db) : Db :=
  foldl (λ db op, (fps_run op db).2) db ops.

Lemma fps_run_all_inv ops db :
  Forall op_in_range ops → store_wf db →
  store_wf (fps_run_all ops db) ∧ heights_le db (fps_run_all ops db).
Proof.
  intros Hr. revert db. induction Hr as [|op ops Hop _ IH]; intros db Hwf; simpl.
  - by split; [|reflexivity].
  - destruct (IH (fps_run op db).2) as [? ?]; [by apply fps_run_wf|].
    split; [done|]. transitivity (fps_run op db).2; [by apply fps_run_heights_le|done].
Qed.

(** *** Reading *)

(** What [GetFinalityProvider] returns for a record *)
Definition stored_of (fp : FinalityProvider) (sfp : StoredFinalityProvider) : Prop :=
  protoFpToStoredFinalityProvider fp = Ok sfp ∧
  SerializePubKey (s_BtcPk sfp) = BtcPk fp ∧
  s_LastVotedHeight sfp = LastVotedHeight fp ∧
  s_LastProcessedHeight sfp = LastProcessedHeight fp ∧ s_Status sfp = Status fp.

Lemma valid_stored fp : fp_valid fp → ∃ sfp, stored_of fp sfp.
Proof.
  intros ((pk & Hpk & Hser) & (d & Hd) & (c & Hc) & [p Hp] & _).
  unfold stored_of, protoFpToStoredFinalityProvider.
  rewrite Hpk; simpl. rewrite Hd; simpl. rewrite Hc, Hp; simpl.
  eexists; split; [done|]. done.
Qed.

(** The two conversions of a record to the information that is shown agree,
    but for the commission, which the one of the proto package drops. *)
Lemma proto_info_drops_commission fp sfp :
  stored_of fp sfp →
  ∃ info, NewFinalityProviderInfo fp = Ok info ∧ info_Commission info = "" ∧
    ToFinalityProviderInfo sfp =
      mkFinalityProviderInfo (info_FpAddr info) (info_BtcPkHex info) (info_Description info)
        (LegacyDec_String (s_Commission sfp)) (info_LastVotedHeight info) (info_Status info) false.
Proof.
  intros [Hs _]. unfold protoFpToStoredFinalityProvider in Hs.
  destruct (ParsePubKey (BtcPk fp)) as [pk| | |] eqn:Ep; simpl in Hs; try done.
  destruct (Description_Unmarshal (Desc fp)) as [d| | |] eqn:Ed; simpl in Hs; try done.
  destruct (LegacyNewDecFromStr (Commission fp)) as [c| | |]; simpl in Hs; try done.
  destruct (Pop fp) as [p|]; simpl in Hs; [|done]. injection Hs as <-.
  unfold NewFinalityProviderInfo, MustGetBIP340BTCPK, MustGetBTCPK. rewrite Ed, Ep. simpl. by eexists.
Qed.

Lemma get_run `{!KvdbReliable Db} pk db :
  store_wf db → GetFinalityProvider pk db =
    (match fp_lookup db (SerializePubKey pk) with
     | None => Err (Sentinel ErrFinalityProviderNotFound)
     | Some fp => protoFpToStoredFinalityProvider fp
     end, db).
Proof.
  intros Hwf. pose proof Hwf as [Hex _]. unfold GetFinalityProvider. f_equal.
  rewrite view_reads, Hex. simpl. destruct (bucket_Get _ _ _) as [v|] eqn:E.
  - destruct (store_wf_get _ _ _ Hwf E) as (fp & -> & ->). done.
  - apply (get_None_lookup _ _ Hwf) in E. by rewrite E.
Qed.

Lemma collect_spec pairs :
  Forall (λ kv, ∃ fp, pm_Unmarshal kv.2 = Ok fp ∧ BtcPk fp = kv.1 ∧ fp_valid fp) pairs →
  ∃ l, collectStored pairs = Ok l ∧
    Forall2 (λ kv sfp, ∃ fp, pm_Unmarshal kv.2 = Ok fp ∧ BtcPk fp = kv.1 ∧ stored_of fp sfp) pairs l.
Proof.
  induction 1 as [|[k v] pairs (fp & Hu & Hk & Hv) _ (l & Hl & HF)]; simpl in *.
  - exists []. by split; [|constructor].
  - rewrite Hu; simpl. destruct (valid_stored _ Hv) as (sfp & Hs & Hrest). rewrite Hs; simpl.
    rewrite Hl; simpl. eexists; split; [done|]. constructor; [|done].
    exists fp. split; [done|]. split; [done|]. by split.
Qed.

Definition stored_key (sfp : StoredFinalityProvider) : bytes := SerializePubKey (s_BtcPk sfp).

Lemma collect_keys pairs l :
  Forall2 (λ kv sfp, ∃ fp, pm_Unmarshal kv.2 = Ok fp ∧ BtcPk fp = kv.1 ∧ stored_of fp sfp) pairs l →
  stored_key <$> l = pairs.*1.
Proof.
  induction 1 as [|kv sfp ps l' (fp & _ & Hk & (_ & Hs & _)) _ IH]; [done|].
  rewrite !fmap_cons. unfold stored_key at 1. by rewrite IH, Hs, Hk.
Qed.

(** *** What the store guarantees *)


(** Whatever sequence of operations runs, and even if the database fails
    some of the transactions, a stored finality provider stays stored, its
    last voted and last processed heights never decrease, and the processed
    height stays at least the voted height. *)
Theorem fps_heights_monotone ops db k fp :
  Forall op_in_range ops → store_wf db → fp_lookup db k = Some fp →
  ∃ fp', fp_lookup (fps_run_all ops db) k = Some fp' ∧
    (LastVotedHeight fp <= LastVotedHeight fp')%Z ∧
    (LastProcessedHeight fp <= LastProcessedHeight fp')%Z ∧
    (LastVotedHeight fp' <= LastProcessedHeight fp')%Z.
Proof.
  intros Hr Hwf Hl. destruct (fps_run_all_inv _ _ Hr Hwf) as [Hwf' Hle].
  destruct (Hle _ _ Hl) as (fp' & Hl' & ? & ?). exists fp'.
  destruct (store_wf_lookup _ _ _ Hwf' Hl') as [_ (_&_&_&_&_&?)]. done.
Qed.

(** A finality provider that was just created is read back with the
    address, description, commission, proof of possession, key name and
    chain it was created with, status CREATED and heights 0; its key
    serializes as the given key does. *)
Theorem create_get_roundtrip `{!KvdbReliable Db} addr pk d c kn ci sig db db' :
  store_wf db → CreateFinalityProvider addr pk d c kn ci sig db = (Ok tt, db') →
  ∃ pk', SerializePubKey pk' = SerializePubKey pk ∧
    GetFinalityProvider pk db' =
      (Ok (mkStored (AccAddress_String addr) pk' d c (mkPoP sig) kn ci 0 0 CREATED), db').
Proof.
  intros Hwf Hc. pose proof (create_wf addr pk d c kn ci sig db Hwf) as Hwf'.
  rewrite Hc in Hwf'. simpl in Hwf'. rewrite create_run in Hc.
  destruct (Description_Marshal d) as [b| | |] eqn:Ed; try done.
  apply create_internal_inv in Hc as [_ Hsave].
  rewrite get_run by done. erewrite save_lookup; [|by eapply created_valid|done].
  rewrite decide_True by done.
  destruct (parse_serialize pk) as (pk' & Hpk & Hser).
  unfold protoFpToStoredFinalityProvider, created; simpl.
  rewrite Hpk; simpl. erewrite description_roundtrip by done; simpl.
  rewrite legacy_dec_roundtrip; simpl. eauto.
Qed.

(** On a well-formed store, reading never fails: [GetFinalityProvider]
    returns the stored record or [ErrFinalityProviderNotFound], and
    [GetAllStoredFinalityProviders] returns every stored record exactly once
    and nothing else. *)
Lemma reads_are_complete `{!KvdbReliable Db} db :
  store_wf db →
  (∀ pk, match fp_lookup db (SerializePubKey pk) with
         | None => GetFinalityProvider pk db = (Err (Sentinel ErrFinalityProviderNotFound), db)
         | Some fp => ∃ sfp, GetFinalityProvider pk db = (Ok sfp, db) ∧ stored_of fp sfp
         end) ∧
  ∃ l, GetAllStoredFinalityProviders db = (Ok l, db) ∧
    NoDup (stored_key <$> l) ∧
    (∀ k, is_Some (fp_lookup db k) ↔ k ∈ stored_key <$> l) ∧
    ∀ sfp, sfp ∈ l → ∃ fp, fp_lookup db (stored_key sfp) = Some fp ∧ stored_of fp sfp.
Proof.
  intros Hwf. split.
  - intros pk. rewrite get_run by done. destruct (fp_lookup _ _) as [fp|] eqn:El; [|done].
    destruct (store_wf_lookup _ _ _ Hwf El) as [_ Hv].
    destruct (valid_stored _ Hv) as (sfp & Hs). exists sfp. split; [|done]. by destruct Hs as [-> _].
  - pose proof Hwf as [Hex Hall].
    destruct (collect_spec (bucket_pairs db finalityProviderBucketName)) as (l & Hl & HF).
    { apply Forall_forall. intros [k v] Hin%pairs_Get. by apply Hall. }
    exists l. rewrite (collect_keys _ _ HF). split_and!.
    + unfold GetAllStoredFinalityProviders. by rewrite view_reads, Hex, Hl.
    + apply pairs_NoDup.
    + intros k. rewrite list_elem_of_fmap. split.
      * intros [fp Hfp]. unfold fp_lookup in Hfp.
        destruct (bucket_Get _ _ _) as [v|] eqn:E; [|done]. exists (k, v). by rewrite pairs_Get.
      * intros ([? v] & -> & Hin%pairs_Get). destruct (store_wf_get _ _ _ Hwf Hin) as (? & _ & ?). eauto.
    + intros sfp Hin. destruct (Forall2_elem_r _ _ _ _ HF Hin) as ([k v] & Hkv & fp & Hu & Hk & Hs).
      apply pairs_Get in Hkv. destruct (store_wf_get _ _ _ Hwf Hkv) as (fp' & Hu' & Hl').
      simpl in *. simplify_eq. exists fp. split; [|done]. unfold stored_key.
      destruct Hs as (_ & -> & _). congruence.
Qed.

(** [UpdateFpStatusFromVotingPower] on a stored finality provider returns
    the status it leaves in the database, and changes no other record:
    SLASHED stays SLASHED, any voting power makes it ACTIVE, and without
    voting power CREATED becomes REGISTERED, ACTIVE becomes INACTIVE and the
    other statuses stay. *)
Theorem update_status_from_voting_power `{!KvdbReliable Db} vp sfp fp db m :
  store_wf db → fps_abs db m → m !! stored_key sfp = Some fp → Status fp = s_Status sfp →
  (∀ st, ∃ b, pm_Marshal (fp_with_status st fp) = Ok b) →
  ∃ st db', UpdateFpStatusFromVotingPower vp sfp db = (Ok st, db') ∧
    fps_abs db' (<[stored_key sfp := fp_with_status st fp]> m) ∧
    (s_Status sfp = SLASHED → st = SLASHED) ∧
    (s_Status sfp ≠ SLASHED → (0 < vp)%Z → st = ACTIVE) ∧
    ((vp <= 0)%Z → s_Status sfp = CREATED → st = REGISTERED) ∧
    ((vp <= 0)%Z → s_Status sfp = ACTIVE → st = INACTIVE) ∧
    ((vp <= 0)%Z → s_Status sfp ≠ CREATED → s_Status sfp ≠ ACTIVE → st = s_Status sfp).
Proof.
  intros Hwf Habs Hm Hst Henc.
  assert (Hset : ∀ st, ∃ db', SetFpStatus (s_BtcPk sfp) st db = (Ok tt, db') ∧
                   fps_abs db' (<[stored_key sfp := fp_with_status st fp]> m)).
  { intros st. destruct (set_state_refines (s_BtcPk sfp) _ (λ fp, Ok (fp_with_status st fp)) db m
      (λ _, eq_refl) (status_keeps_valid st) Hwf Habs) as (m' & Hrun & Habs').
    - unfold spec_update. change (SerializePubKey (s_BtcPk sfp)) with (stored_key sfp).
      rewrite Hm. intros m' fp' [= <-] Hl. rewrite lookup_insert_eq in Hl. simplify_eq. apply Henc.
    - unfold spec_update in Hrun. change (SerializePubKey (s_BtcPk sfp)) with (stored_key sfp) in Hrun.
      rewrite Hm in Hrun. unfold SetFpStatus.
      destruct (setFinalityProviderState _ _ db) as [o db'] eqn:E; simpl in *. simplify_eq. eauto. }
  assert (Hid : fps_abs db (<[stored_key sfp := fp_with_status (s_Status sfp) fp]> m)).
  { rewrite <-Hst. destruct fp. unfold fp_with_status; simpl. rewrite insert_id; done. }
  unfold UpdateFpStatusFromVotingPower. case_bool_decide as Hs.
  { exists SLASHED, db. rewrite Hs in Hid. split; [done|]. split; [done|]. rewrite Hs. naive_solver. }
  destruct (Z.ltb_spec 0 vp) as [Hvp|Hvp].
  { destruct (Hset ACTIVE) as (db' & E & ?). exists ACTIVE, db'.
    split; [by rewrite (bind_Ok _ _ _ _ _ E)|]. split; [done|]. repeat split; intros; (done || lia). }
  destruct (s_Status sfp) eqn:Es;
    [destruct (Hset REGISTERED) as (db' & E & ?); exists REGISTERED, db';
       split; [by rewrite (bind_Ok _ _ _ _ _ E)|] |
     |destruct (Hset INACTIVE) as (db' & E & ?); exists INACTIVE, db';
       split; [by rewrite (bind_Ok _ _ _ _ _ E)|] | | |];
    [|eexists _, db; split; [done|] | |eexists _, db; split; [done|]..];
    (split; [done|]; repeat split; intros; (done || lia)).
Qed.
End theorems.
