(* ===== verification/PubRandStore.v ===== *)
(** * PubRandStore: the inclusion proofs of the committed public randomness

    Models [src/finality-provider/store/pub_rand.go] and its adapter
    [src/finality-provider/service/pub_rand_store_adapter.go]. *)

From stdpp Require Import base gmap list strings.
From Stdlib Require Import ZArith Lia.
From S2P Require Import Prelude Errors Monad Types Kvdb FpStore.

Section PubRandProofStore.
Context `{Crypto} {Db : Type} `{Kvdb Db}.

Definition pubRandProofBucketName : bytes := bytes_of_string "pub_rand_proof".

Definition pr_initBuckets : M Db unit :=
  Batch (CreateTopLevelBucket pubRandProofBucketName).

Definition NewPubRandProofStore : M Db unit := pr_initBuckets.

(** The first loop: the keys and the encoded proofs *)
Fixpoint encodeProofs (pubRandList : list FieldVal) (proofList : list MerkleProof)
    : outcome (list (bytes * bytes)) :=
  match pubRandList, proofList with
  | [], _ => Ok []
  | pr :: prs, proof :: proofs =>
      proofBytes ← wrap_err "invalid proof: " (proof_Marshal proof);
      rest ← encodeProofs prs proofs;
      Ok ((FieldVal_Bytes pr, proofBytes) :: rest)
  | _ :: _, [] => Fatal "index out of range"
  end.

(** The loop of the transaction: a key that is already there is skipped *)
Fixpoint putProofs (pairs : list (bytes * bytes)) (tx : Db) : outcome Db :=
  match pairs with
  | [] => Ok tx
  | (pubRandBytes, proofBytes) :: pairs =>
      match bucket_Get tx pubRandProofBucketName pubRandBytes with
      | Some _ => putProofs pairs tx
      | None =>
          tx' ← bucket_Put pubRandProofBucketName pubRandBytes proofBytes tx;
          putProofs pairs tx'
      end
  end.

Definition AddPubRandProofList (pubRandList : list FieldVal) (proofList : list MerkleProof)
    : M Db unit :=
  if negb (length pubRandList =? length proofList)%nat
  then throw (ErrorString
         "the number of public randomness is not same as the number of proofs")
  else
    pairs ← lift (encodeProofs pubRandList proofList);
    Batch (λ tx,
      if negb (bucket_exists tx pubRandProofBucketName)
      then Err (Sentinel ErrCorruptedPubRandProofDb)
      else putProofs pairs tx).

Definition GetPubRandProof (pubRand : FieldVal) : M Db bytes := λ db,
  let pubRandBytes := FieldVal_Bytes pubRand in
  (View (λ tx,
     if negb (bucket_exists tx pubRandProofBucketName)
     then Err (Sentinel ErrCorruptedPubRandProofDb)
     else match bucket_Get tx pubRandProofBucketName pubRandBytes with
          | None => Err (Sentinel ErrPubRandProofNotFound)
          | Some proofBytes => Ok proofBytes
          end) db, db).

Fixpoint getProofs (keys : list bytes) (tx : Db) : outcome (list bytes) :=
  match keys with
  | [] => Ok []
  | k :: keys =>
      match bucket_Get tx pubRandProofBucketName k with
      | None => Err (Sentinel ErrPubRandProofNotFound)
      | Some proofBytes => rest ← getProofs keys tx; Ok (proofBytes :: rest)
      end
  end.

Definition GetPubRandProofList (pubRandList : list FieldVal) : M Db (list bytes) := λ db,
  let pubRandBytesList := map FieldVal_Bytes pubRandList in
  (View (λ tx,
     if negb (bucket_exists tx pubRandProofBucketName)
     then Err (Sentinel ErrCorruptedPubRandProofDb)
     else getProofs pubRandBytesList tx) db, db).
End PubRandProofStore.

Section theorems.
Context `{CryptoLaws} {Db : Type} `{KvdbLaws Db}.
Implicit Types (db tx : Db) (k v : bytes).

Definition pr_lookup db k : option bytes := bucket_Get db pubRandProofBucketName k.

(** The proofs of [db] are still the proofs of [db'], and the other buckets
    are as they were. *)
Definition pr_le db db' : Prop :=
  (∀ k v, pr_lookup db k = Some v → pr_lookup db' k = Some v) ∧
  (∀ n, bucket_exists db' n = bucket_exists db n) ∧
  (∀ n k, n ≠ pubRandProofBucketName → bucket_Get db' n k = bucket_Get db n k).

#[global] Instance pr_le_preorder : PreOrder pr_le.
Proof.
  split; [done|]. intros db1 db2 db3 (Ha & Hb & Hc) (Ha' & Hb' & Hc').
  split; [naive_solver|]. split; [by intros n; rewrite Hb', Hb|].
  intros n k Hn. by rewrite Hc', Hc.
Qed.

Lemma put_pr_le k v tx tx' :
  pr_lookup tx k = None → bucket_Put pubRandProofBucketName k v tx = Ok tx' → pr_le tx tx'.
Proof.
  unfold pr_lookup. intros Hn Hp. split_and!.
  - intros k' v' Hk'. unfold pr_lookup in *. erewrite put_Get_ne; [done|done|congruence].
  - intros n. by eapply put_exists.
  - intros n k' Hne. eapply put_Get_ne; [done|congruence].
Qed.

(** The first proof of a list of key/proof pairs for a key *)
Fixpoint first_proof (pairs : list (bytes * bytes)) (k : bytes) : option bytes :=
  match pairs with
  | [] => None
  | (k', v) :: pairs => if decide (k' = k) then Some v else first_proof pairs k
  end.

(** What the transaction leaves under each key: the proof that was there,
    or else the first proof of the list for that key. *)
Lemma putProofs_lookup pairs tx tx' :
  putProofs pairs tx = Ok tx' →
  pr_le tx tx' ∧
  ∀ k, pr_lookup tx' k =
       match pr_lookup tx k with Some v => Some v | None => first_proof pairs k end.
Proof.
  revert tx. induction pairs as [|[k v] pairs IH]; intros tx Hp; simpl in *.
  - simplify_eq. split; [reflexivity|]. intros k. by destruct (pr_lookup _ _).
  - destruct (bucket_Get tx _ k) as [v0|] eqn:Eg.
    + destruct (IH _ Hp) as [? Hl]. split; [done|]. intros k'. rewrite Hl.
      case_decide; [subst; unfold pr_lookup; by rewrite Eg|done].
    + destruct (bucket_Put _ k v tx) as [tx1| | |] eqn:Ep; simpl in Hp; try done.
      destruct (IH _ Hp) as [Hle Hl]. split; [by transitivity tx1; [eapply put_pr_le|]|].
      intros k'. rewrite Hl. unfold pr_lookup. case_decide as Hd; [subst k'|].
      * erewrite put_Get_eq by done. by rewrite Eg.
      * erewrite put_Get_ne; [done|done|congruence].
Qed.

Lemma putProofs_reliable `{!KvdbReliable Db} pairs tx :
  bucket_exists tx pubRandProofBucketName = true → Forall (λ kv, kv.1 ≠ []) pairs →
  ∃ tx', putProofs pairs tx = Ok tx'.
Proof.
  intros Hex HF. revert tx Hex. induction HF as [|[k v] pairs Hk _ IH]; intros tx Hex; simpl in *.
  - eauto.
  - destruct (bucket_Get tx _ k); [by apply IH|].
    destruct (put_succeeds pubRandProofBucketName k v tx Hex Hk) as [tx1 E]. rewrite E; simpl.
    apply IH. by erewrite put_exists.
Qed.

Lemma encodeProofs_keys prs proofs pairs :
  encodeProofs prs proofs = Ok pairs → pairs.*1 = FieldVal_Bytes <$> prs.
Proof.
  revert proofs pairs. induction prs as [|pr prs IH]; intros [|p proofs] pairs Hp; simpl in *;
    simplify_eq; try done.
  destruct (proof_Marshal p); simpl in Hp; try done.
  destruct (encodeProofs prs proofs) eqn:E; simpl in Hp; simplify_eq.
  by rewrite !fmap_cons, (IH _ _ E).
Qed.

Lemma encodeProofs_no_panic prs proofs msg :
  length prs = length proofs → encodeProofs prs proofs = Fatal msg →
  ∃ p, p ∈ proofs ∧ proof_Marshal p = Fatal msg.
Proof.
  revert proofs. induction prs as [|pr prs IH]; intros [|p proofs] Hlen Hp; simpl in *; try done.
  destruct (proof_Marshal p) eqn:Ep; simpl in Hp; simplify_eq.
  - destruct (encodeProofs prs proofs) eqn:E; simpl in Hp; simplify_eq.
    destruct (IH proofs ltac:(lia) E) as (p' & ? & ?). exists p'. split; [by right|done].
  - exists p. split; [left|done].
Qed.

Lemma AddPubRandProofList_inv prs proofs db db' :
  AddPubRandProofList prs proofs db = (Ok tt, db') →
  bucket_exists db pubRandProofBucketName = true ∧
  ∃ pairs, encodeProofs prs proofs = Ok pairs ∧ putProofs pairs db = Ok db'.
Proof.
  unfold AddPubRandProofList. destruct (Nat.eqb_spec (length prs) (length proofs)); simpl; [|done].
  intros Hrun. apply bind_Ok_inv in Hrun as (pairs & s & Hl & Hb).
  unfold lift in Hl. injection Hl as Hl <-. apply batch_Ok in Hb.
  destruct (bucket_exists db _) eqn:Eex; simpl in Hb; [|done]. eauto.
Qed.

Lemma AddPubRandProofList_pr_le prs proofs : frame pr_le (AddPubRandProofList prs proofs).
Proof.
  unfold AddPubRandProofList. frame_auto. apply (batch_frame pr_le). intros db db' Hb.
  destruct (bucket_exists db _); simpl in Hb; [|done]. by destruct (putProofs_lookup _ _ _ Hb).
Qed.

Lemma first_proof_is_Some pairs k : k ∈ pairs.*1 → is_Some (first_proof pairs k).
Proof.
  induction pairs as [|[k' v] pairs IH]; simpl; [by intros ?%elem_of_nil|].
  rewrite elem_of_cons. case_decide; [eauto|]. naive_solver.
Qed.

Lemma getProofs_spec ks tx :
  getProofs ks tx =
    match mapM (pr_lookup tx) ks with
    | Some vs => Ok vs
    | None => Err (Sentinel ErrPubRandProofNotFound)
    end.
Proof.
  induction ks as [|k ks IH]; simpl; [done|]. change (bucket_Get tx _ k) with (pr_lookup tx k).
  destruct (pr_lookup tx k); simpl; [|done]. rewrite IH. by destruct (mapM _ ks).
Qed.

Lemma GetPubRandProofList_run `{!KvdbReliable Db} prs db :
  bucket_exists db pubRandProofBucketName = true →
  GetPubRandProofList prs db =
    (match mapM (pr_lookup db) (FieldVal_Bytes <$> prs) with
     | Some vs => Ok vs
     | None => Err (Sentinel ErrPubRandProofNotFound)
     end, db).
Proof.
  intros Hex. unfold GetPubRandProofList. f_equal. rewrite view_reads, Hex. apply getProofs_spec.
Qed.

(** A stored inclusion proof is never lost or replaced: whatever
    [AddPubRandProofList] returns (success, a list of another length, an
    encoding error, a failed transaction), every proof that was stored is
    stored unchanged, the other buckets of the database are untouched, and
    without success nothing is written at all. *)
Theorem proofs_are_never_overwritten prs proofs db :
  pr_le db (AddPubRandProofList prs proofs db).2 ∧
  ((AddPubRandProofList prs proofs db).1 ≠ Ok tt →
   (AddPubRandProofList prs proofs db).2 = db).
Proof.
  split; [apply AddPubRandProofList_pr_le|].
  unfold AddPubRandProofList. destruct (negb _); [done|].
  unfold mbind, M_bind, lift. destruct (encodeProofs prs proofs); simpl; [|done..].
  destruct (Batch _ db) as [o db'] eqn:E. simpl. by eapply batch_not_Ok.
Qed.

(** C26: after [AddPubRandProofList] succeeded, [GetPubRandProofList] of the
    same public randomness succeeds, in order: for each value the proof that
    was stored before, else the first proof of the call for that value; and
    [GetPubRandProof] returns the same proof for each of them. *)
Theorem add_get_proofs_roundtrip `{!KvdbReliable Db} prs proofs pairs db db' :
  encodeProofs prs proofs = Ok pairs →
  AddPubRandProofList prs proofs db = (Ok tt, db') →
  ∃ vs, GetPubRandProofList prs db' = (Ok vs, db') ∧
    Forall2 (λ pr v,
      GetPubRandProof pr db' = (Ok v, db') ∧
      Some v = match pr_lookup db (FieldVal_Bytes pr) with
               | Some v0 => Some v0
               | None => first_proof pairs (FieldVal_Bytes pr)
               end) prs vs.
Proof.
  intros He Ha. apply AddPubRandProofList_inv in Ha as (Hex & pairs' & He' & Hput).
  rewrite He in He'. injection He' as <-.
  destruct (putProofs_lookup _ _ _ Hput) as [(_ & Hexs & _) Hl].
  assert (bucket_exists db' pubRandProofBucketName = true) as Hex' by by rewrite Hexs.
  rewrite GetPubRandProofList_run by done.
  assert (∀ k, k ∈ FieldVal_Bytes <$> prs → is_Some (pr_lookup db' k)) as Hall.
  { intros k Hk. rewrite Hl. destruct (pr_lookup db k); [eauto|].
    apply first_proof_is_Some. by erewrite encodeProofs_keys. }
  clear Hput He. induction prs as [|pr prs IH]; simpl.
  - exists []. by split; [|constructor].
  - destruct (Hall (FieldVal_Bytes pr)) as [v Hv]; [left|].
    destruct IH as (vs & Hvs & HF); [intros k Hk; apply Hall; by right|].
    rewrite Hv; simpl. destruct (mapM _ _) as [vs'|]; simplify_eq.
    exists (v :: vs). split; [done|]. constructor; [|done]. split; [|by rewrite <-Hl].
    unfold GetPubRandProof. rewrite view_reads, Hex'; simpl.
    change (bucket_Get db' _ ?k) with (pr_lookup db' k). by rewrite Hv.
Qed.

(** [GetPubRandProofList] succeeds exactly when every requested public
    randomness has a stored proof, and otherwise answers
    [ErrPubRandProofNotFound]; it never changes the database. *)
Theorem get_proofs_complete `{!KvdbReliable Db} prs db :
  bucket_exists db pubRandProofBucketName = true →
  (∀ vs, GetPubRandProofList prs db = (Ok vs, db) ↔
         Forall2 (λ pr v, pr_lookup db (FieldVal_Bytes pr) = Some v) prs vs) ∧
  (GetPubRandProofList prs db = (Err (Sentinel ErrPubRandProofNotFound), db) ↔
   ∃ pr, pr ∈ prs ∧ pr_lookup db (FieldVal_Bytes pr) = None).
Proof.
  intros Hex. rewrite GetPubRandProofList_run by done.
  assert (∀ vs, mapM (pr_lookup db) (FieldVal_Bytes <$> prs) = Some vs ↔
            Forall2 (λ pr v, pr_lookup db (FieldVal_Bytes pr) = Some v) prs vs) as Hm.
  { intros vs. by rewrite mapM_Some, Forall2_fmap_l. }
  destruct (mapM _ _) as [vs0|] eqn:E.
  - pose proof (proj1 (Hm vs0) eq_refl) as HF. split.
    + intros vs. rewrite <-Hm. naive_solver.
    + split; [done|]. intros (pr & Hin & Hn).
      destruct (Forall2_elem_l _ _ _ _ HF Hin) as (v & _ & Hv). congruence.
  - split; [naive_solver|]. split; [intros _|done].
    apply mapM_None in E. apply Exists_exists in E as (k & Hin & Hk).
    apply list_elem_of_fmap in Hin as (pr & -> & Hin). eauto.
Qed.
End theorems.
