(* ===== verification/Metrics.v ===== *)
(** * Metrics: the Prometheus collectors of the two daemons

    Models [src/metrics/fp_collectors.go] and [src/metrics/eots_collectors.go]. A
    gauge or counter is its value, a vector of them a map from the label (the
    finality provider's key in hex). Gauges hold a [float64], so a height
    above 2^53 is rounded, which [float64_of_uint64] writes out; Prometheus
    counts [Inc] of a counter in a [uint64]. The two gauges of elapsed seconds
    hold the elapsed time in nanoseconds, before [Seconds()] divides it. The
    registration of the collectors and the HTTP server are not modelled. *)

From stdpp Require Import base gmap list strings.
From Stdlib Require Import ZArith Lia.
From S2P Require Import Prelude Errors Monad Types FpStore.

(** ** float64(x) for an integer x: 53 significant bits, ties to even *)

Definition round_half_even (z d : Z) : Z :=
  let q := (z / d)%Z in
  let r := (z mod d)%Z in
  if (2 * r <? d)%Z then q
  else if (d <? 2 * r)%Z then (q + 1)%Z
  else if Z.even q then q else (q + 1)%Z.

Definition float64_of_uint64 (z : Z) : Z :=
  if (Z.abs z <? 2 ^ 53)%Z then z
  else let d := (2 ^ (Z.log2 (Z.abs z) - 52))%Z in
       (Z.sgn z * (round_half_even (Z.abs z) d * d))%Z.

Lemma float64_exact z : (Z.abs z < 2 ^ 53)%Z → float64_of_uint64 z = z.
Proof. intros Hz. unfold float64_of_uint64. by apply Z.ltb_lt in Hz as ->. Qed.

Abbreviation Vec := (gmap string Z).

(** [vec.WithLabelValues(l).Set(float64(h))], [.Inc()] of a counter and
    [.Add(n)] of a gauge *)
Definition vec_Set (l : string) (h : Z) (v : Vec) : Vec := <[l := float64_of_uint64 h]> v.
Definition vec_Inc (l : string) (v : Vec) : Vec := <[l := u64 (default 0%Z (v !! l) + 1)]> v.
Definition vec_Add (l : string) (n : Z) (v : Vec) : Vec :=
  <[l := float64_of_uint64 (default 0%Z (v !! l) + n)]> v.

(** ** EotsMetrics *)

Record EotsMetrics := mkEotsMetrics {
  EotsCreatedKeysCounter : Z;
  EotsFpTotalGeneratedRandomnessCounter : Vec;
  EotsFpLastGeneratedRandomnessHeight : Vec;
  EotsFpTotalEotsSignCounter : Vec;
  EotsFpLastEotsSignHeight : Vec;
  EotsFpTotalSchnorrSignCounter : Vec;
}.

Definition NewEotsMetrics : EotsMetrics := mkEotsMetrics 0 ∅ ∅ ∅ ∅ ∅.

Definition IncrementEotsCreatedKeysCounter (em : EotsMetrics) : EotsMetrics :=
  mkEotsMetrics (u64 (EotsCreatedKeysCounter em + 1))
    (EotsFpTotalGeneratedRandomnessCounter em) (EotsFpLastGeneratedRandomnessHeight em)
    (EotsFpTotalEotsSignCounter em) (EotsFpLastEotsSignHeight em)
    (EotsFpTotalSchnorrSignCounter em).

Definition IncrementEotsFpTotalGeneratedRandomnessCounter (l : string) (em : EotsMetrics) :=
  mkEotsMetrics (EotsCreatedKeysCounter em)
    (vec_Inc l (EotsFpTotalGeneratedRandomnessCounter em)) (EotsFpLastGeneratedRandomnessHeight em)
    (EotsFpTotalEotsSignCounter em) (EotsFpLastEotsSignHeight em)
    (EotsFpTotalSchnorrSignCounter em).

Definition SetEotsFpLastGeneratedRandomnessHeight (l : string) (h : Z) (em : EotsMetrics) :=
  mkEotsMetrics (EotsCreatedKeysCounter em)
    (EotsFpTotalGeneratedRandomnessCounter em) (vec_Set l h (EotsFpLastGeneratedRandomnessHeight em))
    (EotsFpTotalEotsSignCounter em) (EotsFpLastEotsSignHeight em)
    (EotsFpTotalSchnorrSignCounter em).

Definition IncrementEotsFpTotalEotsSignCounter (l : string) (em : EotsMetrics) :=
  mkEotsMetrics (EotsCreatedKeysCounter em)
    (EotsFpTotalGeneratedRandomnessCounter em) (EotsFpLastGeneratedRandomnessHeight em)
    (vec_Inc l (EotsFpTotalEotsSignCounter em)) (EotsFpLastEotsSignHeight em)
    (EotsFpTotalSchnorrSignCounter em).

Definition SetEotsFpLastEotsSignHeight (l : string) (h : Z) (em : EotsMetrics) :=
  mkEotsMetrics (EotsCreatedKeysCounter em)
    (EotsFpTotalGeneratedRandomnessCounter em) (EotsFpLastGeneratedRandomnessHeight em)
    (EotsFpTotalEotsSignCounter em) (vec_Set l h (EotsFpLastEotsSignHeight em))
    (EotsFpTotalSchnorrSignCounter em).

Definition IncrementEotsFpTotalSchnorrSignCounter (l : string) (em : EotsMetrics) :=
  mkEotsMetrics (EotsCreatedKeysCounter em)
    (EotsFpTotalGeneratedRandomnessCounter em) (EotsFpLastGeneratedRandomnessHeight em)
    (EotsFpTotalEotsSignCounter em) (EotsFpLastEotsSignHeight em)
    (vec_Inc l (EotsFpTotalSchnorrSignCounter em)).

(** ** FpMetrics *)

Record FpMetrics := mkFpMetrics {
  runningFpGauge : Z;
  babylonTipHeight : Z;
  lastPolledHeight : Z;
  pollerStartingHeight : Z;
  fpStatus : Vec;
  fpSecondsSinceLastVote : Vec;
  fpSecondsSinceLastRandomness : Vec;
  fpLastVotedHeight : Vec;
  fpLastProcessedHeight : Vec;
  fpLastCommittedRandomnessHeight : Vec;
  fpTotalBlocksWithoutVotingPower : Vec;
  fpTotalVotedBlocks : Vec;
  fpTotalCommittedRandomness : Vec;
  fpTotalFailedVotes : Vec;
  fpTotalFailedRandomness : Vec;
  previousVoteByFp : Vec;
  previousRandomnessByFp : Vec;
}.

Definition set_runningFpGauge (v : Z) (fm : FpMetrics) : FpMetrics :=
  mkFpMetrics v (babylonTipHeight fm) (lastPolledHeight fm) (pollerStartingHeight fm)
    (fpStatus fm) (fpSecondsSinceLastVote fm) (fpSecondsSinceLastRandomness fm)
    (fpLastVotedHeight fm) (fpLastProcessedHeight fm) (fpLastCommittedRandomnessHeight fm)
    (fpTotalBlocksWithoutVotingPower fm) (fpTotalVotedBlocks fm) (fpTotalCommittedRandomness fm)
    (fpTotalFailedVotes fm) (fpTotalFailedRandomness fm) (previousVoteByFp fm)
    (previousRandomnessByFp fm).
Definition set_babylonTipHeight (v : Z) (fm : FpMetrics) : FpMetrics :=
  mkFpMetrics (runningFpGauge fm) v (lastPolledHeight fm) (pollerStartingHeight fm)
    (fpStatus fm) (fpSecondsSinceLastVote fm) (fpSecondsSinceLastRandomness fm)
    (fpLastVotedHeight fm) (fpLastProcessedHeight fm) (fpLastCommittedRandomnessHeight fm)
    (fpTotalBlocksWithoutVotingPower fm) (fpTotalVotedBlocks fm) (fpTotalCommittedRandomness fm)
    (fpTotalFailedVotes fm) (fpTotalFailedRandomness fm) (previousVoteByFp fm)
    (previousRandomnessByFp fm).
Definition set_lastPolledHeight (v : Z) (fm : FpMetrics) : FpMetrics :=
  mkFpMetrics (runningFpGauge fm) (babylonTipHeight fm) v (pollerStartingHeight fm)
    (fpStatus fm) (fpSecondsSinceLastVote fm) (fpSecondsSinceLastRandomness fm)
    (fpLastVotedHeight fm) (fpLastProcessedHeight fm) (fpLastCommittedRandomnessHeight fm)
    (fpTotalBlocksWithoutVotingPower fm) (fpTotalVotedBlocks fm) (fpTotalCommittedRandomness fm)
    (fpTotalFailedVotes fm) (fpTotalFailedRandomness fm) (previousVoteByFp fm)
    (previousRandomnessByFp fm).
Definition set_pollerStartingHeight (v : Z) (fm : FpMetrics) : FpMetrics :=
  mkFpMetrics (runningFpGauge fm) (babylonTipHeight fm) (lastPolledHeight fm) v (fpStatus fm)
    (fpSecondsSinceLastVote fm) (fpSecondsSinceLastRandomness fm) (fpLastVotedHeight fm)
    (fpLastProcessedHeight fm) (fpLastCommittedRandomnessHeight fm)
    (fpTotalBlocksWithoutVotingPower fm) (fpTotalVotedBlocks fm) (fpTotalCommittedRandomness fm)
    (fpTotalFailedVotes fm) (fpTotalFailedRandomness fm) (previousVoteByFp fm)
    (previousRandomnessByFp fm).
Definition set_fpStatus (v : Vec) (fm : FpMetrics) : FpMetrics :=
  mkFpMetrics (runningFpGauge fm) (babylonTipHeight fm) (lastPolledHeight fm)
    (pollerStartingHeight fm) v (fpSecondsSinceLastVote fm) (fpSecondsSinceLastRandomness fm)
    (fpLastVotedHeight fm) (fpLastProcessedHeight fm) (fpLastCommittedRandomnessHeight fm)
    (fpTotalBlocksWithoutVotingPower fm) (fpTotalVotedBlocks fm) (fpTotalCommittedRandomness fm)
    (fpTotalFailedVotes fm) (fpTotalFailedRandomness fm) (previousVoteByFp fm)
    (previousRandomnessByFp fm).
Definition set_fpSecondsSinceLastVote (v : Vec) (fm : FpMetrics) : FpMetrics :=
  mkFpMetrics (runningFpGauge fm) (babylonTipHeight fm) (lastPolledHeight fm)
    (pollerStartingHeight fm) (fpStatus fm) v (fpSecondsSinceLastRandomness fm)
    (fpLastVotedHeight fm) (fpLastProcessedHeight fm) (fpLastCommittedRandomnessHeight fm)
    (fpTotalBlocksWithoutVotingPower fm) (fpTotalVotedBlocks fm) (fpTotalCommittedRandomness fm)
    (fpTotalFailedVotes fm) (fpTotalFailedRandomness fm) (previousVoteByFp fm)
    (previousRandomnessByFp fm).
Definition set_fpSecondsSinceLastRandomness (v : Vec) (fm : FpMetrics) : FpMetrics :=
  mkFpMetrics (runningFpGauge fm) (babylonTipHeight fm) (lastPolledHeight fm)
    (pollerStartingHeight fm) (fpStatus fm) (fpSecondsSinceLastVote fm) v (fpLastVotedHeight fm)
    (fpLastProcessedHeight fm) (fpLastCommittedRandomnessHeight fm)
    (fpTotalBlocksWithoutVotingPower fm) (fpTotalVotedBlocks fm) (fpTotalCommittedRandomness fm)
    (fpTotalFailedVotes fm) (fpTotalFailedRandomness fm) (previousVoteByFp fm)
    (previousRandomnessByFp fm).
Definition set_fpLastVotedHeight (v : Vec) (fm : FpMetrics) : FpMetrics :=
  mkFpMetrics (runningFpGauge fm) (babylonTipHeight fm) (lastPolledHeight fm)
    (pollerStartingHeight fm) (fpStatus fm) (fpSecondsSinceLastVote fm)
    (fpSecondsSinceLastRandomness fm) v (fpLastProcessedHeight fm)
    (fpLastCommittedRandomnessHeight fm) (fpTotalBlocksWithoutVotingPower fm)
    (fpTotalVotedBlocks fm) (fpTotalCommittedRandomness fm) (fpTotalFailedVotes fm)
    (fpTotalFailedRandomness fm) (previousVoteByFp fm) (previousRandomnessByFp fm).
Definition set_fpLastProcessedHeight (v : Vec) (fm : FpMetrics) : FpMetrics :=
  mkFpMetrics (runningFpGauge fm) (babylonTipHeight fm) (lastPolledHeight fm)
    (pollerStartingHeight fm) (fpStatus fm) (fpSecondsSinceLastVote fm)
    (fpSecondsSinceLastRandomness fm) (fpLastVotedHeight fm) v
    (fpLastCommittedRandomnessHeight fm) (fpTotalBlocksWithoutVotingPower fm)
    (fpTotalVotedBlocks fm) (fpTotalCommittedRandomness fm) (fpTotalFailedVotes fm)
    (fpTotalFailedRandomness fm) (previousVoteByFp fm) (previousRandomnessByFp fm).
Definition set_fpLastCommittedRandomnessHeight (v : Vec) (fm : FpMetrics) : FpMetrics :=
  mkFpMetrics (runningFpGauge fm) (babylonTipHeight fm) (lastPolledHeight fm)
    (pollerStartingHeight fm) (fpStatus fm) (fpSecondsSinceLastVote fm)
    (fpSecondsSinceLastRandomness fm) (fpLastVotedHeight fm) (fpLastProcessedHeight fm) v
    (fpTotalBlocksWithoutVotingPower fm) (fpTotalVotedBlocks fm) (fpTotalCommittedRandomness fm)
    (fpTotalFailedVotes fm) (fpTotalFailedRandomness fm) (previousVoteByFp fm)
    (previousRandomnessByFp fm).
Definition set_fpTotalBlocksWithoutVotingPower (v : Vec) (fm : FpMetrics) : FpMetrics :=
  mkFpMetrics (runningFpGauge fm) (babylonTipHeight fm) (lastPolledHeight fm)
    (pollerStartingHeight fm) (fpStatus fm) (fpSecondsSinceLastVote fm)
    (fpSecondsSinceLastRandomness fm) (fpLastVotedHeight fm) (fpLastProcessedHeight fm)
    (fpLastCommittedRandomnessHeight fm) v (fpTotalVotedBlocks fm)
    (fpTotalCommittedRandomness fm) (fpTotalFailedVotes fm) (fpTotalFailedRandomness fm)
    (previousVoteByFp fm) (previousRandomnessByFp fm).
Definition set_fpTotalVotedBlocks (v : Vec) (fm : FpMetrics) : FpMetrics :=
  mkFpMetrics (runningFpGauge fm) (babylonTipHeight fm) (lastPolledHeight fm)
    (pollerStartingHeight fm) (fpStatus fm) (fpSecondsSinceLastVote fm)
    (fpSecondsSinceLastRandomness fm) (fpLastVotedHeight fm) (fpLastProcessedHeight fm)
    (fpLastCommittedRandomnessHeight fm) (fpTotalBlocksWithoutVotingPower fm) v
    (fpTotalCommittedRandomness fm) (fpTotalFailedVotes fm) (fpTotalFailedRandomness fm)
    (previousVoteByFp fm) (previousRandomnessByFp fm).
Definition set_fpTotalCommittedRandomness (v : Vec) (fm : FpMetrics) : FpMetrics :=
  mkFpMetrics (runningFpGauge fm) (babylonTipHeight fm) (lastPolledHeight fm)
    (pollerStartingHeight fm) (fpStatus fm) (fpSecondsSinceLastVote fm)
    (fpSecondsSinceLastRandomness fm) (fpLastVotedHeight fm) (fpLastProcessedHeight fm)
    (fpLastCommittedRandomnessHeight fm) (fpTotalBlocksWithoutVotingPower fm)
    (fpTotalVotedBlocks fm) v (fpTotalFailedVotes fm) (fpTotalFailedRandomness fm)
    (previousVoteByFp fm) (previousRandomnessByFp fm).
Definition set_fpTotalFailedVotes (v : Vec) (fm : FpMetrics) : FpMetrics :=
  mkFpMetrics (runningFpGauge fm) (babylonTipHeight fm) (lastPolledHeight fm)
    (pollerStartingHeight fm) (fpStatus fm) (fpSecondsSinceLastVote fm)
    (fpSecondsSinceLastRandomness fm) (fpLastVotedHeight fm) (fpLastProcessedHeight fm)
    (fpLastCommittedRandomnessHeight fm) (fpTotalBlocksWithoutVotingPower fm)
    (fpTotalVotedBlocks fm) (fpTotalCommittedRandomness fm) v (fpTotalFailedRandomness fm)
    (previousVoteByFp fm) (previousRandomnessByFp fm).
Definition set_fpTotalFailedRandomness (v : Vec) (fm : FpMetrics) : FpMetrics :=
  mkFpMetrics (runningFpGauge fm) (babylonTipHeight fm) (lastPolledHeight fm)
    (pollerStartingHeight fm) (fpStatus fm) (fpSecondsSinceLastVote fm)
    (fpSecondsSinceLastRandomness fm) (fpLastVotedHeight fm) (fpLastProcessedHeight fm)
    (fpLastCommittedRandomnessHeight fm) (fpTotalBlocksWithoutVotingPower fm)
    (fpTotalVotedBlocks fm) (fpTotalCommittedRandomness fm) (fpTotalFailedVotes fm) v
    (previousVoteByFp fm) (previousRandomnessByFp fm).
Definition set_previousVoteByFp (v : Vec) (fm : FpMetrics) : FpMetrics :=
  mkFpMetrics (runningFpGauge fm) (babylonTipHeight fm) (lastPolledHeight fm)
    (pollerStartingHeight fm) (fpStatus fm) (fpSecondsSinceLastVote fm)
    (fpSecondsSinceLastRandomness fm) (fpLastVotedHeight fm) (fpLastProcessedHeight fm)
    (fpLastCommittedRandomnessHeight fm) (fpTotalBlocksWithoutVotingPower fm)
    (fpTotalVotedBlocks fm) (fpTotalCommittedRandomness fm) (fpTotalFailedVotes fm)
    (fpTotalFailedRandomness fm) v (previousRandomnessByFp fm).
Definition set_previousRandomnessByFp (v : Vec) (fm : FpMetrics) : FpMetrics :=
  mkFpMetrics (runningFpGauge fm) (babylonTipHeight fm) (lastPolledHeight fm)
    (pollerStartingHeight fm) (fpStatus fm) (fpSecondsSinceLastVote fm)
    (fpSecondsSinceLastRandomness fm) (fpLastVotedHeight fm) (fpLastProcessedHeight fm)
    (fpLastCommittedRandomnessHeight fm) (fpTotalBlocksWithoutVotingPower fm)
    (fpTotalVotedBlocks fm) (fpTotalCommittedRandomness fm) (fpTotalFailedVotes fm)
    (fpTotalFailedRandomness fm) (previousVoteByFp fm) v.

Definition NewFpMetrics : FpMetrics := mkFpMetrics 0 0 0 0 ∅ ∅ ∅ ∅ ∅ ∅ ∅ ∅ ∅ ∅ ∅ ∅ ∅.

Definition DecrementRunningFpGauge (fm : FpMetrics) : FpMetrics :=
  set_runningFpGauge (float64_of_uint64 (runningFpGauge fm - 1)) fm.

Definition IncrementRunningFpGauge (fm : FpMetrics) : FpMetrics :=
  set_runningFpGauge (float64_of_uint64 (runningFpGauge fm + 1)) fm.

Definition RecordFpStatus (l : string) (st : FinalityProviderStatus) (fm : FpMetrics) : FpMetrics :=
  set_fpStatus (vec_Set l (status_number st) (fpStatus fm)) fm.

Definition RecordBabylonTipHeight (h : Z) (fm : FpMetrics) : FpMetrics :=
  set_babylonTipHeight (float64_of_uint64 h) fm.

Definition RecordLastPolledHeight (h : Z) (fm : FpMetrics) : FpMetrics :=
  set_lastPolledHeight (float64_of_uint64 h) fm.

Definition RecordPollerStartingHeight (h : Z) (fm : FpMetrics) : FpMetrics :=
  set_pollerStartingHeight (float64_of_uint64 h) fm.

Definition RecordFpSecondsSinceLastVote (l : string) (elapsed : Z) (fm : FpMetrics) : FpMetrics :=
  set_fpSecondsSinceLastVote (<[l := elapsed]> (fpSecondsSinceLastVote fm)) fm.

Definition RecordFpSecondsSinceLastRandomness (l : string) (elapsed : Z) (fm : FpMetrics) : FpMetrics :=
  set_fpSecondsSinceLastRandomness (<[l := elapsed]> (fpSecondsSinceLastRandomness fm)) fm.

Definition RecordFpLastVotedHeight (l : string) (h : Z) (fm : FpMetrics) : FpMetrics :=
  set_fpLastVotedHeight (vec_Set l h (fpLastVotedHeight fm)) fm.

Definition RecordFpLastProcessedHeight (l : string) (h : Z) (fm : FpMetrics) : FpMetrics :=
  set_fpLastProcessedHeight (vec_Set l h (fpLastProcessedHeight fm)) fm.

Definition RecordFpLastCommittedRandomnessHeight (l : string) (h : Z) (fm : FpMetrics) : FpMetrics :=
  set_fpLastCommittedRandomnessHeight (vec_Set l h (fpLastCommittedRandomnessHeight fm)) fm.

Definition IncrementFpTotalBlocksWithoutVotingPower (l : string) (fm : FpMetrics) : FpMetrics :=
  set_fpTotalBlocksWithoutVotingPower (vec_Inc l (fpTotalBlocksWithoutVotingPower fm)) fm.

Definition IncrementFpTotalVotedBlocks (l : string) (fm : FpMetrics) : FpMetrics :=
  set_fpTotalVotedBlocks (vec_Add l 1 (fpTotalVotedBlocks fm)) fm.

Definition AddToFpTotalVotedBlocks (l : string) (n : Z) (fm : FpMetrics) : FpMetrics :=
  set_fpTotalVotedBlocks (vec_Add l n (fpTotalVotedBlocks fm)) fm.

Definition AddToFpTotalCommittedRandomness (l : string) (n : Z) (fm : FpMetrics) : FpMetrics :=
  set_fpTotalCommittedRandomness (vec_Add l n (fpTotalCommittedRandomness fm)) fm.

Definition IncrementFpTotalFailedVotes (l : string) (fm : FpMetrics) : FpMetrics :=
  set_fpTotalFailedVotes (vec_Inc l (fpTotalFailedVotes fm)) fm.

Definition IncrementFpTotalFailedRandomness (l : string) (fm : FpMetrics) : FpMetrics :=
  set_fpTotalFailedRandomness (vec_Inc l (fpTotalFailedRandomness fm)) fm.

(** [now] is the result of [time.Now()], in nanoseconds. *)
Definition RecordFpVoteTime (now : Z) (l : string) (fm : FpMetrics) : FpMetrics :=
  set_previousVoteByFp (<[l := now]> (previousVoteByFp fm)) fm.

Definition RecordFpRandomnessTime (now : Z) (l : string) (fm : FpMetrics) : FpMetrics :=
  set_previousRandomnessByFp (<[l := now]> (previousRandomnessByFp fm)) fm.

Section UpdateFpMetrics.
Context `{Crypto} `{Codec}.

Definition updateFp (now : Z) (fm : FpMetrics) (fp : StoredFinalityProvider) : FpMetrics :=
  let l := MarshalHex (GetBIP340BTCPK fp) in
  let fm := RecordFpStatus l (s_Status fp) fm in
  let fm := match previousVoteByFp fm !! l with
            | Some t => RecordFpSecondsSinceLastVote l (now - t) fm
            | None => fm
            end in
  match previousRandomnessByFp fm !! l with
  | Some t => RecordFpSecondsSinceLastRandomness l (now - t) fm
  | None => fm
  end.

Definition UpdateFpMetrics (now : Z) (fps : list StoredFinalityProvider) (fm : FpMetrics)
    : FpMetrics := foldl (updateFp now) fm fps.

(** The label of a finality provider *)
Definition fp_label (fp : StoredFinalityProvider) : string := MarshalHex (GetBIP340BTCPK fp).

Lemma updateFp_status now fm fp l :
  fpStatus (updateFp now fm fp) !! l =
    if decide (fp_label fp = l) then Some (status_number (s_Status fp)) else fpStatus fm !! l.
Proof.
  assert (fpStatus (updateFp now fm fp) =
    <[fp_label fp := status_number (s_Status fp)]> (fpStatus fm)) as ->.
  { unfold updateFp, fp_label. repeat case_match; simpl; f_equal; by destruct (s_Status fp). }
  by rewrite lookup_insert.
Qed.

(** Each exported status is the status of the last provider of the list
    with that label, and labels outside the list keep theirs. *)
Lemma UpdateFpMetrics_status now fps fm l :
  fpStatus (UpdateFpMetrics now fps fm) !! l =
    match last (filter (λ fp, fp_label fp = l) fps) with
    | Some fp => Some (status_number (s_Status fp))
    | None => fpStatus fm !! l
    end.
Proof.
  unfold UpdateFpMetrics. induction fps as [|fp fps IH] using rev_ind; [done|].
  rewrite foldl_app. cbn [foldl]. rewrite updateFp_status, filter_app, filter_cons, filter_nil.
  case_decide; [by rewrite last_snoc|]. by rewrite app_nil_r, IH.
Qed.
End UpdateFpMetrics.
