(* ===== verification/EotsManager.v ===== *)
(** * EotsManager: the keys and signatures of the EOTS daemon

    Models [src/eotsmanager/]: the interface [EOTSManager], the store of key
    names ([store/eotsstore.go]), the deterministic randomness
    ([randgenerator/randgenerator.go]) and the local manager
    ([localmanager.go]). The Cosmos keyring and bip39 are parameters. *)

From stdpp Require Import base gmap list strings.
From Stdlib Require Import ZArith Lia.
From S2P Require Import Prelude Errors Monad Types Kvdb Metrics.

(** ** randgenerator.GenerateRandomness *)

Section randgenerator.
Context `{Crypto}.

Definition GenerateRandomness (key chainID : bytes) (height : Z) : ModNScalar * FieldVal :=
  let randPre := hmac_sha256 key (Uint64ToBigEndian height ++ chainID) in
  let randScalar := ModNScalar_SetByteSlice randPre in
  (randScalar, scalar_PubKey_X randScalar).

(** The randomness of a key at a height *)
Definition priv_rand (sk : PrivateKey) (chainID : bytes) (h : Z) : ModNScalar :=
  (GenerateRandomness (PrivKey_Serialize sk) chainID h).1.
Definition pub_rand (sk : PrivateKey) (chainID : bytes) (h : Z) : FieldVal :=
  (GenerateRandomness (PrivKey_Serialize sk) chainID h).2.

(** [startHeight + uint64(i)] for [i] below [num] *)
Definition rand_heights (startHeight num : Z) : list Z :=
  (λ i, u64 (startHeight + Z.of_nat i)) <$> seq 0 (Z.to_nat num).

Lemma length_rand_heights h n : length (rand_heights h n) = Z.to_nat n.
Proof. unfold rand_heights. by rewrite length_fmap, length_seq. Qed.
End randgenerator.

(** ** The interface

    [E] is the state of the manager. The laws are what the finality provider
    relies on: [em_key e uid p sk] says that the manager holds the key [sk]
    under [uid] and opens it with the passphrase [p]. *)

Record KeyRecord `{Crypto} := mkKeyRecord {
  kr_Name : string;
  kr_PrivKey : PrivateKey;
}.

Class EOTSManager (E : Type) `{Crypto} := {
  em_CreateKey : string → string → string → M E bytes;
  em_CreateRandomnessPairList : bytes → bytes → Z → Z → string → M E (list FieldVal);
  em_KeyRecord : bytes → string → M E KeyRecord;
  em_SignEOTS : bytes → bytes → bytes → Z → string → M E ModNScalar;
  em_SignSchnorrSig : bytes → bytes → string → M E SchnorrSig;
  em_key : E → bytes → string → PrivateKey → Prop;
}.

(** The manager holds at least the keys it held before. *)
Definition em_le `{EOTSManager E} (e e' : E) : Prop :=
  ∀ uid p sk, em_key e uid p sk → em_key e' uid p sk.

Class EOTSManagerLaws (E : Type) `{EOTSManager E} : Prop := {
  em_CreateKey_le name p hd : frame em_le (em_CreateKey name p hd);
  em_CreateRandomnessPairList_le uid ch h n p :
    frame em_le (em_CreateRandomnessPairList uid ch h n p);
  em_KeyRecord_le uid p : frame em_le (em_KeyRecord uid p);
  em_SignEOTS_le uid ch m h p : frame em_le (em_SignEOTS uid ch m h p);
  em_SignSchnorrSig_le uid m p : frame em_le (em_SignSchnorrSig uid m p);
  em_CreateRandomnessPairList_spec e uid ch h n p sk :
    em_key e uid p sk → (0 <= n)%Z →
    (em_CreateRandomnessPairList uid ch h n p e).1 = Ok (pub_rand sk ch <$> rand_heights h n);
  em_KeyRecord_spec e uid p sk :
    em_key e uid p sk → ∃ name, (em_KeyRecord uid p e).1 = Ok (mkKeyRecord _ name sk);
  em_SignEOTS_spec e uid ch m h p sk sig :
    em_key e uid p sk →
    (em_SignEOTS uid ch m h p e).1 = Ok sig ↔ eots_Sign sk (priv_rand sk ch h) m = Ok sig;
  em_SignSchnorrSig_spec e uid m p sk sig :
    em_key e uid p sk → (em_SignSchnorrSig uid m p e).1 = Ok sig ↔ schnorr_Sign sk m = Ok sig;
}.

#[global] Instance em_le_preorder `{EOTSManager E} : PreOrder (em_le (E := E)).
Proof. split; [by intros e uid p sk|]. intros e1 e2 e3 H12 H23 uid p sk Hk. auto. Qed.

#[export] Hint Resolve em_CreateKey_le em_CreateRandomnessPairList_le em_KeyRecord_le
  em_SignEOTS_le em_SignSchnorrSig_le : frame.

(** ** The store of key names *)

Section EOTSStore.
Context `{Crypto} {Db : Type} `{Kvdb Db}.

Definition eotsBucketName : bytes := bytes_of_string "fpKeyNames".

Definition es_initBuckets : M Db unit := Batch (CreateTopLevelBucket eotsBucketName).

Definition NewEOTSStore : M Db unit := es_initBuckets.

Definition saveEOTSKeyName (btcPk : bytes) (keyName : string) (tx : Db) : outcome Db :=
  if bool_decide (keyName = "") then Err (ErrorString "cannot save empty key name")
  else bucket_Put eotsBucketName btcPk (bytes_of_string keyName) tx.

Definition AddEOTSKeyName (btcPk : PublicKey) (keyName : string) : M Db unit :=
  let pkBytes := SerializePubKey btcPk in
  Batch (λ tx,
    if negb (bucket_exists tx eotsBucketName) then Err (Sentinel ErrCorruptedEOTSDb)
    else match bucket_Get tx eotsBucketName pkBytes with
         | Some _ => Err (Sentinel ErrDuplicateEOTSKeyName)
         | None => saveEOTSKeyName pkBytes keyName tx
         end).

Definition GetEOTSKeyName (pk : bytes) : M Db string := λ db,
  (View (λ tx,
     if negb (bucket_exists tx eotsBucketName) then Err (Sentinel ErrCorruptedEOTSDb)
     else match bucket_Get tx eotsBucketName pk with
          | None => Err (Sentinel ErrEOTSKeyNameNotFound)
          | Some keyNameBytes => Ok (string_of_bytes keyNameBytes)
          end) db, db).
End EOTSStore.

(** ** The keyring of the Cosmos SDK and bip39 *)

(** The dynamic types of [record.GetPubKey()] and of the cached private key *)
Inductive krPubKey := KrSecp256k1PubKey (Key : bytes) | KrOtherPubKey.
Inductive krPrivKey := KrSecp256k1PrivKey (Key : bytes) | KrOtherPrivKey.

Class Keyring (KR : Type) := {
  KrRecord : Type;
  SigningAlgo : Type;
  (** [input.Reset(s)]: the keyring reads passphrases from this reader *)
  input_Reset : string → KR → KR;
  kr_Key : string → M KR KrRecord;
  (** [keyring.NewSigningAlgoFromString(name, supported)] with the supported
      algorithms of the keyring *)
  NewSigningAlgoFromString : string → KR → outcome SigningAlgo;
  kr_NewAccount : string → string → string → string → SigningAlgo → M KR KrRecord;
  record_GetPubKey : KrRecord → outcome krPubKey;
  (** [k.GetLocal()], nil for a record that is not local, then
      [PrivKey.GetCachedValue()] *)
  record_GetLocal : KrRecord → option krPrivKey;
}.

(** [bip39.NewEntropy], which reads the random source [Rnd], and
    [bip39.NewMnemonic] *)
Class Bip39 (Rnd : Type) := {
  bip39_NewEntropy : Z → M Rnd bytes;
  bip39_NewMnemonic : bytes → outcome string;
}.

(** A record that can be opened stays so. *)
Definition kr_le `{Keyring KR} (kr kr' : KR) : Prop :=
  ∀ name p r, (kr_Key name (input_Reset p kr)).1 = Ok r →
              (kr_Key name (input_Reset p kr')).1 = Ok r.

Class KeyringLaws (KR : Type) `{Keyring KR} `{Crypto} : Prop := {
  input_Reset_le p : ∀ kr, kr_le kr (input_Reset p kr);
  kr_Key_le name : frame kr_le (kr_Key name);
  kr_NewAccount_le name mn bp hd algo : frame kr_le (kr_NewAccount name mn bp hd algo);
  (** An account that was created is found under its name. *)
  kr_NewAccount_Key name mn p hd algo kr r kr' :
    kr_NewAccount name mn p hd algo kr = (Ok r, kr') →
    (kr_Key name (input_Reset p kr')).1 = Ok r;
  (** A created account is a local key pair of the requested algorithm. *)
  kr_NewAccount_local name mn p hd algo kr r kr' kr0 :
    NewSigningAlgoFromString "secp256k1" kr0 = Ok algo →
    kr_NewAccount name mn p hd algo kr = (Ok r, kr') →
    ∃ pb sb, record_GetPubKey r = Ok (KrSecp256k1PubKey pb) ∧
      record_GetLocal r = Some (KrSecp256k1PrivKey sb) ∧
      btcec_ParsePubKey pb = Ok (PubKey (PrivKeyFromBytes sb));
}.

#[global] Instance kr_le_preorder `{Keyring KR} : PreOrder (kr_le (KR := KR)).
Proof. split; [by intros kr name p r|]. intros k1 k2 k3 H12 H23 name p r Hk. auto. Qed.

(** ** LocalEOTSManager *)

Section LocalEOTSManager.
Context `{Crypto} {KR Db Rnd : Type} `{Keyring KR} `{Kvdb Db} `{Bip39 Rnd}.

Record LocalEOTSManager := mkLocalEOTSManager {
  lm_kr : KR;
  lm_es : Db;
  lm_rand : Rnd;
  lm_metrics : EotsMetrics;
}.

Definition set_kr (k : KR) (lm : LocalEOTSManager) :=
  mkLocalEOTSManager k (lm_es lm) (lm_rand lm) (lm_metrics lm).
Definition set_es (d : Db) (lm : LocalEOTSManager) :=
  mkLocalEOTSManager (lm_kr lm) d (lm_rand lm) (lm_metrics lm).
Definition set_rand (r : Rnd) (lm : LocalEOTSManager) :=
  mkLocalEOTSManager (lm_kr lm) (lm_es lm) r (lm_metrics lm).
Definition set_metrics (m : EotsMetrics) (lm : LocalEOTSManager) :=
  mkLocalEOTSManager (lm_kr lm) (lm_es lm) (lm_rand lm) m.

Abbreviation LM := (M LocalEOTSManager).

Definition onKr {A} : M KR A → LM A := zoom lm_kr set_kr.
Definition onEs {A} : M Db A → LM A := zoom lm_es set_es.
Definition onRand {A} : M Rnd A → LM A := zoom lm_rand set_rand.
Definition onMetrics (f : EotsMetrics → EotsMetrics) : LM unit :=
  zoom lm_metrics set_metrics (modify f).

Definition newline : string := String (Ascii.ascii_of_nat 10) "".
Definition secp256k1Type : string := "secp256k1".
Definition MnemonicEntropySize : Z := 256.

Definition keyExists (name : string) : LM bool :=
  r ← attempt (onKr (kr_Key name));
  mret (match r with inr _ => true | inl _ => false end).

Definition loadBIP340PubKeyFromKeyringRecord (record : KrRecord) : outcome bytes :=
  pubKey ← record_GetPubKey record;
  match pubKey with
  | KrSecp256k1PubKey key =>
      pk ← btcec_ParsePubKey key;
      Ok (NewBIP340PubKeyFromBTCPK pk)
  | KrOtherPubKey => Err (ErrorString "unsupported key type in keyring")
  end.

Definition eotsPrivKeyFromRecord (k : KrRecord) : outcome PrivateKey :=
  match record_GetLocal k with
  | None => Fatal "nil pointer dereference"
  | Some (KrSecp256k1PrivKey key) => Ok (PrivKeyFromBytes key)
  | Some KrOtherPrivKey => Err (ErrorString "unsupported key type in keyring")
  end.

Definition getEOTSPrivKey (fpPk : bytes) (passphrase : string) : LM PrivateKey :=
  keyName ← onEs (GetEOTSKeyName fpPk);
  onKr (modify (input_Reset passphrase)) ;;
  k ← onKr (kr_Key keyName);
  lift (eotsPrivKeyFromRecord k).

Definition lm_KeyRecord (fpPk : bytes) (passphrase : string) : LM KeyRecord :=
  name ← onEs (GetEOTSKeyName fpPk);
  privKey ← getEOTSPrivKey fpPk passphrase;
  mret (mkKeyRecord _ name privKey).

Definition getRandomnessPair (fpPk chainID : bytes) (height : Z) (passphrase : string)
    : LM (ModNScalar * FieldVal) :=
  record ← lm_KeyRecord fpPk passphrase;
  mret (GenerateRandomness (PrivKey_Serialize (kr_PrivKey record)) chainID height).

(** The loop of [CreateRandomnessPairList]: [k] iterations are left and
    [i] is the counter *)
Fixpoint randomnessLoop (fpPk chainID : bytes) (startHeight : Z) (passphrase : string)
    (i : Z) (k : nat) : LM (list FieldVal) :=
  match k with
  | O => mret []
  | S k =>
      pair ← getRandomnessPair fpPk chainID (u64 (startHeight + i)) passphrase;
      rest ← randomnessLoop fpPk chainID startHeight passphrase (i + 1) k;
      mret (pair.2 :: rest)
  end.

Definition lm_CreateRandomnessPairList (fpPk chainID : bytes) (startHeight num : Z)
    (passphrase : string) : LM (list FieldVal) :=
  prList ← randomnessLoop fpPk chainID startHeight passphrase 0 (Z.to_nat num);
  onMetrics (IncrementEotsFpTotalGeneratedRandomnessCounter (hex_EncodeToString fpPk)) ;;
  onMetrics (SetEotsFpLastGeneratedRandomnessHeight (hex_EncodeToString fpPk) startHeight) ;;
  mret prList.

Definition lm_SignEOTS (fpPk chainID msg : bytes) (height : Z) (passphrase : string)
    : LM ModNScalar :=
  pair ← wrapping "failed to get private randomness: "
           (getRandomnessPair fpPk chainID height passphrase);
  privKey ← wrapping "failed to get EOTS private key: " (getEOTSPrivKey fpPk passphrase);
  onMetrics (IncrementEotsFpTotalEotsSignCounter (hex_EncodeToString fpPk)) ;;
  onMetrics (SetEotsFpLastEotsSignHeight (hex_EncodeToString fpPk) height) ;;
  lift (eots_Sign privKey pair.1 msg).

Definition signSchnorrSigFromPrivKey (privKey : PrivateKey) (fpPk msg : bytes) : LM SchnorrSig :=
  onMetrics (IncrementEotsFpTotalSchnorrSignCounter (hex_EncodeToString fpPk)) ;;
  lift (schnorr_Sign privKey msg).

Definition lm_SignSchnorrSig (fpPk msg : bytes) (passphrase : string) : LM SchnorrSig :=
  privKey ← wrapping "failed to get EOTS private key: " (getEOTSPrivKey fpPk passphrase);
  signSchnorrSigFromPrivKey privKey fpPk msg.

Definition SignSchnorrSigFromKeyname (keyName passphrase : string) (msg : bytes)
    : LM (SchnorrSig * bytes) :=
  onKr (modify (input_Reset passphrase)) ;;
  k ← wrapping ("failed to load keyring record for key " +:+ keyName +:+ ": ")
        (onKr (kr_Key keyName));
  eotsPk ← lift (loadBIP340PubKeyFromKeyringRecord k);
  privKey ← lift (eotsPrivKeyFromRecord k);
  signature ← wrapping "failed to schnorr sign: " (signSchnorrSigFromPrivKey privKey eotsPk msg);
  mret (signature, eotsPk).

Definition NewMnemonic : LM string :=
  entropySeed ← onRand (bip39_NewEntropy MnemonicEntropySize);
  lift (bip39_NewMnemonic entropySeed).

Definition CreateKeyWithMnemonic (name passphrase hdPath mnemonic : string) : LM bytes :=
  exists_ ← keyExists name;
  if (exists_ : bool) then throw (Sentinel ErrFinalityProviderAlreadyExisted)
  else
    kr ← gets lm_kr;
    algo ← lift (NewSigningAlgoFromString secp256k1Type kr);
    onKr (modify (input_Reset (passphrase +:+ newline +:+ passphrase))) ;;
    record ← onKr (kr_NewAccount name mnemonic passphrase hdPath algo);
    eotsPk ← lift (loadBIP340PubKeyFromKeyringRecord record);
    btcPk ← lift (MustToBTCPK eotsPk);
    onEs (AddEOTSKeyName btcPk name) ;;
    onMetrics IncrementEotsCreatedKeysCounter ;;
    mret eotsPk.

Definition lm_CreateKey (name passphrase hdPath : string) : LM bytes :=
  mnemonic ← NewMnemonic;
  eotsPk ← CreateKeyWithMnemonic name passphrase hdPath mnemonic;
  lift (MustMarshal eotsPk).

(** The manager holds [sk] under [fpPk]: the store has a name for it and
    the keyring opens the record of that name. *)
Definition lm_key (lm : LocalEOTSManager) (fpPk : bytes) (p : string) (sk : PrivateKey) : Prop :=
  ∃ name r, (GetEOTSKeyName fpPk (lm_es lm)).1 = Ok name ∧
    (kr_Key name (input_Reset p (lm_kr lm))).1 = Ok r ∧ eotsPrivKeyFromRecord r = Ok sk.

#[export] Instance local_eots_manager : EOTSManager LocalEOTSManager := {
  em_CreateKey := lm_CreateKey;
  em_CreateRandomnessPairList := lm_CreateRandomnessPairList;
  em_KeyRecord := lm_KeyRecord;
  em_SignEOTS := lm_SignEOTS;
  em_SignSchnorrSig := lm_SignSchnorrSig;
  em_key := lm_key;
}.
End LocalEOTSManager.
Arguments LocalEOTSManager : clear implicits.

(** ** Theorems about the store of key names *)

Section EOTSStore_theorems.
Context `{CryptoLaws} {Db : Type} `{KvdbLaws Db}.
Implicit Types (db : Db).

(** The names of [db] are names of [db']. *)
Definition names_le db db' : Prop :=
  ∀ pk name, (GetEOTSKeyName pk db).1 = Ok name → (GetEOTSKeyName pk db').1 = Ok name.

#[export] Instance names_le_preorder : PreOrder names_le.
Proof. split; [by intros db pk n|]. intros d1 d2 d3 H12 H23 pk n Hn. auto. Qed.

Lemma GetEOTSKeyName_run `{!KvdbReliable Db} pk db :
  bucket_exists db eotsBucketName = true →
  GetEOTSKeyName pk db =
    (match bucket_Get db eotsBucketName pk with
     | None => Err (Sentinel ErrEOTSKeyNameNotFound)
     | Some b => Ok (string_of_bytes b)
     end, db).
Proof. intros Hex. unfold GetEOTSKeyName. by rewrite view_reads, Hex. Qed.

Lemma GetEOTSKeyName_exists `{!KvdbReliable Db} pk db name :
  (GetEOTSKeyName pk db).1 = Ok name → bucket_exists db eotsBucketName = true.
Proof. unfold GetEOTSKeyName. rewrite view_reads. simpl. by destruct (bucket_exists db _). Qed.

Lemma AddEOTSKeyName_inv pk name db db' :
  AddEOTSKeyName pk name db = (Ok tt, db') →
  bucket_exists db eotsBucketName = true ∧
  bucket_Get db eotsBucketName (SerializePubKey pk) = None ∧ name ≠ "" ∧
  bucket_Put eotsBucketName (SerializePubKey pk) (bytes_of_string name) db = Ok db'.
Proof.
  intros Hb%batch_Ok. destruct (bucket_exists db _) eqn:Eex; simpl in Hb; [|done].
  destruct (bucket_Get db _ _) eqn:Eg; [done|]. unfold saveEOTSKeyName in Hb.
  case_bool_decide; [done|]. done.
Qed.

Lemma AddEOTSKeyName_get `{!KvdbReliable Db} pk name db db' :
  AddEOTSKeyName pk name db = (Ok tt, db') →
  GetEOTSKeyName (SerializePubKey pk) db' = (Ok name, db') ∧
  ∀ k, k ≠ SerializePubKey pk → (GetEOTSKeyName k db').1 = (GetEOTSKeyName k db).1.
Proof.
  intros (Hex & Hn & _ & Hput)%AddEOTSKeyName_inv.
  assert (bucket_exists db' eotsBucketName = true) as Hex' by by erewrite put_exists.
  split.
  - rewrite GetEOTSKeyName_run by done. erewrite put_Get_eq by done.
    by rewrite string_of_bytes_of_string.
  - intros k Hk. rewrite !GetEOTSKeyName_run by done. simpl.
    erewrite put_Get_ne; [done|done|congruence].
Qed.

Lemma AddEOTSKeyName_le `{!KvdbReliable Db} pk name : frame names_le (AddEOTSKeyName pk name).
Proof.
  intros db. destruct (AddEOTSKeyName pk name db) as [o db'] eqn:E. simpl.
  destruct (batch_cases _ _ _ _ E) as [[-> _]|[_ ->]]; [|reflexivity].
  destruct (AddEOTSKeyName_get _ _ _ _ E) as [_ Hne].
  destruct (AddEOTSKeyName_inv _ _ _ _ E) as (Hex & Hn & _).
  intros k n Hk. rewrite Hne; [done|]. intros ->.
  rewrite GetEOTSKeyName_run in Hk by done. by rewrite Hn in Hk.
Qed.
End EOTSStore_theorems.

(** ** Theorems about the local manager *)

Section LocalEOTSManager_theorems.
Context `{CryptoLaws} {KR Db Rnd : Type} `{!Keyring KR} `{!KeyringLaws KR}.
Context `{KvdbLaws Db} `{!KvdbReliable Db} `{!Bip39 Rnd}.
Abbreviation lmT := (LocalEOTSManager KR Db Rnd).
Implicit Types (lm : lmT).

Definition lm_le lm lm' : Prop :=
  kr_le (lm_kr lm) (lm_kr lm') ∧ names_le (lm_es lm) (lm_es lm').

#[export] Instance lm_le_preorder : PreOrder lm_le.
Proof.
  split; [intros lm; split; reflexivity|]. intros l1 l2 l3 [? ?] [? ?].
  split; [by transitivity (lm_kr l2)|by transitivity (lm_es l2)].
Qed.

Lemma lm_le_em_le lm lm' : lm_le lm lm' → em_le lm lm'.
Proof. intros [Hk Hn] uid p sk (name & r & ? & ? & ?). exists name, r. auto. Qed.

Lemma frame_onKr {A} (m : M KR A) : frame kr_le m → frame lm_le (onKr m).
Proof. apply frame_zoom. intros lm k Hk. split; [done|reflexivity]. Qed.

Lemma frame_onEs {A} (m : M Db A) : frame names_le m → frame lm_le (onEs m).
Proof. apply frame_zoom. intros lm k Hk. split; [reflexivity|done]. Qed.

Lemma frame_onRand {A} (m : M Rnd A) : frame lm_le (onRand m).
Proof. intros lm. split; reflexivity. Qed.

Lemma frame_onMetrics f : frame lm_le (onMetrics f : M lmT unit).
Proof. intros lm. split; reflexivity. Qed.

Lemma frame_kr_Key name : frame lm_le (onKr (kr_Key name) : M lmT _).
Proof. apply frame_onKr, kr_Key_le. Qed.

Lemma frame_input_Reset p : frame lm_le (onKr (modify (input_Reset p)) : M lmT _).
Proof. apply frame_onKr, frame_modify, input_Reset_le. Qed.

Lemma frame_NewAccount name mn p hd algo : frame lm_le (onKr (kr_NewAccount name mn p hd algo) : M lmT _).
Proof. apply frame_onKr, kr_NewAccount_le. Qed.

Lemma frame_GetEOTSKeyName pk : frame lm_le (onEs (GetEOTSKeyName pk) : M lmT _).
Proof. apply frame_onEs. intros db. reflexivity. Qed.

Lemma frame_AddEOTSKeyName pk name : frame lm_le (onEs (AddEOTSKeyName pk name) : M lmT _).
Proof. apply frame_onEs, AddEOTSKeyName_le. Qed.

#[local] Hint Resolve frame_onRand frame_onMetrics frame_kr_Key frame_input_Reset frame_NewAccount
  frame_GetEOTSKeyName frame_AddEOTSKeyName : frame.

Lemma frame_getEOTSPrivKey pk p : frame lm_le (getEOTSPrivKey pk p : M lmT _).
Proof. unfold getEOTSPrivKey. frame_auto. Qed.
#[local] Hint Resolve frame_getEOTSPrivKey : frame.

Lemma frame_KeyRecord pk p : frame lm_le (lm_KeyRecord pk p : M lmT _).
Proof. unfold lm_KeyRecord. frame_auto. Qed.
#[local] Hint Resolve frame_KeyRecord : frame.

Lemma frame_getRandomnessPair pk ch h p : frame lm_le (getRandomnessPair pk ch h p : M lmT _).
Proof. unfold getRandomnessPair. frame_auto. Qed.
#[local] Hint Resolve frame_getRandomnessPair : frame.

Lemma frame_randomnessLoop pk ch h p i k : frame lm_le (randomnessLoop pk ch h p i k : M lmT _).
Proof. revert i. induction k as [|k IH]; intros i; cbn [randomnessLoop]; frame_auto. Qed.
#[local] Hint Resolve frame_randomnessLoop : frame.

Lemma frame_CreateRandomnessPairList pk ch h n p :
  frame lm_le (lm_CreateRandomnessPairList pk ch h n p : M lmT _).
Proof. unfold lm_CreateRandomnessPairList. frame_auto. Qed.

Lemma frame_SignEOTS pk ch m h p : frame lm_le (lm_SignEOTS pk ch m h p : M lmT _).
Proof. unfold lm_SignEOTS. frame_auto. Qed.

Lemma frame_SignSchnorrSig pk m p : frame lm_le (lm_SignSchnorrSig pk m p : M lmT _).
Proof. unfold lm_SignSchnorrSig, signSchnorrSigFromPrivKey. frame_auto. Qed.

Lemma frame_keyExists name : frame lm_le (keyExists name : M lmT _).
Proof. unfold keyExists. frame_auto. Qed.
#[local] Hint Resolve frame_keyExists : frame.

Lemma frame_CreateKeyWithMnemonic name p hd mn :
  frame lm_le (CreateKeyWithMnemonic name p hd mn : M lmT _).
Proof. unfold CreateKeyWithMnemonic. frame_auto. Qed.
#[local] Hint Resolve frame_CreateKeyWithMnemonic : frame.

Lemma frame_CreateKey name p hd : frame lm_le (lm_CreateKey name p hd : M lmT _).
Proof. unfold lm_CreateKey, NewMnemonic. frame_auto. Qed.

Lemma frame_em_le {A} (m : M lmT A) : frame lm_le m → frame em_le m.
Proof. intros Hm s. apply lm_le_em_le, Hm. Qed.

Lemma lm_key_le lm lm' pk p sk : lm_le lm lm' → lm_key lm pk p sk → lm_key lm' pk p sk.
Proof. intros Hle. apply (lm_le_em_le _ _ Hle). Qed.

Lemma getEOTSPrivKey_spec lm pk p sk :
  lm_key lm pk p sk → (getEOTSPrivKey pk p lm).1 = Ok sk.
Proof.
  intros (name & r & Hn & Hk & Hr). unfold getEOTSPrivKey, mbind, M_bind, onEs, onKr, zoom.
  rewrite Hn. simpl. rewrite Hk. simpl. done.
Qed.

Lemma KeyRecord_spec lm pk p sk :
  lm_key lm pk p sk → ∃ name, (GetEOTSKeyName pk (lm_es lm)).1 = Ok name ∧
    (lm_KeyRecord pk p lm).1 = Ok (mkKeyRecord _ name sk).
Proof.
  intros Hkey. pose proof Hkey as (name & r & Hn & _). exists name. split; [done|].
  unfold lm_KeyRecord. eapply bind_spec; [apply frame_GetEOTSKeyName|exact Hn|].
  intros lm1 Hle1. eapply bind_spec; [apply frame_getEOTSPrivKey| |done].
  eapply getEOTSPrivKey_spec, lm_key_le; eauto.
Qed.

Lemma getRandomnessPair_spec lm pk ch h p sk :
  lm_key lm pk p sk → (getRandomnessPair pk ch h p lm).1 = Ok (priv_rand sk ch h, pub_rand sk ch h).
Proof.
  intros Hkey. destruct (KeyRecord_spec _ _ _ _ Hkey) as (name & _ & Hr).
  unfold getRandomnessPair. eapply bind_spec; [apply frame_KeyRecord|exact Hr|done].
Qed.

Lemma randomnessLoop_spec lm pk ch h p sk i k :
  lm_key lm pk p sk →
  (randomnessLoop pk ch h p (Z.of_nat i) k lm).1 =
    Ok ((λ j, pub_rand sk ch (u64 (h + Z.of_nat j))) <$> seq i k).
Proof.
  revert lm i. induction k as [|k IH]; intros lm i Hkey; [done|]. cbn [randomnessLoop].
  eapply bind_spec; [apply frame_getRandomnessPair|by apply getRandomnessPair_spec|].
  intros lm1 Hle1. eapply bind_spec; [apply frame_randomnessLoop| |done].
  replace (Z.of_nat i + 1)%Z with (Z.of_nat (S i)) by lia.
  apply IH. by eapply lm_key_le.
Qed.

Lemma CreateRandomnessPairList_spec lm pk ch h n p sk :
  lm_key lm pk p sk →
  (lm_CreateRandomnessPairList pk ch h n p lm).1 = Ok (pub_rand sk ch <$> rand_heights h n).
Proof.
  intros Hkey. unfold lm_CreateRandomnessPairList, rand_heights.
  eapply bind_spec; [apply frame_randomnessLoop|apply (randomnessLoop_spec lm pk ch h p sk 0); eauto|].
  intros lm1 _. by rewrite <-list_fmap_compose.
Qed.

Lemma SignEOTS_spec lm pk ch m h p sk :
  lm_key lm pk p sk → (lm_SignEOTS pk ch m h p lm).1 = eots_Sign sk (priv_rand sk ch h) m.
Proof.
  intros Hkey. unfold lm_SignEOTS.
  eapply (bind_spec lm_le); [frame_auto|by apply wrapping_Ok, getRandomnessPair_spec|].
  intros lm1 Hle1. eapply (bind_spec lm_le);
    [frame_auto|eapply wrapping_Ok, getEOTSPrivKey_spec, lm_key_le; eauto|done].
Qed.

Lemma SignSchnorrSig_spec lm pk m p sk :
  lm_key lm pk p sk → (lm_SignSchnorrSig pk m p lm).1 = schnorr_Sign sk m.
Proof.
  intros Hkey. unfold lm_SignSchnorrSig.
  eapply (bind_spec lm_le); [frame_auto|by apply wrapping_Ok, getEOTSPrivKey_spec|done].
Qed.

#[export] Instance local_eots_manager_laws : EOTSManagerLaws lmT.
Proof.
  split; simpl.
  - intros. apply frame_em_le, frame_CreateKey.
  - intros. apply frame_em_le, frame_CreateRandomnessPairList.
  - intros. apply frame_em_le, frame_KeyRecord.
  - intros. apply frame_em_le, frame_SignEOTS.
  - intros. apply frame_em_le, frame_SignSchnorrSig.
  - intros. by apply CreateRandomnessPairList_spec.
  - intros e uid p sk Hk. destruct (KeyRecord_spec _ _ _ _ Hk) as (name & _ & ?). eauto.
  - intros. by erewrite SignEOTS_spec.
  - intros. by erewrite SignSchnorrSig_spec.
Qed.

Lemma created_key_parts name p hd mn lm lm' pk :
  CreateKeyWithMnemonic name p hd mn lm = (Ok pk, lm') →
  name ≠ "" ∧ (∃ lm1, keyExists name lm = (Ok false, lm1)) ∧
  (GetEOTSKeyName pk (lm_es lm')).1 = Ok name ∧
  ∃ sk, pk = SerializePubKey (PubKey sk) ∧ lm_key lm' pk p sk.
Proof.
  unfold CreateKeyWithMnemonic. intros Hrun.
  apply bind_Ok_inv in Hrun as ([] & lm1 & Hex & Hrun); [done|].
  apply bind_Ok_inv in Hrun as (kr & lm1' & Hkr & Hrun). invM Hkr.
  apply bind_Ok_inv in Hrun as (algo & lm1'' & Halgo & Hrun).
  unfold lift in Halgo. injection Halgo as Halgo <-.
  apply bind_Ok_inv in Hrun as ([] & lm2 & Hreset & Hrun).
  apply bind_Ok_inv in Hrun as (record & lm3 & Hacc & Hrun).
  apply bind_Ok_inv in Hrun as (pk0 & lm4 & Hload & Hrun). unfold lift in Hload. injection Hload as Hload <-.
  apply bind_Ok_inv in Hrun as (btcPk & lm5 & Hbtc & Hrun). unfold lift in Hbtc. injection Hbtc as Hbtc <-.
  apply bind_Ok_inv in Hrun as ([] & lm6 & Hadd & Hrun).
  apply bind_Ok_inv in Hrun as ([] & lm7 & Hmet & Hrun). invM Hrun.
  unfold onMetrics, zoom in Hmet. injection Hmet as <-.
  unfold onEs, zoom in Hadd. injection Hadd as Hadd <-.
  destruct (AddEOTSKeyName btcPk name (lm_es lm3)) as [o es'] eqn:Ea. simpl in Hadd. subst o.
  unfold onKr, zoom in Hacc. injection Hacc as Hacc <-.
  destruct (kr_NewAccount name mn p hd algo (lm_kr lm2)) as [o kr'] eqn:En. simpl in Hacc. subst o.
  destruct (kr_NewAccount_local _ _ _ _ _ _ _ _ _ Halgo En) as (pb & sb & Hpb & Hsb & Hpair).
  unfold loadBIP340PubKeyFromKeyringRecord in Hload. rewrite Hpb in Hload. simpl in Hload.
  rewrite Hpair in Hload. simpl in Hload. injection Hload as <-. rewrite bip340_of_pk in *.
  destruct (must_to_btc_pk (PubKey (PrivKeyFromBytes sb))) as (pk' & Hpk' & Hser).
  rewrite Hpk' in Hbtc. injection Hbtc as <-.
  destruct (AddEOTSKeyName_inv _ _ _ _ Ea) as (_ & _ & Hne & _).
  destruct (AddEOTSKeyName_get _ _ _ _ Ea) as [Hget _]. rewrite Hser in Hget.
  apply (f_equal fst) in Hget.
  split; [done|]. split; [eauto|].
  split; [exact Hget|]. exists (PrivKeyFromBytes sb). split; [done|].
  exists name, record. split; [exact Hget|]. split.
  - by eapply kr_NewAccount_Key.
  - unfold eotsPrivKeyFromRecord. by rewrite Hsb.
Qed.


(** [CreateKey] with a name the keyring already opens fails with
    [ErrFinalityProviderAlreadyExisted] and leaves the store of key names as
    it was, so an existing key is not replaced. *)
Theorem create_key_existing_name name p hd mn lm r :
  (kr_Key name (lm_kr lm)).1 = Ok r →
  (CreateKeyWithMnemonic name p hd mn lm).1 = Err (Sentinel ErrFinalityProviderAlreadyExisted) ∧
  lm_es (CreateKeyWithMnemonic name p hd mn lm).2 = lm_es lm.
Proof.
  intros Hk. unfold CreateKeyWithMnemonic, keyExists, onKr, zoom, attempt, mbind, M_bind.
  destruct (kr_Key name (lm_kr lm)) as [o kr']. simpl in Hk. subst o. done.
Qed.
End LocalEOTSManager_theorems.

(** ** What a client of any EOTS manager can rely on *)

Section EOTSManager_clients.
Context {E : Type} `{EOTSManagerLaws E} `{!CryptoLaws}.
Implicit Types (e : E).

Lemma rand_heights_lookup h n i :
  (0 <= i < n)%Z → rand_heights h n !! Z.to_nat i = Some (u64 (h + i)).
Proof.
  intros Hi. unfold rand_heights. rewrite list_lookup_fmap, lookup_seq_lt by lia. simpl.
  do 2 f_equal. lia.
Qed.


(** Consecutive ranges of public randomness compose: asking for [n + m]
    values from a height gives the [n] values from it followed by the [m]
    values from [n] heights later, also across the wrap-around of [uint64]. *)
Theorem randomness_ranges_compose e uid ch h n m p sk :
  em_key e uid p sk → (0 <= n)%Z → (0 <= m)%Z →
  ∃ l1 l2, (em_CreateRandomnessPairList uid ch h n p e).1 = Ok l1 ∧
    (em_CreateRandomnessPairList uid ch (u64 (h + n)) m p e).1 = Ok l2 ∧
    (em_CreateRandomnessPairList uid ch h (n + m) p e).1 = Ok (l1 ++ l2).
Proof.
  intros Hk Hn Hm. do 2 eexists.
  split; [by apply em_CreateRandomnessPairList_spec|].
  split; [by apply em_CreateRandomnessPairList_spec|].
  erewrite em_CreateRandomnessPairList_spec; [|done|lia]. rewrite <-fmap_app. do 2 f_equal.
  unfold rand_heights. rewrite Z2Nat.inj_add, seq_app, fmap_app by lia. f_equal.
  rewrite Nat.add_0_l, <-(Nat.add_0_r (Z.to_nat n)) at 1. rewrite <-fmap_add_seq, <-list_fmap_compose.
  apply list_fmap_ext. intros _ j _. simpl. unfold u64. rewrite Zplus_mod_idemp_l. f_equal. lia.
Qed.

(** The manager has no guard against double signing: at one height and
    for two messages it makes two signatures with the same private
    randomness, in any order and with no randomness requested before. *)
Theorem sign_eots_has_no_slashing_guard e uid ch h p sk m1 m2 s1 s2 :
  em_key e uid p sk →
  eots_Sign sk (priv_rand sk ch h) m1 = Ok s1 → eots_Sign sk (priv_rand sk ch h) m2 = Ok s2 →
  ∃ e1 e2, em_SignEOTS uid ch m1 h p e = (Ok s1, e1) ∧ em_SignEOTS uid ch m2 h p e1 = (Ok s2, e2).
Proof.
  intros Hk H1s H2s. destruct (em_SignEOTS uid ch m1 h p e) as [o1 e1] eqn:E1.
  assert (em_key e1 uid p sk) as Hk1.
  { pose proof (em_SignEOTS_le uid ch m1 h p e) as Hle. rewrite E1 in Hle. by apply Hle. }
  apply (em_SignEOTS_spec _ _ _ _ _ _ _ _ Hk) in H1s. rewrite E1 in H1s. simpl in H1s. subst o1.
  apply (em_SignEOTS_spec _ _ _ _ _ _ _ _ Hk1) in H2s.
  destruct (em_SignEOTS uid ch m2 h p e1) as [o2 e2] eqn:E2. simpl in H2s. subst o2. eauto.
Qed.
End EOTSManager_clients.
