(* ===== verification/EotsRpc.v ===== *)
(** * EotsRpc: the EOTS manager behind gRPC

    Models the server handlers of [src/eotsmanager/service/rpcserver.go] and
    the client [src/eotsmanager/client/rpcclient.go], which implements the
    interface [EOTSManager] for the finality provider daemon. gRPC itself is
    a parameter. *)

From stdpp Require Import base gmap list strings.
From Stdlib Require Import ZArith Lia.
From S2P Require Import Prelude Errors Monad Types EotsManager.

(** ** The messages of proto/eotsmanager.proto *)

Record CreateKeyRequest := mkCreateKeyRequest {
  ck_Name : string; ck_Passphrase : string; ck_HdPath : string;
}.
Record CreateRandomnessPairListRequest := mkCreateRandomnessPairListRequest {
  cr_Uid : bytes; cr_ChainId : bytes; cr_StartHeight : Z; cr_Num : Z; cr_Passphrase : string;
}.
Record KeyRecordRequest := mkKeyRecordRequest { krq_Uid : bytes; krq_Passphrase : string; }.
Record KeyRecordResponse := mkKeyRecordResponse { krs_Name : string; krs_PrivateKey : bytes; }.
Record SignEOTSRequest := mkSignEOTSRequest {
  se_Uid : bytes; se_ChainId : bytes; se_Msg : bytes; se_Height : Z; se_Passphrase : string;
}.
Record SignSchnorrSigRequest := mkSignSchnorrSigRequest {
  ss_Uid : bytes; ss_Msg : bytes; ss_Passphrase : string;
}.

(** ** The server: handlers over any manager *)

Section rpcServer.
Context {E : Type} `{EOTSManager E}.

Definition srv_Ping (req : unit) : M E unit := mret tt.

Definition srv_CreateKey (req : CreateKeyRequest) : M E bytes :=
  em_CreateKey (ck_Name req) (ck_Passphrase req) (ck_HdPath req).

Definition srv_CreateRandomnessPairList (req : CreateRandomnessPairListRequest) : M E (list bytes) :=
  pubRandList ← em_CreateRandomnessPairList (cr_Uid req) (cr_ChainId req) (cr_StartHeight req)
                  (cr_Num req) (cr_Passphrase req);
  mret (FieldVal_Bytes <$> pubRandList).

Definition srv_KeyRecord (req : KeyRecordRequest) : M E KeyRecordResponse :=
  record ← em_KeyRecord (krq_Uid req) (krq_Passphrase req);
  mret (mkKeyRecordResponse (kr_Name record) (PrivKey_Serialize (kr_PrivKey record))).

Definition srv_SignEOTS (req : SignEOTSRequest) : M E bytes :=
  sig ← em_SignEOTS (se_Uid req) (se_ChainId req) (se_Msg req) (se_Height req) (se_Passphrase req);
  mret (ModNScalar_Bytes sig).

Definition srv_SignSchnorrSig (req : SignSchnorrSigRequest) : M E bytes :=
  sig ← em_SignSchnorrSig (ss_Uid req) (ss_Msg req) (ss_Passphrase req);
  mret (SchnorrSig_Serialize sig).
End rpcServer.

(** ** gRPC

    A connection [C] to a server whose state is [E]. *)

Class Grpc (C E : Type) := {
  grpc_server : C → E;
  (** a unary call of a handler *)
  grpc_invoke : ∀ {Req Res : Type}, (Req → M E Res) → Req → M C Res;
}.

(** The error a client gets for a handler's error *)
Definition status_error (e : error) : error :=
  ErrorString ("rpc error: code = Unknown desc = " +:+ Error e).

(** A connection that delivers requests and responses. A handler that panics
    ends the server process; the client gets an error. *)
Class GrpcDelivers (C E : Type) `{Grpc C E} : Prop := {
  grpc_server_runs Req Res (f : Req → M E Res) req c :
    grpc_server (grpc_invoke f req c).2 = (f req (grpc_server c)).2;
  grpc_Ok Req Res (f : Req → M E Res) req c r :
    (f req (grpc_server c)).1 = Ok r → (grpc_invoke f req c).1 = Ok r;
  grpc_Err Req Res (f : Req → M E Res) req c e :
    (f req (grpc_server c)).1 = Err e → (grpc_invoke f req c).1 = Err (status_error e);
  grpc_panic Req Res (f : Req → M E Res) req c :
    (∀ r, (f req (grpc_server c)).1 ≠ Ok r) → ∃ e, (grpc_invoke f req c).1 = Err e;
}.

(** ** The client *)

Section EOTSManagerGRpcClient.
Context {C E : Type} `{EOTSManager E} `{!Grpc C E}.

Definition cl_Ping : M C unit := grpc_invoke srv_Ping tt.

Definition NewEOTSManagerGRpcClient (remoteAddr : string) (dial : outcome unit) : M C unit :=
  wrapping ("failed to build gRPC connection to " +:+ remoteAddr +:+ ": ") (lift dial) ;;
  wrapping "the EOTS manager server is not responding: " cl_Ping.

Definition cl_CreateKey (name passphrase hdPath : string) : M C bytes :=
  grpc_invoke srv_CreateKey (mkCreateKeyRequest name passphrase hdPath).

Definition cl_CreateRandomnessPairList (uid chainID : bytes) (startHeight num : Z)
    (passphrase : string) : M C (list FieldVal) :=
  res ← grpc_invoke srv_CreateRandomnessPairList
          (mkCreateRandomnessPairListRequest uid chainID startHeight num passphrase);
  mret (FieldVal_SetByteSlice <$> res).

Definition cl_KeyRecord (uid : bytes) (passphrase : string) : M C KeyRecord :=
  res ← grpc_invoke srv_KeyRecord (mkKeyRecordRequest uid passphrase);
  mret (mkKeyRecord _ (krs_Name res) (PrivKeyFromBytes (krs_PrivateKey res))).

Definition cl_SignEOTS (uid chaiID msg : bytes) (height : Z) (passphrase : string)
    : M C ModNScalar :=
  res ← grpc_invoke srv_SignEOTS (mkSignEOTSRequest uid chaiID msg height passphrase);
  mret (ModNScalar_SetByteSlice res).

Definition cl_SignSchnorrSig (uid msg : bytes) (passphrase : string) : M C SchnorrSig :=
  res ← grpc_invoke srv_SignSchnorrSig (mkSignSchnorrSigRequest uid msg passphrase);
  lift (ParseSignature res).

(** The client as an EOTS manager. Not declared as an instance: the server's
    manager cannot be found from the type of the connection. *)
Definition grpc_eots_manager : EOTSManager C := {|
  em_CreateKey := cl_CreateKey;
  em_CreateRandomnessPairList := cl_CreateRandomnessPairList;
  em_KeyRecord := cl_KeyRecord;
  em_SignEOTS := cl_SignEOTS;
  em_SignSchnorrSig := cl_SignSchnorrSig;
  em_key c := em_key (grpc_server c);
|}.
End EOTSManagerGRpcClient.

(** ** Theorems *)

Section theorems.
Context {C E : Type} `{EOTSManager E} `{!CryptoLaws} `{!Grpc C E} `{!GrpcDelivers C E}.
Implicit Types (c : C).

#[local] Existing Instance grpc_eots_manager.

(** What a client sees of a manager's outcome *)
Definition remote {A} (o o' : outcome A) : Prop :=
  match o with
  | Ok a => o' = Ok a
  | Err e => o' = Err (status_error e)
  | _ => ∃ e, o' = Err e
  end.

(** A client operation [m'] carries out the manager's operation [m]. *)
Definition carries_out {A} (m' : M C A) (m : M E A) : Prop :=
  ∀ c, remote (m (grpc_server c)).1 (m' c).1 ∧ grpc_server (m' c).2 = (m (grpc_server c)).2.

(** A handler that encodes the result of [m] and a client that decodes it *)
Lemma carries_out_codec {Req A B} (m : M E A) (f : Req → M E B) req
    (enc : A → B) (dec : B → outcome A) (m' : M C A) :
  f req = (a ← m; mret (enc a)) → (∀ a, dec (enc a) = Ok a) →
  m' = (res ← grpc_invoke f req; lift (dec res)) → carries_out m' m.
Proof.
  intros Hf Hdec -> c. pose proof (grpc_server_runs _ _ f req c) as Hs.
  pose proof (grpc_Ok _ _ f req c) as Hok. pose proof (grpc_Err _ _ f req c) as Herr.
  pose proof (grpc_panic _ _ f req c) as Hp. rewrite Hf in *.
  unfold mbind, M_bind in *.
  destruct (m (grpc_server c)) as [[a|e|msg|] e']; simpl in *.
  - specialize (Hok _ eq_refl). destruct (grpc_invoke f req c) as [o c']; simpl in *. subst o.
    unfold lift. simpl. by rewrite Hdec.
  - specialize (Herr _ eq_refl). destruct (grpc_invoke f req c) as [o c']; simpl in *. by subst o.
  - destruct Hp as [e Hp]; [done|]. destruct (grpc_invoke f req c) as [o c']; simpl in *.
    subst o. simpl. eauto.
  - destruct Hp as [e Hp]; [done|]. destruct (grpc_invoke f req c) as [o c']; simpl in *.
    subst o. simpl. eauto.
Qed.

(** A call carries out its handler. *)
Lemma invoke_carries_out {Req Res} (f : Req → M E Res) req : carries_out (grpc_invoke f req) (f req).
Proof.
  intros c. pose proof (grpc_server_runs _ _ f req c) as Hs. split; [|done].
  pose proof (grpc_Ok _ _ f req c) as Hok. pose proof (grpc_Err _ _ f req c) as Herr.
  pose proof (grpc_panic _ _ f req c) as Hp.
  destruct (f req (grpc_server c)).1; simpl in *; [by apply Hok|by apply Herr| |]; by apply Hp.
Qed.

Lemma cl_CreateKey_ok name p hd : carries_out (cl_CreateKey name p hd) (em_CreateKey name p hd).
Proof. apply (invoke_carries_out srv_CreateKey (mkCreateKeyRequest name p hd)). Qed.

Lemma cl_CreateRandomnessPairList_ok uid ch h n p :
  carries_out (cl_CreateRandomnessPairList uid ch h n p) (em_CreateRandomnessPairList uid ch h n p).
Proof.
  eapply (carries_out_codec _ srv_CreateRandomnessPairList
            (mkCreateRandomnessPairListRequest uid ch h n p) (fmap FieldVal_Bytes)
            (λ l, Ok (FieldVal_SetByteSlice <$> l))); [done| |done].
  intros l. f_equal. rewrite <-list_fmap_compose. rewrite <-(list_fmap_id l) at 2.
  apply list_fmap_ext. intros _ v _. apply field_bytes_roundtrip.
Qed.

Lemma cl_KeyRecord_ok uid p : carries_out (cl_KeyRecord uid p) (em_KeyRecord uid p).
Proof.
  eapply (carries_out_codec _ srv_KeyRecord (mkKeyRecordRequest uid p)
    (λ r, mkKeyRecordResponse (kr_Name r) (PrivKey_Serialize (kr_PrivKey r)))
    (λ r, Ok (mkKeyRecord _ (krs_Name r) (PrivKeyFromBytes (krs_PrivateKey r))))); [done| |done].
  intros [name sk]. simpl. by rewrite privkey_roundtrip.
Qed.

Lemma cl_SignEOTS_ok uid ch m h p : carries_out (cl_SignEOTS uid ch m h p) (em_SignEOTS uid ch m h p).
Proof.
  eapply (carries_out_codec _ srv_SignEOTS (mkSignEOTSRequest uid ch m h p)
    ModNScalar_Bytes (λ r, Ok (ModNScalar_SetByteSlice r))); [done| |done].
  intros s. by rewrite scalar_bytes_roundtrip.
Qed.

Lemma cl_SignSchnorrSig_ok uid m p : carries_out (cl_SignSchnorrSig uid m p) (em_SignSchnorrSig uid m p).
Proof.
  eapply (carries_out_codec _ srv_SignSchnorrSig (mkSignSchnorrSigRequest uid m p)
    SchnorrSig_Serialize ParseSignature); [done| |done].
  intros s. apply schnorr_sig_roundtrip.
Qed.

Lemma carries_out_frame {A} (m' : M C A) (m : M E A) :
  carries_out m' m → frame em_le m → frame (em_le (E := C)) m'.
Proof. intros Hc Hf c uid p sk Hk. simpl in *. destruct (Hc c) as [_ ->]. by apply Hf. Qed.

Lemma carries_out_Ok {A} (m' : M C A) (m : M E A) c a :
  carries_out m' m → (m' c).1 = Ok a ↔ (m (grpc_server c)).1 = Ok a.
Proof.
  intros Hc. destruct (Hc c) as [Hr _]. unfold remote in Hr.
  destruct (m (grpc_server c)).1; [by rewrite Hr|rewrite Hr; split; done|..];
    destruct Hr as [e ->]; split; done.
Qed.

Lemma grpc_eots_manager_laws `{!EOTSManagerLaws E} : EOTSManagerLaws C.
Proof.
  split; simpl.
  - intros. eapply carries_out_frame; [apply cl_CreateKey_ok|apply em_CreateKey_le].
  - intros. eapply carries_out_frame;
      [apply cl_CreateRandomnessPairList_ok|apply em_CreateRandomnessPairList_le].
  - intros. eapply carries_out_frame; [apply cl_KeyRecord_ok|apply em_KeyRecord_le].
  - intros. eapply carries_out_frame; [apply cl_SignEOTS_ok|apply em_SignEOTS_le].
  - intros. eapply carries_out_frame; [apply cl_SignSchnorrSig_ok|apply em_SignSchnorrSig_le].
  - intros c uid ch h n p sk Hk Hn. apply (carries_out_Ok _ _ _ _ (cl_CreateRandomnessPairList_ok _ _ _ _ _)).
    by apply em_CreateRandomnessPairList_spec.
  - intros c uid p sk Hk. destruct (em_KeyRecord_spec _ _ _ _ Hk) as [name Hr]. exists name.
    by apply (carries_out_Ok _ _ _ _ (cl_KeyRecord_ok _ _)).
  - intros c uid ch m h p sk sig Hk.
    rewrite (carries_out_Ok _ _ _ _ (cl_SignEOTS_ok _ _ _ _ _)). by apply em_SignEOTS_spec.
  - intros c uid m p sk sig Hk.
    rewrite (carries_out_Ok _ _ _ _ (cl_SignSchnorrSig_ok _ _ _)). by apply em_SignSchnorrSig_spec.
Qed.

(** C11: over a connection that delivers, each operation of the gRPC client
    carries out the same operation of the manager behind the server: the
    decoded result equals the manager's result, an error of the manager
    becomes a gRPC error with its text, a panic becomes an error, and the
    manager is left in the same state. *)
Theorem remote_manager_is_the_manager :
  (∀ name p hd, carries_out (cl_CreateKey name p hd) (em_CreateKey name p hd)) ∧
  (∀ uid ch h n p, carries_out (cl_CreateRandomnessPairList uid ch h n p)
                               (em_CreateRandomnessPairList uid ch h n p)) ∧
  (∀ uid p, carries_out (cl_KeyRecord uid p) (em_KeyRecord uid p)) ∧
  (∀ uid ch m h p, carries_out (cl_SignEOTS uid ch m h p) (em_SignEOTS uid ch m h p)) ∧
  (∀ uid m p, carries_out (cl_SignSchnorrSig uid m p) (em_SignSchnorrSig uid m p)).
Proof.
  split_and!; intros; [apply cl_CreateKey_ok|apply cl_CreateRandomnessPairList_ok|
    apply cl_KeyRecord_ok|apply cl_SignEOTS_ok|apply cl_SignSchnorrSig_ok].
Qed.
End theorems.
