(* ===== verification/Eotsd.v ===== *)
(** * Eotsd: the command line of the EOTS daemon

    Models [src/eotsmanager/cmd/eotsd/daemon/] (init.go, keys.go, pop.go,
    sign.go, start.go, flags.go) over the local manager of [EotsManager], with
    [NewLocalEOTSManager] and [initKeyring] of [src/eotsmanager/localmanager.go].
    The command line library urfave/cli is a parameter: a command gets the
    values of its flags and its arguments. The database and the keyring of a
    home directory are read when they are opened and written when the command
    ends; a bolt database is open in one process at a time. *)

From stdpp Require Import base gmap list sets strings pretty.
From Stdlib Require Import ZArith Lia Strings.Byte.
From S2P Require Import Prelude Errors Monad Version Paths Log Config Server EotsConfig.
From S2P Require Import Types Kvdb Metrics EotsManager.

(** ** urfave/cli *)

Record cliContext := mkCliContext {
  c_String : string → string;
  c_Bool : string → bool;
  c_Args : list string;
}.

Definition First (args : list string) : string := default "" (head args).

Inductive cliFlag :=
  | StringFlag (Name Value : string) (Required : bool)
  | BoolFlag (Name : string).

(** ** flags.go *)

Definition homeFlag := "home".
Definition forceFlag := "force".
Definition rpcListenerFlag := "rpc-listener".
Definition eotsPkFlag := "eots-pk".
Definition signatureFlag := "signature".
Definition keyNameFlag := "key-name".
Definition passphraseFlag := "passphrase".
Definition hdPathFlag := "hd-path".
Definition keyringBackendFlag := "keyring-backend".
Definition recoverFlag := "recover".
Definition defaultKeyringBackend := "test".
Definition defaultHdPath := "".
Definition defaultPassphrase := "".

(** ** Files of the daemon and libraries *)

(** [input.GetString], [bip39.IsMnemonicValid], [sha256], BIP-340
    verification, and the proof of possession of the Babylon libraries:
    [NewBIP340SignatureFromBTCSig(_).Marshal()] and [ToHexStr] of a
    [ProofOfPossessionBTC] of type BIP340 *)
Class EotsdTypes (F : Type) `{Crypto} := {
  input_GetString : string → M F string;
  IsMnemonicValid : string → bool;
  sha256 : bytes → bytes;
  schnorr_Verify : SchnorrSig → bytes → PublicKey → bool;
  BIP340Signature_Marshal : SchnorrSig → outcome bytes;
  PoP_ToHexStr : bytes → outcome string;
}.

Record KeyOutput := mkKeyOutput { ko_Name : string; ko_PubKeyHex : string; ko_Mnemonic : string; }.
Record DataSigned := mkDataSigned {
  ds_KeyName : string; ds_PubKeyHex : string; ds_SignedDataHashHex : string; ds_SchnorrSignatureHex : string;
}.
Record PoPExport := mkPoPExport { pe_PubKeyHex : string; pe_PoPHex : string; pe_BabylonAddress : string; }.

(** What a command prints *)
Inductive eotsdOutput :=
  | PrintKey (k : KeyOutput) | PrintSigned (d : DataSigned) | PrintPoP (p : PoPExport) | PrintVerified.

Section eotsd.
Context `{Crypto} `{Codec} {F KR Db Rnd : Type} `{!Keyring KR} `{!Kvdb Db} `{!Bip39 Rnd}.
Context `{!FileSystem F} `{!Process F} `{!Disk F KR Db} `{!EotsdTypes F}.
Context `{Net} `{KvdbDefaults} `{!IniFile F EotsConfig} `{Network}.
Context (DefaultEOTSDir : string).

(** The files, the random source and the output of the process *)
Record eotsd := mkEotsd { ed_fs : F; ed_rand : Rnd; ed_out : list eotsdOutput; }.

Definition ed_set_fs f s := mkEotsd f (ed_rand s) (ed_out s).
Definition onFs {A} : M F A → M eotsd A := zoom ed_fs ed_set_fs.
Definition print (o : eotsdOutput) : M eotsd unit :=
  modify (λ s, mkEotsd (ed_fs s) (ed_rand s) (o :: ed_out s)).

Abbreviation LMgr := (LocalEOTSManager KR Db Rnd).

(** ** localmanager.go: the construction of the manager *)

Definition initKeyring (homeDir keyringBackend : string) (f : F) : outcome KR :=
  keyring_New "eots-manager" keyringBackend homeDir f.

Definition NewLocalEOTSManager (homeDir keyringBackend : string) (f : F) (rnd : Rnd) : M Db LMgr :=
  wrapping "failed to initialize store: " NewEOTSStore ;;
  kr ← wrapping "failed to initialize keyring: " (lift (initKeyring homeDir keyringBackend f));
  es ← get;
  mret (mkLocalEOTSManager kr es rnd NewEotsMetrics).

(** The files after a command used the manager, and after it could not make
    one *)
Definition saveManager (cfg : EotsConfig) (home backend : string) (lm : LMgr) (f : F) (s : eotsd) : eotsd :=
  mkEotsd (keyring_sync "eots-manager" backend home (lm_kr lm)
             (bolt_sync (ec_DBConfigToBoltBackendConfig (ec_DatabaseConfig cfg)) (lm_es lm) f))
    (lm_rand lm) (ed_out s).
Definition saveDb (cfg : EotsConfig) (db : Db) (s : eotsd) : eotsd :=
  ed_set_fs (bolt_sync (ec_DBConfigToBoltBackendConfig (ec_DatabaseConfig cfg)) db (ed_fs s)) s.

Definition getHomeFlag (ctx : cliContext) : M eotsd string := onFs (absHome (c_String ctx homeFlag)).

(** The steps every command that uses the manager starts with: the
    configuration and the logger *)
Definition loadConfigAndLogger (homePath : string) : M eotsd EotsConfig :=
  fs ← gets ed_fs;
  cfg ← wrapping ("failed to load config at " +:+ homePath +:+ ": ") (lift (ec_LoadConfig homePath fs));
  r ← attempt (onFs (NewRootLoggerWithFile (ec_LogFile homePath) (ec_LogLevel cfg)));
  match r with
  | inl _ => throw (ErrorString "failed to load the logger")
  | inr _ => mret cfg
  end.

(** Opens the database and the manager, runs [body] with them and closes the
    database *)
Definition withManager {A} (homePath keyringBackend : string) (cfg : EotsConfig) (body : M (F * LMgr) A)
    : M eotsd A := λ s,
  match ec_GetDbBackend (λ c, GetBoltBackend c (ed_fs s)) (ec_DatabaseConfig cfg) with
  | Ok db =>
      match NewLocalEOTSManager homePath keyringBackend (ed_fs s) (ed_rand s) db with
      | (Ok lm, _) =>
          let '(o, (f, lm)) := body (ed_fs s, lm) in (o, saveManager cfg homePath keyringBackend lm f s)
      | (Err e, db) => (Err (Wrap "failed to create EOTS manager: " e ""), saveDb cfg db s)
      | (Fatal m, db) => (Fatal m, saveDb cfg db s)
      | (OutOfFuel, db) => (OutOfFuel, saveDb cfg db s)
      end
  | Err e => (Err (Wrap "failed to create db backend: " e ""), s)
  | Fatal m => (Fatal m, s)
  | OutOfFuel => (OutOfFuel, s)
  end.

Definition onFiles {A} : M F A → M (F * LMgr) A := zoom fst (λ f s, (f, s.2)).
Definition onManager {A} : M LMgr A → M (F * LMgr) A := zoom snd (λ lm s, (s.1, lm)).

(** ** init.go *)

Definition with_DBPath (path : string) (c : EotsConfig) : EotsConfig :=
  let db := ec_DatabaseConfig c in
  mkEotsConfig (ec_LogLevel c) (ec_KeyringBackend c) (ec_RpcListener c) (ec_Metrics c)
    (mkEcDBConfig path (ec_DBFileName db) (ec_NoFreelistSync db) (ec_AutoCompact db) (ec_AutoCompactMinAge db)
      (ec_DBTimeout db)).

Definition initHome (c : cliContext) : M eotsd unit :=
  homePath ← getHomeFlag c;
  exists_ ← gets (λ s, FileExists homePath (ed_fs s));
  if (exists_ : bool) && negb (c_Bool c forceFlag)
  then throw (ErrorString ("home path " +:+ homePath +:+ " already exists"))
  else
    onFs (MakeDirectory homePath) ;;
    onFs (MakeDirectory (ec_LogDir homePath)) ;;
    onFs (MakeDirectory (ec_DataDir homePath)) ;;
    defaultConfig ← lift (ec_DefaultConfig DefaultEOTSDir);
    onFs (ini_WriteFile (ec_ConfigFile homePath) (with_DBPath (ec_DataDir homePath) defaultConfig)).

(** ** keys.go *)

Definition getMnemonic (ctx : cliContext) : M (F * LMgr) string :=
  if c_Bool ctx recoverFlag
  then
    mnemonic ← wrapping "failed to read mnemonic from stdin: " (onFiles (input_GetString "Enter your mnemonic"));
    if negb (IsMnemonicValid mnemonic) then throw (ErrorString "invalid mnemonic") else mret mnemonic
  else onManager NewMnemonic.

Definition createKey (ctx : cliContext) (keyName : string) : M (F * LMgr) (bytes * string) :=
  let passphrase := c_String ctx passphraseFlag in
  let hdPath := c_String ctx hdPathFlag in
  mnemonic ← getMnemonic ctx;
  eotsPk ← onManager (CreateKeyWithMnemonic keyName passphrase hdPath mnemonic);
  mret (eotsPk, mnemonic).

Definition addKey (ctx : cliContext) : M eotsd unit :=
  let keyName := c_String ctx keyNameFlag in
  let keyringBackend := c_String ctx keyringBackendFlag in
  homePath ← wrapping "failed to load home flag: " (getHomeFlag ctx);
  cfg ← loadConfigAndLogger homePath;
  r ← withManager homePath keyringBackend cfg (wrapping "failed to create key: " (createKey ctx keyName));
  print (PrintKey (mkKeyOutput keyName (MarshalHex r.1) r.2)).

(** ** sign.go *)

Definition hashFromFile (inputFilePath : string) (f : F) : outcome bytes :=
  match os_Open inputFilePath f with
  | Ok content => content ≫= λ b, Ok (sha256 b)
  | Err e => Err (Wrap ("failed to open the file " +:+ inputFilePath +:+ ": ") e "")
  | Fatal m => Fatal m
  | OutOfFuel => OutOfFuel
  end.

Definition singMsg (keyName fpPkStr passphrase : string) (hashOfMsgToSign : bytes)
    : M (F * LMgr) (SchnorrSig * bytes) :=
  if (0 <? String.length fpPkStr)%nat
  then
    fpPk ← wrapping ("invalid finality-provider public key " +:+ fpPkStr +:+ ": ")
             (lift (NewBIP340PubKeyFromHex fpPkStr));
    signature ← wrapping ("unable to sign msg with pk " +:+ fpPkStr +:+ ": ")
                  (onManager (lm_SignSchnorrSig fpPk hashOfMsgToSign passphrase));
    mret (signature, fpPk)
  else onManager (SignSchnorrSigFromKeyname keyName passphrase hashOfMsgToSign).

Definition badPath : error :=
  ErrorString "invalid argument, please provide a valid file path as input argument".
Definition noKey : error :=
  ErrorString ("at least one of the flags: " +:+ keyNameFlag +:+ ", " +:+ eotsPkFlag +:+ " needs to be informed").

Definition SignSchnorr (ctx : cliContext) : M eotsd unit :=
  let keyName := c_String ctx keyNameFlag in
  let fpPkStr := c_String ctx eotsPkFlag in
  let passphrase := c_String ctx passphraseFlag in
  let keyringBackend := c_String ctx keyringBackendFlag in
  let inputFilePath := First (c_Args ctx) in
  if (String.length inputFilePath =? 0)%nat then throw badPath
  else if (String.length fpPkStr =? 0)%nat && (String.length keyName =? 0)%nat then throw noKey
  else
    homePath ← wrapping "failed to load home flag: " (getHomeFlag ctx);
    cfg ← loadConfigAndLogger homePath;
    r ← withManager homePath keyringBackend cfg
          (hash ← wrapping ("failed to generate hash from file " +:+ inputFilePath +:+ ": ")
                    (λ s, (hashFromFile inputFilePath s.1, s));
           signed ← wrapping "failed to sign msg: " (singMsg keyName fpPkStr passphrase hash);
           mret (hash, signed));
    print (PrintSigned (mkDataSigned keyName (MarshalHex r.2.2) (hex_EncodeToString r.1)
             (hex_EncodeToString (SchnorrSig_Serialize r.2.1)))).

Definition SignSchnorrVerify (ctx : cliContext) : M eotsd unit :=
  let fpPkStr := c_String ctx eotsPkFlag in
  let signatureHex := c_String ctx signatureFlag in
  let inputFilePath := First (c_Args ctx) in
  if (String.length inputFilePath =? 0)%nat then throw badPath
  else
    fs ← gets ed_fs;
    hashOfMsgToSign ← wrapping ("failed to generate hash from file " +:+ inputFilePath +:+ ": ")
                        (lift (hashFromFile inputFilePath fs));
    fpPk ← wrapping ("invalid finality-provider public key " +:+ fpPkStr +:+ ": ")
             (lift (NewBIP340PubKeyFromHex fpPkStr));
    pubKey ← wrapping ("unable to parse public key " +:+ fpPkStr +:+ ": ") (lift (ParsePubKey fpPk));
    signatureBz ← wrapping ("unable to decode signature " +:+ signatureHex +:+ ": ")
                    (lift (hex_DecodeString signatureHex));
    signature ← wrapping ("unable to parse schnorr signature " +:+ string_of_bytes signatureBz +:+ ": ")
                  (lift (ParseSignature signatureBz));
    if negb (schnorr_Verify signature hashOfMsgToSign pubKey) then throw (ErrorString "invalid signature")
    else print PrintVerified.

(** ** pop.go *)

Definition ExportPoP (ctx : cliContext) : M eotsd unit :=
  let keyName := c_String ctx keyNameFlag in
  let fpPkStr := c_String ctx eotsPkFlag in
  let passphrase := c_String ctx passphraseFlag in
  let keyringBackend := c_String ctx keyringBackendFlag in
  let bbnAddressStr := First (c_Args ctx) in
  bbnAddr ← wrapping ("invalid argument " +:+ bbnAddressStr +:+
              ", please provide a valid bbn address as argument, err: ")
              (lift (AccAddressFromBech32 bbnAddressStr));
  if (String.length fpPkStr =? 0)%nat && (String.length keyName =? 0)%nat then throw noKey
  else
    homePath ← wrapping "failed to load home flag: " (getHomeFlag ctx);
    cfg ← loadConfigAndLogger homePath;
    r ← withManager homePath keyringBackend cfg
          (signed ← wrapping ("failed to sign address " +:+ AccAddress_String bbnAddr +:+ ": ")
                      (singMsg keyName fpPkStr passphrase (tmhash_Sum bbnAddr));
           btcSigBz ← wrapping "failed to marshal BTC Sig: " (lift (BIP340Signature_Marshal signed.1));
           popHex ← wrapping "failed to marshal pop to hex: " (lift (PoP_ToHexStr btcSigBz));
           mret (signed.2, popHex));
    print (PrintPoP (mkPoPExport (MarshalHex r.1) r.2 (AccAddress_String bbnAddr))).

(** ** start.go *)

Definition with_listener (l : string) (c : EotsConfig) : EotsConfig :=
  mkEotsConfig (ec_LogLevel c) (ec_KeyringBackend c) l (ec_Metrics c) (ec_DatabaseConfig c).

(** [startFn] up to the server, which it returns with its settings;
    [intercept] is [signal.Intercept()]. *)
Definition startFn (intercept : outcome unit) (ctx : cliContext) : M eotsd (EotsConfig * LMgr) :=
  homePath ← wrapping "failed to load home flag: " (getHomeFlag ctx);
  fs ← gets ed_fs;
  cfg ← wrapping ("failed to load config at " +:+ homePath +:+ ": ") (lift (ec_LoadConfig homePath fs));
  let rpcListener := c_String ctx rpcListenerFlag in
  cfg ← (if negb (bool_decide (rpcListener = ""))
         then wrapping ("invalid RPC listener address " +:+ rpcListener +:+ ", ")
                (lift (ResolveTCPAddr rpcListener)) ;;
              mret (with_listener rpcListener cfg)
         else mret cfg);
  r ← attempt (onFs (NewRootLoggerWithFile (ec_LogFile homePath) (ec_LogLevel cfg)));
  match r with
  | inl _ => throw (ErrorString "failed to load the logger")
  | inr _ =>
      lm ← withManager homePath (ec_KeyringBackend cfg) cfg (λ s, (Ok s.2, s));
      lift intercept ;;
      mret (cfg, lm)
  end.

(** The server runs on the settings and the manager of [startFn]. *)
Definition runServer (cfg : EotsConfig) : M Server unit := RunUntilShutdown (ec_Metrics cfg) (ec_RpcListener cfg).

(** ** The commands of main.go *)

Record Command := mkCommand { Name : string; Flags : list cliFlag; Action : cliContext → M eotsd unit; }.

Definition homeFlagDecl : cliFlag := StringFlag homeFlag DefaultEOTSDir false.
Definition signFlags : list cliFlag :=
  [homeFlagDecl; StringFlag keyNameFlag "" false; StringFlag eotsPkFlag "" false;
   StringFlag passphraseFlag defaultPassphrase false; StringFlag keyringBackendFlag defaultKeyringBackend false].

Definition InitCommand : Command := mkCommand "init" [homeFlagDecl; BoolFlag forceFlag] initHome.
Definition AddKeyCmd : Command :=
  mkCommand "add"
    [homeFlagDecl; StringFlag keyNameFlag "" true; StringFlag passphraseFlag defaultPassphrase false;
     StringFlag hdPathFlag defaultHdPath false; StringFlag keyringBackendFlag defaultKeyringBackend false;
     BoolFlag recoverFlag] addKey.
Definition SignSchnorrSig : Command := mkCommand "sign-schnorr" signFlags SignSchnorr.
Definition VerifySchnorrSig : Command :=
  mkCommand "verify-schnorr-sig"
    [StringFlag eotsPkFlag "" true; StringFlag signatureFlag "" true] SignSchnorrVerify.
Definition ExportPoPCommand : Command := mkCommand "pop-export" signFlags ExportPoP.
Definition StartCommand (intercept : outcome unit) : Command :=
  mkCommand "start" [homeFlagDecl; StringFlag rpcListenerFlag "" false]
    (λ ctx, _ ← startFn intercept ctx; mret tt).

Definition commands (intercept : outcome unit) : list Command :=
  [StartCommand intercept; InitCommand; SignSchnorrSig; VerifySchnorrSig; ExportPoPCommand; AddKeyCmd].
End eotsd.
Arguments eotsd : clear implicits.

(** ** Theorems *)

(** What is relied on of the libraries: BIP-340 verification depends on the X
    coordinate only and accepts what was signed; a local record of the keyring
    holds a key pair; files that were written are read back, where a keyring
    that is opened again holds the keys it held. *)
Class EotsdLaws (F KR Db : Type) `{Crypto} `{!Keyring KR} `{!EotsdTypes F} `{!Disk F KR Db} : Prop := {
  schnorr_sign_verify sk msg s pk :
    schnorr_Sign sk msg = Ok s → SerializePubKey pk = SerializePubKey (PubKey sk) →
    schnorr_Verify s msg pk = true;
  record_pair r pb sb :
    record_GetPubKey r = Ok (KrSecp256k1PubKey pb) → record_GetLocal r = Some (KrSecp256k1PrivKey sb) →
    btcec_ParsePubKey pb = Ok (PubKey (PrivKeyFromBytes sb));
  bolt_reopen c (db : Db) app b d (kr : KR) (f : F) :
    GetBoltBackend c (keyring_sync app b d kr (bolt_sync c db f)) = Ok db;
  keyring_reopen app b d (kr : KR) (f : F) :
    ∃ kr', keyring_New app b d (keyring_sync app b d kr f) = Ok kr' ∧ kr_le kr kr';
}.

Section theorems.
Context `{CryptoLaws} `{Codec} {F KR Db Rnd : Type} `{!Keyring KR} `{!KeyringLaws KR}.
Context `{!Kvdb Db} `{!KvdbLaws Db} `{!KvdbReliable Db} `{!Bip39 Rnd}.
Context `{!FileSystem F} `{!Process F} `{!Disk F KR Db} `{!EotsdTypes F} `{!EotsdLaws F KR Db}.
Context `{Net} `{KvdbDefaults} `{!IniFile F EotsConfig} `{!EotsIniLaws F} (DefaultEOTSDir : string).
Abbreviation ED := (eotsd F Rnd).
Abbreviation LMgr := (LocalEOTSManager KR Db Rnd).
Implicit Types (s : ED) (lm : LMgr) (ctx : cliContext).

(** *** Flags *)

(** The two contexts agree on what the flags declare, with their types. *)
Definition agree (flags : list cliFlag) ctx ctx' : Prop :=
  c_Args ctx = c_Args ctx' ∧
  Forall (λ fl, match fl with
                | StringFlag n _ _ => c_String ctx n = c_String ctx' n
                | BoolFlag n => c_Bool ctx n = c_Bool ctx' n
                end) flags.

(** Replaces the flags of the first context by those of the second, in the
    order of their declarations. *)
Ltac use_flags Hf :=
  repeat match type of Hf with
  | Forall _ (_ :: _) => let E := fresh "Ef" in apply Forall_cons in Hf as [E Hf]; cbn in E
  end.

(** Every command of eotsd reads only the flags it declares, with their
    types: its action does the same on any two command lines that agree on
    them and on the arguments. *)
Theorem eotsd_reads_declared_flags intercept cmd ctx ctx' s :
  cmd ∈ commands (F := F) (KR := KR) (Db := Db) (Rnd := Rnd) DefaultEOTSDir intercept →
  agree (Flags cmd) ctx ctx' → Action cmd ctx s = Action cmd ctx' s.
Proof.
  unfold commands. rewrite !elem_of_cons, elem_of_nil.
  intros [->|[->|[->|[->|[->|[->|[]]]]]]] [Ha Hf]; cbn in Hf |- *; unfold signFlags, homeFlagDecl in Hf; use_flags Hf.
  - unfold startFn, getHomeFlag. by rewrite Ef, Ef0.
  - unfold initHome, getHomeFlag. by rewrite Ef, Ef0.
  - unfold SignSchnorr, getHomeFlag. by rewrite Ha, Ef, Ef0, Ef1, Ef2, Ef3.
  - unfold SignSchnorrVerify. by rewrite Ha, Ef, Ef0.
  - unfold ExportPoP, getHomeFlag. by rewrite Ha, Ef, Ef0, Ef1, Ef2, Ef3.
  - unfold addKey, createKey, getMnemonic, getHomeFlag. by rewrite Ef, Ef0, Ef1, Ef2, Ef3, Ef4.
Qed.

(** *** Initialisation *)

(** A home directory that was initialised is loaded with the default
    settings and a database under it. *)
Theorem eotsd_init_loads ctx s s' :
  initHome DefaultEOTSDir ctx s = (Ok tt, s') →
  ∃ home, (absHome (c_String ctx homeFlag) (ed_fs s)).1 = Ok home ∧
    ec_LoadConfig home (ed_fs s') = Ok (with_DBPath (ec_DataDir home) (ec_defaultSettings DefaultEOTSDir)).
Proof.
  unfold initHome. intros Hrun. apply bind_Ok_inv in Hrun as (home & s1 & Hh & Hrun).
  apply zoom_inv in Hh as (f1 & Hh & ->). exists home. split; [by rewrite Hh|].
  apply bind_Ok_inv in Hrun as (ex & s2 & Hex & Hrun). injection Hex as <- <-.
  destruct (andb _ _); [done|].
  apply bind_Ok_inv in Hrun as ([] & s3 & _ & Hrun). apply bind_Ok_inv in Hrun as ([] & s4 & _ & Hrun).
  apply bind_Ok_inv in Hrun as ([] & s5 & _ & Hrun).
  apply bind_Ok_inv in Hrun as (c & s6 & Hc & Hrun). injection Hc as Hc <-.
  unfold ec_DefaultConfig, ec_DefaultConfigWithHomePath in Hc.
  destruct (ec_Validate (ec_defaultSettings DefaultEOTSDir)) as [[]| | |] eqn:Ev; try done.
  injection Hc as <-. apply ec_Validate_spec in Ev. apply zoom_inv in Hrun as (f7 & Hw & ->).
  eapply ec_written_loads; [|by right; set_solver|exact Hw].
  exact Ev.
Qed.

(** *** The manager of a command *)

(** The manager that the command opens *)
Definition manager_opened ctx s lm : Prop :=
  ∃ home cfg s1 s2 db, getHomeFlag ctx s = (Ok home, s1) ∧ loadConfigAndLogger home s1 = (Ok cfg, s2) ∧
    ec_GetDbBackend (λ c, GetBoltBackend c (ed_fs s2)) (ec_DatabaseConfig cfg) = Ok db ∧
    (NewLocalEOTSManager home (c_String ctx keyringBackendFlag) (ed_fs s2) (ed_rand s2) db).1 = Ok lm.

(** The stored key names are those of the keyring's own keys. *)
Definition keys_match lm : Prop :=
  ∀ pk name p r sk, (GetEOTSKeyName pk (lm_es lm)).1 = Ok name →
    (kr_Key name (input_Reset p (lm_kr lm))).1 = Ok r → eotsPrivKeyFromRecord r = Ok sk →
    pk = SerializePubKey (PubKey sk).

Lemma withManager_inv {A} home backend cfg (body : M (F * LMgr) A) s a s' :
  withManager home backend cfg body s = (Ok a, s') →
  ∃ db lm f lm', ec_GetDbBackend (λ c, GetBoltBackend c (ed_fs s)) (ec_DatabaseConfig cfg) = Ok db ∧
    (NewLocalEOTSManager home backend (ed_fs s) (ed_rand s) db).1 = Ok lm ∧
    body (ed_fs s, lm) = (Ok a, (f, lm')) ∧ s' = saveManager cfg home backend lm' f s.
Proof.
  unfold withManager. destruct (ec_GetDbBackend _ _) as [db| | |]; try done.
  destruct (NewLocalEOTSManager home backend (ed_fs s) (ed_rand s) db) as [[lm| | |] db'] eqn:En; try done.
  destruct (body (ed_fs s, lm)) as [o [f lm']] eqn:Eb. intros Hr. injection Hr as -> <-.
  exists db, lm, f, lm'. split; [done|]. split; [by rewrite En|done].
Qed.

Lemma onManager_inv {A} (m : M LMgr A) (f : F) lm o t :
  onManager m (f, lm) = (o, t) → ∃ lm', m lm = (o, lm') ∧ t = (f, lm').
Proof. intros Hr. apply zoom_inv in Hr as (lm' & Hm & ->). simpl in *. eauto. Qed.

Lemma getEOTSPrivKey_inv pk p lm sk lm' :
  getEOTSPrivKey pk p lm = (Ok sk, lm') →
  ∃ name r, (GetEOTSKeyName pk (lm_es lm)).1 = Ok name ∧
    (kr_Key name (input_Reset p (lm_kr lm))).1 = Ok r ∧ eotsPrivKeyFromRecord r = Ok sk.
Proof.
  unfold getEOTSPrivKey. intros Hrun. apply bind_Ok_inv in Hrun as (name & lm1 & Hn & Hrun).
  apply zoom_inv in Hn as (es & Hn & ->).
  apply bind_Ok_inv in Hrun as ([] & lm2 & Hr & Hrun). injection Hr as <-.
  apply bind_Ok_inv in Hrun as (r & lm3 & Hk & Hrun). apply zoom_inv in Hk as (kr & Hk & ->).
  injection Hrun as Hrun _. exists name, r. split; [by rewrite Hn|]. split; [|done].
  by apply (f_equal fst) in Hk.
Qed.

Lemma sign_from_sk_inv sk pk msg lm sig lm' :
  signSchnorrSigFromPrivKey sk pk msg lm = (Ok sig, lm') → schnorr_Sign sk msg = Ok sig.
Proof.
  unfold signSchnorrSigFromPrivKey. intros Hrun. apply bind_Ok_inv in Hrun as ([] & lm1 & _ & Hrun).
  by injection Hrun.
Qed.

(** A signature of [singMsg] is made with the secret key of the public key it
    returns. *)
Lemma singMsg_inv kn pkStr p hash (f : F) lm sig pk t :
  (pkStr = "" ∨ keys_match lm) → singMsg kn pkStr p hash (f, lm) = (Ok (sig, pk), t) →
  ∃ sk, pk = SerializePubKey (PubKey sk) ∧ schnorr_Sign sk hash = Ok sig.
Proof.
  unfold singMsg. intros Hk. destruct (Nat.ltb_spec 0 (String.length pkStr)) as [Hlen|_].
  - destruct Hk as [->|Hk]; [simpl in Hlen; lia|]. intros Hrun.
    apply bind_Ok_inv in Hrun as (pk0 & s1 & Hpk%wrapping_inv & Hrun). injection Hpk as Hpk <-.
    apply bind_Ok_inv in Hrun as (sig0 & s2 & Hs%wrapping_inv & Hrun). injection Hrun as <- <- _.
    apply onManager_inv in Hs as (lm' & Hs & _). unfold lm_SignSchnorrSig in Hs.
    apply bind_Ok_inv in Hs as (sk & lm1 & Hsk%wrapping_inv & Hs).
    apply getEOTSPrivKey_inv in Hsk as (name & r & Hn & Hkr & Hr). exists sk.
    split; [by eapply Hk|]. by eapply sign_from_sk_inv.
  - intros Hrun. apply onManager_inv in Hrun as (lm' & Hrun & _). unfold SignSchnorrSigFromKeyname in Hrun.
    apply bind_Ok_inv in Hrun as ([] & lm1 & _ & Hrun).
    apply bind_Ok_inv in Hrun as (r & lm2 & _ & Hrun).
    apply bind_Ok_inv in Hrun as (pk0 & lm3 & Hpk & Hrun). injection Hpk as Hpk <-.
    apply bind_Ok_inv in Hrun as (sk & lm4 & Hsk & Hrun). injection Hsk as Hsk <-.
    apply bind_Ok_inv in Hrun as (sig0 & lm5 & Hs%wrapping_inv & Hrun). injection Hrun as <- <- _.
    exists sk. split; [|by eapply sign_from_sk_inv].
    unfold loadBIP340PubKeyFromKeyringRecord in Hpk. unfold eotsPrivKeyFromRecord in Hsk.
    destruct (record_GetPubKey r) as [[pb|]| | |] eqn:Epb; simpl in Hpk; try done.
    destruct (record_GetLocal r) as [[sb|]|] eqn:Esb; try done. injection Hsk as <-.
    rewrite (record_pair _ _ _ Epb Esb) in Hpk. simpl in Hpk. injection Hpk as <-. by rewrite bip340_of_pk.
Qed.

(** *** Signing and verifying *)

(** The parts of a successful run of the command sign-schnorr *)
Lemma SignSchnorr_inv ctx s s' :
  SignSchnorr ctx s = (Ok tt, s') →
  ∃ lm (f : F) out hash sig pk t, manager_opened ctx s lm ∧
    singMsg (c_String ctx keyNameFlag) (c_String ctx eotsPkFlag) (c_String ctx passphraseFlag) hash (f, lm)
      = (Ok (sig, pk), t) ∧
    ed_out s' = PrintSigned (mkDataSigned (c_String ctx keyNameFlag) (MarshalHex pk) (hex_EncodeToString hash)
                  (hex_EncodeToString (SchnorrSig_Serialize sig))) :: out.
Proof.
  unfold SignSchnorr. destruct (Nat.eqb_spec (String.length (First (c_Args ctx))) 0); [done|].
  destruct (andb _ _); [done|]. intros Hrun.
  apply bind_Ok_inv in Hrun as (home & s1 & Hh%wrapping_inv & Hrun).
  apply bind_Ok_inv in Hrun as (cfg & s2 & Hc & Hrun).
  apply bind_Ok_inv in Hrun as ([hash [sig pk]] & s3 & Hm & Hrun). injection Hrun as <-.
  apply withManager_inv in Hm as (db & lm & f & lm' & Hdb & Hlm & Hb & ->).
  apply bind_Ok_inv in Hb as (h0 & t1 & Hhash%wrapping_inv & Hb). injection Hhash as Hhash <-.
  apply bind_Ok_inv in Hb as ([sig0 pk0] & t2 & Hsign%wrapping_inv & Hb). injection Hb as <- <- <- ->.
  exists lm, (ed_fs s2), (ed_out s2), h0, sig0, pk0, (f, lm').
  split; [|split; [done|done]]. exists home, cfg, s1, s2, db. done.
Qed.

(** The verification command accepts a signature of the key. *)
Lemma SignSchnorrVerify_run ctx s hash sk sig :
  First (c_Args ctx) ≠ "" → hashFromFile (First (c_Args ctx)) (ed_fs s) = Ok hash →
  c_String ctx eotsPkFlag = MarshalHex (SerializePubKey (PubKey sk)) →
  c_String ctx signatureFlag = hex_EncodeToString (SchnorrSig_Serialize sig) →
  schnorr_Sign sk hash = Ok sig →
  SignSchnorrVerify ctx s = (Ok tt, mkEotsd (ed_fs s) (ed_rand s) (PrintVerified :: ed_out s)).
Proof.
  intros Hf Hh Hpk Hsig Hs. unfold SignSchnorrVerify. rewrite Hpk, Hsig.
  destruct (Nat.eqb_spec (String.length (First (c_Args ctx))) 0) as [E|_].
  { by destruct (First (c_Args ctx)). }
  destruct (parse_serialize (PubKey sk)) as (pk & Hparse & Hser).
  unfold mbind, M_bind, wrapping, lift, gets. rewrite Hh, hex_roundtrip, Hparse, hex_Decode_Encode.
  rewrite schnorr_sig_roundtrip. by rewrite (schnorr_sign_verify _ _ _ _ Hs Hser).
Qed.


(** The exported proof of possession is a signature over the hash of the
    given address, made with the key whose public key is exported. *)
Theorem exported_pop_is_valid ctx s s' :
  ExportPoP ctx s = (Ok tt, s') →
  (c_String ctx eotsPkFlag = "" ∨ ∀ lm, manager_opened ctx s lm → keys_match lm) →
  ∃ p out addr sk sig b, ed_out s' = PrintPoP p :: out ∧
    AccAddressFromBech32 (First (c_Args ctx)) = Ok addr ∧ pe_BabylonAddress p = AccAddress_String addr ∧
    pe_PubKeyHex p = MarshalHex (SerializePubKey (PubKey sk)) ∧
    BIP340Signature_Marshal sig = Ok b ∧ PoP_ToHexStr b = Ok (pe_PoPHex p) ∧
    ∀ pk, SerializePubKey pk = SerializePubKey (PubKey sk) → schnorr_Verify sig (tmhash_Sum addr) pk = true.
Proof.
  unfold ExportPoP. intros Hrun Hk. apply bind_Ok_inv in Hrun as (addr & s0 & Ha%wrapping_inv & Hrun).
  injection Ha as Ha <-. destruct (andb _ _); [done|].
  apply bind_Ok_inv in Hrun as (home & s1 & Hh%wrapping_inv & Hrun).
  apply bind_Ok_inv in Hrun as (cfg & s2 & Hc & Hrun).
  apply bind_Ok_inv in Hrun as ([pk popHex] & s3 & Hm & Hrun). injection Hrun as <-.
  apply withManager_inv in Hm as (db & lm & f & lm' & Hdb & Hlm & Hb & ->).
  apply bind_Ok_inv in Hb as ([sig pk0] & t1 & Hsign%wrapping_inv & Hb).
  apply bind_Ok_inv in Hb as (b & t2 & Hbz%wrapping_inv & Hb). injection Hbz as Hbz <-.
  apply bind_Ok_inv in Hb as (hex & t3 & Hhex%wrapping_inv & Hb). injection Hhex as Hhex <-.
  injection Hb as <- <- ->.
  apply singMsg_inv in Hsign as (sk & -> & Hs).
  - do 6 eexists. split_and!; [reflexivity|done|done|done|done|done|].
    intros pk Hpk. by eapply schnorr_sign_verify.
  - destruct Hk as [?|Hk]; [by left|right]. apply Hk. exists home, cfg, s1, s2, db. done.
Qed.

(** *** Adding a key *)

Lemma NewEOTSStore_names (db db' : Db) : NewEOTSStore db = (Ok tt, db') → names_le db db'.
Proof.
  intros Hc%batch_Ok pk name Hn. pose proof (GetEOTSKeyName_exists _ _ _ Hn) as Hex.
  rewrite GetEOTSKeyName_run in Hn by done.
  rewrite GetEOTSKeyName_run by (by eapply create_exists). simpl in *. by rewrite (create_Get _ _ _ _ _ Hc).
Qed.

Lemma NewLocalEOTSManager_inv home backend (f : F) (rnd : Rnd) (db : Db) lm :
  (NewLocalEOTSManager home backend f rnd db).1 = Ok lm →
  names_le db (lm_es lm) ∧ initKeyring home backend f = Ok (lm_kr lm).
Proof.
  destruct (NewLocalEOTSManager home backend f rnd db) as [o db'] eqn:Hrun. intros Ho. simpl in Ho. subst o.
  unfold NewLocalEOTSManager in Hrun. apply bind_Ok_inv in Hrun as ([] & db1 & Hs%wrapping_inv & Hrun).
  apply bind_Ok_inv in Hrun as (kr & db2 & Hkr%wrapping_inv & Hrun). injection Hkr as Hkr <-.
  apply bind_Ok_inv in Hrun as (es & db3 & Hes & Hrun). injection Hes as <- <-. injection Hrun as <- _.
  split; [by apply NewEOTSStore_names|done].
Qed.

End theorems.
