(* ===== verification/ClientController.v ===== *)
(** * ClientController: the interface to the consumer chain

    Models the interface [ClientController] of
    [src/clientcontroller/interface.go]: the operations the services call, over
    a world [W] that holds the chain and the network, and the laws the
    services rely on. [Babylon] implements it. *)

From stdpp Require Import base gmap list strings.
From Stdlib Require Import ZArith Lia Sorting.Sorted.
From S2P Require Import Prelude Errors Monad Types.

(** [finalitytypes.PubRandCommitResponse] *)
Record PubRandCommitResponse := mkPubRandCommitResponse {
  pc_NumPubRand : Z;
  pc_Commitment : bytes;
}.

(** [btcstakingtypes.MsgEditFinalityProvider] *)
Record MsgEditFinalityProvider `{Codec} := mkMsgEditFinalityProvider {
  ed_Addr : string;
  ed_BtcPk : bytes;
  ed_Description : Description;
  ed_Commission : option LegacyDec;
}.

Class ClientController (W : Type) `{Crypto} `{Codec} := {
  cc_RegisterFinalityProvider : PublicKey → bytes → LegacyDec → bytes → M W TxResponse;
  cc_CommitPubRandList : PublicKey → Z → Z → bytes → SchnorrSig → M W TxResponse;
  cc_SubmitFinalitySig : PublicKey → BlockInfo → FieldVal → bytes → ModNScalar → M W TxResponse;
  cc_SubmitBatchFinalitySigs :
    PublicKey → list BlockInfo → list FieldVal → list bytes → list ModNScalar → M W TxResponse;
  cc_UnjailFinalityProvider : PublicKey → M W TxResponse;
  cc_QueryFinalityProviderVotingPower : PublicKey → Z → M W Z;
  cc_QueryFinalityProviderSlashedOrJailed : PublicKey → M W (bool * bool);
  cc_EditFinalityProvider : PublicKey → option LegacyDec → bytes → M W MsgEditFinalityProvider;
  (** [None] is the nil slice *)
  cc_QueryLatestFinalizedBlocks : Z → M W (option (list BlockInfo));
  cc_QueryLastCommittedPublicRand : PublicKey → Z → M W (gmap Z PubRandCommitResponse);
  cc_QueryBlock : Z → M W BlockInfo;
  cc_QueryBlocks : Z → Z → Z → M W (list BlockInfo);
  cc_QueryBestBlock : M W BlockInfo;
  cc_QueryActivatedHeight : M W Z;
  cc_Close : M W unit;
}.

(** What the services rely on *)
Class ClientControllerLaws (W : Type) `{ClientController W} : Prop := {
  QueryBlock_height h w b w' : cc_QueryBlock h w = (Ok b, w') → Height b = h;
  QueryBlock_int64 h w b w' : cc_QueryBlock h w = (Ok b, w') → (0 <= Height b <= MaxInt64)%Z;
  (** A range query returns blocks in the ascending order of height, from the
      start height on. *)
  QueryBlocks_sorted start end_ limit w bs w' :
    is_u64 start → cc_QueryBlocks start end_ limit w = (Ok bs, w') →
    StronglySorted Z.lt (Height <$> bs) ∧ Forall (λ b, (start <= Height b)%Z) bs;
  (** Heights fit an [int64], as the consumer chain counts them. *)
  QueryBlocks_int64 start end_ limit w bs w' :
    cc_QueryBlocks start end_ limit w = (Ok bs, w') → Forall (λ b, (0 <= Height b <= MaxInt64)%Z) bs;
  QueryBestBlock_int64 w b w' :
    cc_QueryBestBlock w = (Ok b, w') → (0 <= Height b <= MaxInt64)%Z;
  QueryLatestFinalizedBlocks_int64 n w bs w' :
    cc_QueryLatestFinalizedBlocks n w = (Ok (Some bs), w') →
    Forall (λ b, (0 <= Height b <= MaxInt64)%Z) bs;
  QueryActivatedHeight_int64 w h w' : cc_QueryActivatedHeight w = (Ok h, w') → (0 <= h <= MaxInt64)%Z;
  (** A slice that is not nil was appended to. *)
  QueryLatestFinalizedBlocks_nil n w w' : cc_QueryLatestFinalizedBlocks n w ≠ (Ok (Some []), w');
}.

(** A chain without forks at the application level: one application hash per
    height. *)
Class ConsistentChain (W : Type) `{ClientController W} := {
  app_hash : Z → bytes;
  QueryBlock_hash h w b w' : cc_QueryBlock h w = (Ok b, w') → Hash b = app_hash (Height b);
  QueryBlocks_hash start end_ limit w bs w' :
    cc_QueryBlocks start end_ limit w = (Ok bs, w') → Forall (λ b, Hash b = app_hash (Height b)) bs;
}.
