(* ===== verification/Babylon.v ===== *)
(** * Babylon: the client controller for the Babylon chain

    Models [src/clientcontroller/babylon.go] and the constructor of
    [interface.go]: the messages the controller builds and sends and the
    queries it translates. The Babylon client library (key ring, transaction
    sender, query client, CometBFT RPC) is a parameter over the world [W]; the
    instance at the end discharges the interface [ClientController] of the
    services. The functions of the part for
    end-to-end tests that the services do not call are in [BabylonStaking]. *)

From stdpp Require Import base gmap list strings pretty.
From Stdlib Require Import ZArith Lia Sorting.Sorted.
From S2P Require Import Prelude Errors Monad Types FpStore Paths Config ClientController.

(** ** The Babylon client library *)

(** [finalitytypes.IndexedBlock] *)
Record IndexedBlock := mkIndexedBlock { ib_Height : Z; ib_AppHash : bytes; ib_Finalized : bool; }.

Inductive QueriedBlockStatus := NON_FINALIZED | FINALIZED | ANY.

(** [query.PageRequest]; a nil key is [None] *)
Record PageRequest := mkPageRequest { pg_Key : option bytes; pg_Limit : Z; pg_Reverse : bool; }.

(** The header of a CometBFT block; the height is an [int64] *)
Record CometHeader := mkCometHeader { ch_Height : Z; ch_AppHash : bytes; }.

Class BbnTypes `{Crypto} `{Codec} := {
  PoPBTC : Type;                      (* btcstakingtypes.ProofOfPossessionBTC *)
  PoPBTC_Unmarshal : bytes → outcome PoPBTC;
  CmtProof : Type;                    (* cmtcrypto.Proof *)
  CmtProof_Unmarshal : bytes → outcome CmtProof;
  SchnorrPubRand : Type;
  NewSchnorrPubRandFromFieldVal : FieldVal → SchnorrPubRand;
  BIP340Signature : Type;
  NewBIP340SignatureFromBTCSig : SchnorrSig → BIP340Signature;
  protoDescription_Unmarshal : bytes → outcome Description;
  MustBech32ifyAddressBytes : string → bytes → outcome string;
  SerializeCompressed_v : PublicKey → string;  (* pk.SerializeCompressed() printed with %s *)
}.

(** [btcstakingtypes.FinalityProviderResponse] *)
Record FinalityProviderResponse `{Codec} := mkFinalityProviderResponse {
  fpr_Addr : string;
  fpr_Description : Description;
  fpr_Commission : option LegacyDec;
  fpr_SlashedBtcHeight : Z;
  fpr_Jailed : bool;
}.

(** The messages the controller sends *)
Inductive sdk_Msg `{BbnTypes} :=
  | MsgCreateFinalityProvider (addr : string) (btcPk : bytes) (pop : PoPBTC)
      (commission : LegacyDec) (description : Description)
  | MsgCommitPubRandList (signer : string) (fpBtcPk : bytes) (startHeight numPubRand : Z)
      (commitment : bytes) (sig : BIP340Signature)
  | MsgAddFinalitySig (signer : string) (fpBtcPk : bytes) (blockHeight : Z) (pubRand : SchnorrPubRand)
      (proof : CmtProof) (blockAppHash finalitySig : bytes)
  | MsgUnjailFinalityProvider (signer : string) (fpBtcPk : bytes)
  | MsgEdit (msg : MsgEditFinalityProvider).

Class BbnClient (W : Type) `{BbnTypes} := {
  (** [GetKeyring().Key(name)] then [keyRec.GetAddress()] *)
  bbn_KeyAddress : string → W → outcome bytes;
  (** [ReliablySendMsgs(msgs, expected, unrecoverable)]; the response is nil
      when the transaction failed with an expected error *)
  ReliablySendMsgs : list sdk_Msg → list bbn_error → list bbn_error → M W (option TxResponse);
  q_FinalityProvider : string → M W FinalityProviderResponse;
  q_FinalityProviderPowerAtHeight : string → Z → M W Z;
  q_ListPubRandCommit : string → PageRequest → M W (gmap Z PubRandCommitResponse);
  q_ListBlocks : QueriedBlockStatus → PageRequest → M W (list IndexedBlock);
  q_Block : Z → M W IndexedBlock;
  q_ActivatedHeight : M W Z;
  rpc_BlockchainInfo : Z → Z → M W (list CometHeader);
  bbn_IsRunning : W → bool;
  bbn_Stop : M W unit;
}.

(** [strings.EqualFold] on ASCII text, such as bech32 addresses *)
Definition fold_ascii (c : Ascii.ascii) : Ascii.ascii :=
  let n := Ascii.N_of_ascii c in
  if ((65 <=? n) && (n <=? 90))%N then Ascii.ascii_of_N (n + 32) else c.

Fixpoint EqualFold (s t : string) : bool :=
  match s, t with
  | EmptyString, EmptyString => true
  | String a s, String b t => bool_decide (fold_ascii a = fold_ascii b) && EqualFold s t
  | _, _ => false
  end.

Section BabylonController.
Context `{BbnTypes} {W : Type} `{!BbnClient W}.

Context (cfg : BBNConfig).

Abbreviation BC := (M W).

Definition GetKeyAddress : BC bytes := λ w,
  (match bbn_KeyAddress (bbn_Key cfg) w with
   | Err e => Fatal ("Failed to get key address: " +:+ Error e)
   | o => o
   end, w).

Definition mustGetTxSigner : BC string :=
  signer ← GetKeyAddress;
  lift (MustBech32ifyAddressBytes (bbn_AccountPrefix cfg) signer).

Definition emptyErrs : list bbn_error := [].

Definition reliablySendMsgs (msgs : list sdk_Msg) (expectedErrs unrecoverableErrs : list bbn_error)
    : BC (option TxResponse) := ReliablySendMsgs msgs expectedErrs unrecoverableErrs.

Definition reliablySendMsg (msg : sdk_Msg) (expectedErrs unrecoverableErrs : list bbn_error)
    : BC (option TxResponse) := reliablySendMsgs [msg] expectedErrs unrecoverableErrs.

(** [&types.TxResponse{TxHash: res.TxHash, Events: res.Events}] *)
Definition txResponse (res : option TxResponse) : BC TxResponse :=
  match res with
  | None => fatal "nil pointer dereference"
  | Some r => mret (mkTxResponse (TxHash r) (Events r))
  end.

Definition RegisterFinalityProvider (fpPk : PublicKey) (pop : bytes) (commission : LegacyDec)
    (description : bytes) : BC TxResponse :=
  bbnPop ← wrapping "invalid proof-of-possession: " (lift (PoPBTC_Unmarshal pop));
  sdkDescription ← wrapping "invalid description: " (lift (Description_Unmarshal description));
  fpAddr ← mustGetTxSigner;
  let msg := MsgCreateFinalityProvider fpAddr (NewBIP340PubKeyFromBTCPK fpPk) bbnPop commission
               sdkDescription in
  res ← reliablySendMsg msg emptyErrs emptyErrs;
  txResponse res.

Definition CommitPubRandList (fpPk : PublicKey) (startHeight numPubRand : Z) (commitment : bytes)
    (sig : SchnorrSig) : BC TxResponse :=
  signer ← mustGetTxSigner;
  let msg := MsgCommitPubRandList signer (NewBIP340PubKeyFromBTCPK fpPk) startHeight numPubRand
               commitment (NewBIP340SignatureFromBTCSig sig) in
  res ← reliablySendMsg msg emptyErrs [ErrInvalidPubRand; ErrTooFewPubRand; ErrNoPubRandYet; ErrFpNotFound];
  txResponse res.

Definition voteErrs : list bbn_error := [ErrInvalidFinalitySig; ErrPubRandNotFound; ErrFpAlreadySlashed].

Definition SubmitFinalitySig (fpPk : PublicKey) (block : BlockInfo) (pubRand : FieldVal) (proof : bytes)
    (sig : ModNScalar) : BC TxResponse :=
  cmtProof ← lift (CmtProof_Unmarshal proof);
  signer ← mustGetTxSigner;
  let msg := MsgAddFinalitySig signer (NewBIP340PubKeyFromBTCPK fpPk) (Height block)
               (NewSchnorrPubRandFromFieldVal pubRand) cmtProof (Hash block)
               (NewSchnorrEOTSSigFromModNScalar sig) in
  res ← reliablySendMsg msg emptyErrs voteErrs;
  txResponse res.

(** [l[i]] *)
Definition index {A} (l : list A) (i : nat) : BC A :=
  match l !! i with Some a => mret a | None => fatal "index out of range" end.

(** The loop of [SubmitBatchFinalitySigs], from position [i] on *)
Fixpoint voteMsgs (fpPk : PublicKey) (pubRandList : list FieldVal) (proofList : list bytes)
    (sigs : list ModNScalar) (i : nat) (blocks : list BlockInfo) : BC (list sdk_Msg) :=
  match blocks with
  | [] => mret []
  | b :: blocks =>
      proof ← index proofList i;
      cmtProof ← lift (CmtProof_Unmarshal proof);
      signer ← mustGetTxSigner;
      pubRand ← index pubRandList i;
      sig ← index sigs i;
      msgs ← voteMsgs fpPk pubRandList proofList sigs (S i) blocks;
      mret (MsgAddFinalitySig signer (NewBIP340PubKeyFromBTCPK fpPk) (Height b)
              (NewSchnorrPubRandFromFieldVal pubRand) cmtProof (Hash b)
              (NewSchnorrEOTSSigFromModNScalar sig) :: msgs)
  end.

Definition SubmitBatchFinalitySigs (fpPk : PublicKey) (blocks : list BlockInfo)
    (pubRandList : list FieldVal) (proofList : list bytes) (sigs : list ModNScalar) : BC TxResponse :=
  if negb (length blocks =? length sigs)%nat
  then throw (ErrorString ("the number of blocks " +:+ pretty (length blocks) +:+
         " should match the number of finality signatures " +:+ pretty (length sigs)))
  else
    msgs ← voteMsgs fpPk pubRandList proofList sigs 0 blocks;
    res ← reliablySendMsgs msgs emptyErrs voteErrs;
    txResponse res.

Definition UnjailFinalityProvider (fpPk : PublicKey) : BC TxResponse :=
  signer ← mustGetTxSigner;
  res ← reliablySendMsg (MsgUnjailFinalityProvider signer (NewBIP340PubKeyFromBTCPK fpPk)) emptyErrs
          [ErrFpNotFound; ErrFpNotJailed; ErrFpAlreadySlashed];
  txResponse res.

Definition QueryFinalityProvider (fpPk : PublicKey) : BC FinalityProviderResponse :=
  let fpPubKey := NewBIP340PubKeyFromBTCPK fpPk in
  formatting ("failed to query the finality provider " +:+ MarshalHex fpPubKey +:+ ": ")
    (q_FinalityProvider (MarshalHex fpPubKey)).

Definition QueryFinalityProviderSlashedOrJailed (fpPk : PublicKey) : BC (bool * bool) :=
  res ← QueryFinalityProvider fpPk;
  mret ((0 <? fpr_SlashedBtcHeight res)%Z, fpr_Jailed res).

Definition QueryFinalityProviderVotingPower (fpPk : PublicKey) (blockHeight : Z) : BC Z :=
  wrapping ("failed to query Finality Voting Power at Height " +:+ pretty blockHeight +:+ ": ")
    (q_FinalityProviderPowerAtHeight (MarshalHex (NewBIP340PubKeyFromBTCPK fpPk)) blockHeight).

(** [queryLatestBlocks]; the result is nil when nothing was appended *)
Definition queryLatestBlocks (startKey : option bytes) (count : Z) (status : QueriedBlockStatus)
    (reverse : bool) : BC (option (list BlockInfo)) :=
  res ← formatting "failed to query finalized blocks: "
          (q_ListBlocks status (mkPageRequest startKey count reverse));
  mret (match res with
        | [] => None
        | _ => Some ((λ b, mkBlockInfo (ib_Height b) (ib_AppHash b) false) <$> res)
        end).

Definition QueryLatestFinalizedBlocks (count : Z) : BC (option (list BlockInfo)) :=
  queryLatestBlocks None count FINALIZED true.

Definition QueryLastCommittedPublicRand (fpPk : PublicKey) (count : Z)
    : BC (gmap Z PubRandCommitResponse) :=
  wrapping "failed to query committed public randomness: "
    (q_ListPubRandCommit (MarshalHex (NewBIP340PubKeyFromBTCPK fpPk)) (mkPageRequest None count true)).

Definition QueryBlocks (startHeight endHeight limit : Z) : BC (list BlockInfo) :=
  if (endHeight <? startHeight)%Z
  then throw (ErrorString ("the startHeight " +:+ pretty startHeight +:+
         " should not be higher than the endHeight " +:+ pretty endHeight))
  else
    let count := u64 (endHeight - startHeight + 1) in
    let count := if (limit <? count)%Z then limit else count in
    blocks ← queryLatestBlocks (Some (Uint64ToBigEndian startHeight)) count ANY false;
    mret (default [] blocks).

Definition QueryBlock (height : Z) : BC BlockInfo :=
  res ← wrapping ("failed to query indexed block at height " +:+ pretty height +:+ ": ") (q_Block height);
  mret (mkBlockInfo height (ib_AppHash res) (ib_Finalized res)).

Definition QueryActivatedHeight : BC Z :=
  wrapping "failed to query activated height: " q_ActivatedHeight.

Definition queryCometBestBlock : BC BlockInfo :=
  chainInfo ← rpc_BlockchainInfo 0 0;
  match chainInfo with
  | [] => fatal "index out of range [0] with length 0"
  | header :: _ =>
      if (ch_Height header <? 0)%Z
      then throw (ErrorString ("block height " +:+ pretty (ch_Height header) +:+ " should be positive"))
      else mret (mkBlockInfo (u64 (ch_Height header)) (ch_AppHash header) false)
  end.

Definition QueryBestBlock : BC BlockInfo :=
  r ← attempt (queryLatestBlocks None 1 ANY true);
  match r with
  | inr (Some [block]) => mret block
  | _ => queryCometBestBlock
  end.

Definition bc_Close : BC unit := λ w,
  if negb (bbn_IsRunning w) then (Ok tt, w) else bbn_Stop w.

Definition getValueOrDefault (reqValue defaultValue : string) : string :=
  if bool_decide (reqValue ≠ "") then reqValue else defaultValue.

Definition EditFinalityProvider (fpPk : PublicKey) (rate : option LegacyDec) (description : bytes)
    : BC MsgEditFinalityProvider :=
  reqDesc ← lift (protoDescription_Unmarshal description);
  let fpPubKey := NewBIP340PubKeyFromBTCPK fpPk in
  fpRes ← QueryFinalityProvider fpPk;
  signer ← mustGetTxSigner;
  if negb (EqualFold (fpr_Addr fpRes) signer)
  then throw (ErrorString ("the signer does not correspond to the finality provider's " +:+
         "Babylon address, expected " +:+ signer +:+ " got " +:+ fpr_Addr fpRes))
  else
    let resDesc := fpr_Description fpRes in
    let desc := mkDescription
      (getValueOrDefault (Moniker reqDesc) (Moniker resDesc))
      (getValueOrDefault (Identity reqDesc) (Identity resDesc))
      (getValueOrDefault (Website reqDesc) (Website resDesc))
      (getValueOrDefault (SecurityContact reqDesc) (SecurityContact resDesc))
      (getValueOrDefault (Details reqDesc) (Details resDesc)) in
    pkBytes ← lift (MustMarshal fpPubKey);
    let msg := mkMsgEditFinalityProvider _ signer pkBytes desc
      (match rate with Some _ => rate | None => fpr_Commission fpRes end) in
    formatting ("failed to query the finality provider " +:+ SerializeCompressed_v fpPk +:+ ": ")
      (reliablySendMsg (MsgEdit msg) emptyErrs emptyErrs) ;;
    mret msg.

Definition babylon_controller : ClientController W := {|
  cc_RegisterFinalityProvider := RegisterFinalityProvider;
  cc_CommitPubRandList := CommitPubRandList;
  cc_SubmitFinalitySig := SubmitFinalitySig;
  cc_SubmitBatchFinalitySigs := SubmitBatchFinalitySigs;
  cc_UnjailFinalityProvider := UnjailFinalityProvider;
  cc_QueryFinalityProviderVotingPower := QueryFinalityProviderVotingPower;
  cc_QueryFinalityProviderSlashedOrJailed := QueryFinalityProviderSlashedOrJailed;
  cc_EditFinalityProvider := EditFinalityProvider;
  cc_QueryLatestFinalizedBlocks := QueryLatestFinalizedBlocks;
  cc_QueryLastCommittedPublicRand := QueryLastCommittedPublicRand;
  cc_QueryBlock := QueryBlock;
  cc_QueryBlocks := QueryBlocks;
  cc_QueryBestBlock := QueryBestBlock;
  cc_QueryActivatedHeight := QueryActivatedHeight;
  cc_Close := bc_Close;
|}.

Definition babylonConsumerChainName : string := "babylon".

(** [NewBabylonController]: [client] is the result of [bbnclient.New]; the
    key of the configuration must have an address. *)
Definition NewBabylonController (client : outcome unit) : BC (ClientController W) :=
  wrapping "failed to create Babylon client: " (lift client) ;;
  w ← get;
  lift (bbn_KeyAddress (bbn_Key cfg) w) ;;
  mret babylon_controller.

Definition NewClientController (chainName : string) (client : outcome unit)
    : BC (ClientController W) :=
  if bool_decide (chainName = babylonConsumerChainName)
  then wrapping "failed to create Babylon rpc client: " (NewBabylonController client)
  else throw (ErrorString "unsupported consumer chain").
End BabylonController.

(** ** What the Babylon node and its client library promise *)

Class BbnClientLaws (W : Type) `{BbnClient W} : Prop := {
  (** Without expected errors the response is not nil. *)
  ReliablySendMsgs_response msgs unrec w w' : ReliablySendMsgs msgs [] unrec w ≠ (Ok None, w');
  (** Blocks are indexed by their big-endian height: a page that starts at a
      height lists the blocks from it on, in order. *)
  q_ListBlocks_from status start limit w bs w' :
    is_u64 start →
    q_ListBlocks status (mkPageRequest (Some (Uint64ToBigEndian start)) limit false) w = (Ok bs, w') →
    StronglySorted Z.lt (ib_Height <$> bs) ∧ Forall (λ b, (start <= ib_Height b)%Z) bs;
  q_ListBlocks_limit status page w bs w' :
    q_ListBlocks status page w = (Ok bs, w') → (0 < pg_Limit page)%Z →
    (Z.of_nat (length bs) <= pg_Limit page)%Z;
  q_ListBlocks_int64 status page w bs w' :
    q_ListBlocks status page w = (Ok bs, w') → Forall (λ b, (0 <= ib_Height b <= MaxInt64)%Z) bs;
  q_Block_int64 h w b w' : q_Block h w = (Ok b, w') → (0 <= h <= MaxInt64)%Z;
  q_ActivatedHeight_int64 w h w' : q_ActivatedHeight w = (Ok h, w') → (0 <= h <= MaxInt64)%Z;
  rpc_BlockchainInfo_int64 a b w hs w' :
    rpc_BlockchainInfo a b w = (Ok hs, w') → Forall (λ h, (ch_Height h <= MaxInt64)%Z) hs;
}.

Section theorems.
Context `{BbnTypes} {W : Type} `{!BbnClient W} `{!BbnClientLaws W} (cfg : BBNConfig).
Implicit Types (w : W).

Lemma queryLatestBlocks_inv key count status rev w r w' :
  queryLatestBlocks key count status rev w = (Ok r, w') →
  ∃ bs, q_ListBlocks status (mkPageRequest key count rev) w = (Ok bs, w') ∧
    r = match bs with
        | [] => None
        | _ => Some ((λ b, mkBlockInfo (ib_Height b) (ib_AppHash b) false) <$> bs)
        end.
Proof.
  unfold queryLatestBlocks. intros (bs & w1 & Hq%formatting_inv & Hr)%bind_Ok_inv.
  injection Hr as <- <-. eauto.
Qed.

(** The page of a block range query *)
Definition range_count (startHeight endHeight limit : Z) : Z :=
  Z.min limit (u64 (endHeight - startHeight + 1)).

Lemma QueryBlocks_inv start end_ limit w bs w' :
  QueryBlocks start end_ limit w = (Ok bs, w') →
  (start <= end_)%Z ∧ ∃ ibs,
    q_ListBlocks ANY (mkPageRequest (Some (Uint64ToBigEndian start)) (range_count start end_ limit) false) w
      = (Ok ibs, w') ∧
    bs = (λ b, mkBlockInfo (ib_Height b) (ib_AppHash b) false) <$> ibs.
Proof.
  unfold QueryBlocks. destruct (Z.ltb_spec end_ start); [done|].
  intros (r & w1 & (ibs & Hq & ->)%queryLatestBlocks_inv & Hr)%bind_Ok_inv. injection Hr as <- <-.
  split; [done|]. exists ibs. split; [|by destruct ibs].
  unfold range_count. destruct (Z.ltb_spec limit (u64 (end_ - start + 1))).
  - by rewrite Z.min_l by lia.
  - by rewrite Z.min_r by lia.
Qed.

Lemma QueryBestBlock_range w b w' :
  QueryBestBlock w = (Ok b, w') → (0 <= Height b <= MaxInt64)%Z.
Proof.
  unfold QueryBestBlock. intros (r & w1 & Hr & Hrun)%bind_Ok_inv.
  assert (∀ w1, queryCometBestBlock w1 = (Ok b, w') → (0 <= Height b <= MaxInt64)%Z) as Hcomet.
  { intros w2. unfold queryCometBestBlock. intros (hs & w3 & Hq & Hc)%bind_Ok_inv.
    destruct hs as [|h hs]; [done|]. apply rpc_BlockchainInfo_int64 in Hq.
    apply Forall_cons_1 in Hq as [Hh _]. destruct (Z.ltb_spec (ch_Height h) 0); [done|].
    injection Hc as <- <-. simpl. u64_lia. }
  destruct r as [e|[[|b0 [|]]|]]; try (by eapply Hcomet). injection Hrun as <- <-.
  apply attempt_inv, queryLatestBlocks_inv in Hr as (bs & Hq%q_ListBlocks_int64 & Hbs).
  destruct bs as [|ib [|]]; simplify_eq/=. by apply Forall_cons_1 in Hq as [? _].
Qed.

(** C12: the Babylon controller is a correct client controller for the
    services: under what the node promises, [QueryBlock] answers for the
    height it was asked, a range query answers blocks in ascending order
    from the start height on, heights fit an [int64], and the list of
    finalized blocks is nil or not empty. *)
Theorem babylon_implements_interface : @ClientControllerLaws W _ _ (babylon_controller cfg).
Proof.
  split; simpl.
  - intros h w b w' (ib & w1 & _ & Hr)%bind_Ok_inv. by injection Hr as <- <-.
  - intros h w b w' (ib & w1 & Hq%wrapping_inv & Hr)%bind_Ok_inv. injection Hr as <- <-. simpl.
    by eapply q_Block_int64.
  - intros start end_ limit w bs w' Hstart (_ & ibs & Hq & ->)%QueryBlocks_inv.
    apply q_ListBlocks_from in Hq as [Hs HF]; [|done]. rewrite <-list_fmap_compose. split; [done|].
    apply Forall_fmap. done.
  - intros start end_ limit w bs w' (_ & ibs & Hq & ->)%QueryBlocks_inv.
    apply q_ListBlocks_int64 in Hq. by apply Forall_fmap.
  - intros w b w'. apply QueryBestBlock_range.
  - intros n w bs w' (ibs & Hq & Hbs)%queryLatestBlocks_inv. apply q_ListBlocks_int64 in Hq.
    destruct ibs; simplify_eq. by apply Forall_fmap.
  - intros w h w' Hq%wrapping_inv. by eapply q_ActivatedHeight_int64.
  - intros n w w' (ibs & _ & Hbs)%queryLatestBlocks_inv. by destruct ibs.
Qed.


(** *** Messages *)

(** The signer of the transactions, when the key ring has the key *)
Definition has_signer w (signer : string) : Prop :=
  ∃ addr, bbn_KeyAddress (bbn_Key cfg) w = Ok addr ∧
          MustBech32ifyAddressBytes (bbn_AccountPrefix cfg) addr = Ok signer.

Lemma mustGetTxSigner_run w signer : has_signer w signer → mustGetTxSigner cfg w = (Ok signer, w).
Proof.
  intros (addr & Ha & Hs). unfold mustGetTxSigner, mbind, M_bind, GetKeyAddress, lift. simpl.
  by rewrite Ha, Hs.
Qed.

(** The message of one vote *)
Definition vote_of (signer : string) (fpPk : PublicKey) (b : BlockInfo) (pr : FieldVal) (proof : CmtProof)
    (sig : ModNScalar) : sdk_Msg :=
  MsgAddFinalitySig signer (NewBIP340PubKeyFromBTCPK fpPk) (Height b) (NewSchnorrPubRandFromFieldVal pr)
    proof (Hash b) (NewSchnorrEOTSSigFromModNScalar sig).

Lemma voteMsgs_run fpPk prs proofs sigs i blocks w signer msgs w' :
  has_signer w signer → voteMsgs cfg fpPk prs proofs sigs i blocks w = (Ok msgs, w') →
  w' = w ∧ length msgs = length blocks ∧
  ∀ j b, blocks !! j = Some b →
    ∃ pr pb proof sig, prs !! (i + j) = Some pr ∧ proofs !! (i + j) = Some pb ∧
      sigs !! (i + j) = Some sig ∧ CmtProof_Unmarshal pb = Ok proof ∧
      msgs !! j = Some (vote_of signer fpPk b pr proof sig).
Proof.
  intros Hsig. revert i msgs. induction blocks as [|b blocks IH]; intros i msgs; cbn [voteMsgs].
  { intros [= <- <-]. done. }
  unfold index. intros Hrun.
  destruct (proofs !! i) as [pb|] eqn:Epb; [|done].
  apply bind_Ok_inv in Hrun as (pb' & w1 & Hpb & Hrun). injection Hpb as <- <-.
  apply bind_Ok_inv in Hrun as (proof & w1 & Hp & Hrun). injection Hp as Hp <-.
  rewrite (bind_Ok _ _ _ signer w) in Hrun by by apply mustGetTxSigner_run.
  destruct (prs !! i) as [pr|] eqn:Epr; [|done].
  apply bind_Ok_inv in Hrun as (pr' & w1 & Hpr & Hrun). injection Hpr as <- <-.
  destruct (sigs !! i) as [sig|] eqn:Esig; [|done].
  apply bind_Ok_inv in Hrun as (sig' & w1 & Hs & Hrun). injection Hs as <- <-.
  apply bind_Ok_inv in Hrun as (rest & w1 & Hrest & Hrun). injection Hrun as <- <-.
  destruct (IH _ _ Hrest) as (-> & Hlen & Hall). split; [done|]. split; [simpl; lia|].
  intros [|j] b' Hb'; simplify_eq/=.
  - rewrite Nat.add_0_r. by exists pr, pb, proof, sig.
  - rewrite Nat.add_succ_r. apply (Hall j b' Hb').
Qed.

(** [SubmitBatchFinalitySigs] that succeeds sent one transaction with one
    vote per block, in the order of the blocks: the [j]-th vote has the
    height and hash of the [j]-th block, the [j]-th public randomness, the
    [j]-th proof and the [j]-th signature. Lists of different numbers of
    blocks and signatures are refused before anything is sent. *)
Theorem batch_sends_one_vote_per_block fpPk blocks prs proofs sigs w signer :
  has_signer w signer →
  (length blocks ≠ length sigs → ∃ e, SubmitBatchFinalitySigs cfg fpPk blocks prs proofs sigs w = (Err e, w)) ∧
  ∀ res w', SubmitBatchFinalitySigs cfg fpPk blocks prs proofs sigs w = (Ok res, w') →
    ∃ msgs r, ReliablySendMsgs msgs [] voteErrs w = (Ok (Some r), w') ∧
      TxHash res = TxHash r ∧ Events res = Events r ∧ length msgs = length blocks ∧
      ∀ j b, blocks !! j = Some b →
        ∃ pr pb proof sig, prs !! j = Some pr ∧ proofs !! j = Some pb ∧ sigs !! j = Some sig ∧
          CmtProof_Unmarshal pb = Ok proof ∧ msgs !! j = Some (vote_of signer fpPk b pr proof sig).
Proof.
  intros Hs. unfold SubmitBatchFinalitySigs. split.
  { intros Hne. destruct (Nat.eqb_spec (length blocks) (length sigs)); [done|]. by eexists. }
  intros res w'. destruct (Nat.eqb_spec (length blocks) (length sigs)); [|done]. cbn [negb].
  intros (msgs & w1 & Hm & Hrun)%bind_Ok_inv.
  destruct (voteMsgs_run _ _ _ _ _ _ _ _ _ _ Hs Hm) as (-> & Hlen & Hall).
  apply bind_Ok_inv in Hrun as ([r|] & w2 & Hsend & Hr); [|done]. injection Hr as <- <-.
  by exists msgs, r.
Qed.

(** [EditFinalityProvider] changes what it was asked to change and
    keeps the rest: a message it returns was sent for the given key by the
    finality provider's own address, has each description field of the
    request, or the registered field where the request's is empty, and has
    the new commission if one was given, else the registered one. *)
Theorem edit_keeps_unset_fields fpPk rate d w signer msg w' :
  has_signer w signer → (∀ w1 fpr w2, q_FinalityProvider (MarshalHex (NewBIP340PubKeyFromBTCPK fpPk)) w1 = (Ok fpr, w2) → w2 = w1) →
  EditFinalityProvider cfg fpPk rate d w = (Ok msg, w') →
  ∃ req reg sent, protoDescription_Unmarshal d = Ok req ∧
    q_FinalityProvider (MarshalHex (NewBIP340PubKeyFromBTCPK fpPk)) w = (Ok reg, w) ∧
    EqualFold (fpr_Addr reg) signer = true ∧ ed_Addr msg = signer ∧
    ReliablySendMsgs [MsgEdit msg] [] [] w = (Ok sent, w') ∧
    ed_Commission msg = match rate with Some r => Some r | None => fpr_Commission reg end ∧
    ∀ f, f ∈ [Moniker; Identity; Website; SecurityContact; Details] →
      f (ed_Description msg) = if decide (f req = "") then f (fpr_Description reg) else f req.
Proof.
  intros Hs Hpure Hrun. unfold EditFinalityProvider in Hrun.
  apply bind_Ok_inv in Hrun as (req & w1 & Hreq & Hrun). injection Hreq as Hreq <-.
  apply bind_Ok_inv in Hrun as (reg & w1 & Hreg%formatting_inv & Hrun).
  pose proof (Hpure _ _ _ Hreg) as ->.
  rewrite (bind_Ok _ _ _ signer w) in Hrun by by apply mustGetTxSigner_run.
  destruct (EqualFold (fpr_Addr reg) signer) eqn:Eq; cbn [negb] in Hrun; [|done].
  apply bind_Ok_inv in Hrun as (pkb & w1 & Hpk & Hrun). injection Hpk as Hpk <-.
  apply bind_Ok_inv in Hrun as (sent & w1 & Hsend%formatting_inv & Hrun). injection Hrun as <- <-.
  exists req, reg, sent. split_and!; try done; [by destruct rate|].
  intros f Hf. repeat (apply elem_of_cons in Hf as [->|Hf]; [simpl; unfold getValueOrDefault;
    by case_bool_decide; case_decide|]). by apply not_elem_of_nil in Hf.
Qed.
End theorems.
