(* ===== verification/BabylonStaking.v ===== *)
(** * BabylonStaking: the staking side of the Babylon controller

    Models the part of [src/clientcontroller/babylon.go] that the daemon does
    not call and the end-to-end tests do (delegations, covenant signatures,
    BTC headers, the list of providers, the staking parameters), and
    [src/types/stakingparams.go]. The Babylon client library is a parameter,
    as in [Babylon]. *)

From stdpp Require Import base gmap list strings pretty.
From Stdlib Require Import ZArith Lia.
From S2P Require Import Prelude Errors Monad Types FpStore Paths Config ClientController Babylon.

(** ** types/stakingparams.go *)

Record StakingParams `{Crypto} `{Codec} := mkStakingParams {
  ComfirmationTimeBlocks : Z;
  FinalizationTimeoutBlocks : Z;
  MinSlashingTxFeeSat : Z;
  CovenantPks : list PublicKey;
  SlashingPkScript : bytes;
  CovenantQuorum : Z;
  SlashingRate : LegacyDec;
  MinUnbondingTime : Z;
}.

Definition MinimumUnbondingTime `{Crypto} `{Codec} (p : StakingParams) : Z :=
  Z.max (MinUnbondingTime p) (FinalizationTimeoutBlocks p).

(** ** The Babylon client library *)

(** [btcctypes.TransactionInfo]; the key and the proof make the inclusion
    proof of a transaction. *)
Record TransactionInfo (K P : Type) := mkTransactionInfo { ti_Key : K; ti_Transaction : bytes; ti_Proof : P; }.
Arguments ti_Key {K P}.
Arguments ti_Transaction {K P}.
Arguments ti_Proof {K P}.

Class StakingTypes `{BbnTypes} := {
  TransactionKey : Type;
  TransactionProof : Type;
  InclusionProof : Type;
  NewInclusionProof : TransactionKey → TransactionProof → InclusionProof;
  BTCSlashingTx : Type;
  BTCHeaderBytes : Type;
  BTCHeaderInfo : Type;
  BTCSpvProof : Type;
  BTCDelegation : Type;
  ToBTCPK : bytes → outcome PublicKey;
}.

(** [MsgCreateBTCDelegation] *)
Record MsgCreateBTCDelegation `{StakingTypes} := mkMsgCreateBTCDelegation {
  md_StakerAddr : string; md_Pop : PoPBTC; md_BtcPk : bytes; md_FpBtcPkList : list bytes;
  md_StakingTime : Z; md_StakingValue : Z; md_StakingTx : bytes; md_StakingTxInclusionProof : InclusionProof;
  md_SlashingTx : BTCSlashingTx; md_DelegatorSlashingSig : BIP340Signature; md_UnbondingTx : bytes;
  md_UnbondingTime : Z; md_UnbondingValue : Z; md_UnbondingSlashingTx : BTCSlashingTx;
  md_DelegatorUnbondingSlashingSig : BIP340Signature;
}.

Inductive staking_Msg `{StakingTypes} :=
  | MsgDelegate (m : MsgCreateBTCDelegation)
  | MsgInsertHeaders (signer : string) (headers : list BTCHeaderBytes)
  | MsgAddCovenantSigs (signer : string) (pk : bytes) (stakingTxHash : string) (slashingTxSigs : list bytes)
      (unbondingTxSig : BIP340Signature) (slashingUnbondingTxSigs : list bytes)
  | MsgInsertBTCSpvProof (submitter : string) (proofs : list BTCSpvProof).

Inductive BTCDelegationStatus := PENDING | ACTIVE_.

(** The parameters of the chain's modules *)
Record CheckpointParams := mkCheckpointParams { BtcConfirmationDepth : Z; CheckpointFinalizationTimeout : Z; }.
Record BTCStakingParams `{Codec} := mkBTCStakingParams {
  bs_CovenantPks : list bytes; bs_CovenantQuorum : Z; bs_SlashingPkScript : bytes; bs_MinSlashingTxFeeSat : Z;
  bs_SlashingRate : LegacyDec; bs_MinUnbondingTimeBlocks : Z;
}.

Class StakingClient (W : Type) `{StakingTypes} := {
  (** [ReliablySendMsgs] on these messages *)
  ReliablySendStaking : list staking_Msg → list bbn_error → list bbn_error → M W (option TxResponse);
  (** a page of the providers, with [Pagination.NextKey] *)
  q_FinalityProviders : PageRequest → M W (list FinalityProviderResponse * option bytes);
  q_BTCHeaderChainTip : M W BTCHeaderInfo;
  q_CurrentEpoch : M W Z;
  q_VotesAtHeight : Z → M W (list bytes);
  q_BTCDelegations : BTCDelegationStatus → PageRequest → M W (list BTCDelegation);
  q_BTCCheckpointParams : M W CheckpointParams;
  q_BTCStakingParams : M W BTCStakingParams;
}.

Section staking.
Context `{StakingTypes} {W : Type} `{!BbnClient W} `{!StakingClient W} (cfg : BBNConfig).
Abbreviation BC := (M W).

Definition sendStaking (msg : staking_Msg) : BC (option TxResponse) :=
  ReliablySendStaking [msg] emptyErrs emptyErrs.

(** The response without its events *)
Definition txHashOnly (res : option TxResponse) : BC TxResponse :=
  match res with
  | None => fatal "nil pointer dereference"
  | Some r => mret (mkTxResponse (TxHash r) [])
  end.

Definition CreateBTCDelegation (delBtcPk : bytes) (fpPks : list PublicKey) (pop : PoPBTC)
    (stakingTime stakingValue : Z) (stakingTxInfo : TransactionInfo TransactionKey TransactionProof)
    (slashingTx : BTCSlashingTx) (delSlashingSig : BIP340Signature) (unbondingTx : bytes)
    (unbondingTime unbondingValue : Z) (unbondingSlashingTx : BTCSlashingTx)
    (delUnbondingSlashingSig : BIP340Signature) : BC TxResponse :=
  let fpBtcPks := NewBIP340PubKeyFromBTCPK <$> fpPks in
  signer ← mustGetTxSigner cfg;
  let msg := mkMsgCreateBTCDelegation _ _ _ _ signer pop delBtcPk fpBtcPks stakingTime stakingValue
               (ti_Transaction stakingTxInfo)
               (NewInclusionProof (ti_Key stakingTxInfo) (ti_Proof stakingTxInfo))
               slashingTx delSlashingSig unbondingTx unbondingTime unbondingValue unbondingSlashingTx
               delUnbondingSlashingSig in
  res ← sendStaking (MsgDelegate msg);
  txHashOnly res.

Definition InsertBtcBlockHeaders (headers : list BTCHeaderBytes) : BC (option TxResponse) :=
  signer ← mustGetTxSigner cfg;
  sendStaking (MsgInsertHeaders signer headers).

(** The loop of [QueryFinalityProviders] over the pages, with the providers so
    far *)
Fixpoint queryProviderPages (fuel : nat) (fps : list FinalityProviderResponse) (key : option bytes)
    : BC (list FinalityProviderResponse) :=
  match fuel with
  | O => outOfFuel
  | S fuel =>
      res ← formatting "failed to query finality providers: " (q_FinalityProviders (mkPageRequest key 100 false));
      let fps := fps ++ res.1 in
      match res.2 with
      | None => mret fps
      | Some nextKey => queryProviderPages fuel fps (Some nextKey)
      end
  end.

Definition QueryFinalityProviders (fuel : nat) : BC (list FinalityProviderResponse) :=
  queryProviderPages fuel [] None.

Definition QueryBtcLightClientTip : BC BTCHeaderInfo := formatting "failed to query BTC tip: " q_BTCHeaderChainTip.
Definition QueryCurrentEpoch : BC Z := formatting "failed to query BTC tip: " q_CurrentEpoch.
Definition QueryVotesAtHeight (height : Z) : BC (list bytes) :=
  wrapping "failed to query BTC delegations: " (q_VotesAtHeight height).

Definition queryDelegationsWithStatus (status : BTCDelegationStatus) (limit : Z) : BC (list BTCDelegation) :=
  formatting "failed to query BTC delegations: " (q_BTCDelegations status (mkPageRequest None limit false)).
Definition QueryPendingDelegations (limit : Z) : BC (list BTCDelegation) := queryDelegationsWithStatus PENDING limit.
Definition QueryActiveDelegations (limit : Z) : BC (list BTCDelegation) := queryDelegationsWithStatus ACTIVE_ limit.

(** The loop over the covenant keys *)
Fixpoint parseCovenantPks (pks : list bytes) : outcome (list PublicKey) :=
  match pks with
  | [] => Ok []
  | pk :: pks =>
      match ToBTCPK pk with
      | Ok covPk => rest ← parseCovenantPks pks; Ok (covPk :: rest)
      | Err _ => Err (ErrorString "invalid covenant public key")
      | Fatal m => Fatal m
      | OutOfFuel => OutOfFuel
      end
  end.

Definition QueryStakingParams : BC StakingParams :=
  ckpt ← formatting "failed to query params of the btccheckpoint module: " q_BTCCheckpointParams;
  staking ← formatting "failed to query staking params: " q_BTCStakingParams;
  covenantPks ← lift (parseCovenantPks (bs_CovenantPks staking));
  mret (mkStakingParams _ _ (BtcConfirmationDepth ckpt) (CheckpointFinalizationTimeout ckpt)
          (bs_MinSlashingTxFeeSat staking) covenantPks (bs_SlashingPkScript staking) (bs_CovenantQuorum staking)
          (bs_SlashingRate staking) (bs_MinUnbondingTimeBlocks staking)).

Definition SubmitCovenantSigs (covPk : PublicKey) (stakingTxHash : string) (slashingSigs : list bytes)
    (unbondingSig : SchnorrSig) (unbondingSlashingSigs : list bytes) : BC TxResponse :=
  let bip340UnbondingSig := NewBIP340SignatureFromBTCSig unbondingSig in
  signer ← mustGetTxSigner cfg;
  res ← sendStaking (MsgAddCovenantSigs signer (NewBIP340PubKeyFromBTCPK covPk) stakingTxHash slashingSigs
                       bip340UnbondingSig unbondingSlashingSigs);
  txResponse res.

Definition InsertSpvProofs (submitter : string) (proofs : list BTCSpvProof) : BC (option TxResponse) :=
  sendStaking (MsgInsertBTCSpvProof submitter proofs).
End staking.

(** ** Theorems *)

(** The pagination of the Cosmos SDK: a page of at most [Limit] elements from
    the position of its key, and the key of the next position as long as there
    is one. [all_fps] is the chain's list, which queries do not change. *)
Class PagedProviders (W : Type) `{StakingClient W} := {
  all_fps : W → list FinalityProviderResponse;
  key_pos : bytes → nat;
  next_key : nat → bytes;
  key_pos_next n : key_pos (next_key n) = n;
  q_page w key limit :
    (0 < limit)%Z →
    ∃ w', let n := match key with None => 0 | Some k => key_pos k end in
      q_FinalityProviders (mkPageRequest key limit false) w =
        (Ok (take (Z.to_nat limit) (drop n (all_fps w)),
             if decide (n + Z.to_nat limit < length (all_fps w)) then Some (next_key (n + Z.to_nat limit)) else None),
         w') ∧ all_fps w' = all_fps w;
}.

Section theorems.
Context `{StakingTypes} {W : Type} `{!BbnClient W} `{!StakingClient W} `{!PagedProviders W}.

Lemma queryProviderPages_run fuel n (w : W) key :
  n = match key with None => 0 | Some k => key_pos k end → length (all_fps w) - n < 100 * fuel →
  ∃ w', queryProviderPages fuel (take n (all_fps w)) key w = (Ok (all_fps w), w') ∧ all_fps w' = all_fps w.
Proof.
  revert n w key. induction fuel as [|fuel IH]; intros n w key Hn Hlen; [lia|]. cbn [queryProviderPages].
  destruct (q_page w key 100 ltac:(lia)) as (w1 & Hq & Hw1). rewrite <-Hn in Hq.
  rewrite (bind_Ok _ _ _ _ _ (formatting_Ok _ _ _ _ _ Hq)). simpl. rewrite take_take_drop.
  change (Z.to_nat 100) with 100 in *. case_decide as Hlt.
  - rewrite <-Hw1 in Hlen, Hlt |- *.
    destruct (IH (n + 100) w1 (Some (next_key (n + 100)))) as (w2 & Hr & Hw2); [by rewrite key_pos_next|lia|].
    exists w2. split; [exact Hr|congruence].
  - exists w1. split; [|done]. rewrite take_ge by lia. done.
Qed.

(** The list of providers is complete: with a turn per started page of 100
    and one more, the query of the providers returns all of the chain's, in
    their order. *)
Theorem all_providers_are_listed fuel (w : W) :
  length (all_fps w) < 100 * fuel →
  ∃ w', QueryFinalityProviders fuel w = (Ok (all_fps w), w') ∧ all_fps w' = all_fps w.
Proof. intros Hlen. apply (queryProviderPages_run fuel 0 w None); [done|lia]. Qed.

(** The covenant keys are all parsed, in their order, or the query fails. *)
Lemma parseCovenantPks_spec pks l : parseCovenantPks pks = Ok l ↔ Forall2 (λ b pk, ToBTCPK b = Ok pk) pks l.
Proof.
  revert l. induction pks as [|b pks IH]; intros l; simpl.
  - split; [by intros [= <-]|]. by inversion 1.
  - split.
    + destruct (ToBTCPK b) as [pk| | |] eqn:Eb; try done.
      destruct (parseCovenantPks pks) as [l'| | |]; simpl; try done. intros [= <-].
      constructor; [done|]. by apply IH.
    + inversion 1 as [|? pk ? l' Hb HF]; subst. rewrite Hb. apply IH in HF. by rewrite HF.
Qed.

Theorem staking_params_spec (w : W) p w' :
  QueryStakingParams w = (Ok p, w') →
  ∃ ck st w1 w2, q_BTCCheckpointParams w = (Ok ck, w1) ∧ q_BTCStakingParams w1 = (Ok st, w2) ∧
    Forall2 (λ b pk, ToBTCPK b = Ok pk) (bs_CovenantPks st) (CovenantPks p) ∧
    MinimumUnbondingTime p = Z.max (bs_MinUnbondingTimeBlocks st) (CheckpointFinalizationTimeout ck).
Proof.
  unfold QueryStakingParams. intros Hrun. apply bind_Ok_inv in Hrun as (ck & w1 & Hck%formatting_inv & Hrun).
  apply bind_Ok_inv in Hrun as (st & w2 & Hst%formatting_inv & Hrun).
  apply bind_Ok_inv in Hrun as (pks & w3 & Hpk & Hrun). injection Hpk as Hpk <-. injection Hrun as <- <-.
  apply parseCovenantPks_spec in Hpk. eauto 10.
Qed.
End theorems.
