(* ===== verification/Poller.v ===== *)
(** * Poller: the chain poller

    Models [src/finality-provider/service/chain_poller.go]. [Start], [Stop]
    and the queries are sequential operations; the goroutine [pollChain] and
    the consumer of its channel are a step relation: the goroutine's program
    counter, the buffered channel of blocks, the requests to skip heights and
    the quit channel. The consumer is the finality signature submission loop,
    which receives blocks and calls [SkipToHeight], never both at once. *)

From stdpp Require Import base gmap list strings pretty.
From Stdlib Require Import ZArith Lia Sorting.Sorted.
From S2P Require Import Prelude Errors Monad Types Metrics Config ClientController.

Definition RtyAttNum : Z := 5.
Definition maxFailedCycles : Z := 20.

(** The program counter of [pollChain]: [Waiting] is in [waitForActivation],
    [Pushing b] at the send on [blockInfoChan], [Selecting] at the [select] *)
Inductive poller_pc :=
  | NotRunning
  | Waiting
  | Retrieving
  | Pushing (b : BlockInfo)
  | Selecting
  | Exited
  | Died.

Record ChainPoller := mkChainPoller {
  p_isStarted : bool;
  p_quit : bool;                    (* the channel quit is closed *)
  p_cfg : ChainPollerConfig;
  blockInfoChan : list BlockInfo;   (* its buffer, oldest block first *)
  nextHeight : Z;
  failedCycles : Z;                 (* local variable of pollChain *)
  p_pc : poller_pc;
}.

Definition p_set_isStarted (v : bool) (p : ChainPoller) :=
  mkChainPoller v (p_quit p) (p_cfg p) (blockInfoChan p) (nextHeight p) (failedCycles p) (p_pc p).
Definition p_set_quit (v : bool) (p : ChainPoller) :=
  mkChainPoller (p_isStarted p) v (p_cfg p) (blockInfoChan p) (nextHeight p) (failedCycles p) (p_pc p).
Definition p_set_buffer (v : list BlockInfo) (p : ChainPoller) :=
  mkChainPoller (p_isStarted p) (p_quit p) (p_cfg p) v (nextHeight p) (failedCycles p) (p_pc p).
Definition p_set_nextHeight (v : Z) (p : ChainPoller) :=
  mkChainPoller (p_isStarted p) (p_quit p) (p_cfg p) (blockInfoChan p) v (failedCycles p) (p_pc p).
Definition p_set_failedCycles (v : Z) (p : ChainPoller) :=
  mkChainPoller (p_isStarted p) (p_quit p) (p_cfg p) (blockInfoChan p) (nextHeight p) v (p_pc p).
Definition p_set_pc (v : poller_pc) (p : ChainPoller) :=
  mkChainPoller (p_isStarted p) (p_quit p) (p_cfg p) (blockInfoChan p) (nextHeight p) (failedCycles p) v.

Definition NewChainPoller (cfg : ChainPollerConfig) : ChainPoller :=
  mkChainPoller false false cfg [] 0 0 NotRunning.

(** [clearChanBufferUpToHeight]: the loop ends when the buffer is empty or
    after the block below [upToHeight] was received *)
Fixpoint clearChanBufferUpToHeight (upToHeight : Z) (buffer : list BlockInfo) : list BlockInfo :=
  match buffer with
  | [] => []
  | block :: buffer =>
      if (upToHeight <=? u64 (Height block + 1))%Z then buffer
      else clearChanBufferUpToHeight upToHeight buffer
  end.

Section ChainPoller.
Context {W : Type} `{ClientController W} `{RetryGo}.

(** The poller with what it shares: the world and the metrics *)
Record PollerSt := mkPollerSt {
  ps_poller : ChainPoller;
  ps_world : W;
  ps_metrics : FpMetrics;
}.

Definition ps_set_poller (p : ChainPoller) (s : PollerSt) :=
  mkPollerSt p (ps_world s) (ps_metrics s).
Definition ps_set_world (w : W) (s : PollerSt) := mkPollerSt (ps_poller s) w (ps_metrics s).
Definition ps_set_metrics (m : FpMetrics) (s : PollerSt) := mkPollerSt (ps_poller s) (ps_world s) m.

Definition onPoller (f : ChainPoller → ChainPoller) : M PollerSt unit :=
  modify (λ s, ps_set_poller (f (ps_poller s)) s).
Definition onPWorld {A} : M W A → M PollerSt A := zoom ps_world ps_set_world.
Definition onPMetrics (f : FpMetrics → FpMetrics) : M PollerSt unit :=
  modify (λ s, ps_set_metrics (f (ps_metrics s)) s).

Definition latestBlockWithRetry : M W BlockInfo := retry_Do RtyAttNum cc_QueryBestBlock.

Definition blockWithRetry (height : Z) : M W BlockInfo := retry_Do RtyAttNum (cc_QueryBlock height).

(** The endless loop of [validateStartHeight] *)
Fixpoint bestHeightLoop (fuel : nat) : M W Z :=
  match fuel with
  | O => outOfFuel
  | S fuel =>
      r ← attempt latestBlockWithRetry;
      match r with
      | inl _ => bestHeightLoop fuel
      | inr lastestBlock => mret (Height lastestBlock)
      end
  end.

Definition validateStartHeight (fuel : nat) (startHeight : Z) : M W unit :=
  if (startHeight =? 0)%Z then throw (ErrorString "start height can't be 0")
  else
    currentBestChainHeight ← bestHeightLoop fuel;
    if (u64 (currentBestChainHeight + 1) <? startHeight)%Z
    then throw (ErrorString ("start height " +:+ pretty startHeight +:+
           " is more than the next chain tip height " +:+
           pretty (u64 (currentBestChainHeight + 1))))
    else mret tt.

Definition poller_Start (fuel : nat) (startHeight : Z) : M PollerSt unit :=
  started ← gets (λ s, p_isStarted (ps_poller s));
  onPoller (p_set_isStarted true) ;;
  if (started : bool) then throw (ErrorString "the poller is already started")
  else
    wrapping ("invalid starting height " +:+ pretty startHeight +:+ ": ")
      (onPWorld (validateStartHeight fuel startHeight)) ;;
    onPoller (p_set_nextHeight startHeight) ;;
    onPoller (p_set_pc Waiting) ;;           (* go cp.pollChain() *)
    onPMetrics (RecordPollerStartingHeight startHeight).

(** [Stop] up to [cp.wg.Wait()], which returns when the goroutine has
    exited *)
Definition poller_Stop : M PollerSt unit :=
  started ← gets (λ s, p_isStarted (ps_poller s));
  onPoller (p_set_isStarted false) ;;
  if negb started then throw (ErrorString "the chain poller has already stopped")
  else
    onPWorld cc_Close ;;
    onPoller (p_set_quit true).

Definition poller_IsRunning (s : PollerSt) : bool := p_isStarted (ps_poller s).

(** One turn of [waitForActivation] and of the loop of [pollChain], each up
    to the next blocking point. *)
Definition waitForActivation_turn : M PollerSt unit :=
  r ← attempt (onPWorld cc_QueryActivatedHeight);
  match r with
  | inl _ => mret tt                          (* stays at its select *)
  | inr activatedHeight =>
      s ← get;
      (if (nextHeight (ps_poller s) <? activatedHeight)%Z
       then onPoller (p_set_nextHeight activatedHeight) else mret tt) ;;
      onPoller (p_set_pc Retrieving)
  end.

Definition retrieve_turn : M PollerSt unit :=
  s ← get;
  let blockToRetrieve := nextHeight (ps_poller s) in
  r ← attempt (onPWorld (blockWithRetry blockToRetrieve));
  match r with
  | inl _ =>
      let failed := u32 (failedCycles (ps_poller s) + 1) in
      onPoller (p_set_failedCycles failed) ;;
      if (maxFailedCycles <? failed)%Z
      then onPoller (p_set_pc Died) ;;
           fatal "the poller has reached the max failed cycles, exiting"
      else onPoller (p_set_pc Selecting)
  | inr block =>
      onPoller (p_set_nextHeight (u64 (blockToRetrieve + 1))) ;;
      onPoller (p_set_failedCycles 0) ;;
      onPMetrics (RecordLastPolledHeight (Height block)) ;;
      onPoller (p_set_pc (Pushing block))
  end.

(** The case of the [select] that serves a request to skip heights; the
    result is the response, sent on a buffered channel. *)
Definition serve_skip (targetHeight : Z) (p : ChainPoller) : option error * ChainPoller :=
  if (targetHeight <=? nextHeight p)%Z
  then (Some (ErrorString ("the target height " +:+ pretty targetHeight +:+
          " is not higher than the next height " +:+ pretty (nextHeight p) +:+ " to retrieve")),
        p_set_pc Retrieving p)
  else (None, p_set_pc Retrieving (p_set_nextHeight targetHeight
                (p_set_buffer (clearChanBufferUpToHeight targetHeight (blockInfoChan p)) p))).

(** ** The system: the goroutine and its consumer *)

(** The consumer is at its own work or blocked in [SkipToHeight h] *)
Inductive consumer := CIdle | CSkipping (h : Z).

Record Sys := mkSys { sys_st : PollerSt; sys_consumer : consumer; }.

Inductive event :=
  | Silent
  | Delivered (b : BlockInfo)      (* the consumer received a block *)
  | Activated (h : Z)              (* waitForActivation returned *)
  | Skipped (h : Z)                (* SkipToHeight h returned nil *)
  | SkipRefused (h : Z) (e : error)
  | Quit.                          (* quit was closed *)

Definition room (p : ChainPoller) : bool :=
  (Z.of_nat (length (blockInfoChan p)) <? BufferSize (p_cfg p))%Z.

Definition upd (f : ChainPoller → ChainPoller) (s : PollerSt) := ps_set_poller (f (ps_poller s)) s.

Inductive step : Sys → event → Sys → Prop :=
  | step_activation_fail s s' c :
      p_pc (ps_poller s) = Waiting → waitForActivation_turn s = (Ok tt, s') →
      p_pc (ps_poller s') = Waiting → step (mkSys s c) Silent (mkSys s' c)
  | step_activated s s' c :
      p_pc (ps_poller s) = Waiting → waitForActivation_turn s = (Ok tt, s') →
      p_pc (ps_poller s') = Retrieving →
      step (mkSys s c) (Activated (nextHeight (ps_poller s'))) (mkSys s' c)
  | step_activation_quit s c :
      p_pc (ps_poller s) = Waiting → p_quit (ps_poller s) = true →
      step (mkSys s c) Silent (mkSys (upd (p_set_pc Retrieving) s) c)
  | step_retrieve s s' c o :
      p_pc (ps_poller s) = Retrieving → retrieve_turn s = (o, s') →
      step (mkSys s c) Silent (mkSys s' c)
  | step_push s c b :
      p_pc (ps_poller s) = Pushing b → room (ps_poller s) = true →
      step (mkSys s c) Silent
        (mkSys (upd (λ p, p_set_pc Selecting (p_set_buffer (blockInfoChan p ++ [b]) p)) s) c)
  | step_handoff s b :   (* an unbuffered channel: sender and receiver meet *)
      p_pc (ps_poller s) = Pushing b → BufferSize (p_cfg (ps_poller s)) = 0%Z →
      blockInfoChan (ps_poller s) = [] →
      step (mkSys s CIdle) (Delivered b) (mkSys (upd (p_set_pc Selecting) s) CIdle)
  | step_tick s c :
      p_pc (ps_poller s) = Selecting → step (mkSys s c) Silent (mkSys (upd (p_set_pc Retrieving) s) c)
  | step_skip_ok s h p' :
      p_pc (ps_poller s) = Selecting → serve_skip h (ps_poller s) = (None, p') →
      step (mkSys s (CSkipping h)) (Skipped h) (mkSys (ps_set_poller p' s) CIdle)
  | step_skip_err s h e p' :
      p_pc (ps_poller s) = Selecting → serve_skip h (ps_poller s) = (Some e, p') →
      step (mkSys s (CSkipping h)) (SkipRefused h e) (mkSys (ps_set_poller p' s) CIdle)
  | step_exit s c :
      p_pc (ps_poller s) = Selecting → p_quit (ps_poller s) = true →
      step (mkSys s c) Silent (mkSys (upd (p_set_pc Exited) s) c)
  | step_receive s b buffer :
      blockInfoChan (ps_poller s) = b :: buffer →
      step (mkSys s CIdle) (Delivered b) (mkSys (upd (p_set_buffer buffer) s) CIdle)
  | step_skip_call s h :
      is_u64 h → p_isStarted (ps_poller s) = true →
      step (mkSys s CIdle) Silent (mkSys s (CSkipping h))
  | step_skip_not_running s h :
      p_isStarted (ps_poller s) = false →
      step (mkSys s CIdle) (SkipRefused h (ErrorString "the chain poller is stopped")) (mkSys s CIdle)
  | step_skip_quit s h :
      p_quit (ps_poller s) = true →
      step (mkSys s (CSkipping h)) (SkipRefused h (ErrorString "the chain poller is stopped"))
        (mkSys s CIdle)
  | step_quit s s' c :
      poller_Stop s = (Ok tt, s') → step (mkSys s c) Quit (mkSys s' c).

Inductive steps : Sys → list event → Sys → Prop :=
  | steps_refl x : steps x [] x
  | steps_step x y z e es : steps x es y → step y e z → steps x (es ++ [e]) z.
End ChainPoller.
Arguments PollerSt : clear implicits.
Arguments Sys : clear implicits.

(** ** The specification: a cursor over the heights *)

(** The abstract poller hands out the block at its cursor and moves on; the
    activation and the consumer's requests move the cursor forward. *)
Inductive cursor_step : Z → event → Z → Prop :=
  | cursor_silent e : cursor_step e Silent e
  | cursor_delivered e b : Height b = e → cursor_step e (Delivered b) (e + 1)
  | cursor_activated e h : (e <= h)%Z → cursor_step e (Activated h) h
  | cursor_skipped e h : (e < h)%Z → cursor_step e (Skipped h) h
  | cursor_refused e h err : cursor_step e (SkipRefused h err) e
  | cursor_quit e : cursor_step e Quit e.

Inductive cursor_run : Z → list event → Z → Prop :=
  | cursor_nil e : cursor_run e [] e
  | cursor_snoc e e1 e2 evs ev :
      cursor_run e evs e1 → cursor_step e1 ev e2 → cursor_run e (evs ++ [ev]) e2.

(** The blocks retrieved and not yet received *)
Definition queue (p : ChainPoller) : list BlockInfo :=
  blockInfoChan p ++ match p_pc p with Pushing b => [b] | _ => [] end.

Definition cursor (p : ChainPoller) : Z := (nextHeight p - Z.of_nat (length (queue p)))%Z.

(** The invariant: the queue is the run of heights below [nextHeight]; the
    failure counter cannot wrap around. *)
Record poller_inv (p : ChainPoller) : Prop := {
  inv_queue : Height <$> queue p = seqZ (cursor p) (Z.of_nat (length (queue p)));
  inv_cursor : (0 <= cursor p)%Z;
  inv_next : (nextHeight p <= MaxUint64)%Z;
  inv_failed : (0 <= failedCycles p <= maxFailedCycles + 1)%Z;
  inv_failed_alive : p_pc p ≠ Died → (failedCycles p <= maxFailedCycles)%Z;
  inv_waiting : p_pc p = Waiting → blockInfoChan p = [];
}.

Definition delivered (evs : list event) : list Z :=
  omap (λ ev, match ev with Delivered b => Some (Height b) | _ => None end) evs.

Lemma clear_all up buffer :
  Forall (λ b, 0 <= Height b ∧ Height b + 1 < up)%Z buffer → (up <= MaxUint64)%Z →
  clearChanBufferUpToHeight up buffer = [].
Proof.
  intros HF Hup. induction HF as [|b buffer Hb _ IH]; simpl; [done|].
  rewrite u64_small by (u64_unfold; lia). by destruct (Z.leb_spec up (Height b + 1)); [lia|].
Qed.

Lemma seqZ_head (h : Z) l m n : h :: l = seqZ m (Z.of_nat (S n)) → h = m ∧ l = seqZ (m + 1) (Z.of_nat n).
Proof.
  rewrite seqZ_cons by lia. intros [= -> ->]. split; [done|]. f_equal; lia.
Qed.

Lemma queue_range p b :
  poller_inv p → b ∈ queue p → (cursor p <= Height b < nextHeight p)%Z.
Proof.
  intros Hinv Hb. assert (Height b ∈ Height <$> queue p) as Hin by (apply list_elem_of_fmap; eauto).
  rewrite (inv_queue _ Hinv), elem_of_seqZ in Hin. unfold cursor in *. lia.
Qed.

Section theorems.
Context {W : Type} `{ClientControllerLaws W} `{RetryGoLaws}.
Implicit Types (s : PollerSt W) (x y : Sys W).

Abbreviation cp x := (ps_poller (sys_st x)).

Lemma blockWithRetry_Ok h (w : W) b w' :
  blockWithRetry h w = (Ok b, w') → Height b = h ∧ (0 <= h <= MaxInt64)%Z.
Proof.
  intros Hr. apply retry_Do_Ok_inv in Hr as [w0 Hq]; [|done].
  pose proof (QueryBlock_height _ _ _ _ Hq). pose proof (QueryBlock_int64 _ _ _ _ Hq). lia.
Qed.

(** The two ends of a turn of the retrieval *)
Lemma retrieve_cases s o s' :
  retrieve_turn s = (o, s') → let p := ps_poller s in
  (ps_poller s' = p) ∨
  (∃ b, Height b = nextHeight p ∧ (0 <= nextHeight p <= MaxInt64)%Z ∧
     ps_poller s' = p_set_pc (Pushing b) (p_set_failedCycles 0
                      (p_set_nextHeight (u64 (nextHeight p + 1)) p))) ∨
  (u32 (failedCycles p + 1) <= maxFailedCycles ∧
     ps_poller s' = p_set_pc Selecting (p_set_failedCycles (u32 (failedCycles p + 1)) p))%Z ∨
  (maxFailedCycles < u32 (failedCycles p + 1) ∧ o ≠ Ok tt ∧
     ps_poller s' = p_set_pc Died (p_set_failedCycles (u32 (failedCycles p + 1)) p))%Z.
Proof.
  unfold retrieve_turn. intros Hr. simpl.
  unfold mbind, M_bind, get in Hr. unfold onPWorld, zoom, attempt in Hr.
  destruct (blockWithRetry _ (ps_world s)) as [[b|e|msg|] w'] eqn:E; simpl in Hr.
  - right; left. apply blockWithRetry_Ok in E as [Hh Hn]. injection Hr as _ <-. by exists b.
  - right; right. destruct (Z.ltb_spec maxFailedCycles (u32 (failedCycles (ps_poller s) + 1)));
      simpl in Hr; injection Hr as <- <-; [by right|by left].
  - left. by simplify_eq.
  - left. by simplify_eq.
Qed.

Lemma activation_cases s s' :
  waitForActivation_turn s = (Ok tt, s') → let p := ps_poller s in
  ps_poller s' = p ∨
  ∃ h, (0 <= h <= MaxInt64)%Z ∧
    ps_poller s' = p_set_pc Retrieving (p_set_nextHeight (Z.max (nextHeight p) h) p).
Proof.
  unfold waitForActivation_turn. intros Hr. simpl.
  unfold mbind, M_bind, get in Hr. unfold onPWorld, zoom, attempt in Hr.
  destruct (cc_QueryActivatedHeight (ps_world s)) as [[h|e|msg|] w'] eqn:E; simpl in Hr; try done.
  - right. apply QueryActivatedHeight_int64 in E. exists h. split; [done|].
    destruct (Z.ltb_spec (nextHeight (ps_poller s)) h); simpl in Hr; injection Hr as <-; simpl.
    + by rewrite Z.max_r by lia.
    + rewrite Z.max_l by lia. by destruct (ps_poller s).
  - left. by injection Hr as <-.
Qed.

(** [good p p' ev]: the poller moved as the specification allows *)
Definition good (p : ChainPoller) (ev : event) (p' : ChainPoller) : Prop :=
  poller_inv p' ∧ cursor_step (cursor p) ev (cursor p').

(** A move that keeps the queue and [nextHeight] *)
Lemma good_silent p p' :
  poller_inv p → queue p' = queue p → nextHeight p' = nextHeight p →
  (0 <= failedCycles p' <= maxFailedCycles + 1)%Z →
  (p_pc p' ≠ Died → (failedCycles p' <= maxFailedCycles)%Z) →
  (p_pc p' = Waiting → blockInfoChan p' = []) → good p Silent p'.
Proof.
  intros Hinv Hq Hn Hf Hd Hw.
  assert (cursor p' = cursor p) as Hc by (unfold cursor; by rewrite Hq, Hn).
  split; [|rewrite Hc; constructor]. destruct Hinv. split; rewrite ?Hc, ?Hq, ?Hn; done.
Qed.

Lemma good_pc p pc :
  poller_inv p → (∀ b, p_pc p ≠ Pushing b) → (∀ b, pc ≠ Pushing b) → pc ≠ Waiting →
  p_pc p ≠ Died → good p Silent (p_set_pc pc p).
Proof.
  intros Hinv Hp Hpc Hw Hd. apply good_silent; simpl; try done.
  - unfold queue; simpl. destruct (p_pc p), pc; naive_solver.
  - apply (inv_failed _ Hinv).
  - intros _. by apply (inv_failed_alive _ Hinv).
Qed.

Lemma good_receive p b buffer :
  poller_inv p → blockInfoChan p = b :: buffer → good p (Delivered b) (p_set_buffer buffer p).
Proof.
  intros Hinv Hb. pose proof (inv_queue _ Hinv) as Hq.
  assert (queue p = b :: queue (p_set_buffer buffer p)) as Hcons by (unfold queue; by rewrite Hb).
  assert (cursor (p_set_buffer buffer p) = cursor p + 1)%Z as Hc.
  { unfold cursor. rewrite Hcons. simpl. lia. }
  rewrite Hcons, fmap_cons in Hq. apply seqZ_head in Hq as [Hh Hq].
  split; [|rewrite Hc; by constructor].
  destruct Hinv. split; simpl; rewrite ?Hc; try done; [lia|]. intros Hw. by rewrite (inv_waiting0 Hw) in Hb.
Qed.

Lemma good_push p b :
  poller_inv p → p_pc p = Pushing b →
  good p Silent (p_set_pc Selecting (p_set_buffer (blockInfoChan p ++ [b]) p)).
Proof.
  intros Hinv Hpc. apply good_silent; simpl; try done.
  - unfold queue; simpl. by rewrite Hpc, app_nil_r.
  - apply (inv_failed _ Hinv).
  - intros _. apply (inv_failed_alive _ Hinv). by rewrite Hpc.
Qed.

Lemma good_handoff p b :
  poller_inv p → p_pc p = Pushing b → blockInfoChan p = [] →
  good p (Delivered b) (p_set_pc Selecting p).
Proof.
  intros Hinv Hpc Hb. pose proof (good_push _ _ Hinv Hpc) as [Hinv' Hc'].
  set (p1 := p_set_pc Selecting _) in *.
  assert (cursor p1 = cursor p) as Hc by by inversion Hc'.
  destruct (good_receive p1 b [] Hinv') as [Hinv2 Hc2]; [simpl; by rewrite Hb|].
  assert (p_set_buffer [] p1 = p_set_pc Selecting p) as Heq by (unfold p1; destruct p; simpl in *; by subst).
  unfold good. by rewrite <-Heq, <-Hc.
Qed.

Lemma good_skip p h p' :
  poller_inv p → p_pc p = Selecting → is_u64 h → serve_skip h p = (None, p') → good p (Skipped h) p'.
Proof.
  intros Hinv Hpc Hh. unfold serve_skip. destruct (Z.leb_spec h (nextHeight p)) as [|Hlt]; [done|].
  intros [= <-].
  assert (clearChanBufferUpToHeight h (blockInfoChan p) = []) as ->.
  { apply clear_all; [|u64_unfold; lia]. apply Forall_forall. intros b Hb.
    assert (b ∈ queue p) as Hbq by (unfold queue; set_solver).
    pose proof (queue_range _ _ Hinv Hbq). pose proof (inv_cursor _ Hinv). lia. }
  assert (cursor p <= nextHeight p)%Z by (unfold cursor; lia).
  set (p' := p_set_pc _ _). assert (queue p' = []) as Hq by done.
  assert (cursor p' = h) as Hc by (unfold cursor; rewrite Hq; simpl; lia).
  split; [|rewrite Hc; constructor; lia].
  destruct Hinv. split; simpl; rewrite ?Hc, ?Hq; try done; [u64_unfold; lia..|].
  intros _. apply inv_failed_alive0. by rewrite Hpc.
Qed.

Lemma good_retrieve s o s' :
  poller_inv (ps_poller s) → p_pc (ps_poller s) = Retrieving → retrieve_turn s = (o, s') →
  good (ps_poller s) Silent (ps_poller s').
Proof.
  intros Hinv Hpc Hr. apply retrieve_cases in Hr. cbv zeta in Hr. revert Hinv Hpc Hr.
  generalize (ps_poller s) as p, (ps_poller s') as p'. intros p p1 Hinv Hpc Hr.
  assert (failedCycles p <= maxFailedCycles)%Z as Hf.
  { apply (inv_failed_alive _ Hinv). by rewrite Hpc. }
  pose proof (inv_failed _ Hinv) as Hf0. unfold maxFailedCycles in *.
  assert (queue p = blockInfoChan p) as Hqp by (unfold queue; by rewrite Hpc, app_nil_r).
  assert (u32 (failedCycles p + 1) = failedCycles p + 1)%Z as Hu by (apply u32_small; u64_unfold; lia).
  destruct Hr as [->|[(b & Hb & Hn & ->)|[[Hle ->]|(Hlt & _ & ->)]]].
  - split; [done|constructor].
  - rewrite u64_small by (u64_unfold; lia). set (p' := p_set_pc _ _).
    assert (queue p' = queue p ++ [b]) as Hq by by rewrite Hqp.
    assert (cursor p' = cursor p) as Hc.
    { unfold cursor. rewrite Hq, length_app. simpl. lia. }
    split; [|rewrite Hc; constructor]. pose proof (inv_queue _ Hinv) as Hiq.
    destruct Hinv. split; simpl; rewrite ?Hc, ?Hq; try done; [|u64_unfold; lia].
    rewrite fmap_app, Hiq, length_app. simpl.
    rewrite Nat2Z.inj_add, seqZ_app by lia. f_equal. simpl. rewrite Hb. unfold cursor.
    rewrite seqZ_cons by lia. simpl. rewrite seqZ_nil by lia. f_equal. lia.
  - rewrite Hu in *. apply good_silent; simpl; try done; [by unfold queue; rewrite Hpc|unfold maxFailedCycles; lia].
  - rewrite Hu in *. apply good_silent; simpl; try done; [by unfold queue; rewrite Hpc|unfold maxFailedCycles; lia].
Qed.

Lemma good_activated s s' :
  poller_inv (ps_poller s) → p_pc (ps_poller s) = Waiting →
  waitForActivation_turn s = (Ok tt, s') → p_pc (ps_poller s') = Retrieving →
  good (ps_poller s) (Activated (nextHeight (ps_poller s'))) (ps_poller s').
Proof.
  intros Hinv Hpc Hr Hpc'.
  apply activation_cases in Hr as [Heq|(h & Hh & ->)]; [congruence|]. clear Hpc'. revert Hinv Hpc.
  generalize (ps_poller s) as p. intros p Hinv Hpc.
  assert (queue p = []) as Hq by (unfold queue; by rewrite Hpc, (inv_waiting _ Hinv Hpc)).
  set (p' := p_set_pc _ _). assert (queue p' = []) as Hq'.
  { unfold queue; simpl. by rewrite (inv_waiting _ Hinv Hpc). }
  assert (cursor p = nextHeight p) as Hc by (unfold cursor; rewrite Hq; simpl; lia).
  assert (cursor p' = nextHeight p') as Hc' by (unfold cursor; rewrite Hq'; simpl; lia).
  split; [|rewrite Hc, Hc'; constructor; simpl; lia].
  destruct Hinv. split; rewrite ?Hc', ?Hq'; simpl; try done; [lia|u64_unfold; lia|].
  intros _. apply inv_failed_alive0. by rewrite Hpc.
Qed.

Lemma poller_Stop_poller s s' :
  poller_Stop s = (Ok tt, s') →
  ps_poller s' = p_set_quit true (p_set_isStarted false (ps_poller s)).
Proof.
  unfold poller_Stop, mbind, M_bind, gets, onPoller, modify, onPWorld, zoom. simpl.
  destruct (p_isStarted (ps_poller s)); simpl; [|done].
  destruct (cc_Close (ps_world s)) as [[] ?]; simpl; intros; by simplify_eq.
Qed.

(** The requests the consumer makes are [uint64] heights *)
Definition sys_inv x : Prop :=
  poller_inv (cp x) ∧ match sys_consumer x with CSkipping h => is_u64 h | CIdle => True end.

Lemma step_good x ev y :
  sys_inv x → step x ev y → sys_inv y ∧ cursor_step (cursor (cp x)) ev (cursor (cp y)).
Proof.
  intros [Hinv Hc] Hs. unfold sys_inv. destruct Hs as
    [s s' c Hpc Ht Hpc'|s s' c Hpc Ht Hpc'|s c Hpc Hq|s s' c o Hpc Hr|s c b Hpc Hr|s b Hpc Hb He
    |s c Hpc|s h p' Hpc Hk|s h e p' Hpc Hk|s c Hpc Hq|s b buffer Hb|s h Hh Hst|s h Hst|s h Hq
    |s s' c Ht]; simpl in *.
  - apply activation_cases in Ht as [->|(h & _ & Heq)]; [|by rewrite Heq in Hpc'].
    split; [done|constructor].
  - destruct (good_activated _ _ Hinv Hpc Ht Hpc'). done.
  - destruct (good_pc _ Retrieving Hinv) as [? ?]; try done; by rewrite Hpc.
  - destruct (good_retrieve _ _ _ Hinv Hpc Hr). done.
  - destruct (good_push _ _ Hinv Hpc). done.
  - destruct (good_handoff _ _ Hinv Hpc He). done.
  - destruct (good_pc _ Retrieving Hinv) as [? ?]; try done; by rewrite Hpc.
  - destruct (good_skip _ _ _ Hinv Hpc Hc Hk). done.
  - unfold serve_skip in Hk. destruct (Z.leb h _); simplify_eq.
    destruct (good_pc _ Retrieving Hinv) as [? Hcs]; try done; try by rewrite Hpc.
    split; [done|]. inversion Hcs. constructor.
  - destruct (good_pc _ Exited Hinv) as [? ?]; try done; by rewrite Hpc.
  - destruct (good_receive _ _ _ Hinv Hb). done.
  - split; [done|constructor].
  - split; [done|constructor].
  - split; [done|constructor].
  - apply poller_Stop_poller in Ht as ->. split; [|constructor]. split; [|done].
    destruct Hinv. by split.
Qed.

Lemma steps_good x evs y :
  sys_inv x → steps x evs y → sys_inv y ∧ cursor_run (cursor (cp x)) evs (cursor (cp y)).
Proof.
  intros Hinv Hs. induction Hs as [x|x y z ev evs _ IH Hstep]; [split; [done|constructor]|].
  destruct (IH Hinv) as [Hy Hrun]. destruct (step_good _ _ _ Hy Hstep). split; [done|].
  by econstructor.
Qed.

(** What [Start] leaves behind when it succeeds *)
Lemma poller_Start_Ok fuel h s s' :
  poller_Start fuel h s = (Ok tt, s') →
  p_isStarted (ps_poller s) = false ∧
  ps_poller s' = p_set_pc Waiting (p_set_nextHeight h (p_set_isStarted true (ps_poller s))) ∧
  ∃ w', validateStartHeight fuel h (ps_world s) = (Ok tt, w').
Proof.
  unfold poller_Start, mbind, M_bind, gets, onPoller, modify, onPWorld, zoom, wrapping, onPMetrics.
  simpl. destruct (p_isStarted (ps_poller s)); simpl; [done|].
  destruct (validateStartHeight fuel h (ps_world s)) as [[[]| | |] w'] eqn:E; simpl; try done.
  intros Hr. injection Hr as <-. simpl. eauto.
Qed.

Lemma validate_Ok fuel h (w : W) w' :
  validateStartHeight fuel h w = (Ok tt, w') → h ≠ 0%Z.
Proof. unfold validateStartHeight. destruct (Z.eqb_spec h 0); done. Qed.

Lemma started_inv cfg fuel h w fm s' :
  is_u64 h → poller_Start fuel h (mkPollerSt (NewChainPoller cfg) w fm) = (Ok tt, s') →
  sys_inv (mkSys s' CIdle) ∧ cursor (ps_poller s') = h.
Proof.
  intros Hh (_ & Hp & _)%poller_Start_Ok. unfold sys_inv. simpl. rewrite Hp. simpl.
  split; [|unfold cursor; simpl; lia]. split; [|done].
  split; try done; unfold cursor, maxFailedCycles; simpl; u64_unfold; lia.
Qed.

(** *** What the specification gives the consumer *)

Lemma cursor_run_sorted e evs e' :
  cursor_run e evs e' →
  (e <= e')%Z ∧ StronglySorted Z.lt (delivered evs) ∧ Forall (λ h, e <= h < e')%Z (delivered evs).
Proof.
  induction 1 as [e|e e1 e2 evs ev _ (Hle & Hs & HF) Hstep]; [by repeat constructor|].
  unfold delivered in *. rewrite omap_app.
  inversion Hstep as [|? b Hb| | | |]; subst; simpl; rewrite ?app_nil_r.
  - done.
  - split; [lia|]. split.
    + clear -Hs HF. induction Hs as [|h l Hs IH Hl]; simpl; [by repeat constructor|].
      apply Forall_cons_1 in HF as [? ?]. constructor; [by apply IH|].
      apply Forall_app. split; [done|]. constructor; [lia|done].
    + apply Forall_app. split; [eapply Forall_impl; [done|]; simpl; lia|].
      constructor; [lia|constructor].
  - split; [lia|]. split; [done|]. eapply Forall_impl; [done|]; simpl; lia.
  - split; [lia|]. split; [done|]. eapply Forall_impl; [done|]; simpl; lia.
  - done.
  - done.
Qed.

(** No jump of the cursor among these events *)
Definition no_jump (evs : list event) : Prop :=
  Forall (λ ev, match ev with Activated _ | Skipped _ => False | _ => True end) evs.

Lemma cursor_run_contiguous e evs e' :
  cursor_run e evs e' → no_jump evs → delivered evs = seqZ e (e' - e).
Proof.
  induction 1 as [e|e e1 e2 evs ev Hrun IH Hstep]; intros Hj.
  { by rewrite Z.sub_diag. }
  apply Forall_app in Hj as [Hj1 Hj2]. apply Forall_cons_1 in Hj2 as [Hj2 _].
  destruct (cursor_run_sorted _ _ _ Hrun) as [Hle _].
  unfold delivered in *. rewrite omap_app, (IH Hj1).
  inversion Hstep; subst; simpl; rewrite ?app_nil_r; try done.
  replace (Height b + 1 - e)%Z with (Height b - e + 1)%Z by lia.
  rewrite seqZ_app by lia. f_equal. rewrite seqZ_cons by lia. simpl.
  rewrite seqZ_nil by lia. f_equal. lia.
Qed.



(** [SkipToHeight h] that succeeds drops every block the poller had
    buffered and makes [h] the next height, so nothing below [h] is
    delivered after it. *)
Theorem skip_drains_the_buffer x y h evs z :
  sys_inv x → step x (Skipped h) y → steps y evs z →
  blockInfoChan (cp y) = [] ∧ nextHeight (cp y) = h ∧ Forall (λ h', h <= h')%Z (delivered evs).
Proof.
  intros Hinv Hstep Hs. destruct (step_good _ _ _ Hinv Hstep) as [Hy Hc].
  destruct (steps_good _ _ _ Hy Hs) as [_ Hrun].
  assert (cursor (cp y) = h) as He by by inversion Hc.
  destruct (cursor_run_sorted _ _ _ Hrun) as (_ & _ & HF). rewrite He in HF.
  assert (nextHeight (cp y) = h) as Hn.
  { inversion Hstep as [| | | | | | |s h' p' Hpc Hk| | | | | | |]; subst x h' y. simpl in *.
    unfold serve_skip in Hk. destruct (Z.leb _ _); [done|]. by injection Hk as <-. }
  assert (queue (cp y) = []) as Hq.
  { apply length_zero_iff_nil. unfold cursor in He. lia. }
  split_and!; [|done|].
  - unfold queue in Hq. by apply app_nil in Hq as [? _].
  - eapply Forall_impl; [done|]; simpl; lia.
Qed.

(** C40: the poller and its consumer can deadlock: with the goroutine blocked
    on a full channel and the consumer, its only receiver, blocked in
    [SkipToHeight], no step is possible until [Stop] closes the quit
    channel. *)
Theorem skip_deadlocks_on_full_buffer s b h ev y :
  p_pc (ps_poller s) = Pushing b → room (ps_poller s) = false → p_quit (ps_poller s) = false →
  step (mkSys s (CSkipping h)) ev y → ev = Quit ∧ p_quit (cp y) = true.
Proof.
  intros Hpc Hroom Hq Hs. inversion Hs; subst; try congruence.
  split; [done|]. simpl. by erewrite poller_Stop_poller.
Qed.

(** The poller tolerates [maxFailedCycles] failed cycles in a row and no
    more: a failed cycle of a live poller either counts one more failure and
    goes on, or, when 20 were counted, ends the process; a successful cycle
    resets the count. *)
Theorem poller_gives_up_after_max_failures s o s' :
  poller_inv (ps_poller s) → p_pc (ps_poller s) = Retrieving → retrieve_turn s = (o, s') →
  (∃ msg, (blockWithRetry (nextHeight (ps_poller s)) (ps_world s)).1 = Fatal msg) ∨
  (blockWithRetry (nextHeight (ps_poller s)) (ps_world s)).1 = OutOfFuel ∨
  (∃ b, (blockWithRetry (nextHeight (ps_poller s)) (ps_world s)).1 = Ok b ∧
     o = Ok tt ∧ p_pc (ps_poller s') = Pushing b ∧ failedCycles (ps_poller s') = 0%Z) ∨
  (∃ e, (blockWithRetry (nextHeight (ps_poller s)) (ps_world s)).1 = Err e ∧
     failedCycles (ps_poller s') = (failedCycles (ps_poller s) + 1)%Z ∧
     if (failedCycles (ps_poller s) <? maxFailedCycles)%Z
     then o = Ok tt ∧ p_pc (ps_poller s') = Selecting
     else o = Fatal "the poller has reached the max failed cycles, exiting" ∧
          p_pc (ps_poller s') = Died).
Proof.
  intros Hinv Hpc Hr. pose proof (inv_failed _ Hinv). unfold maxFailedCycles in *.
  assert (failedCycles (ps_poller s) <= 20)%Z as Hle.
  { apply (inv_failed_alive _ Hinv). by rewrite Hpc. }
  unfold retrieve_turn, mbind, M_bind, get, onPWorld, zoom, attempt in Hr.
  destruct (blockWithRetry _ (ps_world s)) as [[b|e|msg|] w'] eqn:E; simpl in *.
  - right; right; left. injection Hr as <- <-. by exists b.
  - right; right; right. exists e. split; [done|].
    rewrite u32_small in Hr by (u64_unfold; lia). unfold maxFailedCycles in Hr.
    destruct (Z.ltb_spec (failedCycles (ps_poller s)) 20).
    + destruct (Z.ltb_spec 20 (failedCycles (ps_poller s) + 1)); [lia|].
      by injection Hr as <- <-.
    + destruct (Z.ltb_spec 20 (failedCycles (ps_poller s) + 1)); [|lia].
      by injection Hr as <- <-.
  - left. eauto.
  - right; left. done.
Qed.
End theorems.
