(* ===== verification/FpState.v ===== *)
(** * FpState: the state of a finality provider instance and its adapters

    Models the struct [FinalityProviderInstance] of
    [src/finality-provider/service/fp_instance.go] with what it shares (the
    consumer chain, the EOTS manager, the database, the metrics), the adapters
    [fp_store_adapter.go] and [eots_manager_adapter.go],
    [src/types/pub_rand_commit.go], and the queries with retries of
    fp_instance.go. The finality provider in memory ([fpState.fp]) and its
    record in the database are two copies that the adapter updates together. *)

From stdpp Require Import base gmap list strings pretty.
From Stdlib Require Import ZArith Lia.
From S2P Require Import Prelude Errors Monad Types Kvdb FpStore PubRandStore Metrics EotsManager.
From S2P Require Import Config ClientController Poller.

(** The clock and the goroutines around an instance: [time.Now()], which case
    a [select] between a timer and [quit] takes (true for [quit]), and the
    answer of the poller's goroutine to [SkipToHeight]. *)
Class Env (W : Type) := {
  time_Now : W → Z * W;
  select_quit : W → bool * W;
  poller_SkipToHeight : Z → M W unit;
}.

Section FpState.
Context `{Crypto} `{Codec} `{BbnErrors} `{RetryGo}.
Context {W E Db : Type} `{!ClientController W} `{!Env W} `{!EOTSManager E} `{!Kvdb Db}.

(** [service.CriticalError] *)
Record CriticalError := mkCriticalError { ce_err : error; ce_fpBtcPk : bytes; }.

Record FinalityProviderInstance := mkInstance {
  i_btcPk : bytes;
  i_fp : StoredFinalityProvider;            (* fpState.fp *)
  i_cfg : Config;
  i_passphrase : string;
  i_poller : option ChainPoller;
  i_laggingTarget : option BlockInfo;       (* the buffer of laggingTargetChan *)
  i_criticalErrs : list CriticalError;      (* what was sent to criticalErrChan *)
  i_isStarted : bool;
  i_inSync : bool;
  i_isLagging : bool;
}.

Definition set_fp v (i : FinalityProviderInstance) :=
  mkInstance (i_btcPk i) v (i_cfg i) (i_passphrase i) (i_poller i) (i_laggingTarget i)
    (i_criticalErrs i) (i_isStarted i) (i_inSync i) (i_isLagging i).
Definition set_poller v (i : FinalityProviderInstance) :=
  mkInstance (i_btcPk i) (i_fp i) (i_cfg i) (i_passphrase i) v (i_laggingTarget i)
    (i_criticalErrs i) (i_isStarted i) (i_inSync i) (i_isLagging i).
Definition set_laggingTarget v (i : FinalityProviderInstance) :=
  mkInstance (i_btcPk i) (i_fp i) (i_cfg i) (i_passphrase i) (i_poller i) v
    (i_criticalErrs i) (i_isStarted i) (i_inSync i) (i_isLagging i).
Definition set_criticalErrs v (i : FinalityProviderInstance) :=
  mkInstance (i_btcPk i) (i_fp i) (i_cfg i) (i_passphrase i) (i_poller i) (i_laggingTarget i)
    v (i_isStarted i) (i_inSync i) (i_isLagging i).
Definition set_isStarted v (i : FinalityProviderInstance) :=
  mkInstance (i_btcPk i) (i_fp i) (i_cfg i) (i_passphrase i) (i_poller i) (i_laggingTarget i)
    (i_criticalErrs i) v (i_inSync i) (i_isLagging i).
Definition set_inSync v (i : FinalityProviderInstance) :=
  mkInstance (i_btcPk i) (i_fp i) (i_cfg i) (i_passphrase i) (i_poller i) (i_laggingTarget i)
    (i_criticalErrs i) (i_isStarted i) v (i_isLagging i).
Definition set_isLagging v (i : FinalityProviderInstance) :=
  mkInstance (i_btcPk i) (i_fp i) (i_cfg i) (i_passphrase i) (i_poller i) (i_laggingTarget i)
    (i_criticalErrs i) (i_isStarted i) (i_inSync i) v.

(** The instance with what it shares. [st_signed] is not in the program: it
    records the heights and messages the EOTS manager signed, oldest first. *)
Record St := mkSt {
  st_ins : FinalityProviderInstance;
  st_w : W;
  st_e : E;
  st_db : Db;
  st_fm : FpMetrics;
  st_signed : list (Z * bytes);
}.

Definition st_set_ins v s := mkSt v (st_w s) (st_e s) (st_db s) (st_fm s) (st_signed s).
Definition st_set_w v s := mkSt (st_ins s) v (st_e s) (st_db s) (st_fm s) (st_signed s).
Definition st_set_e v s := mkSt (st_ins s) (st_w s) v (st_db s) (st_fm s) (st_signed s).
Definition st_set_db v s := mkSt (st_ins s) (st_w s) (st_e s) v (st_fm s) (st_signed s).
Definition st_set_fm v s := mkSt (st_ins s) (st_w s) (st_e s) (st_db s) v (st_signed s).
Definition st_set_signed v s := mkSt (st_ins s) (st_w s) (st_e s) (st_db s) (st_fm s) v.

Definition onW {A} : M W A → M St A := zoom st_w st_set_w.
Definition onE {A} : M E A → M St A := zoom st_e st_set_e.
Definition onDb {A} : M Db A → M St A := zoom st_db st_set_db.
Definition onIns (f : FinalityProviderInstance → FinalityProviderInstance) : M St unit :=
  modify (λ s, st_set_ins (f (st_ins s)) s).
Definition onFm (f : FpMetrics → FpMetrics) : M St unit :=
  modify (λ s, st_set_fm (f (st_fm s)) s).
Definition ins {A} (f : FinalityProviderInstance → A) : M St A := gets (λ s, f (st_ins s)).
Definition noteSigned (h : Z) (msg : bytes) : M St unit :=
  modify (λ s, st_set_signed (st_signed s ++ [(h, msg)]) s).

(** [if err := m(); err != nil { logger.Fatal(msg) }] *)
Definition must (msg : string) (m : M St unit) : M St unit :=
  r ← attempt m; match r with inl _ => fatal msg | inr _ => mret tt end.

(** ** fp_store_adapter.go *)

Definition GetBtcPkBIP340 (i : FinalityProviderInstance) : bytes := GetBIP340BTCPK (i_fp i).
Definition GetBtcPk (i : FinalityProviderInstance) : PublicKey := s_BtcPk (i_fp i).
Definition GetBtcPkHex (i : FinalityProviderInstance) : string := MarshalHex (GetBtcPkBIP340 i).
Definition GetStatus (i : FinalityProviderInstance) : FinalityProviderStatus := s_Status (i_fp i).
Definition GetLastVotedHeight (i : FinalityProviderInstance) : Z := s_LastVotedHeight (i_fp i).
Definition GetLastProcessedHeight (i : FinalityProviderInstance) : Z :=
  s_LastProcessedHeight (i_fp i).
Definition GetChainID (i : FinalityProviderInstance) : bytes := bytes_of_string (s_ChainID (i_fp i)).

Definition setStatus (st : FinalityProviderStatus) : M St unit :=
  onIns (λ i, set_fp (stored_with_status st (i_fp i)) i) ;;
  pk ← ins GetBtcPk;
  onDb (SetFpStatus pk st).

Definition setLastProcessedHeight (height : Z) : M St unit :=
  onIns (λ i, set_fp (stored_with_processed height (i_fp i)) i) ;;
  pk ← ins GetBtcPk;
  onDb (SetFpLastProcessedHeight pk height).

Definition setLastProcessedAndVotedHeight (height : Z) : M St unit :=
  onIns (λ i, set_fp (stored_with_processed height (stored_with_voted height (i_fp i))) i) ;;
  pk ← ins GetBtcPk;
  onDb (SetFpLastVotedHeight pk height).

Definition MustSetStatus (st : FinalityProviderStatus) : M St unit :=
  must "failed to set finality-provider status" (setStatus st).

Definition MustSetLastProcessedHeight (height : Z) : M St unit :=
  must "failed to set last processed height" (setLastProcessedHeight height) ;;
  hex ← ins GetBtcPkHex;
  onFm (RecordFpLastProcessedHeight hex height).

Definition MustUpdateStateAfterFinalitySigSubmission (height : Z) : M St unit :=
  must "failed to update state after finality signature submitted"
    (setLastProcessedAndVotedHeight height) ;;
  hex ← ins GetBtcPkHex;
  onFm (RecordFpLastVotedHeight hex height) ;;
  onFm (RecordFpLastProcessedHeight hex height).

(** ** eots_manager_adapter.go *)

Definition getPubRandList (startHeight numPubRand : Z) : M St (list FieldVal) :=
  i ← ins id;
  pk ← lift (MustMarshal (i_btcPk i));
  onE (em_CreateRandomnessPairList pk (GetChainID i) startHeight numPubRand (i_passphrase i)).

Definition getHashToSignForCommitPubRand (startHeight numPubRand : Z) (commitment : bytes) : bytes :=
  tmhash_Sum (Uint64ToBigEndian startHeight ++ Uint64ToBigEndian numPubRand ++ commitment).

Definition signPubRandCommit (startHeight numPubRand : Z) (commitment : bytes) : M St SchnorrSig :=
  let hash := getHashToSignForCommitPubRand startHeight numPubRand commitment in
  i ← ins id;
  pk ← lift (MustMarshal (i_btcPk i));
  onE (em_SignSchnorrSig pk hash (i_passphrase i)).

Definition getMsgToSignForVote (blockHeight : Z) (blockHash : bytes) : bytes :=
  Uint64ToBigEndian blockHeight ++ blockHash.

Definition signFinalitySig (b : BlockInfo) : M St bytes :=
  let msgToSign := getMsgToSignForVote (Height b) (Hash b) in
  i ← ins id;
  pk ← lift (MustMarshal (i_btcPk i));
  sig ← wrapping "failed to sign EOTS: "
    (onE (em_SignEOTS pk (GetChainID i) msgToSign (Height b) (i_passphrase i)));
  noteSigned (Height b) msgToSign ;;
  mret (NewSchnorrEOTSSigFromModNScalar sig).

(** ** types/pub_rand_commit.go *)

Fixpoint marshalPubRands (pubRandList : list FieldVal) : outcome (list bytes) :=
  match pubRandList with
  | [] => Ok []
  | pr :: prs =>
      b ← SchnorrPubRand_MustMarshal pr;
      bs ← marshalPubRands prs;
      Ok (b :: bs)
  end.

Definition GetPubRandCommitAndProofs (pubRandList : list FieldVal)
    : outcome (bytes * list MerkleProof) :=
  prBytesList ← marshalPubRands pubRandList;
  Ok (merkle_ProofsFromByteSlices prBytesList).

(** ** The queries of fp_instance.go *)

Definition lastCommittedPublicRandWithRetry (count : Z) : M St (gmap Z PubRandCommitResponse) :=
  i ← ins id;
  retry_Do RtyAttNum (onW (cc_QueryLastCommittedPublicRand (GetBtcPk i) count)).

Definition latestFinalizedBlocksWithRetry (count : Z) : M St (option (list BlockInfo)) :=
  retry_Do RtyAttNum (onW (cc_QueryLatestFinalizedBlocks count)).

Definition getLatestBlockWithRetry : M St BlockInfo :=
  latestBlock ← retry_Do RtyAttNum (onW cc_QueryBestBlock);
  onFm (RecordBabylonTipHeight (Height latestBlock)) ;;
  mret latestBlock.

Definition GetVotingPowerWithRetry (height : Z) : M St Z :=
  i ← ins id;
  retry_Do RtyAttNum (onW (cc_QueryFinalityProviderVotingPower (GetBtcPk i) height)).

Definition GetFinalityProviderSlashedOrJailedWithRetry : M St (bool * bool) :=
  i ← ins id;
  retry_Do RtyAttNum (onW (cc_QueryFinalityProviderSlashedOrJailed (GetBtcPk i))).

Definition hasProcessed (b : BlockInfo) (i : FinalityProviderInstance) : bool :=
  (Height b <=? GetLastProcessedHeight i)%Z.

Definition hasVotingPower (b : BlockInfo) : M St bool :=
  power ← GetVotingPowerWithRetry (Height b);
  mret (negb (power =? 0)%Z).

Definition checkLagging (currentBlock : BlockInfo) (i : FinalityProviderInstance) : bool :=
  (u64 (GetLastProcessedHeight i + FastSyncGap (i_cfg i)) <=? Height currentBlock)%Z.

Definition checkBlockFinalization (height : Z) : M St bool :=
  b ← onW (cc_QueryBlock height);
  mret (Finalized b).

Definition reportCriticalErr (err : error) : M St unit :=
  onIns (λ i, set_criticalErrs (i_criticalErrs i ++ [mkCriticalError err (GetBtcPkBIP340 i)]) i).

(** [GetLastCommittedHeight]: the last height of the last commitment, 0 when
    there is none *)
Definition GetLastCommittedHeight : M St Z :=
  pubRandCommitMap ← lastCommittedPublicRandWithRetry 1;
  match map_to_list pubRandCommitMap with
  | [] => mret 0%Z
  | [(startHeight, resp)] => mret (u64 (startHeight + pc_NumPubRand resp - 1))
  | _ => throw (ErrorString "got more than one last committed public randomness")
  end.

Definition getPollerStartingHeight : M St Z :=
  i ← ins id;
  if negb (AutoChainScanningMode (PollerConfig (i_cfg i)))
  then mret (StaticChainScanningStartHeight (PollerConfig (i_cfg i)))
  else
    let initialBlockToGet := GetLastProcessedHeight i in
    latestFinalisedBlock ← latestFinalizedBlocksWithRetry 1;
    let initialBlockToGet :=
      match latestFinalisedBlock with
      | Some (b :: _) => if (initialBlockToGet <? Height b)%Z then Height b else initialBlockToGet
      | _ => initialBlockToGet
      end in
    mret (if (initialBlockToGet =? 0)%Z then 1%Z else initialBlockToGet).
End FpState.
Arguments St {_ _} W E Db.

(** ** What every operation of an instance keeps *)

Section db_le.
Context `{CryptoLaws} `{CodecLaws} {Db : Type} `{KvdbLaws Db}.
Implicit Types (db : Db).

(** The two stores share the database: the finality provider store stays
    well formed with heights that do not decrease, and stored inclusion
    proofs stay. *)
Definition db_le db db' : Prop :=
  (store_wf db → store_wf db' ∧ heights_le db db') ∧
  (bucket_exists db pubRandProofBucketName = true →
   bucket_exists db' pubRandProofBucketName = true) ∧
  (∀ k v, pr_lookup db k = Some v → pr_lookup db' k = Some v).

#[export] Instance db_le_preorder : PreOrder db_le.
Proof.
  split; [intros db; split_and!; [by split|done|done]|].
  intros d1 d2 d3 (Ha & Hb & Hc) (Ha' & Hb' & Hc'). split_and!; [|auto|auto].
  intros Hwf. destruct (Ha Hwf) as [Hwf2 ?]. destruct (Ha' Hwf2) as [? ?].
  split; [done|]. by transitivity d2.
Qed.

(** An update of a record touches its own bucket only. *)
Lemma set_state_other_bucket pk f :
  frame (λ db db', (∀ n, bucket_exists db' n = bucket_exists db n) ∧
                   ∀ n k, n ≠ finalityProviderBucketName → bucket_Get db' n k = bucket_Get db n k)
    (setFinalityProviderState pk f : M Db unit).
Proof.
  apply batch_frame; [by split|]. intros db db' Hb.
  destruct (bucket_exists db _) eqn:?; simpl in Hb; [|done].
  destruct (bucket_Get db _ _) as [v|] eqn:?; [|done].
  destruct (pm_Unmarshal v) as [fp| | |]; simpl in Hb; try done.
  destruct (f fp) as [fp'| | |]; simpl in Hb; try done.
  unfold saveFinalityProvider in Hb. destruct (pm_Marshal fp') as [m| | |]; simpl in Hb; try done.
  split; [intros n; by eapply put_exists|]. intros n k Hn. eapply put_Get_ne; [done|congruence].
Qed.

Lemma fps_run_db_le op :
  op_in_range op → (∀ addr pk d c kn ci sig, op ≠ OpCreate addr pk d c kn ci sig) →
  frame db_le (fps_run op : M Db unit).
Proof.
  intros Hr Hop db. split.
  { intros Hwf. split; [by apply fps_run_wf|by apply fps_run_heights_le]. }
  assert (∃ pk f, fps_run op = setFinalityProviderState pk f) as (pk & f & Heq).
  { destruct op; [exfalso; by eapply Hop|..]; eexists _, _; reflexivity. }
  rewrite Heq. destruct (set_state_other_bucket pk f db) as [Hex Hget]. split.
  - by rewrite Hex.
  - intros k v. unfold pr_lookup. by rewrite Hget.
Qed.

Lemma db_le_SetFpStatus pk st : frame db_le (SetFpStatus pk st : M Db unit).
Proof. by apply (fps_run_db_le (OpSetStatus pk st)). Qed.

Lemma db_le_SetFpLastVotedHeight pk h :
  is_u64 h → frame db_le (SetFpLastVotedHeight pk h : M Db unit).
Proof. intros Hh. by apply (fps_run_db_le (OpSetVoted pk h)). Qed.

Lemma db_le_SetFpLastProcessedHeight pk h :
  is_u64 h → frame db_le (SetFpLastProcessedHeight pk h : M Db unit).
Proof. intros Hh. by apply (fps_run_db_le (OpSetProcessed pk h)). Qed.

Lemma db_le_AddPubRandProofList prs proofs :
  frame db_le (AddPubRandProofList prs proofs : M Db unit).
Proof.
  intros db. destruct (AddPubRandProofList_pr_le prs proofs db) as (Hp & Hex & Hget).
  generalize dependent (AddPubRandProofList prs proofs db).2. intros db' Hp Hex Hget.
  split_and!; [|by rewrite Hex|done].
  assert (∀ k, bucket_Get db' finalityProviderBucketName k =
               bucket_Get db finalityProviderBucketName k) as Hfp by (intros k; by apply Hget).
  intros [He Hall]. split.
  - split; [by rewrite Hex|]. intros k v. rewrite Hfp. apply Hall.
  - intros k fp Hl. exists fp. split; [|lia]. unfold fp_lookup in *. by rewrite Hfp.
Qed.
End db_le.

Section st_le.
Context `{CryptoLaws} `{CodecLaws} `{BbnErrors} `{RetryGoLaws}.
Context {W E Db : Type} `{!ClientController W} `{!Env W}.
Context `{!EOTSManager E} `{!EOTSManagerLaws E} `{!Kvdb Db} `{!KvdbLaws Db}.
Implicit Types (s : St W E Db).

(** The identity of an instance: what never changes after it was made *)
Definition same_identity (i i' : FinalityProviderInstance) : Prop :=
  i_cfg i' = i_cfg i ∧ i_btcPk i' = i_btcPk i ∧ i_passphrase i' = i_passphrase i ∧
  s_BtcPk (i_fp i') = s_BtcPk (i_fp i) ∧ s_ChainID (i_fp i') = s_ChainID (i_fp i).

Record st_le s s' : Prop := {
  le_ins : same_identity (st_ins s) (st_ins s');
  le_e : em_le (st_e s) (st_e s');
  le_db : db_le (st_db s) (st_db s');
  le_signed : st_signed s `prefix_of` st_signed s';
}.

#[export] Instance st_le_preorder : PreOrder st_le.
Proof.
  split; [intros s; split; [done|reflexivity..]|]. intros s1 s2 s3 [(?&?&?&?&?) ? ? ?] [(?&?&?&?&?) ? ? ?]. split.
  - unfold same_identity. split_and!; congruence.
  - by transitivity (st_e s2).
  - by transitivity (st_db s2).
  - by transitivity (st_signed s2).
Qed.

Lemma st_le_onW {A} (m : M W A) : frame st_le (onW m : M (St W E Db) A).
Proof. intros s. split; (done || reflexivity). Qed.

Lemma st_le_onE {A} (m : M E A) : frame em_le m → frame st_le (onE m : M (St W E Db) A).
Proof. apply frame_zoom. intros s e He. split; (done || reflexivity). Qed.

Lemma st_le_onDb {A} (m : M Db A) : frame db_le m → frame st_le (onDb m : M (St W E Db) A).
Proof. apply frame_zoom. intros s d Hd. split; (done || reflexivity). Qed.

Lemma st_le_onFm f : frame st_le (onFm f : M (St W E Db) unit).
Proof. intros s. split; (done || reflexivity). Qed.

Lemma st_le_onIns f :
  (∀ i, same_identity i (f i)) → frame st_le (onIns f : M (St W E Db) unit).
Proof. intros Hf s. split; [apply Hf|reflexivity..]. Qed.

Lemma st_le_ins {A} (f : FinalityProviderInstance → A) : frame st_le (ins f : M (St W E Db) A).
Proof. intros s. split; (done || reflexivity). Qed.

Lemma st_le_noteSigned h msg : frame st_le (noteSigned h msg : M (St W E Db) unit).
Proof. intros s. split; [done|reflexivity..|]. simpl. by apply prefix_app_r. Qed.

Lemma st_le_must msg (m : M (St W E Db) unit) : frame st_le m → frame st_le (must msg m).
Proof. intros Hm. unfold must. frame_auto. Qed.

Lemma st_le_retry {A} (m : M (St W E Db) A) : frame st_le m → frame st_le (retry_Do RtyAttNum m).
Proof. intros Hm. apply frame_retry; [apply _|unfold RtyAttNum; lia|done]. Qed.
End st_le.

#[export] Hint Resolve st_le_onW st_le_onFm st_le_ins st_le_noteSigned : frame.
#[export] Hint Resolve st_le_must st_le_retry st_le_onE st_le_onDb st_le_onIns : frame.
#[export] Hint Resolve db_le_SetFpStatus db_le_SetFpLastVotedHeight
  db_le_SetFpLastProcessedHeight db_le_AddPubRandProofList : frame.

Section frames.
Context `{CryptoLaws} `{CodecLaws} `{BbnErrors} `{RetryGoLaws}.
Context {W E Db : Type} `{!ClientController W} `{!Env W}.
Context `{!EOTSManager E} `{!EOTSManagerLaws E} `{!Kvdb Db} `{!KvdbLaws Db}.

Abbreviation ST := (M (St W E Db)).

Lemma st_le_GetPubRandProof pr : frame st_le (onDb (GetPubRandProof pr) : ST bytes).
Proof. apply st_le_onDb. intros db. reflexivity. Qed.

Lemma st_le_GetPubRandProofList prs : frame st_le (onDb (GetPubRandProofList prs) : ST (list bytes)).
Proof. apply st_le_onDb. intros db. reflexivity. Qed.

Lemma st_le_setStatus st : frame st_le (setStatus st : ST unit).
Proof. unfold setStatus. frame_auto. apply st_le_onIns. by intros i. Qed.

Lemma st_le_setLastProcessedHeight h :
  is_u64 h → frame st_le (setLastProcessedHeight h : ST unit).
Proof. intros Hh. unfold setLastProcessedHeight. frame_auto. apply st_le_onIns. by intros i. Qed.

Lemma st_le_setLastProcessedAndVotedHeight h :
  is_u64 h → frame st_le (setLastProcessedAndVotedHeight h : ST unit).
Proof. intros Hh. unfold setLastProcessedAndVotedHeight. frame_auto. apply st_le_onIns. by intros i. Qed.
End frames.
