(* ===== verification/FpStateLock.v ===== *)
(** * FpStateLock: the setters of [fpState] side by side

    [fpState] of [src/finality-provider/service/fp_store_adapter.go] holds the
    finality provider in memory and its store. A setter writes the memory under
    the mutex [mu], releases it, and then writes the store in a transaction of
    its own. Here each call is these two actions, and the actions of several
    goroutines run in any order that keeps the order of each one. *)

From stdpp Require Import base gmap list strings pretty.
From Stdlib Require Import ZArith Lia.
From S2P Require Import Prelude Errors Monad Types Kvdb FpStore PubRandStore Metrics EotsManager.
From S2P Require Import Config ClientController Poller FpState.

(** ** Interleavings *)

(** [shuffle l1 l2 l]: [l] runs [l1] and [l2] side by side *)
Inductive shuffle {A} : list A → list A → list A → Prop :=
  | shuffle_nil : shuffle [] [] []
  | shuffle_l a l1 l2 l : shuffle l1 l2 l → shuffle (a :: l1) l2 (a :: l)
  | shuffle_r b l1 l2 l : shuffle l1 l2 l → shuffle l1 (b :: l2) (b :: l).

Section commute.
Context {A S : Type} (f : S → A → S).
Implicit Types (a b : A) (s : S).

Lemma fold_commute a l s :
  (∀ b s, b ∈ l → f (f s a) b = f (f s b) a) → foldl f (f s a) l = f (foldl f s l) a.
Proof.
  revert s. induction l as [|b l IH]; intros s Hc; [done|]. simpl.
  rewrite (Hc b s) by constructor. apply IH. intros b' s' Hb. apply Hc. by constructor.
Qed.

(** Two goroutines whose actions commute leave what they leave one after the
    other. *)
Lemma shuffle_fold l1 l2 l s :
  shuffle l1 l2 l → (∀ a b s, a ∈ l1 → b ∈ l2 → f (f s a) b = f (f s b) a) →
  foldl f s l = foldl f s (l1 ++ l2).
Proof.
  intros Hs. revert s. induction Hs as [|a l1 l2 l Hs IH|b l1 l2 l Hs IH]; intros s Hc; [done| |]; simpl.
  - apply IH. intros. apply Hc; [by constructor|done].
  - rewrite IH by (intros; apply Hc; [done|by constructor]). rewrite !foldl_app. simpl.
    f_equal. apply fold_commute. intros a s' Ha. symmetry. apply Hc; [done|constructor].
Qed.
End commute.

Lemma shuffle_Forall {A} (Q : A → Prop) l1 l2 l : shuffle l1 l2 l → Forall Q l1 → Forall Q l2 → Forall Q l.
Proof. induction 1; intros H1 H2; repeat constructor; decompose_Forall; eauto. Qed.

(** ** The adapter *)

Section FpStateLock.
Context `{Crypto} `{Codec} {Db : Type} `{!Kvdb Db}.

(** [fpState]; its mutex is held during a locked action only *)
Record fpState := mkFpState { fps_fp : StoredFinalityProvider; fps_s : Db; }.

Definition NewFpState (fp : StoredFinalityProvider) (s : Db) : fpState := mkFpState fp s.
Definition getStoreFinalityProvider (fps : fpState) : StoredFinalityProvider := fps_fp fps.

(** The calls of [setStatus], [setLastProcessedHeight] and
    [setLastProcessedAndVotedHeight] *)
Inductive write := WStatus (st : FinalityProviderStatus) | WProcessed (h : Z) | WVoted (h : Z).

(** What a setter does under the mutex *)
Definition write_fp (w : write) (fp : StoredFinalityProvider) : StoredFinalityProvider :=
  match w with
  | WStatus st => stored_with_status st fp
  | WProcessed h => stored_with_processed h fp
  | WVoted h => stored_with_processed h (stored_with_voted h fp)
  end.

(** The transaction after it *)
Definition write_db (w : write) (pk : PublicKey) : M Db unit :=
  match w with
  | WStatus st => SetFpStatus pk st
  | WProcessed h => SetFpLastProcessedHeight pk h
  | WVoted h => SetFpLastVotedHeight pk h
  end.

Inductive action := Locked (w : write) | Stored (w : write).

Definition act (a : action) : M fpState unit := λ fps,
  match a with
  | Locked w => (Ok tt, mkFpState (write_fp w (fps_fp fps)) (fps_s fps))
  | Stored w =>
      let '(r, s') := write_db w (s_BtcPk (fps_fp fps)) (fps_s fps) in (r, mkFpState (fps_fp fps) s')
  end.

Fixpoint acts (l : list action) : M fpState unit :=
  match l with [] => mret tt | a :: l => act a ;; acts l end.

(** A call, and the calls of a goroutine *)
Definition setter (w : write) : list action := [Locked w; Stored w].
Definition setters (ws : list write) : list action := ws ≫= setter.
End FpStateLock.
Arguments fpState {_ _} Db.

(** ** The setters of [FpState] *)

Section setters.
Context `{Crypto} `{Codec} `{BbnErrors} `{RetryGo}.
Context {W E Db : Type} `{!ClientController W} `{!Env W} `{!EOTSManager E} `{!Kvdb Db}.

(** The setter of [FpState] for a call *)
Definition set_state (w : write) : M (St W E Db) unit :=
  match w with
  | WStatus st => setStatus st
  | WProcessed h => setLastProcessedHeight h
  | WVoted h => setLastProcessedAndVotedHeight h
  end.

(** A setter that nothing interrupts is its two actions. *)
Lemma setter_acts w s :
  set_state w s =
    (let r := acts (setter w) (NewFpState (i_fp (st_ins s)) (st_db s)) in
     (r.1, st_set_db (fps_s r.2) (st_set_ins (set_fp (fps_fp r.2) (st_ins s)) s))).
Proof.
  destruct w; simpl; unfold setStatus, setLastProcessedHeight, setLastProcessedAndVotedHeight, act, mbind, M_bind,
    onIns, modify, ins, gets, onDb, zoom, GetBtcPk; simpl; unfold SetFpStatus, SetFpLastProcessedHeight, SetFpLastVotedHeight;
    by destruct (setFinalityProviderState _ _ _) as [[[]| | |] ?].
Qed.
End setters.

(** ** The abstract adapter *)

Section theorems.
Context `{CryptoLaws} `{CodecLaws} {Db : Type} `{!Kvdb Db} `{!KvdbLaws Db} `{!KvdbReliable Db}.
Implicit Types (fps : fpState Db) (sfp : StoredFinalityProvider) (fp : FinalityProvider)
  (m : gmap bytes FinalityProvider) (w : write) (l : list action).

Definition write_record w fp : FinalityProvider :=
  match w with
  | WStatus st => fp_with_status st fp
  | WProcessed h => raise_processed h fp
  | WVoted h => raise_voted h fp
  end.

Definition write_op w (pk : PublicKey) : fps_op :=
  match w with
  | WStatus st => OpSetStatus pk st
  | WProcessed h => OpSetProcessed pk h
  | WVoted h => OpSetVoted pk h
  end.

(** The memory and the record of the store at [k] *)
Definition abs_act (x : StoredFinalityProvider * FinalityProvider) (a : action) :=
  match a with
  | Locked w => (write_fp w x.1, x.2)
  | Stored w => (x.1, write_record w x.2)
  end.

(** The provider's record can be encoded, whatever its status and heights. *)
Definition encodes fp : Prop :=
  ∀ st v p, ∃ b, pm_Marshal (fp_with_status st (fp_with_voted v (fp_with_processed p fp))) = Ok b.

Definition write_wf w : Prop := match w with WProcessed h | WVoted h => is_u64 h | WStatus _ => True end.
Definition action_wf (a : action) : Prop := match a with Locked w | Stored w => write_wf w end.

Lemma encodes_here fp : encodes fp → ∃ b, pm_Marshal fp = Ok b.
Proof. intros He. destruct (He (Status fp) (LastVotedHeight fp) (LastProcessedHeight fp)) as [b Hb]. by destruct fp; eauto. Qed.

Lemma encodes_write w fp : encodes fp → encodes (write_record w fp).
Proof. intros He st v p. destruct w; apply He. Qed.

Lemma stored_key_write w sfp : stored_key (write_fp w sfp) = stored_key sfp.
Proof. by destruct w. Qed.

(** The store agrees with the records: the one of the provider is [fp]. *)
Definition holds (k : bytes) fp m (db : Db) : Prop := store_wf db ∧ fps_abs db (<[k := fp]> m).

Lemma write_db_spec w pk fp m db :
  write_wf w → encodes fp → holds (SerializePubKey pk) fp m db →
  ∃ db', write_db w pk db = (Ok tt, db') ∧ holds (SerializePubKey pk) (write_record w fp) m db'.
Proof.
  intros Hw He [Hwf Habs].
  assert (fps_spec (write_op w pk) (<[SerializePubKey pk := fp]> m) =
    (Ok tt, <[SerializePubKey pk := write_record w fp]> m)) as Hspec.
  { destruct w; simpl; unfold spec_update; by rewrite lookup_insert_eq, insert_insert_eq. }
  destruct (fps_run_refines (write_op w pk) db (<[SerializePubKey pk := fp]> m)) as (m' & Hm' & Habs').
  - by destruct w.
  - done.
  - done.
  - intros m1 fp1 Hs1 Hl1. rewrite Hspec in Hs1. injection Hs1 as <-.
    replace (op_key (write_op w pk)) with (SerializePubKey pk) in Hl1 by (by destruct w).
    rewrite lookup_insert_eq in Hl1. injection Hl1 as <-. by apply encodes_here, encodes_write.
  - assert (fps_run (write_op w pk) db = write_db w pk db) as Hrun by (by destruct w).
    assert (store_wf (write_db w pk db).2) as Hwf'.
    { rewrite <-Hrun. apply fps_run_wf; [by destruct w|done]. }
    rewrite Hrun, Hspec in *. destruct (write_db w pk db) as [o db']. simpl in *. simplify_eq.
    by exists db'.
Qed.

Lemma acts_spec l sfp fp m db :
  Forall action_wf l → encodes fp → holds (stored_key sfp) fp m db →
  ∃ db', acts l (mkFpState sfp db) = (Ok tt, mkFpState (foldl abs_act (sfp, fp) l).1 db') ∧
    holds (stored_key sfp) (foldl abs_act (sfp, fp) l).2 m db'.
Proof.
  intros Hl. revert sfp fp db. induction Hl as [|a l Ha _ IH]; intros sfp fp db He Hh; [by exists db|].
  destruct a as [w|w]; simpl.
  - destruct (IH (write_fp w sfp) fp db He) as (db' & Hr & Hh'); [by rewrite stored_key_write|].
    rewrite stored_key_write in Hh'. exists db'. by rewrite <-Hr.
  - destruct (write_db_spec w (s_BtcPk sfp) fp m db Ha He Hh) as (db1 & Hr1 & Hh1).
    destruct (IH sfp (write_record w fp) db1 (encodes_write w fp He) Hh1) as (db' & Hr & Hh').
    exists db'. split; [|done]. unfold mbind, M_bind, act. simpl. by rewrite Hr1, <-Hr.
Qed.

(** ** Writers of different fields *)

Definition is_status w : bool := match w with WStatus _ => true | _ => false end.
Definition of_status (a : action) : bool := match a with Locked w | Stored w => is_status w end.

Lemma status_commutes a b x :
  of_status a = true → of_status b = false → abs_act (abs_act x a) b = abs_act (abs_act x b) a.
Proof. by destruct a as [[]|[]], b as [[]|[]]. Qed.

Lemma setters_in (Q : write → Prop) ws a :
  Forall Q ws → a ∈ setters ws → ∃ w, Q w ∧ (a = Locked w ∨ a = Stored w).
Proof.
  intros HQ (w & Ha & Hw)%list_elem_of_bind. exists w. rewrite Forall_forall in HQ. split; [by apply HQ|].
  set_solver.
Qed.

(** After whole calls the memory and the record have the same status. *)
Lemma setters_agree ws sfp fp :
  s_Status sfp = Status fp →
  s_Status (foldl abs_act (sfp, fp) (setters ws)).1 = Status (foldl abs_act (sfp, fp) (setters ws)).2.
Proof.
  revert sfp fp. induction ws as [|w ws IH]; intros sfp fp Hs; [done|]. simpl. apply IH. by destruct w.
Qed.

Lemma setters_app ws ws' : setters ws ++ setters ws' = setters (ws ++ ws').
Proof. unfold setters. by rewrite bind_app. Qed.

Lemma setters_wf ws : Forall write_wf ws → Forall action_wf (setters ws).
Proof.
  intros Hw. apply Forall_forall. intros a Ha.
  by destruct (setters_in _ _ _ Hw Ha) as (w & Hq & [->| ->]).
Qed.

(** C15: the status and the heights of a provider are written by different
    goroutines, and their setters linearize: whatever way the critical
    sections and the transactions of one writer of statuses and one writer of
    heights interleave, on a healthy database all of them succeed, the memory
    and the store are as if the calls had run one after the other, and both
    have the same status. *)
Theorem setters_linearize sfp fp m db (ss hs : list write) l :
  Forall (λ w, is_status w = true) ss → Forall (λ w, is_status w = false ∧ write_wf w) hs →
  shuffle (setters ss) (setters hs) l →
  encodes fp → holds (stored_key sfp) fp m db → s_Status sfp = Status fp →
  ∃ fps1 fps2 fp',
    acts l (NewFpState sfp db) = (Ok tt, fps1) ∧
    acts (setters (ss ++ hs)) (NewFpState sfp db) = (Ok tt, fps2) ∧
    getStoreFinalityProvider fps1 = getStoreFinalityProvider fps2 ∧
    (∀ k, fp_lookup (fps_s fps1) k = fp_lookup (fps_s fps2) k) ∧
    fp_lookup (fps_s fps1) (stored_key sfp) = Some fp' ∧
    s_Status (getStoreFinalityProvider fps1) = Status fp'.
Proof.
  intros Hss Hhs Hl He Hh Hst.
  assert (Forall write_wf (ss ++ hs)) as Hwf.
  { apply Forall_app. split; [|by eapply Forall_impl; [exact Hhs|intros w [_ ?]]].
    eapply Forall_impl; [exact Hss|]. by intros []. }
  assert (Forall action_wf l) as Hlw.
  { apply Forall_app in Hwf as [? ?]. eapply shuffle_Forall; [done|by apply setters_wf..]. }
  assert (foldl abs_act (sfp, fp) l = foldl abs_act (sfp, fp) (setters (ss ++ hs))) as Heq.
  { rewrite <-setters_app. apply (shuffle_fold abs_act); [done|]. intros a b x Ha Hb.
    destruct (setters_in _ _ _ Hss Ha) as (w & Hw & Haw), (setters_in _ _ _ Hhs Hb) as (w' & [Hw' _] & Hbw).
    apply status_commutes; [by destruct Haw as [->| ->]|by destruct Hbw as [->| ->]]. }
  destruct (acts_spec l sfp fp m db Hlw He Hh) as (db1 & Hr1 & _ & Ha1).
  destruct (acts_spec (setters (ss ++ hs)) sfp fp m db (setters_wf _ Hwf) He Hh) as (db2 & Hr2 & _ & Ha2).
  pose proof (setters_agree (ss ++ hs) sfp fp Hst) as Hag. rewrite <-Heq in Hr2, Ha2, Hag.
  eexists _, _, _. split_and!; [exact Hr1|exact Hr2|done| | |exact Hag].
  - intros k. simpl. by rewrite (Ha1 k), (Ha2 k).
  - simpl. by rewrite (Ha1 _), lookup_insert_eq.
Qed.

(** C39: two goroutines that set the status do not linearize: the mutex is
    released before the transaction, so the memory can keep the status of the
    second call while the store has the one of the first, for any two statuses
    and any stored provider. *)
Theorem status_setters_can_disagree sfp fp m db st1 st2 :
  encodes fp → holds (stored_key sfp) fp m db →
  ∃ l fps fp', shuffle (setters [WStatus st1]) (setters [WStatus st2]) l ∧
    acts l (NewFpState sfp db) = (Ok tt, fps) ∧
    s_Status (getStoreFinalityProvider fps) = st2 ∧
    fp_lookup (fps_s fps) (stored_key sfp) = Some fp' ∧ Status fp' = st1.
Proof.
  intros He Hh. set (l := [Locked (WStatus st1); Locked (WStatus st2); Stored (WStatus st2); Stored (WStatus st1)]).
  destruct (acts_spec l sfp fp m db) as (db' & Hr & _ & Ha); [by repeat constructor|done|done|].
  eexists l, _, _. split_and!; [repeat constructor|exact Hr|done|simpl; by rewrite (Ha _), lookup_insert_eq|done].
Qed.
End theorems.
