(* ===== verification/Returns.v ===== *)
(** * Returns: which operations return

    An operation returns when its outcome is a value, an error or the end of
    the process, and not the end of its fuel. The classes state it of the
    calls into the libraries, the network and the disk; the lemmas propagate
    it to the operations of the stores, of the EOTS manager and of an
    instance. The termination theorems of the loops in [Voting] and
    [FastSync] rest on them. *)

From stdpp Require Import base gmap list strings.
From Stdlib Require Import ZArith Lia.
From S2P Require Import Prelude Errors Monad Types Kvdb FpStore PubRandStore Metrics EotsManager.
From S2P Require Import Config ClientController Poller FpState.

Definition answers {A} (o : outcome A) : Prop := o ≠ OutOfFuel.
Definition returns {S A} (m : M S A) : Prop := ∀ s, answers (m s).1.

(** ** The structure of computations *)

Lemma answers_bind {A B} (o : outcome A) (k : A → outcome B) :
  answers o → (∀ a, answers (k a)) → answers (o ≫= k).
Proof. intros Ho Hk. by destruct o; simpl. Qed.

Lemma answers_wrap_err {A} pre (o : outcome A) : answers o → answers (wrap_err pre o).
Proof. by destruct o. Qed.

Lemma answers_replace_err {A} e (o : outcome A) : answers o → answers (replace_err e o).
Proof. by destruct o. Qed.

Section returns.
Context {S : Type}.

Lemma returns_bind {A B} (m : M S A) (k : A → M S B) :
  returns m → (∀ a, returns (k a)) → returns (m ≫= k).
Proof.
  intros Hm Hk s. unfold mbind, M_bind. specialize (Hm s).
  destruct (m s) as [[a| | |] s']; [apply Hk|done..].
Qed.

Lemma returns_lift {A} (o : outcome A) : answers o → returns (lift o : M S A).
Proof. by intros Ho s. Qed.

Lemma returns_attempt {A} (m : M S A) : returns m → returns (attempt m).
Proof. intros Hm s. unfold attempt. specialize (Hm s). by destruct (m s) as [[] ?]. Qed.

Lemma returns_wrapping {A} pre (m : M S A) : returns m → returns (wrapping pre m).
Proof. intros Hm s. unfold wrapping. specialize (Hm s). by destruct (m s) as [[] ?]. Qed.

Lemma returns_formatting {A} pre (m : M S A) : returns m → returns (formatting pre m).
Proof. intros Hm s. unfold formatting. specialize (Hm s). by destruct (m s) as [[] ?]. Qed.

Lemma returns_deferring {A} f (m : M S A) s : answers (m s).1 → answers (deferring f m s).1.
Proof. unfold deferring. by destruct (m s) as [[] ?]. Qed.

Lemma returns_zoom {T A} (g : T → S) st (m : M S A) : returns m → returns (zoom g st m).
Proof. intros Hm t. apply Hm. Qed.

Lemma returns_mapMM {A B} (f : A → M S B) l : (∀ a, returns (f a)) → returns (mapMM f l).
Proof.
  intros Hf. induction l as [|a l IH]; simpl; [done|].
  apply returns_bind; [done|]. intros b. by apply returns_bind.
Qed.

Lemma returns_retry `{RetryGoLaws} {A} n (f : M S A) :
  (1 <= n)%Z → returns f → returns (retry_Do n f).
Proof.
  intros Hn Hf s. apply (retry_Do_ind f (λ _ r, answers r.1)); [done| |done|done].
  intros s0 r <-. specialize (Hf s0). by destruct (f s0) as [[] ?].
Qed.
End returns.

Create HintDb returns.

(** Proves that a computation returns, by its structure; the leaves come
    from the hint database [returns]. *)
Ltac returns_step :=
  match goal with
  | |- answers (Ok _) => done
  | |- answers (Err _) => done
  | |- answers (Fatal _) => done
  | |- answers (mbind _ _) => apply answers_bind; [|intros]
  | |- answers (wrap_err _ _) => apply answers_wrap_err
  | |- answers (replace_err _ _) => apply answers_replace_err
  | |- answers (match ?x with _ => _ end) => destruct x
  | |- answers _ => solve [eauto 3 with returns]
  | |- returns (mbind _ _) => apply returns_bind; [|intros]
  | |- returns (mret _) => done
  | |- returns (throw _) => done
  | |- returns (fatal _) => done
  | |- returns (gets _) => done
  | |- returns (modify _) => done
  | |- returns (effect _) => done
  | |- returns (lift _) => apply returns_lift
  | |- returns (attempt _) => apply returns_attempt
  | |- returns (wrapping _ _) => apply returns_wrapping
  | |- returns (formatting _ _) => apply returns_formatting
  | |- returns (mapMM _ _) => apply returns_mapMM; intros
  | |- returns (match ?x with _ => _ end) => destruct x
  | |- returns _ => solve [eauto 3 with returns]
  | |- returns (zoom _ _ _) => apply returns_zoom
  end.
Ltac returns_auto := repeat returns_step.

(** ** The calls that return *)

Class CryptoReturns `{Crypto} : Prop := {
  MustMarshal_answers b : answers (MustMarshal b);
  SchnorrPubRand_MustMarshal_answers v : answers (SchnorrPubRand_MustMarshal v);
  proof_Marshal_answers p : answers (proof_Marshal p);
  eots_Sign_answers sk r m : answers (eots_Sign sk r m);
  schnorr_Sign_answers sk m : answers (schnorr_Sign sk m);
}.

Class KvdbReturns (Db : Type) `{Kvdb Db} : Prop := {
  Batch_returns f : (∀ tx, answers (f tx)) → returns (Batch f);
  View_answers A (f : Db → outcome A) db : (∀ tx, answers (f tx)) → answers (View f db);
  bucket_Put_answers n k v tx : answers (bucket_Put n k v tx);
}.

Class KeyringReturns (KR : Type) `{Keyring KR} : Prop := {
  kr_Key_returns name : returns (kr_Key name);
}.

Class EOTSManagerReturns (E : Type) `{EOTSManager E} : Prop := {
  em_CreateRandomnessPairList_returns uid ch h n p : returns (em_CreateRandomnessPairList uid ch h n p);
  em_SignEOTS_returns uid ch m h p : returns (em_SignEOTS uid ch m h p);
  em_SignSchnorrSig_returns uid m p : returns (em_SignSchnorrSig uid m p);
}.

(** The calls of the voting and the randomness operations; each has a
    timeout in the client. *)
Class ClientControllerReturns (W : Type) `{ClientController W} : Prop := {
  cc_CommitPubRandList_returns pk h n c sg : returns (cc_CommitPubRandList pk h n c sg);
  cc_SubmitFinalitySig_returns pk b pr p sg : returns (cc_SubmitFinalitySig pk b pr p sg);
  cc_SubmitBatchFinalitySigs_returns pk bs prs ps sgs :
    returns (cc_SubmitBatchFinalitySigs pk bs prs ps sgs);
  cc_QueryFinalityProviderVotingPower_returns pk h : returns (cc_QueryFinalityProviderVotingPower pk h);
  cc_QueryLastCommittedPublicRand_returns pk n : returns (cc_QueryLastCommittedPublicRand pk n);
  cc_QueryLatestFinalizedBlocks_returns n : returns (cc_QueryLatestFinalizedBlocks n);
  cc_QueryBlock_returns h : returns (cc_QueryBlock h);
  cc_QueryBlocks_returns a b n : returns (cc_QueryBlocks a b n);
}.

#[export] Hint Resolve MustMarshal_answers SchnorrPubRand_MustMarshal_answers proof_Marshal_answers
  eots_Sign_answers schnorr_Sign_answers bucket_Put_answers kr_Key_returns : returns.
#[export] Hint Resolve em_CreateRandomnessPairList_returns em_SignEOTS_returns
  em_SignSchnorrSig_returns : returns.
#[export] Hint Resolve cc_CommitPubRandList_returns cc_SubmitFinalitySig_returns
  cc_SubmitBatchFinalitySigs_returns cc_QueryFinalityProviderVotingPower_returns
  cc_QueryLastCommittedPublicRand_returns cc_QueryLatestFinalizedBlocks_returns
  cc_QueryBlock_returns cc_QueryBlocks_returns : returns.

(** ** The stores *)

Section stores.
Context `{Crypto} `{!CryptoReturns} `{CodecLaws} {Db : Type} `{Kvdb Db} `{!KvdbReturns Db}.

Lemma pm_Marshal_answers fp : answers (pm_Marshal fp).
Proof. by destruct (pm_Marshal_returns fp) as [[? ->]|[? ->]]. Qed.

Lemma pm_Unmarshal_answers b : answers (pm_Unmarshal b).
Proof. by destruct (pm_Unmarshal_returns b) as [[? ->]|[? ->]]. Qed.

#[local] Hint Resolve pm_Marshal_answers pm_Unmarshal_answers : returns.

Lemma returns_setState pk f :
  (∀ fp, answers (f fp)) → returns (setFinalityProviderState pk f : M Db unit).
Proof.
  intros Hf. apply Batch_returns. intros tx. unfold saveFinalityProvider. returns_auto.
Qed.

Lemma returns_SetFpLastVotedHeight pk h : returns (SetFpLastVotedHeight pk h : M Db unit).
Proof. by apply returns_setState. Qed.

Lemma returns_SetFpLastProcessedHeight pk h : returns (SetFpLastProcessedHeight pk h : M Db unit).
Proof. by apply returns_setState. Qed.

Lemma answers_encodeProofs prs proofs : answers (encodeProofs prs proofs).
Proof. revert proofs. induction prs as [|pr prs IH]; intros [|p ps]; simpl; returns_auto; auto. Qed.

Lemma answers_putProofs pairs (tx : Db) : answers (putProofs pairs tx).
Proof. revert tx. induction pairs as [|[k v] pairs IH]; intros tx; simpl; returns_auto; auto. Qed.

Lemma answers_getProofs keys (tx : Db) : answers (getProofs keys tx).
Proof. induction keys as [|k keys IH]; simpl; returns_auto; auto. Qed.

#[local] Hint Resolve answers_encodeProofs answers_putProofs answers_getProofs : returns.

Lemma returns_AddPubRandProofList prs proofs : returns (AddPubRandProofList prs proofs : M Db unit).
Proof. unfold AddPubRandProofList. returns_auto. apply Batch_returns. intros tx. returns_auto. Qed.

Lemma returns_GetPubRandProof pr : returns (GetPubRandProof pr : M Db bytes).
Proof. intros db. apply View_answers. intros tx. returns_auto. Qed.

Lemma returns_GetPubRandProofList prs : returns (GetPubRandProofList prs : M Db (list bytes)).
Proof. intros db. apply View_answers. intros tx. returns_auto. Qed.

Lemma returns_GetEOTSKeyName pk : returns (GetEOTSKeyName pk : M Db string).
Proof. intros db. apply View_answers. intros tx. returns_auto. Qed.

Lemma answers_GetPubRandCommitAndProofs prs : answers (GetPubRandCommitAndProofs prs).
Proof.
  unfold GetPubRandCommitAndProofs. returns_auto.
  induction prs as [|pr prs IH]; simpl; returns_auto; auto.
Qed.
End stores.

#[export] Hint Resolve returns_SetFpLastVotedHeight returns_SetFpLastProcessedHeight
  returns_AddPubRandProofList returns_GetPubRandProof returns_GetPubRandProofList
  returns_GetEOTSKeyName answers_GetPubRandCommitAndProofs : returns.

(** ** The local EOTS manager *)

Section local_manager.
Context `{Crypto} `{!CryptoReturns} {KR Db Rnd : Type} `{!Keyring KR} `{!KeyringReturns KR}.
Context `{!Kvdb Db} `{!KvdbReturns Db} `{!Bip39 Rnd}.
Abbreviation LM := (M (LocalEOTSManager KR Db Rnd)).

Lemma returns_getEOTSPrivKey pk p : returns (getEOTSPrivKey pk p : LM PrivateKey).
Proof. unfold getEOTSPrivKey, onEs, onKr, eotsPrivKeyFromRecord. returns_auto. Qed.

Lemma returns_getRandomnessPair pk ch h p :
  returns (getRandomnessPair pk ch h p : LM (ModNScalar * FieldVal)).
Proof.
  unfold getRandomnessPair, lm_KeyRecord, onEs. returns_auto. apply returns_getEOTSPrivKey.
Qed.

Lemma returns_randomnessLoop pk ch h p k i :
  returns (randomnessLoop pk ch h p i k : LM (list FieldVal)).
Proof.
  revert i. induction k as [|k IH]; intros i; simpl; returns_auto; apply returns_getRandomnessPair.
Qed.

#[export] Instance local_manager_returns : EOTSManagerReturns (LocalEOTSManager KR Db Rnd).
Proof.
  pose proof returns_getEOTSPrivKey. pose proof returns_getRandomnessPair.
  pose proof returns_randomnessLoop. split; simpl.
  - intros. unfold lm_CreateRandomnessPairList, onMetrics. returns_auto.
  - intros. unfold lm_SignEOTS, onMetrics. returns_auto.
  - intros. unfold lm_SignSchnorrSig, signSchnorrSigFromPrivKey, onMetrics. returns_auto.
Qed.
End local_manager.

(** ** The operations of an instance *)

Section instance.
Context `{Crypto} `{!CryptoReturns} `{CodecLaws} `{BbnErrors} `{RetryGoLaws}.
Context {W E Db : Type} `{!ClientController W} `{!ClientControllerReturns W} `{!Env W}.
Context `{!EOTSManager E} `{!EOTSManagerReturns E} `{!Kvdb Db} `{!KvdbReturns Db}.
Abbreviation ST := (M (St W E Db)).

Lemma returns_onW {A} (m : M W A) : returns m → returns (onW m : ST A).
Proof. apply returns_zoom. Qed.

Lemma returns_onE {A} (m : M E A) : returns m → returns (onE m : ST A).
Proof. apply returns_zoom. Qed.

Lemma returns_onDb {A} (m : M Db A) : returns m → returns (onDb m : ST A).
Proof. apply returns_zoom. Qed.

Lemma returns_effect {A} (f : W → A * W) : returns (onW (effect f) : ST A).
Proof. by intros s. Qed.

Lemma returns_onFm f : returns (onFm f : ST unit).
Proof. by intros s. Qed.

Lemma returns_onIns f : returns (onIns f : ST unit).
Proof. by intros s. Qed.

Lemma returns_ins {A} (f : FinalityProviderInstance → A) : returns (ins f : ST A).
Proof. by intros s. Qed.

Lemma returns_noteSigned h m : returns (noteSigned h m : ST unit).
Proof. by intros s. Qed.

#[local] Hint Resolve returns_onW returns_onE returns_onDb returns_effect returns_onFm returns_onIns
  returns_ins returns_noteSigned : returns.

Lemma returns_must msg (m : ST unit) : returns m → returns (must msg m).
Proof. intros Hm. unfold must. returns_auto. Qed.

Lemma returns_retryW {A} (m : M W A) : returns m → returns (retry_Do RtyAttNum (onW m) : ST A).
Proof. intros Hm. apply returns_retry; [unfold RtyAttNum; lia|by apply returns_onW]. Qed.

#[local] Hint Resolve returns_must returns_retryW : returns.

Lemma returns_MustSetLastProcessedHeight h : returns (MustSetLastProcessedHeight h : ST unit).
Proof.
  unfold MustSetLastProcessedHeight, setLastProcessedHeight. apply returns_bind; [apply returns_must|]; intros;
    returns_auto.
Qed.

Lemma returns_MustUpdateState h : returns (MustUpdateStateAfterFinalitySigSubmission h : ST unit).
Proof.
  unfold MustUpdateStateAfterFinalitySigSubmission, setLastProcessedAndVotedHeight.
  apply returns_bind; [apply returns_must|]; intros; returns_auto.
Qed.

Lemma returns_getPubRandList h n : returns (getPubRandList h n : ST (list FieldVal)).
Proof. unfold getPubRandList. returns_auto. Qed.

Lemma returns_signPubRandCommit h n c : returns (signPubRandCommit h n c : ST SchnorrSig).
Proof. unfold signPubRandCommit. returns_auto. Qed.

Lemma returns_signFinalitySig b : returns (signFinalitySig b : ST bytes).
Proof. unfold signFinalitySig. returns_auto. Qed.

Lemma returns_GetLastCommittedHeight : returns (GetLastCommittedHeight : ST Z).
Proof. unfold GetLastCommittedHeight, lastCommittedPublicRandWithRetry. returns_auto. Qed.

Lemma returns_hasVotingPower b : returns (hasVotingPower b : ST bool).
Proof. unfold hasVotingPower, GetVotingPowerWithRetry. returns_auto. Qed.

Lemma returns_checkBlockFinalization h : returns (checkBlockFinalization h : ST bool).
Proof. unfold checkBlockFinalization. returns_auto. Qed.
End instance.

#[export] Hint Resolve returns_onW returns_onE returns_onDb returns_effect returns_onFm returns_onIns
  returns_ins returns_noteSigned returns_must returns_retryW returns_MustSetLastProcessedHeight
  returns_MustUpdateState returns_getPubRandList returns_signPubRandCommit returns_signFinalitySig
  returns_GetLastCommittedHeight returns_hasVotingPower returns_checkBlockFinalization : returns.
