(* ===== verification/Voting.v ===== *)
(** * Voting: finality signatures and public randomness commitments

    Models the part of [src/finality-provider/service/fp_instance.go] that
    signs and submits: [SubmitFinalitySignature], the batch version of it,
    [CommitPubRand], and the two loops that retry them until the target block
    is finalized. The loops take fuel; [retry_loops_terminate] shows that
    MaxSubmissionRetries + 1 turns are enough. *)

From stdpp Require Import base gmap list strings pretty.
From Stdlib Require Import ZArith Lia.
From S2P Require Import Prelude Errors Monad Types Kvdb FpStore PubRandStore Metrics EotsManager.
From S2P Require Import Config ClientController Poller FpState Returns.

(** The decoding of slashing evidence and the extraction of the private key
    from it: [jsonpb.UnmarshalString] and [ExtractBTCSK] *)
Class Evidence `{Crypto} := {
  evidence : Type;
  evidence_Unmarshal : string → outcome evidence;
  ExtractBTCSK : evidence → outcome PrivateKey;
}.

Section Voting.
Context `{Crypto} `{Codec} `{BbnErrors} `{RetryGo}.
Context {W E Db : Type} `{!ClientController W} `{!Env W} `{!EOTSManager E} `{!Kvdb Db}.

Abbreviation ST := (M (St W E Db)).

Definition index0 {A} (l : list A) : ST A :=
  match l with [] => fatal "index out of range [0] with length 0" | a :: _ => mret a end.

(** [CommitPubRand] once the start height is chosen *)
Definition commitPubRandFrom (startHeight lastCommittedHeight : Z) : ST TxResponse :=
  i ← ins id;
  pubRandList ← wrapping "failed to generate randomness: "
                  (getPubRandList startHeight (NumPubRand (i_cfg i)));
  let numPubRand := Z.of_nat (length pubRandList) in
  cp ← lift (GetPubRandCommitAndProofs pubRandList);
  wrapping "failed to save public randomness to DB: "
    (onDb (AddPubRandProofList pubRandList cp.2)) ;;
  schnorrSig ← wrapping "failed to sign the Schnorr signature: "
                 (signPubRandCommit startHeight numPubRand cp.1);
  res ← wrapping "failed to commit public randomness to the consumer chain: "
          (onW (cc_CommitPubRandList (GetBtcPk i) startHeight numPubRand cp.1 schnorrSig));
  now ← onW (effect time_Now);
  onFm (RecordFpRandomnessTime now (GetBtcPkHex i)) ;;
  onFm (RecordFpLastCommittedRandomnessHeight (GetBtcPkHex i) lastCommittedHeight) ;;
  onFm (AddToFpTotalCommittedRandomness (GetBtcPkHex i) numPubRand) ;;
  mret res.

Definition CommitPubRand (tipHeight : Z) : ST (option TxResponse) :=
  lastCommittedHeight ← GetLastCommittedHeight;
  cfg ← ins i_cfg;
  if (lastCommittedHeight =? 0)%Z
  then res ← commitPubRandFrom (u64 (tipHeight + 1)) lastCommittedHeight; mret (Some res)
  else if (lastCommittedHeight <? u64 (MinRandHeightGap cfg + tipHeight))%Z
  then res ← commitPubRandFrom (u64 (lastCommittedHeight + 1)) lastCommittedHeight; mret (Some res)
  else mret None.

Definition SubmitFinalitySignature (b : BlockInfo) : ST TxResponse :=
  sig ← signFinalitySig b;
  prList ← formatting "failed to get public randomness list: " (getPubRandList (Height b) 1);
  pubRand ← index0 prList;
  i ← ins id;
  proofBytes ← wrapping ("failed to get inclusion proof of public randomness " +:+
                 hex_EncodeToString (FieldVal_Bytes pubRand) +:+ " for FP " +:+
                 MarshalHex (i_btcPk i) +:+ " for block " +:+ pretty (Height b) +:+ ": ")
                 (onDb (GetPubRandProof pubRand));
  res ← wrapping "failed to send finality signature to the consumer chain: "
          (onW (cc_SubmitFinalitySig (GetBtcPk i) b pubRand proofBytes (ToModNScalar sig)));
  MustUpdateStateAfterFinalitySigSubmission (Height b) ;;
  now ← onW (effect time_Now);
  onFm (RecordFpVoteTime now (GetBtcPkHex i)) ;;
  onFm (IncrementFpTotalVotedBlocks (GetBtcPkHex i)) ;;
  mret res.

(** [clientcontroller.SubmitBatchFinalitySigs] failed: the text decides *)
Definition batchError (err : error) : error :=
  if Contains (Error err) "jailed" then Sentinel ErrFinalityProviderJailed
  else if Contains (Error err) "slashed" then Sentinel ErrFinalityProviderSlashed
  else err.

Definition signBlocks (blocks : list BlockInfo) : ST (list ModNScalar) :=
  mapMM (λ b, eotsSig ← signFinalitySig b; mret (ToModNScalar eotsSig)) blocks.

Definition SubmitBatchFinalitySignatures (blocks : list BlockInfo) : ST TxResponse :=
  match blocks with
  | [] => throw (ErrorString "should not submit batch finality signature with zero block")
  | b0 :: rest =>
      if (MaxUint32 <? Z.of_nat (length blocks))%Z
      then throw (ErrorString "should not submit batch finality signature with too many blocks")
      else
        prList ← formatting "failed to get public randomness list: "
                   (getPubRandList (Height b0) (u32 (Z.of_nat (length blocks))));
        proofBytesList ← formatting "failed to get public randomness inclusion proof list: "
                           (onDb (GetPubRandProofList prList));
        sigList ← signBlocks blocks;
        i ← ins id;
        r ← attempt (onW (cc_SubmitBatchFinalitySigs (GetBtcPk i) blocks prList proofBytesList sigList));
        match r with
        | inl err => throw (batchError err)
        | inr res =>
            MustUpdateStateAfterFinalitySigSubmission (Height (List.last blocks b0)) ;;
            mret res
        end
  end.

(** The two retry loops have the same [select] at the end of a turn: wait
    for the retry interval or for [quit], then look whether the block is
    finalized. *)
Definition awaitRetry {A} (targetHeight : Z) (onQuit finalized again : ST A) : ST A :=
  quit ← onW (effect select_quit);
  if (quit : bool) then onQuit
  else
    fin ← wrapping ("failed to query block finalization at height " +:+ pretty targetHeight +:+ ": ")
            (checkBlockFinalization targetHeight);
    if (fin : bool) then finalized else again.

Fixpoint retrySubmitFinalitySignatureUntilBlockFinalized (fuel : nat) (failedCycles : Z)
    (targetBlock : BlockInfo) : ST (option TxResponse) :=
  match fuel with
  | O => outOfFuel
  | S fuel =>
      r ← attempt (SubmitFinalitySignature targetBlock);
      match r with
      | inr res => mret (Some res)
      | inl err =>
          if IsUnrecoverable err then throw err
          else if IsExpected err then mret None
          else
            let failedCycles := u32 (failedCycles + 1) in
            i ← ins id;
            if (MaxSubmissionRetries (i_cfg i) <? failedCycles)%Z
            then throw (Wrap "reached max failed cycles with err: " err "")
            else awaitRetry (Height targetBlock)
                   (throw (Sentinel ErrFinalityProviderShutDown)) (mret None)
                   (retrySubmitFinalitySignatureUntilBlockFinalized fuel failedCycles targetBlock)
      end
  end.

Fixpoint retryCommitPubRandUntilBlockFinalized (fuel : nat) (failedCycles : Z)
    (targetBlock : BlockInfo) : ST (option TxResponse) :=
  match fuel with
  | O => outOfFuel
  | S fuel =>
      r ← attempt (CommitPubRand (Height targetBlock));
      match r with
      | inr res => mret res
      | inl err =>
          if IsUnrecoverable err then throw err
          else
            let failedCycles := u32 (failedCycles + 1) in
            i ← ins id;
            if (MaxSubmissionRetries (i_cfg i) <? failedCycles)%Z
            then throw (Wrap "reached max failed cycles with err: " err "")
            else awaitRetry (Height targetBlock) (mret None) (mret None)
                   (retryCommitPubRandUntilBlockFinalized fuel failedCycles targetBlock)
      end
  end.

(** The slashing event of a transaction, if any *)
Fixpoint extractFromEvents `{!Evidence} (evs : list RelayerEvent) : outcome (option PrivateKey) :=
  match evs with
  | [] => Ok None
  | ev :: evs =>
      if Contains (EventType ev) "EventSlashedFinalityProvider"
      then
        let evidenceStr :=
          default "" (snd <$> (list_find (λ kv, kv.1 = "evidence") (Attributes ev) ≫= λ ikv, Some ikv.2)) in
        match evidence_Unmarshal evidenceStr with
        | Ok evd =>
            match ExtractBTCSK evd with
            | Ok sk => Ok (Some sk)
            | Err e => Err (ErrorString ("failed to extract private key: " +:+ Error e))
            | Fatal m => Fatal m
            | OutOfFuel => OutOfFuel
            end
        | Err e => Err (ErrorString ("failed to decode evidence bytes to evidence: " +:+ Error e))
        | Fatal m => Fatal m
        | OutOfFuel => OutOfFuel
        end
      else extractFromEvents evs
  end.

Definition TestSubmitFinalitySignatureAndExtractPrivKey `{!Evidence} (b : BlockInfo)
    : ST (TxResponse * option PrivateKey) :=
  prList ← formatting "failed to get public randomness list: " (getPubRandList (Height b) 1);
  pubRand ← index0 prList;
  proofBytes ← formatting "failed to get public randomness inclusion proof: "
                 (onDb (GetPubRandProof pubRand));
  eotsSig ← signFinalitySig b;
  i ← ins id;
  res ← wrapping "failed to send finality signature to the consumer chain: "
          (onW (cc_SubmitFinalitySig (GetBtcPk i) b pubRand proofBytes (ToModNScalar eotsSig)));
  privKey ← lift (extractFromEvents (Events res));
  mret (res, privKey).
End Voting.

#[export] Hint Resolve st_le_GetPubRandProof st_le_GetPubRandProofList st_le_setStatus
  st_le_setLastProcessedHeight st_le_setLastProcessedAndVotedHeight : frame.

(** ** Frames *)

Section frames.
Context `{CryptoLaws} `{CodecLaws} `{BbnErrors} `{RetryGoLaws}.
Context {W E Db : Type} `{!ClientController W} `{!Env W}.
Context `{!EOTSManager E} `{!EOTSManagerLaws E} `{!Kvdb Db} `{!KvdbLaws Db}.

Abbreviation ST := (M (St W E Db)).

Lemma st_le_MustSetStatus st : frame st_le (MustSetStatus st : ST unit).
Proof. unfold MustSetStatus. frame_auto. Qed.

Lemma st_le_MustSetLastProcessedHeight h :
  is_u64 h → frame st_le (MustSetLastProcessedHeight h : ST unit).
Proof. intros Hh. unfold MustSetLastProcessedHeight. frame_auto. Qed.

Lemma st_le_MustUpdateState h :
  is_u64 h → frame st_le (MustUpdateStateAfterFinalitySigSubmission h : ST unit).
Proof. intros Hh. unfold MustUpdateStateAfterFinalitySigSubmission. frame_auto. Qed.

Lemma st_le_getPubRandList h n : frame st_le (getPubRandList h n : ST (list FieldVal)).
Proof. unfold getPubRandList. frame_auto. Qed.

Lemma st_le_signPubRandCommit h n c : frame st_le (signPubRandCommit h n c : ST SchnorrSig).
Proof. unfold signPubRandCommit. frame_auto. Qed.

Lemma st_le_signFinalitySig b : frame st_le (signFinalitySig b : ST bytes).
Proof. unfold signFinalitySig. frame_auto. Qed.

Lemma st_le_index0 {A} (l : list A) : frame st_le (index0 l : ST A).
Proof. unfold index0. frame_auto. Qed.

Lemma st_le_GetLastCommittedHeight : frame st_le (GetLastCommittedHeight : ST Z).
Proof. unfold GetLastCommittedHeight, lastCommittedPublicRandWithRetry. frame_auto. Qed.

Lemma st_le_getLatestBlockWithRetry : frame st_le (getLatestBlockWithRetry : ST BlockInfo).
Proof. unfold getLatestBlockWithRetry. frame_auto. Qed.

Lemma st_le_hasVotingPower b : frame st_le (hasVotingPower b : ST bool).
Proof. unfold hasVotingPower, GetVotingPowerWithRetry. frame_auto. Qed.

Lemma st_le_checkBlockFinalization h : frame st_le (checkBlockFinalization h : ST bool).
Proof. unfold checkBlockFinalization. frame_auto. Qed.

Lemma st_le_reportCriticalErr e : frame st_le (reportCriticalErr e : ST unit).
Proof. apply st_le_onIns. by intros i. Qed.

Lemma st_le_getPollerStartingHeight : frame st_le (getPollerStartingHeight : ST Z).
Proof. unfold getPollerStartingHeight, latestFinalizedBlocksWithRetry. frame_auto. Qed.
End frames.

#[export] Hint Resolve st_le_MustSetStatus st_le_MustSetLastProcessedHeight st_le_MustUpdateState
  st_le_getPubRandList st_le_signPubRandCommit st_le_signFinalitySig st_le_index0
  st_le_GetLastCommittedHeight st_le_getLatestBlockWithRetry st_le_hasVotingPower
  st_le_checkBlockFinalization st_le_reportCriticalErr st_le_getPollerStartingHeight : frame.

(** ** Theorems *)

Section theorems.
Context `{CryptoLaws} `{CodecLaws} `{BbnErrors} `{RetryGoLaws}.
Context {W E Db : Type} `{!ClientController W} `{!ClientControllerLaws W} `{!Env W}.
Context `{!EOTSManager E} `{!EOTSManagerLaws E} `{!Kvdb Db} `{!KvdbLaws Db}.
Implicit Types (s : St W E Db) (b : BlockInfo).

Abbreviation ST := (M (St W E Db)).

Lemma st_le_SubmitFinalitySignature b :
  is_u64 (Height b) → frame st_le (SubmitFinalitySignature b : ST TxResponse).
Proof. intros Hb. unfold SubmitFinalitySignature. frame_auto. Qed.

Lemma st_le_commitPubRandFrom h l : frame st_le (commitPubRandFrom h l : ST TxResponse).
Proof. unfold commitPubRandFrom. frame_auto. Qed.
#[local] Hint Resolve st_le_commitPubRandFrom : frame.

Lemma st_le_CommitPubRand h : frame st_le (CommitPubRand h : ST (option TxResponse)).
Proof. unfold CommitPubRand. frame_auto. Qed.

Lemma st_le_signBlocks bs : frame st_le (signBlocks bs : ST (list ModNScalar)).
Proof. unfold signBlocks. frame_auto. Qed.

Lemma last_u64 b0 bs :
  Forall (λ b, is_u64 (Height b)) bs → is_u64 (Height b0) → is_u64 (Height (List.last bs b0)).
Proof. induction 1 as [|b bs ? ? IH]; simpl; [done|]. intros. destruct bs; [done|]. by apply IH. Qed.

Lemma st_le_SubmitBatch bs :
  Forall (λ b, is_u64 (Height b)) bs → frame st_le (SubmitBatchFinalitySignatures bs : ST TxResponse).
Proof.
  intros HF. unfold SubmitBatchFinalitySignatures. destruct bs as [|b0 bs]; [frame_auto|].
  assert (is_u64 (Height (List.last (b0 :: bs) b0))) as Hl.
  { apply last_u64; [done|by apply Forall_cons_1 in HF as [? _]]. }
  frame_auto. apply st_le_signBlocks.
Qed.

Lemma st_le_awaitRetry {A} h (q f a : ST A) :
  frame st_le q → frame st_le f → frame st_le a → frame st_le (awaitRetry h q f a).
Proof. intros. unfold awaitRetry. frame_auto. Qed.

Lemma st_le_retrySubmit fuel n b :
  is_u64 (Height b) →
  frame st_le (retrySubmitFinalitySignatureUntilBlockFinalized fuel n b : ST (option TxResponse)).
Proof.
  intros Hb. revert n. induction fuel as [|fuel IH]; intros n;
    cbn [retrySubmitFinalitySignatureUntilBlockFinalized]; [frame_auto|].
  apply frame_bind; [apply _|by apply frame_attempt, st_le_SubmitFinalitySignature|].
  intros [err|res]; frame_auto. apply st_le_awaitRetry; frame_auto.
Qed.

Lemma st_le_retryCommit fuel n b :
  frame st_le (retryCommitPubRandUntilBlockFinalized fuel n b : ST (option TxResponse)).
Proof.
  revert n. induction fuel as [|fuel IH]; intros n;
    cbn [retryCommitPubRandUntilBlockFinalized]; [frame_auto|].
  apply frame_bind; [apply _|by apply frame_attempt, st_le_CommitPubRand|].
  intros [err|res]; frame_auto. apply st_le_awaitRetry; frame_auto.
Qed.

(** *** A single vote *)

(** The EOTS manager holds the key [sk] of the instance. *)
Definition holds_key s (sk : PrivateKey) : Prop :=
  ∃ pk, MustMarshal (i_btcPk (st_ins s)) = Ok pk ∧
        em_key (st_e s) pk (i_passphrase (st_ins s)) sk.

Lemma holds_key_le s s' sk : st_le s s' → holds_key s sk → holds_key s' sk.
Proof.
  intros [(_ & Hpk & Hpass & _) He _ _] (pk & Hm & Hk). exists pk.
  rewrite Hpk, Hpass. split; [done|]. by apply He.
Qed.

(** Only the EOTS manager's state changes *)
Definition only_e s s' : Prop := s' = st_set_e (st_e s') s.

Lemma getPubRandList_Ok h n s sk :
  holds_key s sk → (0 <= n)%Z →
  ∃ s', getPubRandList h n s =
          (Ok (pub_rand sk (GetChainID (st_ins s)) <$> rand_heights h n), s') ∧ only_e s s'.
Proof.
  intros (pk & Hm & Hk) Hn.
  unfold getPubRandList, mbind, M_bind, ins, gets, lift, onE, zoom. simpl. rewrite Hm. simpl.
  eexists. rewrite (em_CreateRandomnessPairList_spec _ _ _ _ _ _ _ Hk Hn). split; [done|by destruct s].
Qed.

Lemma signFinalitySig_inv b s r s' sk :
  holds_key s sk → signFinalitySig b s = (Ok r, s') →
  let msg := getMsgToSignForVote (Height b) (Hash b) in
  ∃ sig, eots_Sign sk (priv_rand sk (GetChainID (st_ins s)) (Height b)) msg = Ok sig ∧
    r = NewSchnorrEOTSSigFromModNScalar sig ∧
    s' = st_set_signed (st_signed s ++ [(Height b, msg)]) (st_set_e (st_e s') s).
Proof.
  intros (pk & Hm & Hk).
  unfold signFinalitySig, mbind, M_bind, ins, gets, lift, onE, zoom, wrapping. simpl.
  rewrite Hm. simpl.
  pose proof (λ sig, em_SignEOTS_spec (st_e s) pk (GetChainID (st_ins s))
                (getMsgToSignForVote (Height b) (Hash b)) (Height b)
                (i_passphrase (st_ins s)) sk sig Hk) as Hspec.
  destruct (em_SignEOTS _ _ _ _ _ (st_e s)) as [[sig| | |] e']; simpl in *; try done.
  intros Hr. injection Hr as <- <-. exists sig. split; [by apply Hspec|]. done.
Qed.

(** What recording a vote changes *)
Lemma MustUpdateState_inv h s s' :
  MustUpdateStateAfterFinalitySigSubmission h s = (Ok tt, s') →
  st_ins s' = set_fp (stored_with_processed h (stored_with_voted h (i_fp (st_ins s)))) (st_ins s) ∧
  SetFpLastVotedHeight (GetBtcPk (st_ins s)) h (st_db s) = (Ok tt, st_db s') ∧
  st_w s' = st_w s ∧ st_signed s' = st_signed s.
Proof.
  unfold MustUpdateStateAfterFinalitySigSubmission, must, setLastProcessedAndVotedHeight,
    mbind, M_bind, ins, gets, onIns, modify, onDb, zoom, attempt, onFm. simpl.
  change (GetBtcPk (set_fp _ (st_ins s))) with (GetBtcPk (st_ins s)).
  destruct (SetFpLastVotedHeight _ h (st_db s)) as [[[]| | |] db']; simpl; try done.
  intros Hr. by injection Hr as <-.
Qed.

Lemma MustUpdateState_no_err h : no_err (MustUpdateStateAfterFinalitySigSubmission h : ST unit).
Proof.
  apply no_err_bind; [|done]. unfold must. apply no_err_bind; [apply no_err_attempt|]. by intros [|].
Qed.

Lemma rand_heights_1 h : is_u64 h → rand_heights h 1 = [h].
Proof.
  intros Hh. unfold rand_heights. change (Z.to_nat 1) with 1. simpl.
  rewrite Z.add_0_r, u64_small; done.
Qed.

Lemma GetPubRandProof_Ok pr (db db' : Db) v :
  GetPubRandProof pr db = (Ok v, db') → pr_lookup db (FieldVal_Bytes pr) = Some v ∧ db' = db.
Proof.
  unfold GetPubRandProof. intros Hr. injection Hr as Hv <-. split; [|done]. apply view_Ok in Hv.
  destruct (bucket_exists db _); simpl in Hv; [|done]. unfold pr_lookup.
  by destruct (bucket_Get db _ _); simplify_eq.
Qed.

Lemma submit_inv b s res s' sk :
  holds_key s sk → is_u64 (Height b) → SubmitFinalitySignature b s = (Ok res, s') →
  let i := st_ins s in
  let msg := getMsgToSignForVote (Height b) (Hash b) in
  let pr := pub_rand sk (GetChainID i) (Height b) in
  ∃ sig proof w',
    eots_Sign sk (priv_rand sk (GetChainID i) (Height b)) msg = Ok sig ∧
    pr_lookup (st_db s) (FieldVal_Bytes pr) = Some proof ∧
    cc_SubmitFinalitySig (GetBtcPk i) b pr proof sig (st_w s) = (Ok res, w') ∧
    st_signed s' = st_signed s ++ [(Height b, msg)] ∧
    st_ins s' = set_fp (stored_with_processed (Height b) (stored_with_voted (Height b) (i_fp i))) i ∧
    SetFpLastVotedHeight (GetBtcPk i) (Height b) (st_db s) = (Ok tt, st_db s').
Proof.
  intros Hk Hb Hrun. cbv zeta. unfold SubmitFinalitySignature in Hrun.
  apply bind_Ok_inv in Hrun as (sigb & s1 & Hsig & Hrun).
  destruct (signFinalitySig_inv _ _ _ _ _ Hk Hsig) as (sig & Hs & -> & Hs1).
  pose proof (st_le_signFinalitySig b s) as Hle. rewrite Hsig in Hle. simpl in Hle.
  assert (st_ins s1 = st_ins s ∧ st_w s1 = st_w s ∧ st_db s1 = st_db s) as (Hi1 & Hw1 & Hd1)
    by by rewrite Hs1.
  assert (st_signed s1 = st_signed s ++ [(Height b, getMsgToSignForVote (Height b) (Hash b))]) as Hsg1
    by by rewrite Hs1.
  clear Hs1 Hsig. apply (holds_key_le _ _ _ Hle) in Hk. clear Hle.
  apply bind_Ok_inv in Hrun as (prs & s2 & Hpr & Hrun). apply formatting_inv in Hpr.
  destruct (getPubRandList_Ok (Height b) 1 s1 sk Hk ltac:(lia)) as (s2' & Hpr' & He2).
  rewrite rand_heights_1, Hi1 in Hpr' by done. simpl in Hpr'.
  rewrite Hpr' in Hpr. injection Hpr as <- <-. simpl in Hrun.
  apply bind_Ok_inv in Hrun as (pr & s3 & Hp & Hrun). invM Hp.
  apply bind_Ok_inv in Hrun as (i & s4 & Hi & Hrun). injection Hi as <- <-.
  apply bind_Ok_inv in Hrun as (proof & s5 & Hproof & Hrun).
  apply wrapping_inv, zoom_inv in Hproof as (db5 & (Hl & ->)%GetPubRandProof_Ok & ->).
  apply bind_Ok_inv in Hrun as (res' & s6 & Hsub & Hrun).
  apply wrapping_inv, zoom_inv in Hsub as (w' & Hsub & ->).
  apply bind_Ok_inv in Hrun as ([] & s7 & Hup & Hrun).
  destruct (MustUpdateState_inv _ _ _ Hup) as (Hi7 & Hdb7 & Hw7 & Hsg7).
  injection Hrun as <- <-. simpl in *.
  rewrite He2 in *. simpl in *. rewrite Hi1, Hw1, Hd1, Hsg1 in *. simpl in *.
  rewrite eots_sig_roundtrip in Hsub.
  exists sig, proof, w'. by rewrite Hi7, Hsg7.
Qed.

(** *** Failed attempts *)

(** The heights in memory and in the database are untouched. *)
Definition keeps s s' : Prop := st_ins s' = st_ins s ∧ st_db s' = st_db s.

#[local] Instance keeps_preorder : PreOrder keeps.
Proof. split; [by intros s|]. intros s1 s2 s3 [? ?] [? ?]. split; congruence. Qed.

Lemma keeps_onW {A} (m : M W A) : frame keeps (onW m : ST A).
Proof. by intros s. Qed.
Lemma keeps_onE {A} (m : M E A) : frame keeps (onE m : ST A).
Proof. by intros s. Qed.
Lemma keeps_noteSigned h msg : frame keeps (noteSigned h msg : ST unit).
Proof. by intros s. Qed.
Lemma keeps_ins {A} (f : FinalityProviderInstance → A) : frame keeps (ins f : ST A).
Proof. by intros s. Qed.
Lemma keeps_GetPubRandProof pr : frame keeps (onDb (GetPubRandProof pr) : ST bytes).
Proof. by intros s. Qed.
#[local] Hint Resolve keeps_onW keeps_onE keeps_noteSigned keeps_ins keeps_GetPubRandProof : frame.

Lemma keeps_signFinalitySig b : frame keeps (signFinalitySig b : ST bytes).
Proof. unfold signFinalitySig. frame_auto. Qed.
Lemma keeps_getPubRandList h n : frame keeps (getPubRandList h n : ST (list FieldVal)).
Proof. unfold getPubRandList. frame_auto. Qed.
Lemma keeps_index0 {A} (l : list A) : frame keeps (index0 l : ST A).
Proof. unfold index0. frame_auto. Qed.
#[local] Hint Resolve keeps_signFinalitySig keeps_getPubRandList keeps_index0 : frame.


(** A vote that fails (no signature, no randomness, no proof, or a
    rejected transaction) leaves the heights of the finality provider as
    they were, in memory and in the database: a height is recorded as voted
    only after the chain accepted the vote. *)
Theorem failed_vote_records_nothing b s e s' :
  SubmitFinalitySignature b s = (Err e, s') → st_ins s' = st_ins s ∧ st_db s' = st_db s.
Proof.
  revert s e s'. change (on_err keeps (SubmitFinalitySignature b : ST TxResponse)).
  unfold SubmitFinalitySignature.
  apply on_err_bind; [apply _|frame_auto|intros sig].
  apply on_err_bind; [apply _|frame_auto|intros prs].
  apply on_err_bind; [apply _|frame_auto|intros pr].
  apply on_err_bind; [apply _|frame_auto|intros i].
  apply on_err_bind; [apply _|frame_auto|intros proof].
  apply on_err_bind; [apply _|frame_auto|intros res].
  apply on_err_never. apply no_err_bind; [apply MustUpdateState_no_err|done].
Qed.

(** *** The retry loops *)

(** A turn of either loop that asks for another one counted one more
    failure, below the limit. *)
Lemma retry_count m n : (m < MaxUint32)%Z → (0 <= n <= m)%Z →
  (m <? u32 (n + 1))%Z = false → u32 (n + 1) = (n + 1)%Z ∧ (n + 1 <= m)%Z.
Proof. intros Hm Hn. rewrite u32_small by (u64_unfold; lia). intros ?%Z.ltb_ge. done. Qed.

Section termination.
Context `{!CryptoReturns} `{!ClientControllerReturns W} `{!EOTSManagerReturns E} `{!KvdbReturns Db}.

Lemma returns_index0 {A} (l : list A) : returns (index0 l : ST A).
Proof. unfold index0. returns_auto. Qed.

#[local] Hint Resolve returns_index0 : returns.

Lemma returns_SubmitFinalitySignature b : returns (SubmitFinalitySignature b : ST TxResponse).
Proof. unfold SubmitFinalitySignature. returns_auto. Qed.

Lemma returns_commitPubRandFrom h l : returns (commitPubRandFrom h l : ST TxResponse).
Proof. unfold commitPubRandFrom. returns_auto. Qed.

#[local] Hint Resolve returns_SubmitFinalitySignature returns_commitPubRandFrom : returns.

Lemma returns_CommitPubRand h : returns (CommitPubRand h : ST (option TxResponse)).
Proof. unfold CommitPubRand. returns_auto. Qed.

(** The wait at the end of a turn returns when the next turn does; it keeps
    the settings of the instance. *)
Lemma returns_awaitRetry {A} h (q f a : ST A) s :
  returns q → returns f → (∀ s', i_cfg (st_ins s') = i_cfg (st_ins s) → answers (a s').1) →
  answers (awaitRetry h q f a s).1.
Proof.
  intros Hq Hf Ha. unfold awaitRetry, mbind, M_bind, onW, zoom, effect, wrapping. simpl.
  destruct (select_quit (st_w s)) as [[] w]; simpl; [apply Hq|].
  pose proof (returns_checkBlockFinalization h (st_set_w w s)) as Hr.
  destruct (checkBlockFinalization h (st_set_w w s)) as [[[]|e|msg|] s2] eqn:Ec; simpl; try done.
  apply Ha. unfold checkBlockFinalization in Ec. apply bind_Ok_inv in Ec as (b & s3 & Hb & Ec).
  apply zoom_inv in Hb as (w' & _ & ->). by injection Ec as _ <-.
Qed.

Lemma retry_submit_returns fuel n b s :
  (MaxSubmissionRetries (i_cfg (st_ins s)) < MaxUint32)%Z → is_u64 (Height b) →
  (0 <= n <= MaxSubmissionRetries (i_cfg (st_ins s)))%Z →
  (MaxSubmissionRetries (i_cfg (st_ins s)) - n < Z.of_nat fuel)%Z →
  answers (retrySubmitFinalitySignatureUntilBlockFinalized fuel n b s).1.
Proof.
  intros Hmax Hb. revert n s Hmax. induction fuel as [|fuel IH]; intros n s Hmax Hn Hf; [lia|].
  cbn [retrySubmitFinalitySignatureUntilBlockFinalized]. unfold mbind, M_bind, attempt at 1.
  pose proof (st_le_SubmitFinalitySignature b Hb s) as Hle.
  pose proof (returns_SubmitFinalitySignature b s) as Hr.
  destruct (SubmitFinalitySignature b s) as [[res|e|msg|] s1]; simpl in *; try done.
  destruct (IsUnrecoverable e); [done|]. destruct (IsExpected e); [done|].
  destruct Hle as [(Hcfg & _) _ _ _]. rewrite <-Hcfg in Hmax, Hn, Hf.
  destruct (Z.ltb _ _) eqn:Elt; [done|]. destruct (retry_count _ _ Hmax Hn Elt) as [Hu Hlt]. rewrite Hu.
  apply returns_awaitRetry; [done..|]. intros s' Hs'. apply IH; rewrite ?Hs'; lia.
Qed.

Lemma retry_commit_returns fuel n b s :
  (MaxSubmissionRetries (i_cfg (st_ins s)) < MaxUint32)%Z →
  (0 <= n <= MaxSubmissionRetries (i_cfg (st_ins s)))%Z →
  (MaxSubmissionRetries (i_cfg (st_ins s)) - n < Z.of_nat fuel)%Z →
  answers (retryCommitPubRandUntilBlockFinalized fuel n b s).1.
Proof.
  revert n s. induction fuel as [|fuel IH]; intros n s Hmax Hn Hf; [lia|].
  cbn [retryCommitPubRandUntilBlockFinalized]. unfold mbind, M_bind, attempt at 1.
  pose proof (st_le_CommitPubRand (Height b) s) as Hle.
  pose proof (returns_CommitPubRand (Height b) s) as Hr.
  destruct (CommitPubRand (Height b) s) as [[res|e|msg|] s1]; simpl in *; try done.
  destruct (IsUnrecoverable e); [done|].
  destruct Hle as [(Hcfg & _) _ _ _]. rewrite <-Hcfg in Hmax, Hn, Hf.
  destruct (Z.ltb _ _) eqn:Elt; [done|]. destruct (retry_count _ _ Hmax Hn Elt) as [Hu Hlt]. rewrite Hu.
  apply returns_awaitRetry; [done..|]. intros s' Hs'. apply IH; rewrite ?Hs'; lia.
Qed.

(** C27: with a configured maximum of retries below the largest [uint32],
    and when the calls into the libraries, the chain and the database
    return, both retry loops return within [MaxSubmissionRetries + 1] turns,
    whatever these calls answer. *)
Theorem retry_loops_terminate fuel b s :
  (0 <= MaxSubmissionRetries (i_cfg (st_ins s)) < MaxUint32)%Z → is_u64 (Height b) →
  (MaxSubmissionRetries (i_cfg (st_ins s)) < Z.of_nat fuel)%Z →
  (retrySubmitFinalitySignatureUntilBlockFinalized fuel 0 b s).1 ≠ OutOfFuel ∧
  (retryCommitPubRandUntilBlockFinalized fuel 0 b s).1 ≠ OutOfFuel.
Proof.
  intros Hmax Hb Hf. split; [apply retry_submit_returns|apply retry_commit_returns]; (done || lia).
Qed.

Lemma returns_signBlocks bs : returns (signBlocks bs : ST (list ModNScalar)).
Proof. unfold signBlocks. returns_auto. Qed.

#[local] Hint Resolve returns_signBlocks : returns.

Lemma returns_SubmitBatch bs : returns (SubmitBatchFinalitySignatures bs : ST TxResponse).
Proof. unfold SubmitBatchFinalitySignatures. returns_auto. Qed.
End termination.

(** How the vote of a block ends: a transaction is returned only by a
    successful submission; an error is an unrecoverable error of the last
    submission, the last error after too many failures, the shutdown, or a
    failed query of the block; no transaction and no error means that the
    block is finalized or the error was an expected one. *)
Theorem retry_submit_outcome fuel n b s o s' :
  retrySubmitFinalitySignatureUntilBlockFinalized fuel n b s = (o, s') →
  match o with
  | Ok (Some res) => ∃ s0, SubmitFinalitySignature b s0 = (Ok res, s')
  | Ok None => (∃ s0, checkBlockFinalization (Height b) s0 = (Ok true, s')) ∨
               ∃ s0 e, SubmitFinalitySignature b s0 = (Err e, s') ∧ IsExpected e = true
  | Err e => (IsUnrecoverable e = true ∧ ∃ s0, SubmitFinalitySignature b s0 = (Err e, s')) ∨
             (∃ e0 s0, e = Wrap "reached max failed cycles with err: " e0 "" ∧
                IsUnrecoverable e0 = false ∧ SubmitFinalitySignature b s0 = (Err e0, s')) ∨
             e = Sentinel ErrFinalityProviderShutDown ∨
             (∃ e0 s0, e = Wrap ("failed to query block finalization at height " +:+
                             pretty (Height b) +:+ ": ") e0 "" ∧
                checkBlockFinalization (Height b) s0 = (Err e0, s'))
  | _ => True
  end.
Proof.
  revert n s. induction fuel as [|fuel IH]; intros n s;
    cbn [retrySubmitFinalitySignatureUntilBlockFinalized]; [by intros [= <- <-]|].
  unfold mbind, M_bind, attempt at 1.
  destruct (SubmitFinalitySignature b s) as [[res|e|msg|] s1] eqn:Es; simpl;
    [intros [= <- <-]; eauto| |by intros [= <- <-]..].
  destruct (IsUnrecoverable e) eqn:Eu; [intros [= <- <-]; left; eauto|].
  destruct (IsExpected e) eqn:Ee; [intros [= <- <-]; right; eauto|].
  destruct (Z.ltb _ _); [intros [= <- <-]; right; left; eauto|].
  unfold awaitRetry, mbind, M_bind, onW, zoom, effect, wrapping. simpl.
  destruct (select_quit (st_w s1)) as [[] w]; simpl; [intros [= <- <-]; auto|].
  destruct (checkBlockFinalization (Height b) (st_set_w w s1)) as [[[]|e'|msg|] s2] eqn:Ec; simpl.
  - intros [= <- <-]. left. eauto.
  - apply IH.
  - intros [= <- <-]. right; right; right. eauto.
  - by intros [= <- <-].
  - by intros [= <- <-].
Qed.

(** *** Public randomness commitments *)

(** Only the world changes *)
Definition only_w s s' : Prop := s' = st_set_w (st_w s') s.

#[export] Instance only_w_preorder : PreOrder only_w.
Proof.
  split; [by intros []|]. intros [] [] [] H12 H23. unfold only_w in *; simpl in *.
  injection H12 as -> -> -> -> ->. by injection H23 as -> -> -> -> ->.
Qed.

Lemma only_w_onW {A} (m : M W A) : frame only_w (onW m : ST A).
Proof. by intros []. Qed.
Lemma only_w_ins {A} (f : FinalityProviderInstance → A) : frame only_w (ins f : ST A).
Proof. by intros []. Qed.
Lemma only_w_retry {A} (m : ST A) : frame only_w m → frame only_w (retry_Do RtyAttNum m).
Proof. intros Hm. apply frame_retry; [apply _|unfold RtyAttNum; lia|done]. Qed.
#[local] Hint Resolve only_w_onW only_w_ins only_w_retry : frame.

Lemma only_w_GetLastCommittedHeight : frame only_w (GetLastCommittedHeight : ST Z).
Proof. unfold GetLastCommittedHeight, lastCommittedPublicRandWithRetry. frame_auto. Qed.

Lemma signPubRandCommit_inv h n c s sig s' sk :
  holds_key s sk → signPubRandCommit h n c s = (Ok sig, s') →
  schnorr_Sign sk (getHashToSignForCommitPubRand h n c) = Ok sig ∧ only_e s s'.
Proof.
  intros (pk & Hm & Hk). unfold signPubRandCommit, mbind, M_bind, ins, gets, lift. simpl.
  rewrite Hm. simpl. intros (e' & Hs & ->)%zoom_inv. split; [|by destruct s].
  apply (em_SignSchnorrSig_spec _ _ _ _ _ _ Hk). by rewrite Hs.
Qed.

(** The start of the next commitment, [None] when there is enough
    randomness left *)
Definition next_commit (cfg : Config) (last tip : Z) : option Z :=
  if (last =? 0)%Z then Some (u64 (tip + 1))
  else if (last <? u64 (MinRandHeightGap cfg + tip))%Z then Some (u64 (last + 1)) else None.

Lemma added_proofs `{!KvdbReliable Db} prs proofs (db db' : Db) :
  AddPubRandProofList prs proofs db = (Ok tt, db') →
  ∀ pr, pr ∈ prs → is_Some (pr_lookup db' (FieldVal_Bytes pr)).
Proof.
  intros (_ & pairs & He & Hput)%AddPubRandProofList_inv pr Hpr.
  destruct (putProofs_lookup _ _ _ Hput) as [_ Hl]. rewrite Hl.
  destruct (pr_lookup db _); [eauto|]. apply first_proof_is_Some.
  rewrite (encodeProofs_keys _ _ _ He). apply list_elem_of_fmap. eauto.
Qed.

Lemma commit_from_inv start last s res s' sk :
  let i := st_ins s in
  let num := NumPubRand (i_cfg i) in
  let prs := pub_rand sk (GetChainID i) <$> rand_heights start num in
  holds_key s sk → (0 <= num)%Z → commitPubRandFrom start last s = (Ok res, s') →
  ∃ commitment proofs sig w',
    GetPubRandCommitAndProofs prs = Ok (commitment, proofs) ∧
    schnorr_Sign sk (getHashToSignForCommitPubRand start num commitment) = Ok sig ∧
    AddPubRandProofList prs proofs (st_db s) = (Ok tt, st_db s') ∧
    cc_CommitPubRandList (GetBtcPk i) start num commitment sig (st_w s) = (Ok res, w') ∧
    st_ins s' = st_ins s ∧ st_signed s' = st_signed s.
Proof.
  cbv zeta. set (num := NumPubRand _). intros Hk Hnum Hrun. unfold commitPubRandFrom in Hrun.
  apply bind_Ok_inv in Hrun as (i & s0 & Hi & Hrun). injection Hi as <- <-. unfold id in Hrun.
  apply bind_Ok_inv in Hrun as (prs & s1 & Hpr%wrapping_inv & Hrun).
  destruct (getPubRandList_Ok start num s sk Hk Hnum) as (s1' & Hpr' & He1).
  pose proof (st_le_getPubRandList start num s) as Hle. subst num.
  rewrite Hpr' in Hpr, Hle. injection Hpr as <- <-. apply (holds_key_le _ _ _ Hle) in Hk.
  rewrite length_fmap, length_rand_heights, Z2Nat.id in Hrun by done.
  apply bind_Ok_inv in Hrun as ([commitment proofs] & s2 & Hc & Hrun). injection Hc as Hc <-.
  apply bind_Ok_inv in Hrun as ([] & s3 & Ha%wrapping_inv & Hrun).
  apply zoom_inv in Ha as (db3 & Ha & ->).
  apply bind_Ok_inv in Hrun as (sig & s4 & Hsig%wrapping_inv & Hrun).
  apply (signPubRandCommit_inv _ _ _ _ _ _ sk) in Hsig as [Hsig He4]; [|by destruct Hk as (pk & ? & ?); exists pk].
  apply bind_Ok_inv in Hrun as (res' & s5 & Hcc%wrapping_inv & Hrun).
  apply zoom_inv in Hcc as (w' & Hcc & ->). injection Hrun as <- <-. simpl in *.
  rewrite He4 in Hcc. rewrite He4. simpl in *. rewrite He1 in Ha, Hcc. rewrite He1. simpl in *.
  by exists commitment, proofs, sig, w'.
Qed.

Lemma commit_inv tip s r s' :
  CommitPubRand tip s = (Ok r, s') →
  ∃ last s0, GetLastCommittedHeight s = (Ok last, s0) ∧
    match next_commit (i_cfg (st_ins s)) last tip with
    | None => r = None ∧ s' = s0
    | Some start => ∃ res, r = Some res ∧ commitPubRandFrom start last s0 = (Ok res, s')
    end.
Proof.
  unfold CommitPubRand, next_commit. intros Hrun.
  apply bind_Ok_inv in Hrun as (last & s0 & Hlast & Hrun). exists last, s0. split; [done|].
  pose proof (only_w_GetLastCommittedHeight s) as Hw. rewrite Hlast in Hw. simpl in Hw.
  apply bind_Ok_inv in Hrun as (cfg & s0' & Hc & Hrun). injection Hc as <- <-.
  assert (st_ins s0 = st_ins s) as Hi by by rewrite Hw. rewrite Hi in Hrun. clear Hw.
  destruct (last =? 0)%Z; [|destruct (last <? _)%Z].
  - apply bind_Ok_inv in Hrun as (res & s1 & Hf & Hrun). injection Hrun as <- <-. eauto.
  - apply bind_Ok_inv in Hrun as (res & s1 & Hf & Hrun). injection Hrun as <- <-. eauto.
  - by injection Hrun as <- <-.
Qed.

(** C3: a successful commitment covers the [NumPubRand] heights from the
    height after the last committed one (after the tip when nothing was
    committed): the chain received the Merkle root of the public randomness
    of exactly these heights, with a Schnorr signature of the start, the
    number and the root by the finality provider's key, and an inclusion
    proof is stored for every one of these heights, so that each can be
    voted on later. *)
Theorem commitment_covers_range `{!KvdbReliable Db} tip s res s' sk :
  let i := st_ins s in
  let num := NumPubRand (i_cfg i) in
  holds_key s sk → (0 <= num)%Z → CommitPubRand tip s = (Ok (Some res), s') →
  ∃ last start s0 commitment proofs sig w',
    GetLastCommittedHeight s = (Ok last, s0) ∧
    next_commit (i_cfg i) last tip = Some start ∧
    GetPubRandCommitAndProofs (pub_rand sk (GetChainID i) <$> rand_heights start num) =
      Ok (commitment, proofs) ∧
    schnorr_Sign sk (getHashToSignForCommitPubRand start num commitment) = Ok sig ∧
    cc_CommitPubRandList (GetBtcPk i) start num commitment sig (st_w s0) = (Ok res, w') ∧
    ∀ h, h ∈ rand_heights start num →
      is_Some (pr_lookup (st_db s') (FieldVal_Bytes (pub_rand sk (GetChainID i) h))).
Proof.
  cbv zeta. intros Hk Hnum Hrun. destruct (commit_inv _ _ _ _ Hrun) as (last & s0 & Hlast & Hr).
  pose proof (st_le_GetLastCommittedHeight s) as Hle. pose proof (only_w_GetLastCommittedHeight s) as Hw.
  rewrite Hlast in Hle, Hw. simpl in Hle, Hw. apply (holds_key_le _ _ _ Hle) in Hk.
  destruct (next_commit _ last tip) as [start|] eqn:En; [|by destruct Hr].
  destruct Hr as (res' & [= <-] & Hf).
  assert (st_ins s0 = st_ins s) as Hi by by rewrite Hw.
  apply (commit_from_inv _ _ _ _ _ sk) in Hf as (c & proofs & sig & w' & Hc & Hsig & Ha & Hcc & _);
    [|done|by rewrite Hi].
  rewrite Hi in *. exists last, start, s0, c, proofs, sig, w'. split_and!; try done.
  intros h Hh. eapply added_proofs; [exact Ha|]. apply list_elem_of_fmap. eauto.
Qed.

(** [CommitPubRand] commits nothing, and leaves the instance, the keys
    and the database alone, exactly when randomness was committed before and
    its last height is at least [MinRandHeightGap] above the tip. *)
Theorem no_commitment_when_enough tip s s' :
  CommitPubRand tip s = (Ok None, s') →
  (∃ last, GetLastCommittedHeight s = (Ok last, s') ∧ last ≠ 0%Z ∧
     (u64 (MinRandHeightGap (i_cfg (st_ins s)) + tip) <= last)%Z) ∧
  st_ins s' = st_ins s ∧ st_e s' = st_e s ∧ st_db s' = st_db s.
Proof.
  intros (last & s0 & Hlast & Hr)%commit_inv.
  pose proof (only_w_GetLastCommittedHeight s) as Hw. rewrite Hlast in Hw. simpl in Hw.
  unfold next_commit in Hr. destruct (Z.eqb_spec last 0); [naive_solver|].
  destruct (Z.ltb_spec last (u64 (MinRandHeightGap (i_cfg (st_ins s)) + tip))); [naive_solver|].
  destruct Hr as [_ ->]. split; [eauto|]. by rewrite Hw.
Qed.

(** *** Batches *)

Definition vote_msg (b : BlockInfo) : bytes := getMsgToSignForVote (Height b) (Hash b).
Definition vote_entry (b : BlockInfo) : Z * bytes := (Height b, vote_msg b).

Lemma signBlocks_inv bs s sigs s' sk :
  holds_key s sk → signBlocks bs s = (Ok sigs, s') →
  Forall2 (λ b sig, eots_Sign sk (priv_rand sk (GetChainID (st_ins s)) (Height b)) (vote_msg b) = Ok sig)
    bs sigs ∧
  s' = st_set_signed (st_signed s ++ (vote_entry <$> bs)) (st_set_e (st_e s') s).
Proof.
  revert s sigs. induction bs as [|b bs IH]; intros s sigs Hk Hrun.
  { injection Hrun as <- <-. split; [constructor|]. simpl. rewrite app_nil_r. by destruct s. }
  change (signBlocks (b :: bs))
    with (sig ← (r ← signFinalitySig b; mret (ToModNScalar r) : ST ModNScalar);
          rest ← signBlocks bs; mret (sig :: rest) : ST (list ModNScalar)) in Hrun.
  apply bind_Ok_inv in Hrun as (sig' & s1 & Hs1 & Hrun).
  apply bind_Ok_inv in Hs1 as (r & s1' & Hsig & Hr). injection Hr as <- <-.
  destruct (signFinalitySig_inv _ _ _ _ _ Hk Hsig) as (sig & Hs & -> & Heq).
  pose proof (st_le_signFinalitySig b s) as Hle. rewrite Hsig in Hle. simpl in Hle.
  apply (holds_key_le _ _ _ Hle) in Hk.
  apply bind_Ok_inv in Hrun as (rest & s2 & Hrest & Hrun). injection Hrun as <- <-.
  destruct (IH _ _ Hk Hrest) as [HF Heq2].
  assert (st_ins s1' = st_ins s) as Hi by by rewrite Heq. rewrite Hi in HF.
  rewrite eots_sig_roundtrip. split; [by constructor|].
  rewrite Heq2, Heq. simpl. rewrite <-(assoc_L (++)). by destruct s.
Qed.

Lemma GetPubRandProofList_Ok prs (db db' : Db) vs :
  GetPubRandProofList prs db = (Ok vs, db') →
  Forall2 (λ pr v, pr_lookup db (FieldVal_Bytes pr) = Some v) prs vs ∧ db' = db.
Proof.
  unfold GetPubRandProofList. intros Hr. injection Hr as Hv <-. split; [|done]. apply view_Ok in Hv.
  destruct (bucket_exists db _); simpl in Hv; [|done]. rewrite getProofs_spec in Hv.
  destruct (mapM _ _) as [vs'|] eqn:Em; simplify_eq.
  by apply mapM_Some, Forall2_fmap_l in Em.
Qed.

Lemma batch_inv b0 bs s res s' sk :
  let blocks := b0 :: bs in
  let i := st_ins s in
  holds_key s sk → SubmitBatchFinalitySignatures blocks s = (Ok res, s') →
  let prs := pub_rand sk (GetChainID i) <$> rand_heights (Height b0) (Z.of_nat (length blocks)) in
  ∃ proofs sigs w',
    Forall2 (λ pr v, pr_lookup (st_db s) (FieldVal_Bytes pr) = Some v) prs proofs ∧
    Forall2 (λ b sig, eots_Sign sk (priv_rand sk (GetChainID i) (Height b)) (vote_msg b) = Ok sig)
      blocks sigs ∧
    cc_SubmitBatchFinalitySigs (GetBtcPk i) blocks prs proofs sigs (st_w s) = (Ok res, w') ∧
    st_signed s' = st_signed s ++ (vote_entry <$> blocks) ∧
    let h := Height (List.last blocks b0) in
    st_ins s' = set_fp (stored_with_processed h (stored_with_voted h (i_fp i))) i ∧
    SetFpLastVotedHeight (GetBtcPk i) h (st_db s) = (Ok tt, st_db s').
Proof.
  cbv zeta. intros Hk Hrun. unfold SubmitBatchFinalitySignatures in Hrun.
  destruct (Z.ltb_spec MaxUint32 (Z.of_nat (length (b0 :: bs)))) as [|Hlen]; [done|].
  rewrite u32_small in Hrun by (u64_unfold; lia).
  set (n := Z.of_nat (length (b0 :: bs))) in *. assert (0 <= n)%Z as Hn by lia. clearbody n.
  apply bind_Ok_inv in Hrun as (prs & s1 & Hpr%formatting_inv & Hrun).
  destruct (getPubRandList_Ok (Height b0) n s sk Hk Hn) as (s1' & Hpr' & He1).
  pose proof (st_le_getPubRandList (Height b0) n s) as Hle.
  rewrite Hpr' in Hpr, Hle. injection Hpr as <- <-. apply (holds_key_le _ _ _ Hle) in Hk.
  apply bind_Ok_inv in Hrun as (proofs & s2 & Hp%formatting_inv & Hrun).
  apply zoom_inv in Hp as (db2 & (HFp & ->)%GetPubRandProofList_Ok & ->).
  apply bind_Ok_inv in Hrun as (sigs & s3 & Hsig & Hrun).
  apply (signBlocks_inv _ _ _ _ sk) in Hsig as [HFs Heq3]; [|by destruct Hk as (pk & ? & ?); exists pk].
  apply bind_Ok_inv in Hrun as (i & s3' & Hi & Hrun). injection Hi as <- <-.
  apply bind_Ok_inv in Hrun as ([err|res'] & s4 & Hcc%attempt_inv & Hrun); [done|].
  apply zoom_inv in Hcc as (w' & Hcc & ->).
  apply bind_Ok_inv in Hrun as ([] & s5 & Hup & Hrun). injection Hrun as <- <-.
  destruct (MustUpdateState_inv _ _ _ Hup) as (Hi5 & Hdb5 & _ & Hsg5).
  simpl in HFp, HFs, Hcc, Hi5, Hdb5, Hsg5. rewrite Heq3 in Hcc, Hi5, Hdb5, Hsg5.
  simpl in Hcc, Hi5, Hdb5, Hsg5. rewrite He1 in HFp, HFs, Hcc, Hi5, Hdb5, Hsg5.
  simpl in HFp, HFs, Hcc, Hi5, Hdb5, Hsg5.
  exists proofs, sigs, w'. by split_and!.
Qed.

(** Blocks of consecutive heights *)
Definition contiguous (bs : list BlockInfo) (h0 : Z) : Prop :=
  Height <$> bs = seqZ h0 (Z.of_nat (length bs)).

Lemma contiguous_rand_heights bs h0 :
  contiguous bs h0 → Forall (λ b, is_u64 (Height b)) bs →
  rand_heights h0 (Z.of_nat (length bs)) = Height <$> bs.
Proof.
  intros Hc HF. unfold rand_heights, contiguous in *. rewrite Hc. unfold seqZ.
  apply list_fmap_ext. intros j x [? Hj]%lookup_seq. subst x. simpl.
  assert (Height <$> bs !! j = Some (h0 + Z.of_nat j)%Z) as Hl.
  { rewrite <-list_lookup_fmap, Hc. by rewrite lookup_seqZ_lt by lia. }
  destruct (bs !! j) as [b|] eqn:Eb; [|done]. injection Hl as Hl.
  rewrite <-Hl, u64_small by exact (Forall_lookup_1 _ _ _ _ HF Eb). lia.
Qed.

(** C10: a batch over blocks of consecutive heights is a batch of valid
    votes: the chain received, with each block, the public randomness of its
    own height, the inclusion proof stored for it and an EOTS signature that
    verifies; the height of the last block is then the last voted and the
    last processed height. *)
Theorem contiguous_batch_is_valid b0 bs s res s' sk :
  let blocks := b0 :: bs in
  let i := st_ins s in
  holds_key s sk → Forall (λ b, is_u64 (Height b)) blocks → contiguous blocks (Height b0) →
  SubmitBatchFinalitySignatures blocks s = (Ok res, s') →
  ∃ proofs sigs w',
    cc_SubmitBatchFinalitySigs (GetBtcPk i) blocks
      ((λ b, pub_rand sk (GetChainID i) (Height b)) <$> blocks) proofs sigs (st_w s) = (Ok res, w') ∧
    Forall2 (λ b v, pr_lookup (st_db s) (FieldVal_Bytes (pub_rand sk (GetChainID i) (Height b))) = Some v)
      blocks proofs ∧
    Forall2 (λ b sig, eots_Verify (PubKey sk) (pub_rand sk (GetChainID i) (Height b)) (vote_msg b) sig = true)
      blocks sigs ∧
    GetLastVotedHeight (st_ins s') = Height (List.last blocks b0) ∧
    GetLastProcessedHeight (st_ins s') = Height (List.last blocks b0).
Proof.
  cbv zeta. intros Hk HF Hc Hrun.
  destruct (batch_inv _ _ _ _ _ _ Hk Hrun) as (proofs & sigs & w' & HFp & HFs & Hcc & _ & Hi & _).
  rewrite contiguous_rand_heights, <-list_fmap_compose in HFp, Hcc by done.
  exists proofs, sigs, w'. rewrite Hi. split_and!; [done| | |done|done].
  - by apply Forall2_fmap_l in HFp.
  - eapply Forall2_impl; [exact HFs|]. intros b sig. apply eots_sign_verify.
Qed.

End theorems.

#[export] Hint Resolve only_w_onW only_w_ins only_w_retry : frame.
