(* ===== verification/FastSync.v ===== *)
(** * FastSync: catching up with the chain

    Models [src/finality-provider/service/fastsync.go] and [tryFastSync] of
    fp_instance.go. The loop over batches of blocks takes fuel;
    [fast_sync_terminates] shows that one turn per height of the range is
    enough, because every batch moves the start height forward. *)

From stdpp Require Import base gmap list strings pretty.
From Stdlib Require Import ZArith Lia Sorting.Sorted.
From S2P Require Import Prelude Errors Monad Types Kvdb FpStore PubRandStore Metrics EotsManager.
From S2P Require Import Config ClientController Poller FpState Returns Voting.

Record FastSyncResult := mkFastSyncResult {
  Responses : list TxResponse;
  SyncedHeight : Z;
  fr_LastProcessedHeight : Z;
}.

Section FastSync.
Context `{Crypto} `{Codec} `{BbnErrors} `{RetryGo}.
Context {W E Db : Type} `{!ClientController W} `{!Env W} `{!EOTSManager E} `{!Kvdb Db}.

Abbreviation ST := (M (St W E Db)).

(** The inner loop: the blocks to vote on *)
Fixpoint collectCatchUpBlocks (blocks : list BlockInfo) : ST (list BlockInfo) :=
  match blocks with
  | [] => mret []
  | b :: blocks =>
      i ← ins id;
      if hasProcessed b i then collectCatchUpBlocks blocks
      else
        hasVp ← hasVotingPower b;
        if negb hasVp
        then onFm (IncrementFpTotalBlocksWithoutVotingPower (GetBtcPkHex i)) ;;
             collectCatchUpBlocks blocks
        else rest ← collectCatchUpBlocks blocks; mret (b :: rest)
  end.

(** [blocks[len(blocks)-1]] of a slice that is not empty *)
Definition lastBlock (b0 : BlockInfo) (bs : list BlockInfo) : BlockInfo := List.last (b0 :: bs) b0.

Fixpoint fastSyncLoop (fuel : nat) (startHeight endHeight syncedHeight : Z)
    (responses : list TxResponse) : ST (Z * list TxResponse) :=
  match fuel with
  | O => outOfFuel
  | S fuel =>
      if negb (startHeight <=? endHeight)%Z then mret (syncedHeight, responses)
      else
        i ← ins id;
        blocks ← onW (cc_QueryBlocks startHeight endHeight (FastSyncLimit (i_cfg i)));
        match blocks with
        | [] => mret (syncedHeight, responses)
        | b0 :: bs =>
            let startHeight := u64 (Height (lastBlock b0 bs) + 1) in
            catchUpBlocks ← collectCatchUpBlocks (b0 :: bs);
            match catchUpBlocks with
            | [] => fastSyncLoop fuel startHeight endHeight syncedHeight responses
            | c0 :: cs =>
                let syncedHeight := Height (lastBlock c0 cs) in
                res ← SubmitBatchFinalitySignatures (c0 :: cs);
                onFm (AddToFpTotalVotedBlocks (GetBtcPkHex i) (Z.of_nat (length (c0 :: cs)))) ;;
                fastSyncLoop fuel startHeight endHeight syncedHeight (responses ++ [res])
            end
        end
  end.

Definition FastSync (fuel : nat) (startHeight endHeight : Z) : ST FastSyncResult :=
  inSync ← ins i_inSync;
  onIns (set_inSync true) ;;
  if (inSync : bool) then throw (ErrorString "the finality-provider has already been in fast sync")
  else deferring (λ s, st_set_ins (set_inSync false (st_ins s)) s)
    (if (endHeight <? startHeight)%Z
     then throw (ErrorString ("the start height " +:+ pretty startHeight +:+
            " should not be higher than the end height " +:+ pretty endHeight))
     else
       r ← fastSyncLoop fuel startHeight endHeight 0 [];
       MustSetLastProcessedHeight r.1 ;;
       lp ← ins GetLastProcessedHeight;
       mret (mkFastSyncResult r.2 r.1 lp)).

Definition tryFastSync (fuel : nat) (targetBlock : BlockInfo) : ST (option FastSyncResult) :=
  i ← ins id;
  if i_inSync i
  then throw (ErrorString ("the finality-provider " +:+ GetBtcPkHex i +:+ " is already in sync"))
  else
    lastFinalizedBlocks ← onW (cc_QueryLatestFinalizedBlocks 1);
    match lastFinalizedBlocks with
    | None => mret None
    | Some blocks =>
        b ← index0 blocks;
        let lastFinalizedHeight := Height b in
        let lastProcessedHeight := GetLastProcessedHeight i in
        let startHeight :=
          if (lastFinalizedHeight <? lastProcessedHeight)%Z then u64 (lastProcessedHeight + 1)
          else u64 (lastFinalizedHeight + 1) in
        if (Height targetBlock <? startHeight)%Z
        then throw (ErrorString ("the start height " +:+ pretty startHeight +:+
               " should not be higher than the current block " +:+ pretty (Height targetBlock)))
        else r ← FastSync fuel startHeight (Height targetBlock); mret (Some r)
    end.
End FastSync.

(** ** What an operation signs *)

Section signs.
Context `{CryptoLaws} `{CodecLaws} `{BbnErrors} `{RetryGoLaws}.
Context {W E Db : Type} `{!ClientController W} `{!Env W}.
Context `{!EOTSManager E} `{!EOTSManagerLaws E} `{!Kvdb Db} `{!KvdbLaws Db}.
Implicit Types (s : St W E Db) (P : Z * bytes → Prop).

Abbreviation ST := (M (St W E Db)).

(** Everything signed on the way from [s] to [s'] satisfies [P]. *)
Definition signs P s s' : Prop := ∃ l, st_signed s' = st_signed s ++ l ∧ Forall P l.

#[export] Instance signs_preorder P : PreOrder (signs P).
Proof.
  split; [intros s; exists []; by rewrite app_nil_r|].
  intros s1 s2 s3 (l1 & H1l & ?) (l2 & H2l & ?). exists (l1 ++ l2).
  split; [by rewrite H2l, H1l, (assoc_L (++))|by apply Forall_app].
Qed.

Lemma signs_impl P Q s s' : (∀ x, P x → Q x) → signs P s s' → signs Q s s'.
Proof. intros HPQ (l & Hl & HF). exists l. split; [done|]. by eapply Forall_impl. Qed.

Lemma signs_same P s s' : st_signed s' = st_signed s → signs P s s'.
Proof. intros Hs. exists []. by rewrite app_nil_r. Qed.

Lemma signs_onW {A} P (m : M W A) : frame (signs P) (onW m : ST A).
Proof. intros s. by apply signs_same. Qed.
Lemma signs_onE {A} P (m : M E A) : frame (signs P) (onE m : ST A).
Proof. intros s. by apply signs_same. Qed.
Lemma signs_onDb {A} P (m : M Db A) : frame (signs P) (onDb m : ST A).
Proof. intros s. by apply signs_same. Qed.
Lemma signs_onFm P f : frame (signs P) (onFm f : ST unit).
Proof. intros s. by apply signs_same. Qed.
Lemma signs_onIns P f : frame (signs P) (onIns f : ST unit).
Proof. intros s. by apply signs_same. Qed.
Lemma signs_ins {A} P (f : FinalityProviderInstance → A) : frame (signs P) (ins f : ST A).
Proof. intros s. by apply signs_same. Qed.
Lemma signs_noteSigned P h msg : P (h, msg) → frame (signs P) (noteSigned h msg : ST unit).
Proof. intros HP s. exists [(h, msg)]. split; [done|by repeat constructor]. Qed.
Lemma signs_must P msg (m : ST unit) : frame (signs P) m → frame (signs P) (must msg m).
Proof. intros Hm. unfold must. frame_auto. Qed.
Lemma signs_retry {A} P (m : ST A) : frame (signs P) m → frame (signs P) (retry_Do RtyAttNum m).
Proof. intros Hm. apply frame_retry; [apply _|unfold RtyAttNum; lia|done]. Qed.
End signs.

#[export] Hint Resolve signs_onW signs_onE signs_onDb signs_onFm signs_onIns signs_ins
  signs_noteSigned signs_must signs_retry : frame.

Section signs_ops.
Context `{CryptoLaws} `{CodecLaws} `{BbnErrors} `{RetryGoLaws}.
Context {W E Db : Type} `{!ClientController W} `{!Env W}.
Context `{!EOTSManager E} `{!EOTSManagerLaws E} `{!Kvdb Db} `{!KvdbLaws Db}.
Implicit Types (P : Z * bytes → Prop).

Abbreviation ST := (M (St W E Db)).

Lemma signs_signFinalitySig P b : P (vote_entry b) → frame (signs P) (signFinalitySig b : ST bytes).
Proof. intros HP. unfold signFinalitySig. frame_auto. Qed.

Lemma signs_index0 {A} P (l : list A) : frame (signs P) (index0 l : ST A).
Proof. unfold index0. frame_auto. Qed.

Lemma signs_getPubRandList P h n : frame (signs P) (getPubRandList h n : ST (list FieldVal)).
Proof. unfold getPubRandList. frame_auto. Qed.

Lemma signs_MustUpdateState P h : frame (signs P) (MustUpdateStateAfterFinalitySigSubmission h : ST unit).
Proof. unfold MustUpdateStateAfterFinalitySigSubmission, setLastProcessedAndVotedHeight. frame_auto.
  apply signs_must. frame_auto. Qed.

Lemma signs_MustSetLastProcessedHeight P h : frame (signs P) (MustSetLastProcessedHeight h : ST unit).
Proof. unfold MustSetLastProcessedHeight, setLastProcessedHeight. frame_auto.
  apply signs_must. frame_auto. Qed.

Lemma signs_hasVotingPower P b : frame (signs P) (hasVotingPower b : ST bool).
Proof. unfold hasVotingPower, GetVotingPowerWithRetry. frame_auto. Qed.
End signs_ops.

#[export] Hint Resolve signs_signFinalitySig signs_index0 signs_getPubRandList signs_MustUpdateState
  signs_MustSetLastProcessedHeight signs_hasVotingPower : frame.

(** ** Theorems *)

Section theorems.
Context `{CryptoLaws} `{CodecLaws} `{BbnErrors} `{RetryGoLaws}.
Context {W E Db : Type} `{!ClientController W} `{!ClientControllerLaws W} `{!Env W}.
Context `{!EOTSManager E} `{!EOTSManagerLaws E} `{!Kvdb Db} `{!KvdbLaws Db}.
Implicit Types (s : St W E Db) (P : Z * bytes → Prop) (b : BlockInfo) (bs : list BlockInfo).

Abbreviation ST := (M (St W E Db)).

Lemma signs_signBlocks P bs :
  Forall (λ b, P (vote_entry b)) bs → frame (signs P) (signBlocks bs : ST (list ModNScalar)).
Proof.
  unfold signBlocks. induction 1 as [|b bs HP _ IH]; simpl; frame_auto.
Qed.

Lemma signs_SubmitBatch P bs :
  Forall (λ b, P (vote_entry b)) bs →
  frame (signs P) (SubmitBatchFinalitySignatures bs : ST TxResponse).
Proof.
  intros HF. unfold SubmitBatchFinalitySignatures. destruct bs as [|b0 bs]; frame_auto.
  by apply signs_signBlocks.
Qed.

Lemma signs_SubmitFinalitySignature P b :
  P (vote_entry b) → frame (signs P) (SubmitFinalitySignature b : ST TxResponse).
Proof. intros HP. unfold SubmitFinalitySignature. frame_auto. Qed.

Lemma signs_collect P bs : frame (signs P) (collectCatchUpBlocks bs : ST (list BlockInfo)).
Proof. induction bs as [|b bs IH]; cbn [collectCatchUpBlocks]; frame_auto. Qed.

Lemma collect_sublist bs s cs s' :
  collectCatchUpBlocks bs s = (Ok cs, s') → cs `sublist_of` bs.
Proof.
  revert s cs. induction bs as [|b bs IH]; intros s cs; cbn [collectCatchUpBlocks].
  { by intros [= <- <-]. }
  intros (i & s1 & _ & Hrun)%bind_Ok_inv.
  destruct (hasProcessed b i); [constructor; by eapply IH|].
  apply bind_Ok_inv in Hrun as (vp & s2 & _ & Hrun). destruct vp; simpl in Hrun.
  - apply bind_Ok_inv in Hrun as (rest & s3 & Hrest & Hrun). injection Hrun as <- <-.
    constructor. by eapply IH.
  - apply bind_Ok_inv in Hrun as ([] & s3 & _ & Hrun). constructor. by eapply IH.
Qed.

Lemma lastBlock_elem b0 bs : lastBlock b0 bs ∈ b0 :: bs.
Proof.
  unfold lastBlock. destruct (exists_last (l := b0 :: bs)) as (l & x & ->); [done|].
  rewrite last_last. set_solver.
Qed.

(** The start height after a batch lies above the batch. *)
Lemma next_start start end_ limit (w : W) b0 bs w' :
  is_u64 start → cc_QueryBlocks start end_ limit w = (Ok (b0 :: bs), w') →
  u64 (Height (lastBlock b0 bs) + 1) = (Height (lastBlock b0 bs) + 1)%Z ∧
  (start < Height (lastBlock b0 bs) + 1)%Z.
Proof.
  intros Hst Hq. destruct (QueryBlocks_sorted _ _ _ _ _ _ Hst Hq) as [_ HF].
  pose proof (QueryBlocks_int64 _ _ _ _ _ _ Hq) as Hi. pose proof (lastBlock_elem b0 bs) as Hin.
  rewrite Forall_forall in HF, Hi. specialize (HF _ Hin). specialize (Hi _ Hin). simpl in *.
  split; [apply u64_small; u64_unfold; lia|lia].
Qed.

Lemma signs_loop P start0 fuel start end_ sy rs :
  (∀ start limit (w : W) bs w', (start0 <= start)%Z → is_u64 start →
     cc_QueryBlocks start end_ limit w = (Ok bs, w') → Forall (λ b, P (vote_entry b)) bs) →
  (start0 <= start)%Z → is_u64 start →
  frame (signs P) (fastSyncLoop fuel start end_ sy rs : ST (Z * list TxResponse)).
Proof.
  intros HQ. revert start sy rs. induction fuel as [|fuel IH]; intros start sy rs Hstart Hu;
    cbn [fastSyncLoop]; [frame_auto|].
  destruct (negb _); [frame_auto|].
  apply frame_bind; [apply _|frame_auto|intros i].
  apply frame_bind_res; [apply _|frame_auto|intros s bs s' (w' & Hq & _)%zoom_inv].
  destruct bs as [|b0 bs]; [frame_auto|].
  destruct (next_start _ _ _ _ _ _ _ Hu Hq) as [Hn Hnext].
  pose proof (u64_range (Height (lastBlock b0 bs) + 1)) as Hu'. rewrite Hn in Hu' |- *.
  assert (start0 <= Height (lastBlock b0 bs) + 1)%Z as Hle by lia.
  apply frame_bind_res; [apply _|apply signs_collect|intros s1 cs s2 Hc%collect_sublist].
  pose proof (Forall_sublist _ _ _ Hc (HQ _ _ _ _ _ Hstart Hu Hq)) as HF.
  destruct cs as [|c0 cs]; [by apply IH|].
  apply frame_bind; [apply _|by apply signs_SubmitBatch|intros res].
  apply frame_bind; [apply _|frame_auto|intros _]. by apply IH.
Qed.

Lemma signs_FastSync P fuel start end_ :
  is_u64 start →
  (∀ start' limit (w : W) bs w', (start <= start')%Z → is_u64 start' →
     cc_QueryBlocks start' end_ limit w = (Ok bs, w') → Forall (λ b, P (vote_entry b)) bs) →
  frame (signs P) (FastSync fuel start end_ : ST FastSyncResult).
Proof.
  intros Hu HQ. unfold FastSync. frame_auto. apply frame_deferring; [apply _|by intros s; apply signs_same|].
  frame_auto. by eapply signs_loop.
Qed.

(** A vote on the chain: the application hash of the height *)
Definition honest_vote `{!ConsistentChain W} (e : Z * bytes) : Prop :=
  e.2 = getMsgToSignForVote e.1 (app_hash e.1).

Lemma tryFastSync_start fuel target s r s' :
  tryFastSync fuel target s = (Ok (Some r), s') →
  ∃ f fb s0 start, cc_QueryLatestFinalizedBlocks 1 (st_w s) = (Ok (Some (f :: fb)), st_w s0) ∧
    st_ins s0 = st_ins s ∧ st_signed s0 = st_signed s ∧
    start = u64 (Z.max (Height f) (GetLastProcessedHeight (st_ins s)) + 1) ∧
    FastSync fuel start (Height target) s0 = (Ok r, s').
Proof.
  unfold tryFastSync. intros Hrun.
  apply bind_Ok_inv in Hrun as (i & s0 & Hi & Hrun). injection Hi as <- <-.
  destruct (i_inSync _); [done|].
  apply bind_Ok_inv in Hrun as (fb & s1 & Hq & Hrun). apply zoom_inv in Hq as (w1 & Hq & ->).
  destruct fb as [[|f fb]|]; [done| |done].
  apply bind_Ok_inv in Hrun as (f' & s2 & Hf & Hrun). injection Hf as <- <-.
  set (start := if (Height f <? _)%Z then _ else _ : Z) in Hrun.
  assert (start = u64 (Z.max (Height f) (GetLastProcessedHeight (st_ins s)) + 1)) as Hst.
  { subst start. unfold id. destruct (Z.ltb_spec (Height f) (GetLastProcessedHeight (st_ins s))).
    - by rewrite Z.max_r by lia.
    - by rewrite Z.max_l by lia. }
  clearbody start. destruct (Height target <? start)%Z; [done|].
  apply bind_Ok_inv in Hrun as (r' & s3 & Hfs & Hrun). injection Hrun as <- <-.
  by exists f, fb, (st_set_w w1 s), start.
Qed.


(** Fast sync does not lock itself out: a fast sync that returns,
    with a result or with an error, leaves the flag [inSync] cleared, unless
    another fast sync was running, in which case it fails and changes
    nothing. *)
Theorem fast_sync_releases_flag fuel start end_ s o s' :
  FastSync fuel start end_ s = (o, s') →
  if i_inSync (st_ins s)
  then o = Err (ErrorString "the finality-provider has already been in fast sync") ∧
       st_w s' = st_w s ∧ st_db s' = st_db s ∧ st_signed s' = st_signed s ∧ i_inSync (st_ins s') = true
  else match o with
       | Ok _ | Err _ => i_inSync (st_ins s') = false
       | _ => True
       end.
Proof.
  unfold FastSync, mbind at 1 2, M_bind at 1 2, ins at 1, gets, onIns, modify. simpl.
  destruct (i_inSync (st_ins s)); [by intros [= <- <-]|]. unfold deferring.
  destruct (if (end_ <? start)%Z then _ else _) as [[] s1]; intros [= <- <-]; done.
Qed.

(** The result of a fast sync reports the last voted height as the
    synced height and the in-memory last processed height becomes exactly
    that, 0 when there was nothing to vote on. *)
Theorem fast_sync_sets_processed_to_synced fuel start end_ s r s' :
  FastSync fuel start end_ s = (Ok r, s') →
  GetLastProcessedHeight (st_ins s') = SyncedHeight r ∧ fr_LastProcessedHeight r = SyncedHeight r.
Proof.
  unfold FastSync, mbind at 1 2, M_bind at 1 2, ins at 1, gets, onIns, modify. simpl.
  destruct (i_inSync (st_ins s)); [done|]. unfold deferring.
  destruct (end_ <? start)%Z; [done|]. set (s0 := st_set_ins _ _).
  match goal with |- context [match ?m s0 with _ => _ end] => destruct (m s0) as [[r0| | |] s1] eqn:Em end;
    try done.
  intros [= <- <-]. apply bind_Ok_inv in Em as ([sy rs] & s2 & _ & Em).
  apply bind_Ok_inv in Em as ([] & s3 & Hset & Em).
  apply bind_Ok_inv in Em as (lp & s4 & Hlp & Em). injection Hlp as <- <-. injection Em as <- <-.
  unfold MustSetLastProcessedHeight, must, setLastProcessedHeight in Hset.
  apply bind_Ok_inv in Hset as ([] & s5 & Hmust & Hset).
  assert (GetLastProcessedHeight (st_ins s5) = sy) as Hs5.
  { unfold mbind, M_bind, attempt, onIns, modify, ins, gets, onDb, zoom in Hmust. simpl in Hmust.
    destruct (SetFpLastProcessedHeight _ _ (st_db s2)) as [[[]| | |] db']; simpl in Hmust; try done.
    by injection Hmust as <-. }
  apply bind_Ok_inv in Hset as (hex & s6 & Hh & Hset). injection Hh as <- <-. injection Hset as <-.
  simpl. done.
Qed.

Section termination.
Context `{!CryptoReturns} `{!ClientControllerReturns W} `{!EOTSManagerReturns E} `{!KvdbReturns Db}.

Lemma returns_collect bs : returns (collectCatchUpBlocks bs : ST (list BlockInfo)).
Proof. induction bs as [|b bs IH]; simpl; returns_auto. Qed.

Lemma fast_sync_loop_returns fuel start end_ sy rs s :
  is_u64 start → (Z.max 0 (end_ - start + 1) < Z.of_nat fuel)%Z →
  (fastSyncLoop fuel start end_ sy rs s).1 ≠ OutOfFuel.
Proof.
  revert start sy rs s. induction fuel as [|fuel IH]; intros start sy rs s Hst Hf; cbn [fastSyncLoop]; [lia|].
  destruct (Z.leb_spec start end_) as [Hle|]; cbn [negb]; [|done]. intros Hout.
  apply bind_fuel_inv in Hout as [Hout|(i & s0 & Hi & Hout)]; [done|].
  apply bind_fuel_inv in Hout as [Hout|(bs & s1 & (w' & Hq & _)%zoom_inv & Hout)].
  { by eapply (cc_QueryBlocks_returns (W := W)) in Hout. }
  destruct bs as [|b0 bs]; [done|]. cbv zeta in Hout.
  destruct (next_start _ _ _ _ _ _ _ Hst Hq) as [Hu Hnext].
  pose proof (u64_range (Height (lastBlock b0 bs) + 1)) as Hst'. rewrite Hu in Hst', Hout.
  apply bind_fuel_inv in Hout as [Hout|(cs & s2 & _ & Hout)]; [by eapply returns_collect|].
  destruct cs as [|c0 cs]; [eapply IH; [exact Hst'| |exact Hout]; lia|]. cbv zeta in Hout.
  apply bind_fuel_inv in Hout as [Hout|(res & s3 & _ & Hout)]; [by eapply returns_SubmitBatch|].
  apply bind_fuel_inv in Hout as [Hout|([] & s4 & _ & Hout)]; [done|].
  eapply IH; [exact Hst'| |exact Hout]. lia.
Qed.

(** C28: fast sync over a range of heights returns within one turn per
    height of the range, whatever the chain answers, when the calls into the
    libraries, the chain and the database return: every batch of blocks
    moves the start height forward. *)
Theorem fast_sync_terminates fuel start end_ s :
  is_u64 start → (Z.max 0 (end_ - start + 1) < Z.of_nat fuel)%Z →
  (FastSync fuel start end_ s).1 ≠ OutOfFuel.
Proof.
  intros Hst Hf. unfold FastSync, mbind at 1, M_bind, ins, gets. 
  destruct (i_inSync (st_ins s)); [done|]. unfold mbind at 1, M_bind, onIns, modify. simpl.
  apply returns_deferring. destruct (end_ <? start)%Z; [done|]. intros Eo.
  apply bind_fuel_inv in Eo as [Eo|(r & s2 & _ & Eo)]; [by eapply fast_sync_loop_returns|].
  apply bind_fuel_inv in Eo as [Eo|([] & s3 & _ & Eo)]; [by eapply returns_MustSetLastProcessedHeight|].
  by apply bind_fuel_inv in Eo as [Eo|(lp & s4 & _ & Eo)].
Qed.
End termination.
End theorems.
