(* ===== verification/FpInstance.v ===== *)
(** * FpInstance: the life of a finality provider instance

    Models [NewFinalityProviderInstance], [Start], [bootstrap], [Stop] and the
    bodies of the three loops of
    [src/finality-provider/service/fp_instance.go]: the finality signature
    submission loop (a block from the poller, a target of a fast sync), the
    randomness commitment loop and the lagging check. A run of the instance
    is a sequence of such events; each body runs as a whole. *)

From stdpp Require Import base gmap list strings pretty.
From Stdlib Require Import ZArith Lia.
From S2P Require Import Prelude Errors Monad Types Kvdb FpStore PubRandStore Metrics EotsManager.
From S2P Require Import Config ClientController Poller FpState Voting FastSync.

Section FpInstance.
Context `{Crypto} `{Codec} `{BbnErrors} `{RetryGo}.
Context {W E Db : Type} `{!ClientController W} `{!Env W} `{!EOTSManager E} `{!Kvdb Db}.

Abbreviation ST := (M (St W E Db)).

Definition NewFinalityProviderInstance (fpPk : bytes) (cfg : Config) (passphrase : string)
    : M Db FinalityProviderInstance :=
  btcPk ← lift (MustToBTCPK fpPk);
  sfp ← wrapping ("failed to retrive the finality provider " +:+ MarshalHex fpPk +:+ " from DB: ")
          (GetFinalityProvider btcPk);
  if negb (ShouldStart sfp)
  then throw (ErrorString ("the finality provider instance cannot be initiated with status " +:+
         status_String (s_Status sfp)))
  else mret (mkInstance (NewBIP340PubKeyFromBTCPK (s_BtcPk sfp)) sfp cfg passphrase
               None None [] false false false).

Definition IsRunning (i : FinalityProviderInstance) : bool := i_isStarted i.
Definition IsJailed (i : FinalityProviderInstance) : bool := bool_decide (GetStatus i = JAILED).

Definition bootstrap (fuel : nat) : ST Z :=
  latestBlock ← getLatestBlockWithRetry;
  i ← ins id;
  (if checkLagging latestBlock i
   then
     r ← attempt (tryFastSync fuel latestBlock);
     match r with
     | inl err =>
         (if errors_Is err ErrFinalityProviderJailed then MustSetStatus JAILED else mret tt) ;;
         if negb (IsExpected err) then throw err else mret tt
     | inr _ => mret tt
     end
   else mret tt) ;;
  getPollerStartingHeight.

(** [poller := NewChainPoller(...)] and [poller.Start(height)] *)
Definition startPoller (fuel : nat) (height : Z) : ST ChainPoller := λ s,
  let '(o, ps) := poller_Start fuel height
        (mkPollerSt (NewChainPoller (PollerConfig (i_cfg (st_ins s)))) (st_w s) (st_fm s)) in
  (_ ← o; Ok (ps_poller ps), st_set_fm (ps_metrics ps) (st_set_w (ps_world ps) s)).

Definition Start (fuel : nat) : ST unit :=
  i ← ins id;
  onIns (set_isStarted true) ;;
  if i_isStarted i
  then throw (ErrorString ("the finality-provider instance " +:+ GetBtcPkHex i +:+ " is already started"))
  else if IsJailed i
  then throw (Wrap "" (Sentinel ErrFinalityProviderJailed) (": " +:+ GetBtcPkHex i))
  else
    startHeight ← wrapping ("failed to bootstrap the finality-provider " +:+ GetBtcPkHex i +:+ ": ")
                    (bootstrap fuel);
    poller ← wrapping "failed to start the poller: " (startPoller fuel (u64 (startHeight + 1)));
    onIns (set_poller (Some poller)) ;;
    onIns (set_laggingTarget None).            (* make(chan *types.BlockInfo, 1) *)

(** [fp.poller.Stop()]; a nil poller is dereferenced *)
Definition stopPoller : ST unit := λ s,
  match i_poller (st_ins s) with
  | None => (Fatal "nil pointer dereference", s)
  | Some p =>
      let '(o, ps) := poller_Stop (mkPollerSt p (st_w s) (st_fm s)) in
      (o, st_set_ins (set_poller (Some (ps_poller ps)) (st_ins s))
            (st_set_fm (ps_metrics ps) (st_set_w (ps_world ps) s)))
  end.

(** [Stop] up to [fp.wg.Wait()] *)
Definition Stop : ST unit :=
  i ← ins id;
  onIns (set_isStarted false) ;;
  if negb (i_isStarted i)
  then throw (ErrorString ("the finality-provider " +:+ GetBtcPkHex i +:+ " has already stopped"))
  else wrapping "failed to stop the poller: " stopPoller.

(** *** The loops *)

(** [case b := <-fp.poller.GetBlockInfoChan()] *)
Definition handleBlock (fuel : nat) (b : BlockInfo) : ST unit :=
  i ← ins id;
  if hasProcessed b i then mret tt
  else
    r ← attempt (hasVotingPower b);
    match r with
    | inl err => reportCriticalErr err
    | inr false =>
        MustSetLastProcessedHeight (Height b) ;;
        onFm (IncrementFpTotalBlocksWithoutVotingPower (GetBtcPkHex i))
    | inr true =>
        r ← attempt (retrySubmitFinalitySignatureUntilBlockFinalized fuel 0 b);
        match r with
        | inl err =>
            onFm (IncrementFpTotalFailedVotes (GetBtcPkHex i)) ;;
            if negb (errors_Is err ErrFinalityProviderShutDown) then reportCriticalErr err
            else mret tt
        | inr _ => mret tt
        end
    end.

(** [case targetBlock := <-fp.laggingTargetChan] *)
Definition handleLagging (fuel : nat) (targetBlock : BlockInfo) : ST unit :=
  r ← attempt (tryFastSync fuel targetBlock);
  onIns (set_isLagging false) ;;
  match r with
  | inl err =>
      if errors_Is err ErrFinalityProviderSlashed then reportCriticalErr err else mret tt
  | inr None => mret tt
  | inr (Some _) =>
      h ← ins GetLastProcessedHeight;
      _ ← attempt (onW (poller_SkipToHeight (u64 (h + 1))));
      mret tt
  end.

(** [case <-commitRandTicker.C] *)
Definition randomnessTick (fuel : nat) : ST unit :=
  r ← attempt getLatestBlockWithRetry;
  match r with
  | inl err => reportCriticalErr err
  | inr tipBlock =>
      r ← attempt (retryCommitPubRandUntilBlockFinalized fuel 0 tipBlock);
      match r with
      | inl err =>
          hex ← ins GetBtcPkHex;
          onFm (IncrementFpTotalFailedRandomness hex) ;;
          reportCriticalErr err
      | inr _ => mret tt
      end
  end.

(** [case <-fastSyncTicker.C]; the send blocks when the channel is full *)
Definition checkLaggingTick : ST unit :=
  i ← ins id;
  if i_isLagging i then mret tt
  else
    r ← attempt getLatestBlockWithRetry;
    match r with
    | inl _ => mret tt
    | inr latestBlock =>
        i ← ins id;
        if checkLagging latestBlock i
        then
          onIns (set_isLagging true) ;;
          onIns (set_laggingTarget (Some latestBlock))
        else mret tt
    end.

Inductive ins_event :=
  | EvBlock (b : BlockInfo)   (* the poller delivers a block *)
  | EvLagging                 (* the target on laggingTargetChan is received *)
  | EvRandTick
  | EvLagTick.

Definition run_event (fuel : nat) (ev : ins_event) : ST unit :=
  match ev with
  | EvBlock b => handleBlock fuel b
  | EvLagging =>
      t ← ins i_laggingTarget;
      match t with
      | None => mret tt
      | Some target => onIns (set_laggingTarget None) ;; handleLagging fuel target
      end
  | EvRandTick => randomnessTick fuel
  | EvLagTick => checkLaggingTick
  end.

(** A run: the events one after the other, until one of them ends the
    process *)
Definition run_events (fuel : nat) (evs : list ins_event) : ST unit := mapM_ (run_event fuel) evs.
End FpInstance.

(** ** Frames *)

#[export] Hint Resolve st_le_SubmitFinalitySignature st_le_CommitPubRand st_le_SubmitBatch
  st_le_retrySubmit st_le_retryCommit : frame.

Section frames.
Context `{CryptoLaws} `{CodecLaws} `{BbnErrors} `{RetryGoLaws}.
Context {W E Db : Type} `{!ClientController W} `{!ClientControllerLaws W} `{!Env W}.
Context `{!EOTSManager E} `{!EOTSManagerLaws E} `{!Kvdb Db} `{!KvdbLaws Db}.
Implicit Types (s : St W E Db) (b : BlockInfo).

Abbreviation ST := (M (St W E Db)).

Lemma int64_u64 h : (0 <= h <= MaxInt64)%Z → is_u64 h.
Proof. u64_unfold. lia. Qed.

Lemma blocks_u64 start end_ limit (w : W) bs w' :
  cc_QueryBlocks start end_ limit w = (Ok bs, w') → Forall (λ b, is_u64 (Height b)) bs.
Proof. intros Hq%QueryBlocks_int64. eapply Forall_impl; [done|]. simpl. intros b. apply int64_u64. Qed.

Lemma lastBlock_u64 c0 cs :
  Forall (λ b, is_u64 (Height b)) (c0 :: cs) → is_u64 (Height (lastBlock c0 cs)).
Proof. intros HF. rewrite Forall_forall in HF. apply HF, lastBlock_elem. Qed.

Lemma st_le_collect bs : frame st_le (collectCatchUpBlocks bs : ST (list BlockInfo)).
Proof. induction bs as [|b bs IH]; cbn [collectCatchUpBlocks]; frame_auto. Qed.

Lemma st_le_loop fuel start end_ sy rs :
  frame st_le (fastSyncLoop fuel start end_ sy rs : ST (Z * list TxResponse)).
Proof.
  revert start sy rs. induction fuel as [|fuel IH]; intros start sy rs; cbn [fastSyncLoop]; [frame_auto|].
  destruct (negb _); [frame_auto|].
  apply frame_bind; [apply _|frame_auto|intros i].
  apply frame_bind_res; [apply _|frame_auto|intros s bs s' (w' & Hq & _)%zoom_inv].
  destruct bs as [|b0 bs]; [frame_auto|].
  apply frame_bind_res; [apply _|apply st_le_collect|intros s1 cs s2 Hc%collect_sublist].
  pose proof (Forall_sublist _ _ _ Hc (blocks_u64 _ _ _ _ _ _ Hq)) as HF.
  destruct cs as [|c0 cs]; frame_auto.
Qed.

Lemma loop_synced_u64 fuel start end_ sy rs s r s' :
  is_u64 sy → fastSyncLoop fuel start end_ sy rs s = (Ok r, s') → is_u64 r.1.
Proof.
  revert start sy rs s. induction fuel as [|fuel IH]; intros start sy rs s Hsy; cbn [fastSyncLoop]; [done|].
  destruct (negb _); [by intros [= <- <-]|].
  intros (i & s0 & _ & Hrun)%bind_Ok_inv.
  apply bind_Ok_inv in Hrun as (bs & s1 & (w' & Hq & _)%zoom_inv & Hrun).
  destruct bs as [|b0 bs]; [by injection Hrun as <- <-|].
  apply bind_Ok_inv in Hrun as (cs & s2 & Hc%collect_sublist & Hrun).
  pose proof (Forall_sublist _ _ _ Hc (blocks_u64 _ _ _ _ _ _ Hq)) as HF.
  destruct cs as [|c0 cs]; [by eapply IH in Hrun|].
  apply bind_Ok_inv in Hrun as (res & s3 & _ & Hrun).
  apply bind_Ok_inv in Hrun as ([] & s4 & _ & Hrun).
  apply IH in Hrun; [done|by apply lastBlock_u64].
Qed.

Lemma st_le_FastSync fuel start end_ : frame st_le (FastSync fuel start end_ : ST FastSyncResult).
Proof.
  unfold FastSync. frame_auto; [by apply st_le_onIns; intros i|].
  apply frame_deferring; [apply _|intros s; split; (done || reflexivity)|].
  destruct (end_ <? start)%Z; [frame_auto|].
  apply frame_bind_res; [apply _|apply st_le_loop|intros s r s' Hr].
  assert (is_u64 r.1) by (eapply loop_synced_u64; [|done]; u64_unfold; lia). frame_auto.
Qed.

Lemma st_le_tryFastSync fuel target : frame st_le (tryFastSync fuel target : ST (option FastSyncResult)).
Proof. unfold tryFastSync. frame_auto. apply st_le_FastSync. Qed.
End frames.

#[export] Hint Resolve st_le_tryFastSync : frame.

(** ** Theorems *)

Section theorems.
Context `{CryptoLaws} `{CodecLaws} `{BbnErrors} `{RetryGoLaws}.
Context {W E Db : Type} `{!ClientController W} `{!ClientControllerLaws W} `{!Env W}.
Context `{!EOTSManager E} `{!EOTSManagerLaws E} `{!Kvdb Db} `{!KvdbLaws Db}.
Implicit Types (s : St W E Db) (b : BlockInfo).

Abbreviation ST := (M (St W E Db)).

Definition event_wf (ev : ins_event) : Prop :=
  match ev with EvBlock b => is_u64 (Height b) | _ => True end.

Lemma st_le_run_event fuel ev : event_wf ev → frame st_le (run_event fuel ev : ST unit).
Proof.
  destruct ev as [b| | |]; simpl; intros Hwf.
  - unfold handleBlock. frame_auto.
  - unfold handleLagging. frame_auto; by apply st_le_onIns; intros i.
  - unfold randomnessTick. frame_auto.
  - unfold checkLaggingTick. frame_auto; by apply st_le_onIns; intros i.
Qed.

Lemma frame_run_events R `{!PreOrder R} fuel evs :
  Forall (λ ev, frame R (run_event fuel ev : ST unit)) evs → frame R (run_events fuel evs : ST unit).
Proof.
  unfold run_events. induction 1 as [|ev evs Hev _ IH]; simpl; [apply frame_ret; apply _|].
  apply frame_bind; [apply _|done|done].
Qed.

(** Whatever blocks, fast syncs, randomness commitments and lagging
    checks an instance goes through, in whatever order and whatever the
    chain, the EOTS manager and the database answer: the instance keeps its
    identity, its stored record keeps existing with heights that never
    decrease and a processed height at least the voted height, every stored
    inclusion proof stays, and no signature is ever taken out of the
    history. *)
Theorem instance_history_is_safe fuel evs s s' o k fp :
  Forall event_wf evs → run_events fuel evs s = (o, s') → store_wf (st_db s) →
  fp_lookup (st_db s) k = Some fp →
  same_identity (st_ins s) (st_ins s') ∧ store_wf (st_db s') ∧
  (∃ fp', fp_lookup (st_db s') k = Some fp' ∧
     (LastVotedHeight fp <= LastVotedHeight fp')%Z ∧
     (LastProcessedHeight fp <= LastProcessedHeight fp')%Z ∧
     (LastVotedHeight fp' <= LastProcessedHeight fp')%Z) ∧
  (∀ pr v, pr_lookup (st_db s) pr = Some v → pr_lookup (st_db s') pr = Some v) ∧
  st_signed s `prefix_of` st_signed s'.
Proof.
  intros Hwf Hrun Hst Hfp.
  assert (frame st_le (run_events fuel evs : ST unit)) as Hle.
  { apply frame_run_events; [apply _|]. eapply Forall_impl; [done|]. apply st_le_run_event. }
  specialize (Hle s). rewrite Hrun in Hle. simpl in Hle. destruct Hle as [Hi _ (Hdb & _ & Hpr) Hsg].
  destruct (Hdb Hst) as [Hst' Hh]. destruct (Hh _ _ Hfp) as (fp' & Hfp' & ? & ?).
  destruct (store_wf_lookup _ _ _ Hst' Hfp') as [_ (_&_&_&_&_&?)].
  split_and!; [done|done|by exists fp'|done|done].
Qed.

(** *** Equivocation *)

(** A block as [QueryBlock] returns it, which is what the poller delivers *)
Definition from_chain b : Prop := ∃ h (w : W) w', cc_QueryBlock h w = (Ok b, w').

Definition event_from_chain (ev : ins_event) : Prop :=
  match ev with EvBlock b => from_chain b | _ => True end.

Section honest.
Context `{!ConsistentChain W}.

Lemma from_chain_honest b : from_chain b → honest_vote (vote_entry b).
Proof.
  intros (h & w & w' & Hq%QueryBlock_hash). unfold honest_vote, vote_entry, vote_msg. simpl.
  by rewrite Hq.
Qed.

Lemma honest_tryFastSync fuel target :
  frame (signs honest_vote) (tryFastSync fuel target : ST (option FastSyncResult)).
Proof.
  unfold tryFastSync. frame_auto. apply signs_FastSync; [case_match; apply u64_range|].
  intros start' limit w bs w' _ _ Hq.
  apply QueryBlocks_hash in Hq. eapply Forall_impl; [done|]. simpl. intros b Hb.
  unfold honest_vote, vote_entry, vote_msg. simpl. by rewrite Hb.
Qed.

Lemma honest_retrySubmit fuel n b :
  honest_vote (vote_entry b) →
  frame (signs honest_vote) (retrySubmitFinalitySignatureUntilBlockFinalized fuel n b : ST _).
Proof.
  intros Hb. revert n. induction fuel as [|fuel IH]; intros n;
    cbn [retrySubmitFinalitySignatureUntilBlockFinalized]; [frame_auto|].
  apply frame_bind; [apply _|by apply frame_attempt, signs_SubmitFinalitySignature|].
  intros [err|res]; unfold awaitRetry, checkBlockFinalization; frame_auto.
Qed.

Lemma honest_retryCommit P fuel n b :
  frame (signs P) (retryCommitPubRandUntilBlockFinalized fuel n b : ST (option TxResponse)).
Proof.
  revert n. induction fuel as [|fuel IH]; intros n;
    cbn [retryCommitPubRandUntilBlockFinalized]; [frame_auto|].
  unfold awaitRetry, checkBlockFinalization, CommitPubRand, commitPubRandFrom, signPubRandCommit,
    GetLastCommittedHeight, lastCommittedPublicRandWithRetry. frame_auto.
Qed.

Lemma honest_run_event fuel ev :
  event_from_chain ev → frame (signs honest_vote) (run_event fuel ev : ST unit).
Proof.
  destruct ev as [b| | |]; simpl; intros Hev.
  - apply from_chain_honest in Hev. unfold handleBlock, reportCriticalErr. frame_auto.
    by apply honest_retrySubmit.
  - unfold handleLagging, reportCriticalErr. frame_auto. apply honest_tryFastSync.
  - unfold randomnessTick, getLatestBlockWithRetry, reportCriticalErr. frame_auto.
    apply honest_retryCommit.
  - unfold checkLaggingTick, getLatestBlockWithRetry. frame_auto.
Qed.

(** No double signing: on a chain with one application hash per
    height, whatever the instance goes through, and even though a height
    may be signed more than once, two messages it signs for the same
    height are the same message. *)
Theorem instance_never_equivocates fuel evs s s' o h m1 m2 :
  Forall event_from_chain evs → Forall honest_vote (st_signed s) →
  run_events fuel evs s = (o, s') →
  (h, m1) ∈ st_signed s' → (h, m2) ∈ st_signed s' → m1 = m2.
Proof.
  intros Hev Hs Hrun H1m H2m.
  assert (frame (signs honest_vote) (run_events fuel evs : ST unit)) as Hsig.
  { apply frame_run_events; [apply _|]. eapply Forall_impl; [done|]. apply honest_run_event. }
  destruct (Hsig s) as (l & Hl & HF). rewrite Hrun in Hl. simpl in Hl.
  assert (Forall honest_vote (st_signed s')) as HF' by (rewrite Hl; by apply Forall_app).
  rewrite Forall_forall in HF'. pose proof (HF' _ H1m) as Ha. pose proof (HF' _ H2m) as Hb.
  unfold honest_vote in Ha, Hb. simpl in Ha, Hb. by rewrite Ha, Hb.
Qed.
End honest.

(** *** Creation, start and stop *)

(** An instance is created exactly for a stored finality provider whose
    status is REGISTERED, ACTIVE or INACTIVE, with the stored record in
    memory; it starts with no poller and all flags cleared. A jailed
    provider is refused with an error that is not
    [ErrFinalityProviderJailed]. *)
Theorem new_instance_spec `{!KvdbReliable Db} pk cfg pass (db : Db) fp :
  store_wf db → fp_lookup db (SerializePubKey pk) = Some fp →
  match Status fp with
  | REGISTERED | ACTIVE | INACTIVE =>
      ∃ sfp, stored_of fp sfp ∧
        NewFinalityProviderInstance (SerializePubKey pk) cfg pass db =
          (Ok (mkInstance (SerializePubKey pk) sfp cfg pass None None [] false false false), db)
  | _ => ∃ e, NewFinalityProviderInstance (SerializePubKey pk) cfg pass db = (Err e, db) ∧
           errors_Is e ErrFinalityProviderJailed = false
  end.
Proof.
  intros Hwf Hfp. destruct (must_to_btc_pk pk) as (pk' & Hpk & Hser).
  destruct (store_wf_lookup _ _ _ Hwf Hfp) as [Hkey Hv].
  destruct (valid_stored _ Hv) as (sfp & Hs). pose proof Hs as (Hp & Hsk & _ & _ & Hst).
  assert (NewFinalityProviderInstance (SerializePubKey pk) cfg pass db =
    if negb (ShouldStart sfp)
    then (Err (ErrorString ("the finality provider instance cannot be initiated with status " +:+
            status_String (s_Status sfp))), db)
    else (Ok (mkInstance (SerializePubKey pk) sfp cfg pass None None [] false false false), db)) as Hnew.
  { unfold NewFinalityProviderInstance.
    rewrite (bind_Ok _ _ _ pk' db) by (unfold lift; by rewrite Hpk).
    rewrite (bind_Ok _ _ _ sfp db) by (unfold wrapping; by rewrite get_run, Hser, Hfp, Hp by done).
    destruct (negb _); [done|].
    unfold mret, M_ret. do 3 f_equal. by rewrite bip340_of_pk, Hsk, Hkey. }
  rewrite Hnew. unfold ShouldStart. rewrite Hst.
  destruct (Status fp); simpl; eauto.
Qed.

(** The flag and the poller of an instance are untouched. *)
Definition same_run s s' : Prop :=
  i_isStarted (st_ins s') = i_isStarted (st_ins s) ∧ i_poller (st_ins s') = i_poller (st_ins s) ∧
  i_laggingTarget (st_ins s') = i_laggingTarget (st_ins s) ∧
  i_isLagging (st_ins s') = i_isLagging (st_ins s).

#[local] Instance same_run_preorder : PreOrder same_run.
Proof.
  split; [by intros s|]. intros s1 s2 s3 (?&?&?&?) (?&?&?&?). unfold same_run. split_and!; congruence.
Qed.

Lemma same_run_onW {A} (m : M W A) : frame same_run (onW m : ST A).
Proof. by intros s. Qed.
Lemma same_run_onE {A} (m : M E A) : frame same_run (onE m : ST A).
Proof. by intros s. Qed.
Lemma same_run_onDb {A} (m : M Db A) : frame same_run (onDb m : ST A).
Proof. by intros s. Qed.
Lemma same_run_onFm f : frame same_run (onFm f : ST unit).
Proof. by intros s. Qed.
Lemma same_run_noteSigned h m : frame same_run (noteSigned h m : ST unit).
Proof. by intros s. Qed.
Lemma same_run_ins {A} (f : FinalityProviderInstance → A) : frame same_run (ins f : ST A).
Proof. by intros s. Qed.
Lemma same_run_set_fp f : frame same_run (onIns (λ i, set_fp (f i) i) : ST unit).
Proof. by intros s. Qed.
Lemma same_run_set_inSync v : frame same_run (onIns (set_inSync v) : ST unit).
Proof. by intros s. Qed.
Lemma same_run_criticalErrs f : frame same_run (onIns (λ i, set_criticalErrs (f i) i) : ST unit).
Proof. by intros s. Qed.
Lemma same_run_must msg (m : ST unit) : frame same_run m → frame same_run (must msg m).
Proof. intros Hm. unfold must. frame_auto. Qed.
Lemma same_run_retry {A} (m : ST A) : frame same_run m → frame same_run (retry_Do RtyAttNum m).
Proof. intros Hm. apply frame_retry; [apply _|unfold RtyAttNum; lia|done]. Qed.
#[local] Hint Resolve same_run_onW same_run_onE same_run_onDb same_run_onFm same_run_noteSigned
  same_run_ins same_run_set_fp same_run_set_inSync same_run_criticalErrs same_run_retry : frame.

Lemma same_run_MustUpdate h : frame same_run (MustUpdateStateAfterFinalitySigSubmission h : ST unit).
Proof.
  unfold MustUpdateStateAfterFinalitySigSubmission, setLastProcessedAndVotedHeight. frame_auto.
  apply same_run_must. frame_auto.
Qed.
Lemma same_run_MustSetLastProcessed h : frame same_run (MustSetLastProcessedHeight h : ST unit).
Proof.
  unfold MustSetLastProcessedHeight, setLastProcessedHeight. frame_auto.
  apply same_run_must. frame_auto.
Qed.
Lemma same_run_MustSetStatus st : frame same_run (MustSetStatus st : ST unit).
Proof.
  unfold MustSetStatus, setStatus. apply same_run_must. frame_auto.
Qed.
#[local] Hint Resolve same_run_MustUpdate same_run_MustSetLastProcessed same_run_MustSetStatus : frame.

Lemma same_run_batch bs : frame same_run (SubmitBatchFinalitySignatures bs : ST TxResponse).
Proof.
  unfold SubmitBatchFinalitySignatures, getPubRandList, signBlocks, signFinalitySig. frame_auto.
Qed.

Lemma same_run_collect bs : frame same_run (collectCatchUpBlocks bs : ST (list BlockInfo)).
Proof.
  induction bs as [|b bs IH]; cbn [collectCatchUpBlocks]; [frame_auto|].
  unfold hasVotingPower, GetVotingPowerWithRetry. frame_auto.
Qed.
#[local] Hint Resolve same_run_batch same_run_collect : frame.

Lemma same_run_loop fuel start end_ sy rs : frame same_run (fastSyncLoop fuel start end_ sy rs : ST _).
Proof. revert start sy rs. induction fuel as [|fuel IH]; intros; cbn [fastSyncLoop]; frame_auto. Qed.
#[local] Hint Resolve same_run_loop : frame.

Lemma same_run_tryFastSync fuel b : frame same_run (tryFastSync fuel b : ST (option FastSyncResult)).
Proof.
  unfold tryFastSync, index0. frame_auto. unfold FastSync. frame_auto.
  apply frame_deferring; [apply _|by intros s|]. frame_auto.
Qed.
#[local] Hint Resolve same_run_tryFastSync : frame.

Lemma same_run_bootstrap fuel : frame same_run (bootstrap fuel : ST Z).
Proof.
  unfold bootstrap, getLatestBlockWithRetry, getPollerStartingHeight, latestFinalizedBlocksWithRetry.
  frame_auto.
Qed.

Lemma only_w_hasVotingPower b : frame only_w (hasVotingPower b : ST bool).
Proof.
  unfold hasVotingPower, GetVotingPowerWithRetry. frame_auto.
Qed.

Lemma same_run_startPoller fuel h : frame same_run (startPoller fuel h : ST ChainPoller).
Proof. intros s. unfold startPoller. by destruct (poller_Start _ _ _). Qed.

Lemma wrapping_Err {S A} pre (m : M S A) st e st' :
  wrapping pre m st = (Err e, st') → ∃ e0, m st = (Err e0, st').
Proof. unfold wrapping. destruct (m st) as [[] ?]; intros; simplify_eq; eauto. Qed.

(** What a start that fails leaves: the mark that the instance is started,
    and the rest as it was. *)
Lemma Start_Err_run fuel s e s' :
  Start fuel s = (Err e, s') → same_run (st_set_ins (set_isStarted true (st_ins s)) s) s'.
Proof.
  intros Hrun.
  unfold Start in Hrun. unfold mbind at 1 2, M_bind at 1 2, ins at 1, gets, onIns at 1, modify in Hrun.
  simpl in Hrun. unfold id in Hrun.
  destruct (i_isStarted (st_ins s)); [by injection Hrun as _ <-|].
  destruct (IsJailed (st_ins s)); [by injection Hrun as _ <-|].
  match type of Hrun with ?m _ = _ => assert (on_err same_run m) as He end.
  { apply on_err_bind; [apply _|by apply frame_wrapping, same_run_bootstrap|intros h].
    apply on_err_bind; [apply _|by apply frame_wrapping, same_run_startPoller|intros p].
    by apply on_err_never. }
  by apply (He _ _ _ Hrun).
Qed.

Lemma Start_Err_started fuel s e s' : Start fuel s = (Err e, s') → i_isStarted (st_ins s') = true.
Proof. by intros (Hs & _)%Start_Err_run. Qed.

Lemma failed_start_state fuel s e s' :
  i_isStarted (st_ins s) = false → i_poller (st_ins s) = None → Start fuel s = (Err e, s') →
  i_isStarted (st_ins s') = true ∧ i_poller (st_ins s') = None.
Proof. intros _ Hp (Hs & Hp' & _)%Start_Err_run. by rewrite Hs, Hp'. Qed.

Lemma Start_Ok_started fuel s s' :
  Start fuel s = (Ok tt, s') → i_isStarted (st_ins s') = true ∧ is_Some (i_poller (st_ins s')).
Proof.
  unfold Start. intros Hrun. apply bind_Ok_inv in Hrun as (i & s0 & Hi & Hrun). injection Hi as <- <-.
  rewrite (bind_Ok _ _ _ tt (st_set_ins (set_isStarted true (st_ins s)) s)) in Hrun by done.
  set (s0 := st_set_ins (set_isStarted true (st_ins s)) s) in *.
  assert (i_isStarted (st_ins s0) = true) as Hs0 by done. clearbody s0. unfold id in Hrun.
  destruct (i_isStarted (st_ins s)); [done|]. destruct (IsJailed _); [done|].
  apply bind_Ok_inv in Hrun as (h & s1 & Hb%wrapping_inv & Hrun).
  apply bind_Ok_inv in Hrun as (p & s2 & Hp%wrapping_inv & Hrun).
  rewrite (bind_Ok _ _ _ tt (st_set_ins (set_poller (Some p) (st_ins s2)) s2)) in Hrun by done.
  injection Hrun as <-. simpl.
  pose proof (same_run_bootstrap fuel s0) as H1r. rewrite Hb in H1r.
  pose proof (same_run_startPoller fuel (u64 (h + 1)) s1) as H2r. rewrite Hp in H2r. simpl in H1r, H2r.
  destruct H1r as [Ha _], H2r as [Hb' _]. split; [congruence|by eexists].
Qed.

Lemma started_Start fuel s :
  i_isStarted (st_ins s) = true →
  (Start fuel s).1 = Err (ErrorString ("the finality-provider instance " +:+ GetBtcPkHex (st_ins s) +:+
                             " is already started")).
Proof. intros Hs. unfold Start, mbind, M_bind, ins, gets, onIns, modify. simpl. by rewrite Hs. Qed.

Lemma started_Stop_nil s :
  i_isStarted (st_ins s) = true → i_poller (st_ins s) = None →
  (Stop s).1 = Fatal "nil pointer dereference".
Proof.
  intros Hs Hp. unfold Stop, mbind, M_bind, ins, gets, onIns, modify, stopPoller, wrapping. simpl.
  rewrite Hs. simpl. by rewrite Hp.
Qed.

(** A start that fails cannot be repaired: the instance counts as
    running, a second [Start] answers that it is already started, and
    [Stop] dereferences the poller that was never created. *)
Theorem failed_start_is_stuck fuel s e s' :
  i_isStarted (st_ins s) = false → i_poller (st_ins s) = None → Start fuel s = (Err e, s') →
  IsRunning (st_ins s') = true ∧
  (∃ e', (Start fuel s').1 = Err e' ∧
     Error e' = "the finality-provider instance " +:+ GetBtcPkHex (st_ins s') +:+ " is already started") ∧
  (Stop s').1 = Fatal "nil pointer dereference".
Proof.
  intros Hst Hp Hrun. destruct (failed_start_state _ _ _ _ Hst Hp Hrun) as [Hs' Hp'].
  split_and!; [done| |by apply started_Stop_nil]. eexists. by rewrite started_Start.
Qed.

(** Where polling begins: with auto scanning on, [Start] polls from one
    above the larger of the last processed height and the latest finalized
    height, taken to be at least 1; with auto scanning off, from one above
    the configured static height. *)
Theorem poller_starting_height s h s' :
  getPollerStartingHeight s = (Ok h, s') → let i := st_ins s in
  if AutoChainScanningMode (PollerConfig (i_cfg i))
  then ∃ s0 fin, cc_QueryLatestFinalizedBlocks 1 (st_w s0) = (Ok fin, st_w s') ∧
    h = (let m := match fin with
                  | Some (f :: _) => Z.max (GetLastProcessedHeight i) (Height f)
                  | _ => GetLastProcessedHeight i
                  end in
         if (m =? 0)%Z then 1%Z else m)
  else h = StaticChainScanningStartHeight (PollerConfig (i_cfg i)).
Proof.
  unfold getPollerStartingHeight. intros Hrun. cbv zeta.
  apply bind_Ok_inv in Hrun as (i & s0 & Hi & Hrun). injection Hi as <- <-. unfold id in Hrun.
  destruct (AutoChainScanningMode _); simpl in Hrun; [|by injection Hrun as <- <-].
  apply bind_Ok_inv in Hrun as (fin & s1 & Hq & Hrun). injection Hrun as <- <-.
  apply retry_Do_Ok_inv in Hq as (s0 & (w' & Hq & ->)%zoom_inv); [|done].
  exists s0, fin. split; [done|].
  destruct fin as [[|f fb]|]; try done.
  destruct (Z.ltb_spec (GetLastProcessedHeight (st_ins s)) (Height f)).
  - by rewrite Z.max_r by lia.
  - by rewrite Z.max_l by lia.
Qed.

(** A block on which the provider has no voting power is not voted on
    and counts as processed: nothing is signed, and its height becomes the
    last processed height in memory and raises the one in the database. *)
Theorem block_without_power_is_processed fuel b s s1 s' :
  hasProcessed b (st_ins s) = false → hasVotingPower b s = (Ok false, s1) →
  handleBlock fuel b s = (Ok tt, s') →
  GetLastProcessedHeight (st_ins s') = Height b ∧ st_signed s' = st_signed s ∧
  GetLastVotedHeight (st_ins s') = GetLastVotedHeight (st_ins s) ∧
  SetFpLastProcessedHeight (GetBtcPk (st_ins s)) (Height b) (st_db s) = (Ok tt, st_db s').
Proof.
  intros Hp Hvp Hrun.
  assert (only_w s s1) as Hw.
  { pose proof (only_w_hasVotingPower b s) as Hw. by rewrite Hvp in Hw. }
  unfold handleBlock in Hrun. apply bind_Ok_inv in Hrun as (i & s0 & Hi & Hrun). injection Hi as <- <-.
  unfold id in Hrun. rewrite Hp in Hrun.
  rewrite (bind_Ok _ _ _ (inr false) s1) in Hrun by (unfold attempt; by rewrite Hvp).
  apply bind_Ok_inv in Hrun as ([] & s2 & Hset & Hrun). injection Hrun as <-.
  unfold MustSetLastProcessedHeight, must, setLastProcessedHeight, mbind, M_bind, attempt, onIns, modify,
    ins, gets, onDb, zoom, onFm in Hset. simpl in Hset.
  rewrite Hw in Hset. simpl in Hset.
  change (GetBtcPk (set_fp _ (st_ins s))) with (GetBtcPk (st_ins s)) in Hset.
  destruct (SetFpLastProcessedHeight _ (Height b) (st_db s)) as [[[]| | |] db']; simpl in Hset; try done.
  by injection Hset as <-.
Qed.

(** *** The lagging channel *)

(** A target waits in the channel only while the instance is lagging. *)
Definition lag_inv s : Prop := i_isLagging (st_ins s) = false → i_laggingTarget (st_ins s) = None.

Lemma same_run_lag s s' : same_run s s' → lag_inv s → lag_inv s'.
Proof. intros (_ & _ & Ht & Hl) Hinv. unfold lag_inv. by rewrite Ht, Hl. Qed.

Lemma lag_inv_frame {A} (m : ST A) s : frame same_run m → lag_inv s → lag_inv (m s).2.
Proof. intros Hm. by apply same_run_lag. Qed.

Lemma same_run_handleBlock fuel b : frame same_run (handleBlock fuel b : ST unit).
Proof.
  assert (∀ n, frame same_run (retrySubmitFinalitySignatureUntilBlockFinalized fuel n b : ST _)) as Hr.
  { induction fuel as [|fuel IH]; intros n; cbn [retrySubmitFinalitySignatureUntilBlockFinalized];
      [frame_auto|].
    unfold awaitRetry, checkBlockFinalization, SubmitFinalitySignature, signFinalitySig, getPubRandList,
      index0. frame_auto. }
  unfold handleBlock, hasVotingPower, GetVotingPowerWithRetry, reportCriticalErr. frame_auto.
Qed.

Lemma same_run_randomnessTick fuel : frame same_run (randomnessTick fuel : ST unit).
Proof.
  assert (∀ n b, frame same_run (retryCommitPubRandUntilBlockFinalized fuel n b : ST _)) as Hr.
  { induction fuel as [|fuel IH]; intros n b; cbn [retryCommitPubRandUntilBlockFinalized]; [frame_auto|].
    unfold awaitRetry, checkBlockFinalization, CommitPubRand, commitPubRandFrom, signPubRandCommit,
      getPubRandList, GetLastCommittedHeight, lastCommittedPublicRandWithRetry. frame_auto. }
  unfold randomnessTick, getLatestBlockWithRetry, reportCriticalErr. frame_auto.
Qed.

(** The content of the channel is untouched. *)
Definition same_target s s' : Prop := i_laggingTarget (st_ins s') = i_laggingTarget (st_ins s).

#[local] Instance same_target_preorder : PreOrder same_target.
Proof. split; [done|]. intros s1 s2 s3 ? ?. unfold same_target in *. congruence. Qed.

Lemma same_target_handleLagging fuel t : frame same_target (handleLagging fuel t : ST unit).
Proof.
  assert (∀ A (m : ST A), frame same_run m → frame same_target m) as Hsub.
  { intros A m Hm s. by destruct (Hm s) as (_ & _ & ? & _). }
  unfold handleLagging. apply frame_bind; [apply _|apply Hsub; frame_auto|intros r].
  apply frame_bind; [apply _|by intros s|intros _]. apply Hsub. unfold reportCriticalErr. frame_auto.
Qed.

Lemma lag_inv_event fuel ev s : lag_inv s → lag_inv (run_event fuel ev s).2.
Proof.
  intros Hinv. destruct ev as [b| | |]; cbn [run_event].
  - apply lag_inv_frame; [apply same_run_handleBlock|done].
  - unfold mbind at 1, M_bind at 1, ins, gets. cbv beta iota zeta.
    destruct (i_laggingTarget (st_ins s)) as [t|] eqn:Et; [|done].
    unfold mbind, M_bind, onIns, modify. cbv beta iota zeta. intros _.
    by rewrite (same_target_handleLagging fuel t).
  - apply lag_inv_frame; [apply same_run_randomnessTick|done].
  - unfold checkLaggingTick, mbind at 1, M_bind at 1, ins at 1, gets. cbv beta iota zeta. unfold id.
    destruct (i_isLagging (st_ins s)) eqn:El; [done|].
    assert (frame same_run (attempt getLatestBlockWithRetry : ST _)) as Hf
      by (unfold getLatestBlockWithRetry; frame_auto).
    unfold mbind at 1, M_bind at 1. pose proof (lag_inv_frame _ s Hf Hinv) as Hinv'.
    destruct (attempt getLatestBlockWithRetry s) as [[[e|b]| | |] s1]; simpl in *; try done.
    unfold mbind at 1, M_bind at 1. simpl. by destruct (checkLagging b (st_ins s1)).
Qed.

(** The lagging check never blocks on its channel of capacity one: in
    every run from a started instance, when the instance is not lagging, so
    that the check may send a target, the channel is empty. *)
Theorem lagging_channel_has_room fuel evs s o s' :
  lag_inv s → run_events fuel evs s = (o, s') →
  i_isLagging (st_ins s') = false → i_laggingTarget (st_ins s') = None.
Proof.
  intros Hinv Hrun. assert (frame (λ s s', lag_inv s → lag_inv s') (run_events fuel evs : ST unit)) as Hf.
  { apply frame_run_events; [split; [by intros ?|intros ? ? ? ? ?; auto]|].
    apply Forall_forall. intros ev _ s0. apply lag_inv_event. }
  specialize (Hf s Hinv). by rewrite Hrun in Hf.
Qed.
End theorems.
