(* ===== verification/FpManager.v ===== *)
(** * FpManager: the manager of the finality provider instance

    Models [src/finality-provider/service/fp_manager.go]: the manager holds at
    most one instance, starts it, stops it, and runs two monitors: one for the
    critical errors of the instance, one that follows the status of the
    provider on the chain. Each turn of a monitor runs as a whole. *)

From stdpp Require Import base gmap list strings pretty.
From Stdlib Require Import ZArith Lia.
From S2P Require Import Prelude Errors Monad Types Kvdb FpStore PubRandStore Metrics EotsManager.
From S2P Require Import Config ClientController Poller FpState Voting FastSync FpInstance.

Section FpManager.
Context `{Crypto} `{Codec} `{BbnErrors} `{RetryGo}.
Context {W E Db : Type} `{!ClientController W} `{!Env W} `{!EOTSManager E} `{!Kvdb Db}.

Record FinalityProviderManager := mkManager {
  fpm_config : Config;
  fpm_fpIns : option FinalityProviderInstance;   (* nil when there is none *)
  fpm_startOnce : bool;                          (* the monitors were started *)
  fpm_stopOnce : bool;                           (* quit is closed, the monitors have returned *)
}.

Definition set_fpIns v (m : FinalityProviderManager) :=
  mkManager (fpm_config m) v (fpm_startOnce m) (fpm_stopOnce m).
Definition set_startOnce v (m : FinalityProviderManager) :=
  mkManager (fpm_config m) (fpm_fpIns m) v (fpm_stopOnce m).
Definition set_stopOnce v (m : FinalityProviderManager) :=
  mkManager (fpm_config m) (fpm_fpIns m) (fpm_startOnce m) v.

(** The manager with what it shares with its instance; [mst_signed] is the
    history of signatures of all its instances. *)
Record MSt := mkMSt {
  mst_m : FinalityProviderManager;
  mst_w : W;
  mst_e : E;
  mst_db : Db;
  mst_fm : FpMetrics;
  mst_signed : list (Z * bytes);
}.

Definition mst_set_m v s := mkMSt v (mst_w s) (mst_e s) (mst_db s) (mst_fm s) (mst_signed s).
Definition mst_set_w v s := mkMSt (mst_m s) v (mst_e s) (mst_db s) (mst_fm s) (mst_signed s).
Definition mst_set_e v s := mkMSt (mst_m s) (mst_w s) v (mst_db s) (mst_fm s) (mst_signed s).
Definition mst_set_db v s := mkMSt (mst_m s) (mst_w s) (mst_e s) v (mst_fm s) (mst_signed s).
Definition mst_set_fm v s := mkMSt (mst_m s) (mst_w s) (mst_e s) (mst_db s) v (mst_signed s).

Abbreviation MS := (M MSt).

Definition mOnW {A} : M W A → MS A := zoom mst_w mst_set_w.
Definition mOnDb {A} : M Db A → MS A := zoom mst_db mst_set_db.
Definition onMgr (f : FinalityProviderManager → FinalityProviderManager) : MS unit :=
  modify (λ s, mst_set_m (f (mst_m s)) s).
Definition mgr {A} (f : FinalityProviderManager → A) : MS A := gets (λ s, f (mst_m s)).

(** The state of the instance [i] of the manager, and back *)
Definition st_of (i : FinalityProviderInstance) (s : MSt) : St W E Db :=
  mkSt i (mst_w s) (mst_e s) (mst_db s) (mst_fm s) (mst_signed s).
Definition mst_of (t : St W E Db) (s : MSt) : MSt :=
  mkMSt (set_fpIns (Some (st_ins t)) (mst_m s)) (st_w t) (st_e t) (st_db t) (st_fm t) (st_signed t).

(** A method of [fpm.fpIns] *)
Definition onInstance {A} (m : M (St W E Db) A) : MS A := λ s,
  match fpm_fpIns (mst_m s) with
  | None => (Fatal "nil pointer dereference", s)
  | Some i => let r := m (st_of i s) in (r.1, mst_of r.2 s)
  end.

Definition instanceTerminatingMsg : string :=
  "terminating the finality-provider instance due to critical error".

(** [CriticalError.Error] *)
Definition CriticalError_Error (ce : CriticalError) : string :=
  "critical err on finality-provider " +:+ MarshalHex (ce_fpBtcPk ce) +:+ ": " +:+ Error (ce_err ce).

Definition NewFinalityProviderManager (config : Config) : FinalityProviderManager :=
  mkManager config None false false.

Definition GetFinalityProviderInstance : MS FinalityProviderInstance :=
  i ← mgr fpm_fpIns;
  match i with
  | None => throw (ErrorString "finality provider does not exist")
  | Some i => mret i
  end.

Definition IsFinalityProviderRunning (fpPk : bytes) (m : FinalityProviderManager) : bool :=
  match fpm_fpIns m with
  | None => false
  | Some i => if negb (bool_decide (GetBtcPkHex i = MarshalHex fpPk)) then false else IsRunning i
  end.

Definition mark_running (fpPk : bytes) (m : FinalityProviderManager) (info : FinalityProviderInfo) :=
  if IsFinalityProviderRunning fpPk m
  then mkFinalityProviderInfo (info_FpAddr info) (info_BtcPkHex info) (info_Description info)
         (info_Commission info) (info_LastVotedHeight info) (info_Status info) true
  else info.

Definition AllFinalityProviders : MS (list FinalityProviderInfo) :=
  storedFps ← mOnDb GetAllStoredFinalityProviders;
  m ← mgr id;
  mret ((λ fp, mark_running (GetBIP340BTCPK fp) m (ToFinalityProviderInfo fp)) <$> storedFps).

Definition FinalityProviderInfo_ (fpPk : bytes) : MS FinalityProviderInfo :=
  btcPk ← lift (MustToBTCPK fpPk);
  storedFp ← mOnDb (GetFinalityProvider btcPk);
  m ← mgr id;
  mret (mark_running fpPk m (ToFinalityProviderInfo storedFp)).

Definition removeFinalityProviderInstance : MS unit :=
  i ← mgr fpm_fpIns;
  match i with
  | None => throw (ErrorString "the finality provider instance does not exist")
  | Some i =>
      (if IsRunning i
       then
         r ← attempt (onInstance Stop);
         match r with
         | inl _ => throw (ErrorString ("failed to stop the finality provider instance " +:+ GetBtcPkHex i))
         | inr _ => mret tt
         end
       else mret tt) ;;
      onMgr (set_fpIns None)
  end.

(** [setFinalityProviderSlashed] and [setFinalityProviderJailed]; the
    argument [fpi] of the source is [fpm.fpIns] at every call *)
Definition setFinalityProviderSlashed : MS unit :=
  onInstance (MustSetStatus SLASHED) ;;
  r ← attempt removeFinalityProviderInstance;
  match r with
  | inl _ => fatal "failed to terminate a slashed finality-provider"
  | inr _ => mret tt
  end.

Definition setFinalityProviderJailed : MS unit :=
  onInstance (MustSetStatus JAILED) ;;
  r ← attempt removeFinalityProviderInstance;
  match r with
  | inl _ => fatal "failed to terminate a jailed finality-provider"
  | inr _ => mret tt
  end.

(** A turn of [monitorCriticalErr] *)
Definition handleCriticalErr (criticalErr : CriticalError) : MS unit :=
  r ← attempt GetFinalityProviderInstance;
  match r with
  | inl _ => mret tt
  | inr _ =>
      if errors_Is (ce_err criticalErr) ErrFinalityProviderSlashed then setFinalityProviderSlashed
      else if errors_Is (ce_err criticalErr) ErrFinalityProviderJailed then setFinalityProviderJailed
      else fatal instanceTerminatingMsg
  end.

Definition fpm_getLatestBlockWithRetry : MS BlockInfo := retry_Do RtyAttNum (mOnW cc_QueryBestBlock).

(** A turn of [monitorStatusUpdate] *)
Definition statusUpdateTick : MS unit :=
  fpi ← mgr fpm_fpIns;
  match fpi with
  | None => mret tt
  | Some fpi =>
      r ← attempt fpm_getLatestBlockWithRetry;
      match r with
      | inl _ => mret tt
      | inr latestBlock =>
          let oldStatus := GetStatus fpi in
          r ← attempt (onInstance (GetVotingPowerWithRetry (Height latestBlock)));
          match r with
          | inl _ => mret tt
          | inr power =>
              if (0 <? power)%Z
              then
                if negb (bool_decide (oldStatus = ACTIVE)) then onInstance (MustSetStatus ACTIVE)
                else mret tt
              else
                r ← attempt (onInstance GetFinalityProviderSlashedOrJailedWithRetry);
                match r with
                | inl _ => mret tt
                | inr (slashed, jailed) =>
                    if (slashed : bool) then setFinalityProviderSlashed
                    else if (jailed : bool) then setFinalityProviderJailed
                    else if bool_decide (oldStatus = ACTIVE) then onInstance (MustSetStatus INACTIVE)
                    else mret tt
                end
          end
      end
  end.

Definition startFinalityProviderInstance (fuel : nat) (pk : bytes) (passphrase : string) : MS unit :=
  m ← mgr id;
  (match fpm_fpIns m with
   | None =>
       fpIns ← wrapping ("failed to create finality provider instance " +:+ MarshalHex pk +:+ ": ")
                 (mOnDb (NewFinalityProviderInstance pk (fpm_config m) passphrase));
       onMgr (set_fpIns (Some fpIns))
   | Some _ => mret tt
   end) ;;
  onInstance (Start fuel).

Definition StartFinalityProvider (fuel : nat) (fpPk : bytes) (passphrase : string) : MS unit :=
  onMgr (set_startOnce true) ;;
  startFinalityProviderInstance fuel fpPk passphrase.

Definition fpm_Stop : MS unit :=
  m ← mgr id;
  if fpm_stopOnce m then mret tt
  else
    onMgr (set_stopOnce true) ;;
    match fpm_fpIns m with
    | None => mret tt
    | Some i => if negb (IsRunning i) then mret tt else onInstance Stop
    end.

(** What can happen to a manager: a request to start, a turn of a loop of
    its instance, a turn of a monitor. The monitors run once
    [StartFinalityProvider] was called and until [Stop]. *)
Inductive mgr_event :=
  | MStart (pk : bytes) (passphrase : string)
  | MInstance (ev : ins_event)
  | MCritical (ce : CriticalError)
  | MStatusTick
  | MStop.

Definition monitors_run (m : FinalityProviderManager) : bool :=
  fpm_startOnce m && negb (fpm_stopOnce m).

Definition mgr_run (fuel : nat) (ev : mgr_event) : MS unit :=
  m ← mgr id;
  match ev with
  | MStart pk passphrase => r ← attempt (StartFinalityProvider fuel pk passphrase); mret tt
  | MInstance ev =>
      match fpm_fpIns m with
      | Some i => if IsRunning i then onInstance (run_event fuel ev) else mret tt
      | None => mret tt
      end
  | MCritical ce => if monitors_run m then handleCriticalErr ce else mret tt
  | MStatusTick => if monitors_run m then statusUpdateTick else mret tt
  | MStop => r ← attempt fpm_Stop; mret tt
  end.

Definition mgr_runs (fuel : nat) (evs : list mgr_event) : MS unit := mapM_ (mgr_run fuel) evs.
End FpManager.
Arguments MSt {_ _} W E Db.

(** ** Frames *)

Section frames.
Context `{CryptoLaws} `{CodecLaws} `{BbnErrors} `{RetryGoLaws}.
Context {W E Db : Type} `{!ClientController W} `{!ClientControllerLaws W} `{!Env W}.
Context `{!EOTSManager E} `{!EOTSManagerLaws E} `{!Kvdb Db} `{!KvdbLaws Db}.
Implicit Types (s : MSt W E Db) (t : St W E Db).

Abbreviation ST := (M (St W E Db)).
Abbreviation MS := (M (MSt W E Db)).

Lemma frame_onInstance {A} (R : St W E Db → St W E Db → Prop) (RM : MSt W E Db → MSt W E Db → Prop)
    `{!PreOrder RM} (m : ST A) :
  (∀ i t s, fpm_fpIns (mst_m s) = Some i → R (st_of i s) t → RM s (mst_of t s)) →
  frame R m → frame RM (onInstance m).
Proof.
  intros HR Hm s. unfold onInstance. destruct (fpm_fpIns (mst_m s)) as [i|] eqn:Ei; [|reflexivity].
  apply (HR i); [done|apply Hm].
Qed.

(** What the manager keeps over all its instances *)
Record mst_le s s' : Prop := {
  mle_e : em_le (mst_e s) (mst_e s');
  mle_db : db_le (mst_db s) (mst_db s');
  mle_signed : mst_signed s `prefix_of` mst_signed s';
}.

#[export] Instance mst_le_preorder : PreOrder mst_le.
Proof.
  split; [intros s; split; reflexivity|]. intros s1 s2 s3 [? ? ?] [? ? ?].
  split; [by transitivity (mst_e s2)|by transitivity (mst_db s2)|by transitivity (mst_signed s2)].
Qed.

Lemma mst_le_onInstance {A} (m : ST A) : frame st_le m → frame mst_le (onInstance m).
Proof. apply frame_onInstance; [apply _|]. by intros i t s _ [_ ? ? ?]. Qed.

Lemma mst_le_onMgr f : frame mst_le (onMgr f : MS unit).
Proof. intros s. split; reflexivity. Qed.
Lemma mst_le_mgr {A} (f : FinalityProviderManager → A) : frame mst_le (mgr f : MS A).
Proof. intros s. split; reflexivity. Qed.
Lemma mst_le_mOnW {A} (m : M W A) : frame mst_le (mOnW m : MS A).
Proof. intros s. split; reflexivity. Qed.
Lemma mst_le_mOnDb {A} (m : M Db A) : frame db_le m → frame mst_le (mOnDb m : MS A).
Proof. apply frame_zoom. intros s d Hd. split; (done || reflexivity). Qed.
Lemma mst_le_retry {A} (m : MS A) : frame mst_le m → frame mst_le (retry_Do RtyAttNum m).
Proof. intros Hm. apply frame_retry; [apply _|unfold RtyAttNum; lia|done]. Qed.

(** Everything signed on the way from [s] to [s'] satisfies [P]. *)
Definition msigns (P : Z * bytes → Prop) s s' : Prop :=
  ∃ l, mst_signed s' = mst_signed s ++ l ∧ Forall P l.

#[export] Instance msigns_preorder P : PreOrder (msigns P).
Proof.
  split; [intros s; exists []; by rewrite app_nil_r|].
  intros s1 s2 s3 (l1 & H1l & ?) (l2 & H2l & ?). exists (l1 ++ l2).
  split; [by rewrite H2l, H1l, (assoc_L (++))|by apply Forall_app].
Qed.

Lemma msigns_same P s s' : mst_signed s' = mst_signed s → msigns P s s'.
Proof. intros Hs. exists []. by rewrite app_nil_r. Qed.

Lemma msigns_onInstance {A} P (m : ST A) : frame (signs P) m → frame (msigns P) (onInstance m).
Proof. apply frame_onInstance; [apply _|]. by intros i t s _ (l & ? & ?); exists l. Qed.

Lemma msigns_onMgr P f : frame (msigns P) (onMgr f : MS unit).
Proof. intros s. by apply msigns_same. Qed.
Lemma msigns_mgr {A} P (f : FinalityProviderManager → A) : frame (msigns P) (mgr f : MS A).
Proof. intros s. by apply msigns_same. Qed.
Lemma msigns_mOnW {A} P (m : M W A) : frame (msigns P) (mOnW m : MS A).
Proof. intros s. by apply msigns_same. Qed.
Lemma msigns_mOnDb {A} P (m : M Db A) : frame (msigns P) (mOnDb m : MS A).
Proof. intros s. by apply msigns_same. Qed.
Lemma msigns_retry {A} P (m : MS A) : frame (msigns P) m → frame (msigns P) (retry_Do RtyAttNum m).
Proof. intros Hm. apply frame_retry; [apply _|unfold RtyAttNum; lia|done]. Qed.
End frames.

#[export] Hint Resolve mst_le_onInstance mst_le_onMgr mst_le_mgr mst_le_mOnW mst_le_mOnDb mst_le_retry : frame.
#[export] Hint Resolve msigns_onInstance msigns_onMgr msigns_mgr msigns_mOnW msigns_mOnDb msigns_retry : frame.

Section event_frames.
Context `{CryptoLaws} `{CodecLaws} `{BbnErrors} `{RetryGoLaws}.
Context {W E Db : Type} `{!ClientController W} `{!ClientControllerLaws W} `{!Env W}.
Context `{!EOTSManager E} `{!EOTSManagerLaws E} `{!Kvdb Db} `{!KvdbLaws Db}.
Implicit Types (s : MSt W E Db) (t : St W E Db).

Abbreviation ST := (M (St W E Db)).
Abbreviation MS := (M (MSt W E Db)).

Lemma db_le_New pk cfg pass : frame db_le (NewFinalityProviderInstance pk cfg pass : M Db _).
Proof.
  unfold NewFinalityProviderInstance. frame_auto. intros db. simpl. reflexivity.
Qed.

Lemma st_le_mgr_MustSetStatus st : frame st_le (MustSetStatus st : ST unit).
Proof. unfold MustSetStatus. apply st_le_must, st_le_setStatus. Qed.

Lemma st_le_startPoller fuel h : frame st_le (startPoller fuel h : ST ChainPoller).
Proof. intros t. unfold startPoller. destruct (poller_Start _ _ _). split; (done || reflexivity). Qed.

Lemma st_le_stopPoller : frame st_le (stopPoller : ST unit).
Proof.
  intros t. unfold stopPoller. destruct (i_poller (st_ins t)); [|reflexivity].
  destruct (poller_Stop _). split; (done || reflexivity).
Qed.

Lemma st_le_GetVotingPower h : frame st_le (GetVotingPowerWithRetry h : ST Z).
Proof. unfold GetVotingPowerWithRetry. frame_auto. Qed.

Lemma st_le_GetSlashedOrJailed : frame st_le (GetFinalityProviderSlashedOrJailedWithRetry : ST (bool * bool)).
Proof. unfold GetFinalityProviderSlashedOrJailedWithRetry. frame_auto. Qed.

#[local] Hint Resolve st_le_mgr_MustSetStatus st_le_startPoller st_le_stopPoller db_le_New
  st_le_GetVotingPower st_le_GetSlashedOrJailed : frame.

Lemma st_le_Start fuel : frame st_le (Start fuel : ST unit).
Proof.
  unfold Start, bootstrap, getLatestBlockWithRetry, getPollerStartingHeight, latestFinalizedBlocksWithRetry.
  frame_auto; by apply st_le_onIns; intros i.
Qed.

Lemma st_le_Stop : frame st_le (Stop : ST unit).
Proof. unfold Stop. frame_auto. by apply st_le_onIns; intros i. Qed.

#[local] Hint Resolve st_le_Start st_le_Stop : frame.

Lemma mst_le_status_ops :
  frame mst_le (setFinalityProviderSlashed : MS unit) ∧ frame mst_le (setFinalityProviderJailed : MS unit).
Proof.
  unfold setFinalityProviderSlashed, setFinalityProviderJailed, removeFinalityProviderInstance.
  split; frame_auto.
Qed.

Definition mgr_event_wf (ev : mgr_event) : Prop :=
  match ev with MInstance ev => event_wf ev | _ => True end.

Lemma mst_le_run fuel ev : mgr_event_wf ev → frame mst_le (mgr_run fuel ev : MS unit).
Proof.
  destruct mst_le_status_ops as [Hs Hj].
  destruct ev as [pk pass|ev|ce| |]; simpl; intros Hwf; unfold mgr_run.
  - unfold StartFinalityProvider, startFinalityProviderInstance. frame_auto.
  - frame_auto. by apply mst_le_onInstance, st_le_run_event.
  - unfold handleCriticalErr, GetFinalityProviderInstance. frame_auto.
  - unfold statusUpdateTick, fpm_getLatestBlockWithRetry. frame_auto.
  - unfold fpm_Stop. frame_auto.
Qed.

Definition mgr_event_from_chain (ev : mgr_event) : Prop :=
  match ev with MInstance ev => event_from_chain (W := W) ev | _ => True end.

Lemma signs_startPoller P fuel h : frame (signs P) (startPoller fuel h : ST ChainPoller).
Proof. intros t. unfold startPoller. destruct (poller_Start _ _ _). by apply signs_same. Qed.

Lemma signs_stopPoller P : frame (signs P) (stopPoller : ST unit).
Proof.
  intros t. unfold stopPoller. destruct (i_poller (st_ins t)); [|by apply signs_same].
  destruct (poller_Stop _). by apply signs_same.
Qed.

Lemma signs_MustSetStatus P st : frame (signs P) (MustSetStatus st : ST unit).
Proof. unfold MustSetStatus, setStatus. apply signs_must. frame_auto. Qed.

Lemma signs_GetVotingPower P h : frame (signs P) (GetVotingPowerWithRetry h : ST Z).
Proof. unfold GetVotingPowerWithRetry. frame_auto. Qed.

Lemma signs_GetSlashedOrJailed P :
  frame (signs P) (GetFinalityProviderSlashedOrJailedWithRetry : ST (bool * bool)).
Proof. unfold GetFinalityProviderSlashedOrJailedWithRetry. frame_auto. Qed.

#[local] Hint Resolve signs_startPoller signs_stopPoller signs_MustSetStatus
  signs_GetVotingPower signs_GetSlashedOrJailed : frame.

Lemma honest_Start `{!ConsistentChain W} fuel : frame (signs honest_vote) (Start fuel : ST unit).
Proof.
  pose proof (honest_tryFastSync (W := W) (E := E) (Db := Db) fuel) as Hfs.
  unfold Start, bootstrap, getLatestBlockWithRetry, getPollerStartingHeight, latestFinalizedBlocksWithRetry.
  frame_auto.
Qed.

Lemma signs_Stop P : frame (signs P) (Stop : ST unit).
Proof. unfold Stop. frame_auto. Qed.

#[local] Hint Resolve honest_Start signs_Stop : frame.

Lemma msigns_status_ops P :
  frame (msigns P) (setFinalityProviderSlashed : MS unit) ∧
  frame (msigns P) (setFinalityProviderJailed : MS unit).
Proof.
  unfold setFinalityProviderSlashed, setFinalityProviderJailed, removeFinalityProviderInstance.
  split; frame_auto.
Qed.

Lemma honest_mgr_run `{!ConsistentChain W} fuel ev :
  mgr_event_from_chain ev → frame (msigns honest_vote) (mgr_run fuel ev : MS unit).
Proof.
  destruct (msigns_status_ops honest_vote) as [Hs Hj].
  destruct ev as [pk pass|ev|ce| |]; simpl; intros Hev; unfold mgr_run.
  - unfold StartFinalityProvider, startFinalityProviderInstance. frame_auto.
  - frame_auto. by apply msigns_onInstance, honest_run_event.
  - unfold handleCriticalErr, GetFinalityProviderInstance. frame_auto.
  - unfold statusUpdateTick, fpm_getLatestBlockWithRetry. frame_auto.
  - unfold fpm_Stop. frame_auto.
Qed.

Lemma frame_mgr_runs R `{!PreOrder R} fuel evs :
  Forall (λ ev, frame R (mgr_run fuel ev : MS unit)) evs → frame R (mgr_runs fuel evs : MS unit).
Proof.
  unfold mgr_runs. induction 1 as [|ev evs Hev _ IH]; simpl; [apply frame_ret; apply _|].
  apply frame_bind; [apply _|done|done].
Qed.
End event_frames.

(** ** Theorems *)

(** The status a provider moves to, from its old status and what the chain
    answers, and whether its instance is kept *)
Definition status_transition (old : FinalityProviderStatus) (power : Z) (slashed jailed : bool)
    : FinalityProviderStatus * bool :=
  if (0 <? power)%Z then (ACTIVE, true)
  else if slashed then (SLASHED, false)
  else if jailed then (JAILED, false)
  else match old with ACTIVE => (INACTIVE, true) | st => (st, true) end.

Section theorems.
Context `{CryptoLaws} `{CodecLaws} `{BbnErrors} `{RetryGoLaws}.
Context {W E Db : Type} `{!ClientController W} `{!ClientControllerLaws W} `{!Env W}.
Context `{!EOTSManager E} `{!EOTSManagerLaws E} `{!Kvdb Db} `{!KvdbLaws Db}.
Implicit Types (s : MSt W E Db) (t : St W E Db) (i : FinalityProviderInstance).

Abbreviation ST := (M (St W E Db)).
Abbreviation MS := (M (MSt W E Db)).

(** No double signing across restarts: whatever requests to start,
    blocks, fast syncs, status updates, critical errors and stops a manager
    goes through, with the instances it creates and removes on the way, two
    messages signed for the same height are the same message, on a chain
    with one application hash per height. *)
Theorem manager_never_equivocates `{!ConsistentChain W} fuel evs s s' o h m1 m2 :
  Forall (mgr_event_from_chain (W := W)) evs → Forall honest_vote (mst_signed s) →
  mgr_runs fuel evs s = (o, s') →
  (h, m1) ∈ mst_signed s' → (h, m2) ∈ mst_signed s' → m1 = m2.
Proof.
  intros Hev Hs Hrun H1m H2m.
  assert (frame (msigns honest_vote) (mgr_runs fuel evs : MS unit)) as Hsig.
  { apply frame_mgr_runs; [apply _|]. eapply Forall_impl; [done|]. apply honest_mgr_run. }
  destruct (Hsig s) as (l & Hl & HF). rewrite Hrun in Hl. simpl in Hl.
  assert (Forall honest_vote (mst_signed s')) as HF' by (rewrite Hl; by apply Forall_app).
  rewrite Forall_forall in HF'. pose proof (HF' _ H1m) as Ha. pose proof (HF' _ H2m) as Hb.
  unfold honest_vote in Ha, Hb. simpl in Ha, Hb. by rewrite Ha, Hb.
Qed.

(** The database outlives the instances: over any run of a manager a
    stored finality provider stays stored, its voted and processed heights
    never decrease, its processed height stays at least the voted one, and
    every stored inclusion proof stays. *)
Theorem manager_history_is_safe fuel evs s s' o k fp :
  Forall mgr_event_wf evs → mgr_runs fuel evs s = (o, s') → store_wf (mst_db s) →
  fp_lookup (mst_db s) k = Some fp →
  store_wf (mst_db s') ∧
  (∃ fp', fp_lookup (mst_db s') k = Some fp' ∧
     (LastVotedHeight fp <= LastVotedHeight fp')%Z ∧
     (LastProcessedHeight fp <= LastProcessedHeight fp')%Z ∧
     (LastVotedHeight fp' <= LastProcessedHeight fp')%Z) ∧
  (∀ pr v, pr_lookup (mst_db s) pr = Some v → pr_lookup (mst_db s') pr = Some v).
Proof.
  intros Hwf Hrun Hst Hfp.
  assert (frame mst_le (mgr_runs fuel evs : MS unit)) as Hle.
  { apply frame_mgr_runs; [apply _|]. eapply Forall_impl; [done|]. apply mst_le_run. }
  specialize (Hle s). rewrite Hrun in Hle. simpl in Hle. destruct Hle as [_ (Hdb & _ & Hpr) _].
  destruct (Hdb Hst) as [Hst' Hh]. destruct (Hh _ _ Hfp) as (fp' & Hfp' & ? & ?).
  destruct (store_wf_lookup _ _ _ Hst' Hfp') as [_ (_&_&_&_&_&?)].
  split_and!; [done|by exists fp'|done].
Qed.

(** *** The status monitor *)

Lemma set_fpIns_same i (m : FinalityProviderManager) : fpm_fpIns m = Some i → set_fpIns (Some i) m = m.
Proof. destruct m. unfold set_fpIns. simpl. by intros ->. Qed.

(** A query of the instance of a manager is a query of the chain. *)
Lemma onInstance_query {A} (q : FinalityProviderInstance → M W A) s i o w' :
  fpm_fpIns (mst_m s) = Some i → retry_Do RtyAttNum (q i) (mst_w s) = (o, w') →
  onInstance (x ← ins id; retry_Do RtyAttNum (onW (q x))) s = (o, mst_set_w w' s).
Proof.
  intros Hi Hq. unfold onInstance. rewrite Hi.
  rewrite (bind_Ok _ _ _ i (st_of i s)) by done.
  unfold onW. rewrite retry_zoom by (done || unfold RtyAttNum; lia).
  unfold zoom. simpl. rewrite Hq. simpl. f_equal. unfold mst_of, mst_set_w. simpl. by rewrite set_fpIns_same.
Qed.

(** The instance with another status *)
Definition with_status st i := set_fp (stored_with_status st (i_fp i)) i.

Lemma MustSetStatus_inv st t t' :
  MustSetStatus st t = (Ok tt, t') →
  SetFpStatus (GetBtcPk (st_ins t)) st (st_db t) = (Ok tt, st_db t') ∧
  t' = st_set_ins (with_status st (st_ins t)) (st_set_db (st_db t') t).
Proof.
  unfold MustSetStatus, must, setStatus, mbind, M_bind, attempt, onIns, modify, ins, gets, onDb, zoom.
  simpl. change (GetBtcPk (set_fp _ (st_ins t))) with (GetBtcPk (st_ins t)).
  destruct (SetFpStatus _ st (st_db t)) as [[[]| | |] db']; simpl; intros Hr; try done.
  by injection Hr as <-.
Qed.

Lemma onInstance_MustSetStatus st s s' i :
  fpm_fpIns (mst_m s) = Some i → onInstance (MustSetStatus st) s = (Ok tt, s') →
  SetFpStatus (GetBtcPk i) st (mst_db s) = (Ok tt, mst_db s') ∧
  s' = mst_set_m (set_fpIns (Some (with_status st i)) (mst_m s)) (mst_set_db (mst_db s') s).
Proof.
  intros Hi. unfold onInstance. rewrite Hi.
  destruct (MustSetStatus st (st_of i s)) as [o t'] eqn:Em. intros Hr. injection Hr as -> <-.
  apply MustSetStatus_inv in Em as [Hset Ht]. split; [done|]. unfold mst_of. by rewrite Ht.
Qed.

(** Removing the instance leaves the database and the history alone. *)
Lemma remove_inv s s' :
  removeFinalityProviderInstance s = (Ok tt, s') →
  fpm_fpIns (mst_m s') = None ∧ mst_db s' = mst_db s ∧ mst_signed s' = mst_signed s.
Proof.
  unfold removeFinalityProviderInstance. intros Hrun.
  apply bind_Ok_inv in Hrun as (oi & s0 & Hoi & Hrun). injection Hoi as <- <-.
  destruct (fpm_fpIns (mst_m s)) as [i|] eqn:Hi; [|done].
  apply bind_Ok_inv in Hrun as ([] & s1 & Hstop & Hrun). injection Hrun as <-. simpl.
  assert (mst_db s1 = mst_db s ∧ mst_signed s1 = mst_signed s) as [-> ->]; [|done].
  destruct (IsRunning i); [|by injection Hstop as <-].
  apply bind_Ok_inv in Hstop as (r & s2 & Hr & Hstop).
  assert (s2 = s1) as -> by (destruct r; [done|by injection Hstop as <-]).
  apply attempt_inv in Hr. destruct r as [e|u]; [done|].
  unfold onInstance in Hr. rewrite Hi in Hr. injection Hr as Ho <-.
  unfold Stop, mbind, M_bind, ins, gets, onIns, modify, wrapping, stopPoller. simpl.
  destruct (negb (i_isStarted i)); [done|]. simpl. destruct (i_poller i); [|done].
  by destruct (poller_Stop _) as [[[]| | |] ps].
Qed.

(** The status is stored, then the instance is stopped and removed. *)
Lemma remove_with_status_inv st msg s s' i :
  fpm_fpIns (mst_m s) = Some i →
  (onInstance (MustSetStatus st) ;;
   r ← attempt removeFinalityProviderInstance;
   match r with inl _ => fatal msg | inr _ => mret tt end) s = (Ok tt, s') →
  fpm_fpIns (mst_m s') = None ∧ SetFpStatus (GetBtcPk i) st (mst_db s) = (Ok tt, mst_db s') ∧
  mst_signed s' = mst_signed s.
Proof.
  intros Hi Hrun. apply bind_Ok_inv in Hrun as ([] & s1 & Hset & Hrun).
  destruct (onInstance_MustSetStatus _ _ _ _ Hi Hset) as [Hdb Hs1].
  apply bind_Ok_inv in Hrun as (r & s2 & Hr & Hrun).
  apply attempt_inv in Hr. destruct r as [e|[]]; [done|]. injection Hrun as <-.
  apply remove_inv in Hr as (Hn & Hd & Hsg). rewrite Hd, Hsg. split_and!; [done|done|]. by rewrite Hs1.
Qed.

(** C13: the status monitor implements the status machine: when the chain
    answers with the latest block, the voting power and the slashed and
    jailed flags, the status in memory and in the database becomes the one
    of [status_transition]; a slashed or jailed provider without voting
    power has its instance stopped and removed, any other keeps it. Nothing
    is signed, and the database is written only for a change. *)
Theorem status_update_spec s s' i b power slashed jailed w1 w2 w3 :
  fpm_fpIns (mst_m s) = Some i →
  retry_Do RtyAttNum cc_QueryBestBlock (mst_w s) = (Ok b, w1) →
  retry_Do RtyAttNum (cc_QueryFinalityProviderVotingPower (GetBtcPk i) (Height b)) w1 = (Ok power, w2) →
  ((power <= 0)%Z → retry_Do RtyAttNum (cc_QueryFinalityProviderSlashedOrJailed (GetBtcPk i)) w2 =
                  (Ok (slashed, jailed), w3)) →
  statusUpdateTick s = (Ok tt, s') →
  let '(st, keep) := status_transition (GetStatus i) power slashed jailed in
  (if keep : bool then ∃ i', fpm_fpIns (mst_m s') = Some i' ∧ GetStatus i' = st ∧ same_identity i i'
   else fpm_fpIns (mst_m s') = None) ∧
  (if decide (keep = true ∧ st = GetStatus i) then mst_db s' = mst_db s
   else SetFpStatus (GetBtcPk i) st (mst_db s) = (Ok tt, mst_db s')) ∧
  mst_signed s' = mst_signed s.
Proof.
  intros Hi Hb Hp Hj Hrun. unfold statusUpdateTick in Hrun.
  rewrite (bind_Ok _ _ _ (Some i) s) in Hrun by (unfold mgr, gets; by rewrite Hi).
  rewrite (bind_Ok _ _ _ (inr b) (mst_set_w w1 s)) in Hrun.
  2: { unfold attempt, fpm_getLatestBlockWithRetry, mOnW.
       rewrite retry_zoom by (done || unfold RtyAttNum; lia). unfold zoom. by rewrite Hb. }
  rewrite (bind_Ok _ _ _ (inr power) (mst_set_w w2 s)) in Hrun.
  2: { unfold attempt, GetVotingPowerWithRetry.
       by rewrite (onInstance_query (λ x, cc_QueryFinalityProviderVotingPower (GetBtcPk x) (Height b))
            (mst_set_w w1 s) i _ w2 Hi Hp). }
  assert (∀ w st, onInstance (MustSetStatus st) (mst_set_w w s) = (Ok tt, s') →
            (∃ i', fpm_fpIns (mst_m s') = Some i' ∧ GetStatus i' = st ∧ same_identity i i') ∧
            SetFpStatus (GetBtcPk i) st (mst_db s) = (Ok tt, mst_db s') ∧
            mst_signed s' = mst_signed s) as Hset.
  { intros w st Hst. destruct (onInstance_MustSetStatus st (mst_set_w w s) s' i Hi Hst) as [Hdb ->].
    split_and!; [by exists (with_status st i)|done|done]. }
  assert (∃ i', fpm_fpIns (mst_m s) = Some i' ∧ GetStatus i' = GetStatus i ∧ same_identity i i') as Hid
    by by exists i.
  unfold status_transition. destruct (Z.ltb_spec 0 power).
  { case_bool_decide as Ha; simpl in Hrun.
    - injection Hrun as <-. rewrite decide_True by done. by rewrite <-Ha.
    - rewrite decide_False by (intros [_ ?]; congruence). by eapply Hset. }
  rewrite (bind_Ok _ _ _ (inr (slashed, jailed)) (mst_set_w w3 s)) in Hrun.
  2: { unfold attempt, GetFinalityProviderSlashedOrJailedWithRetry.
       by rewrite (onInstance_query (λ x, cc_QueryFinalityProviderSlashedOrJailed (GetBtcPk x))
            (mst_set_w w2 s) i _ w3 Hi (Hj ltac:(lia))). }
  destruct slashed; [by apply (remove_with_status_inv SLASHED) with (i := i) in Hrun|].
  destruct jailed; [by apply (remove_with_status_inv JAILED) with (i := i) in Hrun|].
  case_bool_decide as Ha.
  - rewrite Ha. rewrite decide_False by (intros [_ ?]; done). by eapply Hset.
  - injection Hrun as <-. destruct (GetStatus i) eqn:Es; try done; rewrite decide_True by done; done.
Qed.

(** *** Critical errors *)

Lemma GetInstance_run s i : fpm_fpIns (mst_m s) = Some i → GetFinalityProviderInstance s = (Ok i, s).
Proof. intros Hi. unfold GetFinalityProviderInstance, mbind, M_bind, mgr, gets. by rewrite Hi. Qed.

(** C24: what a critical error does: without an instance it is dropped; an
    error that is [ErrFinalityProviderSlashed] or [ErrFinalityProviderJailed],
    however it is wrapped, stores that status and stops and removes the
    instance; any other error ends the process. *)
Theorem critical_error_policy ce s o s' :
  handleCriticalErr ce s = (o, s') →
  match fpm_fpIns (mst_m s) with
  | None => o = Ok tt ∧ s' = s
  | Some i =>
      let removed st :=
        o = Ok tt → fpm_fpIns (mst_m s') = None ∧
          SetFpStatus (GetBtcPk i) st (mst_db s) = (Ok tt, mst_db s') ∧ mst_signed s' = mst_signed s in
      if errors_Is (ce_err ce) ErrFinalityProviderSlashed then removed SLASHED
      else if errors_Is (ce_err ce) ErrFinalityProviderJailed then removed JAILED
      else o = Fatal instanceTerminatingMsg ∧ s' = s
  end.
Proof.
  unfold handleCriticalErr, mbind at 1, M_bind at 1, attempt at 1, GetFinalityProviderInstance, mbind at 1,
    M_bind at 1, mgr, gets. simpl.
  destruct (fpm_fpIns (mst_m s)) as [i|] eqn:Hi; simpl; [|intros Hr; by injection Hr as <- <-].
  destruct (errors_Is _ ErrFinalityProviderSlashed).
  { intros Hr ->. by apply (remove_with_status_inv SLASHED) with (i := i) in Hr. }
  destruct (errors_Is _ ErrFinalityProviderJailed).
  { intros Hr ->. by apply (remove_with_status_inv JAILED) with (i := i) in Hr. }
  intros Hr. by injection Hr as <- <-.
Qed.

(** A slashed provider that votes block by block takes the process down:
    when the chain refuses a vote because the provider has been slashed, the
    error the loop reports is the chain's text and not
    [ErrFinalityProviderSlashed], so the monitor ends the process instead
    of removing the instance. *)
Theorem slashed_vote_ends_the_process fuel b t t1 t2 text :
  hasProcessed b (st_ins t) = false → hasVotingPower b t = (Ok true, t1) →
  SubmitFinalitySignature b t1 =
    (Err (Wrap "failed to send finality signature to the consumer chain: " (ErrorString text) ""), t2) →
  Contains text (bbn_error_text ErrFpAlreadySlashed) = true →
  ∃ t' ce, handleBlock (S fuel) b t = (Ok tt, t') ∧
    i_criticalErrs (st_ins t') = i_criticalErrs (st_ins t2) ++ [ce] ∧
    ∀ s i, fpm_fpIns (mst_m s) = Some i → handleCriticalErr ce s = (Fatal instanceTerminatingMsg, s).
Proof.
  intros Hp Hv Hsub Htext.
  set (e := Wrap "failed to send finality signature to the consumer chain: " (ErrorString text) "") in *.
  assert (IsUnrecoverable e = true) as Hu.
  { apply IsUnrecoverable_Wrap. unfold IsUnrecoverable. apply existsb_exists.
    exists ErrFpAlreadySlashed. split; [|done]. simpl. tauto. }
  eexists _, (mkCriticalError e (GetBtcPkBIP340 (st_ins t2))). split_and!.
  - unfold handleBlock. rewrite (bind_Ok _ _ _ (st_ins t) t) by done. rewrite Hp.
    rewrite (bind_Ok _ _ _ (inr true) t1) by (unfold attempt; by rewrite Hv).
    rewrite (bind_Ok _ _ _ (inl e) t2); [reflexivity|].
    unfold attempt at 1. cbn [retrySubmitFinalitySignatureUntilBlockFinalized].
    rewrite (bind_Ok _ _ _ (inl e) t2) by (unfold attempt; by rewrite Hsub).
    rewrite Hu. done.
  - done.
  - intros s i Hi. unfold handleCriticalErr.
    rewrite (bind_Ok _ _ _ (inr i) s); [done|]. unfold attempt. by rewrite (GetInstance_run s i Hi).
Qed.

(** *** Starting *)

Lemma New_inv pk cfg pass (db : Db) i db' :
  NewFinalityProviderInstance pk cfg pass db = (Ok i, db') → i_isStarted i = false ∧ i_poller i = None.
Proof.
  unfold NewFinalityProviderInstance. intros Hrun.
  apply bind_Ok_inv in Hrun as (k & d1 & _ & Hrun). apply bind_Ok_inv in Hrun as (sfp & d2 & _ & Hrun).
  destruct (negb _); [done|]. by injection Hrun as <- _.
Qed.

(** What a failed first start leaves: no instance, or one that counts as
    running and has no poller *)
Lemma failed_start_instance fuel pk pass s e s' :
  fpm_fpIns (mst_m s) = None → StartFinalityProvider fuel pk pass s = (Err e, s') →
  fpm_fpIns (mst_m s') = None ∨
  ∃ i, fpm_fpIns (mst_m s') = Some i ∧ i_isStarted i = true ∧ i_poller i = None.
Proof.
  intros Hn Hrun. unfold StartFinalityProvider, startFinalityProviderInstance in Hrun.
  rewrite (bind_Ok _ _ _ tt (mst_set_m (set_startOnce true (mst_m s)) s)) in Hrun by done.
  set (s0 := mst_set_m (set_startOnce true (mst_m s)) s) in *.
  assert (fpm_fpIns (mst_m s0) = None) as Hn0 by done. clearbody s0.
  rewrite (bind_Ok _ _ _ (mst_m s0) s0) in Hrun by done. rewrite Hn0 in Hrun.
  unfold mbind at 1, M_bind at 1, mbind at 1, M_bind at 1, wrapping, mOnDb, zoom in Hrun.
  destruct (NewFinalityProviderInstance pk (fpm_config (mst_m s0)) pass (mst_db s0)) as [[i|e'| |] db'] eqn:Enew;
    simpl in Hrun; [|left; by injection Hrun as _ <-|done|done].
  apply New_inv in Enew as [Hst Hp].
  unfold onInstance in Hrun. simpl in Hrun. injection Hrun as Ho <-.
  match type of Ho with (Start fuel ?t0).1 = _ => set (t := t0) in * end.
  destruct (Start fuel t) as [o t'] eqn:Es. simpl in Ho. subst o.
  right. exists (st_ins t'). split; [done|]. exact (failed_start_state fuel t e t' Hst Hp Es).
Qed.

(** C37: a failed start blocks the manager: if the first start of a provider
    fails after the instance was created (a failed bootstrap or poller), the
    manager keeps that instance, every later request to start, whatever
    provider it names, is answered with an error that names the first
    provider, and removing the instance dereferences a nil poller. *)
Theorem failed_start_blocks_manager fuel pk pass s e s' :
  fpm_fpIns (mst_m s) = None → StartFinalityProvider fuel pk pass s = (Err e, s') →
  fpm_fpIns (mst_m s') = None ∨
  ∃ i, fpm_fpIns (mst_m s') = Some i ∧
    (∀ fuel' pk' pass', (StartFinalityProvider fuel' pk' pass' s').1 =
       Err (ErrorString ("the finality-provider instance " +:+ GetBtcPkHex i +:+ " is already started"))) ∧
    (removeFinalityProviderInstance s').1 = Fatal "nil pointer dereference".
Proof.
  intros Hn Hrun. destruct (failed_start_instance _ _ _ _ _ _ Hn Hrun) as [?|(i & Hi & Hst & Hp)]; [by left|right].
  exists i. split_and!; [done| |].
  - intros fuel' pk' pass'. unfold StartFinalityProvider, startFinalityProviderInstance, mbind, M_bind, onMgr, modify,
      mgr, gets, onInstance. simpl. rewrite Hi. simpl. rewrite Hi. simpl. by rewrite started_Start.
  - unfold removeFinalityProviderInstance, mbind, M_bind, mgr, gets. rewrite Hi. unfold IsRunning. rewrite Hst.
    unfold attempt, onInstance. simpl. rewrite Hi.
    pose proof (started_Stop_nil (st_of i s') Hst Hp) as Hstop.
    destruct (Stop _) as [o t2]. simpl in *. by rewrite Hstop.
Qed.
End theorems.
