(* ===== verification/FpThreads.v ===== *)
(** * FpThreads: the goroutines of the manager and its instances

    [FpManager] runs the turns of the loops one after the other. This file
    models how they run side by side: the two monitors of
    [src/finality-provider/service/fp_manager.go], the three loops and the
    poller of an instance (fp_instance.go, chain_poller.go), callers of
    [StartFinalityProvider] and of [Stop]. A configuration is the memory they
    share and a pool of goroutines, each at the point where it blocks or where
    others can come in between: the select of a loop, the send on the unbuffered
    [criticalErrChan], the queries of the status monitor, the steps of a removal
    and its waits. [fpm.fpIns] is a pointer into a heap of instances, as a
    goroutine can hold an instance that the manager has dropped. *)

From stdpp Require Import base gmap list relations strings pretty.
From Stdlib Require Import ZArith Lia.
From S2P Require Import Prelude Errors Monad Types Kvdb FpStore PubRandStore Metrics EotsManager.
From S2P Require Import Config ClientController Poller FpState Voting FastSync FpInstance FpManager.

Section FpThreads.
Context `{Crypto} `{Codec} `{BbnErrors} `{RetryGo}.
Context {W E Db : Type} `{!ClientController W} `{!Env W} `{!EOTSManager E} `{!Kvdb Db}.

Abbreviation ST := (M (St W E Db)).

(** ** The shared memory *)

(** An instance on the heap: its fields, whether its channel [quit] is closed,
    and the goroutine of its poller *)
Record object := mkObject {
  o_ins : FinalityProviderInstance;
  o_quit : bool;
  o_poller : nat;
}.

Record shared := mkShared {
  sh_config : Config;
  sh_w : W;
  sh_e : E;
  sh_db : Db;
  sh_fm : FpMetrics;
  sh_signed : list (Z * bytes);
  sh_heap : gmap nat object;
  sh_fpIns : option nat;               (* the pointer fpm.fpIns *)
  sh_started : bool;                   (* startOnce *)
  sh_quit : bool;                      (* stopOnce: fpm.quit is closed *)
}.

Definition sh_set_heap v sh := mkShared (sh_config sh) (sh_w sh) (sh_e sh) (sh_db sh) (sh_fm sh) (sh_signed sh)
  v (sh_fpIns sh) (sh_started sh) (sh_quit sh).
Definition sh_set_fpIns v sh := mkShared (sh_config sh) (sh_w sh) (sh_e sh) (sh_db sh) (sh_fm sh) (sh_signed sh)
  (sh_heap sh) v (sh_started sh) (sh_quit sh).
Definition sh_set_db v sh := mkShared (sh_config sh) (sh_w sh) (sh_e sh) v (sh_fm sh) (sh_signed sh)
  (sh_heap sh) (sh_fpIns sh) (sh_started sh) (sh_quit sh).
Definition sh_set_started v sh := mkShared (sh_config sh) (sh_w sh) (sh_e sh) (sh_db sh) (sh_fm sh) (sh_signed sh)
  (sh_heap sh) (sh_fpIns sh) v (sh_quit sh).
Definition sh_set_quit v sh := mkShared (sh_config sh) (sh_w sh) (sh_e sh) (sh_db sh) (sh_fm sh) (sh_signed sh)
  (sh_heap sh) (sh_fpIns sh) (sh_started sh) v.

(** The state a method of the instance [i] runs on, and the memory after it *)
Definition sh_st (i : FinalityProviderInstance) (sh : shared) : St W E Db :=
  mkSt i (sh_w sh) (sh_e sh) (sh_db sh) (sh_fm sh) (sh_signed sh).
Definition sh_put (g : nat) (o : object) (t : St W E Db) (sh : shared) : shared :=
  mkShared (sh_config sh) (st_w t) (st_e t) (st_db t) (st_fm t) (st_signed t)
    (<[g := o]> (sh_heap sh)) (sh_fpIns sh) (sh_started sh) (sh_quit sh).
Definition with_ins (i : FinalityProviderInstance) (o : object) : object := mkObject i (o_quit o) (o_poller o).
Definition with_quit (q : bool) (o : object) : object := mkObject (o_ins o) q (o_poller o).

(** ** The goroutines *)

Inductive loop := SigLoop | RandLoop | LagLoop.

(** A loop is at its select, or at the send in [reportCriticalErr] *)
Inductive loop_pc := LSelect | LReport (ce : CriticalError).

(** [removeFinalityProviderInstance]: before it reads [fpm.fpIns]; before
    [fpi.Stop()]; in it, at the wait for the poller, then at the wait for the
    loops *)
Inductive remove_pc :=
  | RmCheck
  | RmStop (g : nat)
  | RmPoller (g p : nat)
  | RmLoops (g : nat).

(** What a turn of the status monitor found: a status to set on the instance,
    after which it is removed or not *)
Record decision := mkDecision { d_status : FinalityProviderStatus; d_remove : bool; }.

Inductive crit_pc := CSelect | CRemove (r : remove_pc).
Inductive stat_pc := SSelect | SApply (g : nat) (d : decision) | SRemove (r : remove_pc).

(** [Stop]: at the wait for the monitors, then stopping the instance *)
Inductive stop_pc := StMonitors | StRemove (r : remove_pc).

(** [StartFinalityProvider] after [startOnce]: before it reads [fpm.fpIns],
    before [fpm.fpIns.Start()] *)
Inductive start_pc := StNew (pk : bytes) (passphrase : string) | StStart.

Inductive goroutine :=
  | TLoop (g : nat) (l : loop) (pc : loop_pc)
  | TPoller (quit : bool) (push : bool)    (* its quit is closed; it is at a send on a full channel *)
  | TCrit (pc : crit_pc)
  | TStat (pc : stat_pc)
  | TStop (pc : stop_pc)
  | TStart (pc : start_pc)
  | TDone.                                 (* it has returned *)

Abbreviation pool := (gmap nat goroutine).

Record conf := mkConf { cf_sh : shared; cf_pool : pool; }.

(** A step leads to a configuration or ends the process. *)
Inductive result := Next (c : conf) | Ends (msg : string).

(** The events a loop serves at its select *)
Definition serves (l : loop) (ev : ins_event) : bool :=
  match l, ev with
  | SigLoop, EvBlock _ | SigLoop, EvLagging | RandLoop, EvRandTick | LagLoop, EvLagTick => true
  | _, _ => false
  end.

(** Where a loop is after its turn: the error that the turn reported is to be
    sent *)
Definition after_turn (i : FinalityProviderInstance) : loop_pc :=
  match i_criticalErrs i with ce :: _ => LReport ce | [] => LSelect end.

(** Receiving a block makes room for the poller. *)
Definition make_room (ev : ins_event) (p : nat) (P : pool) : pool :=
  match ev, P !! p with
  | EvBlock _, Some (TPoller q _) => <[p := TPoller q false]> P
  | _, _ => P
  end.

(** [close(cp.quit)] of the poller's goroutine *)
Definition close_poller (p : nat) (P : pool) : pool :=
  match P !! p with Some (TPoller _ push) => <[p := TPoller true push]> P | _ => P end.

Definition loops_of (g : nat) (P : pool) : Prop := ∃ t l pc, P !! t = Some (TLoop g l pc).
Definition is_monitor (x : goroutine) : bool := match x with TCrit _ | TStat _ => true | _ => false end.

(** ** The queries of [monitorStatusUpdate]

    The part of its turn before the first write, on the instance it read. *)
Definition statusDecision : ST (option decision) :=
  fpi ← ins id;
  r ← attempt (retry_Do RtyAttNum (onW cc_QueryBestBlock));
  match r with
  | inl _ => mret None
  | inr latestBlock =>
      let oldStatus := GetStatus fpi in
      r ← attempt (GetVotingPowerWithRetry (Height latestBlock));
      match r with
      | inl _ => mret None
      | inr power =>
          if (0 <? power)%Z
          then mret (if negb (bool_decide (oldStatus = ACTIVE)) then Some (mkDecision ACTIVE false) else None)
          else
            r ← attempt GetFinalityProviderSlashedOrJailedWithRetry;
            match r with
            | inl _ => mret None
            | inr (slashed, jailed) =>
                mret (if (slashed : bool) then Some (mkDecision SLASHED true)
                      else if (jailed : bool) then Some (mkDecision JAILED true)
                      else if bool_decide (oldStatus = ACTIVE) then Some (mkDecision INACTIVE false)
                      else None)
            end
      end
  end.

(** ** Removal

    An error of [removeFinalityProviderInstance] is a panic in the monitors;
    the panic is named by the constant part of that error. *)

Inductive remove_result :=
  | RmNext (sh : shared) (P : pool) (r : remove_pc)
  | RmDone
  | RmPanic (msg : string).

Inductive rm_step (sh : shared) (P : pool) : remove_pc → remove_result → Prop :=
  | rm_nil :
      sh_fpIns sh = None → rm_step sh P RmCheck (RmPanic "the finality provider instance does not exist")
  | rm_idle g o :
      sh_fpIns sh = Some g → sh_heap sh !! g = Some o → IsRunning (o_ins o) = false →
      rm_step sh P RmCheck RmDone
  | rm_running g o :
      sh_fpIns sh = Some g → sh_heap sh !! g = Some o → IsRunning (o_ins o) = true →
      rm_step sh P RmCheck (RmNext sh P (RmStop g))
  | rm_stop g o t :
      sh_heap sh !! g = Some o → Stop (sh_st (o_ins o) sh) = (Ok tt, t) →
      rm_step sh P (RmStop g)
        (RmNext (sh_put g (with_ins (st_ins t) o) t sh) (close_poller (o_poller o) P) (RmPoller g (o_poller o)))
  | rm_stop_err g o e t :
      sh_heap sh !! g = Some o → Stop (sh_st (o_ins o) sh) = (Err e, t) →
      rm_step sh P (RmStop g) (RmPanic "failed to stop the finality provider instance")
  | rm_stop_fatal g o m t :
      sh_heap sh !! g = Some o → Stop (sh_st (o_ins o) sh) = (Fatal m, t) → rm_step sh P (RmStop g) (RmPanic m)
  (* the poller has returned: close(fp.quit) *)
  | rm_poller g p o :
      P !! p = Some TDone → sh_heap sh !! g = Some o → o_quit o = false →
      rm_step sh P (RmPoller g p) (RmNext (sh_set_heap (<[g := with_quit true o]> (sh_heap sh)) sh) P (RmLoops g))
  | rm_closed g p o :
      P !! p = Some TDone → sh_heap sh !! g = Some o → o_quit o = true →
      rm_step sh P (RmPoller g p) (RmPanic "close of closed channel")
  (* fp.wg.Wait() *)
  | rm_loops g : ¬ loops_of g P → rm_step sh P (RmLoops g) RmDone.

(** ** Steps *)

(** [mustSet g st sh]: [fpi.MustSetStatus(st)] on the instance at [g] *)
Definition mustSet (g : nat) (st : FinalityProviderStatus) (sh : shared) : option (outcome unit * shared) :=
  o ← sh_heap sh !! g;
  let '(r, t) := MustSetStatus st (sh_st (o_ins o) sh) in
  Some (r, sh_put g (with_ins (st_ins t) o) t sh).

(** The status that a critical error stands for *)
Definition critical_status (ce : CriticalError) : option FinalityProviderStatus :=
  if errors_Is (ce_err ce) ErrFinalityProviderSlashed then Some SLASHED
  else if errors_Is (ce_err ce) ErrFinalityProviderJailed then Some JAILED
  else None.

(** The object of an instance that is started again keeps its fields and has
    a new channel [quit] and a new poller. *)
Definition restarted (t : St W E Db) (p : nat) : object := mkObject (st_ins t) false p.

Inductive step (fuel : nat) : conf → result → Prop :=
  (* a loop of an instance: a turn, the end of the loop *)
  | s_turn sh P t g l o ev s' :
      P !! t = Some (TLoop g l LSelect) → sh_heap sh !! g = Some o → serves l ev = true →
      event_from_chain (W := W) ev → event_wf ev →
      (l = LagLoop → FastSyncInterval (i_cfg (o_ins o)) ≠ 0%Z) →
      run_event fuel ev (sh_st (set_criticalErrs [] (o_ins o)) sh) = (Ok tt, s') →
      step fuel (mkConf sh P)
        (Next (mkConf (sh_put g (with_ins (st_ins s') o) s' sh)
                 (<[t := TLoop g l (after_turn (st_ins s'))]> (make_room ev (o_poller o) P))))
  | s_turn_fatal sh P t g l o ev m s' :
      P !! t = Some (TLoop g l LSelect) → sh_heap sh !! g = Some o → serves l ev = true →
      event_from_chain (W := W) ev → event_wf ev →
      (l = LagLoop → FastSyncInterval (i_cfg (o_ins o)) ≠ 0%Z) →
      run_event fuel ev (sh_st (set_criticalErrs [] (o_ins o)) sh) = (Fatal m, s') →
      step fuel (mkConf sh P) (Ends m)
  | s_loop_quit sh P t g l o :
      P !! t = Some (TLoop g l LSelect) → sh_heap sh !! g = Some o → o_quit o = true →
      step fuel (mkConf sh P) (Next (mkConf sh (<[t := TDone]> P)))
  | s_lag_disabled sh P t g o :
      P !! t = Some (TLoop g LagLoop LSelect) → sh_heap sh !! g = Some o →
      FastSyncInterval (i_cfg (o_ins o)) = 0%Z →
      step fuel (mkConf sh P) (Next (mkConf sh (<[t := TDone]> P)))
  (* the poller: it retrieves a block and finds the channel full, it ends *)
  | s_push sh P p q :
      P !! p = Some (TPoller q false) → step fuel (mkConf sh P) (Next (mkConf sh (<[p := TPoller q true]> P)))
  | s_poller_quit sh P p :
      P !! p = Some (TPoller true false) → step fuel (mkConf sh P) (Next (mkConf sh (<[p := TDone]> P)))
  (* monitorCriticalErr receives an error *)
  | s_dropped sh P t c g l ce :
      P !! c = Some (TCrit CSelect) → P !! t = Some (TLoop g l (LReport ce)) → sh_fpIns sh = None →
      step fuel (mkConf sh P) (Next (mkConf sh (<[t := TLoop g l LSelect]> P)))
  | s_critical sh P t c g l ce g' st sh' :
      P !! c = Some (TCrit CSelect) → P !! t = Some (TLoop g l (LReport ce)) → sh_fpIns sh = Some g' →
      critical_status ce = Some st → mustSet g' st sh = Some (Ok tt, sh') →
      step fuel (mkConf sh P) (Next (mkConf sh' (<[c := TCrit (CRemove RmCheck)]> (<[t := TLoop g l LSelect]> P))))
  | s_critical_fatal sh P t c g l ce g' st m sh' :
      P !! c = Some (TCrit CSelect) → P !! t = Some (TLoop g l (LReport ce)) → sh_fpIns sh = Some g' →
      critical_status ce = Some st → mustSet g' st sh = Some (Fatal m, sh') → step fuel (mkConf sh P) (Ends m)
  | s_terminates sh P t c g l ce g' :
      P !! c = Some (TCrit CSelect) → P !! t = Some (TLoop g l (LReport ce)) → sh_fpIns sh = Some g' →
      critical_status ce = None → step fuel (mkConf sh P) (Ends instanceTerminatingMsg)
  | s_crit_remove sh P c r sh' P' r' :
      P !! c = Some (TCrit (CRemove r)) → rm_step sh P r (RmNext sh' P' r') →
      step fuel (mkConf sh P) (Next (mkConf sh' (<[c := TCrit (CRemove r')]> P')))
  | s_crit_removed sh P c r :
      P !! c = Some (TCrit (CRemove r)) → rm_step sh P r RmDone →
      step fuel (mkConf sh P) (Next (mkConf (sh_set_fpIns None sh) (<[c := TCrit CSelect]> P)))
  | s_crit_panic sh P c r m :
      P !! c = Some (TCrit (CRemove r)) → rm_step sh P r (RmPanic m) → step fuel (mkConf sh P) (Ends m)
  | s_crit_quit sh P c :
      P !! c = Some (TCrit CSelect) → sh_quit sh = true → step fuel (mkConf sh P) (Next (mkConf sh (<[c := TDone]> P)))
  (* monitorStatusUpdate: the queries, the write, the removal *)
  | s_stat_decide sh P c g o d s' :
      P !! c = Some (TStat SSelect) → StatusUpdateInterval (sh_config sh) ≠ 0%Z →
      sh_fpIns sh = Some g → sh_heap sh !! g = Some o →
      statusDecision (sh_st (o_ins o) sh) = (Ok d, s') →
      step fuel (mkConf sh P)
        (Next (mkConf (sh_put g o s' sh)
                 (<[c := TStat (match d with Some d => SApply g d | None => SSelect end)]> P)))
  | s_stat_apply sh P c g d sh' :
      P !! c = Some (TStat (SApply g d)) → mustSet g (d_status d) sh = Some (Ok tt, sh') →
      step fuel (mkConf sh P)
        (Next (mkConf sh' (<[c := TStat (if d_remove d then SRemove RmCheck else SSelect)]> P)))
  | s_stat_fatal sh P c g d m sh' :
      P !! c = Some (TStat (SApply g d)) → mustSet g (d_status d) sh = Some (Fatal m, sh') →
      step fuel (mkConf sh P) (Ends m)
  | s_stat_remove sh P c r sh' P' r' :
      P !! c = Some (TStat (SRemove r)) → rm_step sh P r (RmNext sh' P' r') →
      step fuel (mkConf sh P) (Next (mkConf sh' (<[c := TStat (SRemove r')]> P')))
  | s_stat_removed sh P c r :
      P !! c = Some (TStat (SRemove r)) → rm_step sh P r RmDone →
      step fuel (mkConf sh P) (Next (mkConf (sh_set_fpIns None sh) (<[c := TStat SSelect]> P)))
  | s_stat_panic sh P c r m :
      P !! c = Some (TStat (SRemove r)) → rm_step sh P r (RmPanic m) → step fuel (mkConf sh P) (Ends m)
  | s_stat_quit sh P c :
      P !! c = Some (TStat SSelect) → sh_quit sh = true ∨ StatusUpdateInterval (sh_config sh) = 0%Z →
      step fuel (mkConf sh P) (Next (mkConf sh (<[c := TDone]> P)))
  (* a call of StartFinalityProvider; the first one starts the monitors *)
  | s_call sh P t pk pass :
      P !! t = None → sh_started sh = true →
      step fuel (mkConf sh P) (Next (mkConf sh (<[t := TStart (StNew pk pass)]> P)))
  | s_first_call sh P t c m pk pass :
      P !! t = None → P !! c = None → P !! m = None → t ≠ c → t ≠ m → c ≠ m → sh_started sh = false →
      step fuel (mkConf sh P)
        (Next (mkConf (sh_set_started true sh)
                 (<[t := TStart (StNew pk pass)]> (<[c := TCrit CSelect]> (<[m := TStat SSelect]> P)))))
  | s_new sh P t pk pass g i db' :
      P !! t = Some (TStart (StNew pk pass)) → sh_fpIns sh = None → sh_heap sh !! g = None →
      NewFinalityProviderInstance pk (sh_config sh) pass (sh_db sh) = (Ok i, db') →
      step fuel (mkConf sh P)
        (Next (mkConf (sh_set_fpIns (Some g) (sh_set_heap (<[g := mkObject i false 0]> (sh_heap sh)) (sh_set_db db' sh)))
                 (<[t := TStart StStart]> P)))
  | s_new_err sh P t pk pass e db' :
      P !! t = Some (TStart (StNew pk pass)) → sh_fpIns sh = None →
      NewFinalityProviderInstance pk (sh_config sh) pass (sh_db sh) = (Err e, db') →
      step fuel (mkConf sh P) (Next (mkConf (sh_set_db db' sh) (<[t := TDone]> P)))
  | s_new_fatal sh P t pk pass m db' :
      P !! t = Some (TStart (StNew pk pass)) → sh_fpIns sh = None →
      NewFinalityProviderInstance pk (sh_config sh) pass (sh_db sh) = (Fatal m, db') →
      step fuel (mkConf sh P) (Ends m)
  | s_existing sh P t pk pass g :
      P !! t = Some (TStart (StNew pk pass)) → sh_fpIns sh = Some g →
      step fuel (mkConf sh P) (Next (mkConf sh (<[t := TStart StStart]> P)))
  | s_start sh P t g o s' p l1 l2 l3 :
      P !! t = Some (TStart StStart) → sh_fpIns sh = Some g → sh_heap sh !! g = Some o →
      Start fuel (sh_st (o_ins o) sh) = (Ok tt, s') →
      NoDup [t; p; l1; l2; l3] → P !! p = None → P !! l1 = None → P !! l2 = None → P !! l3 = None →
      step fuel (mkConf sh P)
        (Next (mkConf (sh_put g (restarted s' p) s' sh)
                 (<[p := TPoller false false]> (<[l1 := TLoop g SigLoop LSelect]>
                    (<[l2 := TLoop g RandLoop LSelect]> (<[l3 := TLoop g LagLoop LSelect]> (<[t := TDone]> P)))))))
  | s_start_err sh P t g o e s' :
      P !! t = Some (TStart StStart) → sh_fpIns sh = Some g → sh_heap sh !! g = Some o →
      Start fuel (sh_st (o_ins o) sh) = (Err e, s') →
      step fuel (mkConf sh P) (Next (mkConf (sh_put g (with_ins (st_ins s') o) s' sh) (<[t := TDone]> P)))
  | s_start_fatal sh P t g o m s' :
      P !! t = Some (TStart StStart) → sh_fpIns sh = Some g → sh_heap sh !! g = Some o →
      Start fuel (sh_st (o_ins o) sh) = (Fatal m, s') → step fuel (mkConf sh P) (Ends m)
  | s_start_nil sh P t :
      P !! t = Some (TStart StStart) → sh_fpIns sh = None →
      step fuel (mkConf sh P) (Ends "nil pointer dereference")
  (* Stop of the manager *)
  | s_stop sh P t :
      P !! t = None → sh_quit sh = false →
      step fuel (mkConf sh P) (Next (mkConf (sh_set_quit true sh) (<[t := TStop StMonitors]> P)))
  | s_stop_idle sh P t :
      P !! t = Some (TStop StMonitors) → (∀ c x, P !! c = Some x → is_monitor x = false) →
      (∀ g o, sh_fpIns sh = Some g → sh_heap sh !! g = Some o → IsRunning (o_ins o) = false) →
      step fuel (mkConf sh P) (Next (mkConf sh (<[t := TDone]> P)))
  | s_stop_running sh P t g o :
      P !! t = Some (TStop StMonitors) → (∀ c x, P !! c = Some x → is_monitor x = false) →
      sh_fpIns sh = Some g → sh_heap sh !! g = Some o → IsRunning (o_ins o) = true →
      step fuel (mkConf sh P) (Next (mkConf sh (<[t := TStop (StRemove (RmStop g))]> P)))
  | s_stop_remove sh P t r sh' P' r' :
      P !! t = Some (TStop (StRemove r)) → rm_step sh P r (RmNext sh' P' r') →
      step fuel (mkConf sh P) (Next (mkConf sh' (<[t := TStop (StRemove r')]> P')))
  | s_stop_done sh P t r :
      P !! t = Some (TStop (StRemove r)) → rm_step sh P r RmDone → step fuel (mkConf sh P) (Next (mkConf sh (<[t := TDone]> P)))
  (* fpi.Stop returns an error, which Stop returns *)
  | s_stop_err sh P t g o e s' :
      P !! t = Some (TStop (StRemove (RmStop g))) → sh_heap sh !! g = Some o →
      Stop (sh_st (o_ins o) sh) = (Err e, s') →
      step fuel (mkConf sh P) (Next (mkConf (sh_put g (with_ins (st_ins s') o) s' sh) (<[t := TDone]> P)))
  | s_stop_fatal sh P t g o m s' :
      P !! t = Some (TStop (StRemove (RmStop g))) → sh_heap sh !! g = Some o →
      Stop (sh_st (o_ins o) sh) = (Fatal m, s') → step fuel (mkConf sh P) (Ends m)
  | s_stop_closed sh P t g p o :
      P !! t = Some (TStop (StRemove (RmPoller g p))) → P !! p = Some TDone → sh_heap sh !! g = Some o → o_quit o = true →
      step fuel (mkConf sh P) (Ends "close of closed channel").

Definition next (fuel : nat) (c c' : conf) : Prop := step fuel c (Next c').
Definition reaches (fuel : nat) : conf → conf → Prop := rtc (next fuel).
End FpThreads.
Arguments shared {_ _} W E Db.
Arguments conf {_ _} W E Db.

(** ** Frames *)

Section frames.
Context `{CryptoLaws} `{CodecLaws} `{BbnErrors} `{RetryGoLaws}.
Context {W E Db : Type} `{!ClientController W} `{!ClientControllerLaws W} `{!Env W}.
Context `{!EOTSManager E} `{!EOTSManagerLaws E} `{!Kvdb Db} `{!KvdbLaws Db}.
Implicit Types (sh : shared W E Db) (c : conf W E Db) (t : St W E Db) (P : gmap nat goroutine).

Abbreviation ST := (M (St W E Db)).

(** The components that methods of instances change are the same. *)
Definition same_data sh sh' : Prop :=
  sh_e sh' = sh_e sh ∧ sh_db sh' = sh_db sh ∧ sh_signed sh' = sh_signed sh.

Section generic.
Context (fuel : nat) (R : St W E Db → St W E Db → Prop) (RS : shared W E Db → shared W E Db → Prop) `{!PreOrder RS}.
Hypothesis RS_put : ∀ g o i t sh, R (sh_st i sh) t → RS sh (sh_put g o t sh).
Hypothesis RS_same : ∀ sh sh', same_data sh sh' → RS sh sh'.
Hypothesis RS_new : ∀ pk cfg pass sh sh', same_data (sh_set_db (NewFinalityProviderInstance pk cfg pass (sh_db sh)).2 sh) sh' → RS sh sh'.
Hypothesis R_Start : frame R (Start fuel : ST unit).
Hypothesis R_Stop : frame R (Stop : ST unit).
Hypothesis R_status : ∀ st, frame R (MustSetStatus st : ST unit).
Hypothesis R_turn : ∀ ev, event_from_chain (W := W) ev → event_wf ev → frame R (run_event fuel ev : ST unit).
Hypothesis R_decision : frame R (statusDecision : ST (option decision)).

Lemma put_frame {A} g o i sh (m : ST A) r t : frame R m → m (sh_st i sh) = (r, t) → RS sh (sh_put g o t sh).
Proof. intros Hm Hrun. apply (RS_put g o i). specialize (Hm (sh_st i sh)). by rewrite Hrun in Hm. Qed.

Lemma rm_frame sh P r sh' P' r' : rm_step sh P r (RmNext sh' P' r') → RS sh sh'.
Proof. inversion 1; subst; [reflexivity|by eapply put_frame; [apply R_Stop|]|by apply RS_same]. Qed.

Lemma mustSet_frame g st sh r sh' : mustSet g st sh = Some (r, sh') → RS sh sh'.
Proof.
  unfold mustSet. intros (o & _ & Hr)%bind_Some. destruct (MustSetStatus _ _) as [r0 t] eqn:Em.
  injection Hr as -> <-. eapply put_frame; [|exact Em]. apply R_status.
Qed.

(** Every step keeps what the methods keep. *)
Lemma next_frame c c' : next fuel c c' → RS (cf_sh c) (cf_sh c').
Proof.
  inversion 1; subst; simpl;
    try (by apply RS_same); try (by eapply rm_frame); try (by eapply mustSet_frame);
    try (eapply put_frame; [|eassumption]; by (apply R_turn || apply R_decision || apply R_Start || apply R_Stop)).
  - eapply RS_new. by match goal with Hn : NewFinalityProviderInstance _ _ _ _ = _ |- _ => rewrite Hn end.
  - eapply RS_new. by match goal with Hn : NewFinalityProviderInstance _ _ _ _ = _ |- _ => rewrite Hn end.
Qed.

Lemma reaches_frame c c' : reaches fuel c c' → RS (cf_sh c) (cf_sh c').
Proof. induction 1 as [c|c1 c2 c3 Hs _ IH]; [reflexivity|]. transitivity (cf_sh c2); [by apply next_frame|done]. Qed.
End generic.
End frames.

(** ** Theorems *)

Section theorems.
Context `{CryptoLaws} `{CodecLaws} `{BbnErrors} `{RetryGoLaws}.
Context {W E Db : Type} `{!ClientController W} `{!ClientControllerLaws W} `{!Env W}.
Context `{!EOTSManager E} `{!EOTSManagerLaws E} `{!Kvdb Db} `{!KvdbLaws Db}.
Implicit Types (sh : shared W E Db) (c : conf W E Db) (t : St W E Db) (s : MSt W E Db) (P : gmap nat goroutine).

Abbreviation ST := (M (St W E Db)).
Abbreviation MS := (M (MSt W E Db)).

(** *** The history *)

Definition sh_le sh sh' : Prop :=
  em_le (sh_e sh) (sh_e sh') ∧ db_le (sh_db sh) (sh_db sh') ∧ sh_signed sh `prefix_of` sh_signed sh'.

#[export] Instance sh_le_preorder : PreOrder sh_le.
Proof.
  split; [intros sh; split_and!; reflexivity|]. intros s1 s2 s3 (? & ? & ?) (? & ? & ?).
  split_and!; [by transitivity (sh_e s2)|by transitivity (sh_db s2)|by transitivity (sh_signed s2)].
Qed.

Lemma st_le_statusDecision : frame st_le (statusDecision : ST (option decision)).
Proof.
  pose proof (st_le_GetVotingPower (W := W) (E := E) (Db := Db)).
  pose proof (st_le_GetSlashedOrJailed (W := W) (E := E) (Db := Db)).
  unfold statusDecision. frame_auto.
Qed.

Lemma reaches_le fuel c c' : reaches fuel c c' → sh_le (cf_sh c) (cf_sh c').
Proof.
  apply (reaches_frame fuel st_le sh_le).
  - by intros g o i t sh [_ ? ? ?].
  - intros sh sh' (He & Hdb & Hs). unfold sh_le. rewrite He, Hdb, Hs. split_and!; reflexivity.
  - intros pk cfg pass sh sh' (He & Hdb & Hs). unfold sh_le. rewrite He, Hdb, Hs.
    split_and!; [reflexivity|apply db_le_New|reflexivity].
  - apply st_le_Start.
  - apply st_le_Stop.
  - apply st_le_mgr_MustSetStatus.
  - intros ev _. apply st_le_run_event.
  - apply st_le_statusDecision.
Qed.

(** C4: the store under concurrency: in every interleaving of the loops, the
    pollers, the two monitors and calls of [StartFinalityProvider] and [Stop],
    with instances that are removed and started again, a stored provider stays
    stored, its heights never decrease and the processed one stays at least
    the voted one, and stored inclusion proofs and signatures stay. *)
Theorem threads_history_is_safe fuel c c' k fp :
  reaches fuel c c' → store_wf (sh_db (cf_sh c)) → fp_lookup (sh_db (cf_sh c)) k = Some fp →
  store_wf (sh_db (cf_sh c')) ∧
  (∃ fp', fp_lookup (sh_db (cf_sh c')) k = Some fp' ∧
     (LastVotedHeight fp <= LastVotedHeight fp')%Z ∧
     (LastProcessedHeight fp <= LastProcessedHeight fp')%Z ∧
     (LastVotedHeight fp' <= LastProcessedHeight fp')%Z) ∧
  (∀ pr v, pr_lookup (sh_db (cf_sh c)) pr = Some v → pr_lookup (sh_db (cf_sh c')) pr = Some v) ∧
  sh_signed (cf_sh c) `prefix_of` sh_signed (cf_sh c').
Proof.
  intros (_ & (Hdb & _ & Hpr) & Hsg)%reaches_le Hst Hfp.
  destruct (Hdb Hst) as [Hst' Hh]. destruct (Hh _ _ Hfp) as (fp' & Hfp' & ? & ?).
  destruct (store_wf_lookup _ _ _ Hst' Hfp') as [_ (_&_&_&_&_&?)].
  split_and!; [done|by exists fp'|done|done].
Qed.

(** Everything signed on the way from [sh] to [sh'] satisfies [Q]. *)
Definition sh_signs (Q : Z * bytes → Prop) sh sh' : Prop := ∃ l, sh_signed sh' = sh_signed sh ++ l ∧ Forall Q l.

#[export] Instance sh_signs_preorder Q : PreOrder (sh_signs Q).
Proof.
  split; [intros sh; exists []; by rewrite app_nil_r|].
  intros s1 s2 s3 (l1 & Hl1 & ?) (l2 & Hl2 & ?). exists (l1 ++ l2).
  split; [by rewrite Hl2, Hl1, (assoc_L (++))|by apply Forall_app].
Qed.

Lemma sh_signs_same Q sh sh' : sh_signed sh' = sh_signed sh → sh_signs Q sh sh'.
Proof. intros Hs. exists []. by rewrite app_nil_r. Qed.

Lemma signs_statusDecision Q : frame (signs Q) (statusDecision : ST (option decision)).
Proof.
  pose proof (signs_GetVotingPower (W := W) (E := E) (Db := Db) Q).
  pose proof (signs_GetSlashedOrJailed (W := W) (E := E) (Db := Db) Q).
  unfold statusDecision. frame_auto.
Qed.

Lemma reaches_honest `{!ConsistentChain W} fuel c c' :
  reaches fuel c c' → sh_signs honest_vote (cf_sh c) (cf_sh c').
Proof.
  apply (reaches_frame fuel (signs honest_vote) (sh_signs honest_vote)).
  - by intros g o i t sh (l & ? & ?); exists l.
  - intros sh sh' (_ & _ & Hs). by apply sh_signs_same.
  - intros pk cfg pass sh sh' (_ & _ & Hs). by apply sh_signs_same.
  - apply honest_Start.
  - apply signs_Stop.
  - intros st. apply signs_MustSetStatus.
  - intros ev Hev _. by apply honest_run_event.
  - apply signs_statusDecision.
Qed.

(** C1: no double signing under concurrency: in every interleaving of the
    goroutines of the manager and of all its instances, the ones it has
    dropped included, two messages signed for the same height are the same
    message, on a chain with one application hash per height. *)
Theorem threads_never_equivocate `{!ConsistentChain W} fuel c c' h m1 m2 :
  reaches fuel c c' → Forall honest_vote (sh_signed (cf_sh c)) →
  (h, m1) ∈ sh_signed (cf_sh c') → (h, m2) ∈ sh_signed (cf_sh c') → m1 = m2.
Proof.
  intros (l & Hl & HF)%reaches_honest Hs Hm1 Hm2.
  assert (Forall honest_vote (sh_signed (cf_sh c'))) as HF' by (rewrite Hl; by apply Forall_app).
  rewrite Forall_forall in HF'. pose proof (HF' _ Hm1) as Ha. pose proof (HF' _ Hm2) as Hb.
  unfold honest_vote in Ha, Hb. simpl in Ha, Hb. by rewrite Ha, Hb.
Qed.

(** *** The split of the status monitor *)

(** What the second half of a turn does with a decision *)
Definition applyDecision (d : option decision) : MS unit :=
  match d with
  | None => mret tt
  | Some (mkDecision SLASHED true) => setFinalityProviderSlashed
  | Some (mkDecision _ true) => setFinalityProviderJailed
  | Some (mkDecision st false) => onInstance (MustSetStatus st)
  end.

(** A query of the chain by a method of an instance *)
Lemma query_run {A} (q : M W A) t :
  retry_Do RtyAttNum (onW q) t = (let r := retry_Do RtyAttNum q (st_w t) in (r.1, st_set_w r.2 t)).
Proof.
  unfold onW. rewrite retry_zoom by (done || unfold RtyAttNum; lia). unfold zoom.
  by destruct (retry_Do _ q _).
Qed.

Lemma mgr_query_run {A} (q : M W A) s :
  retry_Do RtyAttNum (mOnW q) s = (let r := retry_Do RtyAttNum q (mst_w s) in (r.1, mst_set_w r.2 s)).
Proof.
  unfold mOnW. rewrite retry_zoom by (done || unfold RtyAttNum; lia). unfold zoom.
  by destruct (retry_Do _ q _).
Qed.

Lemma onInstance_Some {A} (m : ST A) s i :
  fpm_fpIns (mst_m s) = Some i → onInstance m s = ((m (st_of i s)).1, mst_of (m (st_of i s)).2 s).
Proof. intros Hi. unfold onInstance. by rewrite Hi. Qed.

Lemma mst_of_query w i s : fpm_fpIns (mst_m s) = Some i → mst_of (st_set_w w (st_of i s)) s = mst_set_w w s.
Proof. intros Hi. unfold mst_of, mst_set_w. simpl. by rewrite set_fpIns_same. Qed.

Lemma GetVotingPower_run h t :
  GetVotingPowerWithRetry h t =
    (let r := retry_Do RtyAttNum (cc_QueryFinalityProviderVotingPower (GetBtcPk (st_ins t)) h) (st_w t) in
     (r.1, st_set_w r.2 t)).
Proof. unfold GetVotingPowerWithRetry, mbind, M_bind, ins, gets, id. cbn beta iota. apply query_run. Qed.

Lemma GetSlashedOrJailed_run t :
  GetFinalityProviderSlashedOrJailedWithRetry t =
    (let r := retry_Do RtyAttNum (cc_QueryFinalityProviderSlashedOrJailed (GetBtcPk (st_ins t))) (st_w t) in
     (r.1, st_set_w r.2 t)).
Proof.
  unfold GetFinalityProviderSlashedOrJailedWithRetry, mbind, M_bind, ins, gets, id. cbn beta iota. apply query_run.
Qed.

(** The two halves of a turn, one after the other, are the turn. *)
Lemma status_split s :
  statusUpdateTick s =
    (fpi ← mgr fpm_fpIns;
     match fpi with
     | None => mret tt
     | Some _ => d ← onInstance statusDecision; applyDecision d
     end) s.
Proof.
  unfold statusUpdateTick, mbind, M_bind, mgr, gets. cbn beta.
  destruct (fpm_fpIns (mst_m s)) as [i|] eqn:Hi; [|done].
  rewrite (onInstance_Some statusDecision s i Hi).
  unfold statusDecision, attempt, fpm_getLatestBlockWithRetry, mbind, M_bind, ins, gets, id. cbn beta iota.
  rewrite mgr_query_run, query_run. change (st_w (st_of i s)) with (mst_w s).
  destruct (retry_Do RtyAttNum cc_QueryBestBlock (mst_w s)) as [[b|e|m|] w1]; cbn -[statusDecision];
    [|by rewrite mst_of_query..].
  rewrite (onInstance_Some _ (mst_set_w w1 s) i Hi), !GetVotingPower_run. cbn [st_w st_of mst_set_w st_set_w st_ins mst_w].
  destruct (retry_Do RtyAttNum (cc_QueryFinalityProviderVotingPower _ _) w1) as [[power|e|m|] w2];
    cbn -[statusDecision]; [|done..].
  rewrite (mst_of_query w2 i (mst_set_w w1 s) Hi).
  change (st_set_w w2 (st_set_w w1 (st_of i s))) with (st_set_w w2 (st_of i s)).
  destruct (0 <? power)%Z; [case_bool_decide; cbn -[onInstance]; by rewrite (mst_of_query w2 i s Hi)|].
  rewrite (onInstance_Some _ (mst_set_w w2 (mst_set_w w1 s)) i Hi), !GetSlashedOrJailed_run.
  cbn [st_w st_of mst_set_w st_set_w st_ins mst_w].
  destruct (retry_Do RtyAttNum (cc_QueryFinalityProviderSlashedOrJailed _) w2) as [[[slashed jailed]|e|m|] w3];
    cbn -[statusDecision]; [|done..].
  rewrite (mst_of_query w3 i (mst_set_w w2 (mst_set_w w1 s)) Hi).
  change (st_set_w w3 (st_set_w w2 (st_of i s))) with (st_set_w w3 (st_of i s)).
  destruct slashed; [|destruct jailed; [|case_bool_decide]]; cbn -[onInstance]; by rewrite (mst_of_query w3 i s Hi).
Qed.

(** *** A turn does not touch whether the instance is started, nor its poller *)

Definition same_started t t' : Prop :=
  i_isStarted (st_ins t') = i_isStarted (st_ins t) ∧ i_poller (st_ins t') = i_poller (st_ins t).

#[local] Instance same_started_preorder : PreOrder same_started.
Proof. split; [by intros t|]. intros t1 t2 t3 [] []. split; congruence. Qed.

Lemma started_onW {A} (m : M W A) : frame same_started (onW m : ST A).
Proof. by intros t. Qed.
Lemma started_onE {A} (m : M E A) : frame same_started (onE m : ST A).
Proof. by intros t. Qed.
Lemma started_onDb {A} (m : M Db A) : frame same_started (onDb m : ST A).
Proof. by intros t. Qed.
Lemma started_onFm f : frame same_started (onFm f : ST unit).
Proof. by intros t. Qed.
Lemma started_noteSigned h m : frame same_started (noteSigned h m : ST unit).
Proof. by intros t. Qed.
Lemma started_ins {A} (f : FinalityProviderInstance → A) : frame same_started (ins f : ST A).
Proof. by intros t. Qed.
Lemma started_set_fp f : frame same_started (onIns (λ i, set_fp (f i) i) : ST unit).
Proof. by intros t. Qed.
Lemma started_set_inSync v : frame same_started (onIns (set_inSync v) : ST unit).
Proof. by intros t. Qed.
Lemma started_set_isLagging v : frame same_started (onIns (set_isLagging v) : ST unit).
Proof. by intros t. Qed.
Lemma started_set_laggingTarget v : frame same_started (onIns (set_laggingTarget v) : ST unit).
Proof. by intros t. Qed.
Lemma started_criticalErrs f : frame same_started (onIns (λ i, set_criticalErrs (f i) i) : ST unit).
Proof. by intros t. Qed.
Lemma started_must msg (m : ST unit) : frame same_started m → frame same_started (must msg m).
Proof. intros Hm. unfold must. frame_auto. Qed.
Lemma started_retry {A} (m : ST A) : frame same_started m → frame same_started (retry_Do RtyAttNum m).
Proof. intros Hm. apply frame_retry; [apply _|unfold RtyAttNum; lia|done]. Qed.
Lemma started_same_run {A} (m : ST A) : frame same_run m → frame same_started m.
Proof. intros Hm t. by destruct (Hm t) as (? & ? & _). Qed.

#[local] Hint Resolve started_onW started_onE started_onDb started_onFm started_noteSigned started_ins started_set_fp
  started_set_inSync started_set_isLagging started_set_laggingTarget started_criticalErrs started_must
  started_retry : frame.

Lemma started_shared_ops :
  (∀ h, frame same_started (MustSetLastProcessedHeight h : ST unit)) ∧
  (∀ h, frame same_started (MustUpdateStateAfterFinalitySigSubmission h : ST unit)) ∧
  (∀ fuel b, frame same_started (tryFastSync fuel b : ST (option FastSyncResult))) ∧
  (∀ st, frame same_started (MustSetStatus st : ST unit)).
Proof.
  split_and!; intros.
  - apply started_same_run, same_run_MustSetLastProcessed.
  - apply started_same_run, same_run_MustUpdate.
  - apply started_same_run, same_run_tryFastSync.
  - apply started_same_run, same_run_MustSetStatus.
Qed.

Lemma started_submit b : frame same_started (SubmitFinalitySignature b : ST TxResponse).
Proof.
  destruct started_shared_ops as (_ & Hu & _ & _).
  unfold SubmitFinalitySignature, getPubRandList, signFinalitySig, index0. frame_auto.
Qed.

Lemma started_commit h : frame same_started (CommitPubRand h : ST (option TxResponse)).
Proof.
  unfold CommitPubRand, commitPubRandFrom, getPubRandList, signPubRandCommit, GetLastCommittedHeight,
    lastCommittedPublicRandWithRetry. frame_auto.
Qed.
#[local] Hint Resolve started_submit started_commit : frame.

Lemma started_retrySubmit fuel n b :
  frame same_started (retrySubmitFinalitySignatureUntilBlockFinalized fuel n b : ST (option TxResponse)).
Proof.
  revert n. induction fuel as [|fuel IH]; intros n; cbn [retrySubmitFinalitySignatureUntilBlockFinalized];
    [frame_auto|]. unfold awaitRetry, checkBlockFinalization. frame_auto.
Qed.

Lemma started_retryCommit fuel n b :
  frame same_started (retryCommitPubRandUntilBlockFinalized fuel n b : ST (option TxResponse)).
Proof.
  revert n. induction fuel as [|fuel IH]; intros n; cbn [retryCommitPubRandUntilBlockFinalized];
    [frame_auto|]. unfold awaitRetry, checkBlockFinalization. frame_auto.
Qed.
#[local] Hint Resolve started_retrySubmit started_retryCommit : frame.

Lemma started_turn fuel ev : frame same_started (run_event fuel ev : ST unit).
Proof.
  destruct started_shared_ops as (Hp & _ & Hfs & _).
  destruct ev; cbn [run_event]; unfold handleBlock, handleLagging, randomnessTick, checkLaggingTick, hasVotingPower,
    GetVotingPowerWithRetry, getLatestBlockWithRetry, reportCriticalErr; frame_auto.
Qed.
End theorems.
