(* ===== verification/FpRemoval.v ===== *)
(** * FpRemoval: removing an instance while its goroutines run

    Theorems on the step relation of [FpThreads]: which instance the running
    loops belong to, when a removal or a shutdown can wait for ever, and what
    happens when both monitors remove the same instance
    (monitorCriticalErr, monitorStatusUpdate, removeFinalityProviderInstance
    and Stop of [src/finality-provider/service/fp_manager.go]). *)

From stdpp Require Import base gmap list relations strings pretty.
From Stdlib Require Import ZArith Lia.
From S2P Require Import Prelude Errors Monad Types Kvdb FpStore PubRandStore Metrics EotsManager.
From S2P Require Import Config ClientController Poller FpState Voting FastSync FpInstance FpManager FpThreads.

Section removal.
Context `{CryptoLaws} `{CodecLaws} `{BbnErrors} `{RetryGoLaws}.
Context {W E Db : Type} `{!ClientController W} `{!ClientControllerLaws W} `{!Env W}.
Context `{!EOTSManager E} `{!EOTSManagerLaws E} `{!Kvdb Db} `{!KvdbLaws Db}.
Implicit Types (sh : shared W E Db) (c : conf W E Db) (P : gmap nat goroutine) (x y : goroutine) (r : remove_pc).

(** ** The pool *)

Definition is_poller x : bool := match x with TPoller _ _ => true | _ => false end.

(** Making room and closing the poller's quit change pollers only. *)
Lemma make_room_lookup ev p P n x :
  is_poller x = false → make_room ev p P !! n = Some x ↔ P !! n = Some x.
Proof.
  intros Hx. unfold make_room. destruct ev; try done. destruct (P !! p) as [[]|] eqn:Hp; try done.
  destruct (decide (n = p)) as [->|]; [|by rewrite lookup_insert_ne].
  rewrite lookup_insert_eq, Hp. split; intros [= <-]; done.
Qed.

Lemma close_poller_lookup p P n x :
  is_poller x = false → close_poller p P !! n = Some x ↔ P !! n = Some x.
Proof.
  intros Hx. unfold close_poller. destruct (P !! p) as [[]|] eqn:Hp; try done.
  destruct (decide (n = p)) as [->|]; [|by rewrite lookup_insert_ne].
  rewrite lookup_insert_eq, Hp. split; intros [= <-]; done.
Qed.

(** The pool a step of a removal leaves, but for its own goroutine *)
Lemma rm_pool sh P r sh' P' r' n x :
  rm_step sh P r (RmNext sh' P' r') → is_poller x = false → P' !! n = Some x ↔ P !! n = Some x.
Proof. inversion 1; subst; intros Hx; [done|by apply close_poller_lookup|done]. Qed.

(** ** A report that nobody receives *)

(** The instance whose goroutines a removal waits for *)
Definition rm_waits r : option nat :=
  match r with RmPoller g _ | RmLoops g => Some g | _ => None end.
Definition waits_for x : option nat :=
  match x with
  | TCrit (CRemove r) | TStat (SRemove r) | TStop (StRemove r) => rm_waits r
  | _ => None
  end.

(** A loop of [g] is at its report, the goroutine [n] waits for the loops of
    [g], and there is no other goroutine that could receive the report. *)
Definition hung (g t n : nat) (l : loop) (ce : CriticalError) c : Prop :=
  cf_pool c !! t = Some (TLoop g l (LReport ce)) ∧
  (∃ x, cf_pool c !! n = Some x ∧ waits_for x = Some g) ∧
  sh_started (cf_sh c) = true ∧
  (∀ m pc, cf_pool c !! m = Some (TCrit pc) → m = n).

Lemma rm_next_waits sh P r sh' P' r' g :
  rm_step sh P r (RmNext sh' P' r') → rm_waits r = Some g → rm_waits r' = Some g.
Proof. inversion 1; subst; simpl; try done. Qed.

Lemma rm_done_waits sh P r g : rm_step sh P r RmDone → rm_waits r = Some g → ¬ loops_of g P.
Proof. inversion 1; subst; simpl; try done. by intros [= <-]. Qed.

Lemma rm_started sh P r sh' P' r' : rm_step sh P r (RmNext sh' P' r') → sh_started sh' = sh_started sh.
Proof. by inversion 1; subst. Qed.

Lemma mustSet_started g st sh o sh' : mustSet g st sh = Some (o, sh') → sh_started sh' = sh_started sh.
Proof.
  unfold mustSet. intros (ob & _ & Hr)%bind_Some. destruct (MustSetStatus _ _). by injection Hr as _ <-.
Qed.

Lemma next_started fuel c c' : next fuel c c' → sh_started (cf_sh c) = true → sh_started (cf_sh c') = true.
Proof.
  inversion 1; subst; simpl; try done; intros Hs; try (by erewrite mustSet_started); by erewrite rm_started.
Qed.

(** A goroutine that a step does not run stays as it is. *)
Ltac stays :=
  repeat (rewrite lookup_insert_ne by (intros ->; congruence));
  first [done | by apply make_room_lookup | by eapply rm_pool].

(** A goroutine of the pool after a step: one that the step put there, or one
    that was there before. *)
Ltac was_there Hx :=
  repeat (apply lookup_insert_Some in Hx as [[? ?]|[? Hx]]; [simplify_eq; try done|]);
  try (apply make_room_lookup in Hx; [|done]);
  try match goal with
  | Hr : rm_step _ _ _ (RmNext _ _ _) |- _ => apply (rm_pool _ _ _ _ _ _ _ _ Hr) in Hx; [|done]
  end.

Lemma report_stays fuel c c' t g l ce :
  next fuel c c' → (∀ m, cf_pool c !! m ≠ Some (TCrit CSelect)) →
  cf_pool c !! t = Some (TLoop g l (LReport ce)) → cf_pool c' !! t = Some (TLoop g l (LReport ce)).
Proof. inversion 1; subst; simpl; intros Hm Ht; try (by exfalso; eapply Hm); stays. Qed.

(** There is never a second [monitorCriticalErr]. *)
Lemma crit_unique_next fuel c c' n :
  next fuel c c' → sh_started (cf_sh c) = true → (∀ m pc, cf_pool c !! m = Some (TCrit pc) → m = n) →
  ∀ m pc, cf_pool c' !! m = Some (TCrit pc) → m = n.
Proof.
  inversion 1; subst; simpl; intros Hs Hu m' pc' Hx; try congruence; was_there Hx; try (by eapply Hu).
Qed.

(** A removal or shutdown waits as long as a loop of its instance is there. *)
Lemma waiter_stays fuel c c' n x g :
  next fuel c c' → cf_pool c !! n = Some x → waits_for x = Some g → loops_of g (cf_pool c) →
  ∃ x', cf_pool c' !! n = Some x' ∧ waits_for x' = Some g.
Proof.
  inversion 1; subst; simpl; intros Hn Hw Hg;
    match goal with Hr : rm_step _ _ _ _, Hm : _ !! ?m = Some _ |- _ => destruct (decide (n = m)) as [->|] | _ => idtac end;
    simplify_eq; simpl in Hw;
    try (by exfalso; eapply rm_done_waits);
    try (by eexists; split; [apply lookup_insert_eq|by eapply rm_next_waits]);
    try (exists x; split; [|done]; destruct x as [| |[|[]]|[| |[]]|[|[]]| |]; simpl in Hw; try done; stays).
Qed.

Lemma hung_next fuel c c' g t n l ce : next fuel c c' → hung g t n l ce c → hung g t n l ce c'.
Proof.
  intros Hstep (Ht & (x & Hn & Hw) & Hs & Hu). split_and!.
  - eapply report_stays; [done| |done]. intros m Hm. pose proof (Hu _ _ Hm) as ->. by rewrite Hm in Hn; simplify_eq.
  - eapply waiter_stays; [done..|]. by exists t, l, (LReport ce).
  - by eapply next_started.
  - by eapply crit_unique_next.
Qed.

(** C18: a shutdown or a removal can hang for ever: when a loop of an instance
    is at the send of a critical error while [monitorCriticalErr] (or [Stop],
    after the monitors have returned) waits in [Stop] of that instance, the
    send is never received and the wait never ends, whatever the other
    goroutines do. *)
Theorem report_blocks_removal fuel c c' g t n l ce :
  hung g t n l ce c → reaches fuel c c' →
  cf_pool c' !! t = Some (TLoop g l (LReport ce)) ∧
  ∃ x, cf_pool c' !! n = Some x ∧ waits_for x = Some g.
Proof.
  intros Hh Hr. assert (hung g t n l ce c') as (? & ? & _); [|done].
  induction Hr as [|c1 c2 c3 Hs _ IH]; [done|]. by apply IH, (hung_next fuel c1).
Qed.

(** ** A removal that ends *)

(** [P'] is [P] after some goroutines have returned. *)
Definition returned P P' : Prop := ∀ n x, P' !! n = Some x → x = TDone ∨ P !! n = Some x.

(** The loops of an instance whose [quit] is closed return one after the
    other. *)
Lemma loops_return fuel sh P g o (ks : list nat) :
  sh_heap sh !! g = Some o → o_quit o = true →
  (∀ t l pc, P !! t = Some (TLoop g l pc) → pc = LSelect ∧ t ∈ ks) →
  ∃ P', reaches fuel (mkConf sh P) (mkConf sh P') ∧ ¬ loops_of g P' ∧ returned P P' ∧
    ∀ n x, P !! n = Some x → (∀ l pc, x ≠ TLoop g l pc) → P' !! n = Some x.
Proof.
  intros Ho Hq. revert P. induction ks as [|k ks IH]; intros P Hks.
  - exists P. split_and!; [reflexivity| |by right|done]. intros (t & l & pc & Ht).
    by destruct (Hks _ _ _ Ht) as [_ ?%elem_of_nil].
  - assert ((∃ l, P !! k = Some (TLoop g l LSelect)) ∨ ∀ l pc, P !! k ≠ Some (TLoop g l pc)) as [[l Hk]|Hk].
    { destruct (P !! k) as [[g' l pc| | | | | |]|] eqn:Hk; try (by right). destruct (decide (g' = g)) as [->|].
      - left. destruct (Hks _ _ _ Hk) as [-> _]. by exists l.
      - right. congruence. }
    + destruct (IH (<[k := TDone]> P)) as (P' & Hr & Hno & Hret & Hkeep).
      { intros t l' pc [[_ ?]|[? Ht]]%lookup_insert_Some; [done|]. destruct (Hks _ _ _ Ht) as [? Hin]. set_solver. }
      exists P'. split_and!; [eapply rtc_l; [by eapply s_loop_quit|done]|done| |].
      * intros n x [->|[[_ <-]|[_ ?]]%lookup_insert_Some]%Hret; eauto.
      * intros n x Hn Hx. apply Hkeep; [|done]. rewrite lookup_insert_ne; [done|]. intros ->.
        by destruct (Hx l LSelect); simplify_eq.
    + apply IH. intros t l pc Ht. destruct (Hks _ _ _ Ht) as [? [->|?]%elem_of_cons]; [by destruct (Hk l pc)|done].
Qed.

(** The end of a removal by a monitor: [back] is its place for a place in the
    removal, [select] its select. *)
Section remover.
Context (fuel : nat) (back : remove_pc → goroutine) (select : goroutine).
Hypothesis back_next : ∀ sh P n r sh' P' r',
  P !! n = Some (back r) → rm_step sh P r (RmNext sh' P' r') →
  next fuel (mkConf sh P) (mkConf sh' (<[n := back r']> P')).
Hypothesis back_done : ∀ sh P n r,
  P !! n = Some (back r) → rm_step sh P r RmDone →
  next fuel (mkConf sh P) (mkConf (sh_set_fpIns None sh) (<[n := select]> P)).
Hypothesis back_place : ∀ r, is_poller (back r) = false ∧ ∀ g l pc, back r ≠ TLoop g l pc.

Lemma removal_ends sh P n g p o :
  P !! n = Some (back (RmPoller g p)) → P !! p = Some (TPoller true false) →
  sh_heap sh !! g = Some o → o_quit o = false →
  (∀ t l pc, P !! t = Some (TLoop g l pc) → pc = LSelect) →
  ∃ P', reaches fuel (mkConf sh P)
      (mkConf (sh_set_fpIns None (sh_set_heap (<[g := with_quit true o]> (sh_heap sh)) sh)) (<[n := select]> P')) ∧
    ¬ loops_of g P' ∧ (∀ k x, k ≠ n → P' !! k = Some x → x = TDone ∨ P !! k = Some x) ∧
    ∀ k x, k ≠ n → k ≠ p → P !! k = Some x → (∀ l pc, x ≠ TLoop g l pc) → P' !! k = Some x.
Proof.
  intros Hn Hp Ho Hq Hsel.
  assert (n ≠ p) by (intros ->; rewrite Hn in Hp; injection Hp as Hb; by destruct (back_place (RmPoller g p)) as [? _]; rewrite Hb in *).
  set (sh1 := sh_set_heap (<[g := with_quit true o]> (sh_heap sh)) sh).
  set (P2 := <[n := back (RmLoops g)]> (<[p := TDone]> P)).
  assert (∀ k x, k ≠ n → P2 !! k = Some x → x = TDone ∨ P !! k = Some x) as Hback.
  { intros k x Hk. unfold P2. rewrite lookup_insert_ne by done. intros [[_ <-]|[_ ?]]%lookup_insert_Some; eauto. }
  assert (∀ t l pc, P2 !! t = Some (TLoop g l pc) → P !! t = Some (TLoop g l pc)) as Hloop.
  { intros t l pc Ht. destruct (decide (t = n)) as [->|Hk].
    - unfold P2 in Ht. rewrite lookup_insert_eq in Ht. injection Ht as Ht. by destruct (proj2 (back_place (RmLoops g)) _ _ _ Ht).
    - by destruct (Hback _ _ Hk Ht). }
  destruct (loops_return fuel sh1 P2 g (with_quit true o) (elements (dom P2))) as (P3 & Hr & Hno & Hret & Hkeep);
    [apply lookup_insert_eq|done| |].
  { intros t l pc Ht. split; [by eapply Hsel, Hloop|]. by apply elem_of_elements, elem_of_dom. }
  exists P3. split_and!.
  - eapply rtc_l; [by apply (s_poller_quit fuel sh P p)|].
    eapply rtc_l; [eapply (back_next sh _ n); [by rewrite lookup_insert_ne|]|].
    { by eapply rm_poller; [apply lookup_insert_eq|..]. }
    etransitivity; [exact Hr|]. eapply rtc_l; [|reflexivity].
    eapply (back_done sh1 P3 n); [|by apply rm_loops]. apply Hkeep; [apply lookup_insert_eq|apply back_place].
  - done.
  - intros k x Hk Hx. destruct (Hret _ _ Hx) as [->|Hx2]; [by left|by apply Hback].
  - intros k x Hkn Hkp Hx Hl. apply Hkeep; [|done]. unfold P2. by rewrite !lookup_insert_ne.
Qed.
End remover.

(** C17: a removal ends when nothing is reported: once [monitorCriticalErr]
    has closed the poller of an instance, and if no loop of it is at the send
    of an error and the poller is not at a send, the goroutines can all return
    and the manager drops the instance. *)
Theorem removal_completes fuel sh P n g p o :
  P !! n = Some (TCrit (CRemove (RmPoller g p))) → P !! p = Some (TPoller true false) →
  sh_heap sh !! g = Some o → o_quit o = false →
  (∀ t l pc, P !! t = Some (TLoop g l pc) → pc = LSelect) →
  ∃ c, reaches fuel (mkConf sh P) c ∧ cf_pool c !! n = Some (TCrit CSelect) ∧ sh_fpIns (cf_sh c) = None ∧
    ¬ loops_of g (cf_pool c).
Proof.
  intros Hn Hp Ho Hq Hsel.
  destruct (removal_ends fuel (λ r, TCrit (CRemove r)) (TCrit CSelect)) with sh P n g p o as (P' & Hr & Hno & _);
    [intros; by eapply s_crit_remove|intros; by eapply s_crit_removed|done..|].
  eexists. split_and!; [exact Hr|apply lookup_insert_eq|done|].
  intros (t & l & pc & Ht). simpl in Ht. apply lookup_insert_Some in Ht as [[_ ?]|[_ Ht]]; [done|].
  apply Hno. by exists t, l, pc.
Qed.

(** ** Which instance the loops belong to *)

(** The instance a removal works on *)
Definition rm_target r : option nat :=
  match r with RmCheck => None | RmStop g | RmPoller g _ | RmLoops g => Some g end.

(** What holds when the status updates are disabled, so that only the monitor
    of critical errors removes instances *)
Record quiet c : Prop := {
  q_config : StatusUpdateInterval (sh_config (cf_sh c)) = 0%Z;
  q_stat n pc : cf_pool c !! n = Some (TStat pc) → pc = SSelect;
  q_started n x :
    cf_pool c !! n = Some x → is_monitor x = true ∨ (∃ pc, x = TStart pc) → sh_started (cf_sh c) = true;
  q_ptr g : sh_fpIns (cf_sh c) = Some g → sh_started (cf_sh c) = true;
  q_crit n m pc pc' : cf_pool c !! n = Some (TCrit pc) → cf_pool c !! m = Some (TCrit pc') → n = m;
  q_loops t g l pc : cf_pool c !! t = Some (TLoop g l pc) → sh_fpIns (cf_sh c) = Some g;
  q_target n r g : cf_pool c !! n = Some (TCrit (CRemove r)) → rm_target r = Some g → sh_fpIns (cf_sh c) = Some g;
  q_stop n r :
    cf_pool c !! n = Some (TStop (StRemove r)) →
    sh_started (cf_sh c) = true ∧ ∀ m x, cf_pool c !! m = Some x → is_monitor x = false;
  q_running n pc t g l pc' o :
    cf_pool c !! n = Some (TCrit pc) → cf_pool c !! t = Some (TLoop g l pc') → sh_heap (cf_sh c) !! g = Some o →
    IsRunning (o_ins o) = true ∨ waits_for (TCrit pc) = Some g;
}.

(** The parts of the memory that only some steps change *)
Lemma rm_control sh P r sh' P' r' :
  rm_step sh P r (RmNext sh' P' r') →
  sh_config sh' = sh_config sh ∧ sh_fpIns sh' = sh_fpIns sh ∧ sh_started sh' = sh_started sh.
Proof. by inversion 1; subst. Qed.

Lemma mustSet_control g st sh o sh' :
  mustSet g st sh = Some (o, sh') →
  sh_config sh' = sh_config sh ∧ sh_fpIns sh' = sh_fpIns sh ∧ sh_started sh' = sh_started sh.
Proof.
  unfold mustSet. intros (ob & _ & Hr)%bind_Some. destruct (MustSetStatus _ _). by injection Hr as _ <-.
Qed.

Ltac control :=
  repeat match goal with
  | Hr : rm_step _ _ _ (RmNext _ _ _) |- _ => apply rm_control in Hr as (? & ? & ?)
  | Hr : mustSet _ _ _ = Some _ |- _ => apply mustSet_control in Hr as (? & ? & ?)
  end.

Lemma quiet_config fuel c c' : next fuel c c' → quiet c → StatusUpdateInterval (sh_config (cf_sh c')) = 0%Z.
Proof. inversion 1; subst; simpl; intros [Hc _ _ _ _ _ _ _ _]; simpl in *; control; congruence. Qed.

Lemma quiet_stat fuel c c' n pc :
  next fuel c c' → quiet c → cf_pool c' !! n = Some (TStat pc) → pc = SSelect.
Proof.
  inversion 1; subst; simpl; intros [Hc Hst _ _ _ _ _ _ _] Hx; simpl in *; was_there Hx; try (by eapply Hst);
    try congruence; try (by match goal with Hp : _ !! _ = Some (TStat ?p) |- _ => pose proof (Hst _ _ Hp) end).
Qed.

Lemma quiet_started fuel c c' n x :
  next fuel c c' → quiet c → cf_pool c' !! n = Some x → is_monitor x = true ∨ (∃ pc, x = TStart pc) →
  sh_started (cf_sh c') = true.
Proof.
  intros Hstep Hq Hx Hm. destruct (sh_started (cf_sh c)) eqn:Hs; [by eapply next_started|].
  assert (is_poller x = false) by (by destruct x; destruct Hm as [|[]]).
  assert (∀ k z, cf_pool c !! k = Some z → is_monitor z = true ∨ (∃ pc, z = TStart pc) → False) as Hno.
  { intros k z Hz Hk. pose proof (q_started _ Hq _ _ Hz Hk). congruence. }
  revert Hx. inversion Hstep; subst; simpl in *; try done; intros Hx.
  all: was_there Hx; try (by destruct Hm as [|[]]); try (by exfalso; eapply Hno; eauto).
  all: exfalso; eapply Hno; [eassumption|by eauto].
Qed.

Lemma next_ptr fuel c c' g : next fuel c c' → sh_fpIns (cf_sh c') = Some g → sh_fpIns (cf_sh c) = Some g ∨
  sh_fpIns (cf_sh c) = None ∧ ∃ n pc, cf_pool c !! n = Some (TStart pc).
Proof. inversion 1; subst; simpl; control; try congruence; intros Hg; try (left; congruence); right; eauto. Qed.

Lemma quiet_ptr fuel c c' g :
  next fuel c c' → quiet c → sh_fpIns (cf_sh c') = Some g → sh_started (cf_sh c') = true.
Proof.
  intros Hs Hq [Hg|(_ & n & pc & Hn)]%(next_ptr fuel c c'); [| |done]; eapply next_started; [done| |done|].
  - by eapply q_ptr.
  - eapply q_started; eauto.
Qed.

(** A goroutine with a monitor's role after a step had one before, unless
    the step was the first call of [StartFinalityProvider]. *)
Lemma next_crit fuel c c' n pc :
  next fuel c c' → cf_pool c' !! n = Some (TCrit pc) →
  (∃ pc', cf_pool c !! n = Some (TCrit pc')) ∨ sh_started (cf_sh c) = false ∧ pc = CSelect.
Proof. inversion 1; subst; simpl; intros Hx; was_there Hx; eauto. Qed.

Lemma quiet_crit fuel c c' n m pc pc' :
  next fuel c c' → quiet c → cf_pool c' !! n = Some (TCrit pc) → cf_pool c' !! m = Some (TCrit pc') → n = m.
Proof.
  intros Hstep Hq Hn Hm.
  destruct (next_crit _ _ _ _ _ Hstep Hn) as [[pn Hn0]|[Hs _]], (next_crit _ _ _ _ _ Hstep Hm) as [[pm Hm0]|[Hs' _]].
  - by eapply q_crit.
  - pose proof (q_started _ Hq _ _ Hn0 (or_introl eq_refl)). congruence.
  - pose proof (q_started _ Hq _ _ Hm0 (or_introl eq_refl)). congruence.
  - revert Hn Hm. pose proof (q_started _ Hq) as Hst. inversion Hstep; subst; simpl in *; intros Hn Hm;
      was_there Hn; was_there Hm; try congruence;
      match goal with Hp : _ !! _ = Some (TCrit _) |- _ => by pose proof (Hst _ _ Hp (or_introl eq_refl)); congruence end.
Qed.

(** The loops after a step: those of before, or those of an instance that
    [StartFinalityProvider] has just started *)
Lemma next_loop fuel c c' t g l pc :
  next fuel c c' → cf_pool c' !! t = Some (TLoop g l pc) →
  (∃ t' l' pc', cf_pool c !! t' = Some (TLoop g l' pc')) ∨
  sh_fpIns (cf_sh c) = Some g ∧ sh_fpIns (cf_sh c') = Some g ∧
  ∀ o, sh_heap (cf_sh c') !! g = Some o → IsRunning (o_ins o) = true.
Proof.
  inversion 1; subst; simpl; intros Hx; was_there Hx; try (by left; eauto).
  all: right; split_and!; [done|done|]; intros o'; rewrite lookup_insert_eq; intros [= <-];
    match goal with Hs : Start _ _ = _ |- _ => apply Start_Ok_started in Hs as [Hs _]; exact Hs end.
Qed.

Lemma Stop_started (s s' : St W E Db) res : Stop s = (res, s') → i_isStarted (st_ins s') = false.
Proof.
  unfold Stop, mbind, M_bind, ins, gets, onIns, modify. simpl. destruct (i_isStarted (st_ins s)); simpl;
    [|by intros [= _ <-]].
  unfold wrapping, stopPoller. simpl. destruct (i_poller _); [|by intros [= _ <-]].
  destruct (poller_Stop _) as [[] ?]; by intros [= _ <-].
Qed.

(** How a step changes whether an instance counts as running: a new instance
    does not, one that was just started does, and one does not any more when
    a goroutine has just begun to wait for its poller, or when [Stop] of the
    manager has failed on it. *)
Lemma mustSet_running g st sh o sh' g' ob' :
  mustSet g st sh = Some (o, sh') → sh_heap sh' !! g' = Some ob' →
  ∃ ob, sh_heap sh !! g' = Some ob ∧ IsRunning (o_ins ob) = IsRunning (o_ins ob').
Proof.
  unfold mustSet. intros (ob & Hob & Hr)%bind_Some Hg. destruct (MustSetStatus _ _) as [r0 t] eqn:Em.
  injection Hr as _ <-. simpl in Hg. apply lookup_insert_Some in Hg as [[<- <-]|[_ Hg]]; [|by eauto].
  exists ob. split; [done|]. simpl. destruct started_shared_ops as (_ & _ & _ & Hst).
  destruct (Hst st (sh_st (o_ins ob) sh)) as [Hi _]. rewrite Em in Hi. by symmetry.
Qed.

Lemma rm_running_step sh P r sh' P' r' g o' :
  rm_step sh P r (RmNext sh' P' r') → sh_heap sh' !! g = Some o' →
  (∃ o, sh_heap sh !! g = Some o ∧ IsRunning (o_ins o) = IsRunning (o_ins o')) ∨ rm_waits r' = Some g.
Proof.
  inversion 1; subst; simpl; intros Hg; [by eauto| |].
  - apply lookup_insert_Some in Hg as [[<- <-]|[_ Hg]]; [by right|by eauto].
  - apply lookup_insert_Some in Hg as [[<- <-]|[_ Hg]]; [by right|by eauto].
Qed.

Lemma next_running fuel c c' g o' :
  next fuel c c' → sh_heap (cf_sh c') !! g = Some o' →
  IsRunning (o_ins o') = true ∨
  (∃ o, sh_heap (cf_sh c) !! g = Some o ∧ IsRunning (o_ins o) = IsRunning (o_ins o')) ∨
  sh_fpIns (cf_sh c) = None ∨
  (∃ n x, cf_pool c' !! n = Some x ∧ waits_for x = Some g) ∨
  ∃ n r, cf_pool c !! n = Some (TStop (StRemove r)).
Proof.
  inversion 1; subst; simpl; intros Hg; try (by right; left; eauto); try (by right; right; left);
    try (by right; left; eapply mustSet_running);
    try (match goal with Hr : rm_step _ _ _ _ |- _ => destruct (rm_running_step _ _ _ _ _ _ _ _ Hr Hg) as [|] end;
         [by right; left|by right; right; right; left; eexists _, _; split; [apply lookup_insert_eq|]]);
    try (by right; right; right; right; eauto);
    (apply lookup_insert_Some in Hg as [[<- <-]|[_ Hg]]; [|by right; left; eauto]); simpl;
    match goal with
    | Hr : run_event _ ?ev ?s = _ |- _ =>
        right; left; eexists; split; [done|]; destruct (started_turn fuel ev s) as [Ht _]; rewrite Hr in Ht; by symmetry
    | Hr : Start _ _ = (Ok _, _) |- _ => left; by apply Start_Ok_started in Hr as [Hr _]
    | Hr : Start _ _ = (Err _, _) |- _ => left; by apply Start_Err_started in Hr
    | Hr : statusDecision _ = _ |- _ => right; left; by eauto
    end.
Qed.

(** The status monitor never gets past its select, a goroutine of [Stop]
    past its wait leaves no monitor: the goroutine that removes an instance
    under a monitor of critical errors is that monitor. *)
Lemma quiet_loops fuel c c' t g l pc :
  next fuel c c' → quiet c → cf_pool c' !! t = Some (TLoop g l pc) → sh_fpIns (cf_sh c') = Some g.
Proof.
  intros Hstep Hq Ht. destruct (next_loop _ _ _ _ _ _ _ Hstep Ht) as [(t' & l' & pc' & Ht')|(_ & ? & _)]; [|done].
  pose proof (q_loops _ Hq _ _ _ _ Ht') as Hg. revert Ht'. destruct Hq as [Hc Hst _ _ _ _ Htg _ Hrun].
  inversion Hstep; subst; simpl in *; intros Ht'; control; try congruence.
  - exfalso. match goal with Hr : rm_step _ _ ?r RmDone, Hx : _ !! _ = Some (TCrit _) |- _ =>
      pose proof (λ n, Htg n r) as Htr; pose proof (λ o, Hrun _ _ _ _ _ _ o Hx Ht') as Hrun'; inversion Hr; subst end.
    + simplify_eq. match goal with Ho : sh_heap _ !! g = Some _ |- _ => destruct (Hrun' _ Ho) as [|]; simpl in * end; congruence.
    + match goal with Hx : _ !! _ = Some (TCrit _) |- _ => pose proof (Htr _ _ Hx eq_refl) end. simplify_eq.
      match goal with Hl : ¬ loops_of _ _ |- _ => apply Hl end. by exists t', l', pc'.
  - match goal with Hx : _ !! _ = Some (TStat _) |- _ => by pose proof (Hst _ _ Hx) end.
Qed.

Lemma rm_next_target sh P r sh' P' r' g :
  rm_step sh P r (RmNext sh' P' r') → rm_target r' = Some g → rm_target r = Some g ∨ sh_fpIns sh = Some g.
Proof. inversion 1; subst; simpl; intros [= <-]; by eauto. Qed.

Lemma quiet_target fuel c c' n r g :
  next fuel c c' → quiet c → cf_pool c' !! n = Some (TCrit (CRemove r)) → rm_target r = Some g →
  sh_fpIns (cf_sh c') = Some g.
Proof.
  intros Hstep Hq Hn Hr. revert Hn.
  destruct Hq as [Hc Hst _ _ Hcr _ Htg _ _]. inversion Hstep; subst; simpl in *; intros Hn.
  all: try match goal with
    Hs : rm_step _ _ ?r0 (RmNext _ _ ?r') |- _ =>
      pose proof (rm_control _ _ _ _ _ _ Hs) as (_ & Hp & _); simpl in Hp; pose proof (rm_next_target _ _ _ _ _ _ g Hs) as Hnt end.
  all: was_there Hn; control; try (rewrite ?Hp; by eapply Htg); try congruence.
  all: try (pose proof (Htg _ _ _ Hn Hr); congruence).
  - rewrite Hp. destruct (Hnt Hr); [by eapply Htg|done].
  - by match goal with Hx : P !! ?m = Some _, Hne : ?m ≠ n |- _ => destruct (Hne (Hcr _ _ _ _ Hx Hn)) end.
  - by match goal with Hx : P !! _ = Some (TStat _) |- _ => pose proof (Hst _ _ Hx) end.
Qed.

Lemma next_monitor fuel c c' n x :
  next fuel c c' → cf_pool c' !! n = Some x → is_monitor x = true →
  (∃ m y, cf_pool c !! m = Some y ∧ is_monitor y = true) ∨ sh_started (cf_sh c) = false.
Proof.
  intros Hstep Hx Hm. assert (is_poller x = false) by (by destruct x). revert Hx.
  inversion Hstep; subst; simpl; intros Hx; was_there Hx; try (by left; eauto); by right.
Qed.

Lemma next_stop fuel c c' n r :
  next fuel c c' → cf_pool c' !! n = Some (TStop (StRemove r)) →
  (∃ m r', cf_pool c !! m = Some (TStop (StRemove r'))) ∨
  is_Some (sh_fpIns (cf_sh c)) ∧ ∀ m x, cf_pool c !! m = Some x → is_monitor x = false.
Proof. inversion 1; subst; simpl; intros Hx; was_there Hx; eauto. Qed.

Lemma quiet_stop fuel c c' n r :
  next fuel c c' → quiet c → cf_pool c' !! n = Some (TStop (StRemove r)) →
  sh_started (cf_sh c') = true ∧ ∀ m x, cf_pool c' !! m = Some x → is_monitor x = false.
Proof.
  intros Hstep Hq Hn.
  assert (sh_started (cf_sh c) = true ∧ ∀ m x, cf_pool c !! m = Some x → is_monitor x = false) as [Hs Hno].
  { destruct (next_stop _ _ _ _ _ Hstep Hn) as [(m & r' & Hm)|[[g Hg] Hno]]; [by eapply q_stop|].
    split; [by eapply q_ptr|done]. }
  split; [by eapply next_started|]. intros m x Hx. destruct (is_monitor x) eqn:Hm; [|done]. exfalso.
  destruct (next_monitor _ _ _ _ _ Hstep Hx Hm) as [(k & y & Hk & Hy)|]; [|congruence].
  by rewrite (Hno _ _ Hk) in Hy.
Qed.

Lemma quiet_running fuel c c' n pc t g l pc' o :
  next fuel c c' → quiet c →
  cf_pool c' !! n = Some (TCrit pc) → cf_pool c' !! t = Some (TLoop g l pc') → sh_heap (cf_sh c') !! g = Some o →
  IsRunning (o_ins o) = true ∨ waits_for (TCrit pc) = Some g.
Proof.
  intros Hstep Hq Hn Ht Ho.
  destruct (next_loop _ _ _ _ _ _ _ Hstep Ht) as [(t0 & l0 & pc0 & Ht0)|(_ & _ & Hrun)]; [|by left; apply Hrun].
  pose proof (q_loops _ Hq _ _ _ _ Ht0) as Hg.
  assert (∃ pn, cf_pool c !! n = Some (TCrit pn)) as [pn Hn0].
  { destruct (next_crit _ _ _ _ _ Hstep Hn) as [|[Hs _]]; [done|].
    pose proof (q_ptr _ Hq _ Hg). congruence. }
  destruct (next_running _ _ _ _ _ Hstep Ho) as [?|[(o0 & Ho0 & Heq)|[?|[(m & x & Hm & Hw)|(m & r & Hm)]]]].
  - by left.
  - destruct (q_running _ Hq _ _ _ _ _ _ _ Hn0 Ht0 Ho0) as [Hr|Hw]; [left; congruence|]. right.
    destruct (waiter_stays _ _ _ _ _ _ Hstep Hn0 Hw) as (x' & Hx' & Hw'); [by exists t0, l0, pc0|].
    by rewrite Hn in Hx'; simplify_eq.
  - congruence.
  - destruct x as [| |pc1|pc1|pc1| |]; try done.
    + right. pose proof (quiet_crit _ _ _ _ _ _ _ Hstep Hq Hn Hm) as ->. by rewrite Hn in Hm; simplify_eq.
    + by rewrite (quiet_stat _ _ _ _ _ Hstep Hq Hm) in Hw.
    + destruct pc1 as [|r1]; [done|]. destruct (quiet_stop _ _ _ _ _ Hstep Hq Hm) as [_ Hno].
      by pose proof (Hno _ _ Hn).
  - destruct (q_stop _ Hq _ _ Hm) as [_ Hno]. by pose proof (Hno _ _ Hn0).
Qed.

Lemma quiet_next fuel c c' : next fuel c c' → quiet c → quiet c'.
Proof.
  intros Hs Hq. constructor; intros.
  - by eapply quiet_config.
  - by eapply quiet_stat.
  - by eapply quiet_started.
  - by eapply quiet_ptr.
  - by eapply quiet_crit.
  - by eapply quiet_loops.
  - by eapply quiet_target.
  - by eapply quiet_stop.
  - by eapply quiet_running.
Qed.

(** The configuration before the first call of [StartFinalityProvider] *)
Definition idle c : Prop :=
  cf_pool c = ∅ ∧ sh_fpIns (cf_sh c) = None ∧ sh_started (cf_sh c) = false.

Lemma quiet_idle c : idle c → StatusUpdateInterval (sh_config (cf_sh c)) = 0%Z → quiet c.
Proof.
  destruct c as [sh P]. intros (Hp & Hi & Hs) Hc. simpl in *. subst P.
  constructor; simpl; intros; first [done | congruence | by rewrite lookup_empty in * ].
Qed.


(** ** Both monitors remove the instance *)

Lemma Stop_idle (s : St W E Db) :
  i_isStarted (st_ins s) = false →
  ∃ s', Stop s = (Err (ErrorString ("the finality-provider " +:+ GetBtcPkHex (st_ins s) +:+ " has already stopped")), s').
Proof. intros Hs. unfold Stop, mbind, M_bind, ins, gets, onIns, modify. simpl. rewrite Hs. by eexists. Qed.

Lemma Stop_Ok_running sh o s' : Stop (sh_st (o_ins o) sh) = (Ok tt, s') → IsRunning (o_ins o) = true.
Proof.
  intros Hstop. destruct (IsRunning (o_ins o)) eqn:Hi; [done|].
  destruct (Stop_idle (sh_st (o_ins o) sh) Hi) as [? He]. congruence.
Qed.

(** The first two moves of a removal of a running instance *)
Lemma crit_begins_removal fuel sh P n g o s' :
  P !! n = Some (TCrit (CRemove RmCheck)) → sh_fpIns sh = Some g → sh_heap sh !! g = Some o →
  Stop (sh_st (o_ins o) sh) = (Ok tt, s') →
  reaches fuel (mkConf sh P)
    (mkConf (sh_put g (with_ins (st_ins s') o) s' sh)
       (<[n := TCrit (CRemove (RmPoller g (o_poller o)))]>
          (close_poller (o_poller o) (<[n := TCrit (CRemove (RmStop g))]> P)))).
Proof.
  intros Hn Hg Ho Hstop. pose proof (Stop_Ok_running _ _ _ Hstop).
  eapply rtc_l; [by eapply (s_crit_remove fuel sh P n); [|by eapply rm_running]|].
  eapply rtc_l; [|reflexivity].
  by eapply (s_crit_remove fuel sh _ n); [apply lookup_insert_eq|by eapply rm_stop].
Qed.

(** C19: the monitors race on [fpm.fpIns]: when both of them are about to
    remove a running instance (the chain shows it slashed or jailed while a
    loop reports it), the process can end with a panic, because the second
    [Stop] answers that the instance has already stopped; or the manager drops
    the instance while its loops still run, because the second monitor finds
    it not running and does not wait. *)
Theorem monitors_race_on_removal fuel sh P n m t g l pc o s' :
  P !! n = Some (TCrit (CRemove RmCheck)) → P !! m = Some (TStat (SRemove RmCheck)) →
  P !! t = Some (TLoop g l pc) → sh_fpIns sh = Some g → sh_heap sh !! g = Some o →
  Stop (sh_st (o_ins o) sh) = (Ok tt, s') →
  (∃ c1, reaches fuel (mkConf sh P) c1 ∧ step fuel c1 (Ends "failed to stop the finality provider instance")) ∧
  (∃ c2, reaches fuel (mkConf sh P) c2 ∧ sh_fpIns (cf_sh c2) = None ∧ cf_pool c2 !! t = Some (TLoop g l pc)).
Proof.
  intros Hn Hm Ht Hg Ho Hstop. pose proof (Stop_started _ _ _ Hstop) as Hidle.
  assert (n ≠ m ∧ n ≠ t ∧ m ≠ t) as (? & ? & ?) by (split_and!; intros ->; congruence). split.
  - pose proof (Stop_Ok_running _ _ _ Hstop). eexists. split.
    + eapply rtc_l; [by eapply (s_stat_remove fuel sh P m); [|by eapply rm_running]|].
      eapply crit_begins_removal; [by rewrite lookup_insert_ne|done..].
    + edestruct (Stop_idle (sh_st (st_ins s') (sh_put g (with_ins (st_ins s') o) s' sh)) Hidle) as [s2 He].
      eapply (s_stat_panic fuel _ _ m); [|eapply rm_stop_err; [by simpl; rewrite lookup_insert_eq|done]].
      rewrite lookup_insert_ne by done. apply close_poller_lookup; [done|].
      by rewrite lookup_insert_ne, lookup_insert_eq.
  - eexists. split_and!.
    + etransitivity; [by eapply crit_begins_removal|]. eapply rtc_l; [|reflexivity].
      eapply (s_stat_removed fuel _ _ m); [|by eapply rm_idle; [done|simpl; by rewrite lookup_insert_eq|]].
      rewrite lookup_insert_ne by done. apply close_poller_lookup; [done|]. by rewrite lookup_insert_ne.
    + done.
    + simpl. rewrite !lookup_insert_ne by done. apply close_poller_lookup; [done|]. by rewrite lookup_insert_ne.
Qed.

(** ** A status decided before the report *)

Lemma mustSet_status g st sh o sh' :
  store_wf (sh_db sh) → sh_heap sh !! g = Some o → mustSet g st sh = Some (Ok tt, sh') →
  store_wf (sh_db sh') ∧
  (∃ fp, fp_lookup (sh_db sh') (stored_key (i_fp (o_ins o))) = Some fp ∧ Status fp = st) ∧
  ∃ o', sh_heap sh' !! g = Some o' ∧ stored_key (i_fp (o_ins o')) = stored_key (i_fp (o_ins o)).
Proof.
  unfold mustSet. intros Hwf -> Hr. simpl in Hr. destruct (MustSetStatus _ _) as [r0 t] eqn:Em.
  injection Hr as -> <-. apply MustSetStatus_inv in Em as [Hset Ht]. simpl in Hset.
  destruct (SetFpStatus_lookup _ _ _ _ Hwf Hset) as (Hwf' & fp & _ & Hl). split_and!; [done| |].
  - exists (fp_with_status st fp). split; [|done]. simpl. rewrite Hl. by rewrite decide_True.
  - eexists. split; [apply lookup_insert_eq|]. simpl. by rewrite Ht.
Qed.

(** A slashing can be overwritten: when the status monitor has decided on a
    status from its queries and a loop reports that the provider is slashed
    before the monitor writes, the store ends with the decided status, and the
    instance is removed. *)
Lemma stale_status_overwrites_slashed fuel sh P n m t g l ce o d sh1 sh2 :
  P !! n = Some (TCrit CSelect) → P !! m = Some (TStat (SApply g d)) → P !! t = Some (TLoop g l (LReport ce)) →
  critical_status ce = Some SLASHED →
  sh_fpIns sh = Some g → sh_heap sh !! g = Some o → store_wf (sh_db sh) →
  mustSet g SLASHED sh = Some (Ok tt, sh1) → mustSet g (d_status d) sh1 = Some (Ok tt, sh2) →
  ∃ c fp, reaches fuel (mkConf sh P) c ∧ cf_pool c !! n = Some (TCrit (CRemove RmCheck)) ∧
    fp_lookup (sh_db (cf_sh c)) (stored_key (i_fp (o_ins o))) = Some fp ∧ Status fp = d_status d.
Proof.
  intros Hn Hm Ht Hce Hg Ho Hwf Hs1 Hs2.
  assert (n ≠ m ∧ m ≠ t) as [? ?] by (split; intros ->; congruence).
  destruct (mustSet_status _ _ _ _ _ Hwf Ho Hs1) as (Hwf1 & _ & o1 & Ho1 & Hk1).
  destruct (mustSet_status _ _ _ _ _ Hwf1 Ho1 Hs2) as (_ & (fp & Hfp & Hst) & _). rewrite Hk1 in Hfp.
  eexists _, fp. split_and!.
  - eapply rtc_l; [by eapply (s_critical fuel sh P t n)|]. eapply rtc_l; [|reflexivity].
    eapply (s_stat_apply fuel sh1 _ m); [|exact Hs2]. by rewrite !lookup_insert_ne.
  - simpl. by rewrite lookup_insert_ne, lookup_insert_eq.
  - exact Hfp.
  - done.
Qed.
End removal.
