(* ===== verification/FpSequential.v ===== *)
(** * FpSequential: the turns of the manager as schedules of its goroutines

    [FpManager] runs a turn of a loop, of a monitor or of
    [StartFinalityProvider] as a whole; [FpThreads] runs the goroutines of
    src/finality-provider/service/fp_manager.go and fp_instance.go step by
    step. Here the first is shown to be a part of the second: from a
    configuration at rest, every sequence of whole turns is a schedule of the
    goroutines that ends at rest with the same memory. *)

From stdpp Require Import base gmap list relations strings pretty.
From Stdlib Require Import ZArith Lia.
From S2P Require Import Prelude Errors Monad Types Kvdb FpStore PubRandStore Metrics EotsManager.
From S2P Require Import Config ClientController Poller FpState Voting FastSync FpInstance FpManager.
From S2P Require Import FpThreads FpRemoval.

(** ** Whole turns *)

Section turns.
Context `{Crypto} `{Codec} `{BbnErrors} `{RetryGo}.
Context {W E Db : Type} `{!ClientController W} `{!Env W} `{!EOTSManager E} `{!Kvdb Db}.

Abbreviation MS := (M (MSt W E Db)).

(** The loops of the instance run, and one of them serves the event. *)
Definition turn_enabled (ev : ins_event) (i : FinalityProviderInstance) : bool :=
  match i_poller i with
  | None => false
  | Some _ => match ev with EvLagTick => negb (FastSyncInterval (i_cfg i) =? 0)%Z | _ => true end
  end.

(** A turn of a loop and, when it reports an error, the turn of
    [monitorCriticalErr] that receives it *)
Definition turnAndReport (fuel : nat) (ev : ins_event) : MS unit :=
  i ← mgr fpm_fpIns;
  match i with
  | Some i =>
      if turn_enabled ev i
      then
        onInstance (onIns (set_criticalErrs []) ;; run_event fuel ev) ;;
        errs ← onInstance (ins i_criticalErrs);
        match errs with ce :: _ => handleCriticalErr ce | [] => mret tt end
      else mret tt
  | None => mret tt
  end.

Inductive whole_turn :=
  | WStart (pk : bytes) (passphrase : string)
  | WTurn (ev : ins_event)
  | WTick.

Definition run_turn (fuel : nat) (e : whole_turn) : MS unit :=
  m ← mgr id;
  match e with
  | WStart pk passphrase => _ ← attempt (StartFinalityProvider fuel pk passphrase); mret tt
  | WTurn ev => turnAndReport fuel ev
  | WTick => if fpm_startOnce m && negb (StatusUpdateInterval (fpm_config m) =? 0)%Z then statusUpdateTick else mret tt
  end.

Definition run_turns (fuel : nat) (es : list whole_turn) : MS unit := mapM_ (run_turn fuel) es.

Definition turn_wf (e : whole_turn) : Prop :=
  match e with WTurn ev => event_from_chain (W := W) ev ∧ event_wf ev | _ => True end.
End turns.

(** ** Configurations at rest *)

Section rest.
Context `{CryptoLaws} `{CodecLaws} `{BbnErrors} `{RetryGoLaws}.
Context {W E Db : Type} `{!ClientController W} `{!ClientControllerLaws W} `{!Env W}.
Context `{!EOTSManager E} `{!EOTSManagerLaws E} `{!Kvdb Db} `{!KvdbLaws Db}.
Implicit Types (sh : shared W E Db) (c : conf W E Db) (s : MSt W E Db) (t : St W E Db) (P : gmap nat goroutine)
  (heap : gmap nat object) (ptr : option nat) (n m : nat).

Abbreviation ST := (M (St W E Db)).
Abbreviation MS := (M (MSt W E Db)).

(** The memory of the manager with its instances on a heap *)
Definition sh_of s heap ptr : shared W E Db :=
  mkShared (fpm_config (mst_m s)) (mst_w s) (mst_e s) (mst_db s) (mst_fm s) (mst_signed s) heap ptr
    (fpm_startOnce (mst_m s)) (fpm_stopOnce (mst_m s)).

(** An instance without a poller has no loops; one with a poller runs, with
    its three loops at their selects. *)
Definition obj_rest (g : nat) (o : object) P : Prop :=
  match i_poller (o_ins o) with
  | None => ¬ loops_of g P
  | Some _ =>
      IsRunning (o_ins o) = true ∧ o_quit o = false ∧ P !! o_poller o = Some (TPoller false false) ∧
      ∀ l, ∃ k, P !! k = Some (TLoop g l LSelect)
  end.

Definition ins_rest s heap ptr P : Prop :=
  match fpm_fpIns (mst_m s) with
  | None => ptr = None
  | Some i =>
      fpm_startOnce (mst_m s) = true ∧
      ∃ g o, ptr = Some g ∧ heap !! g = Some o ∧ o_ins o = i ∧ obj_rest g o P
  end.

(** Nothing is under way: [n] and [m] are the monitors. *)
Record rest n m s heap ptr P : Prop := {
  r_stop : fpm_stopOnce (mst_m s) = false;
  r_mon :
    if fpm_startOnce (mst_m s) then P !! n = Some (TCrit CSelect) ∧ P !! m = Some (TStat SSelect)
    else P = ∅ ∧ n ≠ m;
  r_ins : ins_rest s heap ptr P;
  r_loops k g l pc : P !! k = Some (TLoop g l pc) → pc = LSelect ∧ ptr = Some g;
}.

Definition at_rest n m s c : Prop := ∃ heap ptr P, c = mkConf (sh_of s heap ptr) P ∧ rest n m s heap ptr P.

(** The instance of a manager at rest *)
Lemma rest_instance n m s heap ptr P i :
  rest n m s heap ptr P → fpm_fpIns (mst_m s) = Some i →
  ∃ g o, ptr = Some g ∧ heap !! g = Some o ∧ o_ins o = i ∧ obj_rest g o P ∧
    P !! n = Some (TCrit CSelect) ∧ P !! m = Some (TStat SSelect).
Proof.
  intros [_ Hm Hi _] Hs. unfold ins_rest in Hi. rewrite Hs in Hi. destruct Hi as (Hst & g & o & ? & ? & ? & ?).
  rewrite Hst in Hm. destruct Hm. exists g, o. by split_and!.
Qed.

(** The instance is changed, and its goroutines fit it. *)
Lemma rest_put n m s heap g o o' P t :
  rest n m s heap (Some g) P → heap !! g = Some o → fpm_fpIns (mst_m s) = Some (o_ins o) →
  o_ins o' = st_ins t → obj_rest g o' P → rest n m (mst_of t s) (<[g := o']> heap) (Some g) P.
Proof.
  intros [Hst Hm Hi Hl] Ho Hs Ho' Hobj. split; [done|done| |done].
  unfold ins_rest in *. rewrite Hs in Hi. destruct Hi as (? & _). split; [done|]. exists g, o'.
  split_and!; [done|apply lookup_insert_eq|done|done].
Qed.

Lemma rest_obj n m s heap g o P :
  rest n m s heap (Some g) P → heap !! g = Some o → fpm_fpIns (mst_m s) = Some (o_ins o) → obj_rest g o P.
Proof.
  intros Hrest Ho Hs. destruct (rest_instance _ _ _ _ _ _ _ Hrest Hs) as (g' & o' & [= <-] & Ho' & _ & Hobj & _).
  congruence.
Qed.

(** A method that keeps the life of the instance keeps the rest. *)
Lemma rest_method n m s heap g o P t :
  rest n m s heap (Some g) P → heap !! g = Some o → fpm_fpIns (mst_m s) = Some (o_ins o) →
  same_started (st_of (o_ins o) s) t →
  rest n m (mst_of t s) (<[g := with_ins (st_ins t) o]> heap) (Some g) P.
Proof.
  intros Hrest Ho Hs [Hstart Hpoll]. eapply rest_put; [done..|]. pose proof (rest_obj _ _ _ _ _ _ _ Hrest Ho Hs) as Hobj.
  unfold obj_rest, IsRunning in *. simpl in *. by rewrite Hpoll, Hstart.
Qed.

(** ** A whole removal *)

(** What removing the instance leaves: no loops, and the other monitor *)
Definition removed (k : nat) P P' : Prop :=
  (∀ j g l pc, P' !! j ≠ Some (TLoop g l pc)) ∧
  ∀ j x, j ≠ k → P !! j = Some x → is_monitor x = true → P' !! j = Some x.

Lemma Stop_Ok_poller t t' : Stop t = (Ok tt, t') → is_Some (i_poller (st_ins t)).
Proof.
  intros Hs. destruct (i_poller (st_ins t)) eqn:Hp; [by eexists|]. destruct (i_isStarted (st_ins t)) eqn:Hi.
  - pose proof (started_Stop_nil t Hi Hp) as Hf. by rewrite Hs in Hf.
  - destruct (Stop_idle t Hi) as [t2 He]. congruence.
Qed.

(** The instance of a removal that succeeds *)
Lemma remove_running_inv s s' :
  removeFinalityProviderInstance s = (Ok tt, s') →
  ∃ i, fpm_fpIns (mst_m s) = Some i ∧
    ((IsRunning i = false ∧ s' = mst_set_m (set_fpIns None (mst_m s)) s) ∨
     ∃ t, IsRunning i = true ∧ Stop (st_of i s) = (Ok tt, t) ∧
       s' = mst_set_m (set_fpIns None (mst_m (mst_of t s))) (mst_of t s)).
Proof.
  unfold removeFinalityProviderInstance, mbind, M_bind, mgr, gets. cbn beta iota.
  destruct (fpm_fpIns (mst_m s)) as [i|] eqn:Hi; [|done]. intros Hr. exists i. split; [done|].
  destruct (IsRunning i) eqn:Hrun; [|left; by injection Hr as <-].
  unfold attempt in Hr. rewrite (onInstance_Some Stop s i Hi) in Hr.
  destruct (Stop (st_of i s)) as [[[]|e|f|] t] eqn:Hs; try done. right. exists t. by injection Hr as <-.
Qed.

Section remover.
Context (fuel : nat) (back : remove_pc → goroutine) (select : goroutine).
Hypothesis back_next : ∀ sh P k r sh' P' r',
  P !! k = Some (back r) → rm_step sh P r (RmNext sh' P' r') →
  next fuel (mkConf sh P) (mkConf sh' (<[k := back r']> P')).
Hypothesis back_done : ∀ sh P k r,
  P !! k = Some (back r) → rm_step sh P r RmDone →
  next fuel (mkConf sh P) (mkConf (sh_set_fpIns None sh) (<[k := select]> P)).
Hypothesis back_place : ∀ r, is_poller (back r) = false ∧ ∀ g l pc, back r ≠ TLoop g l pc.

Lemma removal_schedule n m k s s' heap ptr P x :
  rest n m s heap ptr P → P !! k = Some x → is_monitor x = true → removeFinalityProviderInstance s = (Ok tt, s') →
  ∃ heap' P', reaches fuel (mkConf (sh_of s heap ptr) (<[k := back RmCheck]> P))
      (mkConf (sh_of s' heap' None) (<[k := select]> P')) ∧ removed k P P'.
Proof.
  intros Hrest Hk Hx (i & Hi & Hcase)%remove_running_inv.
  destruct (rest_instance _ _ _ _ _ _ _ Hrest Hi) as (g & o & -> & Ho & <- & Hobj & _).
  set (P1 := <[k := back RmCheck]> P). assert (P1 !! k = Some (back RmCheck)) as Hk1 by apply lookup_insert_eq.
  destruct Hcase as [[Hrun ->]|(t & Hrun & Hstop & ->)].
  - exists heap, P. split.
    + eapply rtc_l; [|reflexivity]. rewrite <-(insert_insert_eq P k select (back RmCheck)).
      exact (back_done (sh_of s heap (Some g)) P1 k RmCheck Hk1 (rm_idle (sh_of s heap (Some g)) P1 g o eq_refl Ho Hrun)).
    + unfold obj_rest in Hobj. destruct (i_poller (o_ins o)); [by destruct Hobj as [? _]; congruence|].
      split; [|done]. intros j g' l pc Hj. destruct (r_loops _ _ _ _ _ _ Hrest _ _ _ _ Hj) as [_ [= <-]].
      apply Hobj. by exists j, l, pc.
  - destruct (Stop_Ok_poller _ _ Hstop) as [pl Hpl]. simpl in Hpl. unfold obj_rest in Hobj. rewrite Hpl in Hobj.
    destruct Hobj as (_ & Hq & Hp & _). set (p := o_poller o) in *.
    assert (k ≠ p) by (intros ->; rewrite Hk in Hp; by simplify_eq).
    set (P2 := <[k := back (RmPoller g p)]> (close_poller p (<[k := back (RmStop g)]> P1))).
    set (sh2 := sh_put g (with_ins (st_ins t) o) t (sh_of s heap (Some g))).
    assert (∀ j y, j ≠ k → is_poller y = false → P2 !! j = Some y ↔ P !! j = Some y) as Hsame.
    { intros j y Hj Hy. unfold P2. rewrite lookup_insert_ne by done. rewrite close_poller_lookup by done.
      unfold P1. by rewrite !lookup_insert_ne. }
    destruct (removal_ends fuel back select back_next back_done back_place sh2 P2 k g p (with_ins (st_ins t) o))
      as (P' & Hr & Hno & Hold & Hkeep).
    + apply lookup_insert_eq.
    + unfold P2. rewrite lookup_insert_ne by done. unfold close_poller, P1. rewrite !lookup_insert_ne by done.
      rewrite Hp. by rewrite lookup_insert_eq.
    + apply lookup_insert_eq.
    + done.
    + intros j l pc Hj. destruct (decide (j = k)) as [->|Hjk].
      { unfold P2 in Hj. rewrite lookup_insert_eq in Hj. injection Hj as Hj. by destruct (proj2 (back_place _) _ _ _ Hj). }
      apply Hsame in Hj; [|done|done]. by destruct (r_loops _ _ _ _ _ _ Hrest _ _ _ _ Hj).
    + eexists _, (delete k P'). rewrite insert_delete_eq. split.
      * eapply rtc_l; [by eapply (back_next _ _ k RmCheck); [|by eapply rm_running]|].
        eapply rtc_l; [by eapply (back_next _ _ k (RmStop g)); [apply lookup_insert_eq|by eapply rm_stop]|]. exact Hr.
      * split.
        -- intros j g' l pc [Hjk Hj]%lookup_delete_Some. destruct (Hold _ _ (not_eq_sym Hjk) Hj) as [|Hj2]; [done|].
           apply Hsame in Hj2; [|done|done]. destruct (r_loops _ _ _ _ _ _ Hrest _ _ _ _ Hj2) as [_ [= <-]].
           apply Hno. by exists j, l, pc.
        -- intros j y Hj Hy Hmon. rewrite lookup_delete_ne by done.
           apply Hkeep; [done|by intros ->; rewrite Hy in Hp; simplify_eq| |by intros l pc ->].
           by apply Hsame; [|destruct y|].
Qed.
End remover.

(** The manager after the removal *)
Lemma remove_leaves s s' :
  removeFinalityProviderInstance s = (Ok tt, s') →
  fpm_fpIns (mst_m s') = None ∧ fpm_stopOnce (mst_m s') = fpm_stopOnce (mst_m s) ∧
  fpm_startOnce (mst_m s') = fpm_startOnce (mst_m s).
Proof. by intros (i & _ & [[_ ->]|(t & _ & _ & ->)])%remove_running_inv. Qed.

Lemma rest_removed n m k s s' heap heap' ptr P P' x :
  rest n m s heap ptr P → removeFinalityProviderInstance s = (Ok tt, s') → fpm_startOnce (mst_m s) = true →
  P !! k = Some x → is_monitor x = true → removed k P P' →
  rest n m s' heap' None (<[k := x]> P').
Proof.
  intros Hrest Hr Hst Hk Hx [Hno Hkeep]. destruct (remove_leaves _ _ Hr) as (Hn & Hq & Hs).
  pose proof (r_mon _ _ _ _ _ _ Hrest) as Hm. rewrite Hst in Hm. destruct Hm as [Hmn Hmm].
  assert (∀ j y, P !! j = Some y → is_monitor y = true → <[k := x]> P' !! j = Some y) as Hall.
  { intros j y Hj Hy. destruct (decide (j = k)) as [->|]; [rewrite lookup_insert_eq; congruence|].
    rewrite lookup_insert_ne by done. by apply Hkeep. }
  split.
  - rewrite Hq. by apply (r_stop _ _ _ _ _ _ Hrest).
  - rewrite Hs, Hst. split; by apply Hall.
  - unfold ins_rest. by rewrite Hn.
  - intros j g l pc [[_ ->]|[_ Hj]]%lookup_insert_Some; [done|]. by destruct (Hno j g l pc).
Qed.

(** *** A status written by a monitor *)

Lemma mustSet_schedule n m s s' heap g o P st :
  rest n m s heap (Some g) P → heap !! g = Some o → fpm_fpIns (mst_m s) = Some (o_ins o) →
  onInstance (MustSetStatus st) s = (Ok tt, s') →
  ∃ heap', mustSet g st (sh_of s heap (Some g)) = Some (Ok tt, sh_of s' heap' (Some g)) ∧
    rest n m s' heap' (Some g) P ∧ fpm_startOnce (mst_m s') = fpm_startOnce (mst_m s).
Proof.
  intros Hrest Ho Hi. rewrite (onInstance_Some _ _ _ Hi).
  destruct (MustSetStatus st (st_of (o_ins o) s)) as [r t] eqn:Hm. intros Hr. simpl in Hr. injection Hr as -> <-.
  exists (<[g := with_ins (st_ins t) o]> heap). split_and!; [| |done].
  - unfold mustSet. simpl. rewrite Ho. simpl. change (sh_st (o_ins o) (sh_of s heap (Some g))) with (st_of (o_ins o) s).
    by rewrite Hm.
  - apply rest_method; [done..|]. destruct started_shared_ops as (_ & _ & _ & Hst).
    specialize (Hst st (st_of (o_ins o) s)). by rewrite Hm in Hst.
Qed.

(** [setFinalityProviderSlashed] and [setFinalityProviderJailed] *)
Definition set_and_remove st : MS unit :=
  onInstance (MustSetStatus st) ;;
  r ← attempt removeFinalityProviderInstance;
  match r with
  | inl _ => fatal (if decide (st = SLASHED) then "failed to terminate a slashed finality-provider"
                    else "failed to terminate a jailed finality-provider")
  | inr _ => mret tt
  end.

Lemma set_and_remove_inv st s s' :
  set_and_remove st s = (Ok tt, s') →
  ∃ s1, onInstance (MustSetStatus st) s = (Ok tt, s1) ∧ removeFinalityProviderInstance s1 = (Ok tt, s').
Proof.
  unfold set_and_remove, mbind, M_bind. destruct (onInstance (MustSetStatus st) s) as [[[]|e|f|] s1]; try done.
  unfold attempt. intros Hr. exists s1. split; [done|].
  destruct (removeFinalityProviderInstance s1) as [[[]|e|f|] s2]; by simplify_eq/=.
Qed.

(** *** A turn of the status monitor *)

Lemma only_w_statusDecision : frame only_w (statusDecision : ST (option decision)).
Proof.
  unfold statusDecision, GetVotingPowerWithRetry, GetFinalityProviderSlashedOrJailedWithRetry. frame_auto.
Qed.

(** The decisions there are *)
Lemma statusDecision_range t d t' :
  statusDecision t = (Ok (Some d), t') →
  d_remove d = false ∨ d = mkDecision SLASHED true ∨ d = mkDecision JAILED true.
Proof.
  unfold statusDecision, attempt, mbind, M_bind, mret, M_ret, ins, gets. cbn beta iota.
  destruct (retry_Do _ _ _) as [[b|e|f|] t1]; try done.
  destruct (GetVotingPowerWithRetry _ _) as [[power|e|f|] t2]; try done.
  destruct (0 <? power)%Z; [case_bool_decide; intros Hr; simplify_eq/=; by left|].
  destruct (GetFinalityProviderSlashedOrJailedWithRetry _) as [[[[] []]|e|f|] t3]; try done;
    [..|case_bool_decide]; intros Hr; simplify_eq/=; eauto.
Qed.

Lemma rest_decided n m s heap g o P t r :
  rest n m s heap (Some g) P → heap !! g = Some o → fpm_fpIns (mst_m s) = Some (o_ins o) →
  statusDecision (st_of (o_ins o) s) = (r, t) →
  st_ins t = o_ins o ∧ sh_put g o t (sh_of s heap (Some g)) = sh_of (mst_of t s) heap (Some g) ∧
  rest n m (mst_of t s) heap (Some g) P.
Proof.
  intros Hrest Ho Hi Hd. pose proof (only_w_statusDecision (st_of (o_ins o) s)) as Hw. rewrite Hd in Hw.
  unfold only_w in Hw. simpl in Hw. assert (st_ins t = o_ins o) as Ht by (by rewrite Hw).
  pose proof (rest_method n m s heap g o P t Hrest Ho Hi) as Hr. rewrite Ht in Hr.
  replace (with_ins (o_ins o) o) with o in Hr by (by destruct o). rewrite insert_id in Hr by done.
  split_and!; [done| |apply Hr; split; by rewrite Ht]. unfold sh_put, sh_of. simpl. by rewrite insert_id.
Qed.

Lemma apply_keep d (s s' : MSt W E Db) :
  d_remove d = false → applyDecision (Some d) s = (Ok tt, s') → onInstance (MustSetStatus (d_status d)) s = (Ok tt, s').
Proof. intros Hd. destruct d as [st []]; [done|]. by destruct st; intros Hr; exact Hr. Qed.

Lemma tick_schedule fuel n m s s' heap ptr P :
  rest n m s heap ptr P → StatusUpdateInterval (fpm_config (mst_m s)) ≠ 0%Z → statusUpdateTick s = (Ok tt, s') →
  ∃ c, reaches fuel (mkConf (sh_of s heap ptr) P) c ∧ at_rest n m s' c.
Proof.
  intros Hrest Hint. rewrite status_split. unfold mbind, M_bind, mgr, gets. cbn beta iota.
  destruct (fpm_fpIns (mst_m s)) as [i|] eqn:Hi; [|intros [= <-]; eexists; split; [reflexivity|by eexists _, _, _]].
  destruct (rest_instance _ _ _ _ _ _ _ Hrest Hi) as (g & o & -> & Ho & <- & _ & _ & Hm).
  rewrite (onInstance_Some _ _ _ Hi). destruct (statusDecision (st_of (o_ins o) s)) as [[d|e|f|] t] eqn:Hd; try done.
  destruct (rest_decided _ _ _ _ _ _ _ _ _ Hrest Ho Hi Hd) as (Ht & Hput & Hrest1). simpl. intros Happ.
  assert (next fuel (mkConf (sh_of s heap (Some g)) P) (mkConf (sh_of (mst_of t s) heap (Some g))
    (<[m := TStat match d with Some d => SApply g d | None => SSelect end]> P))) as Hstep.
  { rewrite <-Hput. by eapply s_stat_decide. }
  assert (fpm_fpIns (mst_m (mst_of t s)) = Some (o_ins o)) as Hi1 by (simpl; by rewrite Ht).
  destruct d as [d|].
  - assert (P !! m = Some (TStat SSelect) ∧ <[m := TStat (SApply g d)]> P !! m = Some (TStat (SApply g d))) as [Hm1 Hm2]
      by (split; [done|apply lookup_insert_eq]).
    destruct (statusDecision_range _ _ _ Hd) as [Hk|Hrm].
    + destruct (mustSet_schedule n m _ s' heap g o P (d_status d) Hrest1 Ho Hi1) as (heap' & Hset & Hrest2 & _);
        [by apply apply_keep|].
      eexists. split; [eapply rtc_l; [exact Hstep|]; eapply rtc_once; by eapply s_stat_apply|]. rewrite Hk.
      rewrite insert_insert_eq, insert_id by done. by eexists _, _, _.
    + assert (set_and_remove (d_status d) (mst_of t s) = (Ok tt, s')) as (s1 & Hs1 & Hs2)%set_and_remove_inv
        by (destruct Hrm as [->| ->]; exact Happ).
      destruct (mustSet_schedule n m _ s1 heap g o P (d_status d) Hrest1 Ho Hi1 Hs1) as (heap1 & Hset & Hrest2 & Hstart).
      destruct (removal_schedule fuel (λ r, TStat (SRemove r)) (TStat SSelect)) with n m m s1 s' heap1 (Some g) P (TStat SSelect)
        as (heap2 & P2 & Hr & Hrmd);
        [intros; by eapply s_stat_remove|intros; by eapply s_stat_removed|done..|].
      eexists. split.
      * eapply rtc_l; [exact Hstep|]. eapply rtc_l; [by eapply s_stat_apply|].
        assert (d_remove d = true) as -> by (by destruct Hrm as [->| ->]). rewrite insert_insert_eq. exact Hr.
      * eexists _, _, _. split; [done|]. eapply rest_removed; [done|done| |done|done|done].
        rewrite Hstart. unfold ins_rest. pose proof (r_ins _ _ _ _ _ _ Hrest1) as Hri. unfold ins_rest in Hri.
        rewrite Hi1 in Hri. by destruct Hri as [? _].
  - injection Happ as <-. rewrite insert_id in Hstep by done.
    eexists. split; [by eapply rtc_once|]. by eexists _, _, _.
Qed.

(** *** A turn of a loop, with the report *)

Definition loop_of (ev : ins_event) : loop :=
  match ev with EvBlock _ | EvLagging => SigLoop | EvRandTick => RandLoop | EvLagTick => LagLoop end.

(** [monitorCriticalErr] removes the instance after the status is set. *)
Lemma critical_inv ce s s' i :
  fpm_fpIns (mst_m s) = Some i → handleCriticalErr ce s = (Ok tt, s') →
  ∃ st, critical_status ce = Some st ∧ set_and_remove st s = (Ok tt, s').
Proof.
  intros Hi. unfold handleCriticalErr, GetFinalityProviderInstance, attempt, mbind, M_bind, mgr, gets. cbn beta iota.
  rewrite Hi. unfold mret, M_ret. unfold critical_status.
  destruct (errors_Is (ce_err ce) ErrFinalityProviderSlashed); [intros Hr; by exists SLASHED|].
  destruct (errors_Is (ce_err ce) ErrFinalityProviderJailed); [intros Hr; by exists JAILED|done].
Qed.

Lemma critical_schedule fuel n m s s' heap g o P k l ce :
  rest n m s heap (Some g) P → heap !! g = Some o → fpm_fpIns (mst_m s) = Some (o_ins o) →
  P !! k = Some (TLoop g l LSelect) → handleCriticalErr ce s = (Ok tt, s') →
  ∃ c, reaches fuel (mkConf (sh_of s heap (Some g)) (<[k := TLoop g l (LReport ce)]> P)) c ∧ at_rest n m s' c.
Proof.
  intros Hrest Ho Hi Hk Hc. destruct (critical_inv _ _ _ _ Hi Hc) as (st & Hst & (s1 & Hs1 & Hs2)%set_and_remove_inv).
  destruct (rest_instance _ _ _ _ _ _ _ Hrest Hi) as (_ & _ & _ & _ & _ & _ & Hn & Hm).
  destruct (mustSet_schedule n m s s1 heap g o P st Hrest Ho Hi Hs1) as (heap1 & Hset & Hrest1 & Hstart).
  destruct (removal_schedule fuel (λ r, TCrit (CRemove r)) (TCrit CSelect)) with n m n s1 s' heap1 (Some g) P (TCrit CSelect)
    as (heap2 & P2 & Hr & Hrmd);
    [intros; by eapply s_crit_remove|intros; by eapply s_crit_removed|done..|].
  assert (n ≠ k) by (intros ->; congruence). eexists. split.
  - eapply rtc_l; [eapply (s_critical fuel _ _ k n); [by rewrite lookup_insert_ne|apply lookup_insert_eq|done|done|done]|].
    rewrite insert_insert_eq, (insert_id P k) by done. exact Hr.
  - eexists _, _, _. split; [done|]. eapply rest_removed; [done|done| |done|done|done].
    rewrite Hstart. pose proof (r_ins _ _ _ _ _ _ Hrest) as Hri. unfold ins_rest in Hri. rewrite Hi in Hri.
    by destruct Hri as [? _].
Qed.

Lemma turn_schedule fuel n m s s' heap ptr P ev :
  rest n m s heap ptr P → event_from_chain (W := W) ev → event_wf ev → turnAndReport fuel ev s = (Ok tt, s') →
  ∃ c, reaches fuel (mkConf (sh_of s heap ptr) P) c ∧ at_rest n m s' c.
Proof.
  intros Hrest Hev Hwf. unfold turnAndReport, mbind, M_bind, mgr, gets. cbn beta iota.
  assert (s' = s → ∃ c, reaches fuel (mkConf (sh_of s heap ptr) P) c ∧ at_rest n m s' c) as Hsame.
  { intros ->. eexists. split; [reflexivity|by eexists _, _, _]. }
  destruct (fpm_fpIns (mst_m s)) as [i|] eqn:Hi; [|intros Hr; apply Hsame; by injection Hr].
  destruct (turn_enabled ev i) eqn:Hen; [|intros Hr; apply Hsame; by injection Hr]. clear Hsame.
  destruct (rest_instance _ _ _ _ _ _ _ Hrest Hi) as (g & o & -> & Ho & <- & Hobj & _).
  unfold turn_enabled in Hen. unfold obj_rest in Hobj. destruct (i_poller (o_ins o)) eqn:Hp; [|done].
  destruct Hobj as (_ & _ & Hpl & Hloops). destruct (Hloops (loop_of ev)) as [k Hk].
  rewrite (onInstance_Some _ _ _ Hi). unfold onIns, modify. cbn [fst snd].
  destruct (run_event fuel ev _) as [[[]|e|f|] t] eqn:Hrun; try done. cbn [fst snd].
  set (s1 := mst_of t s). set (heap1 := <[g := with_ins (st_ins t) o]> heap).
  assert (fpm_fpIns (mst_m s1) = Some (st_ins t)) as Hi1 by done.
  rewrite (onInstance_Some _ s1 _ Hi1). cbn [fst snd ins gets].
  change (mst_of (st_of (st_ins t) s1) s1) with s1. change (i_criticalErrs (st_ins (st_of (st_ins t) s1))) with (i_criticalErrs (st_ins t)).
  assert (rest n m s1 heap1 (Some g) P) as Hrest1.
  { apply rest_method; [done..|]. pose proof (started_turn fuel ev (st_of (set_criticalErrs [] (o_ins o)) s)) as Hst.
    by change (st_of (set_criticalErrs [] (o_ins o)) s) with (st_set_ins (set_criticalErrs [] (st_ins (st_of (o_ins o) s)))
         (st_of (o_ins o) s)) in Hst; rewrite Hrun in Hst. }
  assert (next fuel (mkConf (sh_of s heap (Some g)) P)
    (mkConf (sh_of s1 heap1 (Some g)) (<[k := TLoop g (loop_of ev) (after_turn (st_ins t))]> P))) as Hstep.
  { replace P with (make_room ev (o_poller o) P) at 2 by (destruct ev; try done; simpl; by rewrite Hpl, insert_id).
    eapply (s_turn fuel (sh_of s heap (Some g)) P k g (loop_of ev) o ev t); try done; [by destruct ev|].
    intros Hl. destruct ev; try done. apply negb_true_iff, Z.eqb_neq in Hen. done. }
  unfold after_turn in Hstep. destruct (i_criticalErrs (st_ins t)) as [|ce ces].
  - intros Hr. injection Hr as <-. rewrite insert_id in Hstep by done.
    eexists. split; [by eapply rtc_once|by eexists _, _, _].
  - intros Hc. destruct (critical_schedule fuel n m s1 s' heap1 g (with_ins (st_ins t) o) P k (loop_of ev) ce)
      as (c2 & Hr & Hrest2); [done|apply lookup_insert_eq|done|done|done|].
    exists c2. split; [by eapply rtc_l|done].
Qed.

(** *** A call of [StartFinalityProvider] *)

Lemma fresh_ids (k : nat) P (xs : list nat) :
  ∃ ids : list nat, length ids = k ∧ NoDup ids ∧ ∀ j, j ∈ ids → P !! j = None ∧ j ∉ xs.
Proof.
  exists (fresh_list k (dom P ∪ list_to_set xs)). split_and!.
  - apply length_fresh_list.
  - apply NoDup_fresh_list.
  - intros j Hj. apply fresh_list_is_fresh in Hj.
    rewrite not_elem_of_union, not_elem_of_dom, not_elem_of_list_to_set in Hj. done.
Qed.

Definition call_once s : MSt W E Db := mst_set_m (set_startOnce true (mst_m s)) s.

(** The monitors run, and the caller is at the start of the call. *)
Lemma call_schedule fuel n m s heap ptr P pk pass :
  rest n m s heap ptr P →
  ∃ P1 k, P1 !! k = None ∧ rest n m (call_once s) heap ptr P1 ∧
    next fuel (mkConf (sh_of s heap ptr) P)
      (mkConf (sh_of (call_once s) heap ptr) (<[k := TStart (StNew pk pass)]> P1)).
Proof.
  intros Hrest. destruct (fresh_ids 1 P [n; m]) as ([|k []] & Hlen & _ & Hk); try done.
  destruct (Hk k) as [HkP Hnm]; [set_solver|]. destruct Hrest as [Hq Hm Hi Hl].
  destruct (fpm_startOnce (mst_m s)) eqn:Hst.
  - exists P, k. split_and!; [done| |].
    + split; [done|done| |done]. unfold ins_rest in *. simpl. by destruct (fpm_fpIns (mst_m s)); [destruct Hi|].
    + replace (sh_of (call_once s) heap ptr) with (sh_of s heap ptr) by (unfold sh_of; simpl; by rewrite Hst).
      by apply s_call.
  - destruct Hm as [-> Hne]. unfold ins_rest in Hi.
    destruct (fpm_fpIns (mst_m s)) as [i|] eqn:Hs; [by destruct Hi as [? _]; congruence|].
    exists (<[n := TCrit CSelect]> (<[m := TStat SSelect]> ∅)), k. assert (k ≠ n ∧ k ≠ m) as [? ?] by set_solver.
    split_and!.
    + by rewrite !lookup_insert_ne.
    + split; [done|simpl; split; [apply lookup_insert_eq|by rewrite lookup_insert_ne, lookup_insert_eq]| |].
      * unfold ins_rest. simpl. by rewrite Hs.
      * intros j g l pc Hj. by repeat (apply lookup_insert_Some in Hj as [[_ ?]|[_ Hj]]; [done|]).
    + apply (s_first_call fuel (sh_of s heap ptr) ∅ k n m pk pass); done.
Qed.

(** A goroutine that has returned does not disturb the rest. *)
Lemma rest_done n m s heap ptr P k :
  rest n m s heap ptr P → fpm_startOnce (mst_m s) = true → P !! k = None → rest n m s heap ptr (<[k := TDone]> P).
Proof.
  intros [Hq Hm Hi Hl] Hst Hk. rewrite Hst in Hm. destruct Hm as [Hn Hm].
  assert (∀ j x, x ≠ TDone → <[k := TDone]> P !! j = Some x ↔ P !! j = Some x) as Hsame.
  { intros j x Hx. destruct (decide (j = k)) as [->|]; [|by rewrite lookup_insert_ne].
    rewrite lookup_insert_eq, Hk. split; congruence. }
  split; [done|rewrite Hst; by rewrite !Hsame| |].
  - unfold ins_rest in *. destruct (fpm_fpIns (mst_m s)); [|done]. destruct Hi as (? & g & o & ? & ? & ? & Hobj).
    split; [done|]. exists g, o. split_and!; [done..|]. unfold obj_rest in *. destruct (i_poller (o_ins o)).
    + destruct Hobj as (? & ? & ? & Hlo). split_and!; [done|done|by rewrite Hsame|].
      intros l. destruct (Hlo l) as [j Hj]. exists j. by rewrite Hsame.
    + intros (j & l & pc & Hj). rewrite Hsame in Hj by done. apply Hobj. by exists j, l, pc.
  - intros j g l pc Hj. rewrite Hsame in Hj by done. by eapply Hl.
Qed.

Lemma new_instance_idle pk cfg pass (db db' : Db) i :
  NewFinalityProviderInstance pk cfg pass db = (Ok i, db') → i_poller i = None.
Proof.
  unfold NewFinalityProviderInstance. intros Hr.
  apply bind_Ok_inv in Hr as (? & ? & _ & Hr). apply bind_Ok_inv in Hr as (sfp & ? & _ & Hr).
  destruct (negb (ShouldStart sfp)); [done|]. by injection Hr as <-.
Qed.

(** The new instance of a manager at rest, which has none *)
Lemma rest_new n m s heap ptr P g i db' :
  rest n m s heap ptr P → fpm_startOnce (mst_m s) = true → fpm_fpIns (mst_m s) = None → i_poller i = None →
  rest n m (mst_set_m (set_fpIns (Some i) (mst_m s)) (mst_set_db db' s)) (<[g := mkObject i false 0]> heap) (Some g) P.
Proof.
  intros [Hq Hm Hi Hl] Hst Hs Hp. unfold ins_rest in Hi. rewrite Hs in Hi. subst ptr.
  assert (∀ j g' l pc, P !! j ≠ Some (TLoop g' l pc)) as Hno by (intros j g' l pc Hj; by destruct (Hl _ _ _ _ Hj)).
  split; [done|done| |by intros j g' l pc ?%Hno]. unfold ins_rest. simpl. split; [done|]. eexists g, _.
  split_and!; [done|apply lookup_insert_eq|done|]. unfold obj_rest. simpl. rewrite Hp.
  by intros (j & l & pc & ?%Hno).
Qed.

(** The goroutines of an instance that was just started *)
Lemma rest_started n m s heap g o P t p l1 l2 l3 :
  rest n m s heap (Some g) P → fpm_startOnce (mst_m s) = true → heap !! g = Some o →
  i_isStarted (st_ins t) = true → is_Some (i_poller (st_ins t)) →
  NoDup [p; l1; l2; l3] → P !! p = None → P !! l1 = None → P !! l2 = None → P !! l3 = None →
  rest n m (mst_of t s) (<[g := restarted t p]> heap) (Some g)
    (<[p := TPoller false false]> (<[l1 := TLoop g SigLoop LSelect]>
       (<[l2 := TLoop g RandLoop LSelect]> (<[l3 := TLoop g LagLoop LSelect]> P)))).
Proof.
  intros [Hq Hm _ Hl] Hst Ho Hrun [pl Hpl] Hnd Hp H1l H2l H3l. rewrite Hst in Hm. destruct Hm as [Hn Hm].
  rewrite !NoDup_cons in Hnd. destruct Hnd as (Hn1 & Hn2 & Hn3 & _ & _). apply not_elem_of_cons in Hn1 as [? Hn1].
  apply not_elem_of_cons in Hn1 as [? Hn1]. apply not_elem_of_cons in Hn1 as [? _].
  apply not_elem_of_cons in Hn2 as [? Hn2]. apply not_elem_of_cons in Hn2 as [? _].
  apply not_elem_of_cons in Hn3 as [? _].
  split; [done| | |].
  - simpl. rewrite Hst. split; repeat (rewrite lookup_insert_ne by congruence); done.
  - unfold ins_rest. simpl. split; [done|]. eexists g, _. split_and!; [done|apply lookup_insert_eq|done|].
    unfold obj_rest. simpl. rewrite Hpl. split_and!; [done|done|apply lookup_insert_eq|].
    intros []; [exists l1|exists l2|exists l3]; repeat (rewrite lookup_insert_ne by congruence); apply lookup_insert_eq.
  - intros j g' l pc Hj. repeat (apply lookup_insert_Some in Hj as [[_ ?]|[_ Hj]]; [by simplify_eq|]). by eapply Hl.
Qed.

(** [fpm.fpIns.Start()] by the caller [k] *)
Lemma start_call_schedule fuel n m s heap ptr P k i r t :
  rest n m s heap ptr P → P !! k = None → fpm_fpIns (mst_m s) = Some i → Start fuel (st_of i s) = (r, t) →
  (∀ f, r ≠ Fatal f) → r ≠ OutOfFuel →
  ∃ c, reaches fuel (mkConf (sh_of s heap ptr) (<[k := TStart StStart]> P)) c ∧ at_rest n m (mst_of t s) c.
Proof.
  intros Hrest Hk Hi Hstart Hf Hof.
  destruct (rest_instance _ _ _ _ _ _ _ Hrest Hi) as (g & o & -> & Ho & <- & Hobj & Hn & Hm).
  assert (fpm_startOnce (mst_m s) = true) as Hst.
  { pose proof (r_ins _ _ _ _ _ _ Hrest) as Hri. unfold ins_rest in Hri. rewrite Hi in Hri. by destruct Hri as [? _]. }
  destruct r as [[]|e|f|]; [|clear Hf Hof|by destruct (Hf f)|done].
  - destruct (Start_Ok_started _ _ _ Hstart) as [Hs Hp].
    destruct (fresh_ids 4 (<[k := TStart StStart]> P) [k]) as ([|p [|l1 [|l2 [|l3 []]]]] & Hlen & Hnd & Hids); try done.
    assert (∀ j, j ∈ [p; l1; l2; l3] → P !! j = None ∧ j ≠ k) as Hfree.
    { intros j Hj. destruct (Hids j Hj) as [Hjn Hjk]. rewrite lookup_insert_ne in Hjn by set_solver. set_solver. }
    eexists. split.
    + eapply rtc_once. eapply (s_start fuel _ _ k g o t p l1 l2 l3); [apply lookup_insert_eq|done|exact Ho|exact Hstart| |apply Hids; set_solver..].
      apply NoDup_cons. split; [|done]. intros Hin. by destruct (Hfree k Hin).
    + rewrite insert_insert_eq. eexists _, _, _. split; [done|]. eapply rest_started; try done.
      1: by apply rest_done.
      all: rewrite lookup_insert_ne; [apply Hfree; set_solver|apply not_eq_sym, Hfree; set_solver].
  - eexists. split; [eapply rtc_once; eapply (s_start_err fuel _ _ k); [apply lookup_insert_eq|done|exact Ho|exact Hstart]|].
    rewrite insert_insert_eq. eexists _, _, _. split; [done|]. apply rest_done; [|done|done].
    destruct (Start_Err_run _ _ _ _ Hstart) as (Hs & Hp & _).
    eapply rest_put; [done..|]. unfold obj_rest, IsRunning in *. simpl in *. rewrite Hs, Hp.
    destruct (i_poller (o_ins o)); [|done]. by destruct Hobj as [_ ?].
Qed.

Lemma start_schedule fuel n m s s' heap ptr P pk pass :
  rest n m s heap ptr P → (_ ← attempt (StartFinalityProvider fuel pk pass); mret tt) s = (Ok tt, s') →
  ∃ c, reaches fuel (mkConf (sh_of s heap ptr) P) c ∧ at_rest n m s' c.
Proof.
  intros Hrest0 Hrun. destruct (call_schedule fuel n m s heap ptr P pk pass Hrest0) as (P1 & k & Hk & Hrest & Hcall).
  set (s1 := call_once s) in *.
  assert (∃ r, startFinalityProviderInstance fuel pk pass s1 = (r, s') ∧ (∀ f, r ≠ Fatal f) ∧ r ≠ OutOfFuel) as (r & Hs & Hf & Hof).
  { unfold attempt, StartFinalityProvider, mbind, M_bind, onMgr, modify in Hrun. cbn [fst snd] in Hrun.
    fold (call_once s) in Hrun. destruct (startFinalityProviderInstance fuel pk pass (call_once s)) as [[[]|e|f|] s2] eqn:Hs;
      try done; injection Hrun as <-; eexists; (split; [exact Hs|done]). }
  enough (∃ c, reaches fuel (mkConf (sh_of s1 heap ptr) (<[k := TStart (StNew pk pass)]> P1)) c ∧ at_rest n m s' c)
    as (c & Hr & Hc) by (exists c; split; [by eapply rtc_l|done]).
  assert (∀ i s2 heap2 ptr2, rest n m s2 heap2 ptr2 P1 → fpm_fpIns (mst_m s2) = Some i → onInstance (Start fuel) s2 = (r, s') →
    ∃ c, reaches fuel (mkConf (sh_of s2 heap2 ptr2) (<[k := TStart StStart]> P1)) c ∧ at_rest n m s' c) as Hgo.
  { intros i s2 heap2 ptr2 Hrest2 Hi2 Hon. rewrite (onInstance_Some _ _ _ Hi2) in Hon.
    destruct (Start fuel (st_of i s2)) as [r2 t] eqn:Hst. simpl in Hon. injection Hon as -> <-.
    by eapply start_call_schedule. }
  unfold startFinalityProviderInstance, mbind, M_bind, mgr, gets, id in Hs. cbn beta iota in Hs.
  destruct (fpm_fpIns (mst_m s1)) as [i|] eqn:Hi.
  - destruct (Hgo i s1 heap ptr Hrest Hi Hs) as (c & Hr & Hc). exists c. split; [|done].
    destruct (rest_instance _ _ _ _ _ _ _ Hrest Hi) as (g & o & -> & _).
    eapply rtc_l; [by eapply (s_existing fuel _ _ k); [apply lookup_insert_eq|]|]. by rewrite insert_insert_eq.
  - assert (ptr = None) as -> by (pose proof (r_ins _ _ _ _ _ _ Hrest) as Hri; unfold ins_rest in Hri; by rewrite Hi in Hri).
    unfold wrapping, mOnDb, zoom in Hs.
    destruct (NewFinalityProviderInstance pk (fpm_config (mst_m s1)) pass (mst_db s1)) as [[i|e|f|] db'] eqn:Hnew.
    + set (g := fresh (dom heap)). assert (heap !! g = None) as Hg by (apply not_elem_of_dom, is_fresh).
      destruct (Hgo i _ _ _ (rest_new n m s1 heap None P1 g i db' Hrest eq_refl Hi (new_instance_idle _ _ _ _ _ _ Hnew)) eq_refl Hs)
        as (c & Hr & Hc).
      exists c. split; [|done]. eapply rtc_l; [by eapply (s_new fuel (sh_of s1 heap None) _ k pk pass g); [apply lookup_insert_eq|..]|].
      by rewrite insert_insert_eq.
    + injection Hs as <- <-. eexists. split.
      * eapply rtc_once. by eapply (s_new_err fuel (sh_of s1 heap None) _ k pk pass); [apply lookup_insert_eq|..].
      * rewrite insert_insert_eq. exists heap, None. eexists. split; [done|]. apply rest_done; [|done|done].
        destruct Hrest as [Hq Hm Hri Hl]. split; [done|done| |done]. unfold ins_rest.
        change (mst_m (mst_set_db db' s1)) with (mst_m s1). by rewrite Hi.
    + injection Hs as <- _. by destruct (Hf f).
    + by injection Hs as <- _.
Qed.

(** ** Whole turns are schedules *)


(** The manager before its first start is at rest. *)
Lemma new_manager_at_rest n m s :
  n ≠ m → mst_m s = NewFinalityProviderManager (fpm_config (mst_m s)) → at_rest n m s (mkConf (sh_of s ∅ None) ∅).
Proof.
  intros Hne Hs. eexists ∅, None, ∅. split; [done|]. split.
  - by rewrite Hs.
  - by rewrite Hs.
  - unfold ins_rest. by rewrite Hs.
  - intros k g l pc Hk. by rewrite lookup_empty in Hk.
Qed.
End rest.
