(* ===== verification/FpSchedule.v ===== *)
(** * FpSchedule: the goroutines under a schedule

    An executable form of the step relation of [FpThreads]. A move names the
    goroutine that runs and what the select, the ticker or the caller gave it;
    [perform] computes the configuration after the move. The moves are exactly
    the steps, so that a run of the program is a list of moves. *)

From stdpp Require Import base gmap list relations strings pretty.
From Stdlib Require Import ZArith Lia.
From S2P Require Import Prelude Errors Monad Types Kvdb FpStore PubRandStore Metrics EotsManager.
From S2P Require Import Config ClientController Poller FpState Voting FastSync FpInstance FpManager FpThreads FpRemoval.

Section schedule.
Context `{Crypto} `{Codec} `{BbnErrors} `{RetryGo}.
Context {W E Db : Type} `{!ClientController W} `{!Env W} `{!EOTSManager E} `{!Kvdb Db}.
Implicit Types (sh : shared W E Db) (c : conf W E Db) (P : gmap nat goroutine) (r : remove_pc).

(** What happens next *)
Inductive move :=
  | MvTurn (t : nat) (ev : ins_event)            (* a loop serves an event *)
  | MvReturn (n : nat)                           (* a loop, a poller or a monitor returns *)
  | MvPush (p : nat)                             (* a poller finds its channel full *)
  | MvReceive (n t : nat)                        (* monitorCriticalErr receives the error of the loop t *)
  | MvRemove (n : nat)                           (* the next action of a removal *)
  | MvDecide (n : nat)                           (* the queries of monitorStatusUpdate *)
  | MvApply (n : nat)                            (* its write *)
  | MvCall (t n m : nat) (pk : bytes) (pass : string)   (* StartFinalityProvider is called *)
  | MvNew (t g : nat)                            (* it reads fpm.fpIns, and creates an instance at g *)
  | MvStart (t p l1 l2 l3 : nat)                 (* it starts the instance *)
  | MvStop (t : nat)                             (* Stop is called *)
  | MvWaited (t : nat).                          (* the monitors have returned *)

(** The blocks that the pollers hand over are blocks of the chain. *)
Definition move_wf (mv : move) : Prop :=
  match mv with MvTurn _ ev => event_from_chain (W := W) ev ∧ event_wf ev | _ => True end.

Definition no_loop (g : nat) (x : goroutine) : bool :=
  match x with TLoop g' _ _ => bool_decide (g' ≠ g) | _ => true end.
Definition loops_done (g : nat) P : bool := bool_decide (map_Forall (λ _ x, no_loop g x = true) P).
Definition monitors_done P : bool := bool_decide (map_Forall (λ _ x, is_monitor x = false) P).

(** The next action of [removeFinalityProviderInstance] *)
Definition remove sh P r : option (remove_result (W := W) (E := E) (Db := Db)) :=
  match r with
  | RmCheck =>
      match sh_fpIns sh with
      | None => Some (RmPanic "the finality provider instance does not exist")
      | Some g =>
          o ← sh_heap sh !! g;
          Some (if IsRunning (o_ins o) then RmNext sh P (RmStop g) else RmDone)
      end
  | RmStop g =>
      o ← sh_heap sh !! g;
      let '(res, t) := Stop (sh_st (o_ins o) sh) in
      match res with
      | Ok tt => Some (RmNext (sh_put g (with_ins (st_ins t) o) t sh) (close_poller (o_poller o) P)
                         (RmPoller g (o_poller o)))
      | Err _ => Some (RmPanic "failed to stop the finality provider instance")
      | Fatal m => Some (RmPanic m)
      | _ => None
      end
  | RmPoller g p =>
      match P !! p with
      | Some TDone =>
          o ← sh_heap sh !! g;
          Some (if o_quit o then RmPanic "close of closed channel"
                else RmNext (sh_set_heap (<[g := with_quit true o]> (sh_heap sh)) sh) P (RmLoops g))
      | _ => None
      end
  | RmLoops g => if loops_done g P then Some RmDone else None
  end.

Lemma loops_done_spec g P : loops_done g P = true ↔ ¬ loops_of g P.
Proof.
  unfold loops_done. rewrite bool_decide_eq_true. split.
  - intros HP (t & l & pc & Ht). specialize (HP _ _ Ht). simpl in HP. by apply bool_decide_eq_true in HP.
  - intros Hno t x Ht. destruct x as [g' l pc| | | | | |]; try done. simpl. apply bool_decide_eq_true. intros ->.
    apply Hno. by exists t, l, pc.
Qed.

Lemma monitors_done_spec P : monitors_done P = true ↔ ∀ n x, P !! n = Some x → is_monitor x = false.
Proof. unfold monitors_done. by rewrite bool_decide_eq_true. Qed.

(** The function computes the relation. *)
Lemma remove_spec sh P r res : remove sh P r = Some res ↔ rm_step sh P r res.
Proof.
  split.
  - destruct r as [|g|g p|g]; simpl.
    + destruct (sh_fpIns sh) as [g|] eqn:Hg; [|intros [= <-]; by constructor].
      intros (o & Ho & Hr)%bind_Some. destruct (IsRunning (o_ins o)) eqn:Hi; injection Hr as <-;
        [by eapply rm_running|by eapply rm_idle].
    + intros (o & Ho & Hr)%bind_Some. destruct (Stop _) as [[[]|e|m|] t] eqn:Hs; try done; injection Hr as <-;
        [by eapply rm_stop|by eapply rm_stop_err|by eapply rm_stop_fatal].
    + destruct (P !! p) as [[]|] eqn:Hp; try done. intros (o & Ho & Hr)%bind_Some.
      destruct (o_quit o) eqn:Hq; injection Hr as <-; [by eapply rm_closed|by eapply rm_poller].
    + destruct (loops_done g P) eqn:Hl; [|done]. intros [= <-]. by apply rm_loops, loops_done_spec.
  - inversion 1; subst; simpl;
      repeat match goal with Heq : ?x = _ |- context [?x] => rewrite Heq; simpl end; try done.
    by match goal with Hl : ¬ loops_of _ _ |- _ => apply loops_done_spec in Hl; rewrite Hl end.
Qed.

(** A removal by the goroutine [n]: [back] is its place for a place in the
    removal, [sh', x] the memory and its place when the removal is done. *)
Definition removal (n : nat) (back : remove_pc → goroutine) sh P r sh' (x : goroutine) :
    option (result (W := W) (E := E) (Db := Db)) :=
  res ← remove sh P r;
  Some match res with
       | RmNext sh1 P1 r1 => Next (mkConf sh1 (<[n := back r1]> P1))
       | RmDone => Next (mkConf sh' (<[n := x]> P))
       | RmPanic m => Ends m
       end.

(** [Stop] of the manager returns the error of [fpi.Stop()] where the monitors
    panic. *)
Definition shutdown (n : nat) sh P r : option (result (W := W) (E := E) (Db := Db)) :=
  match r with
  | RmStop g =>
      o ← sh_heap sh !! g;
      match Stop (sh_st (o_ins o) sh) with
      | (Err _, t) => Some (Next (mkConf (sh_put g (with_ins (st_ins t) o) t sh) (<[n := TDone]> P)))
      | _ => removal n (λ r, TStop (StRemove r)) sh P r sh TDone
      end
  | RmCheck => _ ← sh_fpIns sh; removal n (λ r, TStop (StRemove r)) sh P r sh TDone
  | _ => removal n (λ r, TStop (StRemove r)) sh P r sh TDone
  end.

(** The effect of [MustSetStatus] in a monitor, which goes on at [P'] *)
Definition status_set (g : nat) (st : FinalityProviderStatus) sh (P' : gmap nat goroutine) :
    option (result (W := W) (E := E) (Db := Db)) :=
  match mustSet g st sh with
  | Some (Ok _, sh') => Some (Next (mkConf sh' P'))
  | Some (Fatal m, _) => Some (Ends m)
  | _ => None
  end.

Definition lag_disabled (l : loop) (o : object) : bool :=
  match l with LagLoop => (FastSyncInterval (i_cfg (o_ins o)) =? 0)%Z | _ => false end.

Definition turn (fuel t g : nat) (l : loop) (ev : ins_event) sh P : option (result (W := W) (E := E) (Db := Db)) :=
  o ← sh_heap sh !! g;
  if serves l ev && negb (lag_disabled l o)
  then
    match run_event fuel ev (sh_st (set_criticalErrs [] (o_ins o)) sh) with
    | (Ok _, s') =>
        Some (Next (mkConf (sh_put g (with_ins (st_ins s') o) s' sh)
                 (<[t := TLoop g l (after_turn (st_ins s'))]> (make_room ev (o_poller o) P))))
    | (Fatal m, _) => Some (Ends m)
    | _ => None
    end
  else None.

(** A goroutine that can return *)
Definition returns sh (x : goroutine) : bool :=
  match x with
  | TLoop g l LSelect => match sh_heap sh !! g with Some o => o_quit o || lag_disabled l o | None => false end
  | TPoller true false => true
  | TCrit CSelect => sh_quit sh
  | TStat SSelect => sh_quit sh || (StatusUpdateInterval (sh_config sh) =? 0)%Z
  | _ => false
  end.

Definition create (t g : nat) (pk : bytes) (pass : string) sh P : option (result (W := W) (E := E) (Db := Db)) :=
  match sh_fpIns sh with
  | Some _ => Some (Next (mkConf sh (<[t := TStart StStart]> P)))
  | None =>
      match NewFinalityProviderInstance pk (sh_config sh) pass (sh_db sh) with
      | (Ok i, db') =>
          match sh_heap sh !! g with
          | Some _ => None
          | None =>
              Some (Next (mkConf (sh_set_fpIns (Some g)
                 (sh_set_heap (<[g := mkObject i false 0]> (sh_heap sh)) (sh_set_db db' sh)))
                 (<[t := TStart StStart]> P)))
          end
      | (Err _, db') => Some (Next (mkConf (sh_set_db db' sh) (<[t := TDone]> P)))
      | (Fatal m, _) => Some (Ends m)
      | _ => None
      end
  end.

Definition start (fuel t p l1 l2 l3 : nat) sh P : option (result (W := W) (E := E) (Db := Db)) :=
  match sh_fpIns sh with
  | None => Some (Ends "nil pointer dereference")
  | Some g =>
      o ← sh_heap sh !! g;
      match Start fuel (sh_st (o_ins o) sh) with
      | (Ok _, s') =>
          if bool_decide (NoDup [t; p; l1; l2; l3] ∧ P !! p = None ∧ P !! l1 = None ∧ P !! l2 = None ∧ P !! l3 = None)
          then Some (Next (mkConf (sh_put g (restarted s' p) s' sh)
                 (<[p := TPoller false false]> (<[l1 := TLoop g SigLoop LSelect]>
                    (<[l2 := TLoop g RandLoop LSelect]> (<[l3 := TLoop g LagLoop LSelect]> (<[t := TDone]> P)))))))
          else None
      | (Err _, s') => Some (Next (mkConf (sh_put g (with_ins (st_ins s') o) s' sh) (<[t := TDone]> P)))
      | (Fatal m, _) => Some (Ends m)
      | _ => None
      end
  end.

(** [perform mv c]: the result of the move, when it is possible *)
Definition perform (fuel : nat) (mv : move) c : option (result (W := W) (E := E) (Db := Db)) :=
  let sh := cf_sh c in
  let P := cf_pool c in
  match mv with
  | MvTurn t ev => match P !! t with Some (TLoop g l LSelect) => turn fuel t g l ev sh P | _ => None end
  | MvReturn n =>
      match P !! n with Some x => if returns sh x then Some (Next (mkConf sh (<[n := TDone]> P))) else None | None => None end
  | MvPush p =>
      match P !! p with Some (TPoller q false) => Some (Next (mkConf sh (<[p := TPoller q true]> P))) | _ => None end
  | MvReceive n t =>
      match P !! n, P !! t with
      | Some (TCrit CSelect), Some (TLoop g l (LReport ce)) =>
          let P' := <[t := TLoop g l LSelect]> P in
          match sh_fpIns sh, critical_status ce with
          | None, _ => Some (Next (mkConf sh P'))
          | Some g', Some st => status_set g' st sh (<[n := TCrit (CRemove RmCheck)]> P')
          | Some _, None => Some (Ends instanceTerminatingMsg)
          end
      | _, _ => None
      end
  | MvRemove n =>
      match P !! n with
      | Some (TCrit (CRemove r)) => removal n (λ r, TCrit (CRemove r)) sh P r (sh_set_fpIns None sh) (TCrit CSelect)
      | Some (TStat (SRemove r)) => removal n (λ r, TStat (SRemove r)) sh P r (sh_set_fpIns None sh) (TStat SSelect)
      | Some (TStop (StRemove r)) => shutdown n sh P r
      | _ => None
      end
  | MvDecide n =>
      match P !! n, sh_fpIns sh with
      | Some (TStat SSelect), Some g =>
          o ← sh_heap sh !! g;
          match statusDecision (sh_st (o_ins o) sh) with
          | (Ok d, s') =>
              if (StatusUpdateInterval (sh_config sh) =? 0)%Z then None
              else Some (Next (mkConf (sh_put g o s' sh)
                     (<[n := TStat (match d with Some d => SApply g d | None => SSelect end)]> P)))
          | _ => None
          end
      | _, _ => None
      end
  | MvApply n =>
      match P !! n with
      | Some (TStat (SApply g d)) =>
          status_set g (d_status d) sh (<[n := TStat (if d_remove d then SRemove RmCheck else SSelect)]> P)
      | _ => None
      end
  | MvCall t n m pk pass =>
      match P !! t with
      | Some _ => None
      | None =>
          if sh_started sh then Some (Next (mkConf sh (<[t := TStart (StNew pk pass)]> P)))
          else if bool_decide (P !! n = None ∧ P !! m = None ∧ t ≠ n ∧ t ≠ m ∧ n ≠ m)
          then Some (Next (mkConf (sh_set_started true sh)
                 (<[t := TStart (StNew pk pass)]> (<[n := TCrit CSelect]> (<[m := TStat SSelect]> P)))))
          else None
      end
  | MvNew t g => match P !! t with Some (TStart (StNew pk pass)) => create t g pk pass sh P | _ => None end
  | MvStart t p l1 l2 l3 => match P !! t with Some (TStart StStart) => start fuel t p l1 l2 l3 sh P | _ => None end
  | MvStop t =>
      match P !! t with
      | Some _ => None
      | None => if sh_quit sh then None
                else Some (Next (mkConf (sh_set_quit true sh) (<[t := TStop StMonitors]> P)))
      end
  | MvWaited t =>
      match P !! t with
      | Some (TStop StMonitors) =>
          if monitors_done P
          then Some (Next (mkConf sh (<[t :=
                 match (g ← sh_fpIns sh; o ← sh_heap sh !! g; Some (g, IsRunning (o_ins o))) with
                 | Some (g, true) => TStop (StRemove (RmStop g))
                 | _ => TDone
                 end]> P)))
          else None
      | _ => None
      end
  end.

(** A run: every move is possible and leads on. *)
Fixpoint runs (fuel : nat) (mvs : list move) c : option (conf W E Db) :=
  match mvs with
  | [] => Some c
  | mv :: mvs => match perform fuel mv c with Some (Next c') => runs fuel mvs c' | _ => None end
  end.

Lemma removal_spec n back sh P r sh' x res :
  removal n back sh P r sh' x = Some res ↔
  (∃ sh1 P1 r1, rm_step sh P r (RmNext sh1 P1 r1) ∧ res = Next (mkConf sh1 (<[n := back r1]> P1))) ∨
  (rm_step sh P r RmDone ∧ res = Next (mkConf sh' (<[n := x]> P))) ∨
  (∃ m, rm_step sh P r (RmPanic m) ∧ res = Ends m).
Proof.
  unfold removal. rewrite bind_Some. setoid_rewrite remove_spec. split.
  - intros ([sh1 P1 r1| |m] & Hr & [= <-]); eauto 8.
  - intros [(sh1 & P1 & r1 & Hr & ->)|[[Hr ->]|(m & Hr & ->)]]; eauto.
Qed.

Lemma lag_disabled_false l o : lag_disabled l o = false ↔ (l = LagLoop → FastSyncInterval (i_cfg (o_ins o)) ≠ 0%Z).
Proof. destruct l; simpl; [naive_solver..|]. rewrite Z.eqb_neq. naive_solver. Qed.

Lemma turn_step fuel t g l ev sh P res :
  event_from_chain (W := W) ev → event_wf ev → P !! t = Some (TLoop g l LSelect) →
  turn fuel t g l ev sh P = Some res → step fuel (mkConf sh P) res.
Proof.
  intros Hc Hw Ht (o & Ho & Hr)%bind_Some.
  destruct (serves l ev) eqn:Hs; simpl in Hr; [|done].
  destruct (lag_disabled l o) eqn:Hl; simpl in Hr; [done|]. rewrite lag_disabled_false in Hl.
  destruct (run_event _ _ _) as [[[]|e|m|] s'] eqn:Hrun; try done; injection Hr as <-;
    [by eapply s_turn|by eapply s_turn_fatal].
Qed.

Lemma returns_step fuel n sh P x :
  P !! n = Some x → returns sh x = true → step fuel (mkConf sh P) (Next (mkConf sh (<[n := TDone]> P))).
Proof.
  intros Hn. destruct x as [g l []|[] []|[]|[]| | |]; simpl; try done.
  - destruct (sh_heap sh !! g) as [o|] eqn:Ho; [|done]. intros [Hq|Hl]%orb_true_iff; [by eapply s_loop_quit|].
    destruct l; try done. simpl in Hl. apply Z.eqb_eq in Hl. by eapply s_lag_disabled.
  - intros _. by apply s_poller_quit.
  - by apply s_crit_quit.
  - intros [Hq|Hq%Z.eqb_eq]%orb_true_iff; apply s_stat_quit; eauto.
Qed.

Lemma status_set_step fuel g st sh P' c res :
  status_set g st sh P' = Some res →
  (∀ sh', mustSet g st sh = Some (Ok tt, sh') → step fuel c (Next (mkConf sh' P'))) →
  (∀ m sh', mustSet g st sh = Some (Fatal m, sh') → step fuel c (Ends m)) → step fuel c res.
Proof. unfold status_set. destruct (mustSet _ _ _) as [[[[]|e|m|] sh']|]; intros [= <-]; eauto. Qed.

Lemma removal_step fuel n back sh P r sh' x c res :
  removal n back sh P r sh' x = Some res →
  (∀ sh1 P1 r1, rm_step sh P r (RmNext sh1 P1 r1) → step fuel c (Next (mkConf sh1 (<[n := back r1]> P1)))) →
  (rm_step sh P r RmDone → step fuel c (Next (mkConf sh' (<[n := x]> P)))) →
  (∀ m, rm_step sh P r (RmPanic m) → step fuel c (Ends m)) → step fuel c res.
Proof. intros [(sh1 & P1 & r1 & Hr & ->)|[[Hr ->]|(m & Hr & ->)]]%removal_spec; eauto. Qed.

Lemma shutdown_step fuel n sh P r res :
  P !! n = Some (TStop (StRemove r)) → shutdown n sh P r = Some res → step fuel (mkConf sh P) res.
Proof.
  intros Hn Hr.
  assert ((removal n (λ r, TStop (StRemove r)) sh P r sh TDone = Some res →
    (∀ m, rm_step sh P r (RmPanic m) → step fuel (mkConf sh P) (Ends m)) → step fuel (mkConf sh P) res)) as Hrm.
  { intros Hm Hp. eapply removal_step; [done| | |done]; [intros; by eapply s_stop_remove|by eapply s_stop_done]. }
  destruct r as [|g|g p|g]; simpl in Hr.
  - apply bind_Some in Hr as (g & Hg & Hr). apply Hrm; [done|]. inversion 1; congruence.
  - apply bind_Some in Hr as (o & Ho & Hr). destruct (Stop _) as [[[]|e|m|] t] eqn:Hs.
    + apply Hrm; [done|]. inversion 1; congruence.
    + injection Hr as <-. by eapply s_stop_err.
    + apply Hrm; [done|]. inversion 1; subst; [congruence|by eapply s_stop_fatal].
    + apply Hrm; [done|]. inversion 1; congruence.
  - apply Hrm; [done|]. inversion 1; subst. by eapply s_stop_closed.
  - apply Hrm; [done|]. by inversion 1.
Qed.

Lemma create_step fuel t g pk pass sh P res :
  P !! t = Some (TStart (StNew pk pass)) → create t g pk pass sh P = Some res → step fuel (mkConf sh P) res.
Proof.
  unfold create. intros Ht. destruct (sh_fpIns sh) eqn:Hi; [intros [= <-]; by eapply s_existing|].
  destruct (NewFinalityProviderInstance _ _ _ _) as [[i|e|m|] db'] eqn:Hn; try done.
  - destruct (sh_heap sh !! g) eqn:Hg; [done|]. intros [= <-]. by eapply s_new.
  - intros [= <-]. by eapply s_new_err.
  - intros [= <-]. by eapply s_new_fatal.
Qed.

Lemma start_step fuel t p l1 l2 l3 sh P res :
  P !! t = Some (TStart StStart) → start fuel t p l1 l2 l3 sh P = Some res → step fuel (mkConf sh P) res.
Proof.
  unfold start. intros Ht. destruct (sh_fpIns sh) as [g|] eqn:Hi; [|intros [= <-]; by eapply s_start_nil].
  intros (o & Ho & Hr)%bind_Some. destruct (Start _ _) as [[[]|e|m|] s'] eqn:Hs; try done.
  - case_bool_decide as Hf; [|done]. destruct Hf as (? & ? & ? & ? & ?). injection Hr as <-. by eapply s_start.
  - injection Hr as <-. by eapply s_start_err.
  - injection Hr as <-. by eapply s_start_fatal.
Qed.

(** Every move that is possible is a step. *)
Lemma perform_step fuel mv c res : move_wf mv → perform fuel mv c = Some res → step fuel c res.
Proof.
  destruct c as [sh P]. destruct mv as [t ev|n|p|n t|n|n|n|t n m pk pass|t g|t p l1 l2 l3|t|t]; cbn [perform cf_sh cf_pool move_wf].
  - intros [Hc Hw]. destruct (P !! t) as [[g l []| | | | | |]|] eqn:Ht; try done. by apply turn_step.
  - intros _. destruct (P !! n) as [x|] eqn:Hn; [|done]. destruct (returns sh x) eqn:Hx; [|done].
    intros [= <-]. by eapply returns_step.
  - intros _. destruct (P !! p) as [[|q []| | | | |]|] eqn:Hp; try done. intros [= <-]. by apply s_push.
  - intros _. destruct (P !! n) as [[| |[]| | | |]|] eqn:Hn; try done.
    destruct (P !! t) as [[g l [|ce]| | | | | |]|] eqn:Ht; try done.
    destruct (sh_fpIns sh) as [g'|] eqn:Hi; [|intros [= <-]; by eapply s_dropped].
    destruct (critical_status ce) as [st|] eqn:Hce; [|intros [= <-]; by eapply s_terminates].
    intros Hr. eapply status_set_step; [done|intros; by eapply s_critical|intros; by eapply s_critical_fatal].
  - intros _. destruct (P !! n) as [[| |[|r]|[| |r]|[|r]| |]|] eqn:Hn; try done; [| |by apply shutdown_step].
    + intros Hr. eapply removal_step; [done|intros; by eapply s_crit_remove|intros; by eapply s_crit_removed|].
      intros; by eapply s_crit_panic.
    + intros Hr. eapply removal_step; [done|intros; by eapply s_stat_remove|intros; by eapply s_stat_removed|].
      intros; by eapply s_stat_panic.
  - intros _. destruct (P !! n) as [[| | |[]| | |]|] eqn:Hn; try done. destruct (sh_fpIns sh) as [g|] eqn:Hi; [|done].
    intros (o & Ho & Hr)%bind_Some. destruct (statusDecision _) as [[d| | |] s'] eqn:Hd; try done.
    destruct (Z.eqb_spec (StatusUpdateInterval (sh_config sh)) 0); [done|]. injection Hr as <-. by eapply s_stat_decide.
  - intros _. destruct (P !! n) as [[| | |[|g d|]| | |]|] eqn:Hn; try done.
    intros Hr. eapply status_set_step; [done|intros; by eapply s_stat_apply|intros; by eapply s_stat_fatal].
  - intros _. destruct (P !! t) eqn:Ht; [done|]. destruct (sh_started sh) eqn:Hs; [intros [= <-]; by apply s_call|].
    case_bool_decide as Hf; [|done]. destruct Hf as (? & ? & ? & ? & ?). intros [= <-]. by apply s_first_call.
  - intros _. destruct (P !! t) as [[| | | | |[pk pass|]|]|] eqn:Ht; try done. by apply create_step.
  - intros _. destruct (P !! t) as [[| | | | |[]|]|] eqn:Ht; try done. by apply start_step.
  - intros _. destruct (P !! t) eqn:Ht; [done|]. destruct (sh_quit sh) eqn:Hq; [done|]. intros [= <-]. by apply s_stop.
  - intros _. destruct (P !! t) as [[| | | |[]| |]|] eqn:Ht; try done.
    destruct (monitors_done P) eqn:Hm; [|done]. rewrite monitors_done_spec in Hm. intros [= <-].
    destruct (sh_fpIns sh) as [g|] eqn:Hi; simpl; [|by apply s_stop_idle; [..|intros; congruence]].
    destruct (sh_heap sh !! g) as [o|] eqn:Ho; simpl; [|by apply s_stop_idle; [..|intros; congruence]].
    destruct (IsRunning (o_ins o)) eqn:Hr; [by eapply s_stop_running|]. apply s_stop_idle; [done..|intros; congruence].
Qed.

(** A run is a sequence of steps. *)
Lemma runs_reaches fuel mvs c c' : Forall move_wf mvs → runs fuel mvs c = Some c' → reaches fuel c c'.
Proof.
  intros Hw. revert c. induction Hw as [|mv mvs Hmv _ IH]; simpl; intros c; [by intros [= <-]|].
  destruct (perform fuel mv c) as [[c1|]|] eqn:Hp; try done. intros Hr%IH.
  eapply rtc_l; [by eapply perform_step|done].
Qed.

(** Evaluates a move with what is known of the configuration. *)
Ltac eval_move :=
  repeat match goal with
  | Hl : (_ = LagLoop → _) |- _ => apply lag_disabled_false in Hl
  | Hr : rm_step _ _ _ _ |- _ => apply remove_spec in Hr
  | Hm : ∀ n x, _ !! n = Some x → is_monitor x = false |- _ => apply monitors_done_spec in Hm
  end;
  split; [done|]; cbn [perform cf_sh cf_pool]; unfold turn, removal, status_set, create, start;
  repeat match goal with
  | Heq : ?x = _ |- context [?x] => rewrite Heq; cbn -[perform turn]
  | |- context [mbind] => unfold mbind, option_bind at 1
  end; try done.

Lemma shutdown_removal n sh P r :
  (∀ m, remove sh P r ≠ Some (RmPanic m)) →
  shutdown n sh P r = removal n (λ r, TStop (StRemove r)) sh P r sh TDone.
Proof.
  destruct r as [|g| |]; simpl; try done.
  - destruct (sh_fpIns sh); [done|]. intros Hn. by destruct (Hn _ eq_refl).
  - unfold removal. simpl. destruct (sh_heap sh !! g); [|done]. simpl.
    destruct (Stop _) as [[[]| | |] t]; try done. intros Hn. by destruct (Hn _ eq_refl).
Qed.

(** Every step is a move. *)
Lemma step_perform fuel c res : step fuel c res → ∃ mv, move_wf mv ∧ perform fuel mv c = Some res.
Proof.
  destruct 1;
    [ exists (MvTurn t ev) | exists (MvTurn t ev) | exists (MvReturn t) | exists (MvReturn t) | exists (MvPush p)
    | exists (MvReturn p) | exists (MvReceive c t) | exists (MvReceive c t) | exists (MvReceive c t)
    | exists (MvReceive c t) | exists (MvRemove c) | exists (MvRemove c) | exists (MvRemove c) | exists (MvReturn c)
    | exists (MvDecide c) | exists (MvApply c) | exists (MvApply c) | exists (MvRemove c) | exists (MvRemove c)
    | exists (MvRemove c) | exists (MvReturn c) | exists (MvCall t 0 0 pk pass) | exists (MvCall t c m pk pass)
    | exists (MvNew t g) | exists (MvNew t 0) | exists (MvNew t 0) | exists (MvNew t 0) | exists (MvStart t p l1 l2 l3)
    | exists (MvStart t 0 0 0 0) | exists (MvStart t 0 0 0 0) | exists (MvStart t 0 0 0 0) | exists (MvStop t)
    | exists (MvWaited t) | exists (MvWaited t) | exists (MvRemove t) | exists (MvRemove t) | exists (MvRemove t)
    | exists (MvRemove t) | exists (MvRemove t) ]; eval_move.
  - by rewrite orb_true_r.
  - by destruct (Z.eqb_spec (StatusUpdateInterval (sh_config sh)) 0).
  - by destruct (sh_quit sh), (Z.eqb_spec (StatusUpdateInterval (sh_config sh)) 0); naive_solver.
  - by rewrite bool_decide_eq_true_2.
  - by rewrite bool_decide_eq_true_2.
  - do 4 f_equal. destruct (sh_fpIns sh) as [g|]; [|done]. destruct (sh_heap sh !! g) as [o|] eqn:Ho; simpl; [|done].
    by match goal with Hi : ∀ g o, _ |- _ => rewrite (Hi _ _ eq_refl Ho) end.
  - rewrite shutdown_removal by congruence. unfold removal. by match goal with Hr : remove _ _ _ = _ |- _ => rewrite Hr end.
  - rewrite shutdown_removal by congruence. unfold removal. by match goal with Hr : remove _ _ _ = _ |- _ => rewrite Hr end.
Qed.
End schedule.
