(* ===== verification/ChainKeyring.v ===== *)
(** * ChainKeyring: the keys the finality provider signs transactions with

    Models [src/keyring/] (keyring.go, keyringcontroller.go): the opening of a
    keyring and a controller of one named key of the Cosmos keyring, which is a parameter (as in [EotsManager]), with
    the address of a record and the proof of possession as further functions
    of the libraries. *)

From stdpp Require Import base gmap list strings.
From Stdlib Require Import ZArith Lia.
From S2P Require Import Prelude Errors Monad Version Paths Log Config Types Kvdb Metrics EotsManager.

(** [record.GetAddress()], [bstypes.NewPoPBTC], of which the program uses the
    BTC signature, and [secp256k1.PrivKey.Sign] *)
Class ChainKeys (KR : Type) `{Keyring KR} `{Crypto} := {
  record_GetAddress : KrRecord → outcome bytes;
  NewPoPBTC : bytes → PrivateKey → outcome bytes;
  secp256k1_Sign : bytes → bytes → outcome bytes;
}.

Section ChainKeyring.
Context `{Crypto} {KR Rnd : Type} `{!Keyring KR} `{!ChainKeys KR} `{!Bip39 Rnd}.

(** The keyring, its input and the random source behind bip39. The reader
    [input] is part of the keyring, which reads passphrases from it. *)
Record KeyringSt := mkKeyringSt { ks_kr : KR; ks_rand : Rnd; }.

Definition ks_set_kr v s := mkKeyringSt v (ks_rand s).
Definition ks_set_rand v s := mkKeyringSt (ks_kr s) v.

Definition ksKr {A} : M KR A → M KeyringSt A := zoom ks_kr ks_set_kr.
Definition ksRand {A} : M Rnd A → M KeyringSt A := zoom ks_rand ks_set_rand.

(** [types.ChainKeyInfo] *)
Record ChainKeyInfo := mkChainKeyInfo {
  ck_Name : string;
  ck_Mnemonic : string;
  ck_AccAddress : bytes;
  ck_PublicKey : PublicKey;
  ck_PrivateKey : PrivateKey;
}.

(** [NewChainKeyringControllerWithKeyring]; the controller is its key name *)
Definition NewChainKeyringControllerWithKeyring (name : string) : outcome string :=
  if bool_decide (name = "") then Err (ErrorString "the key name should not be empty") else Ok name.

Definition mnemonicEntropySize : Z := 256.

Definition CreateChainKey (fpName passphrase hdPath mnemonic : string) : M KeyringSt ChainKeyInfo :=
  kr ← gets ks_kr;
  algo ← lift (NewSigningAlgoFromString secp256k1Type kr);
  mnemonic ← (if bool_decide (mnemonic = "")
              then entropySeed ← ksRand (bip39_NewEntropy mnemonicEntropySize);
                   lift (bip39_NewMnemonic entropySeed)
              else mret mnemonic);
  ksKr (modify (input_Reset (passphrase +:+ newline +:+ passphrase))) ;;
  record ← ksKr (kr_NewAccount fpName mnemonic passphrase hdPath algo);
  match record_GetLocal record with
  | None => fatal "nil pointer dereference"
  | Some privKey =>
      accAddress ← lift (record_GetAddress record);
      match privKey with
      | KrSecp256k1PrivKey key =>
          mret (mkChainKeyInfo fpName mnemonic accAddress (PubKey (PrivKeyFromBytes key)) (PrivKeyFromBytes key))
      | KrOtherPrivKey => throw (ErrorString "unsupported key type in keyring")
      end
  end.

(** The signature of the proof of possession *)
Definition CreatePop (fpAddr : bytes) (btcPrivKey : PrivateKey) : outcome bytes :=
  NewPoPBTC fpAddr btcPrivKey.

Definition Address (fpName passphrase : string) : M KeyringSt bytes :=
  ksKr (modify (input_Reset passphrase)) ;;
  k ← wrapping "failed to get address: " (ksKr (kr_Key fpName));
  lift (record_GetAddress k).

Definition GetChainPrivKey (fpName passphrase : string) : M KeyringSt bytes :=
  ksKr (modify (input_Reset passphrase)) ;;
  k ← wrapping "failed to get private key: " (ksKr (kr_Key fpName));
  match record_GetLocal k with
  | None => fatal "nil pointer dereference"
  | Some (KrSecp256k1PrivKey key) => mret key
  | Some KrOtherPrivKey => throw (ErrorString "unsupported key type in keyring")
  end.
End ChainKeyring.
Arguments KeyringSt : clear implicits.

(** ** keyring.go *)

Section keyring.
Context {F KR Db : Type} `{!Process F} `{!Disk F KR Db}.

(** The fields of [client.Context] that are set *)
Record sdkContext := mkSdkContext { sc_ChainID : string; sc_KeyringDir : string; }.

(** [os.UserHomeDir] on Unix *)
Definition UserHomeDir (f : F) : outcome string :=
  if bool_decide (os_Getenv f "HOME" = "") then Err (ErrorString "$HOME is not defined")
  else Ok (os_Getenv f "HOME").

Definition CreateClientCtx (keyringDir chainId : string) (f : F) : outcome sdkContext :=
  keyringDir ← (if bool_decide (keyringDir = "")
                then homeDir ← UserHomeDir f; Ok (Join homeDir ".finality-provider")
                else Ok keyringDir);
  Ok (mkSdkContext chainId keyringDir).

Definition openKeyring (ctx : sdkContext) (backend : string) (f : F) : outcome KR :=
  match keyring_New (sc_ChainID ctx) backend (sc_KeyringDir ctx) f with
  | Err e => Err (Wrap "failed to create keyring: " e "")
  | o => o
  end.

Definition CreateKeyring (keyringDir chainId backend : string) (f : F) : outcome KR :=
  ctx ← CreateClientCtx keyringDir chainId f;
  if bool_decide (backend = "") then Err (ErrorString "the keyring backend should not be empty")
  else openKeyring ctx backend f.

(** [NewChainKeyringController]: the keyring and the name of its key *)
Definition NewChainKeyringController (ctx : sdkContext) (name keyringBackend : string) (f : F)
    : outcome (KR * string) :=
  if bool_decide (name = "") then Err (ErrorString "the key name should not be empty")
  else if bool_decide (keyringBackend = "") then Err (ErrorString "the keyring backend should not be empty")
  else kr ← openKeyring ctx keyringBackend f; Ok (kr, name).
End keyring.

Section theorems.
Context `{CryptoLaws} {KR Rnd : Type} `{!Keyring KR} `{!KeyringLaws KR} `{!ChainKeys KR} `{!Bip39 Rnd}.
Implicit Types (s : KeyringSt KR Rnd).

(** A chain key that was just created can be used with its passphrase:
    [Address] returns the address of the created key, and
    [GetChainPrivKey] the bytes its private key is made of. *)
Theorem created_chain_key_is_usable name pass hd mn s info s' :
  CreateChainKey name pass hd mn s = (Ok info, s') →
  (Address name pass s').1 = Ok (ck_AccAddress info) ∧
  ∃ key, (GetChainPrivKey name pass s').1 = Ok key ∧ ck_PrivateKey info = PrivKeyFromBytes key ∧
    ck_PublicKey info = PubKey (ck_PrivateKey info).
Proof.
  unfold CreateChainKey. intros Hrun.
  apply bind_Ok_inv in Hrun as (kr & s1 & _ & Hrun).
  apply bind_Ok_inv in Hrun as (algo & s2 & _ & Hrun).
  apply bind_Ok_inv in Hrun as (mn' & s3 & _ & Hrun).
  apply bind_Ok_inv in Hrun as ([] & s4 & _ & Hrun).
  apply bind_Ok_inv in Hrun as (r & s5 & (k' & Hnew & ->)%zoom_inv & Hrun).
  destruct (record_GetLocal r) as [pv|] eqn:Eloc; [|done].
  apply bind_Ok_inv in Hrun as (a & s6 & Ha & Hrun). injection Ha as Ha <-.
  destruct pv as [key|]; [|done]. injection Hrun as <- <-. simpl.
  apply kr_NewAccount_Key in Hnew.
  unfold Address, GetChainPrivKey, wrapping, ksKr, zoom, modify, mbind, M_bind. simpl.
  destruct (kr_Key name (input_Reset pass k')) as [o k2]. simpl in Hnew. subst o. simpl.
  rewrite Ha, Eloc. simpl. eauto.
Qed.
End theorems.
