(* ===== verification/App.v ===== *)
(** * App: the finality provider application

    Models [src/finality-provider/service/app.go]: creation and registration
    of a finality provider, unjailing, the synchronisation of statuses with
    the chain, and the turns of its loops. A request through a channel is the
    call of the handler that serves it: [RegisterFinalityProvider] is the
    request, the turn of [registrationLoop] that serves it and the turn of
    [eventLoop] that serves the registration event. *)

From stdpp Require Import base gmap list strings pretty.
From Stdlib Require Import ZArith Lia.
From S2P Require Import Prelude Errors Monad Types Kvdb FpStore PubRandStore Metrics EotsManager.
From S2P Require Import Config ClientController Babylon Poller FpState Voting FastSync FpInstance.
From S2P Require Import FpManager ChainKeyring.

(** Library types the application uses: [bbntypes.NewBIP340Signature] with
    [MustMarshal], [ProofOfPossessionBTC.Marshal] of a BIP-340 signature, and
    the text of [bstypes.ErrVotingPowerTableNotUpdated.Wrapf("height: %d", _)]. *)
Class AppTypes := {
  NewBIP340Signature : bytes → outcome bytes;
  BIP340Signature_MustMarshal : bytes → outcome bytes;
  PoPBTC_Marshal : bytes → outcome bytes;
  VotingPowerTableNotUpdated_text : Z → string;
}.

Section App.
Context `{Crypto} `{Codec} `{BbnErrors} `{RetryGo} `{AppTypes}.
Context {W E Db KR Rnd : Type} `{!ClientController W} `{!Env W} `{!EOTSManager E} `{!Kvdb Db}.
Context `{!Keyring KR} `{!ChainKeys KR} `{!Bip39 Rnd}.

(** The application: its manager (which holds the chain, the EOTS manager,
    the database and the metrics that it shares with the application) and
    its keyring *)
Record FinalityProviderApp := mkApp {
  app_m : MSt W E Db;
  app_kr : KeyringSt KR Rnd;
  app_started : bool;                    (* startOnce *)
  app_stopped : bool;                    (* stopOnce *)
}.

Definition set_m v a := mkApp v (app_kr a) (app_started a) (app_stopped a).
Definition set_akr v a := mkApp (app_m a) v (app_started a) (app_stopped a).

Abbreviation AP := (M FinalityProviderApp).

Definition onM {A} : M (MSt W E Db) A → AP A := zoom app_m set_m.
Definition onAKr {A} : M (KeyringSt KR Rnd) A → AP A := zoom app_kr set_akr.
Definition appW {A} (m : M W A) : AP A := onM (mOnW m).
Definition appDb {A} (m : M Db A) : AP A := onM (mOnDb m).
Definition appE {A} (m : M E A) : AP A := onM (zoom mst_e mst_set_e m).
Definition appFm (f : FpMetrics → FpMetrics) : AP unit :=
  onM (modify (λ s, mst_set_fm (f (mst_fm s)) s)).

(** *** NewFinalityProviderApp: the stores and the manager *)
Definition NewFinalityProviderApp (config : Config) (kr : outcome (KeyringSt KR Rnd)) (w : W) (e : E)
    (fm : FpMetrics) : M Db FinalityProviderApp :=
  wrapping "failed to initiate finality provider store: " NewFinalityProviderStore ;;
  wrapping "failed to initiate public randomness store: " NewPubRandProofStore ;;
  kr ← wrapping "failed to create keyring: " (lift kr);
  db ← get;
  mret (mkApp (mkMSt (NewFinalityProviderManager config) w e db fm []) kr false false).

(** *** Registration *)

Record RegisterFinalityProviderRequest := mkRegisterRequest {
  rr_fpAddr : bytes;
  rr_btcPubKey : bytes;
  rr_pop : bytes;                        (* BtcSig of the proof of possession *)
  rr_description : Description;
  rr_commission : LegacyDec;
}.

Record RegisterFinalityProviderResponse := mkRegisterResponse {
  re_bbnAddress : bytes;
  re_btcPubKey : bytes;
  re_TxHash : string;
}.

(** The request [RegisterFinalityProvider] sends to [registrationLoop] *)
Definition registerRequest (fpPkStr : string) : AP RegisterFinalityProviderRequest :=
  fpPk ← lift (NewBIP340PubKeyFromHex fpPkStr);
  btcPk ← lift (MustToBTCPK fpPk);
  fp ← appDb (GetFinalityProvider btcPk);
  if negb (bool_decide (s_Status fp = CREATED))
  then throw (ErrorString "finality-provider is already registered")
  else
    btcSig ← lift (NewBIP340Signature (BtcSig (s_Pop fp)));
    sigBytes ← lift (BIP340Signature_MustMarshal btcSig);
    fpAddr ← lift (AccAddressFromBech32 (s_FPAddr fp));
    mret (mkRegisterRequest fpAddr (NewBIP340PubKeyFromBTCPK (s_BtcPk fp)) sigBytes
            (s_Description fp) (s_Commission fp)).

(** A turn of [registrationLoop] *)
Definition handleRegister (req : RegisterFinalityProviderRequest) : AP TxResponse :=
  popBytes ← lift (PoPBTC_Marshal (rr_pop req));
  desBytes ← lift (Description_Marshal (rr_description req));
  btcPk ← lift (MustToBTCPK (rr_btcPubKey req));
  appW (cc_RegisterFinalityProvider btcPk popBytes (rr_commission req) desBytes).

(** A turn of [eventLoop] for a registration event *)
Definition handleRegistered (btcPubKey bbnAddress : bytes) (txHash : string)
    : AP RegisterFinalityProviderResponse :=
  btcPk ← lift (MustToBTCPK btcPubKey);
  r ← attempt (appDb (SetFpStatus btcPk REGISTERED));
  match r with
  | inl _ => fatal "failed to set finality-provider status to REGISTERED"
  | inr _ =>
      appFm (RecordFpStatus (MarshalHex btcPubKey) REGISTERED) ;;
      mret (mkRegisterResponse bbnAddress btcPubKey txHash)
  end.

Definition RegisterFinalityProvider (fpPkStr : string) : AP RegisterFinalityProviderResponse :=
  req ← registerRequest fpPkStr;
  res ← handleRegister req;
  handleRegistered (rr_btcPubKey req) (rr_fpAddr req) (TxHash res).

(** *** Unjailing *)

Definition app_UnjailFinalityProvider (fpPk : bytes) : AP string :=
  btcPk ← lift (MustToBTCPK fpPk);
  wrapping "failed to get finality provider from db: " (_ ← appDb (GetFinalityProvider btcPk); mret tt) ;;
  res ← wrapping "failed to send unjail transaction: " (appW (cc_UnjailFinalityProvider btcPk));
  wrapping "failed to update finality-provider status after unjailing: "
    (appDb (SetFpStatus btcPk INACTIVE)) ;;
  appFm (RecordFpStatus (MarshalHex fpPk) INACTIVE) ;;
  mret (TxHash res).

(** *** Creation *)

(** The part [handleCreateFinalityProviderRequest] and
    [StoreFinalityProvider] share: the key record, the proof of possession,
    the record in the store *)
Definition saveNewProvider (keyName passPhrase chainID : string) (fpAddr fpPk : bytes)
    (description : Description) (commission : LegacyDec) (popErr : string) : AP StoredFinalityProvider :=
  uid ← lift (MustMarshal fpPk);
  fpRecord ← wrapping "failed to get finality-provider record: " (appE (em_KeyRecord uid passPhrase));
  pop ← wrapping popErr (lift (CreatePop fpAddr (kr_PrivKey fpRecord)));
  btcPk ← lift (MustToBTCPK fpPk);
  wrapping "failed to save finality-provider: "
    (appDb (CreateFinalityProvider fpAddr btcPk description commission keyName chainID pop)) ;;
  appFm (RecordFpStatus (MarshalHex fpPk) CREATED) ;;
  appDb (GetFinalityProvider btcPk).

Record CreateFinalityProviderRequest := mkCreateRequest {
  cr_keyName : string;
  cr_passPhrase : string;
  cr_hdPath : string;
  cr_chainID : string;
  cr_eotsPk : option bytes;              (* nil to create a key *)
  cr_description : Description;
  cr_commission : LegacyDec;
}.

Definition newEotsKey (keyName passPhrase hdPath : string) : AP bytes :=
  fpPkBytes ← appE (em_CreateKey keyName passPhrase hdPath);
  lift (NewBIP340PubKey fpPkBytes).

(** 1. of [handleCreateFinalityProviderRequest]: the address of the chain
    key, which is created when it does not exist *)
Definition chainKeyAddress (req : CreateFinalityProviderRequest) : AP bytes :=
  kr ← lift (NewChainKeyringControllerWithKeyring (cr_keyName req));
  r ← attempt (onAKr (Address kr (cr_passPhrase req)));
  match r with
  | inr addr => mret addr
  | inl _ =>
      keyInfo ← wrapping ("failed to create chain key " +:+ cr_keyName req +:+ ": ")
                  (onAKr (CreateChainKey kr (cr_passPhrase req) (cr_hdPath req) ""));
      mret (ck_AccAddress keyInfo)
  end.

(** 2. of [handleCreateFinalityProviderRequest]: the EOTS key *)
Definition eotsKey (req : CreateFinalityProviderRequest) : AP bytes :=
  match cr_eotsPk req with
  | Some pk => mret pk
  | None => newEotsKey (cr_keyName req) (cr_passPhrase req) (cr_hdPath req)
  end.

Definition handleCreateFinalityProviderRequest (req : CreateFinalityProviderRequest)
    : AP FinalityProviderInfo :=
  fpAddr ← chainKeyAddress req;
  fpPk ← eotsKey req;
  storedFp ← saveNewProvider (cr_keyName req) (cr_passPhrase req) (cr_chainID req) fpAddr fpPk
               (cr_description req) (cr_commission req)
               "failed to create proof-of-possession of the finality-provider: ";
  mret (ToFinalityProviderInfo storedFp).

Definition loadChainKeyring (keyName passPhrase hdPath : string) : AP (string * bytes) :=
  kr ← lift (NewChainKeyringControllerWithKeyring keyName);
  r ← attempt (onAKr (GetChainPrivKey kr passPhrase));
  match r with
  | inr chainSk => mret (kr, chainSk)
  | inl _ =>
      keyInfo ← wrapping ("failed to create chain key " +:+ keyName +:+ ": ")
                  (onAKr (CreateChainKey kr passPhrase hdPath ""));
      mret (kr, PrivKey_Serialize (ck_PrivateKey keyInfo))
  end.

Definition SignRawMsg (keyName passPhrase hdPath : string) (rawMsgToSign : bytes) : AP bytes :=
  r ← loadChainKeyring keyName passPhrase hdPath;
  lift (secp256k1_Sign r.2 rawMsgToSign).

Definition StoreFinalityProvider (keyName passPhrase hdPath chainID : string)
    (description : Description) (commission : LegacyDec) : AP StoredFinalityProvider :=
  r ← loadChainKeyring keyName passPhrase hdPath;
  fpAddr ← onAKr (Address r.1 passPhrase);
  fpPk ← newEotsKey keyName passPhrase hdPath;
  saveNewProvider keyName passPhrase chainID fpAddr fpPk description commission
    "failed to create proof-of-possession of the finality provider: ".

(** *** Synchronisation of the statuses *)

Definition allowedErr (height : Z) : string :=
  "failed to query Finality Voting Power at Height " +:+ pretty height +:+
  ": rpc error: code = Unknown desc = " +:+ VotingPowerTableNotUpdated_text height +:+ ": unknown request".

(** The body of the loop for a provider with an answer on its voting power:
    whether an instance runs, or nothing to say *)
Definition syncProvider (fuel : nat) (vp : Z) (fp : StoredFinalityProvider) : AP (option bool) :=
  let bip340PubKey := GetBIP340BTCPK fp in
  running ← gets (λ a, IsFinalityProviderRunning bip340PubKey (mst_m (app_m a)));
  if (running : bool) then mret (Some true)
  else
    newStatus ← appDb (UpdateFpStatusFromVotingPower vp fp);
    if negb (ShouldStart (stored_with_status newStatus fp)) then mret None
    else onM (StartFinalityProvider fuel bip340PubKey "") ;; mret (Some true).

Fixpoint syncLoop (fuel : nat) (latest : BlockInfo) (fps : list StoredFinalityProvider)
    (fpInstanceRunning : bool) : AP bool :=
  match fps with
  | [] => mret fpInstanceRunning
  | fp :: fps =>
      r ← attempt (appW (cc_QueryFinalityProviderVotingPower (s_BtcPk fp) (Height latest)));
      match r with
      | inl err =>
          if negb (EqualFold (Error err) (allowedErr (Height latest)))
          then syncLoop fuel latest fps fpInstanceRunning
          else
            x ← syncProvider fuel 0 fp;
            syncLoop fuel latest fps (default fpInstanceRunning x)
      | inr vp =>
          x ← syncProvider fuel vp fp;
          syncLoop fuel latest fps (default fpInstanceRunning x)
      end
  end.

Definition SyncFinalityProviderStatus (fuel : nat) : AP bool :=
  latestBlock ← appW cc_QueryBestBlock;
  fps ← appDb GetAllStoredFinalityProviders;
  syncLoop fuel latestBlock fps false.

(** A turn of [syncChainFpStatusLoop]; true ends the loop *)
Definition syncTick (fuel : nat) : AP bool :=
  r ← attempt (SyncFinalityProviderStatus fuel);
  mret (match r with inr started => started | inl _ => false end).

(** A turn of [metricsUpdateLoop] *)
Definition metricsTick : AP unit :=
  r ← attempt (appDb GetAllStoredFinalityProviders);
  match r with
  | inl _ => mret tt
  | inr fps => now ← appW (effect time_Now); appFm (UpdateFpMetrics now fps)
  end.

(** [time.NewTicker] panics on an interval that is not positive. *)
Definition NewTicker (d : Z) : AP unit :=
  if (d <=? 0)%Z then fatal "non-positive interval for NewTicker" else mret tt.

(** [Start], with the tickers its loops make before their first turn:
    [syncChainFpStatusLoop] and [metricsUpdateLoop] *)
Definition app_Start : AP unit :=
  started ← gets app_started;
  if (started : bool) then mret tt
  else
    modify (λ a, mkApp (app_m a) (app_kr a) true (app_stopped a)) ;;
    cfg ← gets (λ a, fpm_config (mst_m (app_m a)));
    NewTicker (SyncFpStatusInterval cfg) ;;
    match Metrics cfg with
    | None => fatal "nil pointer dereference"
    | Some m => NewTicker (mc_UpdateInterval m)
    end.

(** [Stop]: the loops end, the manager stops, the EOTS manager is closed;
    [em_Close] is the [Close] of the EOTS manager. *)
Definition app_Stop (em_Close : M E unit) : AP unit :=
  stopped ← gets app_stopped;
  if (stopped : bool) then mret tt
  else
    modify (λ a, mkApp (app_m a) (app_kr a) (app_started a) true) ;;
    onM fpm_Stop ;;
    appE em_Close.
End App.
Arguments FinalityProviderApp {_ _} W E Db KR Rnd.

(** ** Theorems *)

Section theorems.
Context `{CryptoLaws} `{CodecLaws} `{BbnErrors} `{RetryGoLaws} `{AppTypes}.
Context {W E Db KR Rnd : Type} `{!ClientController W} `{!ClientControllerLaws W} `{!Env W}.
Context `{!EOTSManager E} `{!EOTSManagerLaws E} `{!Kvdb Db} `{!KvdbLaws Db}.
Context `{!Keyring KR} `{!ChainKeys KR} `{!Bip39 Rnd}.
Implicit Types (a : FinalityProviderApp W E Db KR Rnd).

Abbreviation AP := (M (FinalityProviderApp W E Db KR Rnd)).

Definition app_db a : Db := mst_db (app_m a).
Definition app_ins a : option FinalityProviderInstance := fpm_fpIns (mst_m (app_m a)).

(** *** What an operation leaves in the database *)

(** The database is untouched. *)
Definition same_db a a' : Prop := app_db a' = app_db a.

#[local] Instance same_db_preorder : PreOrder same_db.
Proof. split; [done|]. intros a1 a2 a3 ? ?. unfold same_db in *. congruence. Qed.

Lemma same_db_appW {A} (m : M W A) : frame same_db (appW m : AP A).
Proof. done. Qed.
Lemma same_db_appE {A} (m : M E A) : frame same_db (appE m : AP A).
Proof. done. Qed.
Lemma same_db_onAKr {A} (m : M (KeyringSt KR Rnd) A) : frame same_db (onAKr m : AP A).
Proof. done. Qed.
Lemma same_db_appFm f : frame same_db (appFm f : AP unit).
Proof. done. Qed.
Lemma same_db_Get pk : frame same_db (appDb (GetFinalityProvider pk) : AP StoredFinalityProvider).
Proof. done. Qed.
#[local] Hint Resolve same_db_appW same_db_appE same_db_onAKr same_db_appFm same_db_Get : frame.

(** The record of [k] changes from [r] to [r'], the others stay. *)
Definition updates (k : bytes) (r' : FinalityProvider) (db db' : Db) : Prop :=
  ∀ k', fp_lookup db' k' = if decide (k' = k) then Some r' else fp_lookup db k'.

Lemma appDb_inv {A} (m : M Db A) a o a' :
  appDb m a = (o, a') → m (app_db a) = (o, app_db a') ∧ app_ins a' = app_ins a ∧
    mst_w (app_m a') = mst_w (app_m a).
Proof.
  unfold appDb, onM, mOnDb, zoom, app_db, app_ins. simpl. intros Hr. injection Hr as <- <-. simpl.
  by destruct (m _).
Qed.

Lemma set_status_updates pk st fp a a' :
  store_wf (app_db a) → fp_lookup (app_db a) (SerializePubKey pk) = Some fp →
  appDb (SetFpStatus pk st) a = (Ok tt, a') →
  updates (SerializePubKey pk) (fp_with_status st fp) (app_db a) (app_db a').
Proof.
  intros Hwf Hl (Hset & _ & _)%appDb_inv.
  destruct (SetFpStatus_lookup _ _ _ _ Hwf Hset) as (_ & fp' & Hl' & Hk). by simplify_eq.
Qed.

Lemma appDb_not_Ok f a (o : outcome unit) a' :
  appDb (Batch f) a = (o, a') → o ≠ Ok tt → app_db a' = app_db a.
Proof. intros (Hb & _)%appDb_inv Ho. by eapply batch_not_Ok. Qed.

(** *** Registration *)

Lemma same_db_request str : frame same_db (registerRequest str : AP RegisterFinalityProviderRequest).
Proof. unfold registerRequest. frame_auto. Qed.

Lemma same_db_handleRegister req : frame same_db (handleRegister req : AP TxResponse).
Proof. unfold handleRegister. frame_auto. Qed.

Lemma get_stored `{!KvdbReliable Db} pk db fp :
  store_wf db → fp_lookup db (SerializePubKey pk) = Some fp →
  ∃ sfp, GetFinalityProvider pk db = (Ok sfp, db) ∧ stored_of fp sfp.
Proof.
  intros Hwf Hl. rewrite get_run by done. rewrite Hl.
  destruct (store_wf_lookup _ _ _ Hwf Hl) as [_ Hv]. destruct (valid_stored _ Hv) as (sfp & Hs).
  exists sfp. split; [|done]. by destruct Hs as [-> _].
Qed.

(** The request holds the stored key; it is refused when the provider is
    not CREATED. *)
Lemma registerRequest_run `{!KvdbReliable Db} str pk fp a :
  store_wf (app_db a) → NewBIP340PubKeyFromHex str = Ok (SerializePubKey pk) →
  fp_lookup (app_db a) (SerializePubKey pk) = Some fp →
  if decide (Status fp = CREATED)
  then ∀ req a1, registerRequest str a = (Ok req, a1) → rr_btcPubKey req = SerializePubKey pk
  else registerRequest str a = (Err (ErrorString "finality-provider is already registered"), a).
Proof.
  intros Hwf Hhex Hl. destruct (must_to_btc_pk pk) as (pk' & Hpk & Hser).
  rewrite <-Hser in Hl. destruct (get_stored _ _ _ Hwf Hl) as (sfp & Hg & _ & Hsk & _ & _ & Hst).
  destruct (store_wf_lookup _ _ _ Hwf Hl) as [Hkey _].
  assert (∀ T (k : _ → AP T), (fpPk ← lift (NewBIP340PubKeyFromHex str); btcPk ← lift (MustToBTCPK fpPk);
            fp ← appDb (GetFinalityProvider btcPk); k fp) a = k sfp a) as Hrun.
  { intros T k. rewrite (bind_Ok _ _ _ (SerializePubKey pk) a) by (unfold lift; by rewrite Hhex).
    rewrite (bind_Ok _ _ _ pk' a) by (unfold lift; by rewrite Hpk).
    rewrite (bind_Ok _ _ _ sfp a); [done|].
    unfold app_db in Hg. unfold appDb, onM, mOnDb, zoom. rewrite Hg. by destruct a as [[] ? ? ?]. }
  unfold registerRequest. rewrite Hrun, Hst. case_decide as Hc.
  - intros req a1. rewrite bool_decide_true by done. cbn [negb]. intros Hr.
    apply bind_Ok_inv in Hr as (sg & a2 & _ & Hr). apply bind_Ok_inv in Hr as (sb & a3 & _ & Hr).
    apply bind_Ok_inv in Hr as (ad & a4 & _ & Hr). injection Hr as <- _. simpl.
    by rewrite bip340_of_pk, Hsk, Hkey, Hser.
  - by rewrite bool_decide_false by done.
Qed.

(** Registration: a provider that is not CREATED is refused and nothing
    changes. For a CREATED one, a success means that the chain accepted the
    registration, whose hash is returned, and that its stored status is
    REGISTERED, with every other record untouched; after an error the
    database is as before. *)
Lemma registration_outcome `{!KvdbReliable Db} str pk fp a o a' :
  store_wf (app_db a) → NewBIP340PubKeyFromHex str = Ok (SerializePubKey pk) →
  fp_lookup (app_db a) (SerializePubKey pk) = Some fp →
  RegisterFinalityProvider str a = (o, a') →
  (Status fp ≠ CREATED →
     o = Err (ErrorString "finality-provider is already registered") ∧ a' = a) ∧
  match o with
  | Ok resp =>
      updates (SerializePubKey pk) (fp_with_status REGISTERED fp) (app_db a) (app_db a') ∧
      re_btcPubKey resp = SerializePubKey pk ∧
      ∃ pk' pop c d w res w', cc_RegisterFinalityProvider pk' pop c d w = (Ok res, w') ∧
        SerializePubKey pk' = SerializePubKey pk ∧ re_TxHash resp = TxHash res
  | Err _ => app_db a' = app_db a
  | _ => True
  end.
Proof.
  intros Hwf Hhex Hl Hrun. pose proof (registerRequest_run str pk fp a Hwf Hhex Hl) as Hreq.
  split.
  { intros Hc. rewrite decide_False in Hreq by done. unfold RegisterFinalityProvider in Hrun.
    rewrite (bind_Err _ _ _ _ _ Hreq) in Hrun. by injection Hrun as <- <-. }
  unfold RegisterFinalityProvider in Hrun. unfold mbind at 1, M_bind at 1 in Hrun.
  pose proof (same_db_request str a) as Hd1.
  destruct (registerRequest str a) as [[req|e|msg|] a1] eqn:Ereq; simpl in Hd1;
    [|by injection Hrun as <- <-..].
  case_decide; [|done]. specialize (Hreq _ _ eq_refl).
  unfold mbind at 1, M_bind at 1 in Hrun. pose proof (same_db_handleRegister req a1) as Hd2.
  destruct (handleRegister req a1) as [[res|e|msg|] a2] eqn:Ereg; simpl in Hd2;
    [|injection Hrun as <- <-; (done || by transitivity (app_db a1))..].
  assert (app_db a2 = app_db a) as Hd by (by transitivity (app_db a1)).
  unfold handleRegistered in Hrun. rewrite Hreq in Hrun.
  destruct (must_to_btc_pk pk) as (pk' & Hpk & Hser).
  rewrite (bind_Ok _ _ _ pk' a2) in Hrun by (unfold lift; by rewrite Hpk).
  unfold mbind at 1, M_bind at 1, attempt at 1 in Hrun.
  destruct (appDb (SetFpStatus pk' REGISTERED) a2) as [[[]|e|msg|] a3] eqn:Eset;
    simpl in Hrun; [|by injection Hrun as <- <-..].
  injection Hrun as <- <-. simpl. rewrite <-Hser in *. rewrite <-Hd in Hwf, Hl.
  pose proof (set_status_updates _ _ _ _ _ Hwf Hl Eset) as Hup.
  split_and!; [by rewrite <-Hd|done|].
  unfold handleRegister in Ereg. apply bind_Ok_inv in Ereg as (pb & b1 & _ & Ereg).
  apply bind_Ok_inv in Ereg as (db & b2 & _ & Ereg). apply bind_Ok_inv in Ereg as (k & b3 & Hk & Ereg).
  injection Hk as Hk <-. rewrite Hreq, Hpk in Hk. injection Hk as <-.
  unfold appW, onM, mOnW in Ereg. apply zoom_inv in Ereg as (m' & Ereg & _).
  apply zoom_inv in Ereg as (w' & Ereg & _). eauto 12.
Qed.

(** *** Unjailing *)

(** Unjailing: a success means that the chain accepted the unjail
    transaction, whose hash is returned, and that the stored status is
    INACTIVE whatever it was before, SLASHED included, with every other
    record untouched; after an error the database is as before. *)
Theorem unjail_spec pk fp a o a' :
  store_wf (app_db a) → fp_lookup (app_db a) (SerializePubKey pk) = Some fp →
  app_UnjailFinalityProvider (SerializePubKey pk) a = (o, a') →
  match o with
  | Ok hash =>
      updates (SerializePubKey pk) (fp_with_status INACTIVE fp) (app_db a) (app_db a') ∧
      ∃ pk' w res w', cc_UnjailFinalityProvider pk' w = (Ok res, w') ∧
        SerializePubKey pk' = SerializePubKey pk ∧ hash = TxHash res
  | Err _ => app_db a' = app_db a
  | _ => True
  end.
Proof.
  intros Hwf Hl Hrun. unfold app_UnjailFinalityProvider in Hrun.
  destruct (must_to_btc_pk pk) as (pk' & Hpk & Hser). rewrite <-Hser in *.
  rewrite (bind_Ok _ _ _ pk' a) in Hrun by (unfold lift; by rewrite Hpk).
  assert (frame same_db (wrapping "failed to get finality provider from db: "
            (_ ← appDb (GetFinalityProvider pk'); mret tt) : AP unit)) as Hf by frame_auto.
  unfold mbind at 1, M_bind at 1 in Hrun. specialize (Hf a).
  destruct (wrapping _ _ a) as [[[]|e|msg|] a1]; simpl in Hf; [|by injection Hrun as <- <-..].
  unfold mbind at 1, M_bind at 1, wrapping at 1 in Hrun.
  destruct (appW (cc_UnjailFinalityProvider pk') a1) as [o1 a2] eqn:Ew.
  pose proof (same_db_appW (cc_UnjailFinalityProvider pk') a1) as Hf2. rewrite Ew in Hf2. simpl in Hf2.
  assert (app_db a2 = app_db a) as Hd by (by transitivity (app_db a1)).
  destruct o1 as [res|e|msg|]; [|by injection Hrun as <- <-..].
  unfold mbind at 1, M_bind at 1, wrapping in Hrun.
  destruct (appDb (SetFpStatus pk' INACTIVE) a2) as [o2 a3] eqn:Es.
  destruct o2 as [[]|e|msg|]; [|injection Hrun as <- <-; rewrite <-?Hd; by eapply appDb_not_Ok|
                                 by injection Hrun as <- <-..].
  injection Hrun as <- <-. rewrite <-Hd in Hwf, Hl.
  pose proof (set_status_updates _ _ _ _ _ Hwf Hl Es) as Hup. rewrite Hd in Hup. split; [done|].
  unfold appW, onM, mOnW in Ew. apply zoom_inv in Ew as (m' & Ew & _).
  apply zoom_inv in Ew as (w' & Ew & _). eauto 10.
Qed.

(** *** Creation *)

Lemma create_updates addr pk d c kn ci sig db db' :
  store_wf db → CreateFinalityProvider addr pk d c kn ci sig db = (Ok tt, db') →
  store_wf db' ∧ fp_lookup db (SerializePubKey pk) = None ∧
  ∃ des, Description_Marshal d = Ok des ∧
    updates (SerializePubKey pk) (created addr pk c kn ci sig des) db db'.
Proof.
  intros Hwf Hc. pose proof (create_wf addr pk d c kn ci sig db Hwf) as Hwf'. rewrite Hc in Hwf'.
  rewrite create_run in Hc. destruct (Description_Marshal d) as [b| | |] eqn:Ed; try done.
  apply create_internal_inv in Hc as [Hn Hsave]. split; [done|]. split; [by apply get_None_lookup|].
  exists b. split; [done|]. intros k'.
  by rewrite (save_lookup _ _ _ k' ltac:(by eapply created_valid) Hsave).
Qed.

Lemma create_Err addr pk d c kn ci sig (db : Db) e db' :
  CreateFinalityProvider addr pk d c kn ci sig db = (Err e, db') → db' = db.
Proof.
  rewrite create_run. destruct (Description_Marshal d); intros Hr; try (by injection Hr as _ <-); try done.
  by eapply batch_not_Ok.
Qed.

Lemma saveNewProvider_spec `{!KvdbReliable Db} kn pp ci addr uid d c pe a o a' :
  store_wf (app_db a) → saveNewProvider kn pp ci addr uid d c pe a = (o, a') →
  match o with
  | Ok sfp =>
      ∃ pk sig des, MustToBTCPK uid = Ok pk ∧ fp_lookup (app_db a) (SerializePubKey pk) = None ∧
        Description_Marshal d = Ok des ∧ stored_of (created addr pk c kn ci sig des) sfp ∧
        updates (SerializePubKey pk) (created addr pk c kn ci sig des) (app_db a) (app_db a')
  | Err _ => app_db a' = app_db a
  | _ => True
  end.
Proof.
  intros Hwf Hrun. unfold saveNewProvider in Hrun.
  unfold mbind at 1, M_bind at 1, lift in Hrun.
  destruct (MustMarshal uid) as [ub| | |]; [|by injection Hrun as <- <-..].
  unfold mbind at 1, M_bind at 1 in Hrun.
  assert (frame same_db (wrapping "failed to get finality-provider record: " (appE (em_KeyRecord ub pp)) : AP _)) as Hf
    by frame_auto.
  specialize (Hf a). destruct (wrapping _ _ a) as [[rc|e|msg|] a1]; simpl in Hf; [|by injection Hrun as <- <-..].
  unfold mbind at 1, M_bind at 1, wrapping at 1 in Hrun.
  destruct (CreatePop addr (kr_PrivKey rc)) as [sig| | |]; [|by injection Hrun as <- <-..].
  unfold mbind at 1, M_bind at 1 in Hrun.
  destruct (MustToBTCPK uid) as [pk| | |] eqn:Epk; [|by injection Hrun as <- <-..].
  unfold mbind at 1, M_bind at 1, wrapping in Hrun.
  destruct (appDb (CreateFinalityProvider addr pk d c kn ci sig) a1) as [o2 a2] eqn:Ec.
  apply appDb_inv in Ec as (Ec & _ & _). rewrite <-Hf in Hwf.
  destruct o2 as [[]|e|msg|]; [| |by injection Hrun as <- <-..].
  - destruct (create_updates _ _ _ _ _ _ _ _ _ Hwf Ec) as (Hwf2 & Hn & des & Hdes & Hup).
    rewrite (bind_Ok _ _ _ tt (appFm (RecordFpStatus (MarshalHex uid) CREATED) a2).2) in Hrun by reflexivity.
    destruct (get_stored pk (app_db a2) (created addr pk c kn ci sig des) Hwf2) as (sfp & Hg & Hs).
    { rewrite Hup. by rewrite decide_True. }
    apply appDb_inv in Hrun as (Hrun & _ & _).
    rewrite (same_db_appFm (RecordFpStatus (MarshalHex uid) CREATED) a2) in Hrun.
    rewrite Hg in Hrun. injection Hrun as <- <-. rewrite Hf in Hn, Hup. eauto 10.
  - injection Hrun as <- <-. by rewrite (create_Err _ _ _ _ _ _ _ _ _ _ Ec).
Qed.

Lemma same_db_chainKeyAddress req : frame same_db (chainKeyAddress req : AP bytes).
Proof. unfold chainKeyAddress. frame_auto. Qed.

Lemma same_db_eotsKey req : frame same_db (eotsKey req : AP bytes).
Proof. unfold eotsKey, newEotsKey. frame_auto. Qed.

Definition new_provider a a' addr pk c kn ci sig des : Prop :=
  fp_lookup (app_db a) (SerializePubKey pk) = None ∧
  updates (SerializePubKey pk) (created addr pk c kn ci sig des) (app_db a) (app_db a').

(** Creation: the request to create a finality provider either fails and
    leaves the database as it was (keys it made on the way stay), or adds
    exactly one record, under a key that had none, with status CREATED,
    heights 0 and the description, commission, key name and chain of the
    request, and answers with that record. *)
Lemma creation_outcome `{!KvdbReliable Db} req a o a' :
  store_wf (app_db a) → handleCreateFinalityProviderRequest req a = (o, a') →
  match o with
  | Ok info =>
      ∃ addr pk sig des sfp, Description_Marshal (cr_description req) = Ok des ∧
        new_provider a a' addr pk (cr_commission req) (cr_keyName req) (cr_chainID req) sig des ∧
        (∀ uid, cr_eotsPk req = Some uid → MustToBTCPK uid = Ok pk) ∧
        stored_of (created addr pk (cr_commission req) (cr_keyName req) (cr_chainID req) sig des) sfp ∧
        info = ToFinalityProviderInfo sfp
  | Err _ => app_db a' = app_db a
  | _ => True
  end.
Proof.
  intros Hwf Hrun. unfold handleCreateFinalityProviderRequest in Hrun.
  unfold mbind at 1, M_bind at 1 in Hrun. pose proof (same_db_chainKeyAddress req a) as Hd1.
  destruct (chainKeyAddress req a) as [[addr|e|msg|] a1]; simpl in Hd1; [|by injection Hrun as <- <-..].
  unfold mbind at 1, M_bind at 1 in Hrun. pose proof (same_db_eotsKey req a1) as Hd2.
  destruct (eotsKey req a1) as [[uid|e|msg|] a3] eqn:Ek; simpl in Hd2;
    [|injection Hrun as <- <-; (done || by transitivity (app_db a1))..].
  assert (app_db a3 = app_db a) as Hd3 by (by transitivity (app_db a1)).
  unfold mbind at 1, M_bind at 1 in Hrun.
  destruct (saveNewProvider _ _ _ _ _ _ _ _ a3) as [o4 a4] eqn:Es.
  rewrite <-Hd3 in Hwf. apply saveNewProvider_spec in Es; [|done].
  destruct o4 as [sfp|e|msg|]; injection Hrun as <- <-; [|by rewrite Es|done|done].
  destruct Es as (pk & sig & des & Hpk & Hn & Hdes & Hs & Hup). rewrite Hd3 in Hn, Hup.
  exists addr, pk, sig, des, sfp. split_and!; [done|done| |done|done].
  intros u Hu. unfold eotsKey in Ek. rewrite Hu in Ek. by injection Ek as -> _.
Qed.

(** *** Synchronisation *)

(** The manager has an instance and it runs. *)
Definition running a : Prop := ∃ i, app_ins a = Some i ∧ IsRunning i = true.

Lemma StartFinalityProvider_Ok fuel pk pass (s s' : MSt W E Db) :
  StartFinalityProvider fuel pk pass s = (Ok tt, s') →
  ∃ i, fpm_fpIns (mst_m s') = Some i ∧ IsRunning i = true.
Proof.
  unfold StartFinalityProvider, startFinalityProviderInstance. intros Hrun.
  apply bind_Ok_inv in Hrun as ([] & s1 & _ & Hrun). apply bind_Ok_inv in Hrun as (m & s2 & _ & Hrun).
  apply bind_Ok_inv in Hrun as ([] & s3 & _ & Hrun). unfold onInstance in Hrun.
  destruct (fpm_fpIns (mst_m s3)) as [i|]; [|done].
  destruct (Start fuel (st_of i s3)) as [o t'] eqn:Es. injection Hrun as -> <-.
  apply Start_Ok_started in Es as [Hst _]. by exists (st_ins t').
Qed.

Lemma syncProvider_inv fuel vp fp a x a' :
  syncProvider fuel vp fp a = (Ok x, a') →
  (x = Some true ∧ running a') ∨ (x = None ∧ app_ins a' = app_ins a).
Proof.
  unfold syncProvider. intros Hrun. apply bind_Ok_inv in Hrun as (b & a1 & Hb & Hrun).
  injection Hb as Hb <-. destruct b.
  { injection Hrun as <- <-. left. split; [done|]. unfold IsFinalityProviderRunning in Hb.
    destruct (fpm_fpIns _) as [i|] eqn:Hi; [|done]. destruct (negb _); [done|]. by exists i. }
  apply bind_Ok_inv in Hrun as (st & a2 & (_ & Hi & _)%appDb_inv & Hrun).
  destruct (negb _); [injection Hrun as <- <-; by right|].
  apply bind_Ok_inv in Hrun as ([] & a3 & (m' & Hs & ->)%zoom_inv & Hrun). injection Hrun as <- <-.
  left. split; [done|]. by apply StartFinalityProvider_Ok in Hs.
Qed.

Lemma syncLoop_inv fuel latest fps run a r a' :
  syncLoop fuel latest fps run a = (Ok r, a') → (run = true → running a) →
  if r then running a' else run = false ∧ app_ins a' = app_ins a.
Proof.
  revert run a. induction fps as [|fp fps IH]; intros run a; cbn [syncLoop].
  { intros Hr Hrun. injection Hr as <- <-. destruct run; [by apply Hrun|done]. }
  intros Hr Hrun. apply bind_Ok_inv in Hr as (q & a1 & Hq & Hr).
  assert (app_ins a1 = app_ins a) as Hi.
  { change (app_ins a1) with (app_ins (Ok q, a1).2). rewrite <-Hq. unfold attempt, appW, onM, mOnW, zoom.
    by destruct (cc_QueryFinalityProviderVotingPower _ _ _) as [[] ?]. }
  assert (∀ vp, (x ← syncProvider fuel vp fp; syncLoop fuel latest fps (default run x)) a1 = (Ok r, a') →
            if r then running a' else run = false ∧ app_ins a' = app_ins a) as Hcont.
  { intros vp Hk. apply bind_Ok_inv in Hk as (x & a2 & Hx & Hk).
    apply syncProvider_inv in Hx as [[-> Hx]|[-> Hx]]; apply IH in Hk; simpl in *.
    - destruct r; [done|]. by destruct Hk.
    - by intros.
    - destruct r; [done|]. destruct Hk as [-> Hk]. split; [done|]. congruence.
    - intros ->. unfold running. rewrite Hx, Hi. by apply Hrun. }
  destruct q as [err|vp]; [|by eapply Hcont]. destruct (negb _); [|by eapply Hcont].
  apply IH in Hr; [|unfold running; by rewrite Hi]. destruct r; [done|]. by rewrite <-Hi.
Qed.

(** What the synchronisation reports: it answers true only when an
    instance is running after it, and false only when it started none, so
    the synchronisation loop ends exactly when an instance runs. *)
Theorem sync_reports_running fuel a r a' :
  SyncFinalityProviderStatus fuel a = (Ok r, a') →
  if r then ∃ i, fpm_fpIns (mst_m (app_m a')) = Some i ∧ IsRunning i = true
  else fpm_fpIns (mst_m (app_m a')) = fpm_fpIns (mst_m (app_m a)).
Proof.
  unfold SyncFinalityProviderStatus. intros Hrun.
  apply bind_Ok_inv in Hrun as (b & a1 & Hb & Hrun).
  assert (app_ins a1 = app_ins a) as Hi1.
  { unfold appW, onM, mOnW in Hb. by apply zoom_inv in Hb as (m & (w & _ & ->)%zoom_inv & ->). }
  apply bind_Ok_inv in Hrun as (fps & a2 & (_ & Hi2 & _)%appDb_inv & Hrun).
  apply syncLoop_inv in Hrun; [|done]. destruct r; [done|]. destruct Hrun as [_ Hi]. unfold app_ins in *.
  congruence.
Qed.

(** The synchronisation serves one provider: while an instance runs, a
    second stored provider that should start makes the synchronisation fail
    with an error about the first, so its loop never ends and the providers
    after it are not updated. *)
Theorem sync_serves_one_provider fuel latest fp fps run a i vp w' st db' :
  app_ins a = Some i → IsRunning i = true → GetBtcPkHex i ≠ MarshalHex (GetBIP340BTCPK fp) →
  cc_QueryFinalityProviderVotingPower (s_BtcPk fp) (Height latest) (mst_w (app_m a)) = (Ok vp, w') →
  UpdateFpStatusFromVotingPower vp fp (app_db a) = (Ok st, db') →
  ShouldStart (stored_with_status st fp) = true →
  (syncLoop fuel latest (fp :: fps) run a).1 =
    Err (ErrorString ("the finality-provider instance " +:+ GetBtcPkHex i +:+ " is already started")).
Proof.
  intros Hi Hr Hne Hq Hu Hs. cbn [syncLoop].
  set (a1 := set_m (mst_set_w w' (app_m a)) a).
  rewrite (bind_Ok _ _ _ (inr vp) a1) by (unfold attempt, appW, onM, mOnW, zoom; by rewrite Hq).
  set (a2 := set_m (mst_set_db db' (app_m a1)) a1).
  assert ((syncProvider fuel vp fp a1).1 =
    Err (ErrorString ("the finality-provider instance " +:+ GetBtcPkHex i +:+ " is already started"))) as He.
  { unfold syncProvider. rewrite (bind_Ok _ _ _ false a1).
    2: { unfold gets. do 2 f_equal. unfold IsFinalityProviderRunning. simpl.
         unfold app_ins in Hi. rewrite Hi. by rewrite bool_decide_false. }
    rewrite (bind_Ok _ _ _ st a2) by (unfold appDb, onM, mOnDb, zoom, a2, a1; simpl;
      unfold app_db in Hu; by rewrite Hu).
    rewrite Hs. cbn [negb].
    assert ((onM (StartFinalityProvider fuel (GetBIP340BTCPK fp) "") a2).1 =
      Err (ErrorString ("the finality-provider instance " +:+ GetBtcPkHex i +:+ " is already started"))) as He.
    { unfold onM, zoom. simpl. unfold StartFinalityProvider, startFinalityProviderInstance, mbind, M_bind,
        onMgr, modify, mgr, gets, onInstance. simpl. unfold app_ins in Hi. rewrite Hi. simpl. rewrite Hi. simpl.
      by rewrite started_Start. }
    destruct (onM _ a2) as [o3 a3] eqn:E3. simpl in He. subst o3. by rewrite (bind_Err _ _ _ _ _ E3). }
  destruct (syncProvider fuel vp fp a1) as [o2 a3] eqn:E2. simpl in He. subst o2.
  by rewrite (bind_Err _ _ _ _ _ E2).
Qed.
End theorems.
