(* ===== verification/AppLoops.v ===== *)
(** * AppLoops: the channels of the application

    Models the concurrency of [src/finality-provider/service/app.go]: clients
    that send a request through an unbuffered channel and wait for the answer
    in a buffered one, [eventLoop] and [registrationLoop] with their quit
    channel, and [Stop], which closes it and waits for the loops. A turn of a
    loop is atomic; its handler is the one of [App]. A turn whose handler ends
    the process is not a step. The loops that only tick are in [AppTickers]. *)

From stdpp Require Import base gmap list relations strings.
From Stdlib Require Import ZArith Lia.
From S2P Require Import Prelude Errors Monad Types Kvdb FpStore PubRandStore Metrics EotsManager.
From S2P Require Import Config ClientController Babylon Poller FpState Voting FastSync FpInstance.
From S2P Require Import FpManager ChainKeyring App.

Section AppLoops.
Context `{Crypto} `{Codec} `{BbnErrors} `{RetryGo} `{AppTypes}.
Context {W E Db KR Rnd : Type} `{!ClientController W} `{!Env W} `{!EOTSManager E} `{!Kvdb Db}.
Context `{!Keyring KR} `{!ChainKeys KR} `{!Bip39 Rnd}.

Abbreviation app := (FinalityProviderApp W E Db KR Rnd).

Inductive request :=
  | ReqCreate (r : CreateFinalityProviderRequest)
  | ReqRegister (r : RegisterFinalityProviderRequest).

Inductive response :=
  | RespCreated (info : FinalityProviderInfo)
  | RespRegistered (r : RegisterFinalityProviderResponse)
  | RespErr (e : error).

(** A caller of [CreateFinalityProvider] or [RegisterFinalityProvider]: at the
    send, at the select with what is in its response channels, or back *)
Inductive client :=
  | Sending (q : request)
  | Awaiting (q : request) (r : option response)
  | Returned (q : request) (r : response).

(** [finalityProviderRegisteredEvent], with the caller whose response channel
    it carries *)
Record registeredEvent := mkRegisteredEvent {
  re_client : nat;
  ev_btcPubKey : bytes;
  ev_bbnAddress : bytes;
  ev_txHash : string;
}.

Inductive reg_pc := RegSelect | RegSending (ev : registeredEvent) | RegExited.
Inductive stop_pc := NotStopped | WaitingForLoops | LoopsStopped.

Record loops := mkLoops {
  lp_app : app;
  lp_quit : bool;
  lp_event : bool;                     (* eventLoop is at its select *)
  lp_reg : reg_pc;
  lp_clients : gmap nat client;
  lp_stop : stop_pc;
}.

Definition shuttingDown : error := ErrorString "finality-provider app is shutting down".

Definition with_client (i : nat) (c : client) (s : loops) : loops :=
  mkLoops (lp_app s) (lp_quit s) (lp_event s) (lp_reg s) (<[i := c]> (lp_clients s)) (lp_stop s).
Definition with_app (a : app) (s : loops) : loops :=
  mkLoops a (lp_quit s) (lp_event s) (lp_reg s) (lp_clients s) (lp_stop s).
Definition with_reg (pc : reg_pc) (s : loops) : loops :=
  mkLoops (lp_app s) (lp_quit s) (lp_event s) pc (lp_clients s) (lp_stop s).

Inductive lp_step : loops → loops → Prop :=
  (* a new call *)
  | step_call s i q : lp_clients s !! i = None → lp_step s (with_client i (Sending q) s)
  (* eventLoop serves a request to create *)
  | step_create s i r info a' :
      lp_event s = true → lp_clients s !! i = Some (Sending (ReqCreate r)) →
      handleCreateFinalityProviderRequest r (lp_app s) = (Ok info, a') →
      lp_step s (with_client i (Awaiting (ReqCreate r) (Some (RespCreated info))) (with_app a' s))
  | step_create_err s i r e a' :
      lp_event s = true → lp_clients s !! i = Some (Sending (ReqCreate r)) →
      handleCreateFinalityProviderRequest r (lp_app s) = (Err e, a') →
      lp_step s (with_client i (Awaiting (ReqCreate r) (Some (RespErr e))) (with_app a' s))
  (* registrationLoop serves a request to register *)
  | step_register s i r res a' :
      lp_reg s = RegSelect → lp_clients s !! i = Some (Sending (ReqRegister r)) →
      handleRegister r (lp_app s) = (Ok res, a') →
      lp_step s
        (with_reg (RegSending (mkRegisteredEvent i (rr_btcPubKey r) (rr_fpAddr r) (TxHash res)))
           (with_client i (Awaiting (ReqRegister r) None) (with_app a' s)))
  | step_register_err s i r e a' :
      lp_reg s = RegSelect → lp_clients s !! i = Some (Sending (ReqRegister r)) →
      handleRegister r (lp_app s) = (Err e, a') →
      lp_step s (with_client i (Awaiting (ReqRegister r) (Some (RespErr e))) (with_app a' s))
  (* registrationLoop hands the event to eventLoop, which serves it *)
  | step_registered s ev resp a' :
      lp_event s = true → lp_reg s = RegSending ev →
      handleRegistered (ev_btcPubKey ev) (ev_bbnAddress ev) (ev_txHash ev) (lp_app s) = (Ok resp, a') →
      lp_step s
        (with_reg RegSelect
           (match lp_clients s !! re_client ev with
            | Some (Awaiting q None) =>
                with_client (re_client ev) (Awaiting q (Some (RespRegistered resp))) (with_app a' s)
            | _ => with_app a' s           (* the caller has left *)
            end))
  (* the select of a caller *)
  | step_answer s i q r :
      lp_clients s !! i = Some (Awaiting q (Some r)) → lp_step s (with_client i (Returned q r) s)
  | step_shutdown s i q r :
      lp_quit s = true → lp_clients s !! i = Some (Awaiting q r) →
      lp_step s (with_client i (Returned q (RespErr shuttingDown)) s)
  (* Stop closes quit; the loops leave from their selects *)
  | step_stop s :
      lp_quit s = false → lp_stop s = NotStopped →
      lp_step s (mkLoops (lp_app s) true (lp_event s) (lp_reg s) (lp_clients s) WaitingForLoops)
  | step_event_quit s :
      lp_quit s = true → lp_event s = true →
      lp_step s (mkLoops (lp_app s) (lp_quit s) false (lp_reg s) (lp_clients s) (lp_stop s))
  | step_reg_quit s : lp_quit s = true → lp_reg s = RegSelect → lp_step s (with_reg RegExited s)
  | step_stopped s :
      lp_stop s = WaitingForLoops → lp_event s = false → lp_reg s = RegExited →
      lp_step s (mkLoops (lp_app s) (lp_quit s) (lp_event s) (lp_reg s) (lp_clients s) LoopsStopped).
End AppLoops.

(** ** Theorems *)

Section theorems.
Context `{Crypto} `{Codec} `{BbnErrors} `{RetryGo} `{AppTypes}.
Context {W E Db KR Rnd : Type} `{!ClientController W} `{!Env W} `{!EOTSManager E} `{!Kvdb Db}.
Context `{!Keyring KR} `{!ChainKeys KR} `{!Bip39 Rnd}.
Implicit Types (s t : loops (W := W) (E := E) (Db := Db) (KR := KR) (Rnd := Rnd)).

Lemma lookup_with_client i j c s :
  lp_clients (with_client i c s) !! j = if decide (i = j) then Some c else lp_clients s !! j.
Proof. simpl. by rewrite lookup_insert. Qed.

(** A caller that the loops have left behind stays at its send. *)
Lemma blocked_client_step s t i r :
  lp_event s = false → lp_reg s ≠ RegSelect → lp_clients s !! i = Some (Sending r) → lp_step s t →
  lp_event t = false ∧ lp_reg t = lp_reg s ∧ lp_clients t !! i = Some (Sending r).
Proof.
  intros He Hr Hi Hs. destruct Hs; try congruence; simpl;
    rewrite ?lookup_insert; (split_and!; [done|done|]); try case_decide; subst; congruence.
Qed.

Lemma blocked_reg_step s t ev :
  lp_event s = false → lp_reg s = RegSending ev → lp_step s t →
  lp_event t = false ∧ lp_reg t = RegSending ev ∧ (lp_stop t = LoopsStopped → lp_stop s = LoopsStopped).
Proof. intros He Hr Hs. destruct Hs; try congruence; simpl; split_and!; congruence. Qed.

(** C34: shutting down can hang: when [eventLoop] has left and
    [registrationLoop] holds a registration that the chain has accepted, no
    run of the application changes that: the loop stays at its send, [Stop]
    never gets past its wait, and every caller that is at a send stays there
    for ever, as its send is outside of the select on quit. *)
Theorem shutdown_hangs_on_registration s t ev :
  lp_event s = false → lp_reg s = RegSending ev → lp_stop s = WaitingForLoops → rtc lp_step s t →
  lp_reg t = RegSending ev ∧ lp_stop t ≠ LoopsStopped ∧
  ∀ i r, lp_clients s !! i = Some (Sending r) → lp_clients t !! i = Some (Sending r).
Proof.
  intros He Hr Hst Hsteps.
  assert (lp_event t = false ∧ lp_reg t = RegSending ev ∧ lp_stop t ≠ LoopsStopped ∧
          ∀ i r, lp_clients s !! i = Some (Sending r) → lp_clients t !! i = Some (Sending r)) as (_ & ? & ? & ?);
    [|done].
  assert (lp_stop s ≠ LoopsStopped) as Hn by congruence. clear Hst.
  induction Hsteps as [s|s u t Hs _ IH]; [done|].
  destruct (blocked_reg_step _ _ _ He Hr Hs) as (He' & Hr' & Hst').
  destruct IH as (? & ? & ? & Hc); [done|done|auto|]. split_and!; try done.
  intros i r Hi. apply Hc. apply (blocked_client_step s u i r He); [by rewrite Hr|done|done].
Qed.

(** Without a registration in flight the loops leave and [Stop] returns. *)
Lemma shutdown_completes s :
  lp_quit s = true → lp_reg s = RegSelect → lp_stop s = WaitingForLoops →
  ∃ t, rtc lp_step s t ∧ lp_stop t = LoopsStopped ∧ lp_app t = lp_app s ∧ lp_clients t = lp_clients s.
Proof.
  intros Hq Hr Hst. destruct s as [a q e r c st]. simpl in *. subst.
  exists (mkLoops a true false RegExited c LoopsStopped). split; [|done].
  destruct e.
  - eapply rtc_l; [by apply step_event_quit|]. eapply rtc_l; [by apply step_reg_quit|].
    eapply rtc_l; [by apply step_stopped|]. done.
  - eapply rtc_l; [by apply step_reg_quit|]. eapply rtc_l; [by apply step_stopped|]. done.
Qed.

(** *** Every answer is to its own request *)

(** [r] is what a handler answers to the request [q]. *)
Definition answers (q : request) (r : response) : Prop :=
  match q, r with
  | ReqCreate q, RespCreated info =>
      ∃ a a' : FinalityProviderApp W E Db KR Rnd, handleCreateFinalityProviderRequest q a = (Ok info, a')
  | ReqCreate q, RespErr e =>
      ∃ a a' : FinalityProviderApp W E Db KR Rnd, handleCreateFinalityProviderRequest q a = (Err e, a')
  | ReqRegister q, RespRegistered resp =>
      ∃ (a a' b b' : FinalityProviderApp W E Db KR Rnd) res, handleRegister q a = (Ok res, a') ∧
        handleRegistered (rr_btcPubKey q) (rr_fpAddr q) (TxHash res) b = (Ok resp, b')
  | ReqRegister q, RespErr e =>
      ∃ a a' : FinalityProviderApp W E Db KR Rnd, handleRegister q a = (Err e, a')
  | _, _ => False
  end.

Definition own_answer (c : client) : Prop :=
  match c with
  | Awaiting q (Some r) => answers q r
  | Returned q r => r = RespErr shuttingDown ∨ answers q r
  | _ => True
  end.

(** The event in flight is that of an accepted registration, and its caller
    waits for it or has left because of the shutdown. *)
Definition event_inv s : Prop :=
  ∀ ev, lp_reg s = RegSending ev →
    ∃ q (a a' : FinalityProviderApp W E Db KR Rnd) res, handleRegister q a = (Ok res, a') ∧
      ev = mkRegisteredEvent (re_client ev) (rr_btcPubKey q) (rr_fpAddr q) (TxHash res) ∧
      (lp_clients s !! re_client ev = Some (Awaiting (ReqRegister q) None) ∨
       lp_clients s !! re_client ev = Some (Returned (ReqRegister q) (RespErr shuttingDown))).

Definition loops_inv s : Prop := map_Forall (λ _, own_answer) (lp_clients s) ∧ event_inv s.

(** The event of another caller is not affected by a change of one. *)
Lemma event_inv_insert i c s t :
  event_inv s → lp_reg t = lp_reg s → lp_clients t = <[i := c]> (lp_clients s) →
  (∀ q, lp_clients s !! i = Some (Awaiting (ReqRegister q) None) →
        c = Returned (ReqRegister q) (RespErr shuttingDown)) →
  (∀ q, lp_clients s !! i = Some (Returned (ReqRegister q) (RespErr shuttingDown)) →
        c = Returned (ReqRegister q) (RespErr shuttingDown)) →
  event_inv t.
Proof.
  intros Hinv Hr Hc Ha Hb ev Hev. rewrite Hr in Hev.
  destruct (Hinv _ Hev) as (q & a & a' & res & Hq & He & Hcl). exists q, a, a', res. do 2 (split; [done|]).
  rewrite Hc, lookup_insert. case_decide; [subst i|done].
  destruct Hcl as [Hcl|Hcl]; [rewrite (Ha _ Hcl)|rewrite (Hb _ Hcl)]; by right.
Qed.

Lemma loops_inv_step s t : loops_inv s → lp_step s t → loops_inv t.
Proof.
  intros [Hown Hev] Hs.
  assert (∀ i c, lp_clients s !! i = Some c → own_answer c) as Hlook by (intros i c; apply Hown).
  destruct Hs as [s i q Hn|s i r info a' He Hi Hh|s i r e a' He Hi Hh|s i r res a' Hr Hi Hh|
    s i r e a' Hr Hi Hh|s ev resp a' He Hr Hh|s i q r Hi|s i q r Hq Hi|s Hq Hst|s Hq He|s Hq Hr|s Hst He Hr].
  - split; [by apply map_Forall_insert_2|]. eapply (event_inv_insert i); try done; congruence.
  - split; [apply map_Forall_insert_2; [by exists (lp_app s), a'|done]|].
    eapply (event_inv_insert i _ s); try done; congruence.
  - split; [apply map_Forall_insert_2; [by exists (lp_app s), a'|done]|].
    eapply (event_inv_insert i _ s); try done; congruence.
  - split; [by apply map_Forall_insert_2|]. intros ev [= <-]. simpl.
    exists r, (lp_app s), a', res. split_and!; [done|done|left]. by rewrite lookup_insert_eq.
  - split; [apply map_Forall_insert_2; [by exists (lp_app s), a'|done]|].
    eapply (event_inv_insert i _ s); try done; congruence.
  - destruct (Hev _ Hr) as (q & a & a1 & res & Hq & Heq & Hcl).
    destruct Hcl as [Hcl|Hcl]; rewrite Hcl; (split; [|by intros ev' [=]]); simpl; [|done].
    apply map_Forall_insert_2; [|done]. rewrite Heq in Hh. by exists a, a1, (lp_app s), a', res.
  - split; [apply map_Forall_insert_2; [right; by apply (Hlook _ _ Hi)|done]|].
    eapply (event_inv_insert i); try done; congruence.
  - split; [apply map_Forall_insert_2; [by left|done]|].
    eapply (event_inv_insert i); try done; congruence.
  - by split.
  - by split.
  - split; [done|]. by intros ev [=].
  - by split.
Qed.

Lemma returned_final s t i q r :
  rtc lp_step s t → lp_clients s !! i = Some (Returned q r) → lp_clients t !! i = Some (Returned q r).
Proof.
  induction 1 as [s|s u t Hs _ IH]; [done|]. intros Hi. apply IH. clear IH.
  destruct Hs; simpl; rewrite ?lookup_insert; try done; try (case_decide; simplify_eq; congruence).
  destruct (lp_clients s !! re_client ev) as [[|? []|]|] eqn:Ec; simpl; try done.
  rewrite lookup_insert. case_decide; congruence.
Qed.

(** C23: in every interleaving of calls, turns of the loops and a shutdown, a
    caller that has returned got the error of the shutdown or what a handler
    answered to its own request (for a registration, what was recorded after
    the chain accepted that request), and that answer is final. *)
Theorem answers_are_own s t u i q r :
  lp_clients s = ∅ → lp_reg s = RegSelect → rtc lp_step s t → rtc lp_step t u →
  lp_clients t !! i = Some (Returned q r) →
  (r = RespErr shuttingDown ∨ answers q r) ∧ lp_clients u !! i = Some (Returned q r).
Proof.
  intros Hc Hr Hst Htu Hi. split; [|by eapply returned_final].
  assert (loops_inv s) as Hinv.
  { split; [rewrite Hc; apply map_Forall_empty|]. intros ev. by rewrite Hr. }
  assert (loops_inv t) as [Hown _]; [|by apply (Hown _ _ Hi)].
  clear Hc Hr Hi Htu. induction Hst as [|s v t Hs _ IH]; [done|]. apply IH. by eapply loops_inv_step.
Qed.
End theorems.
