(* ===== verification/AppTickers.v ===== *)
(** * AppTickers: the loops of the application that tick

    Models [syncChainFpStatusLoop] and [metricsUpdateLoop] of
    [src/finality-provider/service/app.go] from the ticker they make to their
    return. The cases their selects take are a list; a turn is the one of
    [App]. *)

From stdpp Require Import base gmap list strings.
From Stdlib Require Import ZArith Lia.
From S2P Require Import Prelude Errors Monad Types Kvdb FpStore PubRandStore Metrics EotsManager.
From S2P Require Import Config ClientController Babylon Poller FpState Voting FastSync FpInstance.
From S2P Require Import FpManager ChainKeyring App.

(** The case a select takes: the ticker or the quit channel *)
Inductive select_case := CaseTick | CaseQuit.

(** Where a loop is after the cases: it has returned after its turn, it has
    returned for quit, or it is at its select. *)
Inductive loop_state := DoneByTurn | DoneByQuit | AtSelect.

#[global] Instance select_case_eq_dec : EqDecision select_case.
Proof. solve_decision. Defined.
#[global] Instance loop_state_eq_dec : EqDecision loop_state.
Proof. solve_decision. Defined.

Section AppTickers.
Context `{Crypto} `{Codec} `{BbnErrors} `{RetryGo} `{AppTypes}.
Context {W E Db KR Rnd : Type} `{!ClientController W} `{!Env W} `{!EOTSManager E} `{!Kvdb Db}.
Context `{!Keyring KR} `{!ChainKeys KR} `{!Bip39 Rnd}.

Abbreviation AP := (M (FinalityProviderApp W E Db KR Rnd)).

(** The [for] with the [select]: a turn that answers true returns. *)
Fixpoint ticks (turn : AP bool) (cs : list select_case) : AP loop_state :=
  match cs with
  | [] => mret AtSelect
  | CaseQuit :: _ => mret DoneByQuit
  | CaseTick :: cs =>
      b ← turn;
      if (b : bool) then mret DoneByTurn else ticks turn cs
  end.

Definition syncChainFpStatusLoop (fuel : nat) (cs : list select_case) : AP loop_state :=
  cfg ← gets (λ a, fpm_config (mst_m (app_m a)));
  NewTicker (SyncFpStatusInterval cfg) ;;
  ticks (syncTick fuel) cs.

Definition metricsUpdateLoop (cs : list select_case) : AP loop_state :=
  cfg ← gets (λ a, fpm_config (mst_m (app_m a)));
  match Metrics cfg with
  | None => fatal "nil pointer dereference"
  | Some m =>
      NewTicker (mc_UpdateInterval m) ;;
      ticks (metricsTick ;; mret false) cs
  end.
End AppTickers.

(** ** Theorems *)

Section theorems.
Context `{CryptoLaws} `{CodecLaws} `{BbnErrors} `{RetryGoLaws} `{AppTypes}.
Context {W E Db KR Rnd : Type} `{!ClientController W} `{!ClientControllerLaws W} `{!Env W}.
Context `{!EOTSManager E} `{!EOTSManagerLaws E} `{!Kvdb Db} `{!KvdbLaws Db}.
Context `{!Keyring KR} `{!ChainKeys KR} `{!Bip39 Rnd}.
Implicit Types (a : FinalityProviderApp W E Db KR Rnd).

Abbreviation AP := (M (FinalityProviderApp W E Db KR Rnd)).

(** *** The synchronisation of statuses *)

Lemma syncTick_true fuel a a' : syncTick fuel a = (Ok true, a') → running a'.
Proof.
  unfold syncTick. intros Hrun. apply bind_Ok_inv in Hrun as (r & a1 & Hr & Hrun). injection Hrun as Hb <-.
  destruct r as [e|b]; [done|]. subst b. unfold attempt in Hr.
  destruct (SyncFinalityProviderStatus fuel a) as [[b|?| |] a2] eqn:Es; try done.
  injection Hr as -> <-. exact (sync_reports_running _ _ _ _ Es).
Qed.

(** The loop returns by itself only when the manager has an instance that
    counts as running. *)
Lemma sync_loop_returns_running fuel cs a a' :
  syncChainFpStatusLoop fuel cs a = (Ok DoneByTurn, a') → running a'.
Proof.
  unfold syncChainFpStatusLoop. intros Hrun. apply bind_Ok_inv in Hrun as (cfg & a1 & _ & Hrun).
  apply bind_Ok_inv in Hrun as ([] & a2 & _ & Hrun). revert a2 Hrun.
  induction cs as [|[] cs IH]; intros a2 Hrun; [done| |done]. simpl in Hrun.
  apply bind_Ok_inv in Hrun as (b & a3 & Hb & Hrun). destruct b; [|by eapply IH].
  injection Hrun as <-. by eapply syncTick_true.
Qed.

(** An instance of the only provider of the store counts as running: a turn
    ends the loop and leaves the manager as it is. *)
Lemma syncTick_sees_instance fuel a i fp b w1 vp w2 :
  app_ins a = Some i → IsRunning i = true → GetBtcPkHex i = MarshalHex (GetBIP340BTCPK fp) →
  GetAllStoredFinalityProviders (app_db a) = (Ok [fp], app_db a) →
  cc_QueryBestBlock (mst_w (app_m a)) = (Ok b, w1) →
  cc_QueryFinalityProviderVotingPower (s_BtcPk fp) (Height b) w1 = (Ok vp, w2) →
  ∃ a', syncTick fuel a = (Ok true, a') ∧ mst_m (app_m a') = mst_m (app_m a).
Proof.
  intros Hi Hr Hpk Hall Hb Hvp. set (a1 := set_m (mst_set_w w1 (app_m a)) a).
  set (a2 := set_m (mst_set_db (app_db a) (app_m a1)) a1). set (a3 := set_m (mst_set_w w2 (app_m a2)) a2).
  exists a3. split; [|done]. unfold syncTick. rewrite (bind_Ok _ _ _ (inr true) a3); [done|]. unfold attempt.
  enough (SyncFinalityProviderStatus fuel a = (Ok true, a3)) as -> by done.
  unfold SyncFinalityProviderStatus.
  rewrite (bind_Ok _ _ _ b a1) by (unfold appW, onM, mOnW, zoom; by rewrite Hb).
  rewrite (bind_Ok _ _ _ [fp] a2) by (unfold appDb, onM, mOnDb, zoom;
    change (mst_db (app_m a1)) with (app_db a); by rewrite Hall).
  cbn [syncLoop]. rewrite (bind_Ok _ _ _ (inr vp) a3)
    by (unfold attempt, appW, onM, mOnW, zoom; simpl; by rewrite Hvp).
  rewrite (bind_Ok _ _ _ (Some true) a3); [done|]. unfold syncProvider.
  rewrite (bind_Ok _ _ _ true a3); [done|]. unfold gets. do 2 f_equal. unfold IsFinalityProviderRunning. simpl.
  unfold app_ins in Hi. by rewrite Hi, bool_decide_true.
Qed.

(** C38: a failed start ends the synchronisation of statuses although nothing
    runs: when the start of the only stored provider fails after its instance
    was created, the next turn of [syncChainFpStatusLoop] that reaches the chain
    takes the instance for a running one and returns, whatever the ticker does
    later; the manager is left with that instance, which never got a poller. *)
Theorem failed_start_ends_sync fuel pk pass cs a a1 e i fp b w1 vp w2 :
  app_ins a = None → onM (StartFinalityProvider fuel pk pass) a = (Err e, a1) → app_ins a1 = Some i →
  (0 < SyncFpStatusInterval (fpm_config (mst_m (app_m a1))))%Z →
  GetBtcPkHex i = MarshalHex (GetBIP340BTCPK fp) →
  GetAllStoredFinalityProviders (app_db a1) = (Ok [fp], app_db a1) →
  cc_QueryBestBlock (mst_w (app_m a1)) = (Ok b, w1) →
  cc_QueryFinalityProviderVotingPower (s_BtcPk fp) (Height b) w1 = (Ok vp, w2) →
  ∃ a2, syncChainFpStatusLoop fuel (CaseTick :: cs) a1 = (Ok DoneByTurn, a2) ∧
    app_ins a2 = Some i ∧ IsRunning i = true ∧ i_poller i = None.
Proof.
  intros Hn Hs Hi Hiv Hpk Hall Hb Hvp. apply zoom_inv in Hs as (m1 & Hs & ->).
  destruct (failed_start_instance _ _ _ _ _ _ Hn Hs) as [Hi'|(i' & Hi' & Hst & Hp)];
    unfold app_ins in Hi; simpl in Hi; rewrite Hi' in Hi; [done|]. injection Hi as ->.
  set (a1 := set_m m1 a) in *.
  destruct (syncTick_sees_instance fuel a1 i fp b w1 vp w2) as (a2 & Ht & Hm); [done..|].
  exists a2. unfold app_ins. rewrite Hm. split_and!; [|done..].
  unfold syncChainFpStatusLoop, NewTicker. unfold gets, mbind at 1, M_bind at 1, mbind at 1, M_bind at 1.
  destruct (Z.leb_spec (SyncFpStatusInterval (fpm_config (mst_m (app_m a1)))) 0); [lia|]. simpl.
  by rewrite (bind_Ok _ _ _ true a2).
Qed.

(** *** The export of metrics *)

(** Everything but the clock and the metrics is the same. *)
Definition same_but_metrics a a' : Prop :=
  mst_m (app_m a') = mst_m (app_m a) ∧ app_db a' = app_db a ∧ mst_e (app_m a') = mst_e (app_m a) ∧
  mst_signed (app_m a') = mst_signed (app_m a) ∧ app_kr a' = app_kr a ∧
  app_started a' = app_started a ∧ app_stopped a' = app_stopped a.

(** Every stored status is exported under the label of its provider. *)
Definition statuses_exported a : Prop :=
  ∀ k fp, fp_lookup (app_db a) k = Some fp →
    fpStatus (mst_fm (app_m a)) !! MarshalHex k = Some (status_number (Status fp)).

Lemma same_but_metrics_trans a1 a2 a3 :
  same_but_metrics a1 a2 → same_but_metrics a2 a3 → same_but_metrics a1 a3.
Proof. unfold same_but_metrics. intros. destruct_and!. split_and!; congruence. Qed.

Lemma fp_label_key sfp : fp_label sfp = MarshalHex (stored_key sfp).
Proof. unfold fp_label, GetBIP340BTCPK, stored_key. by rewrite bip340_of_pk. Qed.

Lemma exported_status db l now fm k fp :
  (∀ k, is_Some (fp_lookup db k) ↔ k ∈ stored_key <$> l) →
  (∀ sfp, sfp ∈ l → ∃ fp, fp_lookup db (stored_key sfp) = Some fp ∧ stored_of fp sfp) →
  fp_lookup db k = Some fp →
  fpStatus (UpdateFpMetrics now l fm) !! MarshalHex k = Some (status_number (Status fp)).
Proof.
  intros Hdom Hst Hk. rewrite UpdateFpMetrics_status.
  destruct (last _) as [x|] eqn:Hx.
  - apply last_Some_elem_of, list_elem_of_filter in Hx as [Hl Hx]. rewrite fp_label_key in Hl.
    apply marshal_hex_inj in Hl as <-. destruct (Hst x Hx) as (fp' & Hfp' & _ & _ & _ & _ & ->). congruence.
  - assert (k ∈ stored_key <$> l) as (x & -> & Hin)%list_elem_of_fmap by (apply Hdom; eauto).
    apply last_None in Hx. exfalso. apply (not_elem_of_nil x). rewrite <-Hx. apply list_elem_of_filter.
    by rewrite fp_label_key.
Qed.

Lemma metricsTick_run `{!KvdbReliable Db} a :
  store_wf (app_db a) → ∃ a', metricsTick a = (Ok tt, a') ∧ same_but_metrics a a' ∧ statuses_exported a'.
Proof.
  intros Hwf. destruct (reads_are_complete _ Hwf) as (_ & l & Hall & _ & Hdom & Hst).
  set (a1 := set_m (mst_set_db (app_db a) (app_m a)) a).
  set (a2 := set_m (mst_set_w (time_Now (mst_w (app_m a1))).2 (app_m a1)) a1).
  exists (appFm (UpdateFpMetrics (time_Now (mst_w (app_m a1))).1 l) a2).2. unfold metricsTick.
  rewrite (bind_Ok _ _ _ (inr l) a1) by (unfold attempt, appDb, onM, mOnDb, zoom;
    change (mst_db (app_m a)) with (app_db a); by rewrite Hall).
  rewrite (bind_Ok _ _ _ (time_Now (mst_w (app_m a1))).1 a2) by done.
  split_and!; [done..|]. intros k fp Hk. by apply (exported_status (app_db a)).
Qed.

Lemma metrics_ticks `{!KvdbReliable Db} cs a :
  store_wf (app_db a) →
  ∃ a', ticks (metricsTick ;; mret false : AP bool) cs a =
          (Ok (if decide (CaseQuit ∈ cs) then DoneByQuit else AtSelect), a') ∧
    same_but_metrics a a' ∧ (a' = a ∨ statuses_exported a') ∧ (head cs = Some CaseTick → statuses_exported a').
Proof.
  revert a. induction cs as [|[] cs IH]; intros a Hwf.
  - exists a. rewrite decide_False by (apply not_elem_of_nil). split_and!; [done..|by left|done].
  - destruct (metricsTick_run a Hwf) as (a1 & Ht & Hs & He).
    assert (store_wf (app_db a1)) as Hwf1 by (destruct Hs as (_ & -> & _); done).
    destruct (IH a1 Hwf1) as (a2 & Hr & Hs2 & He2 & _). exists a2. cbn [ticks].
    rewrite (bind_Ok _ _ _ false a1) by (by rewrite (bind_Ok _ _ _ tt a1)).
    assert (statuses_exported a2) by (by destruct He2 as [->|]).
    rewrite Hr, (decide_ext (CaseQuit ∈ CaseTick :: cs) (CaseQuit ∈ cs)) by set_solver.
    split_and!; [done|by eapply same_but_metrics_trans|by right|done].
  - exists a. rewrite decide_True by set_solver. split_and!; [done..|by left|done].
Qed.

(** C31: the export of metrics only observes: with a positive interval and a
    well-formed store, [metricsUpdateLoop] never fails, whatever cases its select
    takes; it returns exactly when one of them is quit, it changes nothing but
    the clock and the metrics, and once it has ticked the gauge of every stored
    provider is its stored status. *)
Theorem metrics_loop_observes `{!KvdbReliable Db} mc cs a :
  Metrics (fpm_config (mst_m (app_m a))) = Some mc → (0 < mc_UpdateInterval mc)%Z → store_wf (app_db a) →
  ∃ r a', metricsUpdateLoop cs a = (Ok r, a') ∧ (r = DoneByQuit ↔ CaseQuit ∈ cs) ∧ same_but_metrics a a' ∧
    (head cs = Some CaseTick → statuses_exported a').
Proof.
  intros Hm Hi Hwf. destruct (metrics_ticks cs a Hwf) as (a' & Hr & Hs & _ & He).
  exists (if decide (CaseQuit ∈ cs) then DoneByQuit else AtSelect), a'. split_and!; [|by case_decide|done..].
  unfold metricsUpdateLoop. rewrite (bind_Ok _ _ _ (fpm_config (mst_m (app_m a))) a), Hm by done.
  unfold NewTicker. destruct (Z.leb_spec (mc_UpdateInterval mc) 0); [lia|]. by rewrite (bind_Ok _ _ _ tt a).
Qed.
End theorems.
