(* ===== verification/FpdRpc.v ===== *)
(** * FpdRpc: the RPC interface of the finality provider daemon

    Models the handlers of [src/finality-provider/service/rpcserver.go] over
    the application of [App], and the client
    [src/finality-provider/service/client/rpcclient.go]. The transport is the
    gRPC of [EotsRpc]. A handler runs while the loops of the application run:
    a request to them is served by the turn that [App] models. *)

From stdpp Require Import base gmap list strings pretty.
From Stdlib Require Import ZArith Lia.
From S2P Require Import Prelude Errors Monad Version Types Kvdb FpStore PubRandStore Metrics EotsManager EotsRpc.
From S2P Require Import Config ClientController Babylon Poller FpState Voting FastSync FpInstance FpManager.
From S2P Require Import ChainKeyring App.

(** ** The messages of proto/finality_providers.proto *)

Record CreateFPRequest := mkCreateFPRequest {
  cf_KeyName : string; cf_Passphrase : string; cf_HdPath : string; cf_ChainId : string;
  cf_Description : bytes; cf_Commission : string; cf_EotsPkHex : string;
}.
Record RegisterFPRequest := mkRegisterFPRequest { rf_BtcPk : string; rf_Passphrase : string; }.
Record AddFinalitySignatureRequest := mkAddFinalitySignatureRequest {
  af_BtcPk : string; af_Height : Z; af_AppHash : bytes;
}.
Record AddFinalitySignatureResponse := mkAddFinalitySignatureResponse {
  as_TxHash : string; as_ExtractedSkHex : string; as_LocalSkHex : string;
}.
Record EditFPRequest := mkEditFPRequest {
  ef_BtcPk : string; ef_Description : Description; ef_Commission : string;
}.
Record SignMessageRequest := mkSignMessageRequest {
  sm_MsgToSign : bytes; sm_KeyName : string; sm_Passphrase : string; sm_HdPath : string;
}.

(** Library functions of the handlers: [protobuf.Marshal] of a
    [proto.Description], and [Key.String()] of a private key and of its
    negation *)
Class ServerTypes `{Crypto} := {
  protoDescription_Marshal : Description → outcome bytes;
  sk_String : PrivateKey → string;
  sk_Negate_String : PrivateKey → string;
}.

(** ** The server *)

Section rpcServer.
Context `{Crypto} `{Codec} `{BbnErrors} `{RetryGo} `{AppTypes} `{!ServerTypes} `{!Evidence}.
Context {W E Db KR Rnd : Type} `{!ClientController W} `{!Env W} `{!EOTSManager E} `{!Kvdb Db}.
Context `{!Keyring KR} `{!ChainKeys KR} `{!Bip39 Rnd}.

Abbreviation AP := (M (FinalityProviderApp W E Db KR Rnd)).

(** The counters of [rpcServer] and whether [quit] is closed *)
Record rpcServer := mkRpcServer { rs_started : Z; rs_shutdown : Z; rs_quit : bool; }.

Definition newRPCServer : rpcServer := mkRpcServer 0 0 false.

Definition rpc_Start : M rpcServer unit :=
  modify (λ r, mkRpcServer (rs_started r + 1) (rs_shutdown r) (rs_quit r)).

Definition rpc_Stop : M rpcServer unit :=
  modify (λ r, mkRpcServer (rs_started r) (rs_shutdown r + 1) (rs_quit r)) ;;
  r ← get;
  if negb (rs_shutdown r =? 1)%Z then mret tt
  else if rs_quit r then fatal "close of closed channel"
  else modify (λ r, mkRpcServer (rs_started r) (rs_shutdown r) true).

(** Methods of the application that only forward *)
Definition StartHandlingFinalityProvider (fuel : nat) (fpPk : bytes) (passphrase : string) : AP unit :=
  onM (StartFinalityProvider fuel fpPk passphrase).
Definition ListAllFinalityProvidersInfo : AP (list FinalityProviderInfo) := onM AllFinalityProviders.
Definition GetFinalityProviderInfo (fpPk : bytes) : AP FinalityProviderInfo := onM (FinalityProviderInfo_ fpPk).
Definition app_GetFinalityProviderInstance : AP FinalityProviderInstance := onM GetFinalityProviderInstance.
Definition getFpPrivKey (fpPk : bytes) : AP PrivateKey :=
  record ← appE (em_KeyRecord fpPk ""); mret (kr_PrivKey record).

(** [CreateFinalityProvider] of the application: the request and the turn of
    [eventLoop] that serves it *)
Definition app_CreateFinalityProvider (keyName chainID passPhrase hdPath : string) (eotsPk : option bytes)
    (description : Description) (commission : LegacyDec) : AP FinalityProviderInfo :=
  handleCreateFinalityProviderRequest
    (mkCreateRequest keyName passPhrase hdPath chainID eotsPk description commission).

Definition rpc_GetInfo (Commit : string) (req : unit) : AP string := mret (Version Commit).

Definition parseOptEotsPk (eotsPkHex : string) : outcome (option bytes) :=
  if (0 <? String.length eotsPkHex)%nat
  then pk ← NewBIP340PubKeyFromHex eotsPkHex; Ok (Some pk)
  else Ok None.

Definition rpc_CreateFinalityProvider (req : CreateFPRequest) : AP FinalityProviderInfo :=
  commissionRate ← lift (LegacyNewDecFromStr (cf_Commission req));
  description ← lift (Description_Unmarshal (cf_Description req));
  eotsPk ← lift (parseOptEotsPk (cf_EotsPkHex req));
  app_CreateFinalityProvider (cf_KeyName req) (cf_ChainId req) (cf_Passphrase req) (cf_HdPath req)
    eotsPk description commissionRate.

Definition rpc_RegisterFinalityProvider (fuel : nat) (req : RegisterFPRequest) : AP string :=
  txRes ← wrapping "failed to register the finality-provider to Babylon: "
            (App.RegisterFinalityProvider (rf_BtcPk req));
  wrapping ("failed to start the registered finality-provider " +:+
              AccAddress_String (re_bbnAddress txRes) +:+ ": ")
    (StartHandlingFinalityProvider fuel (re_btcPubKey txRes) (rf_Passphrase req)) ;;
  mret (re_TxHash txRes).

(** The comparison of an extracted key with the local one *)
Definition matchLocalKey (txHash : string) (privKey localPrivKey : PrivateKey)
    : outcome AddFinalitySignatureResponse :=
  let extracted := sk_String privKey in
  let localSkHex := sk_String localPrivKey in
  let localSkNegateHex := sk_Negate_String localPrivKey in
  if bool_decide (extracted = localSkHex) then Ok (mkAddFinalitySignatureResponse txHash extracted localSkHex)
  else if bool_decide (extracted = localSkNegateHex)
  then Ok (mkAddFinalitySignatureResponse txHash extracted localSkNegateHex)
  else Err (ErrorString ("the finality-provider's BTC private key is extracted but does not match the local key,"
         +:+ "extrated: " +:+ extracted +:+ ", local: " +:+ localSkHex +:+ ", local-negated: " +:+
         localSkNegateHex)).

Definition rpc_AddFinalitySignature (req : AddFinalitySignatureRequest) : AP AddFinalitySignatureResponse :=
  fpPk ← lift (NewBIP340PubKeyFromHex (af_BtcPk req));
  fpi ← app_GetFinalityProviderInstance;
  if negb (bool_decide (GetBtcPkHex fpi = af_BtcPk req))
  then throw (ErrorString ("the finality provider running does not match the request, got: " +:+
         af_BtcPk req +:+ ", expected: " +:+ GetBtcPkHex fpi))
  else
    r ← onM (onInstance (TestSubmitFinalitySignatureAndExtractPrivKey
                           (mkBlockInfo (af_Height req) (af_AppHash req) false)));
    match r.2 with
    | None => mret (mkAddFinalitySignatureResponse (TxHash r.1) "" "")
    | Some privKey =>
        uid ← lift (MustMarshal fpPk);
        localPrivKey ← getFpPrivKey uid;
        lift (matchLocalKey (TxHash r.1) privKey localPrivKey)
    end.

Definition rpc_UnjailFinalityProvider (fuel : nat) (btcPk : string) : AP string :=
  fpPk ← lift (NewBIP340PubKeyFromHex btcPk);
  txHash ← wrapping "failed to unjail the finality-provider: " (app_UnjailFinalityProvider fpPk);
  wrapping "failed to start the finality provider instance after unjailing: "
    (StartHandlingFinalityProvider fuel fpPk "") ;;
  mret txHash.

Definition rpc_QueryFinalityProvider (btcPk : string) : AP FinalityProviderInfo :=
  fpPk ← lift (NewBIP340PubKeyFromHex btcPk);
  GetFinalityProviderInfo fpPk.

(** [updatedMsg.Commission] is a pointer that is dereferenced when the
    description is stored. *)
Definition rpc_EditFinalityProvider (req : EditFPRequest) : AP unit :=
  fpPk ← lift (NewBIP340PubKeyFromHex (ef_BtcPk req));
  rate ← lift (LegacyNewDecFromStr (ef_Commission req));
  descBytes ← lift (protoDescription_Marshal (ef_Description req));
  fpPub ← lift (MustToBTCPK fpPk);
  updatedMsg ← appW (cc_EditFinalityProvider fpPub (Some rate) descBytes);
  match ed_Commission updatedMsg with
  | None => fatal "nil pointer dereference"
  | Some c => appDb (SetFpDescription fpPub (ed_Description updatedMsg) c)
  end.

Definition rpc_QueryFinalityProviderList (req : unit) : AP (list FinalityProviderInfo) :=
  ListAllFinalityProvidersInfo.

Definition rpc_SignMessageFromChainKey (req : SignMessageRequest) : AP bytes :=
  SignRawMsg (sm_KeyName req) (sm_Passphrase req) (sm_HdPath req) (sm_MsgToSign req).
End rpcServer.

(** ** The client *)

Section client.
Context `{Crypto} `{Codec} `{BbnErrors} `{RetryGo} `{AppTypes} `{!ServerTypes} `{!Evidence}.
Context {W E Db KR Rnd : Type} `{!ClientController W} `{!Env W} `{!EOTSManager E} `{!Kvdb Db}.
Context `{!Keyring KR} `{!ChainKeys KR} `{!Bip39 Rnd}.
Context {C : Type} `{!Grpc C (FinalityProviderApp W E Db KR Rnd)}.

(** [NewFinalityProviderServiceGRpcClient]; [dial] is the result of
    [grpc.Dial] *)
Definition NewFinalityProviderServiceGRpcClient (remoteAddr : string) (dial : outcome unit) : M C unit :=
  wrapping ("failed to build gRPC connection to " +:+ remoteAddr +:+ ": ") (lift dial).

Definition fpc_GetInfo (Commit : string) : M C string := grpc_invoke (rpc_GetInfo Commit) tt.

Definition fpc_RegisterFinalityProvider (fuel : nat) (fpPk : bytes) (passphrase : string) : M C string :=
  grpc_invoke (rpc_RegisterFinalityProvider fuel) (mkRegisterFPRequest (MarshalHex fpPk) passphrase).

Definition fpc_CreateFinalityProvider (keyName chainID eotsPkHex passphrase hdPath : string)
    (description : Description) (commission : LegacyDec) : M C FinalityProviderInfo :=
  descBytes ← lift (Description_Marshal description);
  grpc_invoke rpc_CreateFinalityProvider
    (mkCreateFPRequest keyName passphrase hdPath chainID descBytes (LegacyDec_String commission) eotsPkHex).

Definition fpc_AddFinalitySignature (fpPk : string) (height : Z) (appHash : bytes)
    : M C AddFinalitySignatureResponse :=
  grpc_invoke rpc_AddFinalitySignature (mkAddFinalitySignatureRequest fpPk height appHash).

Definition fpc_UnjailFinalityProvider (fuel : nat) (fpPk : string) : M C string :=
  grpc_invoke (rpc_UnjailFinalityProvider fuel) fpPk.

Definition fpc_QueryFinalityProviderList : M C (list FinalityProviderInfo) :=
  grpc_invoke rpc_QueryFinalityProviderList tt.

Definition fpc_QueryFinalityProviderInfo (fpPk : bytes) : M C FinalityProviderInfo :=
  grpc_invoke rpc_QueryFinalityProvider (MarshalHex fpPk).

Definition fpc_EditFinalityProvider (fpPk : bytes) (desc : Description) (rate : string) : M C unit :=
  grpc_invoke rpc_EditFinalityProvider (mkEditFPRequest (MarshalHex fpPk) desc rate).

Definition fpc_SignMessageFromChainKey (keyName passphrase hdPath : string) (rawMsgToSign : bytes)
    : M C bytes :=
  grpc_invoke rpc_SignMessageFromChainKey (mkSignMessageRequest rawMsgToSign keyName passphrase hdPath).
End client.

(** ** Theorems *)

Section theorems.
Context `{CryptoLaws} `{CodecLaws} `{BbnErrors} `{RetryGoLaws} `{AppTypes} `{!ServerTypes} `{!Evidence}.
Context {W E Db KR Rnd : Type} `{!ClientController W} `{!ClientControllerLaws W} `{!Env W}.
Context `{!EOTSManager E} `{!EOTSManagerLaws E} `{!Kvdb Db} `{!KvdbLaws Db}.
Context `{!Keyring KR} `{!ChainKeys KR} `{!Bip39 Rnd}.
Implicit Types (a : FinalityProviderApp W E Db KR Rnd).

Abbreviation AP := (M (FinalityProviderApp W E Db KR Rnd)).

(** *** Registration *)


(** *** Editing *)

(** An edit needs a commission: a request without one is refused before
    anything is sent or stored. *)
Lemma edit_without_commission str d a pk :
  NewBIP340PubKeyFromHex str = Ok pk →
  ∃ e, rpc_EditFinalityProvider (mkEditFPRequest str d "") a = (Err e, a).
Proof.
  intros Hhex. destruct legacy_dec_empty as [e He]. exists e.
  unfold rpc_EditFinalityProvider, mbind, M_bind, lift. simpl. by rewrite Hhex, He.
Qed.

(** What an edit stores is what the chain accepted: the description and the
    commission of the message that was sent for this key; every other field
    and every other record stays. After an error the database is as it was,
    even if the chain accepted the edit. *)
Theorem rpc_edit_spec str d c pk fp a o a' :
  store_wf (app_db a) → NewBIP340PubKeyFromHex str = Ok (SerializePubKey pk) →
  fp_lookup (app_db a) (SerializePubKey pk) = Some fp →
  rpc_EditFinalityProvider (mkEditFPRequest str d c) a = (o, a') →
  match o with
  | Ok _ =>
      ∃ pk' rate db w msg w' c' des,
        SerializePubKey pk' = SerializePubKey pk ∧ LegacyNewDecFromStr c = Ok rate ∧
        protoDescription_Marshal d = Ok db ∧
        cc_EditFinalityProvider pk' (Some rate) db w = (Ok msg, w') ∧
        ed_Commission msg = Some c' ∧ Description_Marshal (ed_Description msg) = Ok des ∧
        updates (SerializePubKey pk) (fp_with_description des (LegacyDec_String c') fp) (app_db a) (app_db a')
  | Err _ => app_db a' = app_db a
  | _ => True
  end.
Proof.
  intros Hwf Hhex Hl Hrun. unfold rpc_EditFinalityProvider in Hrun. simpl in Hrun.
  rewrite (bind_Ok _ _ _ (SerializePubKey pk) a) in Hrun by (unfold lift; by rewrite Hhex).
  unfold mbind at 1, M_bind at 1, lift at 1 in Hrun.
  destruct (LegacyNewDecFromStr c) as [rate| | |] eqn:Ec; [|by injection Hrun as <- <-..].
  unfold mbind at 1, M_bind at 1, lift at 1 in Hrun.
  destruct (protoDescription_Marshal d) as [db| | |] eqn:Ed; [|by injection Hrun as <- <-..].
  destruct (must_to_btc_pk pk) as (pk' & Hpk & Hser).
  rewrite (bind_Ok _ _ _ pk' a) in Hrun by (unfold lift; by rewrite Hpk).
  unfold mbind at 1, M_bind at 1 in Hrun.
  destruct (appW (cc_EditFinalityProvider pk' (Some rate) db) a) as [o1 a1] eqn:Ew.
  pose proof (same_db_appW (cc_EditFinalityProvider pk' (Some rate) db) a) as Hd. rewrite Ew in Hd. simpl in Hd.
  destruct o1 as [msg|e|m|]; [|by injection Hrun as <- <-..].
  destruct (ed_Commission msg) as [c'|] eqn:Ecm; [|by injection Hrun as <- <-].
  rewrite <-Hser in *. rewrite <-Hd in Hwf, Hl.
  destruct o as [[]|e|m|]; [| |done|done].
  - apply appDb_inv in Hrun as (Hset & _ & _).
    destruct (SetFpDescription_lookup _ _ _ _ _ Hwf Hset) as (des & Hdes & fp' & Hl' & Hk). simplify_eq.
    unfold appW, onM, mOnW in Ew. apply zoom_inv in Ew as (m' & Ew & _). apply zoom_inv in Ew as (w' & Ew & _).
    exists pk', rate, db, (mst_w (app_m a)), msg, w', c', des. split_and!; try done.
    intros k'. rewrite Hk. by rewrite Hd.
  - rewrite <-Hd. by eapply appDb_not_Ok.
Qed.

(** *** Queries *)

Lemma mark_running_inv k m info :
  info_BtcPkHex (mark_running k m info) = info_BtcPkHex info ∧
  (info_IsRunning info = false → info_IsRunning (mark_running k m info) = true →
   ∃ i, fpm_fpIns m = Some i ∧ GetBtcPkHex i = MarshalHex k).
Proof.
  unfold mark_running, IsFinalityProviderRunning. destruct (fpm_fpIns m) as [i|]; [|split; congruence].
  case_bool_decide; simpl; [|split; congruence]. destruct (IsRunning i); (split; [done|eauto]).
Qed.

Lemma provider_hex sfp : info_BtcPkHex (ToFinalityProviderInfo sfp) = MarshalHex (stored_key sfp).
Proof. unfold stored_key. simpl. unfold GetBIP340BTCPK. by rewrite bip340_of_pk. Qed.

Lemma onM_pure {A} (m : M (MSt W E Db) A) a o : m (app_m a) = (o, app_m a) → onM m a = (o, a).
Proof. intros Hm. unfold onM, zoom. rewrite Hm. by destruct a. Qed.

Lemma rpc_query_run `{!KvdbReliable Db} pk fp sfp a :
  store_wf (app_db a) → fp_lookup (app_db a) (SerializePubKey pk) = Some fp → stored_of fp sfp →
  rpc_QueryFinalityProvider (MarshalHex (SerializePubKey pk)) a =
    (Ok (mark_running (SerializePubKey pk) (mst_m (app_m a)) (ToFinalityProviderInfo sfp)), a).
Proof.
  intros Hwf Hl [Hs _]. unfold rpc_QueryFinalityProvider.
  rewrite (bind_Ok _ _ _ (SerializePubKey pk) a) by (unfold lift; by rewrite hex_roundtrip).
  destruct (must_to_btc_pk pk) as (pk' & Hpk & Hser).
  destruct (reads_are_complete (app_db a) Hwf) as [Hg _]. specialize (Hg pk'). rewrite Hser, Hl in Hg.
  destruct Hg as (sfp' & Hg & Hs' & _). rewrite Hs in Hs'. injection Hs' as <-.
  apply onM_pure. unfold FinalityProviderInfo_, app_db in *.
  rewrite (bind_Ok _ _ _ pk' (app_m a)) by (unfold lift; by rewrite Hpk).
  rewrite (bind_Ok _ _ _ sfp (app_m a)); [done|]. unfold mOnDb, zoom. rewrite Hg. by destruct (app_m a).
Qed.

(** C32: on a well-formed store the queries of the daemon never fail and
    change nothing: the list has every stored provider exactly once, asking
    for the key of an entry gives that entry, and at most one entry is marked
    as running. *)
Theorem rpc_queries_agree `{!KvdbReliable Db} a :
  store_wf (app_db a) →
  ∃ l, rpc_QueryFinalityProviderList tt a = (Ok l, a) ∧ NoDup (info_BtcPkHex <$> l) ∧
    (∀ k, is_Some (fp_lookup (app_db a) k) ↔ MarshalHex k ∈ info_BtcPkHex <$> l) ∧
    (∀ info, info ∈ l → rpc_QueryFinalityProvider (info_BtcPkHex info) a = (Ok info, a)) ∧
    (∀ i j, i ∈ l → j ∈ l → info_IsRunning i = true → info_IsRunning j = true → i = j).
Proof.
  intros Hwf. destruct (reads_are_complete (app_db a) Hwf) as [_ (l & Hl & Hnd & Hall & Hin)].
  set (f := λ fp, mark_running (GetBIP340BTCPK fp) (mst_m (app_m a)) (ToFinalityProviderInfo fp)).
  assert (∀ sfp, info_BtcPkHex (f sfp) = MarshalHex (stored_key sfp)) as Hhex.
  { intros sfp. unfold f. rewrite (proj1 (mark_running_inv _ _ _)). apply provider_hex. }
  assert (info_BtcPkHex <$> (f <$> l) = MarshalHex <$> (stored_key <$> l)) as Hk.
  { rewrite <-!list_fmap_compose. apply list_fmap_ext. intros _ sfp _. apply Hhex. }
  assert (NoDup (MarshalHex <$> (stored_key <$> l))) as Hnd'.
  { apply NoDup_fmap_2; [|done]. intros x y. apply marshal_hex_inj. }
  exists (f <$> l). rewrite Hk. split_and!; [|done| | |].
  - apply onM_pure. unfold AllFinalityProviders, app_db in *.
    rewrite (bind_Ok _ _ _ l (app_m a)); [done|]. unfold mOnDb, zoom. rewrite Hl. by destruct (app_m a).
  - intros k. rewrite Hall. split; [apply list_elem_of_fmap_2|].
    intros (k' & Eq%marshal_hex_inj & Hk')%list_elem_of_fmap. by subst.
  - intros info (sfp & -> & Hsfp)%list_elem_of_fmap. destruct (Hin sfp Hsfp) as (fp & Hfp & Hs).
    rewrite Hhex. unfold stored_key in *. rewrite (rpc_query_run _ _ _ _ Hwf Hfp Hs). unfold f.
    unfold GetBIP340BTCPK. by rewrite bip340_of_pk.
  - intros i j (si & -> & Hi)%list_elem_of_fmap (sj & -> & Hj)%list_elem_of_fmap Hri Hrj.
    unfold f in *. apply mark_running_inv in Hri as (x & Hx & Hxk); [|done].
    apply mark_running_inv in Hrj as (y & Hy & Hyk); [|done]. rewrite Hx in Hy. injection Hy as <-.
    assert (GetBIP340BTCPK si = GetBIP340BTCPK sj) as He by (apply marshal_hex_inj; congruence).
    unfold GetBIP340BTCPK in He. rewrite !bip340_of_pk in He.
    assert (si = sj) as ->; [|done].
    apply list_elem_of_lookup in Hi as [n Hi], Hj as [n' Hj].
    assert (n = n') as <-; [|congruence].
    eapply (NoDup_lookup (stored_key <$> l)); [done|by rewrite list_lookup_fmap, Hi|].
    rewrite list_lookup_fmap, Hj. unfold stored_key. simpl. by rewrite He.
Qed.
End theorems.

(** ** The client reaches the application *)

Section client_theorems.
Context `{CryptoLaws} `{CodecLaws} `{BbnErrors} `{RetryGoLaws} `{AppTypes} `{!ServerTypes} `{!Evidence}.
Context {W E Db KR Rnd : Type} `{!ClientController W} `{!ClientControllerLaws W} `{!Env W}.
Context `{!EOTSManager E} `{!EOTSManagerLaws E} `{!Kvdb Db} `{!KvdbLaws Db}.
Context `{!Keyring KR} `{!ChainKeys KR} `{!Bip39 Rnd}.
Context {C : Type} `{!Grpc C (FinalityProviderApp W E Db KR Rnd)}.
Context `{!GrpcDelivers C (FinalityProviderApp W E Db KR Rnd)}.

(** A call carries out what its handler reduces to. *)
Lemma call_carries_out {Req Res} (f : Req → M (FinalityProviderApp W E Db KR Rnd) Res) req m :
  (∀ a, f req a = m a) → carries_out (grpc_invoke f req : M C Res) m.
Proof. intros Hf c. rewrite <-Hf. apply invoke_carries_out. Qed.

Lemma create_carries_out kn ch hex pw hd desc comm des opt :
  Description_Marshal desc = Ok des → parseOptEotsPk hex = Ok opt →
  carries_out (fpc_CreateFinalityProvider kn ch hex pw hd desc comm : M C _)
    (app_CreateFinalityProvider kn ch pw hd opt desc comm).
Proof.
  intros Hdes Hhex c.
  replace (fpc_CreateFinalityProvider kn ch hex pw hd desc comm c) with
    (grpc_invoke rpc_CreateFinalityProvider
       (mkCreateFPRequest kn pw hd ch des (LegacyDec_String comm) hex) c)
    by (unfold fpc_CreateFinalityProvider; by rewrite (bind_Ok _ _ _ des c) by (unfold lift; by rewrite Hdes)).
  apply call_carries_out. intros a. unfold rpc_CreateFinalityProvider, mbind, M_bind, lift. simpl.
  by rewrite legacy_dec_roundtrip, (description_roundtrip _ _ Hdes), Hhex.
Qed.


(** Creating a provider from a client: a success means that the store of
    the daemon has exactly one record more, under a key that had none (the
    given key, if one was given), with status CREATED, heights 0 and the
    description, commission, key name and chain of the call, and the answer
    shows that record; after an error of the daemon its store is as it was. *)
Lemma remote_create_outcome `{!KvdbReliable Db} kn ch hex pw hd desc comm des opt c o c' :
  Description_Marshal desc = Ok des → parseOptEotsPk hex = Ok opt →
  store_wf (app_db (grpc_server c)) →
  fpc_CreateFinalityProvider kn ch hex pw hd desc comm c = (o, c') →
  match o with
  | Ok info =>
      ∃ addr pk sig sfp,
        new_provider (grpc_server c) (grpc_server c') addr pk comm kn ch sig des ∧
        (∀ uid, opt = Some uid → MustToBTCPK uid = Ok pk) ∧
        stored_of (created addr pk comm kn ch sig des) sfp ∧ info = ToFinalityProviderInfo sfp
  | Err _ => (∃ e, (app_CreateFinalityProvider kn ch pw hd opt desc comm (grpc_server c)).1 = Err e) →
             app_db (grpc_server c') = app_db (grpc_server c)
  | _ => False
  end.
Proof.
  intros Hdes Hopt Hwf Hrun.
  destruct (create_carries_out kn ch hex pw hd desc comm des opt Hdes Hopt c) as [Hr Hs].
  rewrite Hrun in Hr, Hs. simpl in Hr, Hs. unfold app_CreateFinalityProvider in *.
  destruct (handleCreateFinalityProviderRequest _ (grpc_server c)) as [o1 a1] eqn:Eh. simpl in Hr, Hs.
  apply creation_outcome in Eh; [|done]. unfold remote in Hr. subst a1. simpl in *.
  destruct o1 as [info|e|msg|].
  - subst o. destruct Eh as (addr & pk & sig & des' & sfp & Hd & Hn & Hu & Hst & ->).
    rewrite Hd in Hdes. injection Hdes as <-. eauto 10.
  - by subst o.
  - destruct Hr as [e ->]. by intros [].
  - destruct Hr as [e ->]. by intros [].
Qed.
End client_theorems.
