(* ===== verification/AppStart.v ===== *)
(** * AppStart: construction and start of the application

    Models [NewFinalityProviderAppFromConfig] and [CreateChainKey] of
    [src/finality-provider/service/app.go], and [loadApp] and [startApp] of
    [src/finality-provider/cmd/fpd/daemon/start.go]: the Babylon controller,
    the gRPC connection to the EOTS manager, the stores and the keyring are
    put together, then the loops and, with a public key, the instance are
    started. *)

From stdpp Require Import base gmap list strings pretty.
From Stdlib Require Import ZArith Lia.
From S2P Require Import Prelude Errors Monad Version Paths Log Config Types Kvdb FpStore PubRandStore Metrics.
From S2P Require Import EotsManager EotsRpc ClientController Babylon Poller FpState Voting FastSync FpInstance.
From S2P Require Import FpManager ChainKeyring App FpdRpc.

Section AppStart.
Context `{BbnTypes} `{BbnErrors} `{RetryGo} `{!AppTypes}.
Context {W E C Db KR Rnd F : Type} `{!BbnClient W} `{!Env W} `{!EOTSManager E} `{!Grpc C E} `{!Kvdb Db}.
Context `{!Keyring KR} `{!ChainKeys KR} `{!Bip39 Rnd} `{!Process F} `{!Disk F KR Db}.

(** What the application is made of: the connection to Babylon, the one to
    the EOTS manager and the database *)
Record parts := mkParts { pt_w : W; pt_c : C; pt_db : Db; }.
Definition pt_set_w v p := mkParts v (pt_c p) (pt_db p).
Definition pt_set_c v p := mkParts (pt_w p) v (pt_db p).
Definition pt_set_db v p := mkParts (pt_w p) (pt_c p) v.

(** The keyring of [NewFinalityProviderApp] *)
Definition configKeyring (cfg : Config) (rnd : Rnd) (f : F) : outcome (KeyringSt KR Rnd) :=
  let bc := BabylonConfig_ cfg in
  kr ← CreateKeyring (bbn_KeyDirectory bc) (bbn_ChainID bc) (bbn_KeyringBackend bc) f;
  Ok (mkKeyringSt kr rnd).

(** [bbnclient] is the result of [bbnclient.New] on the configuration of the
    client, [dial] that of [grpc.Dial] on an address. *)
Definition NewFinalityProviderAppFromConfig (bbnclient : BabylonConfig → outcome unit)
    (dial : string → outcome unit) (cfg : Config) (rnd : Rnd) (f : F)
    : M parts (FinalityProviderApp W C Db KR Rnd) :=
  formatting ("failed to create rpc client for the consumer chain " +:+ ChainName cfg +:+ ": ")
    (zoom pt_w pt_set_w
       (NewClientController (BabylonConfig_ cfg) (ChainName cfg)
          (bbnclient (BBNConfigToBabylonConfig (BabylonConfig_ cfg))))) ;;
  wrapping "failed to create EOTS manager client: "
    (zoom pt_c pt_set_c (NewEOTSManagerGRpcClient (EOTSManagerAddress cfg) (dial (EOTSManagerAddress cfg)))) ;;
  p ← get;
  zoom pt_db pt_set_db (NewFinalityProviderApp cfg (configKeyring cfg rnd f) (pt_w p) (pt_c p) NewFpMetrics).

Definition loadApp (bbnclient : BabylonConfig → outcome unit) (dial : string → outcome unit)
    (cfg : Config) (rnd : Rnd) (f : F) : M parts (FinalityProviderApp W C Db KR Rnd) :=
  formatting "failed to create finality-provider app: "
    (NewFinalityProviderAppFromConfig bbnclient dial cfg rnd f).

(** [CreateChainKey] of the package: the key info, and the keyring it is in *)
Definition app_CreateChainKey (keyringDir chainID keyName backend passphrase hdPath mnemonic : string)
    (rnd : Rnd) (f : F) : outcome (ChainKeyInfo * KeyringSt KR Rnd) :=
  sdkCtx ← CreateClientCtx keyringDir chainID f;
  krController ← NewChainKeyringController (F := F) (KR := KR) (Db := Db) sdkCtx keyName backend f;
  match CreateChainKey krController.2 passphrase hdPath mnemonic (mkKeyringSt krController.1 rnd) with
  | (Ok info, ks) => Ok (info, ks)
  | (Err e, _) => Err e
  | (Fatal m, _) => Fatal m
  | (OutOfFuel, _) => OutOfFuel
  end.
End AppStart.

Section startApp.
Context `{Crypto} `{Codec} `{BbnErrors} `{RetryGo} `{AppTypes}.
Context {W E Db KR Rnd : Type} `{!ClientController W} `{!Env W} `{!EOTSManager E} `{!Kvdb Db}.
Context `{!Keyring KR} `{!ChainKeys KR} `{!Bip39 Rnd}.

Definition startApp (fuel : nat) (fpPkStr passphrase : string) : M (FinalityProviderApp W E Db KR Rnd) unit :=
  wrapping "failed to start the finality provider app: " app_Start ;;
  if bool_decide (fpPkStr = "") then mret tt
  else
    fpPk ← wrapping ("invalid finality provider public key " +:+ fpPkStr +:+ ": ")
             (lift (NewBIP340PubKeyFromHex fpPkStr));
    r ← attempt (StartHandlingFinalityProvider fuel fpPk passphrase);
    match r with
    | inl err =>
        if errors_Is err ErrFinalityProviderJailed then mret tt
        else throw (Wrap ("failed to start the finality-provider instance " +:+ fpPkStr +:+ ": ") err "")
    | inr _ => mret tt
    end.
End startApp.

(** ** Theorems *)

Section theorems.
Context `{CryptoLaws} `{CodecLaws} `{BbnErrors} `{RetryGoLaws} `{AppTypes}.
Context {W E Db KR Rnd : Type} `{!ClientController W} `{!ClientControllerLaws W} `{!Env W}.
Context `{!EOTSManager E} `{!EOTSManagerLaws E} `{!Kvdb Db} `{!KvdbLaws Db}.
Context `{!Keyring KR} `{!ChainKeys KR} `{!Bip39 Rnd}.
Implicit Types (a : FinalityProviderApp W E Db KR Rnd).

(** Starting the loops changes nothing else, and ends the process when the
    interval of a ticker is not positive, which validation accepts. *)
Lemma app_Start_run a :
  app_Start a =
    (if app_started a then Ok tt
     else if (SyncFpStatusInterval (fpm_config (mst_m (app_m a))) <=? 0)%Z
     then Fatal "non-positive interval for NewTicker"
     else match Metrics (fpm_config (mst_m (app_m a))) with
          | None => Fatal "nil pointer dereference"
          | Some m => if (mc_UpdateInterval m <=? 0)%Z then Fatal "non-positive interval for NewTicker" else Ok tt
          end,
     mkApp (app_m a) (app_kr a) true (app_stopped a)).
Proof.
  unfold app_Start, mbind, M_bind, gets, modify, NewTicker.
  destruct (app_started a) eqn:Es; [destruct a; simpl in *; by subst|]. simpl.
  destruct (_ <=? 0)%Z; [done|]. simpl. destruct (Metrics _) as [m|]; [|done].
  by destruct (mc_UpdateInterval m <=? 0)%Z.
Qed.

(** How the daemon starts: without a public key it starts its loops and no
    instance; with one, a success means that the instance runs or that the
    provider is jailed, in which case the daemon starts all the same so that
    it can be unjailed; any other failure of the instance is an error. *)
Theorem start_app_spec fuel str pass a o a' :
  startApp fuel str pass a = (o, a') →
  match o with
  | Ok _ =>
      if decide (str = "") then app_m a' = app_m a
      else running a' ∨
           ∃ pk a1 e, NewBIP340PubKeyFromHex str = Ok pk ∧ app_m a1 = app_m a ∧
             StartHandlingFinalityProvider fuel pk pass a1 = (Err e, a') ∧
             errors_Is e ErrFinalityProviderJailed = true
  | Err e => str ≠ "" ∧ errors_Is e ErrFinalityProviderJailed = false ∨
             ∃ e0, NewBIP340PubKeyFromHex str = Err e0
  | _ => True
  end.
Proof.
  unfold startApp. intros Hrun. unfold mbind at 1, M_bind at 1, wrapping at 1 in Hrun.
  pose proof (app_Start_run a) as Hst. destruct (app_Start a) as [o1 a1] eqn:E1.
  injection Hst as -> ->.
  match type of Hrun with context [match ?x with _ => _ end] => destruct x as [[]|e|m|] eqn:Ex end.
  - case_bool_decide as Hs.
    { injection Hrun as <- <-. by rewrite decide_True. }
    unfold mbind at 1, M_bind at 1, wrapping at 1, lift in Hrun.
    destruct (NewBIP340PubKeyFromHex str) as [pk|e|m|]; [|by injection Hrun as <- <-; right; eauto|
                                                            by injection Hrun as <- <-..].
    unfold mbind at 1, M_bind at 1, attempt in Hrun.
    destruct (StartHandlingFinalityProvider fuel pk pass _) as [[[]|e|m|] a2] eqn:E2;
      [..|by injection Hrun as <- <-|by injection Hrun as <- <-].
    + injection Hrun as <- <-. rewrite decide_False by done. left.
      apply zoom_inv in E2 as (m' & E2 & ->). by apply StartFinalityProvider_Ok in E2.
    + destruct (errors_Is e ErrFinalityProviderJailed) eqn:Ej; injection Hrun as <- <-.
      * rewrite decide_False by done. right. do 3 eexists. split_and!; [done| |exact E2|done]. done.
      * left. split; [done|]. by rewrite errors_Is_Wrap.
  - exfalso. destruct (app_started a); [done|]. destruct (_ <=? 0)%Z; [done|].
    destruct (Metrics _); [|done]. by destruct (_ <=? 0)%Z.
  - by injection Hrun as <- <-.
  - by injection Hrun as <- <-.
Qed.
End theorems.
