(* ===== verification/FpdCmd.v ===== *)
(** * FpdCmd: the command line of the finality provider daemon

    Models [src/finality-provider/cmd/fpd/daemon/] (daemon_commands.go,
    export.go, init.go, keys.go, flags.go; start.go and tx.go are in [FpdStart]
    and [FpdTx]), the client
    context of [src/finality-provider/cmd/cmd.go] and the commands of
    [src/finality-provider/cmd/fpd/main.go]. The libraries cobra and pflag, the
    Cosmos client context and transactions are parameters. A command runs over
    the connection to the daemon, the files of the home directory and its
    output; a command that prints JSON prints the value. *)

From stdpp Require Import base gmap list sets strings pretty.
From Stdlib Require Import ZArith Lia.
From S2P Require Import Prelude Errors Monad Version Paths Log Config Types Kvdb FpStore PubRandStore Metrics.
From S2P Require Import EotsManager EotsRpc ClientController Babylon Poller FpState Voting FastSync FpInstance.
From S2P Require Import FpManager ChainKeyring App FpdRpc.

(** ** cobra and pflag *)

(** A declaration of a flag, with its default value *)
Inductive flagDecl :=
  | FString (name value : string)
  | FBool (name : string) (value : bool).

(** [cmd.Args] *)
Inductive argsCheck := NoArgs | ExactArgs (n : nat).

Class Cobra (FS : Type) := {
  fs_GetString : string → FS → outcome string;
  fs_GetBool : string → FS → outcome bool;
  fs_Changed : string → FS → bool;
  (** what [cmd.Args] returns on the arguments *)
  ValidateArgs : argsCheck → list string → outcome unit;
  (** the flag set that cobra made from a command line for these
      declarations *)
  parsed : list flagDecl → FS → Prop;
}.

Class CobraLaws (FS : Type) `{!Cobra FS} : Prop := {
  NoArgs_spec args : ValidateArgs NoArgs args = Ok tt ↔ args = [];
  ExactArgs_spec n args : ValidateArgs (ExactArgs n) args = Ok tt ↔ length args = n;
  declared_string ds fs n v : parsed ds fs → FString n v ∈ ds → ∃ x, fs_GetString n fs = Ok x;
  declared_bool ds fs n v : parsed ds fs → FBool n v ∈ ds → ∃ x, fs_GetBool n fs = Ok x;
}.

(** ** cmd.go: the client context *)

(** The fields of [client.Context] the program sets or reads; [Kr] is the type
    of a keyring *)
Record ClientCtx (Kr : Type) := mkClientCtx {
  cx_HomeDir : string;
  cx_From : string;
  cx_ChainID : string;
  cx_Keyring : option Kr;
  cx_KeyringDir : string;
  cx_OutputFormat : string;
  cx_SignModeStr : string;
}.
Arguments mkClientCtx {Kr}.
Arguments cx_HomeDir {Kr}.
Arguments cx_From {Kr}.
Arguments cx_ChainID {Kr}.
Arguments cx_Keyring {Kr}.
Arguments cx_KeyringDir {Kr}.
Arguments cx_OutputFormat {Kr}.
Arguments cx_SignModeStr {Kr}.

(** [client.SetCmdClientContextHandler], which reads the persistent flags,
    [client.GetClientQueryContext], which reads those of queries, and
    [client.NewKeyringFromBackend] *)
Class SdkClient (FS Kr : Type) := {
  SetCmdClientContextHandler : ClientCtx Kr → FS → outcome (ClientCtx Kr);
  GetClientQueryContext : ClientCtx Kr → FS → outcome (ClientCtx Kr);
  NewKeyringFromBackend : ClientCtx Kr → string → outcome Kr;
}.

Section cmd.
Context {FS Kr F : Type} `{!Cobra FS} `{!SdkClient FS Kr} `{Net} `{!FileSystem F} `{!IniFile F Config}.


Definition WithFrom v (ctx : ClientCtx Kr) := mkClientCtx (cx_HomeDir ctx) v (cx_ChainID ctx) (cx_Keyring ctx)
  (cx_KeyringDir ctx) (cx_OutputFormat ctx) (cx_SignModeStr ctx).
Definition WithChainID v (ctx : ClientCtx Kr) := mkClientCtx (cx_HomeDir ctx) (cx_From ctx) v (cx_Keyring ctx)
  (cx_KeyringDir ctx) (cx_OutputFormat ctx) (cx_SignModeStr ctx).
Definition WithKeyring (v : Kr) (ctx : ClientCtx Kr) := mkClientCtx (cx_HomeDir ctx) (cx_From ctx) (cx_ChainID ctx) (Some v)
  (cx_KeyringDir ctx) (cx_OutputFormat ctx) (cx_SignModeStr ctx).
Definition WithKeyringDir v (ctx : ClientCtx Kr) := mkClientCtx (cx_HomeDir ctx) (cx_From ctx) (cx_ChainID ctx) (cx_Keyring ctx)
  v (cx_OutputFormat ctx) (cx_SignModeStr ctx).
Definition WithOutputFormat v (ctx : ClientCtx Kr) := mkClientCtx (cx_HomeDir ctx) (cx_From ctx) (cx_ChainID ctx)
  (cx_Keyring ctx) (cx_KeyringDir ctx) v (cx_SignModeStr ctx).
Definition WithSignModeStr v (ctx : ClientCtx Kr) := mkClientCtx (cx_HomeDir ctx) (cx_From ctx) (cx_ChainID ctx)
  (cx_Keyring ctx) (cx_KeyringDir ctx) (cx_OutputFormat ctx) v.

Definition FillContextFromBabylonConfig (ctx : ClientCtx Kr) (fs : FS) (bbnConf : BBNConfig) : outcome (ClientCtx Kr) :=
  let ctx := if negb (fs_Changed "from" fs) then WithFrom (bbn_Key bbnConf) ctx else ctx in
  let ctx := if negb (fs_Changed "chain-id" fs) then WithChainID (bbn_ChainID bbnConf) ctx else ctx in
  ctx ← (if negb (fs_Changed "keyring-backend" fs)
         then kr ← NewKeyringFromBackend ctx (bbn_KeyringBackend bbnConf); Ok (WithKeyring kr ctx)
         else Ok ctx);
  let ctx := if negb (fs_Changed "keyring-dir" fs) then WithKeyringDir (bbn_KeyDirectory bbnConf) ctx else ctx in
  let ctx := if negb (fs_Changed "output" fs) then WithOutputFormat (bbn_OutputFormat bbnConf) ctx else ctx in
  Ok (if negb (fs_Changed "sign-mode" fs) then WithSignModeStr (bbn_SignModeStr bbnConf) ctx else ctx).

(** [PersistClientCtx]: without a configuration the context of the flags is
    kept. *)
Definition PersistClientCtx (ctx : ClientCtx Kr) (fs : FS) (f : F) : outcome (ClientCtx Kr) :=
  ctx ← SetCmdClientContextHandler ctx fs;
  match LoadConfig (cx_HomeDir ctx) f with
  | Ok cfg => FillContextFromBabylonConfig ctx fs (BabylonConfig_ cfg)
  | Err _ => Ok ctx
  | Fatal m => Fatal m
  | OutOfFuel => OutOfFuel
  end.
End cmd.

(** ** flags.go *)

Definition forceFlag := "force".
Definition fpEotsPkFlag := "eots-pk".
Definition rpcListenerFlag := "rpc-listener".
Definition fpdDaemonAddressFlag := "daemon-address".
Definition keyNameFlag := "key-name".
Definition appHashFlag := "app-hash".
Definition passphraseFlag := "passphrase".
Definition hdPathFlag := "hd-path".
Definition chainIdFlag := "chain-id".
Definition signedFlag := "signed".
Definition monikerFlag := "moniker".
Definition identityFlag := "identity".
Definition websiteFlag := "website".
Definition securityContactFlag := "security-contact".
Definition detailsFlag := "details".
Definition commissionRateFlag := "commission-rate".

(** ** The process of a command *)

(** [grpc.Dial] and [conn.Close] *)
Class GrpcConn (C : Type) := {
  grpc_Dial : string → outcome unit;
  conn_Close : M C unit;
}.

(** The exported finality provider, [btcstktypes.FinalityProvider] without a
    proof of possession *)
Record ExportedFP `{Codec} := mkExportedFP {
  xf_Addr : string; xf_Description : Description; xf_Commission : LegacyDec; xf_BtcPk : bytes;
}.

(** [Description.EnsureLength] and [FinalityProvider.Marshal] of the libraries *)
Class CmdTypes `{Codec} := {
  EnsureLength : Description → outcome Description;
  ExportedFP_Marshal : ExportedFP → outcome bytes;
}.

(** What a command prints *)
Inductive fpdOutput `{Codec} :=
  | OutVersion (v : string)
  | OutInfo (i : FinalityProviderInfo)
  | OutList (l : list FinalityProviderInfo)
  | OutTxHash (h : string)
  | OutSignature (r : AddFinalitySignatureResponse)
  | OutExport (x : ExportedFP)
  | OutSignedExport (x : ExportedFP) (sigHex : string)
  | OutText (s : string).

Section fpd.
Context `{Crypto} `{Codec} `{BbnErrors} `{RetryGo} `{AppTypes} `{!ServerTypes} `{!Evidence} `{!CmdTypes}.
Context {W E Db KR Rnd : Type} `{!ClientController W} `{!Env W} `{!EOTSManager E} `{!Kvdb Db}.
Context `{!Keyring KR} `{!ChainKeys KR} `{!Bip39 Rnd}.
Context {C : Type} `{!Grpc C (FinalityProviderApp W E Db KR Rnd)} `{!GrpcConn C}.
Context {FS Kr F : Type} `{!Cobra FS} `{!SdkClient FS Kr} `{Net} `{KvdbDefaults} `{!FileSystem F} `{!IniFile F Config} `{!Process F}.
Context (dc : BabylonConfig) (DefaultFpdDir Commit : string).

Record Cli := mkCli { cli_conn : C; cli_fs : F; cli_out : list fpdOutput; }.

Definition cli_set_conn c s := mkCli c (cli_fs s) (cli_out s).
Definition cli_set_fs f s := mkCli (cli_conn s) f (cli_out s).
Definition printed (o : fpdOutput) (s : Cli) : Cli := mkCli (cli_conn s) (cli_fs s) (o :: cli_out s).
Definition printRespJSON (o : fpdOutput) : M Cli unit := modify (printed o).
Definition call {A} : M C A → M Cli A := zoom cli_conn cli_set_conn.

(** [args[n]] *)
Definition arg (args : list string) (n : nat) : M Cli string :=
  match args !! n with Some a => mret a | None => fatal "index out of range" end.

(** [flags.GetString(name)] with the error every command reports *)
Definition flagString (fs : FS) (name : string) : M Cli string :=
  wrapping ("failed to read flag " +:+ name +:+ ": ") (lift (fs_GetString name fs)).
Definition flagBool (fs : FS) (name : string) : M Cli bool :=
  wrapping ("failed to read flag " +:+ name +:+ ": ") (lift (fs_GetBool name fs)).

(** The client of the daemon, with the deferred [cleanUp] *)
Definition connect (daemonAddress : string) : M Cli unit :=
  call (NewFinalityProviderServiceGRpcClient daemonAddress (grpc_Dial daemonAddress)).
Definition cleanUp (s : Cli) : Cli :=
  match conn_Close (cli_conn s) with
  | (Err e, c) => printed (OutText ("Failed to clean up grpc client: " +:+ Error e)) (cli_set_conn c s)
  | (_, c) => cli_set_conn c s
  end.
Definition withClient {A} (daemonAddress : string) (body : M Cli A) : M Cli A :=
  connect daemonAddress ;; deferring cleanUp body.

Definition RunEWithClientCtx (f : ClientCtx Kr → FS → list string → M Cli unit)
    (ctx : ClientCtx Kr) (fs : FS) (args : list string) : M Cli unit :=
  clientCtx ← lift (GetClientQueryContext ctx fs);
  f clientCtx fs args.

Definition defaultFpdDaemonAddress : string := "127.0.0.1:" +:+ pretty DefaultRPCPort.
Definition defaultAppHashStr : string := "fd903d9baeb3ab1c734ee003de75f676c5a9a8d0574647e5385834d57d3e79ec".

(** ** daemon_commands.go *)

Definition runCommandGetDaemonInfo (fs : FS) (args : list string) : M Cli unit :=
  daemonAddress ← flagString fs fpdDaemonAddressFlag;
  withClient daemonAddress
    (info ← call (fpc_GetInfo Commit);
     printRespJSON (OutVersion info)).

Definition getDescriptionFromFlags (fs : FS) : M Cli Description :=
  monikerStr ← flagString fs monikerFlag;
  identityStr ← flagString fs identityFlag;
  websiteStr ← flagString fs websiteFlag;
  securityContactStr ← flagString fs securityContactFlag;
  detailsStr ← flagString fs detailsFlag;
  lift (EnsureLength (mkDescription monikerStr identityStr websiteStr securityContactStr detailsStr)).

Definition loadKeyName (homeDir : string) (fs : FS) : M Cli string :=
  keyName ← flagString fs keyNameFlag;
  if negb (bool_decide (keyName = "")) then mret keyName
  else
    f ← gets cli_fs;
    cfg ← wrapping ("failed to load config from " +:+ ConfigFile homeDir +:+ ": ") (lift (LoadConfig homeDir f));
    let keyName := bbn_Key (BabylonConfig_ cfg) in
    if bool_decide (keyName = "") then throw (ErrorString "the key in config is empty") else mret keyName.

Definition runCommandCreateFP (ctx : ClientCtx Kr) (fs : FS) (args : list string) : M Cli unit :=
  daemonAddress ← flagString fs fpdDaemonAddressFlag;
  commissionRateStr ← flagString fs commissionRateFlag;
  commissionRate ← wrapping "invalid commission rate: " (lift (LegacyNewDecFromStr commissionRateStr));
  description ← wrapping "invalid description: " (getDescriptionFromFlags fs);
  keyName ← wrapping "not able to load key name: " (loadKeyName (cx_HomeDir ctx) fs);
  withClient daemonAddress
    (chainId ← flagString fs chainIdFlag;
     passphrase ← flagString fs passphraseFlag;
     hdPath ← flagString fs hdPathFlag;
     eotsPkHex ← flagString fs fpEotsPkFlag;
     (if (0 <? String.length eotsPkHex)%nat
      then _ ← wrapping ("invalid eots public key " +:+ eotsPkHex +:+ ": ")
                 (lift (NewBIP340PubKeyFromHex eotsPkHex)); mret tt
      else mret tt) ;;
     info ← call (fpc_CreateFinalityProvider keyName chainId eotsPkHex passphrase hdPath description
                    commissionRate);
     printRespJSON (OutInfo info)).

Definition runCommandUnjailFP (fuel : nat) (ctx : ClientCtx Kr) (fs : FS) (args : list string) : M Cli unit :=
  daemonAddress ← flagString fs fpdDaemonAddressFlag;
  withClient daemonAddress
    (pk ← arg args 0;
     _ ← call (fpc_UnjailFinalityProvider fuel pk);
     mret tt).

Definition runCommandLsFP (fs : FS) (args : list string) : M Cli unit :=
  daemonAddress ← flagString fs fpdDaemonAddressFlag;
  withClient daemonAddress
    (resp ← call fpc_QueryFinalityProviderList;
     printRespJSON (OutList resp)).

Definition runCommandInfoFP (fs : FS) (args : list string) : M Cli unit :=
  hex ← arg args 0;
  fpPk ← lift (NewBIP340PubKeyFromHex hex);
  daemonAddress ← flagString fs fpdDaemonAddressFlag;
  withClient daemonAddress
    (resp ← call (fpc_QueryFinalityProviderInfo fpPk);
     printRespJSON (OutInfo resp)).

Definition runCommandRegisterFP (fuel : nat) (fs : FS) (args : list string) : M Cli unit :=
  hex ← arg args 0;
  fpPk ← lift (NewBIP340PubKeyFromHex hex);
  daemonAddress ← flagString fs fpdDaemonAddressFlag;
  withClient daemonAddress
    (passphrase ← flagString fs passphraseFlag;
     res ← call (fpc_RegisterFinalityProvider fuel fpPk passphrase);
     printRespJSON (OutTxHash res)).

Definition runCommandAddFinalitySig (fs : FS) (args : list string) : M Cli unit :=
  hex ← arg args 0;
  fpPk ← lift (NewBIP340PubKeyFromHex hex);
  heightStr ← arg args 1;
  blkHeight ← lift (ParseUint heightStr);
  daemonAddress ← flagString fs fpdDaemonAddressFlag;
  appHashHex ← flagString fs appHashFlag;
  withClient daemonAddress
    (appHash ← lift (hex_DecodeString appHashHex);
     res ← call (fpc_AddFinalitySignature (MarshalHex fpPk) blkHeight appHash);
     printRespJSON (OutSignature res)).

(** [s, _ := cmd.Flags().GetString(name)] *)
Definition flagOrEmpty (fs : FS) (name : string) : string :=
  match fs_GetString name fs with Ok s => s | _ => "" end.

Definition runCommandEditFinalityDescription (fs : FS) (args : list string) : M Cli unit :=
  hex ← arg args 0;
  fpPk ← lift (NewBIP340PubKeyFromHex hex);
  daemonAddress ← flagString fs fpdDaemonAddressFlag;
  withClient daemonAddress
    (let desc := mkDescription (flagOrEmpty fs monikerFlag) (flagOrEmpty fs identityFlag)
                   (flagOrEmpty fs websiteFlag) (flagOrEmpty fs securityContactFlag)
                   (flagOrEmpty fs detailsFlag) in
     let rate := flagOrEmpty fs commissionRateFlag in
     formatting ("failed to edit finality provider " +:+ MarshalHex fpPk +:+ " err ")
       (call (fpc_EditFinalityProvider fpPk desc rate))).

(** ** export.go *)

Definition runCommandExportFP (ctx : ClientCtx Kr) (fs : FS) (args : list string) : M Cli unit :=
  daemonAddress ← flagString fs fpdDaemonAddressFlag;
  wrapping ("failled to connect to daemon addr " +:+ daemonAddress +:+ ": ") (connect daemonAddress) ;;
  deferring cleanUp
    (fpBtcPkHex ← arg args 0;
     fpPk ← wrapping ("invalid fp btc pk hex " +:+ fpBtcPkHex +:+ ": ") (lift (NewBIP340PubKeyFromHex fpBtcPkHex));
     fpInfo ← wrapping ("failed to query fp info from " +:+ fpBtcPkHex +:+ ": ")
                (call (fpc_QueryFinalityProviderInfo fpPk));
     comm ← wrapping ("failed to parse fp commission " +:+ info_Commission fpInfo +:+ ": ")
              (lift (LegacyNewDecFromStr (info_Commission fpInfo)));
     let desc := info_Description fpInfo in
     let fp := mkExportedFP _ (info_FpAddr fpInfo)
                 (mkDescription (Moniker desc) (Identity desc) (Website desc) (SecurityContact desc)
                    (Details desc)) comm fpPk in
     signed ← flagBool fs signedFlag;
     if negb (signed : bool) then printRespJSON (OutExport fp)
     else
       keyName ← wrapping "not able to load key name: " (loadKeyName (cx_HomeDir ctx) fs);
       fpbz ← wrapping "failed to marshal finality provider: " (lift (ExportedFP_Marshal fp));
       passphrase ← flagString fs passphraseFlag;
       hdPath ← flagString fs hdPathFlag;
       sig ← wrapping "failed to sign finality provider: "
               (call (fpc_SignMessageFromChainKey keyName passphrase hdPath fpbz));
       printRespJSON (OutSignedExport fp (hex_EncodeToString sig))).

(** ** init.go *)

Definition onFiles {A} : M F A → M Cli A := zoom cli_fs cli_set_fs.

Definition runInitCmd (ctx : ClientCtx Kr) (fs : FS) (args : list string) : M Cli unit :=
  homePath ← onFiles (absHome (cx_HomeDir ctx));
  force ← flagBool fs forceFlag;
  exists_ ← gets (λ s, FileExists homePath (cli_fs s));
  if (exists_ : bool) && negb force
  then throw (ErrorString ("home path " +:+ homePath +:+ " already exists"))
  else
    onFiles (MakeDirectory homePath) ;;
    onFiles (MakeDirectory (LogDir homePath)) ;;
    defaultConfig ← lift (DefaultConfigWithHome dc homePath);
    onFiles (ini_WriteFile (ConfigFile homePath) defaultConfig).

(** ** keys.go *)

(** The assignments to [cfg.BabylonConfig] *)
Definition with_key_backend (key backend : string) (c : BBNConfig) : BBNConfig := {|
  bbn_Key := key;
  bbn_ChainID := bbn_ChainID c;
  bbn_RPCAddr := bbn_RPCAddr c;
  bbn_GRPCAddr := bbn_GRPCAddr c;
  bbn_AccountPrefix := bbn_AccountPrefix c;
  bbn_KeyringBackend := backend;
  bbn_GasAdjustment := bbn_GasAdjustment c;
  bbn_GasPrices := bbn_GasPrices c;
  bbn_KeyDirectory := bbn_KeyDirectory c;
  bbn_Debug := bbn_Debug c;
  bbn_Timeout := bbn_Timeout c;
  bbn_BlockTimeout := bbn_BlockTimeout c;
  bbn_OutputFormat := bbn_OutputFormat c;
  bbn_SignModeStr := bbn_SignModeStr c;
|}.

(** [PostRunE] of the command keys add: the new key becomes the one of the
    configuration, if there is one. *)
Definition keysAddPostRun (ctx : ClientCtx Kr) (fs : FS) (args : list string) : M Cli unit :=
  f ← gets cli_fs;
  match LoadConfig (cx_HomeDir ctx) f with
  | Ok cfg =>
      keyringBackend ← lift (fs_GetString "keyring-backend" fs);
      name ← arg args 0;
      onFiles (ini_WriteFile (ConfigFile (cx_HomeDir ctx))
        (set_BabylonConfig (with_key_backend name keyringBackend (BabylonConfig_ cfg)) cfg))
  | Err _ => mret tt
  | Fatal m => fatal m
  | OutOfFuel => outOfFuel
  end.

(** [GetSubCommand]: the first command of that name, in any case *)
Fixpoint GetSubCommand {A} (cmds : list (string * A)) (commandName : string) : option A :=
  match cmds with
  | [] => None
  | (name, c) :: cmds => if negb (EqualFold name commandName) then GetSubCommand cmds commandName else Some c
  end.

(** [CommandKeys]: the commands of the library with the hook on add *)
Definition CommandKeys {A} (keysCmds : list (string * A)) : outcome A :=
  match GetSubCommand keysCmds "add" with
  | None => Fatal "failed to find keys add command"
  | Some keyAddCmd => Ok keyAddCmd
  end.

(** ** The commands of main.go *)

(** A command: its name, its check of the arguments, the flags it declares
    and what it runs with the client context *)
Record CobraCommand := mkCobraCommand {
  cmd_Use : string;
  cmd_Args : argsCheck;
  cmd_Flags : list flagDecl;
  cmd_RunE : ClientCtx Kr → FS → list string → M Cli unit;
}.

(** cobra checks the arguments, runs [PersistentPreRunE] of the root command
    and then [RunE]. *)
Definition Execute (ctx0 : ClientCtx Kr) (cmd : CobraCommand) (fs : FS) (args : list string) : M Cli unit :=
  lift (ValidateArgs (cmd_Args cmd) args) ;;
  f ← gets cli_fs;
  ctx ← lift (PersistClientCtx ctx0 fs f);
  cmd_RunE cmd ctx fs args.

Definition daemonFlag : flagDecl := FString fpdDaemonAddressFlag defaultFpdDaemonAddress.

Definition CommandInit : CobraCommand :=
  mkCobraCommand "init" NoArgs [FBool forceFlag false] (RunEWithClientCtx runInitCmd).
Definition CommandGetDaemonInfo : CobraCommand :=
  mkCobraCommand "get-info" NoArgs [daemonFlag] (λ _, runCommandGetDaemonInfo).
Definition CommandCreateFP : CobraCommand :=
  mkCobraCommand "create-finality-provider" NoArgs
    [daemonFlag; FString keyNameFlag ""; FString "home" DefaultFpdDir; FString chainIdFlag "";
     FString passphraseFlag ""; FString hdPathFlag ""; FString commissionRateFlag "0.05";
     FString monikerFlag ""; FString identityFlag ""; FString websiteFlag "";
     FString securityContactFlag ""; FString detailsFlag ""; FString fpEotsPkFlag ""]
    (RunEWithClientCtx runCommandCreateFP).
Definition CommandUnjailFP (fuel : nat) : CobraCommand :=
  mkCobraCommand "unjail-finality-provider" (ExactArgs 1) [daemonFlag]
    (RunEWithClientCtx (runCommandUnjailFP fuel)).
Definition CommandLsFP : CobraCommand :=
  mkCobraCommand "list-finality-providers" NoArgs [daemonFlag] (λ _, runCommandLsFP).
Definition CommandInfoFP : CobraCommand :=
  mkCobraCommand "finality-provider-info" (ExactArgs 1) [daemonFlag] (λ _, runCommandInfoFP).
Definition CommandRegisterFP (fuel : nat) : CobraCommand :=
  mkCobraCommand "register-finality-provider" (ExactArgs 1) [daemonFlag; FString passphraseFlag ""]
    (λ _, runCommandRegisterFP fuel).
Definition CommandAddFinalitySig : CobraCommand :=
  mkCobraCommand "add-finality-sig" (ExactArgs 2) [daemonFlag; FString appHashFlag defaultAppHashStr]
    (λ _, runCommandAddFinalitySig).
Definition CommandEditFinalityDescription : CobraCommand :=
  mkCobraCommand "edit-finality-provider" (ExactArgs 1)
    [daemonFlag; FString monikerFlag ""; FString websiteFlag ""; FString securityContactFlag "";
     FString detailsFlag ""; FString identityFlag ""; FString commissionRateFlag ""]
    (λ _, runCommandEditFinalityDescription).
Definition CommandExportFP : CobraCommand :=
  mkCobraCommand "export-finality-provider" NoArgs
    [daemonFlag; FBool signedFlag false; FString keyNameFlag ""; FString "home" DefaultFpdDir;
     FString passphraseFlag ""; FString hdPathFlag ""]
    (RunEWithClientCtx runCommandExportFP).

Definition commands (fuel : nat) : list CobraCommand :=
  [CommandInit; CommandGetDaemonInfo; CommandCreateFP; CommandLsFP; CommandInfoFP; CommandRegisterFP fuel;
   CommandAddFinalitySig; CommandExportFP; CommandUnjailFP fuel; CommandEditFinalityDescription].
End fpd.
Arguments Cli {_} C F.

(** ** Theorems *)

(** Closing the client's connection does not reach the daemon. *)
Class GrpcConnLaws (C S : Type) `{!Grpc C S} `{!GrpcConn C} : Prop := {
  conn_Close_server c : grpc_server (conn_Close c).2 = grpc_server c;
}.

Section cmd_theorems.
Context {FS Kr F : Type} `{!Cobra FS} `{!SdkClient FS Kr}.
Implicit Types (ctx : ClientCtx Kr) (fs : FS).

(** The flags have preference over the configuration: a field whose flag was
    given is kept, the others come from the configuration. The keyring is made
    from the directory the context had before the one of the configuration is
    put in it. *)
Theorem fill_context_spec ctx fs b ctx' :
  FillContextFromBabylonConfig ctx fs b = Ok ctx' →
  let pick flag (old new : string) := if fs_Changed flag fs then old else new in
  cx_HomeDir ctx' = cx_HomeDir ctx ∧
  cx_From ctx' = pick "from" (cx_From ctx) (bbn_Key b) ∧
  cx_ChainID ctx' = pick "chain-id" (cx_ChainID ctx) (bbn_ChainID b) ∧
  cx_KeyringDir ctx' = pick "keyring-dir" (cx_KeyringDir ctx) (bbn_KeyDirectory b) ∧
  cx_OutputFormat ctx' = pick "output" (cx_OutputFormat ctx) (bbn_OutputFormat b) ∧
  cx_SignModeStr ctx' = pick "sign-mode" (cx_SignModeStr ctx) (bbn_SignModeStr b) ∧
  (if fs_Changed "keyring-backend" fs then cx_Keyring ctx' = cx_Keyring ctx
   else ∃ kr ctx1, cx_Keyring ctx' = Some kr ∧ NewKeyringFromBackend ctx1 (bbn_KeyringBackend b) = Ok kr ∧
          cx_KeyringDir ctx1 = cx_KeyringDir ctx).
Proof.
  unfold FillContextFromBabylonConfig. destruct ctx as [h fr ch kr kd o sm].
  destruct (fs_Changed "from" fs), (fs_Changed "chain-id" fs), (fs_Changed "keyring-backend" fs); simpl;
    (try match goal with |- context [NewKeyringFromBackend ?c ?x] =>
       destruct (NewKeyringFromBackend c x) eqn:Ek; simpl; try done end);
    intros Hc; injection Hc as <-;
    destruct (fs_Changed "keyring-dir" fs), (fs_Changed "output" fs), (fs_Changed "sign-mode" fs); simpl;
    (split_and!; (done || eauto)); do 2 eexists; (split_and!; [done|exact Ek|done]).
Qed.
End cmd_theorems.

Section theorems.
Context `{CryptoLaws} `{CodecLaws} `{BbnErrors} `{RetryGoLaws} `{AppTypes} `{!ServerTypes} `{!Evidence}.
Context `{!CmdTypes} {W E Db KR Rnd : Type} `{!ClientController W} `{!ClientControllerLaws W} `{!Env W}.
Context `{!EOTSManager E} `{!EOTSManagerLaws E} `{!Kvdb Db} `{!KvdbLaws Db}.
Context `{!Keyring KR} `{!ChainKeys KR} `{!Bip39 Rnd}.
Context {C : Type} `{!Grpc C (FinalityProviderApp W E Db KR Rnd)}.
Context `{!GrpcDelivers C (FinalityProviderApp W E Db KR Rnd)} `{!GrpcConn C}.
Context `{!GrpcConnLaws C (FinalityProviderApp W E Db KR Rnd)}.
Context {FS Kr F : Type} `{!Cobra FS} `{!CobraLaws FS} `{!SdkClient FS Kr} `{Net} `{KvdbDefaults}.
Context `{!FileSystem F} `{!IniFile F Config} `{!IniFileLaws F} `{!Process F}.
Context (dc : BabylonConfig) (DefaultFpdDir Commit : string).
Implicit Types (ctx : ClientCtx Kr) (fs : FS) (s : Cli C F).

(** *** Flags *)

Definition fs_agree (ds : list flagDecl) fs fs' : Prop :=
  Forall (λ d, match d with
               | FString n _ => fs_GetString n fs = fs_GetString n fs'
               | FBool n _ => fs_GetBool n fs = fs_GetBool n fs'
               end) ds.

Ltac use_flags Hf :=
  repeat match type of Hf with
  | Forall _ (_ :: _) => let E := fresh "Ef" in apply Forall_cons in Hf as [E Hf]; cbn in E
  end.

(** C33: every command of fpd that talks to the daemon or initialises its
    home reads only the flags it declares, with their types: two command lines
    that agree on them (and give the client context
    of the library the same values) run the same. *)
Theorem fpd_reads_declared_flags fuel cmd ctx fs fs' args s :
  cmd ∈ commands (W := W) (E := E) (Db := Db) (KR := KR) (Rnd := Rnd) (C := C) dc DefaultFpdDir Commit fuel →
  fs_agree (cmd_Flags cmd) fs fs' → GetClientQueryContext ctx fs = GetClientQueryContext ctx fs' →
  cmd_RunE cmd ctx fs args s = cmd_RunE cmd ctx fs' args s.
Proof.
  unfold commands. rewrite !elem_of_cons, elem_of_nil. intros Hcmd Hf Hctx.
  repeat destruct Hcmd as [->|Hcmd]; [..|done]; unfold fs_agree in Hf; cbn in Hf |- *; use_flags Hf;
    unfold RunEWithClientCtx; rewrite ?Hctx;
    unfold runInitCmd, runCommandGetDaemonInfo, runCommandCreateFP, runCommandLsFP, runCommandInfoFP,
      runCommandRegisterFP, runCommandAddFinalitySig, runCommandExportFP, runCommandUnjailFP,
      runCommandEditFinalityDescription, loadKeyName, getDescriptionFromFlags, flagOrEmpty, flagString, flagBool;
    repeat match goal with Hfl : ?g ?n fs = ?g ?n fs' |- _ => rewrite Hfl; clear Hfl end; done.
Qed.

(** *** The daemon behind a command *)

Definition daemon s : FinalityProviderApp W E Db KR Rnd := grpc_server (cli_conn s).

Lemma connect_inv addr s o s' : connect addr s = (o, s') → s' = s.
Proof.
  unfold connect, call, zoom, NewFinalityProviderServiceGRpcClient, wrapping, lift.
  destruct (grpc_Dial addr); intros Hr; injection Hr as _ <-; by destruct s.
Qed.

Lemma cleanUp_daemon s : daemon (cleanUp s) = daemon s.
Proof.
  unfold cleanUp, daemon. pose proof (conn_Close_server (cli_conn s)) as Hc.
  by destruct (conn_Close (cli_conn s)) as [[] c].
Qed.

Lemma cleanUp_out s o : o ∈ cli_out s → o ∈ cli_out (cleanUp s).
Proof. unfold cleanUp. destruct (conn_Close (cli_conn s)) as [[] c]; simpl; [done|by right|done|done]. Qed.

Lemma withClient_inv {A} addr (body : M (Cli C F) A) s a s' :
  withClient addr body s = (Ok a, s') → ∃ s1, body s = (Ok a, s1) ∧ s' = cleanUp s1.
Proof.
  unfold withClient. intros Hrun. apply bind_Ok_inv in Hrun as ([] & s0 & Hc%connect_inv & Hrun). subst s0.
  unfold deferring in Hrun. destruct (body s) as [[b| | |] s1]; try done. injection Hrun as -> <-. eauto.
Qed.

(** *** Export *)

(** The command export-finality-provider never succeeds: it accepts no
    arguments and then reads its first argument, so with an argument cobra
    refuses it, and without one it panics once it is connected. *)
Theorem export_never_succeeds ctx0 fs args s :
  (∀ s', Execute ctx0 (CommandExportFP (W := W) (E := E) (Db := Db) (KR := KR) (Rnd := Rnd) DefaultFpdDir)
           fs args s ≠ (Ok tt, s')) ∧
  (args = [] → ∀ ctx ctx1 addr, PersistClientCtx ctx0 fs (cli_fs s) = Ok ctx1 →
     GetClientQueryContext ctx1 fs = Ok ctx → fs_GetString fpdDaemonAddressFlag fs = Ok addr →
     grpc_Dial addr = Ok tt →
     (Execute ctx0 (CommandExportFP (W := W) (E := E) (Db := Db) (KR := KR) (Rnd := Rnd) DefaultFpdDir)
        fs args s).1 = Fatal "index out of range").
Proof.
  split.
  - intros s' Hrun. unfold Execute in Hrun. apply bind_Ok_inv in Hrun as ([] & s1 & Ha & Hrun).
    injection Ha as Ha <-. apply NoArgs_spec in Ha as ->.
    apply bind_Ok_inv in Hrun as (f & s2 & Hf & Hrun). injection Hf as <- <-.
    apply bind_Ok_inv in Hrun as (ctx & s3 & _ & Hrun). cbn in Hrun. unfold RunEWithClientCtx in Hrun.
    apply bind_Ok_inv in Hrun as (ctx' & s4 & _ & Hrun). unfold runCommandExportFP in Hrun.
    apply bind_Ok_inv in Hrun as (addr & s5 & _ & Hrun).
    apply bind_Ok_inv in Hrun as ([] & s6 & _ & Hrun). by unfold deferring in Hrun.
  - intros -> ctx ctx1 addr Hp Hq Haddr Hd. unfold Execute.
    rewrite (bind_Ok _ _ _ tt s) by (unfold lift; by rewrite (proj2 (NoArgs_spec []) eq_refl)).
    rewrite (bind_Ok _ _ _ (cli_fs s) s) by done.
    rewrite (bind_Ok _ _ _ ctx1 s) by (unfold lift; by rewrite Hp).
    cbn. unfold RunEWithClientCtx. rewrite (bind_Ok _ _ _ ctx s) by (unfold lift; by rewrite Hq).
    unfold runCommandExportFP.
    rewrite (bind_Ok _ _ _ addr s) by (unfold flagString, wrapping, lift; by rewrite Haddr).
    rewrite (bind_Ok _ _ _ tt s); [done|].
    unfold connect, call, zoom, NewFinalityProviderServiceGRpcClient, wrapping, lift. rewrite Hd. by destruct s.
Qed.

(** *** Creation *)

(** What the flags of the command say *)
Definition description_flags fs (d : Description) : Prop :=
  fs_GetString monikerFlag fs = Ok (Moniker d) ∧ fs_GetString identityFlag fs = Ok (Identity d) ∧
  fs_GetString websiteFlag fs = Ok (Website d) ∧ fs_GetString securityContactFlag fs = Ok (SecurityContact d) ∧
  fs_GetString detailsFlag fs = Ok (Details d).

Lemma flagString_inv fs name s v s' : flagString fs name s = (Ok v, s') → fs_GetString name fs = Ok v ∧ s' = s.
Proof. unfold flagString. intros Hr%wrapping_inv. by injection Hr. Qed.

Lemma getDescriptionFromFlags_inv fs s d s' :
  getDescriptionFromFlags fs s = (Ok d, s') → s' = s ∧ ∃ d0, description_flags fs d0 ∧ EnsureLength d0 = Ok d.
Proof.
  unfold getDescriptionFromFlags. intros Hrun.
  apply bind_Ok_inv in Hrun as (m & s1 & [Hm ->]%flagString_inv & Hrun).
  apply bind_Ok_inv in Hrun as (i & s2 & [Hi ->]%flagString_inv & Hrun).
  apply bind_Ok_inv in Hrun as (w & s3 & [Hw ->]%flagString_inv & Hrun).
  apply bind_Ok_inv in Hrun as (c & s4 & [Hc ->]%flagString_inv & Hrun).
  apply bind_Ok_inv in Hrun as (d1 & s5 & [Hd ->]%flagString_inv & Hrun).
  injection Hrun as Hrun <-. split; [done|]. eexists. split; [|exact Hrun]. done.
Qed.

Lemma loadKeyName_inv home fs s kn s' :
  loadKeyName home fs s = (Ok kn, s') → s' = s ∧ kn ≠ "" ∧
  (fs_GetString keyNameFlag fs = Ok kn ∨
   ∃ cfg, LoadConfig home (cli_fs s) = Ok cfg ∧ kn = bbn_Key (BabylonConfig_ cfg)).
Proof.
  unfold loadKeyName. intros Hrun. apply bind_Ok_inv in Hrun as (k & s1 & [Hk ->]%flagString_inv & Hrun).
  case_bool_decide; simpl in Hrun; [|injection Hrun as <- <-; auto].
  apply bind_Ok_inv in Hrun as (f & s2 & Hf & Hrun). injection Hf as <- <-.
  apply bind_Ok_inv in Hrun as (cfg & s3 & Hc%wrapping_inv & Hrun). injection Hc as Hc <-.
  case_bool_decide; [done|]. injection Hrun as <- <-. eauto 6.
Qed.


(** *** Editing *)

(** The command edit-finality-provider needs the flag commission-rate,
    which it calls optional: without it the command fails and the daemon is as
    it was, whatever other fields were to be edited. *)
Theorem edit_command_needs_rate fs pk addr s :
  fs_GetString fpdDaemonAddressFlag fs = Ok addr → grpc_Dial addr = Ok tt →
  fs_GetString commissionRateFlag fs = Ok "" →
  ∃ e s', runCommandEditFinalityDescription fs [MarshalHex (SerializePubKey pk)] s = (Err e, s') ∧
    daemon s' = daemon s.
Proof.
  intros Haddr Hd Hrate. unfold runCommandEditFinalityDescription, flagString, flagOrEmpty. rewrite Hrate.
  rewrite (bind_Ok _ _ _ (MarshalHex (SerializePubKey pk)) s) by done.
  rewrite (bind_Ok _ _ _ (SerializePubKey pk) s) by (unfold lift; by rewrite hex_roundtrip).
  rewrite (bind_Ok _ _ _ addr s) by (unfold wrapping, lift; by rewrite Haddr).
  unfold withClient. rewrite (bind_Ok _ _ _ tt s).
  2: { unfold connect, call, zoom, NewFinalityProviderServiceGRpcClient, wrapping, lift. rewrite Hd. by destruct s. }
  set (d := mkDescription _ _ _ _ _). unfold deferring, formatting, call, zoom. cbn zeta.
  destruct (edit_without_commission (MarshalHex (SerializePubKey pk)) d (daemon s) _ (hex_roundtrip pk)) as [e He].
  pose proof (invoke_carries_out rpc_EditFinalityProvider
    (mkEditFPRequest (MarshalHex (SerializePubKey pk)) d "") (cli_conn s)) as [Hr Hs].
  fold (daemon s) in Hr, Hs. rewrite He in Hr, Hs. simpl in Hr, Hs. unfold fpc_EditFinalityProvider.
  destruct (grpc_invoke _ _ (cli_conn s)) as [o c]. simpl in Hr, Hs. subst o. simpl.
  do 2 eexists. split; [reflexivity|]. rewrite cleanUp_daemon. exact Hs.
Qed.

(** *** The configuration *)

(** A home directory that was initialised is loaded with the default
    settings. *)
Theorem fpd_init_loads ctx fs args s s' :
  runInitCmd dc ctx fs args s = (Ok tt, s') →
  ∃ home, (absHome (cx_HomeDir ctx) (cli_fs s)).1 = Ok home ∧
    LoadConfig home (cli_fs s') = Ok (defaultSettings dc home) ∧ daemon s' = daemon s.
Proof.
  unfold runInitCmd. intros Hrun. apply bind_Ok_inv in Hrun as (home & s1 & Hh & Hrun).
  apply zoom_inv in Hh as (f1 & Hh & ->). exists home. split; [by rewrite Hh|].
  apply bind_Ok_inv in Hrun as (force & s2 & Hf%wrapping_inv & Hrun). injection Hf as _ <-.
  apply bind_Ok_inv in Hrun as (ex & s3 & Hex & Hrun). injection Hex as <- <-.
  destruct (andb _ _); [done|].
  apply bind_Ok_inv in Hrun as ([] & s4 & (f4 & _ & ->)%zoom_inv & Hrun).
  apply bind_Ok_inv in Hrun as ([] & s5 & (f5 & _ & ->)%zoom_inv & Hrun).
  apply bind_Ok_inv in Hrun as (c & s6 & Hc & Hrun). injection Hc as Hc <-.
  apply zoom_inv in Hrun as (f7 & Hw & ->). split; [|done].
  unfold DefaultConfigWithHome in Hc.
  destruct (Validate (defaultSettings dc home)) as [[[]| | |] c1] eqn:Ev; try done. injection Hc as ->.
  apply Validate_spec in Ev as (p & Hp & -> & Hv). injection Hp as <-.
  eapply written_loads; [exact Hv| |exact Hw].
  split_and!; right; unfold LogLevel_choices, ChainName_choices, BitcoinNetwork_choices; set_solver.
Qed.

(** After keys add, the daemon uses the new key: if there is a
    configuration, it is loaded afterwards with the name of the key and its
    keyring backend and is the same otherwise; if there is none, no file
    changes. *)
Theorem keys_add_updates_config ctx fs name s s' :
  keysAddPostRun ctx fs [name] s = (Ok tt, s') →
  match LoadConfig (cx_HomeDir ctx) (cli_fs s) with
  | Ok cfg => ∃ backend, fs_GetString "keyring-backend" fs = Ok backend ∧
      LoadConfig (cx_HomeDir ctx) (cli_fs s') =
        Ok (set_BabylonConfig (with_key_backend name backend (BabylonConfig_ cfg)) cfg)
  | _ => s' = s
  end.
Proof.
  unfold keysAddPostRun. intros Hrun. apply bind_Ok_inv in Hrun as (f & s1 & Hf & Hrun). injection Hf as <- <-.
  destruct (LoadConfig (cx_HomeDir ctx) (cli_fs s)) as [cfg| | |] eqn:El; try done; [|by injection Hrun].
  apply bind_Ok_inv in Hrun as (b & s2 & Hb & Hrun). injection Hb as Hb <-.
  apply bind_Ok_inv in Hrun as (n & s3 & Hn & Hrun). injection Hn as <- <-.
  apply zoom_inv in Hrun as (f' & Hw & ->). exists b. split; [done|].
  destruct (loaded_ok _ _ _ El) as [Hv Hch]. simpl. eapply written_loads; [| |exact Hw]; done.
Qed.
End theorems.
