(* ===== verification/FpdStart.v ===== *)
(** * FpdStart: the command start of the finality provider daemon

    Models [runStartCmd] of [src/finality-provider/cmd/fpd/daemon/start.go] up
    to the server, which [Server] models: the configuration, the logger, the
    database, the application of [AppStart] and the interceptor of signals. *)

From stdpp Require Import base gmap list sets strings pretty.
From Stdlib Require Import ZArith Lia.
From S2P Require Import Prelude Errors Monad Version Paths Log Config Server Types Kvdb FpStore PubRandStore Metrics.
From S2P Require Import EotsManager EotsRpc ClientController Babylon Poller FpState Voting FastSync FpInstance.
From S2P Require Import FpManager ChainKeyring App FpdRpc AppStart FpdCmd.

Definition set_RpcListener (l : string) (c : Config) : Config := {|
  LogLevel := LogLevel c;
  ChainName := ChainName c;
  NumPubRand := NumPubRand c;
  NumPubRandMax := NumPubRandMax c;
  MinRandHeightGap := MinRandHeightGap c;
  StatusUpdateInterval := StatusUpdateInterval c;
  RandomnessCommitInterval := RandomnessCommitInterval c;
  SubmissionRetryInterval := SubmissionRetryInterval c;
  MaxSubmissionRetries := MaxSubmissionRetries c;
  FastSyncInterval := FastSyncInterval c;
  FastSyncLimit := FastSyncLimit c;
  FastSyncGap := FastSyncGap c;
  EOTSManagerAddress := EOTSManagerAddress c;
  SyncFpStatusInterval := SyncFpStatusInterval c;
  BitcoinNetwork := BitcoinNetwork c;
  BTCNetParams := BTCNetParams c;
  PollerConfig := PollerConfig c;
  DatabaseConfig := DatabaseConfig c;
  BabylonConfig_ := BabylonConfig_ c;
  RpcListener := l;
  Metrics := Metrics c;
|}.

Section start.
Context `{BbnTypes} `{BbnErrors} `{RetryGo} `{!AppTypes}.
Context {W E C Db KR Rnd F : Type} `{!BbnClient W} `{!Env W} `{!EOTSManager E} `{!Grpc C E} `{!Kvdb Db}.
Context `{!Keyring KR} `{!ChainKeys KR} `{!Bip39 Rnd} `{!Disk F KR Db}.
Context {FS Kr : Type} `{!Cobra FS} `{Net} `{!FileSystem F} `{!IniFile F Config} `{!Process F}.
Context (bbnclient : BabylonConfig → outcome unit) (dial : string → outcome unit).

(** The process before it has an application *)
Record proc := mkProc { pr_fs : F; pr_w : W; pr_c : C; pr_rnd : Rnd; }.
Definition pr_set_fs f p := mkProc f (pr_w p) (pr_c p) (pr_rnd p).

(** [flags.GetString(name)] with the error the command reports *)
Definition startFlag (fs : FS) (name : string) : M proc string :=
  wrapping ("failed to read flag " +:+ name +:+ ": ") (lift (fs_GetString name fs)).

(** The override of the listener by the flag rpc-listener *)
Definition overrideListener (rpcListener : string) (cfg : Config) : M proc Config :=
  if negb (bool_decide (rpcListener = ""))
  then wrapping ("invalid RPC listener address " +:+ rpcListener +:+ ", ") (lift (ResolveTCPAddr rpcListener)) ;;
       mret (set_RpcListener rpcListener cfg)
  else mret cfg.

(** [loadApp] and [startApp] over the database of the configuration *)
Definition loadAndStart (fuel : nat) (cfg : Config) (db : Db) (fpStr passphrase : string)
    : M proc (FinalityProviderApp W C Db KR Rnd) := λ p,
  match wrapping "failed to load app: " (loadApp bbnclient dial cfg (pr_rnd p) (pr_fs p))
          (mkParts (pr_w p) (pr_c p) db) with
  | (Ok app, _) =>
      match wrapping "failed to start app: "
              (startApp (ClientController0 := babylon_controller (BabylonConfig_ cfg))
                 (EOTSManager0 := grpc_eots_manager) fuel fpStr passphrase) app with
      | (Ok _, app) => (Ok app, p)
      | (Err e, _) => (Err e, p)
      | (Fatal m, _) => (Fatal m, p)
      | (OutOfFuel, _) => (OutOfFuel, p)
      end
  | (Err e, _) => (Err e, p)
  | (Fatal m, _) => (Fatal m, p)
  | (OutOfFuel, _) => (OutOfFuel, p)
  end.

(** [intercept] is [signal.Intercept()]. *)
Definition runStartCmd (fuel : nat) (intercept : outcome unit) (ctx : ClientCtx Kr) (fs : FS) (args : list string)
    : M proc (Config * FinalityProviderApp W C Db KR Rnd) :=
  homePath ← zoom pr_fs pr_set_fs (absHome (cx_HomeDir ctx));
  fpStr ← startFlag fs fpEotsPkFlag;
  rpcListener ← startFlag fs rpcListenerFlag;
  passphrase ← startFlag fs passphraseFlag;
  f ← gets pr_fs;
  cfg ← wrapping "failed to load configuration: " (lift (LoadConfig homePath f));
  cfg ← overrideListener rpcListener cfg;
  _ ← wrapping "failed to initialize the logger: "
        (zoom pr_fs pr_set_fs (NewRootLoggerWithFile (LogFile homePath) (LogLevel cfg)));
  f ← gets pr_fs;
  db ← wrapping "failed to create db backend: "
         (lift (GetDbBackend (λ c, GetBoltBackend c f) (DatabaseConfig cfg)));
  app ← loadAndStart fuel cfg db fpStr passphrase;
  lift intercept ;;
  mret (cfg, app).

(** The server runs on the settings of the command. *)
Definition runFpdServer `{Network} (cfg : Config) : M Server unit := RunUntilShutdown (Metrics cfg) (RpcListener cfg).

Definition CommandStart_Flags : list flagDecl :=
  [FString fpEotsPkFlag ""; FString passphraseFlag ""; FString rpcListenerFlag ""].
End start.

(** ** Theorems *)

Section theorems.
Context `{BbnTypes} `{BbnErrors} `{RetryGo} `{!AppTypes}.
Context {W E C Db KR Rnd F : Type} `{!BbnClient W} `{!Env W} `{!EOTSManager E} `{!Grpc C E} `{!Kvdb Db}.
Context `{!Keyring KR} `{!ChainKeys KR} `{!Bip39 Rnd} `{!Disk F KR Db}.
Context {FS Kr : Type} `{!Cobra FS} `{Net} `{!FileSystem F} `{!IniFile F Config} `{!IniFileLaws F} `{!Process F}.
Context (bbnclient : BabylonConfig → outcome unit) (dial : string → outcome unit).
Implicit Types (p : proc (W := W) (C := C) (Rnd := Rnd) (F := F)).

Lemma overrideListener_inv l cfg p cfg' p' :
  overrideListener l cfg p = (Ok cfg', p') → valid_config cfg → choices_ok cfg →
  valid_config cfg' ∧ choices_ok cfg' ∧ (l = "" → cfg' = cfg) ∧ (l ≠ "" → RpcListener cfg' = l) ∧
  LogLevel cfg' = LogLevel cfg.
Proof.
  unfold overrideListener. case_bool_decide as Hl; simpl; intros Hrun (? & ? & ? & Hm) Hch.
  { by injection Hrun as <- <-. }
  apply bind_Ok_inv in Hrun as ([] & p1 & Hr%wrapping_inv & Hrun). injection Hr as Hr <-.
  by injection Hrun as <- <-.
Qed.

(** What the daemon runs with when it starts: a valid configuration whose
    listener is the one of the flag, if it was given, and resolves, a Bitcoin
    network other than mainnet, and a log level that the logger knows, so a
    configuration with the level trace, which is one of its choices, never
    starts. *)
Theorem started_daemon_config fuel intercept ctx fs args p cfg app p' :
  runStartCmd (Kr := Kr) bbnclient dial fuel intercept ctx fs args p = (Ok (cfg, app), p') →
  valid_config cfg ∧ BTCNetParams cfg ≠ MainNetParams ∧
  (∃ lvl, parseLevel (LogLevel cfg) = Ok lvl) ∧ LogLevel cfg ≠ "trace" ∧
  ∃ l, fs_GetString rpcListenerFlag fs = Ok l ∧ (l ≠ "" → RpcListener cfg = l).
Proof.
  unfold runStartCmd. intros Hrun. apply bind_Ok_inv in Hrun as (home & p1 & _ & Hrun).
  apply bind_Ok_inv in Hrun as (pk & p2 & _ & Hrun).
  apply bind_Ok_inv in Hrun as (l & p3 & Hl%wrapping_inv & Hrun). injection Hl as Hl <-.
  apply bind_Ok_inv in Hrun as (pw & p4 & _ & Hrun).
  apply bind_Ok_inv in Hrun as (f & p5 & _ & Hrun).
  apply bind_Ok_inv in Hrun as (cfg0 & p6 & Hload%wrapping_inv & Hrun). injection Hload as Hload <-.
  apply loaded_ok in Hload as [Hv0 Hch0].
  apply bind_Ok_inv in Hrun as (cfg1 & p7 & Ho & Hrun).
  apply overrideListener_inv in Ho as (Hv & Hch & _ & Hov & _); [|done|done].
  apply bind_Ok_inv in Hrun as (lg & p8 & (f8 & Hlog & _)%wrapping_inv%zoom_inv & Hrun).
  apply bind_Ok_inv in Hrun as (f9 & p9 & _ & Hrun).
  apply bind_Ok_inv in Hrun as (db & p10 & _ & Hrun).
  apply bind_Ok_inv in Hrun as (a & p11 & _ & Hrun).
  apply bind_Ok_inv in Hrun as ([] & p12 & _ & Hrun). injection Hrun as <- <- _.
  assert (∃ lvl, parseLevel (LogLevel cfg1) = Ok lvl) as [lvl Hlvl].
  { unfold NewRootLoggerWithFile in Hlog. apply bind_Ok_inv in Hlog as ([] & g1 & _ & Hlog).
    apply bind_Ok_inv in Hlog as ([] & g2 & _ & Hlog). injection Hlog as Hlog _.
    unfold NewRootLogger in Hlog. simpl in Hlog. destruct (parseLevel _); [eauto|done..]. }
  split_and!; [done| |eauto| |eauto].
  - by apply (valid_not_mainnet cfg1).
  - intros Ht. by rewrite Ht in Hlvl.
Qed.
End theorems.
