(* ===== verification/FpdTx.v ===== *)
(** * FpdTx: the validation of a signed registration

    Models the command tx validate-signed-finality-provider of
    [src/finality-provider/cmd/fpd/daemon/tx.go]. The transaction, its codec
    and the checks of the Babylon message are parameters. *)

From stdpp Require Import base list strings.
From Stdlib Require Import ZArith Lia.
From S2P Require Import Prelude Errors Monad Types Babylon.

(** The libraries: [authclient.ReadTxFromFile], the messages of a transaction
    in both of their forms, the conversion to [MsgCreateFinalityProvider] with
    its [ValidateBasic], address, key and proof of possession, the signers of
    a message and the text of an address. [P] is the type of a proof of
    possession. *)
Class SdkTx (F : Type) := {
  Tx : Type;
  sdkMsg : Type;
  sdkMsgV2 : Type;
  PoPBTC_ : Type;
  ReadTxFromFile : string → F → outcome Tx;
  GetMsgsV2 : Tx → outcome (list sdkMsgV2);
  GetMsgs : Tx → list sdkMsg;
  GetMsgV2Signers : sdkMsgV2 → outcome (list bytes);
  BytesToString : bytes → outcome string;
}.

Record MsgCreateFinalityProvider (P : Type) := mkMsgCreateFinalityProvider {
  mc_Addr : string; mc_BtcPk : bytes; mc_Pop : P;
}.
Arguments mc_Addr {P}.
Arguments mc_BtcPk {P}.
Arguments mc_Pop {P}.

Class BbnMsgs (F : Type) `{!SdkTx F} := {
  as_MsgCreate : sdkMsg → option (MsgCreateFinalityProvider PoPBTC_);
  ValidateBasic : MsgCreateFinalityProvider PoPBTC_ → outcome unit;
  VerifyBIP340 : PoPBTC_ → bytes → bytes → outcome unit;
}.

Section tx.
Context `{Codec} {F : Type} `{!SdkTx F} `{!BbnMsgs F}.

(** [fmt.Errorf("pre: %w", err)] on an outcome *)
Definition wrapErr {A} (pre : string) (o : outcome A) : outcome A :=
  match o with Err e => Err (Wrap pre e "") | o => o end.

(** The body of the loop. The messages are not printed in the errors. *)
Definition validateMsg (m : sdkMsg) (msgV2 : sdkMsgV2) : outcome unit :=
  match as_MsgCreate m with
  | None => Err (ErrorString "unable to parse to MsgCreateFinalityProvider")
  | Some msg =>
      _ ← wrapErr "error validating basic msg: " (ValidateBasic msg);
      signers ← wrapErr "failed to get signers from msg: " (GetMsgV2Signers msgV2);
      match signers with
      | [] => Err (ErrorString "no signer at msg")
      | signer :: _ =>
          signerAddrStr ← BytesToString signer;
          signerBbnAddr ← wrapErr ("invalid signer address " +:+ signerAddrStr +:+
                            ", please sign with a valid bbn address, err: ") (AccAddressFromBech32 signerAddrStr);
          if negb (EqualFold (mc_Addr msg) signerAddrStr)
          then Err (ErrorString ("signer address: " +:+ signerAddrStr +:+
                      " is different from finality provider address: " +:+ mc_Addr msg))
          else wrapErr ("invalid Proof of Possession with signer " +:+ AccAddress_String signerBbnAddr +:+ ": ")
                 (VerifyBIP340 (mc_Pop msg) signerBbnAddr (mc_BtcPk msg))
      end
  end.

(** The loop over the messages; [msgsV2[i]] is indexed. *)
Fixpoint validateMsgs (msgs : list sdkMsg) (msgsV2 : list sdkMsgV2) : outcome unit :=
  match msgs with
  | [] => Ok tt
  | m :: msgs =>
      match msgsV2 with
      | [] => Fatal "index out of range"
      | v :: msgsV2 => _ ← validateMsg m v; validateMsgs msgs msgsV2
      end
  end.

(** [RunE], which writes this text when it succeeds; [txCtx] is the result of
    [client.GetClientTxContext]. *)
Definition validateSignedText : string := "The signed MsgCreateFinalityProvider is valid".

Definition runValidateSigned (txCtx : outcome unit) (args : list string) (f : F) : outcome string :=
  _ ← txCtx;
  match args !! 0 with
  | None => Fatal "index out of range"
  | Some path =>
      stdTx ← ReadTxFromFile path f;
      msgsV2 ← GetMsgsV2 stdTx;
      let msgs := GetMsgs stdTx in
      match msgs with
      | [] => Err (ErrorString ("invalid msg, there is no msg inside " +:+ path +:+ " file"))
      | _ => _ ← validateMsgs msgs msgsV2; Ok validateSignedText
      end
  end.

(** ** Theorems *)

(** A valid message: the first signer is the provider, in any case of the
    letters, and the proof of possession is for the signer and the key. *)
Definition msg_valid (m : sdkMsg) (v : sdkMsgV2) : Prop :=
  ∃ msg signer signers str addr,
    as_MsgCreate m = Some msg ∧ ValidateBasic msg = Ok tt ∧ GetMsgV2Signers v = Ok (signer :: signers) ∧
    BytesToString signer = Ok str ∧ AccAddressFromBech32 str = Ok addr ∧ EqualFold (mc_Addr msg) str = true ∧
    VerifyBIP340 (mc_Pop msg) addr (mc_BtcPk msg) = Ok tt.

Lemma validateMsg_spec m v : validateMsg m v = Ok tt ↔ msg_valid m v.
Proof.
  unfold validateMsg, msg_valid, wrapErr. split.
  - destruct (as_MsgCreate m) as [msg|] eqn:Em; [|done].
    destruct (ValidateBasic msg) as [[]| | |] eqn:Eb; simpl; try done.
    destruct (GetMsgV2Signers v) as [[|signer signers]| | |]; simpl; try done.
    destruct (BytesToString signer) as [str| | |] eqn:Es; simpl; try done.
    destruct (AccAddressFromBech32 str) as [addr| | |] eqn:Ea; simpl; try done.
    destruct (EqualFold (mc_Addr msg) str) eqn:Ef; simpl; [|done].
    destruct (VerifyBIP340 _ _ _) as [[]| | |] eqn:Ev; try done. intros _. exists msg, signer, signers, str, addr.
    split_and!; done.
  - intros (msg & signer & signers & str & addr & -> & -> & -> & Hs & Ha & Hf & Hv). simpl.
    rewrite Hs. simpl. rewrite Ha. simpl. by rewrite Hf, Hv.
Qed.

(** The validation accepts a file exactly when it holds a transaction with
    messages, each of them a registration that passes its basic checks, was
    first signed by the provider's own address and has a proof of possession
    for that address and key; one bad message refuses the whole file. *)
Theorem validate_signed_spec path f t v2 :
  ReadTxFromFile path f = Ok t → GetMsgsV2 t = Ok v2 → length (GetMsgs t) <= length v2 →
  runValidateSigned (Ok tt) [path] f = Ok validateSignedText ↔
  GetMsgs t ≠ [] ∧ Forall2 msg_valid (GetMsgs t) (take (length (GetMsgs t)) v2).
Proof.
  intros Hr Hv Hlen. unfold runValidateSigned. simpl. rewrite Hr. simpl. rewrite Hv. simpl.
  assert (∀ ms vs, length ms <= length vs →
    validateMsgs ms vs = Ok tt ↔ Forall2 msg_valid ms (take (length ms) vs)) as Hloop.
  { clear. induction ms as [|m ms IH]; intros [|v vs] Hl; simpl in *; try lia.
    - split; [constructor|done].
    - split; [constructor|done].
    - rewrite Forall2_cons, <-validateMsg_spec, <-IH by lia.
      destruct (validateMsg m v) as [[]| | |]; simpl; naive_solver. }
  destruct (GetMsgs t) as [|m ms] eqn:Eg; [naive_solver|].
  rewrite <-(Hloop _ _ Hlen). destruct (validateMsgs (m :: ms) v2) as [[]| | |]; simpl; naive_solver.
Qed.
End tx.
