(* ===== verification/SampleChain.v ===== *)
(** * SampleChain: a concrete environment of the daemon

    A small consumer chain, a keyring, an EOTS manager over them, a direct
    connection in place of gRPC and a Babylon client. They satisfy the laws
    the components rely on, so that the theorems apply to runs of the model on
    concrete inputs. *)

From stdpp Require Import base gmap list list_numbers strings pretty.
From Stdlib Require Import ZArith Lia Strings.Byte Sorting.Sorted.
From S2P Require Import Prelude Errors Monad Types Kvdb SampleEnv FpStore PubRandStore Metrics EotsManager EotsRpc.
From S2P Require Import Config ClientController Babylon Poller FpState Returns Voting FastSync FpInstance FpManager.
From S2P Require Import ChainKeyring App.

(** ** The chain *)

Record World := mkWorld {
  w_tip : Z;                                   (* the best height *)
  w_finalized : Z;                             (* the latest finalized height, 0 for none *)
  w_power : Z;                                 (* the voting power of every provider *)
  w_slashed : bool;
  w_jailed : bool;
  w_commits : gmap Z PubRandCommitResponse;    (* the last commitment *)
  w_refuse : option string;                    (* why votes are refused *)
  w_later : list (Z * Z);                      (* the best and finalized heights to come *)
}.

(** The chain moves on when its best block has been read. *)
Definition advance (w : World) : World :=
  match w_later w with
  | [] => w
  | (tip, finalized) :: later =>
      mkWorld tip finalized (w_power w) (w_slashed w) (w_jailed w) (w_commits w) (w_refuse w) later
  end.

(** A slashed provider has no power at the best height. *)
Definition power_at (h : Z) (w : World) : Z := if w_slashed w && (w_tip w <=? h)%Z then 0%Z else w_power w.

Definition toy_hash (h : Z) : bytes := be_enc 8 h.
Definition toy_block (w : World) (h : Z) : BlockInfo := mkBlockInfo h (toy_hash h) (h <=? w_finalized w)%Z.
Definition in_chain (h : Z) : bool := (0 <=? h)%Z && (h <=? MaxInt64)%Z.

Definition answer {A} (name : string) (ok : bool) (a : A) : outcome A :=
  if ok then Ok a else Err (ErrorString (name +:+ " not found")).

Definition accept (name : string) (w : World) : outcome TxResponse * World :=
  (match w_refuse w with
   | Some text => Err (ErrorString text)
   | None => Ok (mkTxResponse name [])
   end, w).

#[global] Instance toy_controller : ClientController World := {|
  cc_RegisterFinalityProvider _ _ _ _ := accept "register";
  cc_CommitPubRandList _ start num c _ w :=
    (Ok (mkTxResponse "commit" []),
     mkWorld (w_tip w) (w_finalized w) (w_power w) (w_slashed w) (w_jailed w)
       {[start := mkPubRandCommitResponse num c]} (w_refuse w) (w_later w));
  cc_SubmitFinalitySig _ _ _ _ _ := accept "vote";
  cc_SubmitBatchFinalitySigs _ _ _ _ _ := accept "votes";
  cc_UnjailFinalityProvider _ := accept "unjail";
  cc_QueryFinalityProviderVotingPower _ h w := (Ok (power_at h w), w);
  cc_QueryFinalityProviderSlashedOrJailed _ w := (Ok (w_slashed w, w_jailed w), w);
  cc_EditFinalityProvider _ _ _ w := (Err (ErrorString "not a signer"), w);
  cc_QueryLatestFinalizedBlocks _ w :=
    (Ok (if (0 <? w_finalized w)%Z && in_chain (w_finalized w)
         then Some [toy_block w (w_finalized w)] else None), w);
  cc_QueryLastCommittedPublicRand _ _ w := (Ok (w_commits w), w);
  cc_QueryBlock h w := (answer "block" (in_chain h && (h <=? w_tip w)%Z) (toy_block w h), w);
  cc_QueryBlocks start end_ limit w :=
    let n := Z.min (Z.min limit (end_ - start + 1)) (w_tip w - start + 1) in
    (answer "blocks" (in_chain start && (start + n <=? MaxInt64)%Z) (toy_block w <$> seqZ start n), w);
  cc_QueryBestBlock w := (answer "best block" (in_chain (w_tip w)) (toy_block w (w_tip w)), advance w);
  cc_QueryActivatedHeight w := (Ok 1%Z, w);
  cc_Close w := (Ok tt, w);
|}.

Lemma in_chain_range h : in_chain h = true → (0 <= h <= MaxInt64)%Z.
Proof. unfold in_chain. rewrite andb_true_iff, !Z.leb_le. done. Qed.

Lemma answer_Ok {A} name ok (a : A) b : answer name ok a = Ok b → ok = true ∧ b = a.
Proof. unfold answer. destruct ok; naive_solver. Qed.

Lemma seqZ_sorted start n : StronglySorted Z.lt (seqZ start n).
Proof.
  destruct (Z.le_gt_cases n 0) as [Hn|Hn]; [rewrite seqZ_nil by lia; constructor|].
  revert start. replace n with (Z.of_nat (Z.to_nat n)) by lia. generalize (Z.to_nat n) as k. clear.
  induction k as [|k IH]; intros start; [constructor|].
  rewrite seqZ_cons by lia. replace (Z.pred (Z.of_nat (S k))) with (Z.of_nat k) by lia.
  constructor; [apply IH|]. apply Forall_forall. intros h [? ?]%elem_of_seqZ. lia.
Qed.

Lemma toy_heights w (l : list Z) : Height <$> (toy_block w <$> l) = l.
Proof. rewrite <-list_fmap_compose. by apply list_fmap_id. Qed.

#[global] Instance toy_controller_laws : ClientControllerLaws World.
Proof.
  split; simpl; intros *.
  - intros Hr. injection Hr as Hr _. by apply answer_Ok in Hr as [_ ->].
  - intros Hr. injection Hr as Hr _. apply answer_Ok in Hr as [[Hc _]%andb_true_iff ->].
    by apply in_chain_range.
  - intros _ Hr. injection Hr as Hr _. apply answer_Ok in Hr as [_ ->]. rewrite toy_heights.
    split; [apply seqZ_sorted|]. apply Forall_fmap, Forall_forall. intros h [? ?]%elem_of_seqZ. simpl. lia.
  - intros Hr. injection Hr as Hr _. apply answer_Ok in Hr as [[Hc He]%andb_true_iff ->].
    apply in_chain_range in Hc. apply Z.leb_le in He.
    apply Forall_fmap, Forall_forall. intros h [? ?]%elem_of_seqZ. simpl. lia.
  - intros Hr. injection Hr as Hr _. apply answer_Ok in Hr as [Hc ->]. by apply in_chain_range.
  - intros _ w bs w'. destruct (andb _ _) eqn:Hc; [|done]. intros Hr. injection Hr as <- _.
    apply andb_true_iff in Hc as [_ Hc]. apply Forall_singleton. by apply in_chain_range.
  - intros Hr. injection Hr as <- _. unfold MaxInt64. lia.
  - intros _ w w'. by destruct (andb _ _).
Qed.

Lemma toy_block_hash h w b w' : cc_QueryBlock h w = (Ok b, w') → Hash b = toy_hash (Height b).
Proof. simpl. intros Hr. injection Hr as Hr _. by apply answer_Ok in Hr as [_ ->]. Qed.

Lemma toy_blocks_hash start end_ limit w bs w' :
  cc_QueryBlocks start end_ limit w = (Ok bs, w') → Forall (λ b, Hash b = toy_hash (Height b)) bs.
Proof.
  simpl. intros Hr. injection Hr as Hr _. apply answer_Ok in Hr as [_ ->].
  by apply Forall_fmap, Forall_forall.
Qed.

#[global] Instance toy_consistent : ConsistentChain World := {|
  app_hash := toy_hash;
  QueryBlock_hash := toy_block_hash;
  QueryBlocks_hash := toy_blocks_hash;
|}.

#[global] Instance toy_env : Env World := {|
  time_Now w := (0%Z, w);
  select_quit w := (false, w);
  poller_SkipToHeight h w := (Ok tt, w);
|}.

(** ** The keyring

    A finite map from names to keys; the first character of the mnemonic is
    the key. *)

Definition toy_record (o : option Byte.byte) : outcome Byte.byte :=
  match o with Some k => Ok k | None => Err (ErrorString "key not found") end.

Definition key_of_mnemonic (s : string) : Byte.byte :=
  match bytes_of_string s with b :: _ => b | [] => Byte.x00 end.

#[global] Instance toy_keyring : Keyring (gmap string Byte.byte) := {|
  KrRecord := Byte.byte;
  SigningAlgo := unit;
  input_Reset _ kr := kr;
  kr_Key name kr := (toy_record (kr !! name), kr);
  NewSigningAlgoFromString name _ :=
    if bool_decide (name = "secp256k1") then Ok tt else Err (ErrorString "unsupported algorithm");
  kr_NewAccount name mnemonic _ _ _ kr :=
    match kr !! name with
    | Some _ => (Err (ErrorString "key exists"), kr)
    | None => (Ok (key_of_mnemonic mnemonic), <[name := key_of_mnemonic mnemonic]> kr)
    end;
  record_GetPubKey k := Ok (KrSecp256k1PubKey [k]);
  record_GetLocal k := Some (KrSecp256k1PrivKey [k]);
|}.

#[global] Instance toy_keyring_laws : KeyringLaws (gmap string Byte.byte).
Proof.
  split; simpl.
  - by intros p kr name p' r.
  - by intros name kr name' p r.
  - intros name mn bp hd algo kr name' p r. simpl. destruct (kr !! name) eqn:Hk; simpl; [done|].
    destruct (decide (name = name')) as [->|]; [by rewrite Hk|by rewrite lookup_insert_ne].
  - intros name mn p hd algo kr r kr'. destruct (kr !! name) eqn:Hk; [done|].
    intros Hr. injection Hr as <- <-. by rewrite lookup_insert_eq.
  - intros name mn p hd algo kr r kr' kr0 _ _. exists [r], [r]. done.
Qed.

#[global] Instance toy_chain_keys : ChainKeys (gmap string Byte.byte) := {|
  record_GetAddress k := Ok [k];
  NewPoPBTC addr sk := Ok (sk :: addr);
  secp256k1_Sign sk msg := Ok (sk ++ msg);
|}.

(** A counter is the random source. *)
#[global] Instance toy_bip39 : Bip39 Z := {|
  bip39_NewEntropy _ n := (Ok [byte_of_Z n], (n + 1)%Z);
  bip39_NewMnemonic e := Ok (string_of_bytes e);
|}.

Abbreviation toy_manager := (LocalEOTSManager (gmap string Byte.byte) mem_db Z).

#[global] Instance toy_app_types : AppTypes := {|
  NewBIP340Signature b := Ok b;
  BIP340Signature_MustMarshal b := Ok b;
  PoPBTC_Marshal b := Ok b;
  VotingPowerTableNotUpdated_text h := "height: " +:+ pretty h +:+ ": voting power table not updated";
|}.

(** *** Every call returns. *)

#[global] Instance toy_crypto_returns : CryptoReturns.
Proof. by split. Qed.

#[global] Instance mem_kvdb_returns : KvdbReturns mem_db.
Proof.
  split; simpl.
  - intros f Hf db. simpl. specialize (Hf db). by destruct (f db).
  - intros A f db Hf. apply Hf.
  - intros n k v tx. unfold mem_Put. returns_auto.
Qed.

#[global] Instance toy_keyring_returns : KeyringReturns (gmap string Byte.byte).
Proof. split. intros name kr. simpl. unfold toy_record. returns_auto. Qed.

#[global] Instance toy_controller_returns : ClientControllerReturns World.
Proof. split; intros * w; simpl; unfold answer; returns_auto. Qed.

(** ** A connection in the same process *)

Record Conn (S : Type) := mkConn { conn_server : S }.
Arguments mkConn {S}.
Arguments conn_server {S}.

#[global] Instance toy_grpc {S} : Grpc (Conn S) S := {|
  grpc_server := conn_server;
  grpc_invoke Req Res f req c :=
    match f req (conn_server c) with
    | (Ok r, e') => (Ok r, mkConn e')
    | (Err x, e') => (Err (status_error x), mkConn e')
    | (_, e') => (Err (ErrorString "transport is closing"), mkConn e')
    end;
|}.

#[global] Instance toy_grpc_delivers {S} : GrpcDelivers (Conn S) S.
Proof.
  split; simpl; intros *; destruct (f req (conn_server c)) as [[] e']; simpl; intros; simplify_eq; eauto.
  naive_solver.
Qed.

(** ** A Babylon client *)

#[global] Instance toy_bbn_types : BbnTypes := {|
  PoPBTC := bytes;
  PoPBTC_Unmarshal b := Ok b;
  CmtProof := bytes;
  CmtProof_Unmarshal b := Ok b;
  SchnorrPubRand := bytes;
  NewSchnorrPubRandFromFieldVal v := v;
  BIP340Signature := bytes;
  NewBIP340SignatureFromBTCSig s := s;
  protoDescription_Unmarshal b := Ok (dec_description b);
  MustBech32ifyAddressBytes prefix b := Ok (prefix +:+ string_of_bytes b);
  SerializeCompressed_v pk := string_of_bytes [pk];
|}.

Definition toy_indexed (w : World) (h : Z) : IndexedBlock :=
  mkIndexedBlock h (toy_hash h) (h <=? w_finalized w)%Z.

Definition toy_description : Description := mkDescription "moniker" "identity" "site" "contact" "details".

Definition toy_list (status : QueriedBlockStatus) (page : PageRequest) (w : World) : list IndexedBlock :=
  match pg_Key page with
  | Some k =>
      let start := be_dec k in
      let n := Z.min (pg_Limit page) (w_tip w - start + 1) in
      if in_chain start && (start + n <=? MaxInt64)%Z then toy_indexed w <$> seqZ start n else []
  | None =>
      let h := match status with FINALIZED => w_finalized w | _ => w_tip w end in
      if in_chain h && (0 <? pg_Limit page)%Z then [toy_indexed w h] else []
  end.

#[global] Instance toy_bbn_client : BbnClient World := {|
  bbn_KeyAddress _ _ := Ok [Byte.x61];
  ReliablySendMsgs _ _ _ w := (Ok (Some (mkTxResponse "tx" [])), w);
  q_FinalityProvider _ w :=
    (Ok (mkFinalityProviderResponse _ "bbna" toy_description (Some (Ascii.ascii_of_nat 49)) 0 (w_jailed w)), w);
  q_FinalityProviderPowerAtHeight _ _ w := (Ok (w_power w), w);
  q_ListPubRandCommit _ _ w := (Ok (w_commits w), w);
  q_ListBlocks status page w := (Ok (toy_list status page w), w);
  q_Block h w := (answer "block" (in_chain h) (toy_indexed w h), w);
  q_ActivatedHeight w := (Ok 1%Z, w);
  rpc_BlockchainInfo _ _ w :=
    (Ok (if in_chain (w_tip w) then [mkCometHeader (w_tip w) (toy_hash (w_tip w))] else []), w);
  bbn_IsRunning _ := true;
  bbn_Stop w := (Ok tt, w);
|}.

Lemma toy_indexed_heights w (l : list Z) : ib_Height <$> (toy_indexed w <$> l) = l.
Proof. rewrite <-list_fmap_compose. by apply list_fmap_id. Qed.

#[global] Instance toy_bbn_client_laws : BbnClientLaws World.
Proof.
  split; simpl.
  - done.
  - intros status start limit w bs w' Hst Hr. injection Hr as <- _. unfold toy_list. simpl.
    rewrite be_dec_enc_u64 by done. destruct (andb _ _); [|by repeat constructor].
    rewrite toy_indexed_heights. split; [apply seqZ_sorted|].
    apply Forall_fmap, Forall_forall. intros h [? ?]%elem_of_seqZ. simpl. lia.
  - intros status page w bs w' Hr Hlim. injection Hr as <- _. unfold toy_list.
    destruct (pg_Key page); destruct (andb _ _); simpl; try lia. rewrite length_fmap, length_seqZ. lia.
  - intros status page w bs w' Hr. injection Hr as <- _. unfold toy_list.
    destruct (pg_Key page); destruct (andb _ _) eqn:Hc; try constructor;
      apply andb_true_iff in Hc as [Hc%in_chain_range He]; [|done|constructor].
    apply Z.leb_le in He. apply Forall_fmap, Forall_forall. intros h [? ?]%elem_of_seqZ. simpl. lia.
  - intros h w b w' Hr. injection Hr as Hr _. apply answer_Ok in Hr as [Hc _]. by apply in_chain_range.
  - intros w h w' Hr. injection Hr as <- _. unfold MaxInt64. lia.
  - intros a b w hs w'. destruct (in_chain (w_tip w)) eqn:Hc; intros Hr; injection Hr as <- _; constructor;
      [|constructor]. by apply in_chain_range in Hc as [_ ?].
Qed.
