(* ===== verification/SampleDaemon.v ===== *)
(** * SampleDaemon: a concrete environment of the commands

    The operating system, the libraries of the command lines and the parts of
    the Babylon libraries that only the daemons and their commands use, over
    the chain, the keyring and the database of [SampleChain]. They satisfy the
    laws the command line files rely on. *)

From stdpp Require Import base gmap list list_numbers strings pretty.
From Stdlib Require Import ZArith Lia Strings.Byte.
From S2P Require Import Prelude Errors Monad Version Paths Log Config Server EotsConfig Types Kvdb SampleEnv.
From S2P Require Import FpStore PubRandStore Metrics EotsManager EotsRpc Eotsd ClientController Babylon.
From S2P Require Import BabylonStaking Poller FpState Returns Voting FastSync FpInstance FpManager ChainKeyring.
From S2P Require Import App AppLoops FpdRpc AppStart FpdCmd FpdStart FpdTx SampleChain.

(** ** The operating system *)

Inductive Node :=
  | Directory
  | FpdConf (c : Config)
  | EotsConf (c : EotsConfig)
  | Data (b : bytes).

(** The files, the databases by their paths and the keyrings by their
    directories *)
Record Files := mkFiles {
  fl_nodes : gmap string Node;
  fl_dbs : gmap string mem_db;
  fl_keys : gmap string (gmap string Byte.byte);
}.

Definition fl_write (p : string) (n : Node) (f : Files) : Files :=
  mkFiles (<[p := n]> (fl_nodes f)) (fl_dbs f) (fl_keys f).

#[global] Instance toy_net : Net := {|
  ResolveTCPAddr a := if bool_decide (a = "") then Err (ErrorString "missing address") else Ok tt;
  ParseIP h := negb (bool_decide (h = ""));
|}.

#[global] Instance toy_kvdb_defaults : KvdbDefaults := {|
  DefaultBoltAutoCompactMinAge := 0;
  DefaultDBTimeout := minute;
|}.

#[global] Instance toy_network : Network := {|
  net_Listen a := if bool_decide (a = "127.0.0.1:1") then Err (ErrorString "permission denied") else Ok tt;
|}.

#[global] Instance toy_file_system : FileSystem Files := {|
  os_Stat p f := match fl_nodes f !! p with Some _ => StatOk | None => StatNotExist end;
  os_MkdirAll p f := (None, fl_write p Directory f);
  os_Readlink _ _ := None;
|}.

#[global] Instance toy_process : Process Files := {|
  os_Abs p _ := Ok p;
  os_UserHome _ := Some "/home";
  os_Getenv _ _ := "";
  os_OpenLog p f := (Ok tt, fl_write p (Data []) f);
  os_Open p f :=
    match fl_nodes f !! p with Some (Data b) => Ok (Ok b) | _ => Err (ErrorString "no such file") end;
|}.

Definition toy_db_path (c : BoltBackendConfig) : string := Join (bo_DBPath c) (bo_DBFileName c).

#[global] Instance toy_disk : Disk Files (gmap string Byte.byte) mem_db := {|
  keyring_New _ _ dir f := Ok (default ∅ (fl_keys f !! dir));
  keyring_sync _ _ dir kr f := mkFiles (fl_nodes f) (fl_dbs f) (<[dir := kr]> (fl_keys f));
  GetBoltBackend c f := Ok (default ∅ (fl_dbs f !! toy_db_path c));
  bolt_sync c db f := mkFiles (fl_nodes f) (<[toy_db_path c := db]> (fl_dbs f)) (fl_keys f);
|}.

(** *** go-flags *)

#[global] Instance chosen_dec choices v : Decision (chosen choices v).
Proof. unfold chosen. apply _. Defined.
#[global] Instance choices_ok_dec c : Decision (choices_ok c).
Proof. unfold choices_ok. apply _. Defined.

Definition parse_error : error := ErrorString "invalid value".

#[global] Instance toy_ini : IniFile Files Config := {|
  ini_ParseFile p f :=
    match fl_nodes f !! p with
    | Some (FpdConf c) => if decide (choices_ok c) then Ok c else Err parse_error
    | _ => Err parse_error
    end;
  ini_WriteFile p c f := (Ok tt, fl_write p (FpdConf (set_BTCNetParams NoParams c)) f);
|}.

#[global] Instance toy_ini_laws : IniFileLaws Files.
Proof.
  split; simpl; intros p.
  - intros f c. destruct (fl_nodes f !! p) as [[]|]; try done. by case_decide; intros; simplify_eq.
  - intros c f f' Hc Hw. injection Hw as <-. simpl. rewrite lookup_insert_eq.
    split; [done|]. by rewrite decide_True.
Qed.

#[global] Instance toy_eots_ini : IniFile Files EotsConfig := {|
  ini_ParseFile p f :=
    match fl_nodes f !! p with
    | Some (EotsConf c) => if decide (chosen LogLevel_choices (ec_LogLevel c)) then Ok c else Err parse_error
    | _ => Err parse_error
    end;
  ini_WriteFile p c f := (Ok tt, fl_write p (EotsConf c) f);
|}.

#[global] Instance toy_eots_ini_laws : EotsIniLaws Files.
Proof.
  split; simpl; intros p.
  - intros f c. destruct (fl_nodes f !! p) as [[]|]; try done. by case_decide; intros; simplify_eq.
  - intros c f f' Hc Hw. injection Hw as <-. simpl. rewrite lookup_insert_eq.
    split; [done|]. by rewrite decide_True.
Qed.

(** ** eotsd *)

#[global] Instance toy_eotsd_types : EotsdTypes Files := {|
  input_GetString _ f := (Ok "mnemonic", f);
  IsMnemonicValid m := negb (bool_decide (m = ""));
  sha256 b := b;
  schnorr_Verify s msg pk := bool_decide (s = pk :: msg);
  BIP340Signature_Marshal s := Ok s;
  PoP_ToHexStr b := Ok (hex_EncodeToString b);
|}.

#[global] Instance toy_eotsd_laws : EotsdLaws Files (gmap string Byte.byte) mem_db.
Proof.
  split; simpl.
  - intros sk msg s pk Hs Hpk. injection Hs as <-. injection Hpk as <-. by apply bool_decide_eq_true.
  - intros r pb sb Hp Hs. by injection Hp as <-; injection Hs as <-.
  - intros c db app b d kr f. by rewrite lookup_insert_eq.
  - intros app b d kr f. exists kr. by rewrite lookup_insert_eq.
Qed.

(** ** fpd *)

#[global] Instance toy_server_types : ServerTypes := {|
  protoDescription_Marshal d := Ok (enc_description d);
  sk_String k := string_of_bytes [k];
  sk_Negate_String k := string_of_bytes [k];
|}.

#[global] Instance toy_evidence : Evidence := {|
  evidence := bytes;
  evidence_Unmarshal s := Ok (bytes_of_string s);
  ExtractBTCSK b := match b with k :: _ => Ok k | [] => Err toy_error end;
|}.

#[global] Instance toy_cmd_types : CmdTypes := {|
  EnsureLength d :=
    if (String.length (Moniker d) <=? 70)%nat then Ok d else Err (ErrorString "invalid moniker length");
  ExportedFP_Marshal x := Ok (xf_BtcPk x);
|}.

#[global] Instance toy_grpc_conn {S} : GrpcConn (Conn S) := {|
  grpc_Dial a := if bool_decide (a = "") then Err (ErrorString "missing address") else Ok tt;
  conn_Close c := (Ok tt, c);
|}.

#[global] Instance toy_grpc_conn_laws {S} : GrpcConnLaws (Conn S) S.
Proof. by split. Qed.

(** *** cobra: the values of the flags and which were given *)

Record FlagSet := mkFlagSet {
  fl_strings : gmap string string;
  fl_bools : gmap string bool;
  fl_changed : gset string;
}.

Definition flag_value {A} (name : string) (o : option A) : outcome A :=
  match o with Some v => Ok v | None => Err (ErrorString ("flag accessed but not defined: " +:+ name)) end.

#[global] Instance toy_cobra : Cobra FlagSet := {|
  fs_GetString n fs := flag_value n (fl_strings fs !! n);
  fs_GetBool n fs := flag_value n (fl_bools fs !! n);
  fs_Changed n fs := bool_decide (n ∈ fl_changed fs);
  ValidateArgs chk args :=
    if decide (length args = match chk with NoArgs => 0 | ExactArgs n => n end)
    then Ok tt else Err (ErrorString "wrong number of arguments");
  parsed ds fs :=
    (∀ n v, FString n v ∈ ds → is_Some (fl_strings fs !! n)) ∧ (∀ n v, FBool n v ∈ ds → is_Some (fl_bools fs !! n));
|}.

#[global] Instance toy_cobra_laws : CobraLaws FlagSet.
Proof.
  split; simpl.
  - intros args. case_decide as Hl; [by rewrite <-length_zero_iff_nil|].
    split; [done|]. by intros ->.
  - intros n args. by case_decide.
  - intros ds fs n v [Hs _] Hd. destruct (Hs n v Hd) as [x ->]. by exists x.
  - intros ds fs n v [_ Hb] Hd. destruct (Hb n v Hd) as [x ->]. by exists x.
Qed.

Abbreviation toy_ctx := (ClientCtx (gmap string Byte.byte)).

#[global] Instance toy_sdk : SdkClient FlagSet (gmap string Byte.byte) := {|
  SetCmdClientContextHandler ctx _ := Ok ctx;
  GetClientQueryContext ctx _ := Ok ctx;
  NewKeyringFromBackend _ _ := Ok ∅;
|}.

(** *** Transactions: a message is a registration with its signer *)

#[global] Instance toy_sdk_tx : SdkTx Files := {|
  Tx := list (bytes * bytes);
  sdkMsg := bytes * bytes;
  sdkMsgV2 := bytes;
  PoPBTC_ := bytes;
  ReadTxFromFile p f :=
    match fl_nodes f !! p with
    | Some (Data b) => Ok [(b, b)]
    | _ => Err (ErrorString "no such file")
    end;
  GetMsgsV2 t := Ok (t.*1);
  GetMsgs t := t;
  GetMsgV2Signers b := Ok [b];
  BytesToString b := Ok (string_of_bytes b);
|}.

#[global] Instance toy_bbn_msgs : BbnMsgs Files := {|
  as_MsgCreate m := Some (mkMsgCreateFinalityProvider _ (string_of_bytes m.1) m.2 m.2);
  ValidateBasic _ := Ok tt;
  VerifyBIP340 pop addr pk := if bool_decide (pop = addr) then Ok tt else Err (ErrorString "invalid pop");
|}.

(** ** The staking queries: pages of the providers *)

#[global] Instance toy_staking_types : StakingTypes := {|
  TransactionKey := unit;
  TransactionProof := unit;
  InclusionProof := unit;
  NewInclusionProof _ _ := tt;
  BTCSlashingTx := bytes;
  BTCHeaderBytes := bytes;
  BTCHeaderInfo := Z;
  BTCSpvProof := bytes;
  BTCDelegation := bytes;
  ToBTCPK b := match b with pk :: _ => Ok pk | [] => Err toy_error end;
|}.

(** 205 providers, on three pages *)
Definition toy_providers (w : World) : list FinalityProviderResponse :=
  (λ i, mkFinalityProviderResponse _ ("bbn" +:+ pretty i) toy_description None 0 (w_jailed w)) <$> seq 0 205.

Definition toy_position (k : option bytes) : nat := match k with None => 0 | Some k => length k end.

Definition toy_page (page : PageRequest) (w : World) : list FinalityProviderResponse * option bytes :=
  let n := toy_position (pg_Key page) in
  let limit := Z.to_nat (pg_Limit page) in
  (take limit (drop n (toy_providers w)),
   if decide (n + limit < length (toy_providers w)) then Some (replicate (n + limit) Byte.x00) else None).

#[global] Instance toy_staking_client : StakingClient World := {|
  ReliablySendStaking _ _ _ w := (Ok (Some (mkTxResponse "tx" [])), w);
  q_FinalityProviders page w := (Ok (toy_page page w), w);
  q_BTCHeaderChainTip w := (Ok (w_tip w), w);
  q_CurrentEpoch w := (Ok 1%Z, w);
  q_VotesAtHeight _ w := (Ok [], w);
  q_BTCDelegations _ _ w := (Ok [], w);
  q_BTCCheckpointParams w := (Ok (mkCheckpointParams 10 100), w);
  q_BTCStakingParams w := (Ok (mkBTCStakingParams _ [] 1 [] 0 (Ascii.ascii_of_nat 49) 0), w);
|}.

#[global, refine] Instance toy_paged : PagedProviders World := {|
  all_fps := toy_providers;
  key_pos := length;
  next_key n := replicate n Byte.x00;
|}.
Proof.
  - intros n. apply length_replicate.
  - intros w key limit _. by exists w.
Defined.
