(* ===== verification/Examples.v ===== *)
(** * Examples: the theorems on concrete runs

    The environment of [SampleChain], the states reached in it by running the
    model, and for each property an application of it to such a run. *)

From stdpp Require Import base gmap list list_numbers strings pretty.
From Stdlib Require Import ZArith Lia Strings.Byte Sorting.Sorted.
From S2P Require Import Prelude Errors Monad Types Kvdb SampleEnv FpStore PubRandStore Metrics EotsManager EotsRpc.
From S2P Require Import Config ClientController Babylon Poller FpState Returns Voting FastSync FpInstance FpManager.
From S2P Require Import ChainKeyring App AppTickers SampleChain.

(** [run] proves [m s = (o, s')] by running [m], for [s'] the state after
    the run. *)
Ltac run := etransitivity; [apply surjective_pairing|]; apply (f_equal2 pair); [vm_compute; reflexivity|reflexivity].

(** Decides the equality of two finite maps by computation. *)
Ltac same_map := eapply (bool_decide_eq_true_1 _); vm_compute; reflexivity.

(** Bounds on concrete numbers *)
Ltac in_range := vm_compute; intuition discriminate.

(** ** The daemon, step by step *)

Definition ex_bbn : BBNConfig :=
  mkBBNConfig "key" "chain" "rpc" "grpc" "bbn" "test" (QArith_base.Qmake 3 2) "1ubbn" "/home/fpd" false second
    minute "json" "direct".

Definition ex_cfg : Config :=
  mkConfig "info" "babylon" 10 100 5 second second second 3 second 10 3 "127.0.0.1:12582" second "signet"
    SigNetParams (mkChainPollerConfig 4 second 1 true) (mkDBConfig "/home/fpd/data" "fpd.db" true false 0 0)
    ex_bbn "127.0.0.1:12581" (Some DefaultFpMetricsConfig).

Definition ex_world : World := mkWorld 20 0 1 false false ∅ None [].

Definition ex_em : toy_manager :=
  mkLocalEOTSManager ∅ (NewEOTSStore (∅ : mem_db)).2 107%Z NewEotsMetrics.

Abbreviation ex_app := (FinalityProviderApp World toy_manager mem_db (gmap string Byte.byte) Z).

Definition ex_stores : mem_db := (NewPubRandProofStore (NewFinalityProviderStore (∅ : mem_db)).2).2.

(** The application before its first provider *)
Definition ex_app0 : ex_app :=
  mkApp (mkMSt (NewFinalityProviderManager ex_cfg) ex_world ex_em ex_stores NewFpMetrics [])
    (mkKeyringSt ∅ 97%Z) false false.

Definition ex_commission : LegacyDec := Ascii.ascii_of_nat 49.

Definition ex_create : CreateFinalityProviderRequest :=
  mkCreateRequest "fp" "pw" "" "chain" None toy_description ex_commission.

(** The key the EOTS manager makes for it *)
Definition ex_pk : PublicKey := Byte.x6b.
Definition ex_sk : PrivateKey := Byte.x6b.
Definition ex_uid : bytes := SerializePubKey ex_pk.
Definition ex_hex : string := string_of_bytes ex_uid.

(** The provider is created, then registered. *)
Definition ex_app1 : ex_app := (handleCreateFinalityProviderRequest ex_create ex_app0).2.
Definition ex_app2 : ex_app := (App.RegisterFinalityProvider ex_hex ex_app1).2.

Definition ex_des : bytes := enc_description toy_description.
Definition ex_fp (st : FinalityProviderStatus) : FinalityProvider :=
  mkFinalityProvider "a" ex_uid ex_des "1" (Some (mkPoP [Byte.x6b; Byte.x61])) "fp" "chain" 0 0 st.

Definition ex_create_op : fps_op :=
  OpCreate [Byte.x61] ex_pk toy_description ex_commission "fp" "chain" [Byte.x6b; Byte.x61].

Definition ex_stored (st : FinalityProviderStatus) : StoredFinalityProvider :=
  mkStored "a" ex_pk toy_description ex_commission (mkPoP [Byte.x6b; Byte.x61]) "fp" "chain" 0 0 st.

Definition ex_registered : RegisterFinalityProviderResponse := mkRegisterResponse [Byte.x61] ex_uid "register".

Lemma ex_app1_run :
  handleCreateFinalityProviderRequest ex_create ex_app0 = (Ok (ToFinalityProviderInfo (ex_stored CREATED)), ex_app1).
Proof. run. Qed.

Lemma ex_app2_run : App.RegisterFinalityProvider ex_hex ex_app1 = (Ok ex_registered, ex_app2).
Proof. run. Qed.

Lemma ex_stores_wf : store_wf ex_stores.
Proof.
  split; [vm_compute; reflexivity|]. intros k v. simpl.
  replace (mem_bucket ex_stores finalityProviderBucketName) with (∅ : gmap bytes bytes) by same_map.
  by rewrite lookup_empty.
Qed.

Lemma ex_app0_wf : store_wf (app_db ex_app0).
Proof. exact ex_stores_wf. Qed.

#[local] Opaque ex_app0 ex_app1 ex_app2.

Lemma ex_app1_db : app_db ex_app1 = (fps_run ex_create_op ex_stores).2.
Proof. same_map. Qed.

Lemma ex_app2_db : app_db ex_app2 = (fps_run (OpSetStatus ex_pk REGISTERED) (app_db ex_app1)).2.
Proof. same_map. Qed.

Lemma ex_app1_wf : store_wf (app_db ex_app1).
Proof. rewrite ex_app1_db. apply fps_run_wf; [done|apply ex_stores_wf]. Qed.

Lemma ex_app2_wf : store_wf (app_db ex_app2).
Proof. rewrite ex_app2_db. apply fps_run_wf; [done|apply ex_app1_wf]. Qed.

Lemma ex_app1_fp : fp_lookup (app_db ex_app1) ex_uid = Some (ex_fp CREATED).
Proof. vm_compute. reflexivity. Qed.

Lemma ex_app2_fp : fp_lookup (app_db ex_app2) ex_uid = Some (ex_fp REGISTERED).
Proof. vm_compute. reflexivity. Qed.

(** The store as a finite map *)
Lemma ex_app2_abs : fps_abs (app_db ex_app2) {[ex_uid := ex_fp REGISTERED]}.
Proof.
  intros k. unfold fp_lookup. simpl.
  replace (mem_bucket (app_db ex_app2) finalityProviderBucketName)
    with ({[ex_uid := enc_fp (ex_fp REGISTERED)]} : gmap bytes bytes) by same_map.
  destruct (decide (k = ex_uid)) as [->|Hk].
  - rewrite !lookup_singleton_eq. by vm_compute.
  - by rewrite !lookup_singleton_ne.
Qed.

(** ** The stores *)


Lemma fps_heights_monotone_witness :
  ∃ fp', fp_lookup (fps_run_all [OpSetVoted ex_pk 21; OpSetProcessed ex_pk 5] (app_db ex_app2)) ex_uid = Some fp' ∧
    (0 <= LastVotedHeight fp')%Z.
Proof.
  destruct (fps_heights_monotone [OpSetVoted ex_pk 21; OpSetProcessed ex_pk 5] (app_db ex_app2) ex_uid
    (ex_fp REGISTERED)) as (fp' & Hl & Hv & _ & _);
    [repeat constructor; in_range|apply ex_app2_wf|apply ex_app2_fp|]. exists fp'. exact (conj Hl Hv).
Defined.

Lemma update_status_from_voting_power_witness :
  ∃ st db', UpdateFpStatusFromVotingPower 1 (ex_stored REGISTERED) (app_db ex_app2) = (Ok st, db') ∧ st = ACTIVE.
Proof.
  destruct (update_status_from_voting_power 1 (ex_stored REGISTERED) (ex_fp REGISTERED) (app_db ex_app2)
    {[ex_uid := ex_fp REGISTERED]}) as (st & db' & Hrun & _ & _ & Ha & _);
    [apply ex_app2_wf|apply ex_app2_abs|apply lookup_singleton_eq|reflexivity|by eexists|].
  exists st, db'. split; [exact Hrun|]. apply Ha; [discriminate|lia].
Defined.

Definition ex_prs : list FieldVal := [[Byte.x01]; [Byte.x02]].
Definition ex_proofs : list MerkleProof := [[Byte.x0a]; [Byte.x0b]].
Definition ex_proofs_db : mem_db := (AddPubRandProofList ex_prs ex_proofs ex_stores).2.

Lemma proofs_are_never_overwritten_witness :
  pr_le ex_proofs_db (AddPubRandProofList ex_prs [[Byte.x0c]; [Byte.x0d]] ex_proofs_db).2.
Proof. apply (proofs_are_never_overwritten ex_prs [[Byte.x0c]; [Byte.x0d]] ex_proofs_db). Defined.

Lemma add_get_proofs_roundtrip_witness :
  ∃ vs, GetPubRandProofList ex_prs ex_proofs_db = (Ok vs, ex_proofs_db).
Proof.
  destruct (add_get_proofs_roundtrip ex_prs ex_proofs (zip ex_prs ex_proofs) ex_stores ex_proofs_db)
    as (vs & Hvs & _); [reflexivity|unfold ex_proofs_db; run|]. exact (ex_intro _ vs Hvs).
Defined.

(** ** The EOTS manager *)

Definition ex_em1 : toy_manager := (lm_CreateKey "fp" "pw" "" ex_em).2.

#[local] Opaque ex_em1.

Lemma ex_created : lm_CreateKey "fp" "pw" "" ex_em = (Ok ex_uid, ex_em1).
Proof. run. Qed.

Lemma ex_key : em_key ex_em1 ex_uid "pw" ex_sk.
Proof. exists "fp", Byte.x6b. split_and!; vm_compute; reflexivity. Qed.


Definition ex_chain : bytes := bytes_of_string "chain".
Definition ex_msg : bytes := [Byte.x01; Byte.x02].
Definition ex_sig : ModNScalar := ex_sk :: priv_rand ex_sk ex_chain 23 ++ ex_msg.


Lemma sign_eots_has_no_slashing_guard_witness :
  ∃ e1 e2, em_SignEOTS ex_uid ex_chain ex_msg 23 "pw" ex_em1 = (Ok ex_sig, e1) ∧
    em_SignEOTS ex_uid ex_chain [Byte.x03] 23 "pw" e1 =
      (Ok (ex_sk :: priv_rand ex_sk ex_chain 23 ++ [Byte.x03]), e2).
Proof.
  apply (sign_eots_has_no_slashing_guard ex_em1 ex_uid ex_chain 23 "pw" ex_sk ex_msg [Byte.x03]);
    [apply ex_key|reflexivity|reflexivity].
Defined.

Lemma remote_manager_is_the_manager_witness :
  (cl_CreateKey "fp" "pw" "" (mkConn ex_em)).1 = Ok ex_uid ∧
  grpc_server (cl_CreateKey "fp" "pw" "" (mkConn ex_em)).2 = ex_em1.
Proof.
  destruct (remote_manager_is_the_manager (C := Conn toy_manager) (E := toy_manager)) as [Hc _].
  specialize (Hc "fp" "pw" "" (mkConn ex_em)). simpl grpc_server at 1 3 in Hc.
  change (em_CreateKey "fp" "pw" "" ex_em) with (lm_CreateKey "fp" "pw" "" ex_em) in Hc.
  rewrite ex_created in Hc. exact Hc.
Defined.

(** ** The Babylon controller *)


Lemma babylon_implements_interface_witness :
  ∃ b w', Babylon.QueryBlock 5 ex_world = (Ok b, w') ∧ Height b = 5%Z.
Proof.
  pose proof (babylon_implements_interface (W := World) ex_bbn) as Hl.
  assert (Babylon.QueryBlock 5 ex_world = (Ok (mkBlockInfo 5 (toy_hash 5) false), ex_world)) as Hq by reflexivity.
  exists (mkBlockInfo 5 (toy_hash 5) false), ex_world. split; [exact Hq|].
  exact (@QueryBlock_height _ _ _ _ Hl 5 ex_world _ _ Hq).
Defined.

Definition ex_range : list BlockInfo := (λ h, mkBlockInfo h (toy_hash h) false) <$> [3; 4; 5; 6]%Z.


Lemma ex_signer : has_signer ex_bbn ex_world "bbna".
Proof. exists [Byte.x61]. split; reflexivity. Qed.

Definition ex_blocks : list BlockInfo := [toy_block ex_world 21; toy_block ex_world 22].
Definition ex_sigs : list ModNScalar := [[Byte.x01]; [Byte.x02]].

Lemma batch_sends_one_vote_per_block_witness :
  ∃ msgs r, ReliablySendMsgs msgs [] voteErrs ex_world = (Ok (Some r), ex_world) ∧ length msgs = 2.
Proof.
  destruct (batch_sends_one_vote_per_block ex_bbn ex_pk ex_blocks ex_prs ex_proofs ex_sigs ex_world "bbna" ex_signer)
    as [_ Hb].
  destruct (Hb (mkTxResponse "tx" []) ex_world) as (msgs & r & Hs & _ & _ & Hlen & _); [reflexivity|].
  exact (ex_intro _ msgs (ex_intro _ r (conj Hs Hlen))).
Defined.

Definition ex_edit : Description := mkDescription "new" "" "" "" "".

Definition ex_edit_msg : MsgEditFinalityProvider :=
  mkMsgEditFinalityProvider _ "bbna" ex_uid (mkDescription "new" "identity" "site" "contact" "details")
    (Some ex_commission).

Lemma edit_keeps_unset_fields_witness :
  ∃ req reg, protoDescription_Unmarshal (enc_description ex_edit) = Ok req ∧
    q_FinalityProvider ex_hex ex_world = (Ok reg, ex_world) ∧
    Website (ed_Description ex_edit_msg) =
      if decide (Website req = "") then Website (fpr_Description reg) else Website req.
Proof.
  destruct (edit_keeps_unset_fields ex_bbn ex_pk None (enc_description ex_edit) ex_world "bbna" ex_edit_msg
    (Babylon.EditFinalityProvider ex_bbn ex_pk None (enc_description ex_edit) ex_world).2 ex_signer)
    as (req & reg & sent & Hreq & Hreg & _ & _ & _ & _ & Hf).
  - intros w1 fpr w2 Hq. injection Hq as _ <-. reflexivity.
  - reflexivity.
  - exists req, reg. split; [exact Hreq|]. split; [exact Hreg|]. apply Hf. set_solver.
Defined.

(** ** The poller *)

Definition ex_poller_cfg (buffer : Z) : ChainPollerConfig := mkChainPollerConfig buffer second 1 true.

(** A poller with room for one block: it retrieves blocks 3 and 4, and the
    consumer receives block 3. *)
Definition ex_p0 : PollerSt World :=
  (poller_Start 5 3 (mkPollerSt (NewChainPoller (ex_poller_cfg 1)) ex_world NewFpMetrics)).2.
Definition ex_p1 : PollerSt World := (waitForActivation_turn ex_p0).2.
Definition ex_p2 : PollerSt World := (retrieve_turn ex_p1).2.
Definition ex_p3 : PollerSt World :=
  upd (λ p, p_set_pc Selecting (p_set_buffer (blockInfoChan p ++ [toy_block ex_world 3]) p)) ex_p2.
Definition ex_p4 : PollerSt World := upd (p_set_buffer []) ex_p3.
Definition ex_trace : list event := [Activated 3; Silent; Silent; Delivered (toy_block ex_world 3)].

Lemma ex_started :
  poller_Start 5 3 (mkPollerSt (NewChainPoller (ex_poller_cfg 1)) ex_world NewFpMetrics) = (Ok tt, ex_p0).
Proof. reflexivity. Qed.

Lemma ex_steps : steps (mkSys ex_p0 CIdle) ex_trace (mkSys ex_p4 CIdle).
Proof.
  apply (steps_step _ (mkSys ex_p3 CIdle) _ _ [Activated 3; Silent; Silent]); [|apply (step_receive ex_p3 (toy_block ex_world 3) []); reflexivity].
  apply (steps_step _ (mkSys ex_p2 CIdle) _ _ [Activated 3; Silent]); [|apply (step_push ex_p2 CIdle (toy_block ex_world 3)); reflexivity].
  apply (steps_step _ (mkSys ex_p1 CIdle) _ _ [Activated 3]); [|apply (step_retrieve ex_p1 ex_p2 CIdle (Ok tt)); reflexivity].
  apply (steps_step _ (mkSys ex_p0 CIdle) _ _ []); [apply steps_refl|].
  apply (step_activated ex_p0 ex_p1 CIdle); reflexivity.
Qed.

Ltac poller_inv_auto := split; (reflexivity || discriminate || in_range).

Lemma ex_p0_inv : sys_inv (mkSys ex_p0 CIdle).
Proof. split; [|done]. poller_inv_auto. Qed.



Definition ex_p5 : PollerSt World := upd (λ p, (serve_skip 9 p).2) ex_p3.

Lemma skip_drains_the_buffer_witness :
  blockInfoChan (ps_poller ex_p5) = [] ∧ nextHeight (ps_poller ex_p5) = 9%Z.
Proof.
  destruct (skip_drains_the_buffer (mkSys ex_p3 (CSkipping 9)) (mkSys ex_p5 CIdle) 9 [] (mkSys ex_p5 CIdle))
    as (Hb & Hn & _); [split; [poller_inv_auto|in_range]|apply (step_skip_ok ex_p3 9); reflexivity|apply steps_refl|].
  exact (conj Hb Hn).
Defined.

(** The buffer is full and the poller holds block 4. *)
Definition ex_full : PollerSt World :=
  mkPollerSt (mkChainPoller true false (ex_poller_cfg 1) [toy_block ex_world 3] 5 0 (Pushing (toy_block ex_world 4)))
    ex_world NewFpMetrics.

Lemma skip_deadlocks_on_full_buffer_witness :
  ∃ y, step (mkSys ex_full (CSkipping 9)) Quit y ∧ p_quit (ps_poller (sys_st y)) = true.
Proof.
  assert (step (mkSys ex_full (CSkipping 9)) Quit (mkSys (poller_Stop ex_full).2 (CSkipping 9))) as Hs
    by (apply step_quit; reflexivity).
  eexists. split; [exact Hs|].
  apply (skip_deadlocks_on_full_buffer ex_full (toy_block ex_world 4) 9 Quit _ eq_refl eq_refl eq_refl Hs).
Defined.

(** Height 99 is above the tip, and twenty cycles have failed. *)
Definition ex_failing : PollerSt World :=
  mkPollerSt (mkChainPoller true false (ex_poller_cfg 1) [] 99 20 Retrieving) ex_world NewFpMetrics.

Lemma poller_gives_up_after_max_failures_witness :
  (retrieve_turn ex_failing).1 = Fatal "the poller has reached the max failed cycles, exiting".
Proof.
  destruct (poller_gives_up_after_max_failures ex_failing (retrieve_turn ex_failing).1 (retrieve_turn ex_failing).2)
    as [(msg & Hf)|[Hf|[(b & Hf & _)|(e & _ & _ & Ho & _)]]];
    [poller_inv_auto|reflexivity|apply surjective_pairing|discriminate Hf..|exact Ho].
Defined.

(** ** Voting *)

(** The instance of the registered provider, before it starts *)
Definition ex_instance : FinalityProviderInstance :=
  mkInstance ex_uid (ex_stored REGISTERED) ex_cfg "pw" None None [] false false false.

Abbreviation ex_state := (St World toy_manager mem_db).

Definition ex_s0 : ex_state :=
  mkSt ex_instance ex_world (mst_e (app_m ex_app2)) (app_db ex_app2) NewFpMetrics [].

(** The randomness of heights 21 to 30 is committed. *)
Definition ex_s1 : ex_state := (CommitPubRand 20 ex_s0).2.

Lemma ex_committed : CommitPubRand 20 ex_s0 = (Ok (Some (mkTxResponse "commit" [])), ex_s1).
Proof. run. Qed.

Lemma ex_s0_chain : GetChainID (st_ins ex_s0) = ex_chain.
Proof. vm_compute. reflexivity. Qed.

Lemma ex_s1_chain : GetChainID (st_ins ex_s1) = ex_chain.
Proof. vm_compute. reflexivity. Qed.

Lemma ex_s1_pk : GetBtcPk (st_ins ex_s1) = ex_pk.
Proof. vm_compute. reflexivity. Qed.

#[local] Opaque ex_s0 ex_s1.

Definition ex_block (h : Z) : BlockInfo := toy_block ex_world h.

Lemma ex_s0_key : holds_key ex_s0 ex_sk.
Proof.
  exists ex_uid. split; [vm_compute; reflexivity|]. exists "fp", Byte.x6b.
  split_and!; vm_compute; reflexivity.
Qed.

Lemma ex_s1_key : holds_key ex_s1 ex_sk.
Proof.
  exists ex_uid. split; [vm_compute; reflexivity|]. exists "fp", Byte.x6b.
  split_and!; vm_compute; reflexivity.
Qed.

Lemma commitment_covers_range_witness :
  is_Some (pr_lookup (st_db ex_s1) (FieldVal_Bytes (pub_rand ex_sk ex_chain 25))).
Proof.
  destruct (commitment_covers_range 20 ex_s0 (mkTxResponse "commit" []) ex_s1 ex_sk)
    as (last & start & s0 & c & proofs & sig & w' & Hl & Hn & _ & _ & _ & Hall);
    [apply ex_s0_key|in_range|apply ex_committed|].
  assert ((GetLastCommittedHeight ex_s0).1 = Ok 0%Z) as Hl0 by (vm_compute; reflexivity).
  rewrite Hl in Hl0. injection Hl0 as ->. vm_compute in Hn. injection Hn as <-.
  rewrite ex_s0_chain in Hall. apply Hall. apply list_elem_of_fmap. exists 4. split; [reflexivity|]. apply elem_of_seq. vm_compute. lia.
Defined.

Definition ex_s2 : ex_state := (SubmitFinalitySignature (ex_block 21) ex_s1).2.

Lemma ex_voted : SubmitFinalitySignature (ex_block 21) ex_s1 = (Ok (mkTxResponse "vote" []), ex_s2).
Proof. run. Qed.

#[local] Opaque ex_s2.


(** A chain that refuses votes *)
Definition ex_refused (text : string) (s : ex_state) : ex_state :=
  st_set_w (mkWorld 20 0 1 false false ∅ (Some text) []) s.

Definition ex_s3 : ex_state := (SubmitFinalitySignature (ex_block 21) (ex_refused "no" ex_s1)).2.

Lemma ex_not_voted :
  SubmitFinalitySignature (ex_block 21) (ex_refused "no" ex_s1) =
    (Err (Wrap "failed to send finality signature to the consumer chain: " (ErrorString "no") ""), ex_s3).
Proof. run. Qed.

#[local] Opaque ex_s3.

Lemma failed_vote_records_nothing_witness :
  st_ins ex_s3 = st_ins (ex_refused "no" ex_s1).
Proof.
  destruct (failed_vote_records_nothing (ex_block 21) (ex_refused "no" ex_s1)
    (Wrap "failed to send finality signature to the consumer chain: " (ErrorString "no") "") ex_s3 ex_not_voted)
    as [Hi _]. exact Hi.
Defined.

Lemma retry_loops_terminate_witness :
  (retrySubmitFinalitySignatureUntilBlockFinalized 5 0 (ex_block 21) (ex_refused "no" ex_s1)).1 ≠ OutOfFuel.
Proof.
  destruct (retry_loops_terminate 5 (ex_block 21) (ex_refused "no" ex_s1)) as [Hs _]; [in_range..|]. exact Hs.
Defined.

Definition ex_s4 : ex_state := (retrySubmitFinalitySignatureUntilBlockFinalized 5 0 (ex_block 21) ex_s1).2.

Lemma ex_retried :
  retrySubmitFinalitySignatureUntilBlockFinalized 5 0 (ex_block 21) ex_s1 =
    (Ok (Some (mkTxResponse "vote" [])), ex_s4).
Proof. run. Qed.

#[local] Opaque ex_s4.

Lemma retry_submit_outcome_witness :
  ∃ s0, SubmitFinalitySignature (ex_block 21) s0 = (Ok (mkTxResponse "vote" []), ex_s4).
Proof.
  exact (retry_submit_outcome 5 0 (ex_block 21) ex_s1 (Ok (Some (mkTxResponse "vote" []))) ex_s4 ex_retried).
Defined.

Definition ex_batch : ex_state := (SubmitBatchFinalitySignatures [ex_block 21; ex_block 22] ex_s1).2.
Definition ex_gap : ex_state := (SubmitBatchFinalitySignatures [ex_block 21; ex_block 23] ex_s1).2.

Lemma contiguous_batch_is_valid_witness : GetLastVotedHeight (st_ins ex_batch) = 22%Z.
Proof.
  destruct (contiguous_batch_is_valid (ex_block 21) [ex_block 22] ex_s1 (mkTxResponse "votes" []) ex_batch ex_sk)
    as (proofs & sigs & w' & _ & _ & _ & Hv & _);
    [apply ex_s1_key|repeat constructor; in_range|reflexivity|unfold ex_batch; run|]. exact Hv.
Defined.


(** ** Fast sync *)

(** The chain is at height 24 with height 20 finalized. *)
Definition ex_behind : ex_state := st_set_w (mkWorld 24 20 1 false false ∅ None []) ex_s1.
Definition ex_sync : FastSyncResult := mkFastSyncResult [mkTxResponse "votes" []] 24 24.
Definition ex_synced : ex_state := (tryFastSync 20 (ex_block 24) ex_behind).2.

Lemma ex_synced_run : tryFastSync 20 (ex_block 24) ex_behind = (Ok (Some ex_sync), ex_synced).
Proof. run. Qed.

#[local] Opaque ex_behind ex_synced.


Lemma fast_sync_terminates_witness :
  (FastSync 5 21 24 ex_behind).1 ≠ OutOfFuel.
Proof. exact (fast_sync_terminates 5 21 24 ex_behind ltac:(in_range) ltac:(in_range)). Defined.

(** ** The instance *)

Definition ex_events : list ins_event := [EvLagTick; EvLagging; EvRandTick].
Definition ex_ran : ex_state := (run_events 20 ex_events ex_s0).2.

Lemma lagging_channel_has_room_witness : i_laggingTarget (st_ins ex_ran) = None.
Proof.
  apply (lagging_channel_has_room 20 ex_events ex_s0 (Ok tt) ex_ran);
    [intros _; vm_compute; reflexivity|unfold ex_ran; run|vm_compute; reflexivity].
Defined.

Lemma new_instance_spec_witness :
  ∃ sfp, stored_of (ex_fp REGISTERED) sfp ∧
    NewFinalityProviderInstance ex_uid ex_cfg "pw" (app_db ex_app2) =
      (Ok (mkInstance ex_uid sfp ex_cfg "pw" None None [] false false false), app_db ex_app2).
Proof. exact (new_instance_spec ex_pk ex_cfg "pw" (app_db ex_app2) (ex_fp REGISTERED) ex_app2_wf ex_app2_fp). Defined.

(** ** The manager *)

Abbreviation ex_mgr := (MSt World toy_manager mem_db).

(** A manager over the committed randomness, on a chain at height 25 *)
Definition ex_m0 : ex_mgr :=
  mkMSt (NewFinalityProviderManager ex_cfg) (mkWorld 25 0 1 false false ∅ None []) (st_e ex_s1) (st_db ex_s1)
    NewFpMetrics [].

(** It starts, votes for block 21, stops, starts again and votes for 22. *)
Definition ex_mgr_events : list mgr_event :=
  [MStart ex_uid "pw"; MInstance (EvBlock (ex_block 21)); MStatusTick; MStop; MStart ex_uid "pw";
   MInstance (EvBlock (ex_block 21)); MInstance (EvBlock (ex_block 22))].

Definition ex_m1 : ex_mgr := (mgr_runs 20 ex_mgr_events ex_m0).2.

Lemma ex_m1_run : mgr_runs 20 ex_mgr_events ex_m0 = (Ok tt, ex_m1).
Proof. run. Qed.

Lemma ex_m1_signed :
  mst_signed ex_m1 = [(21, getMsgToSignForVote 21 (toy_hash 21)); (22, getMsgToSignForVote 22 (toy_hash 22))]%Z.
Proof. vm_compute. reflexivity. Qed.

Lemma ex_block_from_chain h :
  in_chain h = true → (h <= 25)%Z → from_chain (W := World) (ex_block h).
Proof.
  intros Hc Hh. exists h, (mkWorld 25 0 1 false false ∅ None []), (mkWorld 25 0 1 false false ∅ None []). simpl.
  rewrite Hc. unfold answer. by destruct (Z.leb_spec h 25); [|lia].
Qed.

#[local] Opaque ex_m0 ex_m1.

Lemma manager_never_equivocates_witness :
  Forall (λ e, e.1 = 21%Z → e.2 = getMsgToSignForVote 21 (toy_hash 21)) (mst_signed ex_m1).
Proof.
  apply Forall_forall. intros [h m] Hin Hh. simpl in Hh |- *. subst h.
  apply (manager_never_equivocates 20 ex_mgr_events ex_m0 ex_m1 (Ok tt) 21 m
    (getMsgToSignForVote 21 (toy_hash 21))).
  - repeat constructor; apply ex_block_from_chain; reflexivity || discriminate.
  - assert (mst_signed ex_m0 = []) as -> by (vm_compute; reflexivity). constructor.
  - apply ex_m1_run.
  - exact Hin.
  - rewrite ex_m1_signed. constructor.
Defined.

(** The same events from the registered provider's database *)
Definition ex_m2 : ex_mgr := app_m ex_app2.
Definition ex_m3 : ex_mgr := (mgr_runs 20 ex_mgr_events ex_m2).2.

Lemma manager_history_is_safe_witness :
  ∃ fp', fp_lookup (mst_db ex_m3) ex_uid = Some fp' ∧ (LastVotedHeight fp' <= LastProcessedHeight fp')%Z.
Proof.
  destruct (manager_history_is_safe 20 ex_mgr_events ex_m2 ex_m3 (Ok tt) ex_uid (ex_fp REGISTERED))
    as (_ & (fp' & Hl & _ & _ & Hle) & _);
    [repeat constructor; in_range|unfold ex_m3; run|apply ex_app2_wf|apply ex_app2_fp|].
  exists fp'. exact (conj Hl Hle).
Defined.

(** The provider is slashed on the chain. *)
Definition ex_slashed_world : World := mkWorld 25 0 0 true false ∅ None [].
Definition ex_m4 : ex_mgr :=
  mkMSt (mkManager ex_cfg (Some ex_instance) true false) ex_slashed_world (mst_e (app_m ex_app2))
    (app_db ex_app2) NewFpMetrics [].
Definition ex_m5 : ex_mgr := (statusUpdateTick ex_m4).2.

Lemma status_update_spec_witness :
  fpm_fpIns (mst_m ex_m5) = None ∧ SetFpStatus ex_pk SLASHED (mst_db ex_m4) = (Ok tt, mst_db ex_m5).
Proof.
  destruct (status_update_spec ex_m4 ex_m5 ex_instance (toy_block ex_slashed_world 25) 0 true false
    ex_slashed_world ex_slashed_world ex_slashed_world) as (Hn & Hd & _);
    [reflexivity..|unfold ex_m5; run|]. exact (conj Hn Hd).
Defined.

Definition ex_critical : CriticalError :=
  mkCriticalError (Wrap "fast sync: " (Sentinel ErrFinalityProviderSlashed) "") ex_uid.
Definition ex_m6 : ex_mgr := (handleCriticalErr ex_critical ex_m4).2.

Lemma critical_error_policy_witness : fpm_fpIns (mst_m ex_m6) = None.
Proof.
  pose proof (critical_error_policy ex_critical ex_m4 (Ok tt) ex_m6 ltac:(unfold ex_m6; run)) as Hc.
  simpl in Hc. exact (proj1 (Hc eq_refl)).
Defined.

Definition ex_slashed_text : string := "rpc error: the finality provider has already been slashed".
Definition ex_t : ex_state := ex_refused ex_slashed_text ex_s1.
Definition ex_t1 : ex_state := (hasVotingPower (ex_block 21) ex_t).2.
Definition ex_t2 : ex_state := (SubmitFinalitySignature (ex_block 21) ex_t1).2.

Lemma ex_t1_run : hasVotingPower (ex_block 21) ex_t = (Ok true, ex_t1).
Proof. run. Qed.

Lemma ex_t2_run : SubmitFinalitySignature (ex_block 21) ex_t1 =
  (Err (Wrap "failed to send finality signature to the consumer chain: " (ErrorString ex_slashed_text) ""), ex_t2).
Proof. run. Qed.

#[local] Opaque ex_t ex_t1 ex_t2.

Lemma slashed_vote_ends_the_process_witness :
  ∃ t' ce, handleBlock 1 (ex_block 21) ex_t = (Ok tt, t') ∧
    handleCriticalErr ce ex_m4 = (Fatal instanceTerminatingMsg, ex_m4).
Proof.
  destruct (slashed_vote_ends_the_process 0 (ex_block 21) ex_t ex_t1 ex_t2 ex_slashed_text
    ltac:(vm_compute; reflexivity) ex_t1_run ex_t2_run ltac:(vm_compute; reflexivity)) as (t' & ce & Hh & _ & Hc).
  exists t', ce. exact (conj Hh (Hc ex_m4 ex_instance eq_refl)).
Defined.

(** A chain that does not answer *)
Definition ex_m7 : ex_mgr := mst_set_w (mkWorld (-1) 0 1 false false ∅ None []) ex_m2.
Definition ex_m8 : ex_mgr := (StartFinalityProvider 20 ex_uid "pw" ex_m7).2.

Lemma ex_m8_run : StartFinalityProvider 20 ex_uid "pw" ex_m7 =
  (Err (Wrap ("failed to bootstrap the finality-provider " +:+ ex_hex +:+ ": ")
         (ErrorString "best block not found") ""), ex_m8).
Proof. run. Qed.

Lemma ex_m7_empty : fpm_fpIns (mst_m ex_m7) = None.
Proof.
  assert (match fpm_fpIns (mst_m ex_m7) with Some _ => true | None => false end = false) as Hm
    by (vm_compute; reflexivity).
  destruct (fpm_fpIns (mst_m ex_m7)); [discriminate|reflexivity].
Qed.

Lemma failed_start_blocks_manager_witness :
  fpm_fpIns (mst_m ex_m8) = None ∨
  ∃ i, fpm_fpIns (mst_m ex_m8) = Some i ∧
    (StartFinalityProvider 20 (replicate 32 Byte.x01) "" ex_m8).1 =
      Err (ErrorString ("the finality-provider instance " +:+ GetBtcPkHex i +:+ " is already started")).
Proof.
  destruct (failed_start_blocks_manager 20 ex_uid "pw" ex_m7 _ ex_m8 ex_m7_empty ex_m8_run)
    as [Hn|(i & Hi & Hs & _)]; [left; exact Hn|right].
  exists i. exact (conj Hi (Hs 20 (replicate 32 Byte.x01) "")).
Defined.

(** ** The application *)

Definition ex_app3 : ex_app := (app_UnjailFinalityProvider ex_uid ex_app2).2.

Lemma unjail_spec_witness :
  updates ex_uid (fp_with_status INACTIVE (ex_fp REGISTERED)) (app_db ex_app2) (app_db ex_app3).
Proof.
  destruct (unjail_spec ex_pk (ex_fp REGISTERED) ex_app2 (Ok "unjail") ex_app3 ex_app2_wf ex_app2_fp
    ltac:(unfold ex_app3; run)) as [Hu _]. exact Hu.
Defined.

Definition ex_app4 : ex_app := (SyncFinalityProviderStatus 20 ex_app2).2.

Lemma sync_reports_running_witness :
  ∃ i, fpm_fpIns (mst_m (app_m ex_app4)) = Some i ∧ IsRunning i = true.
Proof. exact (sync_reports_running 20 ex_app2 true ex_app4 ltac:(unfold ex_app4; run)). Defined.

(** The chain does not answer while the provider starts, and answers later. *)
Definition ex_app5 : ex_app :=
  App.set_m (mst_set_w (mkWorld (-1) 0 1 false false ∅ None (replicate 4 (-1, 0) ++ [(20, 0)])%Z) (app_m ex_app2)) ex_app2.
Definition ex_app6 : ex_app := (App.onM (StartFinalityProvider 20 ex_uid "pw") ex_app5).2.

Definition ex_start_error : error :=
  Wrap ("failed to bootstrap the finality-provider " +:+ ex_hex +:+ ": ") (ErrorString "best block not found") "".

Lemma ex_app6_run : App.onM (StartFinalityProvider 20 ex_uid "pw") ex_app5 = (Err ex_start_error, ex_app6).
Proof. run. Qed.

Lemma ex_app6_instance :
  ∃ i, app_ins ex_app6 = Some i ∧ GetBtcPkHex i = MarshalHex (GetBIP340BTCPK (ex_stored REGISTERED)).
Proof.
  assert (match app_ins ex_app6 with
          | Some i => bool_decide (GetBtcPkHex i = MarshalHex (GetBIP340BTCPK (ex_stored REGISTERED)))
          | None => false end = true) as Hi by (vm_compute; reflexivity).
  destruct (app_ins ex_app6) as [i|]; [|discriminate]. exists i. split; [reflexivity|].
  by apply bool_decide_eq_true in Hi.
Qed.

Lemma ex_app6_list : (GetAllStoredFinalityProviders (app_db ex_app6)).1 = Ok [ex_stored REGISTERED].
Proof. vm_cast_no_check (eq_refl (Ok [ex_stored REGISTERED])). Qed.

Lemma ex_get_all_reads (db : mem_db) : (GetAllStoredFinalityProviders db).2 = db.
Proof. reflexivity. Qed.

Lemma ex_app6_stored :
  GetAllStoredFinalityProviders (app_db ex_app6) = (Ok [ex_stored REGISTERED], app_db ex_app6).
Proof. etransitivity; [apply surjective_pairing|]. by rewrite ex_get_all_reads, ex_app6_list. Qed.

Lemma failed_start_ends_sync_witness :
  ∃ a i, syncChainFpStatusLoop 20 [CaseTick; CaseTick; CaseQuit] ex_app6 = (Ok DoneByTurn, a) ∧
    app_ins a = Some i ∧ i_poller i = None.
Proof.
  destruct ex_app6_instance as (i & Hi & Hpk).
  destruct (failed_start_ends_sync 20 ex_uid "pw" [CaseTick; CaseQuit] ex_app5 ex_app6 ex_start_error i
    (ex_stored REGISTERED) (ex_block 20) (mst_w (app_m ex_app6)) 1 (mst_w (app_m ex_app6)))
    as (a & Hl & Ha & _ & Hp).
  - reflexivity.
  - exact ex_app6_run.
  - exact Hi.
  - vm_compute. reflexivity.
  - exact Hpk.
  - exact ex_app6_stored.
  - vm_compute. reflexivity.
  - vm_compute. reflexivity.
  - exists a, i. exact (conj Hl (conj Ha Hp)).
Defined.

Lemma metrics_loop_observes_witness :
  ∃ a, metricsUpdateLoop [CaseTick; CaseQuit] ex_app2 = (Ok DoneByQuit, a) ∧
    fpStatus (mst_fm (app_m a)) !! ex_hex = Some (status_number REGISTERED).
Proof.
  destruct (metrics_loop_observes DefaultFpMetricsConfig [CaseTick; CaseQuit] ex_app2)
    as (r & a & Hr & Hq & (_ & Hdb & _) & He).
  - vm_compute. reflexivity.
  - vm_compute. reflexivity.
  - exact ex_app2_wf.
  - destruct Hq as [_ Hq]. exists a. split; [rewrite Hr; f_equal; f_equal; apply Hq; repeat constructor|].
    apply (He eq_refl ex_uid (ex_fp REGISTERED)). rewrite Hdb. exact ex_app2_fp.
Defined.
