(* ===== verification/DaemonExamples.v ===== *)
(** * DaemonExamples: the theorems of the daemons on concrete runs

    The environment of [SampleDaemon] and the states of [Examples]: the
    files, command lines and servers of the two daemons, and for each property
    about them an application to a run. *)

From stdpp Require Import base gmap list list_numbers strings pretty.
From Stdlib Require Import ZArith Lia Strings.Byte.
From S2P Require Import Prelude Errors Monad Version Paths Log Config Server EotsConfig Types Kvdb SampleEnv.
From S2P Require Import FpStore PubRandStore Metrics EotsManager EotsRpc Eotsd ClientController Babylon.
From S2P Require Import BabylonStaking Poller FpState Returns Voting FastSync FpInstance FpManager ChainKeyring.
From S2P Require Import App AppLoops FpdRpc AppStart FpdCmd FpdStart FpdTx SampleChain SampleDaemon Examples.

(** ** The RPC server of the daemon *)

Definition ex_rpc_app : ex_app :=
  (rpc_RegisterFinalityProvider 20 (mkRegisterFPRequest ex_hex "pw") ex_app1).2.

Lemma ex_rpc_run :
  rpc_RegisterFinalityProvider 20 (mkRegisterFPRequest ex_hex "pw") ex_app1 = (Ok "register", ex_rpc_app).
Proof. unfold ex_rpc_app. run. Qed.

#[local] Opaque ex_rpc_app.


Lemma rpc_queries_agree_witness :
  ∃ l, rpc_QueryFinalityProviderList tt ex_app2 = (Ok l, ex_app2) ∧ ex_hex ∈ info_BtcPkHex <$> l.
Proof.
  destruct (rpc_queries_agree ex_app2 ex_app2_wf) as (l & Hl & _ & Hk & _).
  exists l. split; [exact Hl|]. apply (Hk ex_uid). rewrite ex_app2_fp. by eexists.
Defined.


(** ** The files of the daemons *)

Definition ex_dc : BabylonConfig :=
  mkBabylonConfig "node0" "chain-test" "http://localhost:26657" "" "bbn" "test" (QArith_base.Qmake 3 2) "1ubbn" "/home"
    true (20 * second) minute "json" "direct" "".

Definition ex_files : Files := mkFiles ∅ ∅ ∅.

Lemma default_config_roundtrip_witness :
  ∃ c f', ini_WriteFile (ConfigFile "/home/fpd") c ex_files = (Ok tt, f') ∧
    LoadConfig "/home/fpd" f' = Ok c ∧ valid_config c.
Proof.
  destruct (default_config_roundtrip ex_dc "/home/fpd" ex_files
    (ini_WriteFile (ConfigFile "/home/fpd") (defaultSettings ex_dc "/home/fpd") ex_files).2)
    as (c & Hc & Hv & _ & Hload); [reflexivity|reflexivity|].
  vm_compute in Hc. injection Hc as <-.
  eexists _, _. split; [reflexivity|]. split; [apply Hload; reflexivity|exact Hv].
Defined.

(** The home of fpd with the default configuration *)
Definition ex_home : Files :=
  (ini_WriteFile (ConfigFile "/home/fpd") (defaultSettings ex_dc "/home/fpd") ex_files).2.

(** ** eotsd: init, keys add, sign-schnorr and verify-schnorr-sig *)

Definition ex_cli (strings : list (string * string)) (args : list string) : cliContext :=
  mkCliContext (λ n, default "" ((list_to_map strings : gmap string string) !! n)) (λ _, false) args.

Definition ex_add_ctx : cliContext :=
  ex_cli [("home", "/home/eotsd"); ("key-name", "fp"); ("passphrase", "pw"); ("keyring-backend", "test")] [].

Abbreviation ex_eotsd := (eotsd Files Z).

Definition ex_eotsd0 : ex_eotsd := mkEotsd (fl_write "/data" (Data ex_msg) ex_files) 107%Z [].
Definition ex_eotsd1 : ex_eotsd := (initHome "/home/eotsd" ex_add_ctx ex_eotsd0).2.
Definition ex_eotsd2 : ex_eotsd := (addKey ex_add_ctx ex_eotsd1).2.

Lemma ex_added : addKey ex_add_ctx ex_eotsd1 = (Ok tt, ex_eotsd2).
Proof. unfold ex_eotsd2. run. Qed.


Definition ex_sign_ctx : cliContext :=
  ex_cli [("home", "/home/eotsd"); ("key-name", "fp"); ("passphrase", "pw"); ("keyring-backend", "test")] ["/data"].
Definition ex_eotsd3 : ex_eotsd := (SignSchnorr ex_sign_ctx ex_eotsd2).2.

Lemma ex_signed : SignSchnorr ex_sign_ctx ex_eotsd2 = (Ok tt, ex_eotsd3).
Proof. unfold ex_eotsd3. run. Qed.

(** The command line that verifies what was printed *)
Definition ex_verify_ctx (d : DataSigned) : cliContext :=
  ex_cli [("eots-pk", ds_PubKeyHex d); ("signature", ds_SchnorrSignatureHex d)] ["/data"].

Definition ex_data : DataSigned :=
  mkDataSigned "fp" ex_hex (hex_EncodeToString ex_msg) (hex_EncodeToString (ex_sk :: ex_msg)).


(** ** fpd: the start of the application and its loops *)

Definition ex_started_app : ex_app := (startApp 20 ex_hex "pw" ex_app2).2.

Lemma start_app_spec_witness :
  running ex_started_app ∨
  ∃ pk a1 e, StartHandlingFinalityProvider 20 pk "pw" a1 = (Err e, ex_started_app) ∧
    errors_Is e ErrFinalityProviderJailed = true.
Proof.
  destruct (start_app_spec 20 ex_hex "pw" ex_app2 (Ok tt) ex_started_app ltac:(unfold ex_started_app; run))
    as [Hr|(pk & a1 & e & _ & _ & Hs & He)]; [left; exact Hr|right].
  exists pk, a1, e. exact (conj Hs He).
Defined.

Abbreviation ex_loops := (loops (W := World) (E := toy_manager) (Db := mem_db) (KR := gmap string Byte.byte) (Rnd := Z)).

(** A caller has its registration accepted, and [Stop] is called before the
    event is handed over; another caller is at its send. *)
Definition ex_event : registeredEvent := mkRegisteredEvent 0 ex_uid [Byte.x61] "register".
Definition ex_stopping : ex_loops :=
  mkLoops ex_app1 true false (RegSending ex_event) {[1 := Sending (ReqCreate ex_create)]} WaitingForLoops.

(** Another call comes in. *)
Definition ex_stopping1 : ex_loops := with_client 2 (Sending (ReqCreate ex_create)) ex_stopping.

Lemma ex_stopping_run : rtc lp_step ex_stopping ex_stopping1.
Proof. apply rtc_once. by apply (step_call _ 2 (ReqCreate ex_create)). Qed.

Lemma shutdown_hangs_on_registration_witness :
  lp_stop ex_stopping1 ≠ LoopsStopped ∧ lp_clients ex_stopping1 !! 1 = Some (Sending (ReqCreate ex_create)).
Proof.
  destruct (shutdown_hangs_on_registration ex_stopping ex_stopping1 ex_event eq_refl eq_refl eq_refl ex_stopping_run)
    as (_ & Hn & Hc).
  split; [exact Hn|]. apply (Hc 1 (ReqCreate ex_create)). reflexivity.
Defined.

(** A call that creates the first provider *)
Definition ex_loops0 : ex_loops := mkLoops ex_app0 false true RegSelect ∅ NotStopped.
Definition ex_info : FinalityProviderInfo := ToFinalityProviderInfo (ex_stored CREATED).
Definition ex_loops1 : ex_loops :=
  with_client 0 (Returned (ReqCreate ex_create) (RespCreated ex_info))
    (with_client 0 (Awaiting (ReqCreate ex_create) (Some (RespCreated ex_info)))
       (with_app ex_app1 (with_client 0 (Sending (ReqCreate ex_create)) ex_loops0))).

Lemma ex_loops_run : rtc lp_step ex_loops0 ex_loops1.
Proof.
  eapply rtc_l; [by apply (step_call _ 0 (ReqCreate ex_create))|].
  eapply rtc_l; [by apply (step_create _ 0 ex_create ex_info ex_app1); [| |apply ex_app1_run]|].
  eapply rtc_l; [by apply (step_answer _ 0 (ReqCreate ex_create) (RespCreated ex_info))|]. apply rtc_refl.
Qed.

Lemma answers_are_own_witness :
  RespCreated ex_info = RespErr shuttingDown ∨ answers (ReqCreate ex_create) (RespCreated ex_info).
Proof.
  destruct (answers_are_own ex_loops0 ex_loops1 ex_loops1 0 (ReqCreate ex_create) (RespCreated ex_info)
    eq_refl eq_refl ex_loops_run (rtc_refl _ _)) as [Hr _]; [reflexivity|exact Hr].
Defined.

(** ** fpd: the commands *)

Abbreviation ex_cmd := (Cli (Conn ex_app) Files).

Definition ex_flags (strings : list (string * string)) : FlagSet :=
  mkFlagSet (list_to_map strings) {[signedFlag := false]} ∅.
Definition ex_create_flags : FlagSet :=
  ex_flags [(fpdDaemonAddressFlag, "127.0.0.1:12581"); (commissionRateFlag, "1"); (monikerFlag, "moniker");
    (identityFlag, "identity"); (websiteFlag, "site"); (securityContactFlag, "contact"); (detailsFlag, "details");
    (keyNameFlag, ""); (chainIdFlag, "chain"); (passphraseFlag, "pw"); (hdPathFlag, ""); (fpEotsPkFlag, "")].

Definition ex_ctx : toy_ctx := mkClientCtx "/home/fpd" "" "" None "" "" "".

Definition ex_cmd0 : ex_cmd := mkCli (mkConn ex_app0) ex_home [].
Definition ex_cmd1 : ex_cmd := (runCommandCreateFP ex_ctx ex_create_flags [] ex_cmd0).2.

Lemma ex_cmd_run : runCommandCreateFP ex_ctx ex_create_flags [] ex_cmd0 = (Ok tt, ex_cmd1).
Proof. unfold ex_cmd1. run. Qed.


Lemma fpd_reads_declared_flags_witness :
  cmd_RunE (CommandLsFP (C := Conn ex_app)) ex_ctx ex_create_flags [] ex_cmd0 =
  cmd_RunE (CommandLsFP (C := Conn ex_app)) ex_ctx (ex_flags [(fpdDaemonAddressFlag, "127.0.0.1:12581")]) [] ex_cmd0.
Proof.
  apply (fpd_reads_declared_flags ex_dc "/home/fpd" "commit" 20);
    [unfold FpdCmd.commands; rewrite !elem_of_cons; tauto|repeat constructor|reflexivity].
Defined.

Lemma export_never_succeeds_witness :
  (Execute ex_ctx (CommandExportFP (C := Conn ex_app) "/home/fpd") ex_create_flags [] ex_cmd0).1 =
    Fatal "index out of range".
Proof.
  destruct (export_never_succeeds (C := Conn ex_app) "/home/fpd" ex_ctx ex_create_flags [] ex_cmd0) as [_ Hf].
  eapply Hf; vm_compute; reflexivity.
Defined.

Definition ex_keys_flags : FlagSet := ex_flags [("keyring-backend", "file")].
Definition ex_cmd2 : ex_cmd := (keysAddPostRun ex_ctx ex_keys_flags ["new"] ex_cmd0).2.

Lemma keys_add_updates_config_witness :
  ∃ cfg, LoadConfig "/home/fpd" (cli_fs ex_cmd2) = Ok cfg ∧ bbn_Key (BabylonConfig_ cfg) = "new" ∧
    bbn_KeyringBackend (BabylonConfig_ cfg) = "file".
Proof.
  pose proof (keys_add_updates_config ex_ctx ex_keys_flags "new" ex_cmd0 ex_cmd2
    ltac:(unfold ex_cmd2; run)) as Hk.
  assert (LoadConfig "/home/fpd" (cli_fs ex_cmd0) = Ok (defaultSettings ex_dc "/home/fpd")) as Hl
    by (vm_compute; reflexivity).
  change (cx_HomeDir ex_ctx) with "/home/fpd" in Hk. rewrite Hl in Hk. destruct Hk as (backend & Hb & Hk).
  assert (fs_GetString "keyring-backend" ex_keys_flags = Ok "file") as Hf by (vm_compute; reflexivity).
  rewrite Hf in Hb. injection Hb as <-. eexists. split; [exact Hk|]. split; reflexivity.
Defined.

Definition ex_tx_files : Files := fl_write "/tx.json" (Data [Byte.x61]) ex_home.

Lemma validate_signed_spec_witness :
  Forall2 msg_valid [([Byte.x61], [Byte.x61])] [[Byte.x61]].
Proof.
  refine (proj2 (proj1 (validate_signed_spec "/tx.json" ex_tx_files [([Byte.x61], [Byte.x61])] [[Byte.x61]] _ _ _) _));
    [vm_compute; reflexivity|reflexivity|simpl; lia|vm_compute; reflexivity].
Defined.

(** ** The start of fpd, the servers and the staking queries *)

Definition ex_start_flags : FlagSet :=
  ex_flags [(fpEotsPkFlag, ""); (rpcListenerFlag, "127.0.0.1:7000"); (passphraseFlag, "")].

Abbreviation ex_proc := (FpdStart.proc (W := World) (C := Conn toy_manager) (Rnd := Z) (F := Files)).
Definition ex_proc0 : ex_proc := mkProc ex_home ex_world (mkConn ex_em) 97%Z.

Definition ex_start : M ex_proc (Config * FinalityProviderApp World (Conn toy_manager) mem_db (gmap string Byte.byte) Z) :=
  runStartCmd (λ _, Ok tt) (λ _, Ok tt) 20 (Ok tt) ex_ctx ex_start_flags [].

Definition is_ok {A} (o : outcome A) : bool := match o with Ok _ => true | _ => false end.

Lemma started_daemon_config_witness :
  ∃ cfg app p, ex_start ex_proc0 = (Ok (cfg, app), p) ∧ valid_config cfg ∧ RpcListener cfg = "127.0.0.1:7000".
Proof.
  assert (is_ok (ex_start ex_proc0).1 = true) as Hok by (vm_compute; reflexivity).
  destruct (ex_start ex_proc0) as [[[cfg app]|e|m|] p] eqn:Hrun; try discriminate Hok.
  exists cfg, app, p. split; [reflexivity|].
  destruct (started_daemon_config (λ _, Ok tt) (λ _, Ok tt) 20 (Ok tt) ex_ctx ex_start_flags [] ex_proc0 cfg app p Hrun)
    as (Hv & _ & _ & _ & l & Hl & Hr).
  assert (fs_GetString rpcListenerFlag ex_start_flags = Ok "127.0.0.1:7000") as Hf by (vm_compute; reflexivity).
  rewrite Hf in Hl. injection Hl as <-. split; [exact Hv|]. apply Hr. discriminate.
Defined.

Definition ex_served : Server := (RunUntilShutdown (Some DefaultFpMetricsConfig) "127.0.0.1:7000" NewServer).2.

Lemma server_closes_what_it_opened_witness : all_closed (reverse (sv_events ex_served)).
Proof.
  destruct (server_closes_what_it_opened DefaultFpMetricsConfig "127.0.0.1:7000" (Ok tt) ex_served
    ltac:(unfold ex_served; run)) as [Hc _].
  apply Hc. left. reflexivity.
Defined.

Lemma all_providers_are_listed_witness :
  (QueryFinalityProviders 3 ex_world).1 = Ok (toy_providers ex_world).
Proof.
  destruct (all_providers_are_listed 3 ex_world) as (w' & Hr & _); [vm_compute; lia|]. rewrite Hr. reflexivity.
Defined.
