(* ===== verification/ThreadExamples.v ===== *)
(** * ThreadExamples: the goroutines on concrete schedules

    Runs of the scheduler of [FpSchedule] in the environment of [SampleChain],
    from the configuration before the first start, and the theorems of
    [FpThreads] and [FpRemoval] on them; a run of the sequential model as a
    schedule, by [FpSequential]; and the setters of [FpStateLock]. *)

From stdpp Require Import base gmap list list_numbers strings pretty.
From Stdlib Require Import ZArith Lia Strings.Byte.
From S2P Require Import Prelude Errors Monad Types Kvdb SampleEnv FpStore PubRandStore Metrics EotsManager EotsRpc.
From S2P Require Import Config ClientController Poller FpState FpStateLock Returns Voting FastSync FpInstance FpManager.
From S2P Require Import FpThreads FpRemoval FpSequential FpSchedule ChainKeyring App SampleChain Examples.

Abbreviation th_conf := (conf World toy_manager mem_db).

(** A chain at height 20 that moves on to 25 while the provider starts; the
    provider is slashed, and its votes are refused. *)
Definition th_world : World :=
  mkWorld 20 0 1 true false ∅ (Some ex_slashed_text) [(20, 0); (20, 0); (25, 20)]%Z.

(** The manager before its first start, with an interval of status updates *)
Definition th_cfg (interval : Z) : Config :=
  mkConfig "info" "babylon" 10 100 5 interval second second 3 second 10 3 "127.0.0.1:12582" second "signet"
    SigNetParams (mkChainPollerConfig 4 second 1 true) (mkDBConfig "/home/fpd/data" "fpd.db" true false 0 0)
    ex_bbn "127.0.0.1:12581" (Some DefaultFpMetricsConfig).

Definition th_idle (interval : Z) (w : World) : th_conf :=
  mkConf (mkShared (th_cfg interval) w (mst_e (app_m ex_app2)) (app_db ex_app2) NewFpMetrics [] ∅ None false false) ∅.

(** The first start: goroutine 0 is the caller, 1 and 2 the monitors, 3 the
    poller and 4 to 6 the loops of the instance at address 0. *)
Definition th_start : list move := [MvCall 0 1 2 ex_uid "pw"; MvNew 0 0; MvStart 0 3 4 5 6].

(** Randomness is committed, the provider lags behind, and the fast sync
    reports that it is slashed. *)
Definition th_report : list move := [MvTurn 5 EvRandTick; MvTurn 6 EvLagTick; MvTurn 4 EvLagging].

Lemma th_block_from_chain h :
  in_chain h = true → (h <= 25)%Z → from_chain (W := World) (toy_block th_world h).
Proof.
  intros Hc Hh. set (w := mkWorld 25 0 1 true false ∅ None []).
  exists h, w, w. simpl. rewrite Hc. unfold answer, toy_block. simpl. by destruct (Z.leb_spec h 25); [|lia].
Qed.

Ltac moves_wf :=
  repeat (apply Forall_cons_2 || apply Forall_nil_2);
  first [exact I | split; [exact I|exact I] | split; [apply th_block_from_chain; reflexivity || discriminate|in_range]].

(** The configuration a run leads to *)
Definition th_run (mvs : list move) (c : th_conf) : th_conf := default c (runs 20 mvs c).

Lemma th_reaches mvs c : is_Some (runs 20 mvs c) → Forall move_wf mvs → reaches 20 c (th_run mvs c).
Proof. intros [c' Hr] Hw. eapply runs_reaches; [done|]. unfold th_run. by rewrite Hr. Qed.

(** A run is possible, decided by running it. *)
Ltac runs_ok :=
  match goal with |- is_Some ?x =>
    let H := fresh in assert (match x with Some _ => true | None => false end = true) as H by (vm_compute; reflexivity);
    destruct x; [eexists; reflexivity|discriminate] end.

(** Two votes and a commitment, on a chain that accepts them *)
Definition th_votes : list move :=
  th_start ++ [MvTurn 5 EvRandTick; MvTurn 4 (EvBlock (toy_block th_world 21)); MvPush 3;
               MvTurn 4 (EvBlock (toy_block th_world 22))].
Definition th_good : World := mkWorld 20 0 1 false false ∅ None [(20, 0); (20, 0); (25, 20)]%Z.
Definition th_c1 : th_conf := th_run th_votes (th_idle second th_good).

Lemma th_c1_reached : reaches 20 (th_idle second th_good) th_c1.
Proof. apply th_reaches; [runs_ok|moves_wf]. Qed.

Lemma th_c1_signed :
  sh_signed (cf_sh th_c1) =
    [(21, getMsgToSignForVote 21 (toy_hash 21)); (22, getMsgToSignForVote 22 (toy_hash 22))]%Z.
Proof. vm_compute. reflexivity. Qed.

#[local] Opaque th_c1.

Lemma threads_history_is_safe_witness :
  ∃ fp', fp_lookup (sh_db (cf_sh th_c1)) ex_uid = Some fp' ∧ (LastVotedHeight fp' <= LastProcessedHeight fp')%Z.
Proof.
  destruct (threads_history_is_safe 20 (th_idle second th_good) th_c1 ex_uid (ex_fp REGISTERED))
    as (_ & (fp' & Hl & _ & _ & Hle) & _); [apply th_c1_reached|apply ex_app2_wf|apply ex_app2_fp|].
  exists fp'. exact (conj Hl Hle).
Defined.

Lemma threads_never_equivocate_witness :
  Forall (λ e, e.1 = 21%Z → e.2 = getMsgToSignForVote 21 (toy_hash 21)) (sh_signed (cf_sh th_c1)).
Proof.
  apply Forall_forall. intros [h m] Hin Hh. simpl in Hh |- *. subst h.
  apply (threads_never_equivocate 20 (th_idle second th_good) th_c1 21 m (getMsgToSignForVote 21 (toy_hash 21))).
  - apply th_c1_reached.
  - constructor.
  - exact Hin.
  - rewrite th_c1_signed. constructor.
Defined.

(** The monitor of critical errors receives the report and begins the removal;
    the loop then takes a block from the channel, its vote is refused, and it
    is at the send of a second report. *)
Definition th_hang : list move :=
  th_start ++ th_report ++ [MvReceive 1 4; MvRemove 1; MvRemove 1; MvTurn 4 (EvBlock (toy_block th_world 21))].
Definition th_c2 : th_conf := th_run th_hang (th_idle 0 th_world).

Lemma th_c2_reached : reaches 20 (th_idle 0 th_world) th_c2.
Proof. apply th_reaches; [runs_ok|moves_wf]. Qed.

Definition th_error : error :=
  Wrap "failed to send finality signature to the consumer chain: " (ErrorString ex_slashed_text) "".

Lemma th_pool_c2 :
  cf_pool th_c2 =
  {[0 := TDone; 1 := TCrit (CRemove (RmPoller 0 3)); 2 := TStat SSelect; 3 := TPoller true false;
      4 := TLoop 0 SigLoop (LReport (mkCriticalError th_error ex_uid)); 5 := TLoop 0 RandLoop LSelect;
      6 := TLoop 0 LagLoop LSelect]}.
Proof. vm_compute. reflexivity. Qed.

Lemma th_c2_started : sh_started (cf_sh th_c2) = true.
Proof. vm_compute. reflexivity. Qed.

#[local] Opaque th_c2.

Lemma th_c2_hung : hung 0 4 1 SigLoop (mkCriticalError th_error ex_uid) th_c2.
Proof.
  split_and!; rewrite ?th_pool_c2; [reflexivity|by eexists; split; [reflexivity|]|apply th_c2_started|].
  intros m pc Hm. repeat (apply lookup_insert_Some in Hm as [[? ?]|[_ Hm]]; [congruence|]).
  by apply lookup_singleton_Some in Hm as [_ ?].
Qed.

Lemma report_blocks_removal_witness :
  reaches 20 (th_idle 0 th_world) th_c2 ∧
  ∃ x, cf_pool th_c2 !! 1 = Some x ∧ waits_for x = Some 0.
Proof.
  split; [exact th_c2_reached|].
  apply (report_blocks_removal 20 th_c2 th_c2 0 4 1 SigLoop _ th_c2_hung). apply rtc_refl.
Defined.


(** The removal without the second report *)
Definition th_quiet : list move := th_start ++ th_report ++ [MvReceive 1 4; MvRemove 1; MvRemove 1].
Definition th_c3 : th_conf := th_run th_quiet (th_idle 0 th_world).

Definition th_P3 : gmap nat goroutine :=
  {[0 := TDone; 1 := TCrit (CRemove (RmPoller 0 3)); 2 := TStat SSelect; 3 := TPoller true false;
      4 := TLoop 0 SigLoop LSelect; 5 := TLoop 0 RandLoop LSelect; 6 := TLoop 0 LagLoop LSelect]}.

Lemma th_pool_c3 : cf_pool th_c3 = th_P3.
Proof. vm_compute. reflexivity. Qed.

Lemma th_c3_object : ∃ o, sh_heap (cf_sh th_c3) !! 0 = Some o ∧ o_quit o = false.
Proof.
  assert (match sh_heap (cf_sh th_c3) !! 0 with Some o => negb (o_quit o) | None => false end = true) as Ho
    by (vm_compute; reflexivity).
  destruct (sh_heap (cf_sh th_c3) !! 0) as [o|]; [|discriminate]. exists o. split; [reflexivity|].
  by apply negb_true_iff.
Qed.

#[local] Opaque th_c3.

Lemma removal_completes_witness :
  ∃ c, reaches 20 th_c3 c ∧ cf_pool c !! 1 = Some (TCrit CSelect) ∧ sh_fpIns (cf_sh c) = None.
Proof.
  destruct th_c3_object as (o & Ho & Hq). pose proof th_pool_c3 as Hp. destruct th_c3 as [sh P]. simpl in Ho, Hp. subst P.
  destruct (removal_completes 20 sh th_P3 1 0 3 o eq_refl eq_refl Ho Hq) as (c & Hr & Hc & Hi & _).
  - intros t l pc Hm. unfold th_P3 in Hm. repeat (apply lookup_insert_Some in Hm as [[? ?]|[_ Hm]]; [congruence|]).
    apply lookup_singleton_Some in Hm as [_ ?]. congruence.
  - exact (ex_intro _ c (conj Hr (conj Hc Hi))).
Defined.

(** Both monitors have found the provider slashed. *)
Definition th_race : list move := th_start ++ th_report ++ [MvDecide 2; MvReceive 1 4; MvApply 2].
Definition th_c4 : th_conf := th_run th_race (th_idle second th_world).

Lemma th_c4_reached : reaches 20 (th_idle second th_world) th_c4.
Proof. apply th_reaches; [runs_ok|moves_wf]. Qed.

Definition th_P4 : gmap nat goroutine :=
  {[0 := TDone; 1 := TCrit (CRemove RmCheck); 2 := TStat (SRemove RmCheck); 3 := TPoller false false;
      4 := TLoop 0 SigLoop LSelect; 5 := TLoop 0 RandLoop LSelect; 6 := TLoop 0 LagLoop LSelect]}.

Lemma th_pool_c4 : cf_pool th_c4 = th_P4.
Proof. vm_compute. reflexivity. Qed.

Lemma th_c4_object :
  sh_fpIns (cf_sh th_c4) = Some 0 ∧
  ∃ o s', sh_heap (cf_sh th_c4) !! 0 = Some o ∧ Stop (sh_st (o_ins o) (cf_sh th_c4)) = (Ok tt, s').
Proof.
  split; [vm_compute; reflexivity|].
  assert (match sh_heap (cf_sh th_c4) !! 0 with
          | Some o => match (Stop (sh_st (o_ins o) (cf_sh th_c4))).1 with Ok _ => true | _ => false end
          | None => false end = true) as Ho by (vm_compute; reflexivity).
  destruct (sh_heap (cf_sh th_c4) !! 0) as [o|]; [|discriminate].
  exists o, (Stop (sh_st (o_ins o) (cf_sh th_c4))).2. split; [reflexivity|].
  destruct (Stop _) as [[[]| | |] s'] in Ho |- *; [reflexivity|discriminate..].
Qed.

#[local] Opaque th_c4.

Lemma monitors_race_on_removal_witness :
  reaches 20 (th_idle second th_world) th_c4 ∧
  (∃ c1, reaches 20 th_c4 c1 ∧ step 20 c1 (Ends "failed to stop the finality provider instance")) ∧
  ∃ c2, reaches 20 th_c4 c2 ∧ sh_fpIns (cf_sh c2) = None ∧ cf_pool c2 !! 4 = Some (TLoop 0 SigLoop LSelect).
Proof.
  split; [exact th_c4_reached|]. destruct th_c4_object as (Hi & o & s' & Ho & Hs). pose proof th_pool_c4 as Hp.
  destruct th_c4 as [sh P]. simpl in Hi, Ho, Hs, Hp. subst P.
  exact (monitors_race_on_removal 20 sh th_P4 1 2 4 0 SigLoop LSelect o s' eq_refl eq_refl eq_refl Hi Ho Hs).
Defined.

(** The status monitor has found voting power before the slashing, and writes
    after it. *)
Definition th_stale : list move :=
  th_start ++ [MvTurn 5 EvRandTick; MvTurn 6 EvLagTick; MvDecide 2; MvTurn 4 EvLagging; MvReceive 1 4; MvApply 2].
Definition th_refusing : World :=
  mkWorld 20 0 1 false false ∅ (Some ex_slashed_text) [(20, 0); (20, 0); (25, 20)]%Z.
Definition th_c5 : th_conf := th_run th_stale (th_idle second th_refusing).

Lemma th_c5_reached : reaches 20 (th_idle second th_refusing) th_c5.
Proof. apply th_reaches; [runs_ok|moves_wf]. Qed.

Lemma th_c5_status :
  cf_pool th_c5 !! 1 = Some (TCrit (CRemove RmCheck)) ∧
  Status <$> fp_lookup (sh_db (cf_sh th_c5)) ex_uid = Some ACTIVE.
Proof. split; vm_compute; reflexivity. Qed.

(** ** The sequential model *)

(** The manager before its first start, as the sequential model has it *)
Definition th_seq0 : MSt World toy_manager mem_db :=
  mkMSt (NewFinalityProviderManager (th_cfg second)) th_good (mst_e (app_m ex_app2)) (app_db ex_app2) NewFpMetrics [].

(** A start, a commitment of randomness, a vote and a status update *)
Definition th_turns : list whole_turn :=
  [WStart ex_uid "pw"; WTurn EvRandTick; WTurn (EvBlock (toy_block th_world 21)); WTick].
Definition th_seq1 : MSt World toy_manager mem_db := (run_turns 20 th_turns th_seq0).2.

Lemma th_seq1_run : run_turns 20 th_turns th_seq0 = (Ok tt, th_seq1).
Proof. run. Qed.

Lemma th_seq1_signed : mst_signed th_seq1 = [(21, getMsgToSignForVote 21 (toy_hash 21))]%Z.
Proof. vm_compute. reflexivity. Qed.

#[local] Opaque th_seq1.


(** ** The setters *)

Lemma th_holds : holds ex_uid (ex_fp REGISTERED) ∅ (app_db ex_app2).
Proof. split; [exact ex_app2_wf|exact ex_app2_abs]. Qed.

Lemma th_encodes : encodes (ex_fp REGISTERED).
Proof. intros st v p. by eexists. Qed.

(** The status monitor sets ACTIVE while a vote for height 21 is recorded:
    the memory is written, then the vote in full, then the store. *)
Definition th_actions : list action :=
  [Locked (WStatus ACTIVE); Locked (WVoted 21); Stored (WVoted 21); Stored (WStatus ACTIVE)].

Lemma setters_linearize_witness :
  ∃ fps1 fps2, acts th_actions (NewFpState (ex_stored REGISTERED) (app_db ex_app2)) = (Ok tt, fps1) ∧
    acts (setters [WStatus ACTIVE; WVoted 21]) (NewFpState (ex_stored REGISTERED) (app_db ex_app2)) = (Ok tt, fps2) ∧
    getStoreFinalityProvider fps1 = getStoreFinalityProvider fps2.
Proof.
  destruct (setters_linearize (ex_stored REGISTERED) (ex_fp REGISTERED) ∅ (app_db ex_app2) [WStatus ACTIVE] [WVoted 21]
    th_actions) as (fps1 & fps2 & fp' & H1 & H2 & Heq & _).
  - repeat constructor.
  - apply Forall_cons_2; [split; [reflexivity|in_range]|apply Forall_nil_2].
  - apply shuffle_l, shuffle_r, shuffle_r, shuffle_l, shuffle_nil.
  - exact th_encodes.
  - exact th_holds.
  - reflexivity.
  - exact (ex_intro _ fps1 (ex_intro _ fps2 (conj H1 (conj H2 Heq)))).
Defined.

Lemma status_setters_can_disagree_witness :
  ∃ l fps fp', shuffle (setters [WStatus SLASHED]) (setters [WStatus ACTIVE]) l ∧
    acts l (NewFpState (ex_stored REGISTERED) (app_db ex_app2)) = (Ok tt, fps) ∧
    s_Status (getStoreFinalityProvider fps) = ACTIVE ∧
    fp_lookup (fps_s fps) ex_uid = Some fp' ∧ Status fp' = SLASHED.
Proof.
  exact (status_setters_can_disagree (ex_stored REGISTERED) (ex_fp REGISTERED) ∅ (app_db ex_app2) SLASHED ACTIVE
    th_encodes th_holds).
Defined.
